(* ===== verification/_CoqProject ===== *)
-Q . S2P
Prelude.v
Monad.v
Types.v
Machine.v
CoreBase.v
Contract.v
HandlerLogic.v
SvcSession.v
SvcSecurity.v
SvcMaintenance.v
SvcData.v
SvcPeriodic.v
SvcFlash.v
SvcIo.v
SvcMem.v
Core.v
CoreDispatch.v
CoreProcess.v
CoreApi.v
CoreInit.v
Tasks.v
Storm.v
IsoTp.v
IsoTpTx.v
IsoTpRx.v
IsoTpRef.v
IsoTpLink.v
IsoTpSend.v
IsoTpReasm.v
IsoTpRecv.v
IsoTpPeer.v
HostSim.v
Deploy.v
Vcan.v
FreeRtos.v
PeriodicRead.v
Zephyr.v
ZephyrCan.v
Demo.v
Witness.v
DeployWitness.v
