(* ===== verification/Prelude.v ===== *)
(** * udslib: a verification development

    udslib is a UDS (ISO 14229) diagnostic stack in C: a server core that
    dispatches requests to service handlers, a small client side, and an ISO-TP
    (ISO 15765-2) transport that carries its messages over CAN. This library
    models all of it and proves what makes it correct.

    ** The program and where it is modelled

    A request travels: CAN frame - [uds_isotp_rx_callback] - reassembly -
    [uds_input_sdu] - [handle_request] - a service handler - the application's
    callback - [uds_send_response] or [uds_send_nrc] - [fn_tp_send], which is
    [uds_isotp_send] - CAN frames. [uds_process] and [uds_tp_isotp_process] are
    called from the application's main loop.

    - [Prelude] (this file): machine integers as [Z] with their wrap-around
      written out, byte strings, the tactics and lemmas everything shares.
    - [Monad]: C functions as state transformers that may fault; [wp m Q s], total
      correctness: no fault, an end, and [Q] there. [Machine]: reading and writing
      the context, request bytes and memory blocks, calling the application; every
      access is checked, and an access outside a block, a NULL call, an over-wide
      shift or the read of an unwritten byte is a [Fault].
    - [Types]: [include/uds/uds_config.h], [uds_core.h], [src/core/uds_internal.h]:
      constants, [uds_ctx] (every field of [uds_ctx_t] but the [config] pointer,
      which functions take as argument), [uds_config], service and DID tables, the
      machine state [uds_state] and the ghost trace of external calls.
    - [CoreBase]: the shared helpers of [src/core/uds_core.c]: logging, DID search,
      session and security checks, address parsing, the two ways to send.
    - [SvcSession], [SvcSecurity], [SvcMaintenance], [SvcData], [SvcPeriodic],
      [SvcFlash], [SvcIo], [SvcMem]: the handlers of [src/services/], one file each
      (0x2A of [uds_service_data.c] is [SvcPeriodic]).
    - [Core]: the service table, [handle_request], [execute_handler], [uds_init],
      [uds_process], [uds_client_request], [uds_input_sdu].
    - [Tasks]: calls of several tasks as steps on the shared state, with the mutex.
      [Storm]: two stacks on one connection that answer each other.
    - [IsoTp] (sending) and [IsoTpRx] (receiving): [src/transport/uds_tp_isotp.c].
      The transport is a state [iso_env C] over the state [C] of a CAN driver, and
      the core runs on it as its application state. [IsoTpTx] and [IsoTpRef] hold
      the reference segmentation and the reference receiver.
    - [HostSim]: [examples/host_sim/main.c]. [Deploy]: [examples/client_demo],
      [examples/pro_flash_tool.c], [examples/bare_metal]. [Vcan]: the datagrams the
      simulator and the client exchange, and both programs' [main]. [FreeRtos]:
      [examples/freertos_demo], but for its receiving task. [Zephyr]:
      [src/zephyr/] and [examples/zephyr_uds_server] on the native transport,
      [ZephyrCan] the same server on the fallback transport, whose configuration lacks
      a callback the contract asks for; [PeriodicRead] says what that changes.
    - [Demo], [Witness], [DeployWitness]: a small ECU that keeps every contract, and
      each theorem with hypotheses applied to it or to an example program.

    ** Interfaces

    [Contract] states them as classes. [ConfigOk]: what the stack relies on from
    the application (mandatory callbacks exist, no callback faults, a callback
    with an output buffer respects its length, the transport returns 0 or a
    negative code, key callbacks grant only levels below 32, [fn_periodic_read] is
    there although the header marks it optional). [HandlerSpec]: what
    the core relies on from a handler; every handler has an instance, and so may
    the application's own services ([UsersOk]). [ClientOk]: what a response
    callback may do. [uds_inv] is the invariant all of them keep: session 1 to 32,
    level 0 to 31, every numeric field of the context in the range of its C type
    ([ctx_typed]), tables of eight slots, buffers of their configured size.
    [HandlerLogic] has the rules and the tactic [hsteps] that runs a handler
    against an arbitrary application in this contract. [IsoTpLink] discharges the
    transport's part of it for [uds_isotp_send], [Zephyr] for the native socket.
    [driver_ok] of [IsoTpTx] is what the transport in turn relies on from a CAN
    driver, for frames up to the longest it sends ([max_dl]: 8 bytes, or 64 with
    CAN-FD); [ZephyrCan] discharges it for the Zephyr glue.

    ** What is proved

    - Whole stack: no undefined behaviour and the invariant kept over any sequence
      of calls ([CoreApi.api_safe]), from power-up on ([CoreInit.power_up_typed]),
      and of frames, ticks and calls ([IsoTpLink.stack_safe]); no unlocking without
      an accepted key ([CoreApi.no_unlock_without_key]).
    - Tasks: the calls that take the mutex are serialisable and end
      ([Tasks.tasks_serialisable], [tasks_progress]), but an [uds_process] that gives
      a deferred request up keeps the mutex, and nothing moves again
      ([give_up_keeps_mutex]); the calls that take none race ([unlocked_send_race]).
    - Two stacks: a message without a service makes them refuse each other's refusals
      for ever ([Storm.nrc_storm]).
    - Core: one lock, one unlock and at most one answer per SDU
      ([CoreApi.input_effects], [busy_exact], [client_exchange]); the order of the
      checks ([CoreDispatch.request_check_order]); deferral, from
      [response_pending_opens_supervision] to [deferred_completes]; [uds_process] against its reference,
      S3, P2 and the scheduler ([CoreProcess]); initialisation ([CoreInit]).
    - Services: each handler's exact effect ([session_control_exact] and its like
      in the [Svc] files); 0x27 refines an access state machine and bounds the
      rate of guesses ([SvcSecurity]); 0x2A implements a finite map
      ([SvcPeriodic]); 0x22 reads the table as a reference reader does and returns
      what 0x2E wrote ([SvcData]); block order of 0x36 ([SvcFlash]).
    - Transport: [IsoTpTx] defines the reference segmentation; what is sent is a
      prefix of it, paced by flow control ([IsoTpSend]); received, it gives the SDU
      back ([IsoTpReasm]); any sequence of frames is received as the reference
      receiver of [IsoTpRef] receives it ([IsoTpRecv.rx_refines]). [IsoTpPeer] joins two nodes by FIFO channels: under any
      interleaving the receiving core hears nothing, then exactly the SDU; with no
      block limit it always arrives; with the default block size of 8 a long SDU
      never does. No timeout is supervised ([IsoTpSend.waits_for_ever]).
    - Example programs: the Zephyr server on the fallback transport, from power-up on,
      keeps the invariant under any frames and turns but for two traps, a due periodic
      identifier and an awaited consecutive frame of length 0
      ([ZephyrCan.fallback_safe]); what one example program sends the other receives
      ([Vcan.vcan_roundtrip]); in one recorded session simulator and client, main to
      main, exchange session and identification number ([demo_over_udp]); a client nobody answers ends
      ([Vcan.client_gives_up]); the native transport keeps the core's contract
      ([Zephyr.native_transport]).
    - Where the code departs from what it means to do, a theorem says how:
      [IsoTpPeer.link_block_stall], [Zephyr.zephyr_server_null_call],
      [ZephyrCan.fallback_null_call], [ZephyrCan.fallback_empty_cf],
      [ZephyrCan.early_frame_fault], [Vcan.vcan_overread],
      [HostSim.host_remote_fault], [IsoTpReasm.rx_ff_overflow],
      [IsoTpReasm.rx_cf_empty_overflow], [IsoTpReasm.short_rx_buffer_overflow],
      [Tasks.give_up_keeps_mutex], [Tasks.unlocked_send_race], [Storm.nrc_storm],
      [SvcPeriodic.periodic_stop_zero_underflows], [Deploy.flash_tool_rejected],
      and clauses of [vcan_roundtrip], [busy_exact], [process_lock_discipline],
      [comm_control_exact], [write_memory_exact], [transfer_data_exact].

    ** Fuel and bounds

    The loops of the code run over a known range ([mfor], [mfor_until]) or an
    array ([array_find], as many steps as entries may be read). [rdbi_loop] gets
    the length of the request as fuel and consumes two bytes a step;
    [cf_frames] gets the number of bytes and cuts at least one a frame. No theorem
    leaves [OutOfFuel] possible. SDUs over the transport are at most 4095 bytes to
    receive (twelve bits of length) and 1024 to send (the pending buffer).
    [stack_safe] takes frames of one to 64 bytes, those of more than eight with a
    receive buffer of at least 125 bytes; with less, and for empty frames, the
    overflow theorems of [IsoTpReasm] show what happens. A task takes at most six
    steps per call ([Tasks.steps_le]). The main loops of the example programs run for
    a list of turns given to the model; [client_loop] says whether it ended within
    them.

    ** Not modelled

    - A callback gets the context to read and does not re-enter the stack. In
      [Tasks] the calls are cut into the steps its scripts show (the body of
      [uds_input_sdu] is one step); data races inside a step and weak memory are
      left out, and [uds_tp_isotp.c], whose state no mutex protects, is run by one
      task.
    - Memory outside the blocks the configuration points to, pointer aliasing
      between them (buffers are distinct blocks, except that DIDs may share
      storage), and the text of log messages.
    - Socket calls, [printf], the Zephyr kernel: inputs and outputs of the model,
      or a record of calls with their documented results. The CAN driver's callback
      of the fallback transport runs between two steps of the main loop, never inside
      one. Callback results are never [INT_MIN] (negated for the response code). [atoi] of a number an [int] cannot hold is taken as that number.
    - [vCANRxTask] of [examples/freertos_demo]: not a C expression.
      [examples/generated]: output of a
      tool, includes a header the repository does not have. [include/uds/uds_tp.h],
      [uds_version.h]: constants nothing uses. Tests, Python and Lua tools. What is left
      of the mapped files are comments, prototypes and preprocessor lines. *)

From stdpp Require Import base gmap list strings numbers.
From Stdlib Require Import ZArith Lia.

Open Scope Z_scope.

(** ** Machine integers

    A C unsigned integer of width [w] is a [Z] in [0, 2^w); every conversion to
    a narrower or wrapping type is written out with one of these. *)
Definition u8 (x : Z) : Z := x mod 256.
Definition u16 (x : Z) : Z := x mod 65536.
Definition u32 (x : Z) : Z := x mod 4294967296.

(** Most significant and least significant byte of a 16-bit value, as the code
    writes them: [(x >> 8) & 0xFF] and [x & 0xFF]. *)
Definition hi8 (x : Z) : Z := Z.land (Z.shiftr x 8) 255.
Definition lo8 (x : Z) : Z := Z.land x 255.

(** Big-endian assembly of a byte string, one [acc << 8 | byte] per byte. *)
Definition be_step (acc b : Z) : Z := Z.lor (u32 (Z.shiftl acc 8)) b.
Definition be_combine (bs : list Z) : Z := fold_left be_step bs 0.

(** The [n]-byte big-endian representation of [z]. *)
Fixpoint be_split (n : nat) (z : Z) : list Z :=
  match n with
  | O => []
  | S n' => be_split n' (z / 256) ++ [z mod 256]
  end.

(** What it is for a [Z] to be a byte. *)
Definition is_byte (b : Z) : Prop := 0 <= b < 256.

(** [write_at off bs l]: the block [l] after [memcpy] of [bs] at [off]. *)
Definition write_at (off : nat) (bs l : list Z) : list Z :=
  take off l ++ bs ++ drop (off + length bs) l.

(** ** Automation *)

Create HintDb uds.
Create Rewrite HintDb uds.

(** [lia] with divisions and moduli by constants turned into equations. *)
Ltac zlia := unfold u8, u16, u32, is_byte in *; Z.div_mod_to_equations; lia.

(** Case analysis on the boolean tests of [Z] and [bool] in the goal or in a
    hypothesis, turning each into the proposition it decides. *)
Ltac bool_prop :=
  repeat match goal with
  | H : (_ && _)%bool = true |- _ => apply andb_prop in H as [? ?]
  | H : (_ || _)%bool = false |- _ => apply orb_false_elim in H as [? ?]
  | H : negb _ = true |- _ => apply negb_true_iff in H
  | H : negb _ = false |- _ => apply negb_false_iff in H
  | H : (_ =? _) = true |- _ => apply Z.eqb_eq in H
  | H : (_ =? _) = false |- _ => apply Z.eqb_neq in H
  | H : (_ <? _) = true |- _ => apply Z.ltb_lt in H
  | H : (_ <? _) = false |- _ => apply Z.ltb_ge in H
  | H : (_ >? _) = true |- _ => rewrite Z.gtb_ltb in H; apply Z.ltb_lt in H
  | H : (_ >? _) = false |- _ => rewrite Z.gtb_ltb in H; apply Z.ltb_ge in H
  | H : (_ <=? _) = true |- _ => apply Z.leb_le in H
  | H : (_ <=? _) = false |- _ => apply Z.leb_gt in H
  end.

(** ** Lemmas on machine integers *)

Lemma u8_range x : 0 <= u8 x < 256.
Proof. zlia. Qed.

Lemma u16_range x : 0 <= u16 x < 65536.
Proof. zlia. Qed.

Lemma u32_range x : 0 <= u32 x < 4294967296.
Proof. zlia. Qed.

Lemma u8_small x : 0 <= x < 256 -> u8 x = x.
Proof. apply Z.mod_small. Qed.

Lemma u16_small x : 0 <= x < 65536 -> u16 x = x.
Proof. apply Z.mod_small. Qed.

Lemma u32_small x : 0 <= x < 4294967296 -> u32 x = x.
Proof. apply Z.mod_small. Qed.

#[export] Hint Resolve u8_range u16_range u32_range : uds.
#[export] Hint Rewrite u8_small u16_small u32_small using lia : uds.

Lemma land_mask x n : 0 <= n -> Z.land x (Z.ones n) = x mod 2 ^ n.
Proof. intros. by rewrite Z.land_ones. Qed.

Lemma land_255 x : Z.land x 255 = x mod 256.
Proof. exact (land_mask x 8 ltac:(lia)). Qed.

Lemma land_127 x : Z.land x 127 = x mod 128.
Proof. exact (land_mask x 7 ltac:(lia)). Qed.

Lemma land_15 x : Z.land x 15 = x mod 16.
Proof. exact (land_mask x 4 ltac:(lia)). Qed.

Lemma land_127_range x : 0 <= Z.land x 127 < 256.
Proof. rewrite land_127. zlia. Qed.

(** The high nibble of a byte, in place. *)
Lemma land_240 b : 0 <= b < 256 -> Z.land b 240 = b / 16 * 16.
Proof.
  intros Hb. assert (H : forallb (fun b => Z.land b 240 =? b / 16 * 16) (seqZ 0 256) = true) by by vm_compute.
  rewrite forallb_forall in H. apply Z.eqb_eq, H, list_elem_of_In, elem_of_seqZ. lia.
Qed.

Lemma shiftr_4 x : Z.shiftr x 4 = x / 16.
Proof. by rewrite Z.shiftr_div_pow2. Qed.

Lemma shiftr_8 x : Z.shiftr x 8 = x / 256.
Proof. by rewrite Z.shiftr_div_pow2. Qed.

Lemma shiftl_8 x : Z.shiftl x 8 = x * 256.
Proof. by rewrite Z.shiftl_mul_pow2. Qed.

(** [lor] of a multiple of 256 and a byte is their sum. *)
Lemma lor_byte a b : 0 <= b < 256 -> Z.lor (a * 256) b = a * 256 + b.
Proof.
  intros Hb. rewrite <- shiftl_8.
  symmetry. rewrite <- Z.lxor_lor, <- Z.add_nocarry_lxor; try done.
  all: apply Z.bits_inj'; intros i Hi; rewrite Z.land_spec, Z.bits_0, Z.shiftl_spec by lia;
    destruct (decide (i < 8)); [by rewrite (Z.testbit_neg_r a) by lia|];
    rewrite andb_comm, <- (Z.mod_small b (2 ^ 8)) by lia;
    by rewrite Z.mod_pow2_bits_high by lia.
Qed.

Lemma hi_lo8 x : 0 <= x < 65536 -> Z.lor (Z.shiftl (hi8 x) 8) (lo8 x) = x.
Proof.
  intros. unfold hi8, lo8. rewrite !land_255, shiftl_8, shiftr_8, lor_byte; zlia.
Qed.

Lemma hi8_byte x : is_byte (hi8 x).
Proof. unfold hi8. rewrite land_255. zlia. Qed.

Lemma lo8_byte x : is_byte (lo8 x).
Proof. unfold lo8. rewrite land_255. zlia. Qed.

#[export] Hint Resolve hi8_byte lo8_byte : uds.

(** ** Big-endian byte strings *)

Lemma length_be_split n z : length (be_split n z) = n.
Proof. revert z. induction n; intros z; simpl; [done|]. rewrite length_app, IHn; simpl; lia. Qed.

Lemma be_split_bytes n z : Forall is_byte (be_split n z).
Proof.
  revert z. induction n; intros z; simpl; [constructor|].
  apply Forall_app; split; [done|]. constructor; [zlia|constructor].
Qed.

Lemma be_combine_app bs b : be_combine (bs ++ [b]) = be_step (be_combine bs) b.
Proof. unfold be_combine. by rewrite fold_left_app. Qed.

Lemma be_step_small acc b :
  0 <= acc < 2 ^ 24 -> is_byte b -> be_step acc b = acc * 256 + b.
Proof.
  intros Ha Hb. unfold be_step. rewrite shiftl_8, u32_small by lia. by apply lor_byte.
Qed.

(** Assembling the big-endian bytes of a value that fits gives the value. *)
Lemma be_combine_split n z :
  (n <= 4)%nat -> 0 <= z < 2 ^ (8 * Z.of_nat n) -> be_combine (be_split n z) = z.
Proof.
  revert z. induction n as [|n IH]; intros z Hn Hz; [cbn in *; lia|].
  cbn [be_split]. rewrite be_combine_app.
  assert (Hp : 2 ^ (8 * Z.of_nat (S n)) = 256 * 2 ^ (8 * Z.of_nat n)).
  { replace (8 * Z.of_nat (S n)) with (8 + 8 * Z.of_nat n) by lia.
    by rewrite Z.pow_add_r by lia. }
  assert (2 ^ (8 * Z.of_nat n) <= 2 ^ 24) by (apply Z.pow_le_mono_r; lia).
  assert (Hq : 0 <= z / 256 < 2 ^ (8 * Z.of_nat n)).
  { split; [apply Z.div_pos; lia|]. apply Z.div_lt_upper_bound; lia. }
  rewrite IH by (auto; lia). rewrite be_step_small; zlia.
Qed.

(** Whatever the bytes, the assembled value fits its width. *)
Lemma be_combine_bound bs :
  Forall is_byte bs -> (length bs <= 4)%nat -> 0 <= be_combine bs < 2 ^ (8 * Z.of_nat (length bs)).
Proof.
  induction bs as [|b bs IH] using rev_ind; intros Hb Hl; [cbn; lia|].
  apply Forall_app in Hb as [Hbs Hb]. inversion Hb; subst.
  rewrite length_app in *. cbn [length] in *.
  specialize (IH Hbs ltac:(lia)).
  assert (2 ^ (8 * Z.of_nat (length bs)) <= 2 ^ 24) by (apply Z.pow_le_mono_r; lia).
  rewrite be_combine_app, be_step_small by (auto; lia).
  replace (8 * Z.of_nat (length bs + 1)) with (8 + 8 * Z.of_nat (length bs)) by lia.
  rewrite Z.pow_add_r by lia. zlia.
Qed.

(** ** Lemmas on blocks of bytes *)

Lemma length_write_at off bs l :
  (off + length bs <= length l)%nat -> length (write_at off bs l) = length l.
Proof. intros. unfold write_at. rewrite !length_app, length_take, length_drop. lia. Qed.

Lemma write_at_nil off l : write_at off [] l = l.
Proof. unfold write_at. cbn [length app]. rewrite Nat.add_0_r. apply take_drop. Qed.

(** Reading back what was written. *)
Lemma read_write_at off bs l :
  (off + length bs <= length l)%nat -> take (length bs) (drop off (write_at off bs l)) = bs.
Proof.
  intros. unfold write_at. rewrite drop_app_length' by (rewrite length_take; lia).
  by rewrite take_app_length.
Qed.

(** A write after a prefix extends the prefix. *)
Lemma take_write_at off bs l :
  (off + length bs <= length l)%nat ->
  take (off + length bs) (write_at off bs l) = take off l ++ bs.
Proof.
  intros. unfold write_at. rewrite app_assoc, take_app_length'; [done|].
  rewrite length_app, length_take. lia.
Qed.

(** A write leaves what lies before it alone. *)
Lemma take_write_at_before n off bs l :
  (n <= off)%nat -> (off + length bs <= length l)%nat ->
  take n (write_at off bs l) = take n l.
Proof.
  intros. unfold write_at. rewrite take_app_le by (rewrite length_take; lia).
  rewrite take_take. f_equal. lia.
Qed.

(** Writing byte by byte is writing the block. *)
Lemma write_at_cons off b bs l :
  (off + S (length bs) <= length l)%nat ->
  write_at (S off) bs (write_at off [b] l) = write_at off (b :: bs) l.
Proof.
  intros. unfold write_at at 1.
  replace (S off) with (off + length [b])%nat at 1 by (cbn; lia).
  rewrite take_write_at by (cbn; lia). rewrite <- app_assoc. unfold write_at. cbn [app length].
  do 3 f_equal. rewrite drop_app_ge by (rewrite length_take; lia).
  rewrite length_take, Nat.min_l by lia.
  replace (S off + length bs - off)%nat with (S (length bs)) by lia.
  cbn [drop]. rewrite drop_drop. f_equal. lia.
Qed.

(** The bytes of a frame written in ascending order, one at a time. *)
Lemma take_write_byte n b l :
  (n < length l)%nat -> take (S n) (write_at n [b] l) = take n l ++ [b].
Proof.
  intros. replace (S n) with (n + length [b])%nat by (cbn; lia). apply take_write_at. cbn. lia.
Qed.

Lemma take_write_at_0 n bs l : (length bs <= n)%nat -> take n (write_at 0 bs l) = write_at 0 bs (take n l).
Proof.
  intros. unfold write_at. rewrite !take_0. cbn [app Nat.add]. rewrite take_app_ge by done. f_equal.
  rewrite take_drop_commute. do 2 f_equal. lia.
Qed.

Lemma drop_write_at_before n off bs l :
  (off + length bs <= n)%nat -> (n <= length l)%nat -> drop n (write_at off bs l) = drop n l.
Proof.
  intros. unfold write_at. rewrite app_assoc, drop_app_ge by (rewrite length_app, length_take; lia).
  rewrite drop_drop, length_app, length_take. f_equal. lia.
Qed.

(** A 16-bit value as its two bytes. *)
Lemma be_split_2 x : 0 <= x < 65536 -> be_split 2 x = [hi8 x; lo8 x].
Proof.
  intros. cbn [be_split app]. unfold hi8, lo8. rewrite !land_255, shiftr_8. reflexivity.
Qed.

(** Frames whose header is written in front of a payload already in place. *)
Lemma frame1 n a l : (1 <= length l)%nat -> take (1 + n) (write_at 0 [a] l) = a :: take n (drop 1 l).
Proof. by destruct l; [cbn; lia|]. Qed.

Lemma frame2 n a b l :
  (2 <= length l)%nat ->
  take (2 + n) (write_at 1 [b] (write_at 0 [a] l)) = a :: b :: take n (drop 2 l).
Proof. by destruct l as [|? [|? l]]; [cbn; lia..|]. Qed.

Lemma frame3 n a b c l :
  (3 <= length l)%nat ->
  take (3 + n) (write_at 2 [c] (write_at 1 [b] (write_at 0 [a] l))) =
  a :: b :: c :: take n (drop 3 l).
Proof. by destruct l as [|? [|? [|? l]]]; [cbn; lia..|]. Qed.

Lemma frame4 n a b c d l :
  (4 <= length l)%nat ->
  take (4 + n) (write_at 3 [d] (write_at 2 [c] (write_at 1 [b] (write_at 0 [a] l)))) =
  a :: b :: c :: d :: take n (drop 4 l).
Proof. by destruct l as [|? [|? [|? [|? l]]]]; [cbn; lia..|]. Qed.

(** A payload written after its header. *)
Lemma frame_after n off bs l :
  (off + length bs <= length l)%nat ->
  take (off + n) (write_at off bs l) = take off l ++ take n (drop off (write_at off bs l)).
Proof.
  intros. rewrite <- take_take_drop. f_equal. by apply take_write_at_before.
Qed.

(** A property of bytes that evaluation settles. *)
Lemma byte_forall (P : Z -> bool) :
  forallb P (seqZ 0 256) = true -> forall b, is_byte b -> P b = true.
Proof.
  intros H b Hb. rewrite forallb_forall in H. apply H, list_elem_of_In, elem_of_seqZ.
  unfold is_byte in Hb. lia.
Qed.

Lemma land_128 b : is_byte b -> negb (Z.land b 128 =? 0) = (128 <=? b).
Proof.
  intros Hb. apply eqb_prop.
  by apply (byte_forall (fun b => Bool.eqb (negb (Z.land b 128 =? 0)) (128 <=? b))).
Qed.

(** Two and three bytes assembled by shifting each into its place. *)
Lemma be_pair h l : is_byte h -> is_byte l -> Z.lor (Z.shiftl h 8) l = be_combine [h; l].
Proof.
  intros Hh Hl. cbn [be_combine fold_left]. rewrite (be_step_small 0 h) by (auto; lia).
  rewrite be_step_small by (auto; zlia). rewrite shiftl_8, lor_byte by done. lia.
Qed.

Lemma be_pair16 h l : is_byte h -> is_byte l -> Z.lor (u16 (Z.shiftl h 8)) l = be_combine [h; l].
Proof. intros. rewrite <- be_pair by done. f_equal. apply u16_small. rewrite shiftl_8. zlia. Qed.

Lemma be_triple a b c :
  is_byte a -> is_byte b -> is_byte c ->
  Z.lor (Z.lor (u32 (Z.shiftl a 16)) (u32 (Z.shiftl b 8))) c = be_combine [a; b; c].
Proof.
  intros Ha Hb Hc. cbn [be_combine fold_left]. rewrite (be_step_small 0 a) by (auto; lia).
  rewrite (be_step_small _ b) by (auto; zlia). rewrite be_step_small by (auto; zlia).
  change 16 with (8 + 8). rewrite <- Z.shiftl_shiftl, (shiftl_8 a) by lia.
  rewrite !u32_small by (rewrite shiftl_8; zlia).
  rewrite <- Z.shiftl_lor, lor_byte, shiftl_8, lor_byte by done. lia.
Qed.

Lemma be_pair_bound h l : is_byte h -> is_byte l -> 0 <= be_combine [h; l] < 65536.
Proof. intros. apply (be_combine_bound [h; l]); [|cbn; lia]. constructor; [done|]. constructor; [done|constructor]. Qed.

(** The payload of a frame is what was written there, as far as that goes. *)
Lemma drop_write_at off bs l :
  (off + length bs <= length l)%nat -> drop off (write_at off bs l) = bs ++ drop (off + length bs) l.
Proof. intros. unfold write_at. by rewrite drop_app_length' by (rewrite length_take; lia). Qed.

Lemma fold_left_cons {A B} (f : A -> B -> A) x l a : fold_left f (x :: l) a = fold_left f l (f a x).
Proof. done. Qed.

Lemma fold_left_nil {A B} (f : A -> B -> A) a : fold_left f [] a = a.
Proof. done. Qed.

(** Testing one bit with a mask. *)
Lemma land_pow2 b k : 0 <= k -> negb (Z.land b (2 ^ k) =? 0) = Z.testbit b k.
Proof.
  intros Hk. destruct (Z.testbit b k) eqn:Hb.
  - apply negb_true_iff, Z.eqb_neq. intros H0.
    assert (H1 : Z.testbit (Z.land b (2 ^ k)) k = true)
      by (by rewrite Z.land_spec, Hb, Z.pow2_bits_true).
    by rewrite H0, Z.bits_0 in H1.
  - apply negb_false_iff, Z.eqb_eq, Z.bits_inj'. intros i Hi.
    rewrite Z.land_spec, Z.pow2_bits_eqb, Z.bits_0 by done.
    destruct (Z.eqb_spec k i) as [->|]; [by rewrite Hb|by rewrite andb_false_r].
Qed.
