(* ===== verification/Monad.v ===== *)
(** * State-and-fault monad and its total-correctness logic

    C functions are state transformers that may go wrong. [M S A] is the type
    of a computation over a state [S] that returns an [A] or stops with a
    [fault] (undefined behaviour of C: a NULL call, an access outside a block,
    an over-wide shift, a read of an uninitialised byte). [wp m Q s] says that
    [m] run in [s] does not fault and ends in a result and a state that satisfy
    [Q]; it is false of a faulting run, so every [wp] theorem is also a
    memory-safety and a termination statement. *)

From S2P Require Import Prelude.
From stdpp Require Import base gmap list strings numbers.

Open Scope Z_scope.

(** Undefined behaviour. [OutOfFuel] marks a loop the model gave too few
    iterations; no theorem leaves it possible. *)
Inductive fault : Set :=
| NullDeref        (* NULL pointer dereferenced or called *)
| OutOfBounds      (* access outside a block *)
| ShiftOverflow    (* shift amount not below the width *)
| Uninit           (* read of a byte nobody wrote *)
| OutOfFuel.

#[export] Instance fault_eq_dec : EqDecision fault.
Proof. solve_decision. Defined.

Inductive outcome (A : Type) : Type :=
| Ok (a : A)
| Fault (f : fault).
Arguments Ok {_} _.
Arguments Fault {_} _.

Definition M (S A : Type) : Type := S -> outcome (A * S).

#[export] Instance M_ret S : MRet (M S) := fun A a s => Ok (a, s).
#[export] Instance M_bind S : MBind (M S) := fun A B k m s =>
  match m s with
  | Ok (a, s') => k a s'
  | Fault f => Fault f
  end.

Definition mfault {S A} (f : fault) : M S A := fun _ => Fault f.

(** [if (b) { m; }] *)
Definition mwhen {S} (b : bool) (m : M S unit) : M S unit := if b then m else mret tt.

(** Calling a function through a pointer, or reading through one: NULL faults. *)
Definition fnptr {S T} (o : option T) : M S T :=
  match o with Some f => mret f | None => mfault NullDeref end.

(** [for (x in l) f(x)] *)
Fixpoint mfor {S T} (l : list T) (f : T -> M S unit) : M S unit :=
  match l with
  | [] => mret tt
  | x :: l' => f x ;; mfor l' f
  end.

(** A loop whose body may leave it ([break], [return]) with a value. *)
Fixpoint mfor_until {S T R} (l : list T) (f : T -> M S (option R)) : M S (option R) :=
  match l with
  | [] => mret None
  | x :: l' =>
      r ← f x;
      match r with Some v => mret (Some v) | None => mfor_until l' f end
  end.

(** A loop that threads an accumulator. *)
Fixpoint mfold {S T A} (l : list T) (a : A) (f : A -> T -> M S A) : M S A :=
  match l with
  | [] => mret a
  | x :: l' => a' ← f a x; mfold l' a' f
  end.

(** Running a computation on one part of the state. *)
Definition zoom {S T A} (get : S -> T) (put : T -> S -> S) (m : M T A) : M S A := fun s =>
  match m (get s) with
  | Ok (a, t) => Ok (a, put t s)
  | Fault f => Fault f
  end.

(** ** The logic *)

Definition wp {S A} (m : M S A) (Q : A -> S -> Prop) (s : S) : Prop :=
  match m s with
  | Ok (a, s') => Q a s'
  | Fault _ => False
  end.

Section Rules.
Context {S : Type}.

Lemma wp_iff {A} (m : M S A) Q s : wp m Q s <-> exists a s', m s = Ok (a, s') /\ Q a s'.
Proof.
  unfold wp. destruct (m s) as [[a s']|f]; split; try (eauto; done).
  - intros (? & ? & [=-> ->] & ?). done.
  - intros (? & ? & ? & ?). done.
Qed.

Lemma wp_ret {A} (a : A) (Q : A -> S -> Prop) s : Q a s -> wp (mret a) Q s.
Proof. done. Qed.

Lemma wp_bind_eq {A B} (m : M S A) (k : A -> M S B) Q s :
  wp (m ≫= k) Q s <-> wp m (fun a s' => wp (k a) Q s') s.
Proof. unfold wp, mbind, M_bind. by destruct (m s) as [[? ?]|?]. Qed.

Lemma wp_bind {A B} (m : M S A) (k : A -> M S B) Q s :
  wp m (fun a s' => wp (k a) Q s') s -> wp (m ≫= k) Q s.
Proof. apply wp_bind_eq. Qed.

Lemma wp_mono {A} (m : M S A) (Q Q' : A -> S -> Prop) s :
  wp m Q s -> (forall a s', Q a s' -> Q' a s') -> wp m Q' s.
Proof. unfold wp. destruct (m s) as [[? ?]|?]; auto. Qed.

Lemma wp_conj {A} (m : M S A) (Q Q' : A -> S -> Prop) s :
  wp m Q s -> wp m Q' s -> wp m (fun a s' => Q a s' /\ Q' a s') s.
Proof. unfold wp. destruct (m s) as [[? ?]|?]; auto. Qed.

#[global] Instance wp_proper {A} (m : M S A) :
  Proper (pointwise_relation A (pointwise_relation S impl) ==> eq ==> impl) (wp m).
Proof. intros Q Q' HQ s ? <- H. eapply wp_mono; [exact H|]. intros a s'. apply HQ. Qed.

Lemma wp_fnptr {T} (o : option T) f (Q : T -> S -> Prop) s :
  o = Some f -> Q f s -> wp (fnptr o) Q s.
Proof. by intros ->. Qed.

Lemma wp_when (b : bool) (m : M S unit) Q s :
  (b = true -> wp m Q s) -> (b = false -> Q tt s) -> wp (mwhen b m) Q s.
Proof. intros Ht Hf. destruct b; [exact (Ht eq_refl)|exact (Hf eq_refl)]. Qed.

(** Loops by an invariant over the elements still to visit. *)
Lemma wp_for {T} (I : list T -> S -> Prop) (l : list T) (f : T -> M S unit) Q s :
  I l s ->
  (forall x l' s', I (x :: l') s' -> wp (f x) (fun _ s'' => I l' s'') s') ->
  (forall s', I [] s' -> Q tt s') ->
  wp (mfor l f) Q s.
Proof.
  intros HI Hstep HQ. revert s HI. induction l as [|x l IH]; intros s HI; simpl.
  - apply wp_ret, HQ, HI.
  - apply wp_bind. eapply wp_mono; [by apply Hstep|]. auto.
Qed.

Lemma wp_for_until {T R} (I : list T -> S -> Prop) (l : list T)
    (f : T -> M S (option R)) Q s :
  I l s ->
  (forall x l' s', I (x :: l') s' ->
     wp (f x) (fun r s'' => match r with Some _ => Q r s'' | None => I l' s'' end) s') ->
  (forall s', I [] s' -> Q None s') ->
  wp (mfor_until l f) Q s.
Proof.
  intros HI Hstep HQ. revert s HI. induction l as [|x l IH]; intros s HI; simpl.
  - apply wp_ret, HQ, HI.
  - apply wp_bind. eapply wp_mono; [by apply Hstep|]. intros [r|] s' H; auto.
Qed.

Lemma wp_zoom {T A} (get : S -> T) (put : T -> S -> S) (m : M T A) Q s :
  wp m (fun a t => Q a (put t s)) (get s) -> wp (zoom get put m) Q s.
Proof. unfold wp, zoom. by destruct (m (get s)) as [[? ?]|?]. Qed.

(** From a [wp] to the run it describes and back. *)
Lemma wp_run {A} (m : M S A) Q s a s' : wp m Q s -> m s = Ok (a, s') -> Q a s'.
Proof. unfold wp. intros H E. by rewrite E in H. Qed.

Lemma run_wp {A} (m : M S A) (Q : A -> S -> Prop) s a s' : m s = Ok (a, s') -> Q a s' -> wp m Q s.
Proof. unfold wp. by intros ->. Qed.
End Rules.

#[export] Hint Resolve wp_ret : uds.

(** The monad laws, for rewriting computations. *)
Lemma bind_ret {S A B} (a : A) (k : A -> M S B) s : (mret a ≫= k) s = k a s.
Proof. done. Qed.

Lemma bind_ok {S A B} (m : M S A) (k : A -> M S B) s a s' :
  m s = Ok (a, s') -> (m ≫= k) s = k a s'.
Proof. unfold mbind, M_bind. by intros ->. Qed.

Lemma bind_fault {S A B} (m : M S A) (k : A -> M S B) s f : m s = Fault f -> (m ≫= k) s = Fault f.
Proof. intros H. unfold mbind, M_bind. by rewrite H. Qed.

Lemma bind_assoc {S A B C} (m : M S A) (k : A -> M S B) (k' : B -> M S C) s :
  ((m ≫= k) ≫= k') s = (m ≫= (fun a => k a ≫= k')) s.
Proof. unfold mbind, M_bind. by destruct (m s) as [[? ?]|?]. Qed.

Lemma wp_assoc {S A B C} (m : M S A) (k : A -> M S B) (k' : B -> M S C) Q s :
  wp ((m ≫= k) ≫= k') Q s <-> wp (m ≫= (fun a => k a ≫= k')) Q s.
Proof. unfold wp. by rewrite bind_assoc. Qed.

(** Equation for a loop over an appended range. *)
Lemma mfor_app {S T} (l1 l2 : list T) (f : T -> M S unit) s :
  mfor (l1 ++ l2) f s = (mfor l1 f ;; mfor l2 f) s.
Proof.
  revert s. induction l1 as [|x l1 IH]; intros s; [done|].
  simpl. unfold mbind, M_bind. destruct (f x s) as [[? ?]|?]; [apply IH|done].
Qed.
