(* ===== verification/Types.v ===== *)
(** * Data of the stack: constants, configuration, context, events

    [include/uds/uds_config.h], [include/uds/uds_core.h] and
    [src/core/uds_internal.h]. A pointer the code may test against NULL is an
    [option]; a pointer to a buffer is the identifier of a block of the memory
    [mem]; a function pointer of the configuration is a computation of the
    monad [M E] over the application's own state [E]. *)

From S2P Require Import Prelude Monad.
From stdpp Require Import base gmap list strings numbers.

Open Scope Z_scope.

(** ** Return codes and log levels *)
Definition UDS_OK : Z := 0.
Definition UDS_ERR_INVALID_ARG : Z := -1.
Definition UDS_ERR_BUFFER_TOO_SMALL : Z := -2.
Definition UDS_ERR_NOT_INIT : Z := -3.
Definition UDS_PENDING : Z := 1.
Definition UDS_LOG_ERROR : Z := 0.
Definition UDS_LOG_INFO : Z := 1.
Definition UDS_LOG_DEBUG : Z := 2.

(** ** Negative response codes *)
Definition UDS_NRC_SERVICE_NOT_SUPPORTED : Z := 0x11.
Definition UDS_NRC_SUBFUNCTION_NOT_SUPPORTED : Z := 0x12.
Definition UDS_NRC_INCORRECT_LENGTH : Z := 0x13.
Definition UDS_NRC_RESPONSE_TOO_LONG : Z := 0x14.
Definition UDS_NRC_BUSY_REPEAT_REQUEST : Z := 0x21.
Definition UDS_NRC_CONDITIONS_NOT_CORRECT : Z := 0x22.
Definition UDS_NRC_REQUEST_SEQUENCE_ERROR : Z := 0x24.
Definition UDS_NRC_REQUEST_OUT_OF_RANGE : Z := 0x31.
Definition UDS_NRC_SECURITY_ACCESS_DENIED : Z := 0x33.
Definition UDS_NRC_INVALID_KEY : Z := 0x35.
Definition UDS_NRC_EXCEEDED_ATTEMPTS : Z := 0x36.
Definition UDS_NRC_REQUIRED_TIME_DELAY : Z := 0x37.
Definition UDS_NRC_RESPONSE_PENDING : Z := 0x78.
Definition UDS_NRC_SERVICE_NOT_SUPP_IN_SESS : Z := 0x7F.

(** ** Service identifiers *)
Definition UDS_SID_SESSION_CONTROL : Z := 0x10.
Definition UDS_SID_ECU_RESET : Z := 0x11.
Definition UDS_SID_CLEAR_DTC : Z := 0x14.
Definition UDS_SID_READ_DTC_INFO : Z := 0x19.
Definition UDS_SID_READ_DATA_BY_ID : Z := 0x22.
Definition UDS_SID_READ_MEM_BY_ADDR : Z := 0x23.
Definition UDS_SID_SECURITY_ACCESS : Z := 0x27.
Definition UDS_SID_COMM_CONTROL : Z := 0x28.
Definition UDS_SID_AUTHENTICATION : Z := 0x29.
Definition UDS_SID_READ_BY_PER_ID : Z := 0x2A.
Definition UDS_SID_WRITE_DATA_BY_ID : Z := 0x2E.
Definition UDS_SID_IO_CONTROL_BY_ID : Z := 0x2F.
Definition UDS_SID_ROUTINE_CONTROL : Z := 0x31.
Definition UDS_SID_REQUEST_DOWNLOAD : Z := 0x34.
Definition UDS_SID_REQUEST_UPLOAD : Z := 0x35.
Definition UDS_SID_TRANSFER_DATA : Z := 0x36.
Definition UDS_SID_TRANSFER_EXIT : Z := 0x37.
Definition UDS_SID_WRITE_MEM_BY_ADDR : Z := 0x3D.
Definition UDS_SID_TESTER_PRESENT : Z := 0x3E.
Definition UDS_SID_CONTROL_DTC_SETTING : Z := 0x85.

(** ** Timing, sizes and masks *)
Definition UDS_S3_TIMEOUT_MS : Z := 5000.
Definition UDS_P2_MIN_SAFE_MS : Z := 20.
Definition UDS_P2_STAR_MIN_SAFE_MS : Z := 1000.
Definition UDS_RESPONSE_OFFSET : Z := 0x40.
Definition UDS_MAX_PERIODIC_MSG_LEN : Z := 8.
Definition UDS_PERIODIC_RATE_FAST : Z := 0x01.
Definition UDS_PERIODIC_RATE_MEDIUM : Z := 0x02.
Definition UDS_PERIODIC_RATE_SLOW : Z := 0x03.
Definition UDS_PERIODIC_FAST_INTERVAL_MS : Z := 100.
Definition UDS_PERIODIC_MEDIUM_INTERVAL_MS : Z := 500.
Definition UDS_PERIODIC_SLOW_INTERVAL_MS : Z := 1000.
Definition UDS_MASK_NIBBLE : Z := 0x0F.
Definition UDS_MASK_SUBFUNCTION : Z := 0x7F.
Definition UDS_MASK_SUPPRESS_POS_RESP : Z := 0x80.
Definition UDS_SESSION_ID_DEFAULT : Z := 0x01.
Definition UDS_SESSION_ID_PROGRAMMING : Z := 0x02.
Definition UDS_SESSION_ID_EXTENDED : Z := 0x03.
Definition UDS_SESSION_DEFAULT : Z := 1.
Definition UDS_SESSION_EXTENDED : Z := 2.
Definition UDS_SESSION_PROGRAMMING : Z := 4.
Definition UDS_SESSION_ALL : Z := 0xFF.

(** ** Subfunction masks: 16 bytes, one bit per 7-bit subfunction *)
Definition mask16 (b0 : Z) : list Z := b0 :: replicate 15 0.
Definition UDS_MASK_SUB_10 : list Z := mask16 0x0E.
Definition UDS_MASK_SUB_11 : list Z := mask16 0x0E.
Definition UDS_MASK_SUB_19 : list Z := mask16 0x57.
Definition UDS_MASK_SUB_27 : list Z := 0xFE :: replicate 15 0xFF.
Definition UDS_MASK_SUB_28 : list Z := mask16 0x3F.
Definition UDS_MASK_SUB_31 : list Z := mask16 0x0E.
Definition UDS_MASK_SUB_3E : list Z := mask16 0x01.
Definition UDS_MASK_SUB_85 : list Z := mask16 0x06.
Definition UDS_MASK_SUB_2A : list Z := mask16 0x1E.

(** ** Reset and communication control types *)
Inductive uds_reset_type_t : Set :=
| UDS_RESET_HARD
| UDS_RESET_SOFT
| UDS_RESET_KEY_OFF_ON.

Definition reset_code (t : uds_reset_type_t) : Z :=
  match t with UDS_RESET_HARD => 0x01 | UDS_RESET_SOFT => 0x02 | UDS_RESET_KEY_OFF_ON => 0x03 end.

Inductive uds_comm_control_type_t : Set :=
| UDS_COMM_ENABLE_RX_TX
| UDS_COMM_ENABLE_RX_DISABLE_TX
| UDS_COMM_DISABLE_RX_ENABLE_TX
| UDS_COMM_DISABLE_RX_TX.

Definition comm_control_code (t : uds_comm_control_type_t) : Z :=
  match t with
  | UDS_COMM_ENABLE_RX_TX => 0x00
  | UDS_COMM_ENABLE_RX_DISABLE_TX => 0x01
  | UDS_COMM_DISABLE_RX_ENABLE_TX => 0x02
  | UDS_COMM_DISABLE_RX_TX => 0x03
  end.

(** ** The context [uds_ctx_t]

    The [config] pointer is not a field: the functions take it as the argument
    [ctx_ptr] below. [client_cb] is a code address. *)
Record uds_ctx : Type := mkCtx {
  ctx_state : Z;
  active_session : Z;
  security_level : Z;
  last_msg_time : Z;
  p2_timer_start : Z;
  p2_msg_pending : bool;
  p2_star_active : bool;
  response_pending : bool;
  client_cb : option N;
  pending_sid : Z;
  comm_state : Z;
  suppress_pos_resp : bool;
  p2_ms : Z;
  p2_star_ms : Z;
  flash_sequence : Z;
  security_delay_end : Z;
  security_attempts : Z;
  rcrrp_count : Z;
  periodic_ids : list Z;
  periodic_rates : list Z;
  periodic_timers : list Z;
  periodic_count : Z
}.

(** Field updates. [setter eta f] abstracts the getter [f] out of the
    eta-expanded record and puts the new value in its place. *)
Definition ctx_eta (c : uds_ctx) : uds_ctx :=
  mkCtx (ctx_state c) (active_session c) (security_level c) (last_msg_time c)
    (p2_timer_start c) (p2_msg_pending c) (p2_star_active c) (response_pending c)
    (client_cb c) (pending_sid c) (comm_state c) (suppress_pos_resp c) (p2_ms c)
    (p2_star_ms c) (flash_sequence c) (security_delay_end c) (security_attempts c)
    (rcrrp_count c) (periodic_ids c) (periodic_rates c) (periodic_timers c)
    (periodic_count c).

Ltac setter eta get v c :=
  let e := eval hnf in (eta c) in
  let p := eval pattern (get c) in e in
  match p with ?F _ => let r := eval cbv beta in (F v) in exact r end.

Definition set_active_session (v : Z) (c : uds_ctx) : uds_ctx := ltac:(setter ctx_eta active_session v c).
Definition set_security_level (v : Z) (c : uds_ctx) : uds_ctx := ltac:(setter ctx_eta security_level v c).
Definition set_last_msg_time (v : Z) (c : uds_ctx) : uds_ctx := ltac:(setter ctx_eta last_msg_time v c).
Definition set_p2_timer_start (v : Z) (c : uds_ctx) : uds_ctx := ltac:(setter ctx_eta p2_timer_start v c).
Definition set_p2_msg_pending (v : bool) (c : uds_ctx) : uds_ctx := ltac:(setter ctx_eta p2_msg_pending v c).
Definition set_p2_star_active (v : bool) (c : uds_ctx) : uds_ctx := ltac:(setter ctx_eta p2_star_active v c).
Definition set_client_cb (v : option N) (c : uds_ctx) : uds_ctx := ltac:(setter ctx_eta client_cb v c).
Definition set_pending_sid (v : Z) (c : uds_ctx) : uds_ctx := ltac:(setter ctx_eta pending_sid v c).
Definition set_comm_state (v : Z) (c : uds_ctx) : uds_ctx := ltac:(setter ctx_eta comm_state v c).
Definition set_suppress_pos_resp (v : bool) (c : uds_ctx) : uds_ctx := ltac:(setter ctx_eta suppress_pos_resp v c).
Definition set_p2_ms (v : Z) (c : uds_ctx) : uds_ctx := ltac:(setter ctx_eta p2_ms v c).
Definition set_p2_star_ms (v : Z) (c : uds_ctx) : uds_ctx := ltac:(setter ctx_eta p2_star_ms v c).
Definition set_flash_sequence (v : Z) (c : uds_ctx) : uds_ctx := ltac:(setter ctx_eta flash_sequence v c).
Definition set_security_delay_end (v : Z) (c : uds_ctx) : uds_ctx := ltac:(setter ctx_eta security_delay_end v c).
Definition set_security_attempts (v : Z) (c : uds_ctx) : uds_ctx := ltac:(setter ctx_eta security_attempts v c).
Definition set_rcrrp_count (v : Z) (c : uds_ctx) : uds_ctx := ltac:(setter ctx_eta rcrrp_count v c).
Definition set_periodic_ids (v : list Z) (c : uds_ctx) : uds_ctx := ltac:(setter ctx_eta periodic_ids v c).
Definition set_periodic_rates (v : list Z) (c : uds_ctx) : uds_ctx := ltac:(setter ctx_eta periodic_rates v c).
Definition set_periodic_timers (v : list Z) (c : uds_ctx) : uds_ctx := ltac:(setter ctx_eta periodic_timers v c).
Definition set_periodic_count (v : Z) (c : uds_ctx) : uds_ctx := ltac:(setter ctx_eta periodic_count v c).

(** [memset(ctx, 0, sizeof(uds_ctx_t))] *)
Definition zero_ctx : uds_ctx :=
  mkCtx 0 0 0 0 0 false false false None 0 0 false 0 0 0 0 0 0
    (replicate 8 0) (replicate 8 0) (replicate 8 0) 0.

(** ** Trace of external calls

    A ghost record of every call the stack makes to the outside (transport,
    mutex, application callbacks), with its arguments and result, in order.
    The code has no such variable and no definition reads it: it is what the
    theorems about the order and number of calls speak of. *)
Inductive event : Type :=
| EvLock
| EvUnlock
| EvSend (sdu : list Z) (ret : Z)
| EvLog (level : Z) (msg : string)
| EvReset (type : Z)
| EvCommControl (ctrl comm ret : Z)
| EvSeed (level ret : Z)
| EvKey (level : Z) (key : list Z) (ret : Z)
| EvNvmSave (saved : list Z)
| EvNvmLoad (ret : Z)
| EvDidRead (did ret : Z)
| EvDidWrite (did : Z) (value : list Z) (ret : Z)
| EvDtcRead (sub ret : Z)
| EvDtcClear (group ret : Z)
| EvAuth (sub : Z) (input : list Z) (ret : Z)
| EvRoutine (type id : Z) (input : list Z) (ret : Z)
| EvDownload (addr size ret : Z)
| EvUpload (addr size ret : Z)
| EvTransfer (seq : Z) (block : list Z) (ret : Z)
| EvTransferExit (ret : Z)
| EvMemRead (addr size ret : Z)
| EvMemWrite (addr size : Z) (avail : list Z) (ret : Z)
| EvIoControl (id type : Z) (input : list Z) (ret : Z)
| EvPeriodicRead (id ret : Z)
| EvSafe (sid : Z) (ok : bool)
| EvClientCb (cb : N) (sid : Z) (payload : list Z).

(** ** The machine state

    [mem] holds the buffers the configuration points to (tx, rx, DID storage),
    [env] the state of the application, the transport and the clock. *)
Record uds_state (E : Type) : Type := mkState {
  ctx : uds_ctx;
  mem : gmap N (list Z);
  env : E;
  trace : list event
}.
Arguments mkState {_} _ _ _ _.
Arguments ctx {_} _.
Arguments mem {_} _.
Arguments env {_} _.
Arguments trace {_} _.

Definition set_ctx {E} (f : uds_ctx -> uds_ctx) (s : uds_state E) : uds_state E :=
  mkState (f (ctx s)) (mem s) (env s) (trace s).
Definition set_mem {E} (f : gmap N (list Z) -> gmap N (list Z)) (s : uds_state E) : uds_state E :=
  mkState (ctx s) (f (mem s)) (env s) (trace s).
Definition set_env {E} (e : E) (s : uds_state E) : uds_state E :=
  mkState (ctx s) (mem s) e (trace s).
Definition add_event {E} (ev : event) (s : uds_state E) : uds_state E :=
  mkState (ctx s) (mem s) (env s) (trace s ++ [ev]).

(** ** Types of the callbacks

    A callback that receives [ctx] gets the context's value to read: the header
    declares its members private, so callbacks do not write it. A callback with
    an output buffer returns the bytes it wrote at the buffer's start together
    with its result; its last argument is the buffer's size. *)
Definition uds_log_fn (E : Type) : Type := Z -> string -> M E unit.
Definition uds_get_time_fn (E : Type) : Type := M E Z.
Definition uds_tp_send_fn (E : Type) : Type := uds_ctx -> list Z -> Z -> M E Z.
Definition uds_reset_fn (E : Type) : Type := uds_ctx -> Z -> M E unit.
Definition uds_did_read_fn (E : Type) : Type := uds_ctx -> Z -> Z -> M E (Z * list Z).
Definition uds_did_write_fn (E : Type) : Type := uds_ctx -> Z -> list Z -> Z -> M E Z.
Definition uds_security_seed_fn (E : Type) : Type := uds_ctx -> Z -> Z -> M E (Z * list Z).
Definition uds_security_key_fn (E : Type) : Type := uds_ctx -> Z -> option (list Z) -> list Z -> Z -> M E Z.

(** A service handler and a response callback run on the whole state. *)
Definition uds_service_handler_t (E : Type) : Type := list Z -> Z -> M (uds_state E) Z.
Definition uds_response_cb (E : Type) : Type := Z -> list Z -> Z -> M (uds_state E) unit.

(** Members of the configuration without a type of their own. *)
Definition routine_control_fn (E : Type) : Type := uds_ctx -> Z -> Z -> list Z -> Z -> Z -> M E (Z * list Z).
Definition request_download_fn (E : Type) : Type := uds_ctx -> Z -> Z -> M E Z.
Definition transfer_data_fn (E : Type) : Type := uds_ctx -> Z -> list Z -> Z -> M E Z.
Definition transfer_exit_fn (E : Type) : Type := uds_ctx -> M E Z.
Definition mem_read_fn (E : Type) : Type := uds_ctx -> Z -> Z -> M E (Z * list Z).
Definition mem_write_fn (E : Type) : Type := uds_ctx -> Z -> Z -> list Z -> M E Z.
Definition io_control_fn (E : Type) : Type := uds_ctx -> Z -> Z -> list Z -> Z -> Z -> M E (Z * list Z).
Definition request_upload_fn (E : Type) : Type := uds_ctx -> Z -> Z -> M E Z.
Definition periodic_read_fn (E : Type) : Type := uds_ctx -> Z -> Z -> M E (Z * list Z).
Definition mutex_fn (E : Type) : Type := N -> M E unit.

(** ** Service table and DID table entries *)
Record uds_service_entry (E : Type) : Type := mkService {
  sid : Z;
  min_len : Z;
  session_mask : Z;
  security_mask : Z;
  handler : option (uds_service_handler_t E);
  sub_mask : option (list Z)
}.
Arguments mkService {_} _ _ _ _ _ _.
Arguments sid {_} _.
Arguments min_len {_} _.
Arguments session_mask {_} _.
Arguments security_mask {_} _.
Arguments handler {_} _.
Arguments sub_mask {_} _.

(** A read callback returns its result and the bytes it put in the buffer. *)
Record uds_did_entry (E : Type) : Type := mkDid {
  did_id : Z;
  did_size : Z;
  did_session_mask : Z;
  did_security_mask : Z;
  did_read : option (uds_did_read_fn E);
  did_write : option (uds_did_write_fn E);
  did_storage : option N
}.
Arguments mkDid {_} _ _ _ _ _ _ _.
Arguments did_id {_} _.
Arguments did_size {_} _.
Arguments did_session_mask {_} _.
Arguments did_security_mask {_} _.
Arguments did_read {_} _.
Arguments did_write {_} _.
Arguments did_storage {_} _.

Record uds_did_table (E : Type) : Type := mkDidTable {
  did_entries : list (uds_did_entry E);
  did_count : Z
}.
Arguments mkDidTable {_} _ _.
Arguments did_entries {_} _.
Arguments did_count {_} _.

(** ** The configuration [uds_config_t] *)
Record uds_config (E : Type) : Type := mkConfig {
  ecu_address : Z;
  get_time_ms : option (uds_get_time_fn E);
  fn_log : option (uds_log_fn E);
  fn_tp_send : option (uds_tp_send_fn E);
  cfg_p2_ms : Z;
  cfg_p2_star_ms : Z;
  fn_reset : option (uds_reset_fn E);
  fn_comm_control : option (uds_ctx -> Z -> Z -> M E Z);
  fn_security_seed : option (uds_security_seed_fn E);
  fn_security_key : option (uds_security_key_fn E);
  rx_buffer : option N;
  rx_buffer_size : Z;
  tx_buffer : option N;
  tx_buffer_size : Z;
  strict_compliance : bool;
  log_level : Z;
  security_delay_ms : Z;
  security_max_attempts : Z;
  rcrrp_limit : Z;
  transfer_accept_last_block_replay : bool;
  did_table : uds_did_table E;
  user_services : option (list (uds_service_entry E));
  user_service_count : Z;
  fn_is_safe : option (uds_ctx -> Z -> list Z -> Z -> M E bool);
  fn_nvm_save : option (uds_ctx -> list Z -> Z -> M E Z);
  fn_nvm_load : option (uds_ctx -> Z -> M E (Z * list Z));
  fn_dtc_read : option (uds_ctx -> Z -> Z -> M E (Z * list Z));
  fn_dtc_clear : option (uds_ctx -> Z -> M E Z);
  fn_auth : option (uds_ctx -> Z -> list Z -> Z -> Z -> M E (Z * list Z));
  fn_routine_control : option (routine_control_fn E);
  fn_request_download : option (request_download_fn E);
  fn_transfer_data : option (transfer_data_fn E);
  fn_transfer_exit : option (transfer_exit_fn E);
  fn_mem_read : option (mem_read_fn E);
  fn_mem_write : option (mem_write_fn E);
  fn_io_control : option (io_control_fn E);
  fn_request_upload : option (request_upload_fn E);
  fn_periodic_read : option (periodic_read_fn E);
  mutex_handle : N;
  fn_mutex_lock : option (mutex_fn E);
  fn_mutex_unlock : option (mutex_fn E);
  p2_server_max : Z;
  p2_star_server_max : Z
}.
Arguments mkConfig {_}.
Arguments ecu_address {_} _.
Arguments get_time_ms {_} _.
Arguments fn_log {_} _.
Arguments fn_tp_send {_} _.
Arguments cfg_p2_ms {_} _.
Arguments cfg_p2_star_ms {_} _.
Arguments fn_reset {_} _.
Arguments fn_comm_control {_} _.
Arguments fn_security_seed {_} _.
Arguments fn_security_key {_} _.
Arguments rx_buffer {_} _.
Arguments rx_buffer_size {_} _.
Arguments tx_buffer {_} _.
Arguments tx_buffer_size {_} _.
Arguments strict_compliance {_} _.
Arguments log_level {_} _.
Arguments security_delay_ms {_} _.
Arguments security_max_attempts {_} _.
Arguments rcrrp_limit {_} _.
Arguments transfer_accept_last_block_replay {_} _.
Arguments did_table {_} _.
Arguments user_services {_} _.
Arguments user_service_count {_} _.
Arguments fn_is_safe {_} _.
Arguments fn_nvm_save {_} _.
Arguments fn_nvm_load {_} _.
Arguments fn_dtc_read {_} _.
Arguments fn_dtc_clear {_} _.
Arguments fn_auth {_} _.
Arguments fn_routine_control {_} _.
Arguments fn_request_download {_} _.
Arguments fn_transfer_data {_} _.
Arguments fn_transfer_exit {_} _.
Arguments fn_mem_read {_} _.
Arguments fn_mem_write {_} _.
Arguments fn_io_control {_} _.
Arguments fn_request_upload {_} _.
Arguments fn_periodic_read {_} _.
Arguments mutex_handle {_} _.
Arguments fn_mutex_lock {_} _.
Arguments fn_mutex_unlock {_} _.
Arguments p2_server_max {_} _.
Arguments p2_star_server_max {_} _.

(** What a [uds_ctx_t *ctx] argument leads to: [None] when [ctx] or
    [ctx->config] is NULL, the configuration otherwise. *)
Definition ctx_ptr (E : Type) : Type := option (uds_config E).

(** Reading through the setters and state updates in a goal. *)
Ltac ctx_cbn :=
  cbn [ctx mem env trace set_ctx set_mem set_env add_event
    ctx_state active_session security_level last_msg_time p2_timer_start p2_msg_pending
    p2_star_active response_pending client_cb pending_sid comm_state suppress_pos_resp
    p2_ms p2_star_ms flash_sequence security_delay_end security_attempts rcrrp_count
    periodic_ids periodic_rates periodic_timers periodic_count
    set_active_session set_security_level set_last_msg_time set_p2_timer_start
    set_p2_msg_pending set_p2_star_active set_client_cb set_pending_sid set_comm_state
    set_suppress_pos_resp set_p2_ms set_p2_star_ms set_flash_sequence
    set_security_delay_end set_security_attempts set_rcrrp_count set_periodic_ids
    set_periodic_rates set_periodic_timers set_periodic_count].

(** The SDUs among the events, in order. *)
Definition sends (evs : list event) : list (list Z) :=
  omap (fun ev => match ev with EvSend b _ => Some b | _ => None end) evs.

Lemma sends_app evs1 evs2 : sends (evs1 ++ evs2) = sends evs1 ++ sends evs2.
Proof. unfold sends. by rewrite omap_app. Qed.
#[export] Hint Rewrite @sends_app : uds.
