(* ===== verification/Machine.v ===== *)
(** * Primitive operations of the machine and their rules

    Reading and writing the context, the request, the buffers; calling the
    application. Every access is checked and faults out of range. *)

From S2P Require Import Prelude Monad Types.
From stdpp Require Import base gmap list strings numbers.

Open Scope Z_scope.

Section Machine.
Context {E : Type}.

Definition get_ctx : M (uds_state E) uds_ctx := fun s => Ok (ctx s, s).
Definition mod_ctx (f : uds_ctx -> uds_ctx) : M (uds_state E) unit := fun s => Ok (tt, set_ctx f s).
Definition emit (ev : event) : M (uds_state E) unit := fun s => Ok (tt, add_event ev s).

(** A call of an application callback: it runs on the application's state. *)
Definition call {A} (cb : M E A) : M (uds_state E) A := zoom env set_env cb.

(** [ctx->config] *)
Definition config_of (ctx : ctx_ptr E) : M (uds_state E) (uds_config E) := fnptr ctx.

(** [data[i]], and the pointer [&data[k]] (one past the end is allowed). *)
Definition data_at (data : list Z) (i : Z) : M (uds_state E) Z :=
  if 0 <=? i then
    match data !! Z.to_nat i with Some b => mret b | None => mfault OutOfBounds end
  else mfault OutOfBounds.

Definition data_from (data : list Z) (k : Z) : M (uds_state E) (list Z) :=
  if (0 <=? k) && (k <=? Z.of_nat (length data)) then mret (drop (Z.to_nat k) data)
  else mfault OutOfBounds.

(** Access to [len] bytes at offset [off] of a block. *)
Definition mem_read (b : N) (off len : Z) : M (uds_state E) (list Z) := fun s =>
  match mem s !! b with
  | Some l =>
      if (0 <=? off) && (0 <=? len) && (off + len <=? Z.of_nat (length l))
      then Ok (take (Z.to_nat len) (drop (Z.to_nat off) l), s) else Fault OutOfBounds
  | None => Fault OutOfBounds
  end.

Definition mem_write (b : N) (off : Z) (bs : list Z) : M (uds_state E) unit := fun s =>
  match mem s !! b with
  | Some l =>
      if (0 <=? off) && (off + Z.of_nat (length bs) <=? Z.of_nat (length l))
      then Ok (tt, set_mem <[b := write_at (Z.to_nat off) bs l]> s) else Fault OutOfBounds
  | None => Fault OutOfBounds
  end.

(** The same through a pointer that may be NULL. *)
Definition blk_read (p : option N) (off len : Z) : M (uds_state E) (list Z) :=
  b ← fnptr p; mem_read b off len.

Definition blk_write (p : option N) (off : Z) (bs : list Z) : M (uds_state E) unit :=
  b ← fnptr p; mem_write b off bs.

(** All the bytes a pointer to the start of a block gives access to. *)
Definition mem_all (b : N) : M (uds_state E) (list Z) := fun s =>
  match mem s !! b with Some l => Ok (l, s) | None => Fault OutOfBounds end.
Definition blk_all (p : option N) : M (uds_state E) (list Z) := b ← fnptr p; mem_all b.

(** [ctx->config->tx_buffer[i] = v] *)
Definition tx_set (cfg : uds_config E) (i v : Z) : M (uds_state E) unit :=
  blk_write (tx_buffer cfg) i [v].

(** [1u << n] on a 32-bit unsigned: the amount must be below 32. *)
Definition shl1u (n : Z) : M (uds_state E) Z :=
  if (0 <=? n) && (n <? 32) then mret (u32 (Z.shiftl 1 n)) else mfault ShiftOverflow.

(** [(uint8_t) -(int32_t) res]: the NRC a callback reports as a negative result.
    Callback results are [int]s other than [INT_MIN], whose negation C leaves undefined. *)
Definition nrc_of (res : Z) : Z := u8 (- res).

(** A linear search [for (i = 0; i < count; i++) if (p(a[i])) return &a[i];]
    over an array of which only the first [count] entries may be read. *)
Fixpoint array_find {T} (p : T -> bool) (fuel : nat) (a : list T) : M (uds_state E) (option T) :=
  match fuel with
  | O => mret None
  | S fuel' =>
      match a with
      | [] => mfault OutOfBounds
      | x :: a' => if p x then mret (Some x) else array_find p fuel' a'
      end
  end.

(** [if (fn) fn(...)] with a result, and its event. *)
Definition mutex_op (fn : option (N -> M E unit)) (h : N) (ev : event) : M (uds_state E) unit :=
  match fn with
  | Some f => call (f h) ;; emit ev
  | None => mret tt
  end.

(** ** Rules *)

Implicit Types (s : uds_state E).

Lemma wp_get_ctx (Q : uds_ctx -> uds_state E -> Prop) s : Q (ctx s) s -> wp get_ctx Q s.
Proof. done. Qed.

Lemma wp_mod_ctx f (Q : unit -> uds_state E -> Prop) s : Q tt (set_ctx f s) -> wp (mod_ctx f) Q s.
Proof. done. Qed.

Lemma wp_emit ev (Q : unit -> uds_state E -> Prop) s : Q tt (add_event ev s) -> wp (emit ev) Q s.
Proof. done. Qed.

Lemma wp_call {A} (cb : M E A) (Q : A -> uds_state E -> Prop) s :
  wp cb (fun a e => Q a (set_env e s)) (env s) -> wp (call cb) Q s.
Proof. apply wp_zoom. Qed.

Lemma wp_config_of (cfg : uds_config E) (Q : uds_config E -> uds_state E -> Prop) s :
  Q cfg s -> wp (config_of (Some cfg)) Q s.
Proof. done. Qed.

Lemma wp_data_at data i b (Q : Z -> uds_state E -> Prop) s :
  0 <= i -> data !! Z.to_nat i = Some b -> Q b s -> wp (data_at data i) Q s.
Proof. intros Hi Hb HQ. unfold data_at. by rewrite (proj2 (Z.leb_le 0 i) Hi), Hb. Qed.

Lemma wp_data_from data k (Q : list Z -> uds_state E -> Prop) s :
  0 <= k <= Z.of_nat (length data) -> Q (drop (Z.to_nat k) data) s -> wp (data_from data k) Q s.
Proof.
  intros [H1 H2] HQ. unfold data_from.
  by rewrite (proj2 (Z.leb_le _ _) H1), (proj2 (Z.leb_le _ _) H2).
Qed.

Lemma wp_blk_read b off len l (Q : list Z -> uds_state E -> Prop) s :
  mem s !! b = Some l -> 0 <= off -> 0 <= len -> off + len <= Z.of_nat (length l) ->
  Q (take (Z.to_nat len) (drop (Z.to_nat off) l)) s -> wp (blk_read (Some b) off len) Q s.
Proof.
  intros Hl Ho Hn Hb HQ. unfold wp, blk_read, mem_read, mbind, M_bind, fnptr, mret, M_ret.
  rewrite Hl, (proj2 (Z.leb_le _ _) Ho), (proj2 (Z.leb_le _ _) Hn), (proj2 (Z.leb_le _ _) Hb). done.
Qed.

Lemma wp_blk_write b off bs l (Q : unit -> uds_state E -> Prop) s :
  mem s !! b = Some l -> 0 <= off -> off + Z.of_nat (length bs) <= Z.of_nat (length l) ->
  Q tt (set_mem <[b := write_at (Z.to_nat off) bs l]> s) -> wp (blk_write (Some b) off bs) Q s.
Proof.
  intros Hl Ho Hb HQ. unfold wp, blk_write, mem_write, mbind, M_bind, fnptr, mret, M_ret.
  by rewrite Hl, (proj2 (Z.leb_le _ _) Ho), (proj2 (Z.leb_le _ _) Hb).
Qed.

Lemma wp_shl1u n (Q : Z -> uds_state E -> Prop) s :
  0 <= n < 32 -> Q (2 ^ n) s -> wp (shl1u n) Q s.
Proof.
  intros [H1 H2] HQ. unfold shl1u.
  rewrite (proj2 (Z.leb_le _ _) H1), (proj2 (Z.ltb_lt _ _) H2). simpl.
  apply wp_ret. rewrite Z.shiftl_1_l, u32_small; [done|].
  split; [by apply Z.pow_nonneg|]. by apply (Z.pow_lt_mono_r 2 n 32).
Qed.

Lemma wp_array_find {T} (p : T -> bool) n a (Q : option T -> uds_state E -> Prop) s :
  (n <= length a)%nat ->
  (forall x, x ∈ take n a -> p x = true -> Q (Some x) s) ->
  (Forall (fun x => p x = false) (take n a) -> Q None s) ->
  wp (array_find p n a) Q s.
Proof.
  revert a. induction n as [|n IH]; intros a Hn Hs Hf; simpl; [apply wp_ret, Hf; constructor|].
  destruct a as [|x a]; [cbn in Hn; lia|]. cbn [take length] in *.
  destruct (p x) eqn:Hx; [apply wp_ret, Hs; [left|done]|].
  apply IH; [lia| |].
  - intros y Hy Hp. apply Hs; [by right|done].
  - intros H. apply Hf. by constructor.
Qed.

(** The search returns the first match of the readable prefix. *)
Lemma array_find_run {T} (p : T -> bool) n a s :
  (n <= length a)%nat -> array_find p n a s = Ok (List.find p (take n a), s).
Proof.
  revert a. induction n as [|n IH]; intros a Hn; simpl; [done|].
  destruct a as [|x a]; [cbn in Hn; lia|]. cbn [take length List.find] in *.
  destruct (p x); [done|]. apply IH. lia.
Qed.
End Machine.

Arguments get_ctx {E}.
Arguments mod_ctx {E} _.
Arguments emit {E} _.
