(* ===== verification/CoreBase.v ===== *)
(** * Shared services of [src/core/uds_core.c]

    Logging, the DID registry, address parsing, and the two ways a message
    leaves the stack: [uds_send_response] and [uds_send_nrc]. *)

From S2P Require Import Prelude Monad Types Machine.
From stdpp Require Import base gmap list strings numbers.

Open Scope Z_scope.

Section CoreBase.
Context {E : Type}.

Definition uds_internal_log (ctx : ctx_ptr E) (level : Z) (msg : string) : M (uds_state E) unit :=
  match ctx with
  | Some cfg =>
      match fn_log cfg with
      | Some f => mwhen (level <=? log_level cfg) (call (f level msg) ;; emit (EvLog level msg))
      | None => mret tt
      end
  | None => mret tt
  end.

Definition uds_internal_find_did (ctx : ctx_ptr E) (id : Z)
    : M (uds_state E) (option (uds_did_entry E)) :=
  match ctx with
  | None => mret None
  | Some cfg =>
      let table := did_table cfg in
      array_find (fun e => did_id e =? id) (Z.to_nat (did_count table)) (did_entries table)
  end.

(** One of the two accumulation loops: [n] bytes from [data[off]]. *)
Definition parse_be (data : list Z) (off n : Z) : M (uds_state E) Z :=
  mfold (seqZ 0 n) 0 (fun acc i => b ← data_at data (off + i); mret (be_step acc b)).

Definition uds_internal_parse_addr_len (data : list Z) (len format : Z)
    : M (uds_state E) (option (Z * Z)) :=
  let addr_len := u8 (Z.land format UDS_MASK_NIBBLE) in
  let size_len := u8 (Z.land (Z.shiftr format 4) UDS_MASK_NIBBLE) in
  if (addr_len =? 0) || (addr_len >? 4) || (size_len =? 0) || (size_len >? 4) then mret None
  else if len <? u16 (addr_len + size_len) then mret None
  else
    addr ← parse_be data 0 addr_len;
    size ← parse_be data addr_len size_len;
    mret (Some (addr, size)).

(** [ctx->config->fn_tp_send(ctx, ctx->config->tx_buffer, len)] *)
Definition tp_send (cfg : uds_config E) (len : Z) : M (uds_state E) Z :=
  c ← get_ctx;
  f ← fnptr (fn_tp_send cfg);
  sdu ← blk_read (tx_buffer cfg) 0 len;
  ret ← call (f c sdu len);
  emit (EvSend sdu ret) ;;
  mret ret.

Definition uds_send_response (ctx : ctx_ptr E) (len : Z) : M (uds_state E) Z :=
  match ctx with
  | None => mret UDS_ERR_NOT_INIT
  | Some cfg =>
      match tx_buffer cfg with
      | None => mret UDS_ERR_NOT_INIT
      | Some _ =>
          if len >? tx_buffer_size cfg then mret UDS_ERR_BUFFER_TOO_SMALL
          else
            mod_ctx (set_p2_msg_pending false) ;;
            c ← get_ctx;
            if suppress_pos_resp c then
              mod_ctx (set_suppress_pos_resp false) ;;
              mod_ctx (set_rcrrp_count 0) ;;
              mret UDS_OK
            else
              mod_ctx (set_rcrrp_count 0) ;;
              tp_send cfg len
      end
  end.

Definition uds_send_nrc (ctx : ctx_ptr E) (sid nrc : Z) : M (uds_state E) Z :=
  match ctx with
  | None => mret UDS_ERR_NOT_INIT
  | Some cfg =>
      match tx_buffer cfg with
      | None => mret UDS_ERR_NOT_INIT
      | Some _ =>
          if tx_buffer_size cfg <? 3 then mret UDS_ERR_BUFFER_TOO_SMALL
          else
            c ← get_ctx;
            mwhen (negb (nrc =? UDS_NRC_RESPONSE_PENDING) && (sid =? pending_sid c))
              (mod_ctx (set_p2_msg_pending false)) ;;
            tx_set cfg 0 UDS_NRC_SERVICE_NOT_SUPP_IN_SESS ;;
            tx_set cfg 1 sid ;;
            tx_set cfg 2 nrc ;;
            tp_send cfg 3
      end
  end.

(** [ctx->config->get_time_ms()], a [uint32_t]. *)
Definition time_ms (cfg : uds_config E) : M (uds_state E) Z :=
  f ← fnptr (get_time_ms cfg);
  t ← call f;
  mret (u32 t).

(** An application callback that fills the response from [tx_buffer[off]] on. *)
Definition call_out (cfg : uds_config E) (off : Z) (cb : M E (Z * list Z)) : M (uds_state E) Z :=
  p ← call cb;
  blk_write (tx_buffer cfg) off p.2 ;;
  mret p.1.

(** [if (fn_nvm_save) { state = {session, security}; fn_nvm_save(ctx, state, 2); }] *)
Definition nvm_save (cfg : uds_config E) : M (uds_state E) unit :=
  match fn_nvm_save cfg with
  | Some f =>
      c ← get_ctx;
      let st := [active_session c; security_level c] in
      call (f c st 2) ;;
      emit (EvNvmSave st)
  | None => mret tt
  end.

(** The per-DID checks shared by 0x22, 0x2E and 0x2F: a zero mask admits all,
    otherwise bit [active_session - 1] (resp. [security_level]) must be set. *)
Definition did_session_ok (entry : uds_did_entry E) : M (uds_state E) bool :=
  if did_session_mask entry =? 0 then mret true
  else
    c ← get_ctx;
    bit ← shl1u (u32 (active_session c - 1));
    mret (negb (Z.land bit (did_session_mask entry) =? 0)).

Definition did_security_ok (entry : uds_did_entry E) : M (uds_state E) bool :=
  if did_security_mask entry =? 0 then mret true
  else
    c ← get_ctx;
    bit ← shl1u (security_level c);
    mret (negb (Z.land bit (did_security_mask entry) =? 0)).
End CoreBase.

(** ** The per-DID checks as predicates of the context *)

Definition session_allows {E} (en : uds_did_entry E) (c : uds_ctx) : bool :=
  (did_session_mask en =? 0) || negb (Z.land (2 ^ (active_session c - 1)) (did_session_mask en) =? 0).
Definition security_allows {E} (en : uds_did_entry E) (c : uds_ctx) : bool :=
  (did_security_mask en =? 0) || negb (Z.land (2 ^ security_level c) (did_security_mask en) =? 0).

(** ** Address parsing against a reference decoder *)

(** The reference: two length nibbles, then two big-endian numbers. *)
Definition parse_spec (data : list Z) (len format : Z) : option (Z * Z) :=
  let addr_len := format mod 16 in
  let size_len := (format / 16) mod 16 in
  if bool_decide (1 <= addr_len <= 4 /\ 1 <= size_len <= 4 /\ addr_len + size_len <= len) then
    Some (be_combine (take (Z.to_nat addr_len) data),
          be_combine (take (Z.to_nat size_len) (drop (Z.to_nat addr_len) data)))
  else None.

Section Parse.
Context {E : Type}.
Implicit Types s : uds_state E.

Lemma parse_be_loop data off (n : nat) k acc s :
  0 <= off -> 0 <= k -> off + k + Z.of_nat n <= Z.of_nat (length data) ->
  mfold (seqZ k (Z.of_nat n)) acc (fun acc i => b ← data_at data (off + i); mret (be_step acc b)) s =
  Ok (fold_left be_step (take n (drop (Z.to_nat (off + k)) data)) acc, s).
Proof.
  revert k acc. induction n as [|n IH]; intros k acc Ho Hk Hn; [done|].
  rewrite seqZ_cons by lia. cbn [mfold].
  destruct (lookup_lt_is_Some_2 data (Z.to_nat (off + k))) as [b Hb]; [lia|].
  rewrite (bind_ok _ _ s (be_step acc b) s).
  - replace (Z.pred (Z.of_nat (S n))) with (Z.of_nat n) by lia.
    rewrite IH by lia. rewrite (drop_S _ b _ Hb). cbn [take fold_left].
    by replace (Z.to_nat (off + Z.succ k)) with (S (Z.to_nat (off + k))) by lia.
  - unfold data_at. rewrite (proj2 (Z.leb_le _ _)) by lia. by rewrite Hb.
Qed.

Lemma parse_be_run data off n s :
  0 <= off -> 0 <= n -> off + n <= Z.of_nat (length data) ->
  parse_be data off n s = Ok (be_combine (take (Z.to_nat n) (drop (Z.to_nat off) data)), s).
Proof.
  intros Ho Hn Hl. unfold parse_be. rewrite <- (Z2Nat.id n) at 1 by lia.
  rewrite parse_be_loop by lia. by rewrite Z.add_0_r.
Qed.

(** The parser is the reference decoder, and reads nothing past [len]. *)
Lemma parse_run data len format s :
  0 <= format < 256 -> len <= Z.of_nat (length data) ->
  uds_internal_parse_addr_len data len format s = Ok (parse_spec data len format, s).
Proof.
  intros Hf Hl. unfold uds_internal_parse_addr_len, parse_spec, UDS_MASK_NIBBLE.
  rewrite !land_15, shiftr_4. rewrite !(u8_small (_ mod 16)) by zlia.
  rewrite (u16_small (_ + _)) by zlia. rewrite !Z.gtb_ltb.
  case_bool_decide as Hb.
  - rewrite !(proj2 (Z.eqb_neq _ _)), !(proj2 (Z.ltb_ge _ _)) by lia. cbn [orb].
    do 2 erewrite bind_ok by (apply parse_be_run; lia).
    by rewrite drop_0.
  - destruct (_ || _)%bool eqn:Hc; [done|]. bool_prop.
    destruct (len <? _) eqn:Hd; [done|]. bool_prop. exfalso. apply Hb. zlia.
Qed.

Lemma wp_parse data len format (Q : option (Z * Z) -> uds_state E -> Prop) s :
  0 <= format < 256 -> len <= Z.of_nat (length data) ->
  Q (parse_spec data len format) s -> wp (uds_internal_parse_addr_len data len format) Q s.
Proof. intros Hf Hl HQ. by apply (run_wp _ _ _ _ _ (parse_run data len format s Hf Hl)). Qed.

(** The encoding of an address of [na] bytes and a size of [ns] bytes. *)
Lemma parse_spec_encoded (na ns : nat) addr size rest len :
  (1 <= na <= 4)%nat -> (1 <= ns <= 4)%nat ->
  0 <= addr < 2 ^ (8 * Z.of_nat na) -> 0 <= size < 2 ^ (8 * Z.of_nat ns) ->
  Z.of_nat (na + ns) <= len ->
  parse_spec (be_split na addr ++ be_split ns size ++ rest) len (16 * Z.of_nat ns + Z.of_nat na) =
    Some (addr, size).
Proof.
  intros Ha Hs Haddr Hsize Hlen. unfold parse_spec.
  replace ((16 * Z.of_nat ns + Z.of_nat na) mod 16) with (Z.of_nat na) by zlia.
  replace ((16 * Z.of_nat ns + Z.of_nat na) / 16 mod 16) with (Z.of_nat ns) by zlia.
  rewrite bool_decide_eq_true_2 by lia. rewrite !Nat2Z.id.
  rewrite take_app_length', drop_app_length', take_app_length' by (by rewrite length_be_split).
  by rewrite !be_combine_split by lia.
Qed.

(** A request that parses has both length nibbles in range and is long enough. *)
Lemma parse_spec_len data len format p :
  parse_spec data len format = Some p ->
  1 <= format mod 16 <= 4 /\ 1 <= (format / 16) mod 16 <= 4 /\
  format mod 16 + (format / 16) mod 16 <= len.
Proof. unfold parse_spec. case_bool_decide; naive_solver. Qed.

(** Parsing inverts encoding: an address and a size written big-endian in one to
    four bytes each, under the format byte that says so, parse back to themselves, and
    the parse fails exactly when the length given is shorter than the two fields. *)
Theorem parse_addr_len_roundtrip (na ns : nat) addr size rest len s :
  (1 <= na <= 4)%nat -> (1 <= ns <= 4)%nat ->
  0 <= addr < 2 ^ (8 * Z.of_nat na) -> 0 <= size < 2 ^ (8 * Z.of_nat ns) ->
  len <= Z.of_nat (na + ns + length rest) ->
  uds_internal_parse_addr_len (be_split na addr ++ be_split ns size ++ rest) len
    (16 * Z.of_nat ns + Z.of_nat na) s =
  Ok (if len <? Z.of_nat (na + ns) then None else Some (addr, size), s).
Proof.
  intros. rewrite parse_run; [|lia|rewrite !length_app, !length_be_split; lia].
  destruct (Z.ltb_spec len (Z.of_nat (na + ns))); [|by rewrite parse_spec_encoded].
  unfold parse_spec. rewrite bool_decide_eq_false_2; [done|]. zlia.
Qed.

(** The values the parser yields fit 32 bits. *)
Lemma parse_spec_bound data len format addr size :
  Forall is_byte data -> parse_spec data len format = Some (addr, size) ->
  0 <= addr < 4294967296 /\ 0 <= size < 4294967296.
Proof.
  unfold parse_spec. intros Hb. case_bool_decide as Hc; [|done]. intros [= <- <-].
  assert (H : forall k l, Forall is_byte l -> 1 <= k <= 4 ->
    0 <= be_combine (take (Z.to_nat k) l) < 4294967296).
  { intros k l Hl Hk.
    assert (length (take (Z.to_nat k) l) <= 4)%nat by (rewrite length_take; lia).
    pose proof (be_combine_bound (take (Z.to_nat k) l) (Forall_take _ _ _ Hl) H) as B.
    assert (2 ^ (8 * Z.of_nat (length (take (Z.to_nat k) l))) <= 2 ^ 32)
      by (apply Z.pow_le_mono_r; lia). lia. }
  split; apply H; try lia; [done|by apply Forall_drop].
Qed.
End Parse.

Lemma wp_did_session {E} (en : uds_did_entry E) (Q : bool -> uds_state E -> Prop) s :
  1 <= active_session (ctx s) <= 32 -> Q (session_allows en (ctx s)) s -> wp (did_session_ok en) Q s.
Proof.
  intros Hs HQ. unfold did_session_ok, session_allows in *. destruct (_ =? 0); [by apply wp_ret|].
  apply wp_bind, wp_get_ctx, wp_bind. rewrite u32_small by lia. apply wp_shl1u; [lia|].
  by apply wp_ret.
Qed.

Lemma wp_did_security {E} (en : uds_did_entry E) (Q : bool -> uds_state E -> Prop) s :
  0 <= security_level (ctx s) < 32 -> Q (security_allows en (ctx s)) s -> wp (did_security_ok en) Q s.
Proof.
  intros Hs HQ. unfold did_security_ok, security_allows in *. destruct (_ =? 0); [by apply wp_ret|].
  apply wp_bind, wp_get_ctx, wp_bind, wp_shl1u; [lia|]. by apply wp_ret.
Qed.
