(* ===== verification/Contract.v ===== *)
(** * Contracts between the core, the application and the service handlers

    [ConfigOk] is what the core relies on from the application: its mandatory
    callbacks exist, no callback faults, a callback with an output buffer
    respects the buffer's length, the transport returns 0 or a negative code.
    [HandlerSpec] is what the core relies on from a service handler, and what
    the core's theorems are proved against. [uds_inv] is the state invariant
    all of them maintain; [ctx_typed], part of it, puts every field of the context
    in the range of its C type. *)

From S2P Require Import Prelude Monad Types Machine CoreBase.
From stdpp Require Import base gmap list strings numbers.

Open Scope Z_scope.

(** The smallest [tx_buffer] the fixed-size responses fit in (0x3D echoes up
    to 2 + 4 + 4 bytes). *)
Definition MIN_TX : Z := 10.

(** Messages: a negative response, and what answers a request for [sd]. *)
Definition negative (sd nrc : Z) : list Z := [UDS_NRC_SERVICE_NOT_SUPP_IN_SESS; sd; nrc].

Definition response_to (sd : Z) (b : list Z) : Prop :=
  (exists nrc, b = negative sd nrc) \/ (exists rest, b = u8 (sd + UDS_RESPONSE_OFFSET) :: rest).

(** A positive response that bit 7 of the request may suppress, and a rejection,
    as the events they leave. *)
Definition reply (suppressed : bool) (b : list Z) (evs : list event) : Prop :=
  if suppressed then evs = [] else exists r, r <= 0 /\ evs = [EvSend b r].
Definition rejected (sd nrc : Z) (evs : list event) : Prop :=
  exists r, r <= 0 /\ evs = [EvSend (negative sd nrc) r].

(** The mutex callbacks among the events. *)
Definition is_mutex (ev : event) : bool :=
  match ev with EvLock | EvUnlock => true | _ => false end.
Definition mutex_ops (evs : list event) : list event := filter (fun ev => is_mutex ev = true) evs.

Section Contract.
Context {E : Type}.

(** A callback that never faults from a good environment, keeps it good and
    returns something acceptable. *)
Definition cb_ok (env_ok : E -> Prop) {A} (m : M E A) (R : A -> Prop) : Prop :=
  forall e, env_ok e -> wp m (fun a e' => R a /\ env_ok e') e.

(** [m], called in some environment of the run, returned [a]; and the value the
    clock shows in [e]. They tie what a theorem says was read to what the
    application's callbacks answered. *)
Definition returns (env_ok : E -> Prop) {A} (m : M E A) (a : A) : Prop :=
  exists e e', env_ok e /\ m e = Ok (a, e').

Definition clock_reads (cfg : uds_config E) (e : E) (t : Z) : Prop :=
  exists f r e', get_time_ms cfg = Some f /\ f e = Ok (r, e') /\ t = u32 r.

Lemma cb_ok_returns (env_ok : E -> Prop) {A} (m : M E A) R :
  cb_ok env_ok m R -> cb_ok env_ok m (fun a => R a /\ returns env_ok m a).
Proof.
  intros H e He. specialize (H e He). unfold wp in *. destruct (m e) as [[a e']|] eqn:Hm; [|done].
  destruct H as [HR He']. repeat split; [done| |done]. by exists e, e'.
Qed.

(** What an output callback may return: a length it was offered, or an error. *)
Definition out_ok (max : Z) (p : Z * list Z) : Prop :=
  Z.of_nat (length p.2) <= max /\ p.1 <= max.

Record DidOk (env_ok : E -> Prop) (en : uds_did_entry E) : Prop := {
  ok_did_size : 0 <= did_size en < 65536;
  ok_did_read f : did_read en = Some f ->
    forall c d n, 0 <= n -> cb_ok env_ok (f c d n) (fun p => Z.of_nat (length p.2) <= n);
  ok_did_write f : did_write en = Some f -> forall c d v n, cb_ok env_ok (f c d v n) (fun _ => True)
}.

(** What the stack relies on from the configuration. Three members ask for more than
    [uds_config.h] does. [ok_periodic]: the header marks [fn_periodic_read] optional, but
    [uds_process] calls it unchecked; [PeriodicRead] carries what is proved over to a
    configuration without it. [ok_key]: a key callback accepts only levels below 32,
    because the level is shifted by. [ok_mem_write]: [fn_mem_write] gets a size that may
    exceed the payload ([SvcMem.write_memory_exact]) and must not read beyond it. *)
Class ConfigOk (env_ok : E -> Prop) (tb : N) (cfg : uds_config E) : Prop := {
  ok_time : exists f, get_time_ms cfg = Some f /\ cb_ok env_ok f (fun _ => True);
  ok_tp : exists f, fn_tp_send cfg = Some f /\
    forall c sdu, cb_ok env_ok (f c sdu (Z.of_nat (length sdu))) (fun r => r <= 0);
  ok_tx : tx_buffer cfg = Some tb;
  ok_tx_size : MIN_TX <= tx_buffer_size cfg < 65536;
  ok_p2 : 0 <= cfg_p2_ms cfg < 65536 /\ 0 <= cfg_p2_star_ms cfg < 4294967296;
  ok_log f : fn_log cfg = Some f -> forall l m, cb_ok env_ok (f l m) (fun _ => True);
  ok_reset f : fn_reset cfg = Some f -> forall c t, cb_ok env_ok (f c t) (fun _ => True);
  ok_comm f : fn_comm_control cfg = Some f -> forall c t u, cb_ok env_ok (f c t u) (fun _ => True);
  ok_seed f : fn_security_seed cfg = Some f -> forall c l n, 0 <= n -> cb_ok env_ok (f c l n) (out_ok n);
  ok_key f : fn_security_key cfg = Some f ->
    forall c l s k n, cb_ok env_ok (f c l s k n) (fun r => r = 0 -> l < 32);
  ok_safe f : fn_is_safe cfg = Some f -> forall c i d l, cb_ok env_ok (f c i d l) (fun _ => True);
  ok_nvm_save f : fn_nvm_save cfg = Some f -> forall c d l, cb_ok env_ok (f c d l) (fun _ => True);
  ok_dtc_read f : fn_dtc_read cfg = Some f -> forall c i n, 0 <= n -> cb_ok env_ok (f c i n) (out_ok n);
  ok_dtc_clear f : fn_dtc_clear cfg = Some f -> forall c g, cb_ok env_ok (f c g) (fun _ => True);
  ok_auth f : fn_auth cfg = Some f -> forall c i d l n, 0 <= n -> cb_ok env_ok (f c i d l n) (out_ok n);
  ok_routine f : fn_routine_control cfg = Some f ->
    forall c t i d l n, 0 <= n -> cb_ok env_ok (f c t i d l n) (out_ok n);
  ok_download f : fn_request_download cfg = Some f -> forall c a n, cb_ok env_ok (f c a n) (fun _ => True);
  ok_transfer f : fn_transfer_data cfg = Some f ->
    forall c q d l, cb_ok env_ok (f c q d l) (fun _ => True);
  ok_exit f : fn_transfer_exit cfg = Some f -> forall c, cb_ok env_ok (f c) (fun _ => True);
  ok_mem_read f : fn_mem_read cfg = Some f ->
    forall c a n, 0 <= n -> cb_ok env_ok (f c a n) (fun p => Z.of_nat (length p.2) <= n);
  ok_mem_write f : fn_mem_write cfg = Some f -> forall c a n d, cb_ok env_ok (f c a n d) (fun _ => True);
  ok_io f : fn_io_control cfg = Some f ->
    forall c t i d l n, 0 <= n -> cb_ok env_ok (f c t i d l n) (out_ok n);
  ok_upload f : fn_request_upload cfg = Some f -> forall c a n, cb_ok env_ok (f c a n) (fun _ => True);
  ok_periodic : exists f, fn_periodic_read cfg = Some f /\
    forall c i n, 0 <= n -> cb_ok env_ok (f c i n) (fun p => p.1 <= Z.of_nat (length p.2) <= n);
  ok_lock f : fn_mutex_lock cfg = Some f -> forall h, cb_ok env_ok (f h) (fun _ => True);
  ok_unlock f : fn_mutex_unlock cfg = Some f -> forall h, cb_ok env_ok (f h) (fun _ => True);
  ok_did_count : 0 <= did_count (did_table cfg) <= Z.of_nat (length (did_entries (did_table cfg)));
  ok_dids : Forall (DidOk env_ok) (did_entries (did_table cfg))
}.

(** ** The state invariant *)

(** Every numeric field within its C type. *)
Record ctx_typed (c : uds_ctx) : Prop := {
  ty_state : 0 <= ctx_state c < 256;
  ty_msg_time : 0 <= last_msg_time c < 4294967296;
  ty_p2_start : 0 <= p2_timer_start c < 4294967296;
  ty_pending : 0 <= pending_sid c < 256;
  ty_comm : 0 <= comm_state c < 256;
  ty_p2 : 0 <= p2_ms c < 65536;
  ty_p2_star : 0 <= p2_star_ms c < 4294967296;
  ty_flash : 0 <= flash_sequence c < 256;
  ty_delay : 0 <= security_delay_end c < 4294967296;
  ty_attempts : 0 <= security_attempts c < 256;
  ty_rcrrp : 0 <= rcrrp_count c < 65536;
  ty_ids : Forall is_byte (periodic_ids c);
  ty_rates : Forall is_byte (periodic_rates c);
  ty_timers : Forall (fun t => 0 <= t < 4294967296) (periodic_timers c);
  ty_count : 0 <= periodic_count c < 256
}.

(** Moreover session and level can be shifted by, and the tables have eight slots. *)
Record ctx_ok (c : uds_ctx) : Prop := {
  ctx_session : 1 <= active_session c <= 32;
  ctx_level : 0 <= security_level c < 32;
  ctx_ids : length (periodic_ids c) = 8%nat;
  ctx_rates : length (periodic_rates c) = 8%nat;
  ctx_timers : length (periodic_timers c) = 8%nat;
  ctx_types : ctx_typed c
}.

(** The buffers the configuration points to exist with their sizes; the receive
    buffer is no other buffer and holds bytes. *)
Record mem_ok (tb : N) (cfg : uds_config E) (m : gmap N (list Z)) : Prop := {
  mem_tx : exists l, m !! tb = Some l /\ Z.of_nat (length l) = tx_buffer_size cfg;
  mem_dids : Forall (fun e => forall st, did_storage e = Some st ->
      exists l, m !! st = Some l /\ did_size e <= Z.of_nat (length l))
    (did_entries (did_table cfg));
  mem_rx rb : rx_buffer cfg = Some rb ->
    rb <> tb /\ Forall (fun e => did_storage e <> Some rb) (did_entries (did_table cfg)) /\
    exists l, m !! rb = Some l /\ Z.of_nat (length l) = rx_buffer_size cfg /\ Forall is_byte l
}.

Record uds_inv (env_ok : E -> Prop) (tb : N) (cfg : uds_config E) (s : uds_state E) : Prop := {
  inv_ctx : ctx_ok (ctx s);
  inv_mem : mem_ok tb cfg (mem s);
  inv_env : env_ok (env s)
}.

(** ** What a handler promises *)

(** Bit 7 of the subfunction byte. *)
Definition bit7 (data : list Z) : bool :=
  match data !! 1%nat with Some b => negb (Z.land b UDS_MASK_SUPPRESS_POS_RESP =? 0) | None => false end.

(** At most one message leaves, it answers [sd], and none leaves only for a
    suppressed response or a deferred one. *)
Definition answered (sd : Z) (suppressed : bool) (evs : list event) (r : Z) : Prop :=
  (exists b, sends evs = [b] /\ response_to sd b /\ r <= 0) \/
  (sends evs = [] /\ suppressed = true /\ r <= 0) \/
  (sends evs = [] /\ r = UDS_PENDING).

(** The only ways a handler moves the access rights. *)
Definition access_step (sd : Z) (c c' : uds_ctx) (evs : list event) : Prop :=
  (active_session c' = active_session c \/
   sd = UDS_SID_SESSION_CONTROL /\ 1 <= active_session c' <= 3) /\
  (security_level c' = security_level c \/
   sd = UDS_SID_SESSION_CONTROL /\ security_level c' = 0 \/
   sd = UDS_SID_SECURITY_ACCESS /\ exists key, EvKey (security_level c') key 0 ∈ evs).

Record handler_post (env_ok : E -> Prop) (tb : N) (cfg : uds_config E) (sd : Z)
    (s : uds_state E) (r : Z) (s' : uds_state E) : Prop := {
  hp_inv : uds_inv env_ok tb cfg s';
  hp_trace : exists evs, trace s' = trace s ++ evs /\
    mutex_ops evs = [] /\
    answered sd (suppress_pos_resp (ctx s)) evs r /\
    access_step sd (ctx s) (ctx s') evs
}.

Class HandlerSpec (env_ok : E -> Prop) (tb : N) (cfg : uds_config E) (sd minlen : Z)
    (has_sub : bool) (h : list Z -> Z -> M (uds_state E) Z) : Prop :=
  handler_spec : forall data len s,
    Forall is_byte data -> data !! 0%nat = Some sd ->
    minlen <= len <= Z.of_nat (length data) -> len < 65536 ->
    (has_sub = true -> 2 <= len /\ suppress_pos_resp (ctx s) = bit7 data) ->
    uds_inv env_ok tb cfg s ->
    wp (h data len) (handler_post env_ok tb cfg sd s) s.

(** A table entry whose handler keeps its promise. *)
Record ServiceOk (env_ok : E -> Prop) (tb : N) (cfg : uds_config E) (e : uds_service_entry E) : Prop := {
  svc_handler : exists h, handler e = Some h /\
    HandlerSpec env_ok tb cfg (sid e) (min_len e)
      (match sub_mask e with Some _ => true | None => false end) h;
  svc_min : 1 <= min_len e;
  svc_mask m : sub_mask e = Some m -> length m = 16%nat
}.
End Contract.
