(* ===== verification/HandlerLogic.v ===== *)
(** * Program logic for the service handlers

    Rules for the operations a handler is made of, for a configuration that
    satisfies [ConfigOk], on states in the form [mkState c (<[tb := l]> m) e tr]
    with the transmit buffer's contents [l] in view; and the tactic [hsteps]
    that applies them. *)

From S2P Require Import Prelude Monad Types Machine CoreBase Contract.
From stdpp Require Import base gmap list strings numbers.

Open Scope Z_scope.

(** The context after [uds_send_nrc]. *)
Definition nrc_ctx (sd nrc : Z) (c : uds_ctx) : uds_ctx :=
  set_p2_msg_pending
    (p2_msg_pending c && negb (negb (nrc =? UDS_NRC_RESPONSE_PENDING) && (sd =? pending_sid c))) c.

(** The context after [uds_send_response]. *)
Definition resp_ctx (c : uds_ctx) : uds_ctx :=
  set_rcrrp_count 0 (set_suppress_pos_resp false (set_p2_msg_pending false c)).

(** What [nvm_save] leaves in the trace. *)
Definition nvm_events {E} (cfg : uds_config E) (c : uds_ctx) : list event :=
  match fn_nvm_save cfg with
  | Some _ => [EvNvmSave [active_session c; security_level c]]
  | None => []
  end.

Lemma set_p2_msg_pending_id c : set_p2_msg_pending (p2_msg_pending c) c = c.
Proof. by destruct c. Qed.

Lemma resp_ctx_eq c :
  suppress_pos_resp c = false -> set_rcrrp_count 0 (set_p2_msg_pending false c) = resp_ctx c.
Proof. by destruct c; cbn; intros ->. Qed.

Lemma sends_nvm {E} (cfg : uds_config E) c : sends (nvm_events cfg c) = [].
Proof. unfold nvm_events. by destruct (fn_nvm_save cfg). Qed.

Lemma mutex_nvm {E} (cfg : uds_config E) c : mutex_ops (nvm_events cfg c) = [].
Proof. unfold nvm_events. by destruct (fn_nvm_save cfg). Qed.
#[export] Hint Rewrite @sends_nvm @mutex_nvm : uds.

Section Logic.
Context {E : Type} (env_ok : E -> Prop) (tb : N) (cfg : uds_config E).
Context `{Hok : !ConfigOk env_ok tb cfg}.

(** ** Bookkeeping of the invariant *)

Lemma mem_ok_write m b l l' :
  mem_ok tb cfg m -> m !! b = Some l -> length l' = length l -> rx_buffer cfg <> Some b ->
  mem_ok tb cfg (<[b := l']> m).
Proof.
  intros [[lt [Ht Hl]] Hd Hr] Hb Hlen Hrx. split.
  - destruct (decide (b = tb)) as [->|Hne].
    + exists l'. rewrite lookup_insert_eq. split; [done|]. rewrite Hlen. by simplify_eq.
    + exists lt. by rewrite lookup_insert_ne.
  - eapply Forall_impl; [|exact Hd]. intros e He st Hst. destruct (He st Hst) as [x [Hx Hn]].
    destruct (decide (b = st)) as [->|Hne].
    + exists l'. rewrite lookup_insert_eq. split; [done|]. rewrite Hlen. by simplify_eq.
    + exists x. by rewrite lookup_insert_ne.
  - intros rb Hrb. rewrite lookup_insert_ne by congruence. by apply Hr.
Qed.

Lemma mem_ok_tx m l :
  mem_ok tb cfg m -> Z.of_nat (length l) = tx_buffer_size cfg -> mem_ok tb cfg (<[tb := l]> m).
Proof.
  intros Hm Hl. destruct (mem_tx _ _ _ Hm) as [l0 [H0 H1]].
  eapply mem_ok_write; [done..|lia|]. intros Hrb. by destruct (mem_rx _ _ _ Hm _ Hrb) as [? _].
Qed.

(** A registered DID's storage is not the receive buffer. *)
Lemma storage_not_rx m en st :
  mem_ok tb cfg m -> en ∈ did_entries (did_table cfg) -> did_storage en = Some st ->
  rx_buffer cfg <> Some st.
Proof.
  intros Hm Hen Hst Hrb. destruct (mem_rx _ _ _ Hm _ Hrb) as (_ & Hf & _).
  by apply (proj1 (Forall_forall _ _) Hf en ltac:(by apply list_elem_of_In)).
Qed.

(** Opening the invariant: the transmit buffer comes into view. *)
Lemma inv_open s :
  uds_inv env_ok tb cfg s ->
  exists c m e tr l, s = mkState c (<[tb := l]> m) e tr /\ ctx_ok c /\ mem_ok tb cfg m /\
    env_ok e /\ Z.of_nat (length l) = tx_buffer_size cfg /\ m !! tb = Some l.
Proof.
  intros [Hc Hm He]. destruct s as [c m e tr]; cbn in *.
  destruct (mem_tx _ _ _ Hm) as [l [Hl Hn]].
  exists c, m, e, tr, l. by rewrite insert_id.
Qed.

Lemma inv_close c m e tr l :
  ctx_ok c -> mem_ok tb cfg m -> env_ok e -> Z.of_nat (length l) = tx_buffer_size cfg ->
  uds_inv env_ok tb cfg (mkState c (<[tb := l]> m) e tr).
Proof. split; cbn; [done|by apply mem_ok_tx|done]. Qed.

(** ** Rules *)

Lemma wp_cb {A} (cb : M E A) (R : A -> Prop) (Q : A -> uds_state E -> Prop) c m e tr :
  cb_ok env_ok cb R -> env_ok e ->
  (forall a e', R a -> env_ok e' -> Q a (mkState c m e' tr)) ->
  wp (call cb) Q (mkState c m e tr).
Proof.
  intros Hcb He HQ. apply wp_call. eapply wp_mono; [by apply Hcb|].
  intros a e' [Ha He']. by apply HQ.
Qed.

Lemma wp_time (Q : Z -> uds_state E -> Prop) c m e tr :
  env_ok e ->
  (forall t e', 0 <= t < 4294967296 -> env_ok e' -> clock_reads cfg e t -> Q t (mkState c m e' tr)) ->
  wp (time_ms cfg) Q (mkState c m e tr).
Proof.
  intros He HQ. destruct ok_time as [f [Hf Hcb]]. unfold time_ms.
  apply wp_bind, (wp_fnptr _ f); [done|]. apply wp_bind, wp_call.
  specialize (Hcb e He). unfold wp in *. cbn [env]. destruct (f e) as [[r e']|] eqn:Hr; [|done].
  destruct Hcb as [_ He']. apply HQ; [apply u32_range|done|]. by exists f, r, e'.
Qed.

Lemma wp_byte data i (Q : Z -> uds_state E -> Prop) s :
  Forall is_byte data -> 0 <= i < Z.of_nat (length data) ->
  (forall b, is_byte b -> data !! Z.to_nat i = Some b -> Q b s) -> wp (data_at data i) Q s.
Proof.
  intros Hb Hi HQ.
  destruct (lookup_lt_is_Some_2 data (Z.to_nat i)) as [b Hd]; [lia|].
  apply wp_data_at with b; [lia|done|]. apply HQ; [|done].
  eapply Forall_lookup_1; eauto.
Qed.

Lemma wp_tx_bytes off bs (Q : unit -> uds_state E -> Prop) c m e tr l :
  0 <= off -> off + Z.of_nat (length bs) <= Z.of_nat (length l) ->
  (forall l', l' = write_at (Z.to_nat off) bs l -> length l' = length l ->
     l' !! 0%nat = (if off =? 0 then (match bs with [] => l !! 0%nat | b :: _ => Some b end)
                    else l !! 0%nat) ->
     Q tt (mkState c (<[tb := l']> m) e tr)) ->
  wp (blk_write (tx_buffer cfg) off bs) Q (mkState c (<[tb := l]> m) e tr).
Proof.
  intros Ho Hn HQ. rewrite ok_tx.
  eapply wp_blk_write; [apply lookup_insert_eq|done|done|].
  unfold set_mem; cbn [mem ctx env trace]. rewrite insert_insert_eq. apply HQ; [done| |].
  - rewrite length_write_at; lia.
  - unfold write_at. destruct (Z.eqb_spec off 0) as [->|Hne].
    + destruct bs; simpl; [by destruct l|done].
    + destruct (Z.to_nat off) as [|n] eqn:Hz; [lia|]. by destruct l; [cbn in *; lia|].
Qed.

Lemma wp_tx_set i v (Q : unit -> uds_state E -> Prop) c m e tr l :
  0 <= i < Z.of_nat (length l) ->
  (forall l', l' = write_at (Z.to_nat i) [v] l -> length l' = length l ->
     l' !! 0%nat = (if i =? 0 then Some v else l !! 0%nat) ->
     Q tt (mkState c (<[tb := l']> m) e tr)) ->
  wp (tx_set cfg i v) Q (mkState c (<[tb := l]> m) e tr).
Proof. intros Hi HQ. apply wp_tx_bytes; [lia|cbn; lia|done]. Qed.

Lemma wp_call_out off (cb : M E (Z * list Z)) (R : Z * list Z -> Prop)
    (Q : Z -> uds_state E -> Prop) c m e tr l :
  cb_ok env_ok cb R -> env_ok e -> 0 < off ->
  (forall r bs, R (r, bs) -> off + Z.of_nat (length bs) <= Z.of_nat (length l)) ->
  (forall r bs e' l', R (r, bs) -> env_ok e' ->
     l' = write_at (Z.to_nat off) bs l -> length l' = length l -> l' !! 0%nat = l !! 0%nat ->
     Q r (mkState c (<[tb := l']> m) e' tr)) ->
  wp (call_out cfg off cb) Q (mkState c (<[tb := l]> m) e tr).
Proof.
  intros Hcb He Ho Hn HQ. unfold call_out. apply wp_bind. eapply wp_cb; [done..|].
  intros [r bs] e' HR He'. apply wp_bind. apply wp_tx_bytes; [lia|eauto|].
  rewrite (proj2 (Z.eqb_neq off 0)) by lia. intros l' Hl Hlen Hh. apply wp_ret. eauto.
Qed.

(** The same for a callback whose run is known. *)
Lemma wp_call_out_run off (cb : M E (Z * list Z)) (R : Z * list Z -> Prop) r bs e'
    (Q : Z -> uds_state E -> Prop) c m e tr l :
  cb_ok env_ok cb R -> env_ok e -> cb e = Ok ((r, bs), e') -> 0 < off ->
  (R (r, bs) -> off + Z.of_nat (length bs) <= Z.of_nat (length l)) ->
  (forall l', R (r, bs) -> env_ok e' -> l' = write_at (Z.to_nat off) bs l ->
     length l' = length l -> Q r (mkState c (<[tb := l']> m) e' tr)) ->
  wp (call_out cfg off cb) Q (mkState c (<[tb := l]> m) e tr).
Proof.
  intros Hcb He Hrun Ho Hn HQ. pose proof (wp_run _ _ _ _ _ (Hcb e He) Hrun) as [HR He'].
  unfold call_out. apply wp_bind, wp_call. apply (run_wp _ _ _ _ _ Hrun).
  unfold set_env; cbn [ctx mem trace]. apply wp_bind. apply wp_tx_bytes; [lia|auto|].
  intros l' Hl Hlen _. apply wp_ret. by apply HQ.
Qed.

Lemma wp_tp_send n (Q : Z -> uds_state E -> Prop) c m e tr l :
  env_ok e -> 0 <= n <= Z.of_nat (length l) ->
  (forall r e', r <= 0 -> env_ok e' ->
     Q r (mkState c (<[tb := l]> m) e' (tr ++ [EvSend (take (Z.to_nat n) l) r]))) ->
  wp (tp_send cfg n) Q (mkState c (<[tb := l]> m) e tr).
Proof.
  intros He Hn HQ. destruct ok_tp as [f [Hf Hcb]]. unfold tp_send.
  apply wp_bind, wp_get_ctx, wp_bind, (wp_fnptr _ f); [done|]. rewrite ok_tx. apply wp_bind.
  eapply wp_blk_read; [apply lookup_insert_eq|lia..|]. apply wp_bind.
  rewrite drop_0. eapply wp_cb; [|done|].
  - replace n with (Z.of_nat (length (take (Z.to_nat n) l))) at 2; [apply Hcb|].
    rewrite length_take. lia.
  - intros r e' Hr He'. apply wp_bind, wp_emit, wp_ret. by apply HQ.
Qed.

Lemma wp_send_nrc sd nrc (Q : Z -> uds_state E -> Prop) c m e tr l :
  env_ok e -> Z.of_nat (length l) = tx_buffer_size cfg ->
  (forall r e' l', r <= 0 -> env_ok e' -> l' = write_at 0 (negative sd nrc) l ->
     length l' = length l ->
     Q r (mkState (nrc_ctx sd nrc c) (<[tb := l']> m) e' (tr ++ [EvSend (negative sd nrc) r]))) ->
  wp (uds_send_nrc (Some cfg) sd nrc) Q (mkState c (<[tb := l]> m) e tr).
Proof.
  intros He Hl HQ. pose proof ok_tx_size as Hsz. unfold MIN_TX in Hsz.
  unfold uds_send_nrc. rewrite ok_tx. rewrite (proj2 (Z.ltb_ge _ _)) by lia.
  apply wp_bind, wp_get_ctx, wp_bind.
  assert (Hgo : forall c0, c0 = nrc_ctx sd nrc c ->
    wp (tx_set cfg 0 UDS_NRC_SERVICE_NOT_SUPP_IN_SESS ;; tx_set cfg 1 sd ;; tx_set cfg 2 nrc ;;
        tp_send cfg 3) Q (mkState c0 (<[tb := l]> m) e tr)).
  { intros c0 ->.
    apply wp_bind, wp_tx_set; [lia|]. intros l1 -> Hl1 _.
    apply wp_bind, wp_tx_set; [lia|]. intros l2 -> Hl2 _.
    apply wp_bind, wp_tx_set; [lia|]. intros l3 El3 Hl3 _.
    apply wp_tp_send; [done|lia|]. intros r e' Hr He'.
    destruct l as [|b0 [|b1 [|b2 l]]]; cbn [length] in Hl; try lia.
    assert (Hw : l3 = negative sd nrc ++ l) by done. clear El3. subst l3.
    by apply HQ. }
  apply wp_when; intros Hb; cbn [ctx] in Hb.
  - apply wp_mod_ctx. apply Hgo. unfold nrc_ctx; cbn [ctx]. by rewrite Hb, andb_false_r.
  - apply Hgo. unfold nrc_ctx. by rewrite Hb, andb_true_r, set_p2_msg_pending_id.
Qed.

Lemma wp_send_response n (Q : Z -> uds_state E -> Prop) c m e tr l :
  env_ok e -> Z.of_nat (length l) = tx_buffer_size cfg -> 0 <= n <= tx_buffer_size cfg ->
  (forall r e' evs, r <= 0 -> env_ok e' ->
     reply (suppress_pos_resp c) (take (Z.to_nat n) l) evs ->
     Q r (mkState (resp_ctx c) (<[tb := l]> m) e' (tr ++ evs))) ->
  wp (uds_send_response (Some cfg) n) Q (mkState c (<[tb := l]> m) e tr).
Proof.
  intros He Hl Hn HQ. unfold uds_send_response. rewrite ok_tx, Z.gtb_ltb.
  rewrite (proj2 (Z.ltb_ge _ _)) by lia.
  apply wp_bind, wp_mod_ctx, wp_bind, wp_get_ctx. ctx_cbn.
  destruct (suppress_pos_resp c) eqn:Hs.
  - apply wp_bind, wp_mod_ctx, wp_bind, wp_mod_ctx, wp_ret.
    specialize (HQ UDS_OK e []). rewrite app_nil_r in HQ. apply HQ; done.
  - apply wp_bind, wp_mod_ctx. apply wp_tp_send; [done|lia|]. intros r e' Hr He'.
    rewrite <- (resp_ctx_eq c Hs) in HQ. apply HQ; [done..|by exists r].
Qed.

Lemma wp_log level msg (Q : unit -> uds_state E -> Prop) c m e tr :
  env_ok e ->
  (forall e' evs, env_ok e' -> sends evs = [] -> mutex_ops evs = [] ->
     Forall (fun ev => exists l s, ev = EvLog l s) evs ->
     Q tt (mkState c m e' (tr ++ evs))) ->
  wp (uds_internal_log (Some cfg) level msg) Q (mkState c m e tr).
Proof.
  intros He HQ.
  assert (Hnil : Q tt (mkState c m e tr)).
  { rewrite <- (app_nil_r tr). by apply HQ. }
  unfold uds_internal_log. destruct (fn_log cfg) as [f|] eqn:Hf; [|by apply wp_ret].
  apply wp_when; intros _; [|done].
  apply wp_bind. eapply wp_cb; [by eapply ok_log|done|]. intros _ e' _ He'.
  apply wp_emit. unfold add_event; cbn. apply HQ; eauto.
Qed.

Lemma wp_nvm_save (Q : unit -> uds_state E -> Prop) c m e tr :
  env_ok e ->
  (forall e', env_ok e' -> Q tt (mkState c m e' (tr ++ nvm_events cfg c))) ->
  wp (nvm_save cfg) Q (mkState c m e tr).
Proof.
  intros He Hs. unfold nvm_save, nvm_events in *. destruct (fn_nvm_save cfg) as [f|] eqn:Hf.
  - apply wp_bind, wp_get_ctx, wp_bind. eapply wp_cb; [by eapply ok_nvm_save|done|].
    intros _ e' _ He'. apply wp_emit. by apply Hs.
  - apply wp_ret. rewrite app_nil_r in Hs. by apply Hs.
Qed.

(** Reading the storage of a registered DID. *)
Lemma wp_storage_read en st (Q : list Z -> uds_state E -> Prop) c m e tr l :
  mem_ok tb cfg m -> Z.of_nat (length l) = tx_buffer_size cfg ->
  en ∈ did_entries (did_table cfg) -> did_storage en = Some st -> 0 <= did_size en ->
  (forall blk v, <[tb := l]> m !! st = Some blk -> did_size en <= Z.of_nat (length blk) ->
     v = take (Z.to_nat (did_size en)) blk -> Z.of_nat (length v) = did_size en ->
     Q v (mkState c (<[tb := l]> m) e tr)) ->
  wp (blk_read (Some st) 0 (did_size en)) Q (mkState c (<[tb := l]> m) e tr).
Proof.
  intros Hm Hl Hen Hst Hsz HQ. destruct (mem_ok_tx _ _ Hm Hl) as [_ Hd _].
  destruct (proj1 (Forall_forall _ _) Hd en ltac:(by apply list_elem_of_In) st Hst)
    as [blk [Hb Hn]].
  eapply wp_blk_read; [exact Hb|lia..|]. rewrite drop_0.
  apply HQ with blk; [done..|]. rewrite length_take. lia.
Qed.

(** Overwriting the storage of a registered DID. The transmit buffer keeps its
    contents unless the storage is that very buffer. *)
Lemma wp_storage_write en st v (Q : unit -> uds_state E -> Prop) c m e tr l :
  mem_ok tb cfg m -> Z.of_nat (length l) = tx_buffer_size cfg ->
  en ∈ did_entries (did_table cfg) -> did_storage en = Some st ->
  Z.of_nat (length v) = did_size en ->
  (forall m2 l2, mem_ok tb cfg m2 -> Z.of_nat (length l2) = tx_buffer_size cfg ->
     (st <> tb -> l2 = l /\ exists blk, m !! st = Some blk /\ did_size en <= Z.of_nat (length blk) /\
        m2 = <[st := write_at 0 v blk]> m) ->
     Q tt (mkState c (<[tb := l2]> m2) e tr)) ->
  wp (blk_write (Some st) 0 v) Q (mkState c (<[tb := l]> m) e tr).
Proof.
  intros Hm Hl Hen Hst Hv HQ. pose proof (mem_ok_tx _ _ Hm Hl) as Hmt.
  destruct (proj1 (Forall_forall _ _) (mem_dids _ _ _ Hmt) en ltac:(by apply list_elem_of_In) st Hst)
    as [blk [Hb Hn]].
  eapply wp_blk_write; [exact Hb|lia..|]. unfold set_mem; cbn [mem ctx env trace].
  destruct (decide (st = tb)) as [->|Hne].
  - rewrite lookup_insert_eq in Hb. injection Hb as <-. rewrite insert_insert_eq.
    apply HQ; [done| |done]. rewrite length_write_at; cbn in *; lia.
  - rewrite lookup_insert_ne in Hb by done. rewrite insert_insert_ne by done.
    apply HQ; [|done|].
    + eapply mem_ok_write; [done..| |by eapply storage_not_rx]. apply length_write_at. cbn in *. lia.
    + intros _. split; [done|]. by exists blk.
Qed.

(** The DID registry returns the first entry with the identifier, if any. *)
Lemma wp_find_did id (Q : option (uds_did_entry E) -> uds_state E -> Prop) s :
  (forall en, en ∈ did_entries (did_table cfg) -> did_id en = id -> DidOk env_ok en ->
     Q (Some en) s) ->
  Q None s ->
  wp (uds_internal_find_did (Some cfg) id) Q s.
Proof.
  intros Hs Hn. unfold uds_internal_find_did. pose proof ok_did_count.
  apply wp_array_find; [lia| |done]. intros en Hen Hid.
  apply elem_of_take in Hen as [i [Hi _]]. pose proof (ok_dids (cfg := cfg)) as Hd.
  apply Hs; [by eapply list_elem_of_lookup_2|by apply Z.eqb_eq|by eapply Forall_lookup_1].
Qed.
End Logic.

Lemma mutex_ops_app evs1 evs2 : mutex_ops (evs1 ++ evs2) = mutex_ops evs1 ++ mutex_ops evs2.
Proof. unfold mutex_ops. by rewrite list.filter_app. Qed.
#[export] Hint Rewrite mutex_ops_app : uds.

Lemma response_head sd n (l : list Z) :
  l !! 0%nat = Some (u8 (sd + UDS_RESPONSE_OFFSET)) -> 1 <= n ->
  response_to sd (take (Z.to_nat n) l).
Proof.
  intros Hl Hn. right. destruct l as [|x l]; [done|]. injection Hl as ->.
  destruct (Z.to_nat n) as [|k] eqn:Hk; [lia|]. by exists (take k l).
Qed.

Lemma response_negative sd nrc : response_to sd (negative sd nrc).
Proof. left. by exists nrc. Qed.

#[export] Hint Resolve response_head response_negative : uds.

(** ** Tactics *)

(** Bounds on lengths and buffer sizes, through the callback contracts. *)
Ltac size_tac := solve [lia | unfold out_ok in *; cbn [fst snd] in *; zlia].

(** The contract of the application callback being called. *)
Ltac cb_hyp :=
  first [ eapply ok_log; eassumption | eapply ok_reset; eassumption | eapply ok_comm; eassumption
        | eapply ok_seed; [eassumption..|size_tac] | eapply ok_key; eassumption | eapply ok_safe; eassumption
        | eapply ok_dtc_read; [eassumption..|size_tac] | eapply ok_dtc_clear; eassumption
        | eapply ok_auth; [eassumption..|size_tac] | eapply ok_routine; [eassumption..|size_tac]
        | eapply ok_download; eassumption | eapply ok_transfer; eassumption
        | eapply ok_exit; eassumption | eapply ok_mem_read; [eassumption..|size_tac]
        | eapply ok_mem_write; eassumption | eapply ok_io; [eassumption..|size_tac]
        | eapply ok_upload; eassumption | eapply ok_did_read; [eassumption..|size_tac]
        | eapply ok_did_write; eassumption | eassumption ].

Ltac state_cbn :=
  cbv beta iota zeta delta [ctx mem env trace set_ctx set_mem set_env add_event].

(** One step of symbolic execution. *)
Ltac hstep :=
  cbv beta zeta;
  lazymatch goal with
  | |- wp (mbind _ _) _ _ => apply wp_bind
  | |- wp (mret _) _ _ => apply wp_ret
  | |- wp get_ctx _ _ => apply wp_get_ctx; state_cbn
  | |- wp (mod_ctx _) _ _ => apply wp_mod_ctx; state_cbn
  | |- wp (emit _) _ _ => apply wp_emit; state_cbn
  | |- wp (config_of (Some _)) _ _ => apply wp_config_of
  | |- wp (mwhen _ _) _ _ => apply wp_when; intros ?; bool_prop
  | |- wp (data_at _ _) _ _ =>
      first [ eapply wp_data_at; [lia|eassumption|]
            | apply wp_byte; [assumption|size_tac|intros ? ? ?] ]
  | |- wp (data_from _ _) _ _ => apply wp_data_from; [size_tac|]
  | |- wp (time_ms _) _ _ => eapply wp_time; [eassumption|eassumption|intros ? ? ? ? ?]
  | |- wp (tx_set _ _ _) _ _ => eapply wp_tx_set; [eassumption|size_tac|intros ? ? ? ?]
  | |- wp (blk_write (tx_buffer _) _ _) _ _ =>
      eapply wp_tx_bytes; [eassumption|size_tac|size_tac|intros ? ? ? ?]
  | |- wp (blk_read (Some _) 0 (did_size _)) _ _ =>
      eapply wp_storage_read; [eassumption|size_tac|eassumption|eassumption|size_tac|intros ? ? ? ? ? ?]
  | |- wp (blk_write (Some _) 0 _) _ _ =>
      eapply wp_storage_write;
        [eassumption|size_tac|eassumption|eassumption
        |rewrite ?length_take, ?length_drop; size_tac|intros ? ? ? ? ?]
  | |- wp (uds_send_nrc (Some _) _ _) _ _ =>
      eapply wp_send_nrc; [eassumption|eassumption|size_tac|intros ? ? ? ? ? ? ?]
  | |- wp (uds_send_response (Some _) _) _ _ =>
      eapply wp_send_response; [eassumption|eassumption|size_tac|size_tac|intros ? ? ? ? ? ?]
  | |- wp (uds_internal_log (Some _) _ _) _ _ =>
      eapply wp_log; [eassumption|eassumption|intros ? ? ? ? ? ?]
  | |- wp (nvm_save _) _ _ => eapply wp_nvm_save; [eassumption|eassumption|intros ? ?]
  | |- wp (call _) _ _ => eapply wp_cb; [cb_hyp|eassumption|intros ? ? ? ?]
  | |- wp (call_out _ _ _) _ _ =>
      eapply wp_call_out; [eassumption|cb_hyp|eassumption|size_tac|intros ? ? ?; size_tac|intros ? ? ? ? ? ? ? ? ?]
  | |- wp (uds_internal_parse_addr_len _ _ _) _ _ =>
      apply wp_parse; [size_tac|rewrite length_drop; size_tac|]
  | |- wp (uds_internal_find_did (Some _) _) _ _ => let Hd := fresh "Hdid" in
      eapply wp_find_did; [eassumption|intros ? ? ? Hd; pose proof (ok_did_size _ _ Hd)|]
  | |- wp (did_session_ok _) _ _ => apply wp_did_session; [ctx_cbn; lia|]
  | |- wp (did_security_ok _) _ _ => apply wp_did_security; [ctx_cbn; lia|]
  | |- wp (match parse_spec ?d ?n ?f with _ => _ end) _ _ =>
      let a := fresh "addr" in let z := fresh "size" in let H := fresh "Hparse" in
      first
      [ match goal with Hp : parse_spec _ _ _ = Some _ |- _ => rewrite Hp end
      | destruct (parse_spec d n f) as [[a z]|] eqn:H;
        [pose proof (parse_spec_len _ _ _ _ H) as (? & ? & ?);
         apply parse_spec_bound in H as [? ?]; [|apply Forall_drop; assumption]|] ]
  | |- wp (if ?b then _ else _) _ _ => destruct b eqn:?; bool_prop
  | |- wp (match ?x with _ => _ end) _ _ =>
      first [ match goal with
              | H : x = Some _ |- _ => rewrite H
              | H : x = None |- _ => rewrite H
              end
            | destruct x eqn:? ]
  end.

Ltac hsteps := repeat hstep.

(** The contents of a transmit buffer filled byte by byte. *)
Ltac nat_tac :=
  repeat match goal with
  | |- context [Z.to_nat (Zpos ?p)] =>
      let n := eval vm_compute in (Pos.to_nat p) in change (Z.to_nat (Zpos p)) with n
  | H : context [Z.to_nat (Zpos ?p)] |- _ =>
      let n := eval vm_compute in (Pos.to_nat p) in change (Z.to_nat (Zpos p)) with n in H
  end;
  change (Z.to_nat 0) with 0%nat in *.
Ltac length_tac := rewrite ?length_write_at; cbn [length]; size_tac.
Ltac frame_tac :=
  subst; nat_tac; rewrite ?take_write_byte by length_tac; rewrite ?take_0; cbn [app].
(** The same in the response [H] under test. *)
Ltac frame_in H :=
  rewrite ?take_write_byte, ?take_0 in H by length_tac; cbn [app] in H.

(** Conversions to 16 and 32 bits of values that fit. *)
Ltac u16_tac :=
  repeat match goal with
  | |- context [u16 ?x] => rewrite (u16_small x) by size_tac
  | H : context [u16 ?x] |- _ => rewrite (u16_small x) in H by size_tac
  | |- context [u32 ?x] => rewrite (u32_small x) by size_tac
  | H : context [u32 ?x] |- _ => rewrite (u32_small x) in H by size_tac
  end.

(** Closing a [reply] goal with the frame a run has built. *)
Ltac reply_tac :=
  subst; nat_tac; match goal with H : reply _ _ _ |- _ => frame_in H; done end.

(** The same for a frame of a fixed head, by its lemma [frame], and the bytes an
    output callback wrote. *)
Ltac out_reply_tac frame :=
  subst; nat_tac;
  match goal with H : reply _ _ _ |- _ => rewrite frame, drop_write_at, take_app_le in H by length_tac; exact H end.

(** Heads of the transmit buffer, through the writes. *)
Ltac head_tac :=
  repeat match goal with
  | H : _ !! 0%nat = (if ?b then _ else _) |- _ => cbn in H
  end; congruence.

(** A value within its C type. *)
Ltac range_tac :=
  ctx_cbn; first
  [ assumption
  | apply u8_range | apply u16_range | apply u32_range | apply land_127_range
  | by repeat constructor
  | apply Forall_insert; [assumption|unfold is_byte in *; first [assumption|lia|apply u32_range]]
  | unfold is_byte in *; size_tac ].

(** The types of an updated context, those of the old one being hypotheses. *)
Ltac typed_tac := split; ctx_cbn; first [assumption|range_tac].

Ltac ctx_ok_tac :=
  first [ assumption
        | match goal with H : ctx_ok _ |- _ =>
            let T := fresh "T" in
            destruct H as [? ? ? ? ? T]; destruct T; split;
            [..|typed_tac]; ctx_cbn; rewrite ?length_insert; first [assumption|range_tac] end ].

Ltac evs_tac :=
  eexists; split; [cbn [trace]; rewrite <- ?app_assoc;
    first [reflexivity | symmetry; apply app_nil_r]|].

Ltac sends_tac :=
  autorewrite with uds;
  repeat match goal with H : sends _ = [] |- _ => rewrite H end;
  repeat match goal with H : mutex_ops _ = [] |- _ => rewrite H end; try reflexivity.

(** The suppress flag on entry, from the request's bit 7 where the handler tests it. *)
Ltac suppressed_tac :=
  ctx_cbn;
  first [ reflexivity | assumption
        | match goal with
          | Hs : suppress_pos_resp _ = bit7 ?d, Hb : ?d !! Z.to_nat 1 = Some _ |- _ =>
              rewrite Hs; unfold bit7; change 1%nat with (Z.to_nat 1); rewrite Hb;
              unfold UDS_MASK_SUPPRESS_POS_RESP in *; lia
          end
        | congruence ].

Ltac answered_tac :=
  first
  [ left; eexists; split; [sends_tac; cbn; reflexivity|split; [|unfold UDS_OK; lia]];
    first [apply response_negative | apply response_head; [head_tac|size_tac]]
  | right; left; split; [sends_tac|split; [suppressed_tac|unfold UDS_OK; lia]] ].

(** Access rights left alone; anything else is the caller's to prove. *)
Ltac access_tac :=
  unfold access_step, nrc_ctx, resp_ctx; ctx_cbn; split; first [by left|idtac].

(** Whether the response left or was suppressed. *)
Ltac reply_cases :=
  repeat match goal with
  | H : reply ?b _ ?evs |- _ =>
      ctx_cbn; unfold reply in H; cbn [suppress_pos_resp set_suppress_pos_resp] in H;
      lazymatch type of H with
      | if ?x then _ else _ => destruct x eqn:?; [subst evs|destruct H as (? & ? & ->)]
      | _ => subst evs
      end
  end.

Ltac hpost_one :=
  unfold nrc_ctx, resp_ctx;
  split;
  [ apply inv_close; [ctx_ok_tac|assumption|assumption|lia]
  | evs_tac; split; [sends_tac|split; [answered_tac|access_tac]] ].
Ltac hpost := reply_cases; hpost_one.

(** Running up to the call of the callback under study. *)
Ltac hsteps_to_out :=
  repeat lazymatch goal with |- wp (call_out _ _ _) _ _ => fail | _ => hstep end.

(** Opening the invariant of the initial state. *)
Ltac xopen cfg Hinv :=
  apply inv_open in Hinv as (c & m & e & tr & l & -> & Hc & Hm & He & Hl & Hml);
  pose proof (ok_tx_size (cfg := cfg)) as Hsz; unfold MIN_TX in Hsz; cbn [ctx mem trace] in *;
  pose proof (ctx_session _ Hc); pose proof (ctx_level _ Hc).

(** Resolving the tests of a statement from what is known of a run. *)
Ltac tests :=
  unfold UDS_OK in *;
  repeat match goal with
  | |- context [if ?b then _ else _] =>
      first [ replace b with true by lia | replace b with false by lia ]
  end.

(** Naming the events of a run. *)
Ltac xevents := eexists; split; [rewrite <- ?app_assoc; first [reflexivity|symmetry; apply app_nil_r]|].

(** Opening a [HandlerSpec] goal: the request, its bounds and the invariant. *)
Ltac hopen cfg :=
  let Hsub := fresh "Hsub" in
  let Hinv := fresh "Hinv" in
  intros data len s Hbytes Hsid Hlen Hlt Hsub Hinv;
  first [specialize (Hsub eq_refl) as [Hlen2 Hsup] | clear Hsub];
  xopen cfg Hinv.
