(* ===== verification/SvcSession.v ===== *)
(** * Session services: [src/services/uds_service_session.c] (0x10, 0x3E)

    The handlers, their [HandlerSpec], and the exact effect of each. *)

From S2P Require Import Prelude Monad Types Machine CoreBase Contract HandlerLogic.
From stdpp Require Import base gmap list strings numbers.

Open Scope Z_scope.

Section Session.
Context {E : Type}.

Definition uds_internal_handle_session_control (ctx : ctx_ptr E) (data : list Z) (len : Z)
    : M (uds_state E) Z :=
  d1 ← data_at data 1;
  let sub := Z.land d1 UDS_MASK_SUBFUNCTION in
  if negb (sub =? UDS_SESSION_ID_DEFAULT) && negb (sub =? UDS_SESSION_ID_PROGRAMMING)
     && negb (sub =? UDS_SESSION_ID_EXTENDED)
  then uds_send_nrc ctx UDS_SID_SESSION_CONTROL UDS_NRC_SUBFUNCTION_NOT_SUPPORTED
  else
    c ← get_ctx;
    mwhen (negb (active_session c =? sub) || (sub =? UDS_SESSION_ID_DEFAULT))
      (mod_ctx (set_security_level 0)) ;;
    mod_ctx (set_active_session sub) ;;
    cfg ← config_of ctx;
    tx_set cfg 0 (u8 (UDS_SID_SESSION_CONTROL + UDS_RESPONSE_OFFSET)) ;;
    tx_set cfg 1 sub ;;
    let p2 := if p2_server_max cfg >? 0 then p2_server_max cfg else 50 in
    let p2_star_ms := if p2_star_server_max cfg >? 0 then p2_star_server_max cfg else 5000 in
    let p2_star_val := p2_star_ms / 10 in
    tx_set cfg 2 (hi8 p2) ;;
    tx_set cfg 3 (lo8 p2) ;;
    tx_set cfg 4 (hi8 p2_star_val) ;;
    tx_set cfg 5 (lo8 p2_star_val) ;;
    uds_send_response ctx 6 ;;
    nvm_save cfg ;;
    mret UDS_OK.

Definition uds_internal_handle_tester_present (ctx : ctx_ptr E) (data : list Z) (len : Z)
    : M (uds_state E) Z :=
  d1 ← data_at data 1;
  let sub := Z.land d1 UDS_MASK_SUBFUNCTION in
  if sub =? 0 then
    cfg ← config_of ctx;
    tx_set cfg 0 (u8 (UDS_SID_TESTER_PRESENT + UDS_RESPONSE_OFFSET)) ;;
    tx_set cfg 1 0 ;;
    uds_send_response ctx 2
  else uds_send_nrc ctx UDS_SID_TESTER_PRESENT UDS_NRC_SUBFUNCTION_NOT_SUPPORTED.
End Session.

(** ** Reference behaviour *)

(** The context after a session change: a change of session, or a return to
    the default session, relocks security. *)
Definition session_ctx (sub : Z) (c : uds_ctx) : uds_ctx :=
  set_active_session sub
    (if (active_session c =? sub) && negb (sub =? UDS_SESSION_ID_DEFAULT) then c
     else set_security_level 0 c).

(** The timing parameters of a positive answer to 0x10: P2 in milliseconds and
    P2* in units of ten, with their defaults. *)
Definition timing_record {E} (cfg : uds_config E) : list Z :=
  be_split 2 (if p2_server_max cfg =? 0 then 50 else p2_server_max cfg) ++
  be_split 2 ((if p2_star_server_max cfg =? 0 then 5000 else p2_star_server_max cfg) / 10).

Section SessionSpec.
Context {E : Type} (env_ok : E -> Prop) (tb : N) (cfg : uds_config E).
Context `{Hok : !ConfigOk env_ok tb cfg}.

#[export] Instance session_control_spec :
  HandlerSpec env_ok tb cfg UDS_SID_SESSION_CONTROL 2 true
    (uds_internal_handle_session_control (Some cfg)).
Proof.
  hopen cfg. unfold uds_internal_handle_session_control,
    UDS_SESSION_ID_DEFAULT, UDS_SESSION_ID_PROGRAMMING, UDS_SESSION_ID_EXTENDED.
  hstep. hstep. hstep. hstep. hpost.
  assert (1 <= Z.land b UDS_MASK_SUBFUNCTION <= 3) by lia.
  hsteps; hpost; auto.
Qed.

#[export] Instance tester_present_spec :
  HandlerSpec env_ok tb cfg UDS_SID_TESTER_PRESENT 2 true
    (uds_internal_handle_tester_present (Some cfg)).
Proof. hopen cfg. unfold uds_internal_handle_tester_present. hsteps; hpost. Qed.

(** The bytes the handler stores are the timing record. *)
Lemma timing_bytes sub l :
  0 <= p2_server_max cfg < 65536 -> 0 <= p2_star_server_max cfg < 65536 -> (6 <= length l)%nat ->
  let p2 := if p2_server_max cfg >? 0 then p2_server_max cfg else 50 in
  let p2s := (if p2_star_server_max cfg >? 0 then p2_star_server_max cfg else 5000) / 10 in
  take 6 (write_at 5 [lo8 p2s] (write_at 4 [hi8 p2s] (write_at 3 [lo8 p2] (write_at 2 [hi8 p2]
    (write_at 1 [sub] (write_at 0 [0x50] l)))))) = [0x50; sub] ++ timing_record cfg.
Proof.
  intros H1 H2 Hl p2 p2s. unfold timing_record.
  assert (Hd : forall x d, 0 <= x -> (if x >? 0 then x else d) = if x =? 0 then d else x).
  { intros x d Hx. rewrite Z.gtb_ltb. destruct (Z.eqb_spec x 0), (Z.ltb_spec 0 x); done || lia. }
  rewrite <- !Hd by lia. fold p2. fold p2s.
  assert (0 <= p2 < 65536) by (subst p2; destruct (p2_server_max cfg >? 0); lia).
  assert (0 <= p2s < 65536) by (subst p2s; destruct (p2_star_server_max cfg >? 0); zlia).
  rewrite !be_split_2 by done. clearbody p2 p2s. frame_tac. done.
Qed.

(** C25: 0x10 with subfunction 1, 2 or 3 enters that session, drops the security level
    on a change of session and on any entry of the default session, but keeps it when a
    non-default session is entered again (where the comment in the code asks for a re-
    lock on the same session too), answers with the session and the timing record
    (unless suppressed) and saves the state; any other subfunction gets 0x12 and changes
    neither. *)
Theorem session_control_exact data len s b :
  uds_inv env_ok tb cfg s -> data !! 1%nat = Some b ->
  0 <= p2_server_max cfg < 65536 -> 0 <= p2_star_server_max cfg < 65536 ->
  wp (uds_internal_handle_session_control (Some cfg) data len)
    (fun r s' => let sub := Z.land b 127 in exists evs, trace s' = trace s ++ evs /\
       if (1 <=? sub) && (sub <=? 3) then
         r = UDS_OK /\ ctx s' = resp_ctx (session_ctx sub (ctx s)) /\
         exists evs1, evs = evs1 ++ nvm_events cfg (session_ctx sub (ctx s)) /\
           reply (suppress_pos_resp (ctx s)) ([0x50; sub] ++ timing_record cfg) evs1
       else
         ctx s' = nrc_ctx UDS_SID_SESSION_CONTROL UDS_NRC_SUBFUNCTION_NOT_SUPPORTED (ctx s) /\
         rejected UDS_SID_SESSION_CONTROL UDS_NRC_SUBFUNCTION_NOT_SUPPORTED evs) s.
Proof.
  intros Hinv Hb Hp2 Hp2s.
  apply inv_open in Hinv as (c & m & e & tr & l & -> & Hc & Hm & He & Hl & Hml).
  pose proof (ok_tx_size (cfg := cfg)) as Hsz; unfold MIN_TX in Hsz; cbn [ctx trace] in *.
  unfold uds_internal_handle_session_control, UDS_MASK_SUBFUNCTION.
  apply wp_bind, wp_data_at with b; [lia|done|]. cbv zeta. set (sub := Z.land b 127).
  destruct ((1 <=? sub) && (sub <=? 3)) eqn:Hr;
    (hstep; unfold UDS_SESSION_ID_DEFAULT, UDS_SESSION_ID_PROGRAMMING, UDS_SESSION_ID_EXTENDED in *;
     try lia); [|hsteps; eexists; split; [reflexivity|split; [reflexivity|by eexists]]].
  hstep. hstep. apply wp_bind. apply wp_when; intros Hq; hsteps.
  all: eexists; split; [symmetry; apply app_assoc|split; [done|]].
  - replace (set_active_session sub (set_security_level 0 c)) with (session_ctx sub c)
      by (unfold session_ctx, UDS_SESSION_ID_DEFAULT; by replace (_ && _) with false by lia).
    split; [done|]. exists evs. split; [done|]. subst. rewrite timing_bytes in * by lia. done.
  - replace (set_active_session sub c) with (session_ctx sub c)
      by (unfold session_ctx, UDS_SESSION_ID_DEFAULT; by replace (_ && _) with true by lia).
    split; [done|]. exists evs. split; [done|]. subst. rewrite timing_bytes in * by lia. done.
Qed.

(** 0x3E answers subfunction 0 and refuses the rest. *)
Theorem tester_present_exact data len s b :
  uds_inv env_ok tb cfg s -> data !! 1%nat = Some b ->
  wp (uds_internal_handle_tester_present (Some cfg) data len)
    (fun _ s' => exists evs, trace s' = trace s ++ evs /\
       if Z.land b 127 =? 0 then reply (suppress_pos_resp (ctx s)) [0x7E; 0] evs
       else rejected UDS_SID_TESTER_PRESENT UDS_NRC_SUBFUNCTION_NOT_SUPPORTED evs) s.
Proof.
  intros Hinv Hb. xopen cfg Hinv. unfold uds_internal_handle_tester_present, UDS_MASK_SUBFUNCTION.
  hsteps; xevents; tests; [reply_tac|by eexists].
Qed.
End SessionSpec.
