(* ===== verification/SvcSecurity.v ===== *)
(** * Security services: [src/services/uds_service_security.c] (0x27, 0x29)

    The handlers, their [HandlerSpec], the access state machine the 0x27 handler
    implements and the bound it puts on guessing keys. *)

From S2P Require Import Prelude Monad Types Machine CoreBase Contract HandlerLogic.
From stdpp Require Import base gmap list strings numbers.

Open Scope Z_scope.

Section Security.
Context {E : Type}.

(** An odd subfunction: the seed of its level, written straight into the response. *)
Definition security_send_seed (ctx : ctx_ptr E) (cfg : uds_config E) (sub_raw sub : Z)
    : M (uds_state E) Z :=
  match fn_security_seed cfg with
  | None => uds_send_nrc ctx UDS_SID_SECURITY_ACCESS UDS_NRC_CONDITIONS_NOT_CORRECT
  | Some seed =>
      tx_set cfg 0 (u8 (UDS_SID_SECURITY_ACCESS + UDS_RESPONSE_OFFSET)) ;;
      tx_set cfg 1 sub_raw ;;
      c ← get_ctx;
      let level := u8 ((sub + 1) / 2) in
      seed_len ← call_out cfg 2 (seed c level (u16 (tx_buffer_size cfg - 2)));
      emit (EvSeed level seed_len) ;;
      if seed_len <? 0 then uds_send_nrc ctx UDS_SID_SECURITY_ACCESS (nrc_of seed_len)
      else uds_send_response ctx (u16 (u16 seed_len + 2))
  end.

(** An even subfunction: the key for its level. *)
Definition security_check_key (ctx : ctx_ptr E) (cfg : uds_config E) (data : list Z) (len now sub_raw sub : Z)
    : M (uds_state E) Z :=
  match fn_security_key cfg with
  | None => uds_send_nrc ctx UDS_SID_SECURITY_ACCESS UDS_NRC_CONDITIONS_NOT_CORRECT
  | Some key =>
      c ← get_ctx;
      kp ← data_from data 2;
      let level := u8 (sub / 2) in
      res ← call (key c level None kp (u16 (len - 2)));
      emit (EvKey level (take (Z.to_nat (u16 (len - 2))) kp) res) ;;
      if res =? 0 then
        mod_ctx (set_security_attempts 0) ;;
        mod_ctx (set_security_level level) ;;
        nvm_save cfg ;;
        tx_set cfg 0 (u8 (UDS_SID_SECURITY_ACCESS + UDS_RESPONSE_OFFSET)) ;;
        tx_set cfg 1 sub_raw ;;
        uds_send_response ctx 2
      else
        mod_ctx (fun c => set_security_attempts (u8 (security_attempts c + 1)) c) ;;
        c ← get_ctx;
        let max_att :=
          if negb (security_max_attempts cfg =? 0) then security_max_attempts cfg else 3 in
        if max_att <=? security_attempts c then
          let delay :=
            if negb (security_delay_ms cfg =? 0) then security_delay_ms cfg else 10000 in
          mod_ctx (set_security_delay_end (u32 (now + delay))) ;;
          uds_send_nrc ctx UDS_SID_SECURITY_ACCESS UDS_NRC_EXCEEDED_ATTEMPTS
        else
          let nrc := if res <? 0 then nrc_of res else UDS_NRC_INVALID_KEY in
          uds_send_nrc ctx UDS_SID_SECURITY_ACCESS nrc
  end.

Definition uds_internal_handle_security_access (ctx : ctx_ptr E) (data : list Z) (len : Z)
    : M (uds_state E) Z :=
  if len <? 2 then uds_send_nrc ctx UDS_SID_SECURITY_ACCESS UDS_NRC_INCORRECT_LENGTH
  else
    cfg ← config_of ctx;
    now ← time_ms cfg;
    c ← get_ctx;
    if negb (security_delay_end c =? 0) && (now <? security_delay_end c)
    then uds_send_nrc ctx UDS_SID_SECURITY_ACCESS UDS_NRC_REQUIRED_TIME_DELAY
    else
      mwhen (negb (security_delay_end c =? 0)) (mod_ctx (set_security_delay_end 0)) ;;
      sub_raw ← data_at data 1;
      let sub := Z.land sub_raw 0x7F in
      if negb (sub mod 2 =? 0) then security_send_seed ctx cfg sub_raw sub
      else security_check_key ctx cfg data len now sub_raw sub.

Definition uds_internal_handle_authentication (ctx : ctx_ptr E) (data : list Z) (len : Z)
    : M (uds_state E) Z :=
  if len <? 2 then uds_send_nrc ctx UDS_SID_AUTHENTICATION UDS_NRC_INCORRECT_LENGTH
  else
    d1 ← data_at data 1;
    let sub := Z.land d1 0x7F in
    cfg ← config_of ctx;
    match fn_auth cfg with
    | None => uds_send_nrc ctx UDS_SID_AUTHENTICATION UDS_NRC_CONDITIONS_NOT_CORRECT
    | Some auth =>
        let max_payload := u16 (tx_buffer_size cfg - 2) in
        c ← get_ctx;
        input ← data_from data 2;
        written ← call_out cfg 2 (auth c sub input (u16 (len - 2)) max_payload);
        emit (EvAuth sub input written) ;;
        if written <? 0 then uds_send_nrc ctx UDS_SID_AUTHENTICATION (nrc_of written)
        else
          tx_set cfg 0 (u8 (UDS_SID_AUTHENTICATION + UDS_RESPONSE_OFFSET)) ;;
          tx_set cfg 1 d1 ;;
          uds_send_response ctx (u16 (u16 written + 2))
    end.
End Security.

(** ** The access state machine

    The part of the context the 0x27 handler works on, what it decides to do
    with a request, and what a key check makes of it. *)
Record sec_state : Set := mkSec {
  sec_level : Z;
  sec_attempts : Z;
  sec_delay_end : Z
}.

Definition sec_view (c : uds_ctx) : sec_state :=
  mkSec (security_level c) (security_attempts c) (security_delay_end c).

Inductive sec_action : Set :=
| ActDeny (nrc : Z)
| ActSeed (level : Z)
| ActKey (level : Z).

Section SecMachine.
Context {E : Type} (cfg : uds_config E).

Definition max_attempts : Z := if security_max_attempts cfg =? 0 then 3 else security_max_attempts cfg.
Definition lock_delay : Z := if security_delay_ms cfg =? 0 then 10000 else security_delay_ms cfg.

Definition sec_locked (now : Z) (st : sec_state) : bool :=
  negb (sec_delay_end st =? 0) && (now <? sec_delay_end st).

Definition sec_decide (now sub : Z) (st : sec_state) : sec_action :=
  if sec_locked now st then ActDeny UDS_NRC_REQUIRED_TIME_DELAY
  else if Z.odd sub then
    match fn_security_seed cfg with
    | None => ActDeny UDS_NRC_CONDITIONS_NOT_CORRECT
    | Some _ => ActSeed ((sub + 1) / 2)
    end
  else
    match fn_security_key cfg with
    | None => ActDeny UDS_NRC_CONDITIONS_NOT_CORRECT
    | Some _ => ActKey (sub / 2)
    end.

(** A request that finds the delay over forgets it. *)
Definition sec_admit (now : Z) (st : sec_state) : sec_state :=
  if sec_locked now st then st else mkSec (sec_level st) (sec_attempts st) 0.

(** After a key check with result [res]; the code to reject the key with, if any. *)
Definition sec_after_key (now level res : Z) (st : sec_state) : sec_state * option Z :=
  if res =? 0 then (mkSec level 0 (sec_delay_end st), None)
  else
    let attempts := u8 (sec_attempts st + 1) in
    if max_attempts <=? attempts
    then (mkSec (sec_level st) attempts (u32 (now + lock_delay)), Some UDS_NRC_EXCEEDED_ATTEMPTS)
    else (mkSec (sec_level st) attempts (sec_delay_end st),
          Some (if res <? 0 then nrc_of res else UDS_NRC_INVALID_KEY)).

(** A whole request: subfunction [sub] at time [now], the key check (if one is
    made) returning [res]. *)
Definition sec_request (st : sec_state) (q : Z * Z * Z) : sec_state :=
  let '(now, sub, res) := q in
  match sec_decide now sub st with
  | ActKey level => (sec_after_key now level res (sec_admit now st)).1
  | _ => sec_admit now st
  end.

Definition is_key_check (st : sec_state) (q : Z * Z * Z) : bool :=
  let '(now, sub, _) := q in
  match sec_decide now sub st with ActKey _ => true | _ => false end.

(** The invariant of a guessing attack that began at [t0]: past the allowed
    failures each further one has cost a full delay. *)
Record guessing (t0 t : Z) (st : sec_state) : Prop := {
  g_order : 0 <= t0 <= t;
  g_attempts : 0 <= sec_attempts st;
  g_few : sec_attempts st < max_attempts -> sec_delay_end st = 0;
  g_many : max_attempts <= sec_attempts st -> exists tc, t0 <= tc <= t /\
    (sec_attempts st - max_attempts) * lock_delay <= tc - t0 /\
    (sec_delay_end st = tc + lock_delay \/ sec_delay_end st = 0 /\ tc + lock_delay <= t)
}.

End SecMachine.

Section SecuritySpec.
Context {E : Type} (env_ok : E -> Prop) (tb : N) (cfg : uds_config E).
Context `{Hok : !ConfigOk env_ok tb cfg}.

#[export] Instance security_access_spec :
  HandlerSpec env_ok tb cfg UDS_SID_SECURITY_ACCESS 2 true
    (uds_internal_handle_security_access (Some cfg)).
Proof.
  hopen cfg. unfold uds_internal_handle_security_access, security_send_seed, security_check_key. hsteps; hpost.
  all: right; right; split; [done|]; eexists; subst; left.
Qed.

#[export] Instance authentication_spec :
  HandlerSpec env_ok tb cfg UDS_SID_AUTHENTICATION 2 false
    (uds_internal_handle_authentication (Some cfg)).
Proof. hopen cfg. unfold uds_internal_handle_authentication. hsteps; hpost. Qed.

(** 0x29 hands the application the subfunction and the bytes after it and answers
    0x69 with exactly the bytes the application wrote, or its negative code. *)
Theorem authentication_exact data len s f b res out e' :
  uds_inv env_ok tb cfg s -> Forall is_byte data -> data !! 1%nat = Some b ->
  2 <= len <= Z.of_nat (length data) -> len < 65536 -> fn_auth cfg = Some f ->
  f (ctx s) (Z.land b 127) (drop 2 data) (len - 2) (tx_buffer_size cfg - 2) (env s) = Ok ((res, out), e') ->
  res <= Z.of_nat (length out) ->
  wp (uds_internal_handle_authentication (Some cfg) data len)
    (fun _ s' => exists evs, trace s' = trace s ++ EvAuth (Z.land b 127) (drop 2 data) res :: evs /\
       if res <? 0 then rejected UDS_SID_AUTHENTICATION (nrc_of res) evs
       else reply (suppress_pos_resp (ctx s)) (0x69 :: b :: take (Z.to_nat res) out) evs) s.
Proof.
  intros Hinv Hbytes Hb Hlen Hlt Hf Hrun Hres. xopen cfg Hinv. cbn [env] in Hrun.
  assert (Hbb : is_byte b) by (by apply (Forall_lookup_1 _ _ 1%nat _ Hbytes)).
  unfold uds_internal_handle_authentication. rewrite (proj2 (Z.ltb_ge len 2)) by lia.
  hsteps_to_out. u16_tac. eapply wp_call_out_run; [eassumption|cb_hyp|eassumption|exact Hrun|lia|intros; size_tac|].
  intros l1 [HR1 HR2] He1 Hl1 Hlen1. cbn [fst snd] in *. hsteps; xevents; tests; [by eexists|].
  u16_tac. replace (Z.to_nat (res + 2)) with (2 + Z.to_nat res)%nat in * by lia. out_reply_tac frame2.
Qed.
(** Forgetting a delay that is over, whether or not there was one. *)
Lemma wp_clear_delay (Q : unit -> uds_state E -> Prop) c m e tr :
  Q tt (mkState (set_security_delay_end 0 c) m e tr) ->
  wp (mwhen (negb (security_delay_end c =? 0)) (mod_ctx (set_security_delay_end 0))) Q
    (mkState c m e tr).
Proof.
  intros HQ. apply wp_when; intros Hd; [by apply wp_mod_ctx|].
  bool_prop. assert (Hc : set_security_delay_end 0 c = c) by (destruct c; cbn in *; by subst).
  by rewrite Hc in HQ.
Qed.

(** What a request the machine lets through leaves: a seed, or a checked key. *)
Definition seed_post (b level : Z) (c : uds_ctx) (evs : list event) : Prop :=
  exists f res out evs1, fn_security_seed cfg = Some f /\
    returns env_ok (f c level (tx_buffer_size cfg - 2)) (res, out) /\ evs = EvSeed level res :: evs1 /\
    if res <? 0 then rejected UDS_SID_SECURITY_ACCESS (nrc_of res) evs1
    else exists seed, length seed = Z.to_nat res /\ take (Z.to_nat res) out `prefix_of` seed /\
      reply (suppress_pos_resp c) (0x67 :: b :: seed) evs1.

Definition key_post (b level now : Z) (key : list Z) (c c' : uds_ctx) (evs : list event) : Prop :=
  exists res evs1, evs = EvKey level key res :: evs1 /\
    sec_view c' = (sec_after_key cfg now level res (sec_view c)).1 /\
    match (sec_after_key cfg now level res (sec_view c)).2 with
    | Some nrc => rejected UDS_SID_SECURITY_ACCESS nrc evs1
    | None => exists evs2, evs1 = nvm_events cfg c' ++ evs2 /\
                reply (suppress_pos_resp c) [0x67; b] evs2
    end.

Lemma wp_send_seed sub b f c m e tr l :
  fn_security_seed cfg = Some f -> env_ok e -> Z.of_nat (length l) = tx_buffer_size cfg -> 0 <= sub < 128 ->
  wp (security_send_seed (Some cfg) cfg b sub) (fun _ s' => exists evs, trace s' = tr ++ evs /\
    sec_view (ctx s') = sec_view c /\ seed_post b ((sub + 1) / 2) c evs) (mkState c (<[tb := l]> m) e tr).
Proof.
  intros Hs He Hl Hsub. pose proof (ok_tx_size (cfg := cfg)) as Hsz; unfold MIN_TX in Hsz.
  unfold security_send_seed. hsteps_to_out. rewrite u8_small, u16_small by zlia.
  eapply wp_call_out; [eassumption|apply cb_ok_returns, (ok_seed f); [done|lia]|done|lia|
    intros ? ? [? _]; size_tac|intros r out e2 l2 [Hout Hret] He2 Hl2 Hlen2 _].
  hsteps; (eexists; split; [rewrite <- ?app_assoc; reflexivity|]); (split; [done|]); exists f, r, out; eexists;
    (split; [done|]); (split; [done|]); (split; [reflexivity|]).
  - rewrite (proj2 (Z.ltb_lt r 0)) by lia. by eexists.
  - rewrite (proj2 (Z.ltb_ge r 0)) by lia. exists (take (Z.to_nat r) (drop 2 l2)).
    split; [rewrite length_take, length_drop; size_tac|]. split.
    { subst l2. change (Z.to_nat 2) with 2%nat. rewrite drop_write_at by length_tac. rewrite take_app.
      by apply prefix_app_r. }
    rewrite !u16_small in * by size_tac. replace (Z.to_nat (r + 2)) with (2 + Z.to_nat r)%nat in * by lia.
    subst. unfold out_ok in *. cbn [fst snd] in *.
    nat_tac. rewrite frame_after in * by length_tac.
    match goal with H : reply _ _ _ |- _ => frame_in H end. done.
Qed.

Lemma wp_check_key data len now sub b f c m e tr l :
  fn_security_key cfg = Some f -> env_ok e -> Z.of_nat (length l) = tx_buffer_size cfg -> 0 <= sub < 128 ->
  2 <= len <= Z.of_nat (length data) -> len < 65536 ->
  wp (security_check_key (Some cfg) cfg data len now b sub) (fun _ s' => exists evs, trace s' = tr ++ evs /\
    key_post b (sub / 2) now (take (Z.to_nat (len - 2)) (drop 2 data)) c (ctx s') evs)
    (mkState c (<[tb := l]> m) e tr).
Proof.
  intros Hs He Hl Hsub Hlen Hlt. pose proof (ok_tx_size (cfg := cfg)) as Hsz; unfold MIN_TX in Hsz.
  unfold security_check_key. hsteps; (eexists; split; [rewrite <- ?app_assoc; reflexivity|]);
    rewrite ?(u8_small (sub / 2)), ?u16_small in * by zlia; exists a; eexists; (split; [reflexivity|]);
    unfold sec_after_key, max_attempts, lock_delay; cbn [sec_attempts sec_level sec_delay_end sec_view].
  - rewrite (proj2 (Z.eqb_eq a 0)) by done. split; [done|]. exists evs. split; [done|].
    subst. nat_tac. match goal with H : reply _ _ _ |- _ => frame_in H end. done.
  - rewrite (proj2 (Z.eqb_neq a 0)) by done.
    rewrite (proj2 (Z.leb_le _ _)). 2: { destruct (security_max_attempts cfg =? 0); done. }
    split; [|by eexists]. by destruct (security_delay_ms cfg =? 0).
  - rewrite (proj2 (Z.eqb_neq a 0)) by done.
    rewrite (proj2 (Z.leb_gt _ _)). 2: { destruct (security_max_attempts cfg =? 0); done. }
    split; [done|by eexists].
Qed.

(** The handler is the access state machine. *)
Lemma wp_security_access data len s b :
  uds_inv env_ok tb cfg s -> data !! 1%nat = Some b -> is_byte b ->
  2 <= len <= Z.of_nat (length data) -> len < 65536 ->
  wp (uds_internal_handle_security_access (Some cfg) data len)
    (fun _ s' => exists now evs, clock_reads cfg (env s) now /\ trace s' = trace s ++ evs /\
     let sub := Z.land b 127 in
     let c := set_security_delay_end 0 (ctx s) in
     match sec_decide cfg now sub (sec_view (ctx s)) with
     | ActDeny nrc => sec_view (ctx s') = sec_admit now (sec_view (ctx s)) /\
         rejected UDS_SID_SECURITY_ACCESS nrc evs
     | ActSeed level => sec_view (ctx s') = sec_view c /\ seed_post b level c evs
     | ActKey level => key_post b level now (take (Z.to_nat (len - 2)) (drop 2 data)) c (ctx s') evs
     end) s.
Proof.
  intros Hinv Hb Hbyte Hlen Hlt. xopen cfg Hinv. unfold uds_internal_handle_security_access.
  assert (Hsub : 0 <= Z.land b 127 < 128) by (rewrite land_127; zlia).
  rewrite (proj2 (Z.ltb_ge len 2)) by lia.
  apply wp_bind, wp_config_of, wp_bind. eapply wp_time; [eassumption|eassumption|]. intros now e1 Hnow He1 Hclk.
  apply wp_bind, wp_get_ctx. cbn [ctx env].
  change (_ && _) with (sec_locked now (sec_view c)) at 1.
  unfold sec_decide, sec_admit. destruct (sec_locked now (sec_view c)) eqn:Hk.
  { hsteps. exists now. eexists. split; [done|]. split; [reflexivity|]. rewrite Hk. split; [done|by eexists]. }
  apply wp_bind, wp_clear_delay. hstep. apply wp_data_at with b; [lia|done|]. cbv zeta.
  replace (Z.land b 127 mod 2 =? 0) with (negb (Z.odd (Z.land b 127)))
    by (rewrite Zmod_odd; by destruct (Z.odd _)).
  rewrite negb_involutive. destruct (Z.odd (Z.land b 127)) eqn:Hodd.
  - destruct (fn_security_seed cfg) as [f|] eqn:Hs.
    + eapply wp_mono; [by eapply wp_send_seed|]. intros ? s' (evs & Ht & Hv & Hp).
      exists now, evs. rewrite Hk. done.
    + unfold security_send_seed. hsteps. exists now. eexists. split; [done|]. split; [reflexivity|].
      rewrite Hk. split; [done|by eexists].
  - destruct (fn_security_key cfg) as [f|] eqn:Hs.
    + eapply wp_mono; [by eapply wp_check_key|]. intros ? s' (evs & Ht & Hp). exists now, evs. rewrite Hk. done.
    + unfold security_check_key. hsteps. exists now. eexists. split; [done|]. split; [reflexivity|].
      rewrite Hk. split; [done|by eexists].
Qed.

(** C12: The 0x27 handler refines the access state machine on (level, failed attempts,
    end of delay): at the time the clock shows it refuses while the delay runs,
    otherwise forgets the delay and answers an odd subfunction with the seed the
    application returned for its level, and an even one by the verdict on the key:
    acceptance sets the level, clears the attempts and saves the state, refusal counts
    an attempt and locks after the configured maximum. *)
Theorem security_access_refines data len s b :
  uds_inv env_ok tb cfg s -> data !! 1%nat = Some b -> is_byte b ->
  2 <= len <= Z.of_nat (length data) -> len < 65536 ->
  wp (uds_internal_handle_security_access (Some cfg) data len)
    (fun _ s' => exists now evs, clock_reads cfg (env s) now /\ trace s' = trace s ++ evs /\
     let sub := Z.land b 127 in
     let c := set_security_delay_end 0 (ctx s) in
     match sec_decide cfg now sub (sec_view (ctx s)) with
     | ActDeny nrc => sec_view (ctx s') = sec_admit now (sec_view (ctx s)) /\
         rejected UDS_SID_SECURITY_ACCESS nrc evs
     | ActSeed level => sec_view (ctx s') = sec_view c /\ seed_post b level c evs
     | ActKey level => key_post b level now (take (Z.to_nat (len - 2)) (drop 2 data)) c (ctx s') evs
     end) s.
Proof. apply wp_security_access. Qed.
End SecuritySpec.

(** ** The price of guessing *)

Section Guess.
Context {E : Type} (cfg : uds_config E).
Hypothesis Hmax : 0 <= security_max_attempts cfg < 256.
Hypothesis Hdel : 0 <= security_delay_ms cfg.

Lemma max_attempts_pos : 0 < max_attempts cfg.
Proof. unfold max_attempts. destruct (Z.eqb_spec (security_max_attempts cfg) 0); lia. Qed.
Lemma lock_delay_pos : 0 < lock_delay cfg.
Proof. unfold lock_delay. destruct (Z.eqb_spec (security_delay_ms cfg) 0); lia. Qed.

Lemma guessing_step t0 t st now sub res :
  guessing cfg t0 t st -> t <= now -> now + lock_delay cfg < 4294967296 -> res <> 0 ->
  let n := if is_key_check cfg st (now, sub, res) then 1 else 0 in
  sec_attempts st + n < 256 ->
  guessing cfg t0 now (sec_request cfg st (now, sub, res)) /\
  sec_attempts (sec_request cfg st (now, sub, res)) = sec_attempts st + n.
Proof.
  intros [Ho Ha Hf Hm] Ht Hw Hr n Hn. subst n. unfold is_key_check, sec_request, sec_decide, sec_admit in *.
  pose proof max_attempts_pos as Hp. pose proof lock_delay_pos as Hd.
  destruct (sec_locked now st) eqn:Hk; unfold sec_locked in Hk.
  { split; [|lia]. split; [lia|done..|]. intros Hq. destruct (Hm Hq) as (tc & ? & ? & ?). exists tc. lia. }
  assert (Hc : guessing cfg t0 now (mkSec (sec_level st) (sec_attempts st) 0)).
  { split; cbn [sec_attempts sec_delay_end]; [lia..|]. intros Hq. destruct (Hm Hq) as (tc & ? & ? & ?). exists tc. lia. }
  destruct (Z.odd sub); [destruct (fn_security_seed cfg); cbn [sec_attempts]; split; done || lia|].
  destruct (fn_security_key cfg); cbn [fst]; [|cbn [sec_attempts]; split; done || lia].
  unfold sec_after_key. rewrite (proj2 (Z.eqb_neq res 0)) by done. cbn [sec_attempts sec_level sec_delay_end].
  rewrite u8_small by lia. destruct (Z.leb_spec (max_attempts cfg) (sec_attempts st + 1)); cbn [fst sec_attempts].
  2: { split; [|done]. split; cbn [sec_attempts sec_delay_end]; lia. }
  split; [|done]. rewrite u32_small by lia. split; cbn [sec_attempts sec_delay_end]; [lia..|].
  intros _. exists now. destruct (decide (max_attempts cfg <= sec_attempts st)) as [Hq|Hq].
  - destruct (Hm Hq) as (tc & ? & ? & ?). nia.
  - replace (sec_attempts st + 1 - max_attempts cfg) with 0 by lia. lia.
Qed.

Lemma guessing_later t0 t t' st : t <= t' -> guessing cfg t0 t st -> guessing cfg t0 t' st.
Proof.
  intros Ht [Ho Ha Hf Hm]. split; [lia|done..|]. intros Hq. destruct (Hm Hq) as (tc & ? & ? & ?). exists tc. lia.
Qed.

Lemma guessing_bound t0 t st :
  guessing cfg t0 t st -> (sec_attempts st - max_attempts cfg) * lock_delay cfg <= t - t0.
Proof.
  pose proof max_attempts_pos. pose proof lock_delay_pos. intros [Ho Ha Hf Hm].
  destruct (decide (max_attempts cfg <= sec_attempts st)) as [Hq|Hq]; [|nia].
  destruct (Hm Hq) as (tc & ? & ? & ?). lia.
Qed.
End Guess.

(** The keys checked among the events, by the application's verdicts. *)
Definition key_results (evs : list event) : list Z :=
  omap (fun ev => match ev with EvKey _ _ r => Some r | _ => None end) evs.

Lemma key_results_app evs1 evs2 : key_results (evs1 ++ evs2) = key_results evs1 ++ key_results evs2.
Proof. apply omap_app. Qed.

Lemma key_results_rejected sd nrc evs : rejected sd nrc evs -> key_results evs = [].
Proof. by intros (r & _ & ->). Qed.
Lemma key_results_reply b m evs : reply b m evs -> key_results evs = [].
Proof. destruct b; [by intros ->|]. by intros (r & _ & ->). Qed.
Lemma key_results_nvm {E} (cfg : uds_config E) c : key_results (nvm_events cfg c) = [].
Proof. unfold nvm_events. by destruct (fn_nvm_save cfg). Qed.

(** ** Guessing through the handler

    The requests as the dispatcher hands them over, its suppress flag set from
    bit 7. [clock] is the time in milliseconds: the clock callback shows it
    modulo 2^32 and no callback turns it back. *)
Definition security_requests {E} (cfg : uds_config E) (reqs : list (list Z)) : M (uds_state E) unit :=
  mfor reqs (fun data =>
    mod_ctx (set_suppress_pos_resp (bit7 data)) ;;
    uds_internal_handle_security_access (Some cfg) data (Z.of_nat (length data)) ;;
    mret tt).

Definition security_request_ok (data : list Z) : Prop :=
  Forall is_byte data /\ data !! 0%nat = Some UDS_SID_SECURITY_ACCESS /\ 2 <= Z.of_nat (length data) < 65536.

Section GuessRun.
Context {E : Type} (env_ok : E -> Prop) (tb : N) (cfg : uds_config E) (clock : E -> Z).
Hypothesis Hmax : 0 <= security_max_attempts cfg < 256.
Hypothesis Hdel : 0 <= security_delay_ms cfg.
Hypothesis Hread : forall e t, clock_reads cfg e t -> t = u32 (clock e).
Hypothesis Hforward : forall t, ConfigOk (fun e => env_ok e /\ t <= clock e) tb cfg.

(** One request, as a step of the machine. *)
Lemma wp_security_step data s :
  uds_inv env_ok tb cfg s -> security_request_ok data -> suppress_pos_resp (ctx s) = bit7 data ->
  wp (uds_internal_handle_security_access (Some cfg) data (Z.of_nat (length data))) (fun _ s' =>
    uds_inv env_ok tb cfg s' /\ clock (env s) <= clock (env s') /\
    exists sub res evs, let q := (u32 (clock (env s)), sub, res) in
      trace s' = trace s ++ evs /\ sec_view (ctx s') = sec_request cfg (sec_view (ctx s)) q /\
      if is_key_check cfg (sec_view (ctx s)) q then key_results evs = [res]
      else key_results evs = [] /\ res = 1) s.
Proof.
  intros Hinv (Hb & H0 & Hlen) Hsup.
  assert (Hinv' : uds_inv (fun e => env_ok e /\ clock (env s) <= clock e) tb cfg s) by (destruct Hinv; split; done).
  destruct (lookup_lt_is_Some_2 data 1) as [b H1]; [lia|].
  eapply wp_mono; [apply wp_conj|].
  - apply (security_access_spec (fun e => env_ok e /\ clock (env s) <= clock e) tb cfg data);
      [done|done|lia|lia|by intros _; split; [lia|]|done].
  - eapply (wp_security_access (fun e => env_ok e /\ clock (env s) <= clock e) tb cfg data);
      [exact Hinv'|exact H1|by eapply Forall_lookup_1|lia|lia].
  - intros r s' [[Hi _] (now & evs & Hnow & Ht & Hx)]. apply Hread in Hnow as ->.
    split; [destruct Hi as [? ? []]; by split|]. split; [apply Hi|].
    unfold sec_request, is_key_check. cbv zeta in Hx.
    assert (Hadm : sec_locked (u32 (clock (env s))) (sec_view (ctx s)) = false ->
      sec_admit (u32 (clock (env s))) (sec_view (ctx s)) = sec_view (set_security_delay_end 0 (ctx s))).
    { intros Hk. unfold sec_admit. by rewrite Hk. }
    exists (Z.land b 127). destruct (sec_decide cfg _ _ _) as [nrc|level|level] eqn:Hd.
    + exists 1, evs. destruct Hx as [Hv Hr]. split; [done|]. split; [done|]. split; [by eapply key_results_rejected|done].
    + exists 1, evs. destruct Hx as (Hv & f & res & out & evs1 & _ & _ & -> & Hr). unfold sec_decide in Hd.
      destruct (sec_locked _ _) eqn:Hk; [done|]. rewrite Hadm, Hv by done. split; [done|]. split; [done|].
      split; [|done]. cbn. destruct (res <? 0); [by eapply key_results_rejected|].
      destruct Hr as (? & _ & _ & Hr). by eapply key_results_reply.
    + destruct Hx as (res & evs1 & -> & Hv & Hr). unfold sec_decide in Hd.
      destruct (sec_locked _ _) eqn:Hk; [done|]. exists res, (EvKey level (take (Z.to_nat (Z.of_nat (length data) - 2)) (drop 2 data)) res :: evs1).
      rewrite Hadm by done. split; [done|]. split; [done|]. change (key_results (EvKey level ?k res :: evs1)) with (res :: key_results evs1).
      f_equal. destruct (sec_after_key _ _ _ _ _).2 as [nrc|]; [by eapply key_results_rejected|].
      destruct Hr as (evs2 & -> & Hr). by rewrite key_results_app, key_results_nvm, (key_results_reply _ _ _ Hr).
Qed.

(** C13: Guessing keys costs time: with a clock that no callback turns back and that
    does not wrap during the run, fewer than 256 refused keys, and no key accepted,
    every key the handler lets reach the application beyond the configured maximum of
    failures takes a full configured delay: (keys - maximum) * delay is at most the time
    elapsed. *)
Theorem key_guess_bound reqs s :
  uds_inv env_ok tb cfg s -> Forall security_request_ok reqs ->
  security_attempts (ctx s) = 0 -> security_delay_end (ctx s) = 0 -> 0 <= clock (env s) ->
  wp (security_requests cfg reqs) (fun _ s' => exists evs, trace s' = trace s ++ evs /\
    let keys := Z.of_nat (length (key_results evs)) in
    (clock (env s') + lock_delay cfg < 2 ^ 32 -> Forall (fun r => r <> 0) (key_results evs) -> keys < 256 ->
     (keys - max_attempts cfg) * lock_delay cfg <= clock (env s') - clock (env s))) s.
Proof.
  intros Hinv Hreqs Ha Hd H0. pose proof (lock_delay_pos cfg Hdel) as Hdp.
  apply (wp_for (fun reqs s' => Forall security_request_ok reqs /\ uds_inv env_ok tb cfg s' /\
    clock (env s) <= clock (env s') /\ exists evs, trace s' = trace s ++ evs /\
    (clock (env s') + lock_delay cfg < 2 ^ 32 -> Forall (fun r => r <> 0) (key_results evs) ->
     Z.of_nat (length (key_results evs)) < 256 ->
     guessing cfg (clock (env s)) (clock (env s')) (sec_view (ctx s')) /\
     sec_attempts (sec_view (ctx s')) = Z.of_nat (length (key_results evs))))).
  - split; [done|]. split; [done|]. split; [lia|]. exists []. rewrite app_nil_r. split; [done|]. intros _ _ _.
    cbn [sec_view sec_attempts]. split; [|done]. pose proof (max_attempts_pos cfg Hmax).
    split; cbn [sec_view sec_attempts sec_delay_end]; lia.
  - intros data reqs' s1 (Hr & Hi & Hc & evs & Ht & Hg). inversion_clear Hr. apply wp_bind, wp_mod_ctx, wp_bind.
    eapply wp_mono; [apply (wp_security_step data (set_ctx _ s1))|]; [|done|done|].
    { destruct Hi as [Hic Him Hie]. split; [cbn; ctx_ok_tac|done|done]. }
    destruct s1 as [c1 m1 e1 tr1]. cbn [set_ctx ctx env trace] in *.
    intros _ s2 (Hi2 & Hc2 & sub & res & evs2 & Ht2 & Hv & Hk). apply wp_ret.
    split; [done|]. split; [done|]. split; [lia|]. exists (evs ++ evs2). rewrite Ht2, Ht, <- app_assoc. split; [done|].
    change (sec_view (set_suppress_pos_resp _ c1)) with (sec_view c1) in *.
    rewrite key_results_app, length_app. intros Hw Hall Hn. apply Forall_app in Hall as [Hall1 Hall2].
    destruct Hg as [Hg Hat]; [lia|done|lia|]. rewrite u32_small in Hv, Hk by lia. rewrite Hv.
    destruct (guessing_step cfg Hmax Hdel (clock (env s)) (clock e1) (sec_view c1) (clock e1) sub res) as [Hg2 Hat2];
      [done|lia|lia| |rewrite Hat|].
    + destruct (is_key_check _ _ _); [|by destruct Hk as [_ ->]]. rewrite Hk in Hall2. by inversion Hall2.
    + destruct (is_key_check _ _ _); [rewrite Hk in Hn; cbn in Hn; lia|lia].
    + split; [by eapply guessing_later|]. rewrite Hat2, Hat.
      destruct (is_key_check _ _ _); [rewrite Hk; cbn; lia|destruct Hk as [-> _]; cbn; lia].
  - intros s' (_ & _ & _ & evs & Ht & Hg). exists evs. split; [done|]. intros keys Hw Hall Hn.
    destruct (Hg Hw Hall Hn) as [Hg1 Hat]. subst keys. rewrite <- Hat. by apply guessing_bound.
Qed.
End GuessRun.
