(* ===== verification/SvcMaintenance.v ===== *)
(** * Maintenance services: [src/services/uds_service_maintenance.c]
      (0x11, 0x14, 0x19, 0x28, 0x85)

    The handlers, their [HandlerSpec], and the exact effect of each. *)

From S2P Require Import Prelude Monad Types Machine CoreBase Contract HandlerLogic.
From stdpp Require Import base gmap list strings numbers.

Open Scope Z_scope.

Section Maintenance.
Context {E : Type}.

Definition uds_internal_handle_ecu_reset (ctx : ctx_ptr E) (data : list Z) (len : Z)
    : M (uds_state E) Z :=
  if len <? 2 then uds_send_nrc ctx UDS_SID_ECU_RESET UDS_NRC_INCORRECT_LENGTH
  else
    sub_raw ← data_at data 1;
    let sub := Z.land sub_raw 0x7F in
    let suppress := negb (Z.land sub_raw 0x80 =? 0) in
    if (sub <? 0x01) || (sub >? 0x05)
    then uds_send_nrc ctx UDS_SID_ECU_RESET UDS_NRC_SUBFUNCTION_NOT_SUPPORTED
    else
      mwhen suppress (mod_ctx (set_suppress_pos_resp true)) ;;
      cfg ← config_of ctx;
      match fn_reset cfg with
      | Some f => c ← get_ctx; call (f c sub) ;; emit (EvReset sub)
      | None => mret tt
      end ;;
      if suppress then mret UDS_OK
      else
        tx_set cfg 0 (u8 (UDS_SID_ECU_RESET + UDS_RESPONSE_OFFSET)) ;;
        tx_set cfg 1 sub ;;
        uds_send_response ctx 2.

(** The end of the 0x28 handler, after the application has agreed. *)
Definition comm_control_accept (ctx : ctx_ptr E) (ctrl_type : Z) (suppress : bool)
    : M (uds_state E) Z :=
  mod_ctx (set_comm_state ctrl_type) ;;
  uds_internal_log ctx UDS_LOG_INFO "Communication state changed" ;;
  if suppress then mret UDS_OK
  else
    cfg ← config_of ctx;
    tx_set cfg 0 (u8 (UDS_SID_COMM_CONTROL + UDS_RESPONSE_OFFSET)) ;;
    tx_set cfg 1 ctrl_type ;;
    uds_send_response ctx 2.

Definition uds_internal_handle_comm_control (ctx : ctx_ptr E) (data : list Z) (len : Z)
    : M (uds_state E) Z :=
  if len <? 3 then uds_send_nrc ctx UDS_SID_COMM_CONTROL UDS_NRC_INCORRECT_LENGTH
  else
    sub_raw ← data_at data 1;
    let ctrl_type := Z.land sub_raw 0x7F in
    let suppress := negb (Z.land sub_raw 0x80 =? 0) in
    comm_type ← data_at data 2;
    if ctrl_type >? 0x05
    then uds_send_nrc ctx UDS_SID_COMM_CONTROL UDS_NRC_SUBFUNCTION_NOT_SUPPORTED
    else
      let type_nibble := Z.land comm_type 0x0F in
      if (type_nibble =? 0) || (type_nibble >? 3)
      then uds_send_nrc ctx UDS_SID_COMM_CONTROL UDS_NRC_REQUEST_OUT_OF_RANGE
      else
        mwhen suppress (mod_ctx (set_suppress_pos_resp true)) ;;
        cfg ← config_of ctx;
        match fn_comm_control cfg with
        | Some f =>
            c ← get_ctx;
            ret ← call (f c ctrl_type comm_type);
            emit (EvCommControl ctrl_type comm_type ret) ;;
            if negb (ret =? UDS_OK) then uds_send_nrc ctx UDS_SID_COMM_CONTROL (nrc_of ret)
            else comm_control_accept ctx ctrl_type suppress
        | None => comm_control_accept ctx ctrl_type suppress
        end.

Definition uds_internal_handle_clear_dtc (ctx : ctx_ptr E) (data : list Z) (len : Z)
    : M (uds_state E) Z :=
  if len <? 4 then uds_send_nrc ctx UDS_SID_CLEAR_DTC UDS_NRC_INCORRECT_LENGTH
  else
    cfg ← config_of ctx;
    match fn_dtc_clear cfg with
    | None => uds_send_nrc ctx UDS_SID_CLEAR_DTC UDS_NRC_CONDITIONS_NOT_CORRECT
    | Some f =>
        d1 ← data_at data 1;
        d2 ← data_at data 2;
        d3 ← data_at data 3;
        let group := Z.lor (Z.lor (u32 (Z.shiftl d1 16)) (u32 (Z.shiftl d2 8))) d3 in
        c ← get_ctx;
        res ← call (f c group);
        emit (EvDtcClear group res) ;;
        if negb (res =? UDS_OK) then uds_send_nrc ctx UDS_SID_CLEAR_DTC (nrc_of res)
        else
          tx_set cfg 0 (u8 (UDS_SID_CLEAR_DTC + UDS_RESPONSE_OFFSET)) ;;
          uds_send_response ctx 1
    end.

Definition uds_internal_handle_read_dtc_info (ctx : ctx_ptr E) (data : list Z) (len : Z)
    : M (uds_state E) Z :=
  if len <? 2 then uds_send_nrc ctx UDS_SID_READ_DTC_INFO UDS_NRC_INCORRECT_LENGTH
  else
    sub_raw ← data_at data 1;
    let sub := Z.land sub_raw 0x7F in
    let suppress := negb (Z.land sub_raw 0x80 =? 0) in
    let req_mask := existsb (Z.eqb sub) [0x01; 0x02; 0x07; 0x08; 0x0F; 0x11; 0x12; 0x13] in
    if req_mask && (len <? 3)
    then uds_send_nrc ctx UDS_SID_READ_DTC_INFO UDS_NRC_INCORRECT_LENGTH
    else
      cfg ← config_of ctx;
      match fn_dtc_read cfg with
      | None => uds_send_nrc ctx UDS_SID_READ_DTC_INFO UDS_NRC_CONDITIONS_NOT_CORRECT
      | Some f =>
          mwhen suppress (mod_ctx (set_suppress_pos_resp true)) ;;
          let max_payload := u16 (tx_buffer_size cfg - 2) in
          c ← get_ctx;
          written ← call_out cfg 2 (f c sub max_payload);
          emit (EvDtcRead sub written) ;;
          if written <? 0 then uds_send_nrc ctx UDS_SID_READ_DTC_INFO (nrc_of written)
          else if suppress then mret UDS_OK
          else
            tx_set cfg 0 (u8 (UDS_SID_READ_DTC_INFO + UDS_RESPONSE_OFFSET)) ;;
            tx_set cfg 1 sub ;;
            uds_send_response ctx (u16 (u16 written + 2))
      end.

Definition uds_internal_handle_control_dtc_setting (ctx : ctx_ptr E) (data : list Z) (len : Z)
    : M (uds_state E) Z :=
  if len <? 2 then uds_send_nrc ctx UDS_SID_CONTROL_DTC_SETTING UDS_NRC_INCORRECT_LENGTH
  else
    sub_raw ← data_at data 1;
    let sub := Z.land sub_raw 0x7F in
    let suppress := negb (Z.land sub_raw 0x80 =? 0) in
    if negb (sub =? 0x01) && negb (sub =? 0x02)
    then uds_send_nrc ctx UDS_SID_CONTROL_DTC_SETTING UDS_NRC_SUBFUNCTION_NOT_SUPPORTED
    else
      mwhen suppress (mod_ctx (set_suppress_pos_resp true)) ;;
      cfg ← config_of ctx;
      tx_set cfg 0 (u8 (UDS_SID_CONTROL_DTC_SETTING + UDS_RESPONSE_OFFSET)) ;;
      tx_set cfg 1 sub ;;
      uds_send_response ctx 2.
End Maintenance.

Section MaintenanceSpec.
Context {E : Type} (env_ok : E -> Prop) (tb : N) (cfg : uds_config E).
Context `{Hok : !ConfigOk env_ok tb cfg}.

#[export] Instance ecu_reset_spec :
  HandlerSpec env_ok tb cfg UDS_SID_ECU_RESET 2 true (uds_internal_handle_ecu_reset (Some cfg)).
Proof. hopen cfg. unfold uds_internal_handle_ecu_reset. hsteps; hpost. Qed.

#[export] Instance comm_control_spec :
  HandlerSpec env_ok tb cfg UDS_SID_COMM_CONTROL 2 true (uds_internal_handle_comm_control (Some cfg)).
Proof. hopen cfg. unfold uds_internal_handle_comm_control, comm_control_accept. hsteps; hpost. Qed.

#[export] Instance clear_dtc_spec :
  HandlerSpec env_ok tb cfg UDS_SID_CLEAR_DTC 4 false (uds_internal_handle_clear_dtc (Some cfg)).
Proof. hopen cfg. unfold uds_internal_handle_clear_dtc. hsteps; hpost. Qed.

#[export] Instance read_dtc_info_spec :
  HandlerSpec env_ok tb cfg UDS_SID_READ_DTC_INFO 2 true (uds_internal_handle_read_dtc_info (Some cfg)).
Proof. hopen cfg. unfold uds_internal_handle_read_dtc_info. hsteps; hpost. Qed.

#[export] Instance control_dtc_setting_spec :
  HandlerSpec env_ok tb cfg UDS_SID_CONTROL_DTC_SETTING 2 true
    (uds_internal_handle_control_dtc_setting (Some cfg)).
Proof. hopen cfg. unfold uds_internal_handle_control_dtc_setting. hsteps; hpost. Qed.

(** C33: 0x28 by cases: control types above 5 get 0x12, communication types with a low
    nibble outside 1 to 3 get 0x31, a refusal of the application its code, all leaving
    the state alone; otherwise the communication state becomes the control type and is
    acknowledged, except that with bit 7 set nothing is sent and the suppress flag stays
    set for the next request. *)
Theorem comm_control_exact data len s b1 b2 :
  uds_inv env_ok tb cfg s -> data !! 1%nat = Some b1 -> data !! 2%nat = Some b2 ->
  Forall is_byte data -> 3 <= len <= Z.of_nat (length data) ->
  wp (uds_internal_handle_comm_control (Some cfg) data len)
    (fun _ s' => exists evs, trace s' = trace s ++ evs /\
       let ctrl := Z.land b1 127 in
       let suppress := 128 <=? b1 in
       if 5 <? ctrl then
         comm_state (ctx s') = comm_state (ctx s) /\
         rejected UDS_SID_COMM_CONTROL UDS_NRC_SUBFUNCTION_NOT_SUPPORTED evs
       else if negb ((1 <=? b2 mod 16) && (b2 mod 16 <=? 3)) then
         comm_state (ctx s') = comm_state (ctx s) /\
         rejected UDS_SID_COMM_CONTROL UDS_NRC_REQUEST_OUT_OF_RANGE evs
       else exists asked answer,
         evs = asked ++ answer /\
         ((exists ret, asked = [EvCommControl ctrl b2 ret] /\ ret <> 0 /\
             comm_state (ctx s') = comm_state (ctx s) /\
             rejected UDS_SID_COMM_CONTROL (nrc_of ret) answer) \/
          ((fn_comm_control cfg = None /\ asked = [] \/ asked = [EvCommControl ctrl b2 0]) /\
             comm_state (ctx s') = ctrl /\
             exists logs answer1, answer = logs ++ answer1 /\ sends logs = [] /\
               if suppress then answer1 = [] /\ suppress_pos_resp (ctx s') = true
               else reply (suppress_pos_resp (ctx s)) [0x68; ctrl] answer1))) s.
Proof.
  intros Hinv Hb1 Hb2 Hbytes Hlen. xopen cfg Hinv.
  unfold uds_internal_handle_comm_control, comm_control_accept.
  assert (Hbb : is_byte b1) by (eapply Forall_lookup_1; eauto).
  pose proof (Z.mod_pos_bound b2 16 ltac:(lia)). pose proof (land_128 b1 Hbb).
  hsteps; try (exfalso; lia); xevents; ctx_cbn; rewrite ?land_15 in *; tests.
  all: try (split; [done|by eexists]).
  all: try (eexists; eexists; split; [reflexivity|left; exists a; repeat split; [done..|by eexists]]).
  - exists [EvCommControl (Z.land b1 127) b2 a], evs. subst a. split; [done|]. right. split; [by right|].
    split; [done|]. exists evs, []. rewrite app_nil_r. tests. done.
  - exists [], evs. split; [done|]. right. split; [by left|].
    split; [done|]. exists evs, []. rewrite app_nil_r. tests. done.
  - exists [EvCommControl (Z.land b1 127) b2 a], (evs ++ evs0). subst a. split; [done|]. right. split; [by right|].
    split; [done|]. exists evs, evs0. tests. reply_tac.
  - exists [], (evs ++ evs0). split; [done|]. right. split; [by left|].
    split; [done|]. exists evs, evs0. tests. reply_tac.
Qed.

(** 0x14 hands the application the 24-bit group of the request and answers 0x54
    when it succeeds, its code when it does not, and 0x22 without a callback. *)
Theorem clear_dtc_exact data len s a b d :
  uds_inv env_ok tb cfg s -> take 3 (drop 1 data) = [a; b; d] -> Forall is_byte data ->
  4 <= len <= Z.of_nat (length data) ->
  wp (uds_internal_handle_clear_dtc (Some cfg) data len)
    (fun _ s' => exists evs, trace s' = trace s ++ evs /\
       match fn_dtc_clear cfg with
       | None => rejected UDS_SID_CLEAR_DTC UDS_NRC_CONDITIONS_NOT_CORRECT evs
       | Some _ => exists res evs1, evs = EvDtcClear (be_combine [a; b; d]) res :: evs1 /\
           if res =? 0 then reply (suppress_pos_resp (ctx s)) [0x54] evs1
           else rejected UDS_SID_CLEAR_DTC (nrc_of res) evs1
       end) s.
Proof.
  intros Hinv Hd Hbytes Hlen. xopen cfg Hinv.
  destruct data as [|x [|a' [|b' [|d' data]]]]; try discriminate Hd. injection Hd as -> -> ->.
  assert (Ha : is_byte a) by (by apply (Forall_lookup_1 _ _ 1%nat _ Hbytes)).
  assert (Hb : is_byte b) by (by apply (Forall_lookup_1 _ _ 2%nat _ Hbytes)).
  assert (Hdd : is_byte d) by (by apply (Forall_lookup_1 _ _ 3%nat _ Hbytes)).
  unfold uds_internal_handle_clear_dtc.
  assert (H1 : (x :: a :: b :: d :: data) !! 1%nat = Some a) by done.
  assert (H2 : (x :: a :: b :: d :: data) !! 2%nat = Some b) by done.
  assert (H3 : (x :: a :: b :: d :: data) !! 3%nat = Some d) by done.
  hsteps; try (exfalso; lia); xevents; rewrite ?be_triple in * by done.
  all: try (eexists; eexists; split; [reflexivity|]; tests).
  all: try by eexists.
  reply_tac.
Qed.

(** The status subfunctions of 0x19 that take a mask byte. *)
Definition dtc_needs_mask (sub : Z) : bool :=
  bool_decide (sub ∈ [0x01; 0x02; 0x07; 0x08; 0x0F; 0x11; 0x12; 0x13]).

Lemma dtc_needs_mask_eq sub :
  existsb (Z.eqb sub) [0x01; 0x02; 0x07; 0x08; 0x0F; 0x11; 0x12; 0x13] = dtc_needs_mask sub.
Proof.
  unfold dtc_needs_mask. apply eq_true_iff_eq. rewrite existsb_exists, bool_decide_eq_true, list_elem_of_In.
  split; [intros (x & Hx & He%Z.eqb_eq); by subst|]. intros H. exists sub. split; [done|apply Z.eqb_refl].
Qed.

(** 0x19 hands the application the report type and answers 0x59 with the type and
    exactly the bytes the application wrote, or its negative code; report types that
    take a status mask get 0x13 without one; with bit 7 set the application is asked but
    nothing is sent and the suppress flag stays set for the next request. *)
Theorem read_dtc_exact data len s f b res out e' :
  uds_inv env_ok tb cfg s -> Forall is_byte data -> data !! 1%nat = Some b ->
  2 <= len <= Z.of_nat (length data) -> fn_dtc_read cfg = Some f ->
  let sub := Z.land b 127 in
  let suppress := 128 <=? b in
  f (if suppress then set_suppress_pos_resp true (ctx s) else ctx s) sub (tx_buffer_size cfg - 2) (env s) =
    Ok ((res, out), e') ->
  res <= Z.of_nat (length out) ->
  wp (uds_internal_handle_read_dtc_info (Some cfg) data len)
    (fun _ s' => exists evs, trace s' = trace s ++ evs /\
       if dtc_needs_mask sub && (len <? 3) then rejected UDS_SID_READ_DTC_INFO UDS_NRC_INCORRECT_LENGTH evs
       else exists evs1, evs = EvDtcRead sub res :: evs1 /\
         if res <? 0 then rejected UDS_SID_READ_DTC_INFO (nrc_of res) evs1
         else if suppress then evs1 = [] /\ suppress_pos_resp (ctx s') = true
         else reply (suppress_pos_resp (ctx s)) (0x59 :: sub :: take (Z.to_nat res) out) evs1) s.
Proof.
  intros Hinv Hbytes Hb Hlen Hf sub suppress Hrun Hres. xopen cfg Hinv. cbn [env] in Hrun.
  assert (Hbb : is_byte b) by (by apply (Forall_lookup_1 _ _ 1%nat _ Hbytes)).
  pose proof (land_128 b Hbb) as H128. fold suppress in H128.
  unfold uds_internal_handle_read_dtc_info. rewrite (proj2 (Z.ltb_ge len 2)) by lia.
  hstep. hstep. cbv zeta. rewrite dtc_needs_mask_eq. fold sub. rewrite H128.
  destruct (dtc_needs_mask sub && (len <? 3)); [hsteps; xevents; by eexists|].
  hstep. hstep. rewrite Hf. hstep.
  assert (Hgo : forall c1, c1 = (if suppress then set_suppress_pos_resp true c else c) -> ctx_ok c1 ->
    wp (c0 ← get_ctx; written ← call_out cfg 2 (f c0 sub (u16 (tx_buffer_size cfg - 2)));
        emit (EvDtcRead sub written) ;;
        if written <? 0 then uds_send_nrc (Some cfg) UDS_SID_READ_DTC_INFO (nrc_of written)
        else if suppress then mret UDS_OK
        else tx_set cfg 0 (u8 (UDS_SID_READ_DTC_INFO + UDS_RESPONSE_OFFSET)) ;; tx_set cfg 1 sub ;;
             uds_send_response (Some cfg) (u16 (u16 written + 2)))
      (fun _ s' => exists evs, trace s' = tr ++ evs /\ exists evs1, evs = EvDtcRead sub res :: evs1 /\
         if res <? 0 then rejected UDS_SID_READ_DTC_INFO (nrc_of res) evs1
         else if suppress then evs1 = [] /\ suppress_pos_resp (ctx s') = true
         else reply (suppress_pos_resp c) (0x59 :: sub :: take (Z.to_nat res) out) evs1)
      (mkState c1 (<[tb := l]> m) e tr)).
  { intros c1 -> Hc1. hstep. hstep. hstep. u16_tac.
    eapply wp_call_out_run; [eassumption|cb_hyp|eassumption|exact Hrun|lia|intros; size_tac|].
    intros l1 [HR1 HR2] He1 Hl1 Hlen1. cbn [fst snd] in *.
    destruct suppress; hsteps; xevents; tests; try (eexists; split; [reflexivity|]); try by eexists.
    u16_tac. replace (Z.to_nat (res + 2)) with (2 + Z.to_nat res)%nat in * by lia.
    out_reply_tac frame2. }
  apply wp_when; intros Hs; rewrite Hs in Hgo |- *; [hstep|]; apply Hgo; done || ctx_ok_tac.
Qed.

(** 0x11 runs the application's reset for types 1 to 5 before it answers. *)
Theorem ecu_reset_exact data len s b :
  uds_inv env_ok tb cfg s -> Forall is_byte data -> data !! 1%nat = Some b -> 2 <= len <= Z.of_nat (length data) ->
  wp (uds_internal_handle_ecu_reset (Some cfg) data len)
    (fun _ s' => exists evs, trace s' = trace s ++ evs /\
       let sub := Z.land b 127 in
       if (1 <=? sub) && (sub <=? 5) then
         exists answer, evs = (match fn_reset cfg with Some _ => [EvReset sub] | None => [] end) ++ answer /\
           if 128 <=? b then answer = [] /\ suppress_pos_resp (ctx s') = true
           else reply (suppress_pos_resp (ctx s)) [0x51; sub] answer
       else rejected UDS_SID_ECU_RESET UDS_NRC_SUBFUNCTION_NOT_SUPPORTED evs) s.
Proof.
  intros Hinv Hbytes Hb Hlen. xopen cfg Hinv.
  assert (Hbb : is_byte b) by (by apply (Forall_lookup_1 _ _ 1%nat _ Hbytes)). pose proof (land_128 b Hbb).
  unfold uds_internal_handle_ecu_reset. hsteps; try (exfalso; lia); xevents; ctx_cbn; tests; try by eexists.
  all: eexists; split; [first [by rewrite app_nil_r|reflexivity]|]; tests; try done; reply_tac.
Qed.

(** 0x85 acknowledges on and off and refuses the rest. *)
Theorem control_dtc_exact data len s b :
  uds_inv env_ok tb cfg s -> Forall is_byte data -> data !! 1%nat = Some b -> 2 <= len <= Z.of_nat (length data) ->
  wp (uds_internal_handle_control_dtc_setting (Some cfg) data len)
    (fun _ s' => exists evs, trace s' = trace s ++ evs /\
       let sub := Z.land b 127 in
       if (1 <=? sub) && (sub <=? 2) then reply ((128 <=? b) || suppress_pos_resp (ctx s)) [0xC5; sub] evs
       else rejected UDS_SID_CONTROL_DTC_SETTING UDS_NRC_SUBFUNCTION_NOT_SUPPORTED evs) s.
Proof.
  intros Hinv Hbytes Hb Hlen. xopen cfg Hinv.
  assert (Hbb : is_byte b) by (by apply (Forall_lookup_1 _ _ 1%nat _ Hbytes)). pose proof (land_128 b Hbb).
  unfold uds_internal_handle_control_dtc_setting. hsteps; try (exfalso; lia); xevents; ctx_cbn; tests; try by eexists.
  1: replace (128 <=? b) with true by lia. 2: replace (128 <=? b) with false by lia.
  all: cbn [orb]; reply_tac.
Qed.
End MaintenanceSpec.
