(* ===== verification/SvcData.v ===== *)
(** * Data identifiers: [src/services/uds_service_data.c] (0x22, 0x2E)

    The handlers, their [HandlerSpec], 0x22 against a reference reader of the
    DID table, and the round trip from 0x2E to 0x22. *)

From S2P Require Import Prelude Monad Types Machine CoreBase Contract HandlerLogic.
From stdpp Require Import base gmap list strings numbers.

Open Scope Z_scope.

(** How the 0x22 loop ends: it ran to the end with a response of [tx_len]
    bytes, it broke out with a negative response code to send, or it returned
    after sending one itself. *)
Inductive rdbi_exit : Type :=
| RdbiDone (tx_len : Z)
| RdbiError (nrc : Z)
| RdbiReturn (ret : Z).

Section Data.
Context {E : Type}.

(** A DID as the request carries it: two bytes, most significant first. *)
Definition did_of (hi lo : Z) : Z := u16 (Z.lor (Z.shiftl hi 8) lo).

(** [entry->read] or [memcpy(entry->storage)] into [tx_buffer[tx_len]]. *)
Definition rdbi_value (ctx : ctx_ptr E) (cfg : uds_config E) (entry : uds_did_entry E)
    (did tx_len : Z) : M (uds_state E) rdbi_exit :=
  match did_read entry with
  | Some f =>
      c ← get_ctx;
      res ← call_out cfg tx_len (f c did (did_size entry));
      emit (EvDidRead did res) ;;
      if 0 <=? res then mret (RdbiDone (u16 (tx_len + did_size entry)))
      else r ← uds_send_nrc ctx UDS_SID_READ_DATA_BY_ID (nrc_of res); mret (RdbiReturn r)
  | None =>
      match did_storage entry with
      | Some st =>
          v ← blk_read (Some st) 0 (did_size entry);
          blk_write (tx_buffer cfg) tx_len v ;;
          mret (RdbiDone (u16 (tx_len + did_size entry)))
      | None => mret (RdbiError UDS_NRC_CONDITIONS_NOT_CORRECT)
      end
  end.

(** One iteration of the loop: the DID at [data[i]], [data[i+1]]. *)
Definition rdbi_one (ctx : ctx_ptr E) (data : list Z) (i tx_len : Z)
    : M (uds_state E) rdbi_exit :=
  h ← data_at data i;
  l ← data_at data (i + 1);
  let did := did_of h l in
  entry ← uds_internal_find_did ctx did;
  match entry with
  | None => mret (RdbiError UDS_NRC_REQUEST_OUT_OF_RANGE)
  | Some entry =>
      sess ← did_session_ok entry;
      if negb sess then mret (RdbiError UDS_NRC_REQUEST_OUT_OF_RANGE)
      else
        sec ← did_security_ok entry;
        if negb sec then mret (RdbiError UDS_NRC_SECURITY_ACCESS_DENIED)
        else
          cfg ← config_of ctx;
          if tx_len + did_size entry + 2 >? tx_buffer_size cfg then
            r ← uds_send_nrc ctx UDS_SID_READ_DATA_BY_ID UDS_NRC_RESPONSE_TOO_LONG;
            mret (RdbiReturn r)
          else
            tx_set cfg tx_len (hi8 did) ;;
            tx_set cfg (u16 (tx_len + 1)) (lo8 did) ;;
            rdbi_value ctx cfg entry did (u16 (u16 (tx_len + 1) + 1))
  end.

Section Loop.
Context (ctx : ctx_ptr E) (data : list Z) (len : Z).

(** [while (i + 1u < len) { ...; i += 2u; }] *)
Fixpoint rdbi_loop (fuel : nat) (i tx_len : Z) : M (uds_state E) rdbi_exit :=
  match fuel with
  | O => mfault OutOfFuel
  | S fuel' =>
      if i + 1 <? len then
        x ← rdbi_one ctx data i tx_len;
        match x with
        | RdbiDone tx_len' => rdbi_loop fuel' (u16 (i + 2)) tx_len'
        | _ => mret x
        end
      else mret (RdbiDone tx_len)
  end.
End Loop.

Definition uds_internal_handle_read_data_by_id (ctx : ctx_ptr E) (data : list Z) (len : Z)
    : M (uds_state E) Z :=
  x ← rdbi_loop ctx data len (S (Z.to_nat len)) 1 1;
  match x with
  | RdbiReturn r => mret r
  | RdbiError nrc => uds_send_nrc ctx UDS_SID_READ_DATA_BY_ID nrc
  | RdbiDone tx_len =>
      cfg ← config_of ctx;
      tx_set cfg 0 (u8 (UDS_SID_READ_DATA_BY_ID + UDS_RESPONSE_OFFSET)) ;;
      uds_send_response ctx tx_len
  end.

(** [entry->write(...)] or [memcpy(entry->storage, ...)]: whether it succeeded. *)
Definition wdbi_store (entry : uds_did_entry E) (did : Z) (data : list Z) : M (uds_state E) bool :=
  match did_write entry with
  | Some f =>
      v ← data_from data 3;
      c ← get_ctx;
      res ← call (f c did v (did_size entry));
      emit (EvDidWrite did (take (Z.to_nat (did_size entry)) v) res) ;;
      mret (res =? 0)
  | None =>
      match did_storage entry with
      | Some st =>
          v ← data_from data 3;
          if did_size entry <=? Z.of_nat (length v) then
            blk_write (Some st) 0 (take (Z.to_nat (did_size entry)) v) ;;
            mret true
          else mfault OutOfBounds
      | None => mret false
      end
  end.

Definition uds_internal_handle_write_data_by_id (ctx : ctx_ptr E) (data : list Z) (len : Z)
    : M (uds_state E) Z :=
  if len <? 3 then uds_send_nrc ctx UDS_SID_WRITE_DATA_BY_ID UDS_NRC_INCORRECT_LENGTH
  else
    h ← data_at data 1;
    l ← data_at data 2;
    let did := did_of h l in
    entry ← uds_internal_find_did ctx did;
    match entry with
    | None => uds_send_nrc ctx UDS_SID_WRITE_DATA_BY_ID UDS_NRC_REQUEST_OUT_OF_RANGE
    | Some entry =>
        sess ← did_session_ok entry;
        if negb sess
        then uds_send_nrc ctx UDS_SID_WRITE_DATA_BY_ID UDS_NRC_REQUEST_OUT_OF_RANGE
        else
          sec ← did_security_ok entry;
          if negb sec
          then uds_send_nrc ctx UDS_SID_WRITE_DATA_BY_ID UDS_NRC_SECURITY_ACCESS_DENIED
          else if negb (len =? u16 (3 + did_size entry))
          then uds_send_nrc ctx UDS_SID_WRITE_DATA_BY_ID UDS_NRC_INCORRECT_LENGTH
          else
            write_ok ← wdbi_store entry did data;
            if (write_ok : bool) then
              cfg ← config_of ctx;
              tx_set cfg 0 (u8 (UDS_SID_WRITE_DATA_BY_ID + UDS_RESPONSE_OFFSET)) ;;
              tx_set cfg 1 h ;;
              tx_set cfg 2 l ;;
              uds_send_response ctx 3
            else uds_send_nrc ctx UDS_SID_WRITE_DATA_BY_ID UDS_NRC_CONDITIONS_NOT_CORRECT
    end.
End Data.

(** ** Reference reader

    The registered entry of an identifier, and the response body for a list of
    identifiers when [used] bytes of the buffer are taken: the bytes, or the
    code to reject the request with. It covers tables of stored values. *)
Definition did_lookup {E} (cfg : uds_config E) (id : Z) : option (uds_did_entry E) :=
  List.find (fun e => did_id e =? id) (take (Z.to_nat (did_count (did_table cfg))) (did_entries (did_table cfg))).

Fixpoint read_dids {E} (cfg : uds_config E) (c : uds_ctx) (m : gmap N (list Z)) (ids : list Z)
    (used : Z) : list Z + Z :=
  match ids with
  | [] => inl []
  | id :: ids' =>
      match did_lookup cfg id with
      | None => inr UDS_NRC_REQUEST_OUT_OF_RANGE
      | Some en =>
          if negb (session_allows en c) then inr UDS_NRC_REQUEST_OUT_OF_RANGE
          else if negb (security_allows en c) then inr UDS_NRC_SECURITY_ACCESS_DENIED
          else if tx_buffer_size cfg <? used + 2 + did_size en then inr UDS_NRC_RESPONSE_TOO_LONG
          else match did_storage en ≫= (fun st => m !! st) with
          | None => inr UDS_NRC_CONDITIONS_NOT_CORRECT
          | Some blk =>
              match read_dids cfg c m ids' (used + 2 + did_size en) with
              | inl rest => inl (be_split 2 id ++ take (Z.to_nat (did_size en)) blk ++ rest)
              | inr nrc => inr nrc
              end
          end
      end
  end.

(** Every entry is a stored value, kept outside the transmit buffer. *)
Definition stored_only {E} (tb : N) (cfg : uds_config E) : Prop :=
  Forall (fun en => did_read en = None /\ did_write en = None /\ did_storage en <> Some tb)
    (did_entries (did_table cfg)).

Section DataSpec.
Context {E : Type} (env_ok : E -> Prop) (tb : N) (cfg : uds_config E).
Context `{Hok : !ConfigOk env_ok tb cfg}.

(** What the loop of 0x22 and each of its iterations guarantee: nothing is
    sent but the rejection the handler returns with, and the response built so
    far fits the buffer. *)
Definition rdbi_post (c : uds_ctx) (m : gmap N (list Z)) (tr : list event)
    (x : rdbi_exit) (s' : uds_state E) : Prop :=
  exists c' l' e' evs,
    s' = mkState c' (<[tb := l']> m) e' (tr ++ evs) /\
    Z.of_nat (length l') = tx_buffer_size cfg /\ env_ok e' /\ mutex_ops evs = [] /\
    match x with
    | RdbiDone n => c' = c /\ sends evs = [] /\ 1 <= n <= tx_buffer_size cfg
    | RdbiError _ => c' = c /\ sends evs = []
    | RdbiReturn r => exists nrc, c' = nrc_ctx UDS_SID_READ_DATA_BY_ID nrc c /\ r <= 0 /\
        sends evs = [negative UDS_SID_READ_DATA_BY_ID nrc]
    end.

Lemma rdbi_one_post data i n c m e tr l :
  Forall is_byte data -> 0 <= i -> i + 1 < Z.of_nat (length data) -> 1 <= n <= tx_buffer_size cfg ->
  ctx_ok c -> mem_ok tb cfg m -> env_ok e -> Z.of_nat (length l) = tx_buffer_size cfg ->
  wp (rdbi_one (Some cfg) data i n) (rdbi_post c m tr) (mkState c (<[tb := l]> m) e tr).
Proof.
  intros Hb Hi Hd Hn Hc Hm He Hl.
  pose proof (ok_tx_size (cfg := cfg)) as Hsz; unfold MIN_TX in Hsz.
  pose proof (ctx_session _ Hc); pose proof (ctx_level _ Hc).
  unfold rdbi_one, rdbi_value. hsteps.
  all: eexists; eexists; eexists; eexists; split;
    [rewrite <- ?app_assoc; first [reflexivity | by rewrite app_nil_r]|].
  all: (split; [lia|split; [assumption|split; [done|]]]).
  all: first [ by eexists | split; [done|split; [done|size_tac]] | done ].
Qed.

Lemma rdbi_loop_post data len fuel : forall i n c m e tr l,
  Forall is_byte data -> len <= Z.of_nat (length data) -> len < 65536 -> 0 <= i <= 65535 ->
  (Z.to_nat (len - i) < fuel)%nat -> 1 <= n <= tx_buffer_size cfg ->
  ctx_ok c -> mem_ok tb cfg m -> env_ok e -> Z.of_nat (length l) = tx_buffer_size cfg ->
  wp (rdbi_loop (Some cfg) data len fuel i n) (rdbi_post c m tr) (mkState c (<[tb := l]> m) e tr).
Proof.
  induction fuel as [|fuel IH]; intros i n c m e tr l Hb Hlen Hlt Hi Hf Hn Hc Hm He Hl; [lia|].
  cbn [rdbi_loop]. destruct (Z.ltb_spec (i + 1) len) as [Hgo|Hstop].
  - apply wp_bind. eapply wp_mono; [apply rdbi_one_post; [done|lia..|done|done|done|done]|].
    intros x s' (c' & l' & e' & evs & -> & Hl' & He' & Hmu & Hx).
    destruct x as [n'|nrc|r]; [|apply wp_ret; by exists c', l', e', evs..].
    destruct Hx as (-> & Hs & Hn').
    rewrite u16_small by lia. eapply wp_mono; [apply IH; [done..|lia|lia|lia|lia|done|done|done|done]|].
    intros x s' (c2 & l2 & e2 & evs2 & -> & Hl2 & He2 & Hmu2 & Hx).
    exists c2, l2, e2, (evs ++ evs2). rewrite <- app_assoc, mutex_ops_app, sends_app, Hmu, Hs. done.
  - apply wp_ret. exists c, l, e, []. by rewrite app_nil_r.
Qed.

#[export] Instance read_data_spec :
  HandlerSpec env_ok tb cfg UDS_SID_READ_DATA_BY_ID 3 false
    (uds_internal_handle_read_data_by_id (Some cfg)).
Proof.
  hopen cfg. unfold uds_internal_handle_read_data_by_id.
  apply wp_bind. eapply wp_mono; [apply rdbi_loop_post; [done|lia..|done|done|done|done]|].
  intros x s' (c' & l' & e' & evs & -> & Hl' & He' & Hmu & Hx).
  destruct x as [n|nrc|r].
  - destruct Hx as (-> & Hs & Hn). hsteps; hpost.
  - destruct Hx as [-> Hs]. hsteps; hpost.
  - destruct Hx as (nrc & -> & Hr & Hs). apply wp_ret.
    split; [apply inv_close; [ctx_ok_tac|assumption|assumption|lia]|].
    exists evs. split; [done|]. split; [done|]. split; [|access_tac].
    left. eexists. split; [exact Hs|]. split; [apply response_negative|lia].
Qed.

#[export] Instance write_data_spec :
  HandlerSpec env_ok tb cfg UDS_SID_WRITE_DATA_BY_ID 3 false
    (uds_internal_handle_write_data_by_id (Some cfg)).
Proof.
  hopen cfg. unfold uds_internal_handle_write_data_by_id, wdbi_store.
  hsteps; try hpost.
  exfalso. rewrite length_drop in *. zlia.
Qed.

(** *** 0x22 against the reference reader *)

Lemma did_of_split id : 0 <= id < 65536 -> did_of (hi8 id) (lo8 id) = id.
Proof. intros. unfold did_of. rewrite hi_lo8 by lia. by apply u16_small. Qed.

Lemma find_did_run id s :
  uds_internal_find_did (Some cfg) id s = Ok (did_lookup cfg id, s).
Proof. pose proof (ok_did_count (cfg := cfg)). apply array_find_run. lia. Qed.

Lemma did_lookup_In id en : did_lookup cfg id = Some en -> en ∈ did_entries (did_table cfg) /\ did_id en = id.
Proof.
  unfold did_lookup. intros H. apply find_some in H as [Hin Hid].
  split; [|by apply Z.eqb_eq]. apply list_elem_of_In in Hin.
  apply elem_of_take in Hin as (i & Hi & _). by eapply list_elem_of_lookup_2.
Qed.

(** How the loop ends, for what the reference reader says. *)
Definition rdbi_exact (c : uds_ctx) (m : gmap N (list Z)) (e : E) (tr : list event) (l : list Z)
    (n : Z) (res : list Z + Z) (x : rdbi_exit) (s' : uds_state E) : Prop :=
  exists l' e', Z.of_nat (length l') = tx_buffer_size cfg /\ env_ok e' /\
    match res with
    | inl bytes => x = RdbiDone (n + Z.of_nat (length bytes)) /\
        n + Z.of_nat (length bytes) <= tx_buffer_size cfg /\
        s' = mkState c (<[tb := l']> m) e' tr /\
        take (Z.to_nat n + length bytes) l' = take (Z.to_nat n) l ++ bytes
    | inr nrc =>
        x = RdbiError nrc /\ s' = mkState c (<[tb := l']> m) e' tr \/
        exists r, x = RdbiReturn r /\ r <= 0 /\
          s' = mkState (nrc_ctx UDS_SID_READ_DATA_BY_ID nrc c) (<[tb := l']> m) e'
                 (tr ++ [EvSend (negative UDS_SID_READ_DATA_BY_ID nrc) r])
    end.

Lemma rdbi_one_exact data i id n c m e tr l :
  stored_only tb cfg -> 0 <= id < 65536 ->
  data !! Z.to_nat i = Some (hi8 id) -> data !! Z.to_nat (i + 1) = Some (lo8 id) ->
  0 <= i -> 1 <= n <= tx_buffer_size cfg ->
  ctx_ok c -> mem_ok tb cfg m -> env_ok e -> Z.of_nat (length l) = tx_buffer_size cfg ->
  wp (rdbi_one (Some cfg) data i n) (rdbi_exact c m e tr l n (read_dids cfg c m [id] n))
    (mkState c (<[tb := l]> m) e tr).
Proof.
  intros Hst Hid Hd1 Hd2 Hi Hn Hc Hm He Hl.
  pose proof (ok_tx_size (cfg := cfg)) as Hsz; unfold MIN_TX in Hsz.
  pose proof (ctx_session _ Hc); pose proof (ctx_level _ Hc).
  unfold rdbi_one, rdbi_value. hstep. hstep. hstep. hstep. rewrite did_of_split by done.
  hstep. apply (run_wp _ _ _ _ _ (find_did_run id _)). cbn [read_dids].
  assert (Hrej : forall nrc, rdbi_exact c m e tr l n (inr nrc) (RdbiError nrc) (mkState c (<[tb := l]> m) e tr)).
  { intros nrc. exists l, e. split; [done|split; [done|by left]]. }
  destruct (did_lookup cfg id) as [en|] eqn:Hen; [|apply wp_ret, Hrej].
  apply did_lookup_In in Hen as [Hin Hdid].
  destruct (proj1 (Forall_forall _ _) Hst en ltac:(by apply list_elem_of_In)) as (Hread & _ & Hne).
  pose proof (proj1 (Forall_forall _ _) (ok_dids (cfg := cfg)) en ltac:(by apply list_elem_of_In)) as Hdid2.
  pose proof (ok_did_size _ _ Hdid2).
  hstep. hstep. cbn [ctx]. destruct (session_allows en c); [|apply wp_ret, Hrej]. cbn [negb].
  hstep. hstep. cbn [ctx]. destruct (security_allows en c); [|apply wp_ret, Hrej]. cbn [negb]. hstep. hstep.
  rewrite Z.gtb_ltb. replace (n + did_size en + 2) with (n + 2 + did_size en) by lia.
  hstep.
  - hsteps. exists l', e'. split; [lia|]. split; [done|]. right. by exists r.
  - hsteps.
    + match goal with H : <[tb := _]> m !! _ = Some ?b |- _ =>
        rewrite lookup_insert_ne in H by congruence; rename H into Hb; rename b into blk end.
      cbn [mbind option_bind]. rewrite Hb.
      u16_tac. eexists _, e. split; [|split; [done|]].
      2: { rewrite app_nil_r, length_app, length_be_split, length_take.
           split; [f_equal; lia|]. split; [lia|]. split; [reflexivity|].
           rewrite be_split_2 by done. subst. set (v := take (Z.to_nat (did_size en)) blk).
           assert (Hv : length v = Z.to_nat (did_size en)) by (subst v; rewrite length_take; lia).
           replace (Z.to_nat n + (2 + _))%nat with (Z.to_nat (n + 1 + 1) + length v)%nat by lia.
           rewrite take_write_at by length_tac. rewrite app_assoc. f_equal.
           replace (Z.to_nat (n + 1 + 1)) with (S (Z.to_nat (n + 1))) by lia.
           rewrite take_write_byte by length_tac. change [hi8 ?a; lo8 ?b] with ([hi8 a] ++ [lo8 b]).
           replace (Z.to_nat (n + 1)) with (S (Z.to_nat n)) by lia.
           rewrite take_write_byte by length_tac. by rewrite <- app_assoc. }
      lia.
    + cbn. exists l'0, e. split; [lia|]. split; [done|]. by left.
Qed.

(** Reading one identifier, then the others in what room is left. *)
Lemma read_dids_cons c m id ids n :
  mem_ok tb cfg m ->
  read_dids cfg c m (id :: ids) n =
  match read_dids cfg c m [id] n with
  | inl b => match read_dids cfg c m ids (n + Z.of_nat (length b)) with
             | inl rest => inl (b ++ rest)
             | inr nrc => inr nrc
             end
  | inr nrc => inr nrc
  end.
Proof.
  intros Hm. cbn [read_dids]. destruct (did_lookup cfg id) as [en|] eqn:Hen; [|done].
  apply did_lookup_In in Hen as [Hin _].
  destruct (negb _); [done|]. destruct (negb _); [done|]. destruct (_ <? _); [done|].
  destruct (did_storage en) as [st|] eqn:Hst; [|done]. cbn [mbind option_bind].
  destruct (proj1 (Forall_forall _ _) (mem_dids _ _ _ Hm) en ltac:(by apply list_elem_of_In) st Hst)
    as (blk & Hb & Hlen). rewrite Hb.
  pose proof (proj1 (Forall_forall _ _) (ok_dids (cfg := cfg)) en ltac:(by apply list_elem_of_In)) as Hd.
  pose proof (ok_did_size _ _ Hd).
  rewrite app_nil_r, length_app, length_be_split, length_take.
  replace (n + Z.of_nat (2 + Z.to_nat (did_size en) `min` length blk)) with (n + 2 + did_size en) by lia.
  destruct (read_dids cfg c m ids _); [|done]. by rewrite <- app_assoc.
Qed.

Lemma rdbi_loop_exact data (len : Z) tail fuel : forall ids i n c m e tr l,
  stored_only tb cfg -> Forall (fun id => 0 <= id < 65536) ids -> (length tail <= 1)%nat ->
  drop (Z.to_nat i) data = flat_map (be_split 2) ids ++ tail ->
  len = Z.of_nat (length data) -> len < 65536 -> 1 <= i <= len ->
  (length ids < fuel)%nat -> 1 <= n <= tx_buffer_size cfg ->
  ctx_ok c -> mem_ok tb cfg m -> env_ok e -> Z.of_nat (length l) = tx_buffer_size cfg ->
  wp (rdbi_loop (Some cfg) data len fuel i n) (rdbi_exact c m e tr l n (read_dids cfg c m ids n))
    (mkState c (<[tb := l]> m) e tr).
Proof.
  induction fuel as [|fuel IH]; intros ids i n c m e tr l Hst Hids Htail Hd Hlen Hlt Hi Hf Hn Hc Hm He Hl; [lia|].
  pose proof (f_equal length Hd) as Hdl. rewrite length_drop, length_app in Hdl.
  cbn [rdbi_loop]. destruct ids as [|id ids].
  - cbn [flat_map length] in Hdl. rewrite (proj2 (Z.ltb_ge (i + 1) len)) by lia.
    apply wp_ret. exists l, e. cbn [read_dids length]. rewrite Nat.add_0_r, app_nil_r, Z.add_0_r. repeat split; done || lia.
  - cbn [flat_map] in Hd, Hdl. rewrite !length_app, length_be_split in Hdl.
    inversion Hids as [|? ? Hid Hids']; subst.
    rewrite (proj2 (Z.ltb_lt (i + 1) _)) by lia. rewrite be_split_2 in Hd by done. cbn [app] in Hd.
    assert (Hd1 : data !! Z.to_nat i = Some (hi8 id)).
    { rewrite <- (Nat.add_0_r (Z.to_nat i)), <- lookup_drop, Hd. done. }
    assert (Hd2 : data !! Z.to_nat (i + 1) = Some (lo8 id)).
    { replace (Z.to_nat (i + 1)) with (Z.to_nat i + 1)%nat by lia. rewrite <- lookup_drop, Hd. done. }
    rewrite read_dids_cons by done. apply wp_bind.
    eapply wp_mono; [apply (rdbi_one_exact data i id n); done || lia|].
    intros x s' (l1 & e1 & Hl1 & He1 & Hx). destruct (read_dids cfg c m [id] n) as [b|nrc].
    + destruct Hx as (-> & Hle & -> & Htk). rewrite u16_small by lia.
      eapply wp_mono; [apply (IH ids (i + 2)); try done; try lia|].
      * replace (Z.to_nat (i + 2)) with (Z.to_nat i + 2)%nat by lia. by rewrite <- drop_drop, Hd.
      * cbn [length] in Hf. lia.
      * intros x s' (l2 & e2 & Hl2 & He2 & Hx). exists l2, e2. split; [done|split; [done|]].
        destruct (read_dids cfg c m ids _) as [rest|nrc]; [|done].
        destruct Hx as (-> & Hle2 & -> & Htk2). rewrite length_app. split; [f_equal; lia|].
        split; [lia|]. split; [done|].
        replace (Z.to_nat (n + Z.of_nat (length b))) with (Z.to_nat n + length b)%nat in Htk2 by lia.
        rewrite Nat.add_assoc, Htk2, Htk. by rewrite <- app_assoc.
    + destruct Hx as [[-> ->]|(r & -> & Hr & ->)]; apply wp_ret; exists l1, e1;
        (split; [done|split; [done|]]); [by left|right; by exists r].
Qed.

(** The request [0x22] for [ids], and one stray byte at most. *)
Lemma rdbi_run ids tail c m e tr l (Q : Z -> uds_state E -> Prop) :
  let data := UDS_SID_READ_DATA_BY_ID :: flat_map (be_split 2) ids ++ tail in
  stored_only tb cfg -> Forall (fun id => 0 <= id < 65536) ids -> (length tail <= 1)%nat ->
  Z.of_nat (length data) < 65536 ->
  ctx_ok c -> mem_ok tb cfg m -> env_ok e -> Z.of_nat (length l) = tx_buffer_size cfg ->
  (forall r s' evs, trace s' = tr ++ evs ->
     match read_dids cfg c m ids 1 with
     | inl bytes => ctx s' = resp_ctx c /\
         reply (suppress_pos_resp c) (0x62 :: bytes) evs
     | inr nrc => ctx s' = nrc_ctx UDS_SID_READ_DATA_BY_ID nrc c /\
         rejected UDS_SID_READ_DATA_BY_ID nrc evs
     end -> Q r s') ->
  wp (uds_internal_handle_read_data_by_id (Some cfg) data (Z.of_nat (length data))) Q
    (mkState c (<[tb := l]> m) e tr).
Proof.
  intros data Hst Hids Htail Hlt Hc Hm He Hl HQ.
  pose proof (ok_tx_size (cfg := cfg)) as Hsz; unfold MIN_TX in Hsz.
  assert (Hlen : Z.of_nat (length data) = 1 + 2 * Z.of_nat (length ids) + Z.of_nat (length tail)).
  { subst data. cbn [length]. rewrite length_app.
    assert (length (flat_map (be_split 2) ids) = 2 * length ids)%nat as ->; [|lia].
    clear. induction ids as [|id ids IH]; [done|]. cbn [flat_map]. rewrite length_app, length_be_split, IH.
    cbn [length]. lia. }
  unfold uds_internal_handle_read_data_by_id. apply wp_bind.
  eapply wp_mono; [apply (rdbi_loop_exact data _ tail _ ids); done || lia|].
  intros x s' (l1 & e1 & Hl1 & He1 & Hx). destruct (read_dids cfg c m ids 1) as [bytes|nrc].
  - destruct Hx as (-> & Hle & -> & Htk). hsteps. eapply HQ; [reflexivity|]. split; [done|].
    replace (Z.to_nat (1 + Z.of_nat (length bytes))) with (1 + length bytes)%nat in * by lia.
    subst. nat_tac. match goal with H : reply _ _ _ |- _ => rewrite frame1 in H by lia end.
    assert (Hb : drop 1 (take (1 + length bytes) l1) = bytes).
    { change (Pos.to_nat 1) with 1%nat in Htk. rewrite Htk. destruct l; [cbn in *; lia|done]. }
    rewrite skipn_firstn_comm in Hb. cbn [Nat.add Nat.sub] in Hb. rewrite Nat.sub_0_r in Hb.
    by rewrite Hb in *.
  - destruct Hx as [[-> ->]|(r & -> & Hr & ->)].
    + hsteps. eapply HQ; [reflexivity|]. split; [done|by eexists].
    + apply wp_ret. eapply HQ; [reflexivity|]. split; [done|by eexists].
Qed.

(** C27: For DIDs held in storage, 0x22 answers any list of identifiers (a trailing odd
    byte is ignored) with 0x62 and each identifier followed by its stored bytes, in
    order, or with the code of the first identifier that is unknown, not allowed in the
    session (0x31), locked (0x33), too long for the buffer (0x14) or without storage
    (0x22), exactly as the reference reader of the table. *)
Theorem read_data_exact ids tail s :
  let data := UDS_SID_READ_DATA_BY_ID :: flat_map (be_split 2) ids ++ tail in
  uds_inv env_ok tb cfg s -> stored_only tb cfg ->
  Forall (fun id => 0 <= id < 65536) ids -> (length tail <= 1)%nat ->
  Z.of_nat (length data) < 65536 ->
  wp (uds_internal_handle_read_data_by_id (Some cfg) data (Z.of_nat (length data)))
    (fun _ s' => exists evs, trace s' = trace s ++ evs /\
       match read_dids cfg (ctx s) (mem s) ids 1 with
       | inl bytes => reply (suppress_pos_resp (ctx s)) (0x62 :: bytes) evs
       | inr nrc => rejected UDS_SID_READ_DATA_BY_ID nrc evs
       end) s.
Proof.
  intros data Hinv Hst Hids Htail Hlt. xopen cfg Hinv.
  apply rdbi_run; [done..|]. intros r s' evs Ht Hx. exists evs. split; [done|].
  rewrite (insert_id m tb l Hml).
  destruct (read_dids _ _ _ _ _); tauto.
Qed.

(** C28: A value of the registered size written with 0x2E to a DID in storage that the
    session and the security level allow, in a table without callbacks and with an
    answer that fits the transmit buffer, is acknowledged, and the following 0x22
    returns exactly that value. *)
Theorem write_then_read en id st v s :
  let wdata := UDS_SID_WRITE_DATA_BY_ID :: be_split 2 id ++ v in
  let rdata := UDS_SID_READ_DATA_BY_ID :: be_split 2 id in
  uds_inv env_ok tb cfg s -> stored_only tb cfg -> 0 <= id < 65536 ->
  did_lookup cfg id = Some en -> did_storage en = Some st ->
  session_allows en (ctx s) = true -> security_allows en (ctx s) = true ->
  Forall is_byte v -> Z.of_nat (length v) = did_size en -> 3 + did_size en <= tx_buffer_size cfg ->
  wp (uds_internal_handle_write_data_by_id (Some cfg) wdata (3 + did_size en) ;;
      uds_internal_handle_read_data_by_id (Some cfg) rdata 3)
    (fun _ s' => exists evs1 evs2, trace s' = trace s ++ evs1 ++ evs2 /\
       reply (suppress_pos_resp (ctx s)) (0x6E :: be_split 2 id) evs1 /\
       reply false (0x62 :: be_split 2 id ++ v) evs2) s.
Proof.
  intros wdata rdata Hinv Hst Hid Hen Hsto Hsess Hsec Hv Hlv Hfit. xopen cfg Hinv.
  pose proof (did_lookup_In _ _ Hen) as [Hin Hdid].
  destruct (proj1 (Forall_forall _ _) Hst en ltac:(by apply list_elem_of_In)) as (_ & Hw & Hne).
  pose proof (proj1 (Forall_forall _ _) (ok_dids (cfg := cfg)) en ltac:(by apply list_elem_of_In)) as Hdid2.
  pose proof (ok_did_size _ _ Hdid2).
  assert (Hwd : wdata = UDS_SID_WRITE_DATA_BY_ID :: hi8 id :: lo8 id :: v)
    by (subst wdata; by rewrite be_split_2).
  assert (Hwl : length wdata = (3 + length v)%nat) by by rewrite Hwd.
  assert (Hd1 : wdata !! 1%nat = Some (hi8 id)) by by rewrite Hwd.
  assert (Hd2 : wdata !! 2%nat = Some (lo8 id)) by by rewrite Hwd.
  assert (Hd3 : drop (Z.to_nat 3) wdata = v) by by rewrite Hwd.
  apply wp_bind. unfold uds_internal_handle_write_data_by_id, wdbi_store. clearbody wdata.
  hstep; [exfalso; lia|]. hstep. hstep. hstep. hstep. rewrite did_of_split by done.
  hstep. apply (run_wp _ _ _ _ _ (find_did_run id _)). rewrite Hen.
  hstep. hstep. cbn [ctx]. rewrite Hsess. cbn [negb]. hstep. hstep. cbn [ctx]. rewrite Hsec. cbn [negb].
  hsteps; try (exfalso; zlia). 2: { rewrite Hd3 in *. lia. }
  match goal with H : st <> tb -> _ |- _ => destruct H as (-> & blk & Hblk & Hbl & ->); [congruence|] end.
  rewrite Hd3 in *. replace (Z.to_nat (did_size en)) with (length v) in * by lia. rewrite firstn_all in *.
  assert (Hrd : rdata = UDS_SID_READ_DATA_BY_ID :: flat_map (be_split 2) [id] ++ [])
    by (subst rdata; cbn [flat_map]; by rewrite !app_nil_r).
  rewrite Hrd. replace 3 with (Z.of_nat (length (UDS_SID_READ_DATA_BY_ID :: flat_map (be_split 2) [id] ++ [])))
    by (rewrite <- Hrd; subst rdata; cbn [length]; by rewrite length_be_split).
  apply rdbi_run; [done|by constructor; [|constructor]|cbn; lia| |ctx_ok_tac|done|done|lia|].
  { rewrite <- Hrd. subst rdata. cbn [length]. by rewrite length_be_split. }
  intros r2 s' evs2 Ht Hx.
  assert (Hread : read_dids cfg (resp_ctx c) (<[st := write_at 0 v blk]> m) [id] 1 = inl (be_split 2 id ++ v)).
  { cbn [read_dids]. rewrite Hen. change (session_allows en (resp_ctx c)) with (session_allows en c).
    change (security_allows en (resp_ctx c)) with (security_allows en c). rewrite Hsess, Hsec. cbn [negb].
    rewrite (proj2 (Z.ltb_ge _ _)) by lia. rewrite Hsto. cbn [mbind option_bind]. rewrite lookup_insert_eq.
    rewrite <- Hlv, Nat2Z.id. unfold write_at. by rewrite take_0, app_nil_l, take_app_length, app_nil_r. }
  rewrite Hread in Hx. destruct Hx as [_ Hx]. exists evs, evs2. rewrite app_assoc. split; [done|].
  split; [|done]. rewrite be_split_2 by done. reply_tac.
Qed.
End DataSpec.
