(* ===== verification/SvcPeriodic.v ===== *)
(** * Periodic identifiers: [src/services/uds_service_data.c] (0x2A)

    The handler that registers and removes periodic identifiers, its
    [HandlerSpec], and the finite map from identifiers to rates that its table
    of eight slots implements. *)

From S2P Require Import Prelude Monad Types Machine CoreBase Contract HandlerLogic.
From stdpp Require Import base gmap list strings numbers.

Open Scope Z_scope.

Section Periodic.
Context {E : Type}.

(** [for (j = 0; j < 8; j++) if (ids[j] == v) { ...; break; }]: the first such [j]. *)
Definition slot_of (v : Z) (ids : list Z) : option nat := fst <$> list_find (fun x => x = v) ids.

(** One step of the inner stop loop: [if (ids[j] == id) { ids[j] = 0; count--; }] *)
Definition periodic_stop_slot (id : Z) (j : nat) (c : uds_ctx) : uds_ctx :=
  if decide (periodic_ids c !! j = Some id) then
    set_periodic_count (u8 (periodic_count c - 1)) (set_periodic_ids (<[j := 0]> (periodic_ids c)) c)
  else c.

Definition periodic_stop_id (id : Z) (c : uds_ctx) : uds_ctx :=
  fold_left (fun c0 j => periodic_stop_slot id j c0) (seq 0 8) c.

(** One iteration of the add loop for [id]; [Some r] leaves the handler with [r]. *)
Definition periodic_add_id (ctx : ctx_ptr E) (cfg : uds_config E) (mode id : Z)
    : M (uds_state E) (option Z) :=
  c ← get_ctx;
  match slot_of id (periodic_ids c) with
  | Some j =>
      mod_ctx (fun c0 => set_periodic_rates (<[j := mode]> (periodic_rates c0)) c0) ;;
      mret None
  | None =>
      if 8 <=? periodic_count c then
        r ← uds_send_nrc ctx UDS_SID_READ_BY_PER_ID UDS_NRC_RESPONSE_TOO_LONG;
        mret (Some r)
      else
        match slot_of 0 (periodic_ids c) with
        | Some j =>
            mod_ctx (fun c0 => set_periodic_ids (<[j := id]> (periodic_ids c0)) c0) ;;
            mod_ctx (fun c0 => set_periodic_rates (<[j := mode]> (periodic_rates c0)) c0) ;;
            t ← time_ms cfg;
            mod_ctx (fun c0 => set_periodic_timers (<[j := t]> (periodic_timers c0)) c0) ;;
            mod_ctx (fun c0 => set_periodic_count (u8 (periodic_count c0 + 1)) c0) ;;
            mret None
        | None => mret None
        end
  end.

Definition uds_internal_handle_periodic_read (ctx : ctx_ptr E) (data : list Z) (len : Z)
    : M (uds_state E) Z :=
  if len <? 2 then uds_send_nrc ctx UDS_SID_READ_BY_PER_ID UDS_NRC_INCORRECT_LENGTH
  else
    d1 ← data_at data 1;
    let mode := Z.land d1 0x0F in
    cfg ← config_of ctx;
    if mode =? 0x04 then
      (if len =? 2 then
         mod_ctx (set_periodic_ids (replicate 8 0)) ;;
         mod_ctx (set_periodic_count 0)
       else
         mfor (seqZ 2 (len - 2)) (fun i =>
           id ← data_at data i;
           mod_ctx (periodic_stop_id id))) ;;
      tx_set cfg 0 (u8 (UDS_SID_READ_BY_PER_ID + UDS_RESPONSE_OFFSET)) ;;
      uds_send_response ctx 1
    else if (mode <? 0x01) || (mode >? 0x03)
    then uds_send_nrc ctx UDS_SID_READ_BY_PER_ID UDS_NRC_REQUEST_OUT_OF_RANGE
    else
      x ← mfor_until (seqZ 2 (len - 2)) (fun i =>
            id ← data_at data i;
            periodic_add_id ctx cfg mode id);
      match x with
      | Some r => mret r
      | None =>
          tx_set cfg 0 (u8 (UDS_SID_READ_BY_PER_ID + UDS_RESPONSE_OFFSET)) ;;
          uds_send_response ctx 1
      end.
End Periodic.

(** ** What the add loop does to the context

    One identifier, the clock reading [t]; [None] when the table is full. *)
Definition periodic_put (mode id t : Z) (c : uds_ctx) : option uds_ctx :=
  match slot_of id (periodic_ids c) with
  | Some j => Some (set_periodic_rates (<[j := mode]> (periodic_rates c)) c)
  | None =>
      if 8 <=? periodic_count c then None
      else match slot_of 0 (periodic_ids c) with
      | Some j =>
          Some (set_periodic_count (u8 (periodic_count c + 1))
            (set_periodic_timers (<[j := t]> (periodic_timers c))
            (set_periodic_rates (<[j := mode]> (periodic_rates c))
            (set_periodic_ids (<[j := id]> (periodic_ids c)) c))))
      | None => Some c
      end
  end.

(** The loop over the identifiers; [false] when it stops on a full table. *)
Inductive periodic_puts (mode : Z) : list Z -> uds_ctx -> uds_ctx -> bool -> Prop :=
| puts_nil c : periodic_puts mode [] c c true
| puts_cons id ids t c c1 c2 ok :
    0 <= t < 4294967296 -> periodic_put mode id t c = Some c1 -> periodic_puts mode ids c1 c2 ok ->
    periodic_puts mode (id :: ids) c c2 ok
| puts_full id ids t c :
    periodic_put mode id t c = None -> periodic_puts mode (id :: ids) c c false.

(** ** The schedule

    The abstract object the table implements: a finite map from periodic
    identifiers to rates, of at most eight entries. *)
Record periodic_rep (c : uds_ctx) (M : gmap Z Z) : Prop := {
  rep_lookup id r : M !! id = Some r <->
    id <> 0 /\ exists j : nat, periodic_ids c !! j = Some id /\ periodic_rates c !! j = Some r;
  rep_inj (j1 j2 : nat) id : id <> 0 ->
    periodic_ids c !! j1 = Some id -> periodic_ids c !! j2 = Some id -> j1 = j2;
  rep_count : periodic_count c = Z.of_nat (size M);
  rep_ids : length (periodic_ids c) = 8%nat;
  rep_rates : length (periodic_rates c) = 8%nat
}.

(** Registering [id]; 0 stands for no identifier. *)
Definition sched_put (mode id : Z) (M : gmap Z Z) : gmap Z Z := if id =? 0 then M else <[id := mode]> M.

Fixpoint sched_start (mode : Z) (ids : list Z) (M : gmap Z Z) : gmap Z Z * bool :=
  match ids with
  | [] => (M, true)
  | id :: ids' =>
      if bool_decide (M !! id = None) && (8 <=? Z.of_nat (size M)) then (M, false)
      else sched_start mode ids' (sched_put mode id M)
  end.

Definition sched_stop (ids : list Z) (M : gmap Z Z) : gmap Z Z :=
  fold_left (fun M0 id => delete id M0) ids M.

(** A request of [mode] for [ids]: stop (everything, when it names nothing) or
    start at a rate. *)
Definition sched_request (mode : Z) (ids : list Z) (M : gmap Z Z) : gmap Z Z * bool :=
  if mode =? 4 then (match ids with [] => ∅ | _ => sched_stop ids M end, true)
  else sched_start mode ids M.

(** ** The frame *)

(** The handler touches nothing but the periodic table. *)
Record periodic_frame (c c' : uds_ctx) : Prop := {
  pf_session : active_session c' = active_session c;
  pf_level : security_level c' = security_level c;
  pf_suppress : suppress_pos_resp c' = suppress_pos_resp c;
  pf_ids : length (periodic_ids c') = length (periodic_ids c);
  pf_rates : length (periodic_rates c') = length (periodic_rates c);
  pf_timers : length (periodic_timers c') = length (periodic_timers c);
  pf_types : ctx_typed c -> ctx_typed c'
}.

Lemma periodic_frame_refl c : periodic_frame c c.
Proof. done. Qed.

Lemma periodic_frame_trans c1 c2 c3 :
  periodic_frame c1 c2 -> periodic_frame c2 c3 -> periodic_frame c1 c3.
Proof. intros [] []. split; auto; congruence. Qed.

Lemma periodic_frame_ok c c' : periodic_frame c c' -> ctx_ok c -> ctx_ok c'.
Proof. intros [] []. split; auto; congruence || lia. Qed.

Lemma stop_slot_frame id j c : periodic_frame c (periodic_stop_slot id j c).
Proof.
  unfold periodic_stop_slot. destruct (decide _); [|done].
  split; ctx_cbn; rewrite ?length_insert; try done. intros []. typed_tac.
Qed.

Lemma stop_id_frame id c : periodic_frame c (periodic_stop_id id c).
Proof.
  unfold periodic_stop_id. generalize (seq 0 8). intros js. revert c.
  induction js as [|j js IH]; intros c; [done|]. cbn [fold_left].
  eapply periodic_frame_trans; [apply stop_slot_frame|apply IH].
Qed.

Lemma put_frame mode id t c c' :
  is_byte mode -> is_byte id -> 0 <= t < 4294967296 -> periodic_put mode id t c = Some c' -> periodic_frame c c'.
Proof.
  intros Hm Hid Ht. unfold periodic_put. destruct (slot_of id _) as [j|].
  - intros [= <-]. split; ctx_cbn; rewrite ?length_insert; try done. intros []. typed_tac.
  - destruct (8 <=? _); [done|]. destruct (slot_of 0 _) as [j|]; intros [= <-]; [|done].
    split; ctx_cbn; rewrite ?length_insert; try done. intros []. typed_tac.
Qed.

Lemma puts_frame mode ids c c' ok :
  is_byte mode -> Forall is_byte ids -> periodic_puts mode ids c c' ok -> periodic_frame c c'.
Proof.
  intros Hm Hids H. induction H as [|id ids t c c1 c2 ok Ht Hp Hps IH|]; [done| |done].
  inversion_clear Hids as [|? ? Hid Hids']. eapply periodic_frame_trans; [|by apply IH].
  exact (put_frame mode id t c c1 Hm Hid Ht Hp).
Qed.

Lemma puts_suppress mode ids c c' ok :
  periodic_puts mode ids c c' ok -> suppress_pos_resp c' = suppress_pos_resp c.
Proof.
  induction 1 as [|id ids t c c1 c2 ok _ Hp _ IH|]; [done| |done]. rewrite IH. revert Hp.
  unfold periodic_put. repeat case_match; by intros [= <-].
Qed.

(** *** The table implements the schedule *)

Lemma slot_of_Some v ids j : slot_of v ids = Some j -> ids !! j = Some v.
Proof.
  unfold slot_of. intros H. apply fmap_Some in H as [[i x] [Hf ->]].
  apply list_find_Some in Hf as (Hi & -> & _). done.
Qed.

Lemma slot_of_None v ids : slot_of v ids = None -> v ∉ ids.
Proof.
  unfold slot_of. intros H. apply fmap_None, list_find_None in H.
  intros Hin. by apply (proj1 (Forall_forall _ _) H v ltac:(by apply list_elem_of_In)).
Qed.

Lemma size_list_to_set_le (l : list Z) : (size (list_to_set l :> gset Z) <= length l)%nat.
Proof.
  induction l as [|x l IH]; [by rewrite list_to_set_nil, size_empty|].
  rewrite list_to_set_cons, size_union_alt, size_singleton. cbn [length].
  apply le_n_S. transitivity (size (list_to_set l :> gset Z)); [|exact IH].
  apply subseteq_size. intros y Hy. by apply elem_of_difference in Hy as [? _].
Qed.

Lemma filter_all (P : Z -> Prop) `{!forall x, Decision (P x)} (l : list Z) : (forall x, x ∈ l -> P x) -> filter P l = l.
Proof.
  induction l as [|x l IH]; intros Hall; [done|]. rewrite filter_cons_True by (apply Hall; left).
  f_equal. apply IH. intros y Hy. apply Hall. by right.
Qed.

Section Rep.
Context (c : uds_ctx) (M : gmap Z Z) (HR : periodic_rep c M).

Lemma rep_None id : id ∉ periodic_ids c -> M !! id = None.
Proof.
  intros Hn. destruct (M !! id) as [r|] eqn:Hr; [|done].
  apply (rep_lookup _ _ HR) in Hr as (_ & j & Hj & _).
  exfalso. apply Hn. by eapply list_elem_of_lookup_2.
Qed.

Lemma rep_Some id j : id <> 0 -> periodic_ids c !! j = Some id -> is_Some (M !! id).
Proof.
  intros Hz Hj. destruct (lookup_lt_is_Some_2 (periodic_rates c) j) as [r Hr].
  { apply lookup_lt_Some in Hj. rewrite (rep_ids _ _ HR) in Hj. by rewrite (rep_rates _ _ HR). }
  exists r. apply (rep_lookup _ _ HR). eauto.
Qed.

Lemma rep_dom : dom M =@{gset Z} list_to_set (filter (fun x => x <> 0) (periodic_ids c)).
Proof.
  apply set_eq. intros id. rewrite elem_of_dom, elem_of_list_to_set, list_elem_of_filter.
  split.
  - intros [r Hr]. apply (rep_lookup _ _ HR) in Hr as (Hz & j & Hj & _).
    split; [done|]. by eapply list_elem_of_lookup_2.
  - intros [Hz Hin]. apply list_elem_of_lookup_1 in Hin as [j Hj]. by apply (rep_Some id j).
Qed.

Lemma rep_size_le : (size M <= 8)%nat.
Proof.
  rewrite <- (size_dom (D := gset Z)), rep_dom. etransitivity; [apply size_list_to_set_le|].
  etransitivity; [apply length_filter|]. by rewrite (rep_ids _ _ HR).
Qed.

(** A table without a free slot is full. *)
Lemma rep_full : 0 ∉ periodic_ids c -> size M = 8%nat.
Proof.
  intros Hz. rewrite <- (size_dom (D := gset Z)), rep_dom, <- (rep_ids _ _ HR).
  rewrite filter_all.
  - apply size_list_to_set. apply NoDup_alt. intros i j x Hi Hj.
    apply (rep_inj _ _ HR) with x; [|done..]. intros ->. apply Hz. by eapply list_elem_of_lookup_2.
  - intros x Hx ->. done.
Qed.

(** And one with a free slot is not. *)
Lemma rep_not_full : 0 ∈ periodic_ids c -> (size M < 8)%nat.
Proof.
  intros Hz. rewrite <- (size_dom (D := gset Z)), rep_dom.
  eapply Nat.le_lt_trans; [apply size_list_to_set_le|]. rewrite <- (rep_ids _ _ HR).
  by apply (length_filter_lt _ _ 0); [|intros []].
Qed.
End Rep.

(** Giving slot [j], free or already its own, to [id]. *)
Lemma rep_set c c' M (j : nat) id mode :
  id <> 0 -> periodic_rep c M ->
  periodic_ids c !! j = Some id \/ (periodic_ids c !! j = Some 0 /\ M !! id = None) ->
  periodic_ids c' = <[j := id]> (periodic_ids c) ->
  periodic_rates c' = <[j := mode]> (periodic_rates c) ->
  periodic_count c' = Z.of_nat (size (<[id := mode]> M)) -> periodic_rep c' (<[id := mode]> M).
Proof.
  intros Hz HR Hj Hi Hr Hc.
  assert (Hlt : (j < 8)%nat).
  { rewrite <- (rep_ids _ _ HR). destruct Hj as [Hj|[Hj _]]; by apply lookup_lt_Some in Hj. }
  assert (Hown : forall k, periodic_ids c !! k = Some id -> k = j).
  { intros k Hk. destruct Hj as [Hj|[_ Hn]]; [by apply (rep_inj _ _ HR) with id|].
    destruct (rep_Some _ _ HR id k Hz Hk). congruence. }
  pose proof (rep_ids _ _ HR) as Hli. pose proof (rep_rates _ _ HR) as Hlr.
  split; rewrite ?Hi, ?Hr; [| |done|by rewrite length_insert..].
  - intros id' r. destruct (decide (id' = id)) as [->|Hne].
    + rewrite lookup_insert_eq. split.
      * intros [= ->]. split; [done|]. exists j. by rewrite !list_lookup_insert_eq by lia.
      * intros [_ (k & Hk & Hk')]. destruct (decide (k = j)) as [->|Hkj].
        -- by rewrite list_lookup_insert_eq in Hk' by lia.
        -- rewrite list_lookup_insert_ne in Hk by done. by apply Hown in Hk.
    + rewrite lookup_insert_ne, (rep_lookup _ _ HR) by done.
      split; intros [Hz' (k & Hk & Hk')]; (split; [done|]); exists k.
      * assert (k <> j) by (intros ->; destruct Hj as [Hj|[Hj _]]; congruence).
        by rewrite !list_lookup_insert_ne.
      * assert (k <> j) by (intros ->; rewrite list_lookup_insert_eq in Hk by lia; congruence).
        by rewrite !list_lookup_insert_ne in *.
  - intros j1 j2 x Hx H1 H2. apply list_lookup_insert_Some in H1, H2.
    destruct H1 as [(E1 & E2 & _)|[H1 H1']], H2 as [(E3 & E4 & _)|[H2 H2']].
    + congruence.
    + rewrite <- E2 in H2'. apply Hown in H2'. congruence.
    + rewrite <- E4 in H1'. apply Hown in H1'. congruence.
    + by apply (rep_inj _ _ HR) with x.
Qed.

(** Putting 0 finds a free slot and changes its unused rate; a full table refuses it. *)
Lemma rep_put_zero mode t c M :
  periodic_rep c M ->
  if bool_decide (M !! 0 = None) && (8 <=? Z.of_nat (size M))
  then periodic_put mode 0 t c = None
  else exists c', periodic_put mode 0 t c = Some c' /\ periodic_rep c' M.
Proof.
  intros HR. unfold periodic_put. rewrite (rep_count _ _ HR). rewrite bool_decide_eq_true_2; cbn [andb].
  2: { destruct (M !! 0) as [r|] eqn:H; [|done]. by apply (rep_lookup _ _ HR) in H as [? _]. }
  destruct (slot_of 0 (periodic_ids c)) as [j|] eqn:Hj.
  - apply slot_of_Some in Hj. pose proof (rep_not_full _ _ HR (list_elem_of_lookup_2 _ _ _ Hj)).
    rewrite (proj2 (Z.leb_gt _ _)) by lia.
    eexists. split; [done|]. split; ctx_cbn; rewrite ?length_insert; try apply HR.
    intros id r. rewrite (rep_lookup _ _ HR). split; intros (Hz & k & Hk & Hr); (split; [done|]); exists k; (split; [done|]).
    + rewrite list_lookup_insert_ne; [done|]. intros ->. congruence.
    + rewrite list_lookup_insert_ne in Hr; [done|]. intros ->. congruence.
  - apply slot_of_None, (rep_full _ M HR) in Hj. by rewrite (proj2 (Z.leb_le _ _)) by lia.
Qed.

Lemma rep_put mode id t c M :
  periodic_rep c M ->
  if bool_decide (M !! id = None) && (8 <=? Z.of_nat (size M))
  then periodic_put mode id t c = None
  else exists c', periodic_put mode id t c = Some c' /\ periodic_rep c' (sched_put mode id M).
Proof.
  intros HR. unfold sched_put. destruct (Z.eqb_spec id 0) as [->|Hz]; [by apply rep_put_zero|].
  unfold periodic_put. rewrite (rep_count _ _ HR).
  destruct (slot_of id (periodic_ids c)) as [j|] eqn:Hj.
  - apply slot_of_Some in Hj. destruct (rep_Some _ _ HR id j Hz Hj) as [r Hr].
    rewrite bool_decide_eq_false_2 by congruence. cbn [andb]. eexists. split; [done|].
    apply rep_set with c j; ctx_cbn; [done|done|by left|by rewrite list_insert_id|done|].
    rewrite map_size_insert_Some by done. apply (rep_count _ _ HR).
  - apply slot_of_None, (rep_None _ _ HR) in Hj. rewrite bool_decide_eq_true_2 by done. cbn [andb].
    destruct (Z.leb_spec 8 (Z.of_nat (size M))); [done|].
    destruct (slot_of 0 (periodic_ids c)) as [k|] eqn:Hk.
    2: { apply slot_of_None, (rep_full _ M HR) in Hk. lia. }
    apply slot_of_Some in Hk. eexists. split; [done|].
    apply rep_set with c k; ctx_cbn; [done|done|by right|done|done|].
    rewrite map_size_insert_None by done. rewrite u8_small by lia. lia.
Qed.

Lemma rep_puts mode ids c c' ok : periodic_puts mode ids c c' ok ->
  forall M, periodic_rep c M ->
  exists M', sched_start mode ids M = (M', ok) /\ periodic_rep c' M'.
Proof.
  induction 1 as [c|id ids t c c1 c2 ok Ht Hp Hps IH|id ids t c Hp]; intros M HR; [by exists M|..];
    cbn [sched_start]; pose proof (rep_put mode id t c M HR) as H; rewrite Hp in H; destruct (_ && _).
  - done.
  - destruct H as (c' & [= <-] & HR'). by apply IH.
  - by exists M.
  - by destruct H as (c' & ? & _).
Qed.

(** Clearing slots. *)
Lemma rep_stop_slot id j c M :
  id <> 0 -> periodic_rep c M ->
  exists M', periodic_rep (periodic_stop_slot id j c) M' /\ delete id M' = delete id M /\
    periodic_ids (periodic_stop_slot id j c) !! j <> Some id /\
    forall k, periodic_ids c !! k <> Some id -> periodic_ids (periodic_stop_slot id j c) !! k <> Some id.
Proof.
  intros Hz HR. unfold periodic_stop_slot. destruct (decide _) as [Hj|Hj]; [|by exists M].
  pose proof (lookup_lt_Some _ _ _ Hj) as Hlt.
  exists (delete id M). ctx_cbn. split; [|split; [by rewrite delete_delete_eq|split]].
  - split; ctx_cbn; rewrite ?length_insert; [| | |apply (rep_ids _ _ HR)|apply (rep_rates _ _ HR)].
    + intros id' r. rewrite lookup_delete_Some, (rep_lookup _ _ HR). split.
      * intros (Hne & Hz' & k & Hk & Hr). split; [done|]. exists k. split; [|done].
        rewrite list_lookup_insert_ne; [done|]. intros ->. congruence.
      * intros (Hz' & k & Hk & Hr). apply list_lookup_insert_Some in Hk as [(-> & <- & _)|[Hkj Hk]]; [done|].
        split; [|by eauto]. intros <-. apply Hkj. by apply (rep_inj _ _ HR) with id.
    + intros j1 j2 x Hx H1 H2. apply list_lookup_insert_Some in H1, H2.
      destruct H1 as [(_ & E1 & _)|[_ H1]], H2 as [(_ & E2 & _)|[_ H2]]; try congruence.
      by apply (rep_inj _ _ HR) with x.
    + destruct (rep_Some _ _ HR id j Hz Hj) as [r Hr].
      rewrite (rep_count _ _ HR), map_size_delete_Some by done.
      pose proof (rep_size_le _ _ HR).
      assert (size M <> 0)%nat by (intros H0; apply map_size_empty_inv in H0; by rewrite H0, lookup_empty in Hr).
      rewrite u8_small by lia. lia.
  - rewrite list_lookup_insert_eq by done. congruence.
  - intros k Hk Hk'. apply list_lookup_insert_Some in Hk' as [(-> & <- & _)|[_ Hk']]; done.
Qed.

Lemma rep_stop_slots id js : forall c M,
  id <> 0 -> periodic_rep c M ->
  exists M', periodic_rep (fold_left (fun c0 j => periodic_stop_slot id j c0) js c) M' /\
    delete id M' = delete id M /\
    forall k, k ∈ js \/ periodic_ids c !! k <> Some id ->
      periodic_ids (fold_left (fun c0 j => periodic_stop_slot id j c0) js c) !! k <> Some id.
Proof.
  induction js as [|j js IH]; intros c M Hz HR.
  - exists M. split; [done|split; [done|]]. intros k [Hk|Hk]; [by apply not_elem_of_nil in Hk|done].
  - rewrite fold_left_cons. destruct (rep_stop_slot id j c M Hz HR) as (M1 & HR1 & Hd1 & Hj1 & Hk1).
    destruct (IH _ M1 Hz HR1) as (M2 & HR2 & Hd2 & Hk2). exists M2.
    split; [done|]. split; [congruence|]. intros k [Hk|Hk]; apply Hk2.
    + apply elem_of_cons in Hk as [->|Hk]; [by right|by left].
    + right. by apply Hk1.
Qed.

Lemma rep_stop_id id c M : id <> 0 -> periodic_rep c M -> periodic_rep (periodic_stop_id id c) (delete id M).
Proof.
  intros Hz HR. destruct (rep_stop_slots id (seq 0 8) c M Hz HR) as (M' & HR' & Hd & Hk).
  unfold periodic_stop_id. rewrite <- Hd, delete_id; [done|].
  apply (rep_None _ _ HR'). intros Hin. apply list_elem_of_lookup_1 in Hin as [k Hin].
  apply (Hk k); [|done]. left. apply elem_of_seq.
  apply lookup_lt_Some in Hin. rewrite (rep_ids _ _ HR') in Hin. lia.
Qed.

Lemma rep_stop_ids ids : forall c M, Forall (fun id => id <> 0) ids -> periodic_rep c M ->
  periodic_rep (fold_left (fun c0 id => periodic_stop_id id c0) ids c) (sched_stop ids M).
Proof.
  induction ids as [|id ids IH]; intros c M Hz HR; [done|]. inversion Hz; subst.
  unfold sched_stop. rewrite !fold_left_cons. apply IH; [done|]. by apply rep_stop_id.
Qed.

Section PeriodicSpec.
Context {E : Type} (env_ok : E -> Prop) (tb : N) (cfg : uds_config E).
Context `{Hok : !ConfigOk env_ok tb cfg}.

(** The stop loop over [n] identifiers from [data[k]]. *)
Lemma wp_stop_from data (n : nat) : forall k (Q : unit -> uds_state E -> Prop) c m e tr,
  0 <= k -> k + Z.of_nat n <= Z.of_nat (length data) ->
  (forall c', c' = fold_left (fun c0 id => periodic_stop_id id c0) (take n (drop (Z.to_nat k) data)) c ->
     periodic_frame c c' -> Q tt (mkState c' m e tr)) ->
  wp (mfor (seqZ k (Z.of_nat n)) (fun i => id ← data_at data i; mod_ctx (periodic_stop_id id))) Q
    (mkState c m e tr).
Proof.
  induction n as [|n IH]; intros k Q c m e tr Hk Hn HQ.
  - rewrite seqZ_nil by lia. apply wp_ret. apply HQ; [|apply periodic_frame_refl]. reflexivity.
  - rewrite seqZ_cons by lia. cbn [mfor].
    destruct (lookup_lt_is_Some_2 data (Z.to_nat k)) as [id Hid]; [lia|].
    apply wp_bind, wp_bind. apply wp_data_at with id; [lia|done|]. hstep.
    replace (Z.pred (Z.of_nat (S n))) with (Z.of_nat n) by lia.
    apply IH; [lia..|]. intros c' Hc' Hf. apply HQ.
    + rewrite (drop_S _ id _ Hid), firstn_cons, fold_left_cons.
      replace (Z.to_nat (Z.succ k)) with (S (Z.to_nat k)) in Hc' by lia. exact Hc'.
    + eapply periodic_frame_trans; [apply stop_id_frame|exact Hf].
Qed.

Lemma wp_stop_loop data len (Q : unit -> uds_state E -> Prop) c m e tr :
  len <= Z.of_nat (length data) ->
  (forall c', c' = fold_left (fun c0 id => periodic_stop_id id c0)
       (take (Z.to_nat (len - 2)) (drop 2 data)) c -> periodic_frame c c' -> Q tt (mkState c' m e tr)) ->
  wp (mfor (seqZ 2 (len - 2)) (fun i => id ← data_at data i; mod_ctx (periodic_stop_id id))) Q
    (mkState c m e tr).
Proof.
  intros Hlen HQ. destruct (decide (2 <= len)) as [H2|H2].
  - rewrite <- (Z2Nat.id (len - 2)) by lia. apply wp_stop_from; [lia..|exact HQ].
  - rewrite seqZ_nil by lia. replace (Z.to_nat (len - 2)) with 0%nat in HQ by lia.
    apply wp_ret. apply HQ; [reflexivity|apply periodic_frame_refl].
Qed.

Lemma wp_add_id mode id (Q : option Z -> uds_state E -> Prop) c m e tr l :
  env_ok e -> Z.of_nat (length l) = tx_buffer_size cfg ->
  (forall t c' e', 0 <= t < 4294967296 -> periodic_put mode id t c = Some c' -> env_ok e' ->
     Q None (mkState c' (<[tb := l]> m) e' tr)) ->
  (forall t r e' l', periodic_put mode id t c = None -> r <= 0 -> env_ok e' -> length l' = length l ->
     Q (Some r) (mkState (nrc_ctx UDS_SID_READ_BY_PER_ID UDS_NRC_RESPONSE_TOO_LONG c)
       (<[tb := l']> m) e'
       (tr ++ [EvSend (negative UDS_SID_READ_BY_PER_ID UDS_NRC_RESPONSE_TOO_LONG) r]))) ->
  wp (periodic_add_id (Some cfg) cfg mode id) Q (mkState c (<[tb := l]> m) e tr).
Proof.
  intros He Hl Hs Hf. unfold periodic_put in *. unfold periodic_add_id. hstep. hstep.
  destruct (slot_of id (periodic_ids c)) as [j|].
  - hsteps. by apply (Hs 0).
  - destruct (8 <=? periodic_count c).
    + hsteps. by apply (Hf 0).
    + destruct (slot_of 0 (periodic_ids c)) as [j|]; hsteps; [|by apply (Hs 0)].
      match goal with |- context [<[j := ?t]> (periodic_timers _)] => by apply (Hs t) end.
Qed.

Lemma wp_add_from mode data (n : nat) : forall k (Q : option Z -> uds_state E -> Prop) c m e tr l,
  0 <= k -> k + Z.of_nat n <= Z.of_nat (length data) ->
  env_ok e -> Z.of_nat (length l) = tx_buffer_size cfg ->
  (forall c' e', periodic_puts mode (take n (drop (Z.to_nat k) data)) c c' true -> env_ok e' ->
     Q None (mkState c' (<[tb := l]> m) e' tr)) ->
  (forall c' r e' l', periodic_puts mode (take n (drop (Z.to_nat k) data)) c c' false ->
     r <= 0 -> env_ok e' -> length l' = length l ->
     Q (Some r) (mkState (nrc_ctx UDS_SID_READ_BY_PER_ID UDS_NRC_RESPONSE_TOO_LONG c')
       (<[tb := l']> m) e'
       (tr ++ [EvSend (negative UDS_SID_READ_BY_PER_ID UDS_NRC_RESPONSE_TOO_LONG) r]))) ->
  wp (mfor_until (seqZ k (Z.of_nat n)) (fun i => id ← data_at data i; periodic_add_id (Some cfg) cfg mode id))
    Q (mkState c (<[tb := l]> m) e tr).
Proof.
  induction n as [|n IH]; intros k Q c m e tr l Hk Hn He Hl Hs Hf.
  - rewrite seqZ_nil by lia. apply wp_ret. apply Hs; [constructor|done].
  - rewrite seqZ_cons by lia. cbn [mfor_until].
    destruct (lookup_lt_is_Some_2 data (Z.to_nat k)) as [id Hid]; [lia|].
    rewrite (drop_S _ id _ Hid), firstn_cons in Hs, Hf.
    apply wp_bind, wp_bind. apply wp_data_at with id; [lia|done|].
    replace (Z.pred (Z.of_nat (S n))) with (Z.of_nat n) by lia.
    apply wp_add_id; [done|done|..].
    + intros t c1 e1 Ht Hp He1. apply IH; [lia|lia|done|done|..];
        replace (Z.to_nat (Z.succ k)) with (S (Z.to_nat k)) by lia.
      * intros c' e' Hps He'. apply Hs; [|done]. by eapply puts_cons.
      * intros c' r e' l' Hps Hr He' Hl'. apply Hf; [|done..]. by eapply puts_cons.
    + intros t r e' l' Hp Hr He' Hl'. apply wp_ret. apply Hf; [|done..]. by eapply puts_full.
Qed.

Lemma wp_add_loop mode data len (Q : option Z -> uds_state E -> Prop) c m e tr l :
  2 <= len <= Z.of_nat (length data) -> env_ok e -> Z.of_nat (length l) = tx_buffer_size cfg ->
  (forall c' e', periodic_puts mode (take (Z.to_nat (len - 2)) (drop 2 data)) c c' true -> env_ok e' ->
     Q None (mkState c' (<[tb := l]> m) e' tr)) ->
  (forall c' r e' l', periodic_puts mode (take (Z.to_nat (len - 2)) (drop 2 data)) c c' false ->
     r <= 0 -> env_ok e' -> length l' = length l ->
     Q (Some r) (mkState (nrc_ctx UDS_SID_READ_BY_PER_ID UDS_NRC_RESPONSE_TOO_LONG c')
       (<[tb := l']> m) e'
       (tr ++ [EvSend (negative UDS_SID_READ_BY_PER_ID UDS_NRC_RESPONSE_TOO_LONG) r]))) ->
  wp (mfor_until (seqZ 2 (len - 2)) (fun i => id ← data_at data i; periodic_add_id (Some cfg) cfg mode id))
    Q (mkState c (<[tb := l]> m) e tr).
Proof.
  intros Hlen He Hl Hs Hf. rewrite <- (Z2Nat.id (len - 2)) by lia.
  apply wp_add_from; [lia|lia|done|done|exact Hs|exact Hf].
Qed.

#[export] Instance periodic_read_spec :
  HandlerSpec env_ok tb cfg UDS_SID_READ_BY_PER_ID 2 true
    (uds_internal_handle_periodic_read (Some cfg)).
Proof.
  hopen cfg. unfold uds_internal_handle_periodic_read.
  repeat lazymatch goal with
  | |- wp (mfor _ _) _ _ => eapply wp_stop_loop; [lia|intros ? ? ?]
  | |- wp (mfor_until _ _) _ _ => eapply wp_add_loop; [lia|assumption|assumption|..]; intros
  | _ => hstep
  end.
  all: try match goal with H : periodic_puts _ _ _ _ _ |- _ =>
    apply puts_frame in H; [|range_tac|by apply Forall_take, Forall_drop] end.
  all: try match goal with H : periodic_frame ?c0 ?c1, Hc0 : ctx_ok ?c0 |- _ =>
    pose proof (periodic_frame_ok c0 c1 H Hc0); destruct H end.
  all: hpost.
Qed.

(** Context changes the table does not see. *)
Lemma rep_ext c c' M :
  periodic_ids c' = periodic_ids c -> periodic_rates c' = periodic_rates c ->
  periodic_count c' = periodic_count c -> periodic_rep c M -> periodic_rep c' M.
Proof. intros H1 H2 H3 []. split; rewrite ?H1, ?H2, ?H3; done. Qed.

(** An empty table implements the empty schedule. *)
Lemma rep_cleared c :
  length (periodic_rates c) = 8%nat ->
  periodic_rep (set_periodic_count 0 (set_periodic_ids (replicate 8 0) c)) ∅.
Proof.
  intros HR. split; ctx_cbn; [|intros j1 j2 id Hz H1|done|done|done].
  - intros id r. rewrite lookup_empty. split; [done|]. intros (Hz & j & Hj & _).
    apply lookup_replicate in Hj as [-> _]. done.
  - by apply lookup_replicate in H1 as [-> _].
Qed.

(** C26: The 0x2A handler implements a finite map from periodic identifiers to rates: a
    request with a rate adds or updates the identifiers it names one after the other
    until the eight slots are used up (0x14, keeping what was added), where identifier 0
    is taken as already there while a slot is free and refused when none is; a stop
    request that does not name 0 removes the ones it names, or all of them when it names
    none; the eight-slot table represents the map before and after. (A stop request for
    identifier 0 matches the free slots and makes the counter wrap:
    SvcPeriodic.periodic_stop_zero_underflows.) *)
Theorem periodic_refines data len s M b :
  let ids := take (Z.to_nat (len - 2)) (drop 2 data) in
  let mode := b mod 16 in
  uds_inv env_ok tb cfg s -> periodic_rep (ctx s) M -> data !! 1%nat = Some b ->
  2 <= len <= Z.of_nat (length data) -> 1 <= mode <= 4 ->
  (mode = 4 -> Forall (fun id => id <> 0) ids) ->
  wp (uds_internal_handle_periodic_read (Some cfg) data len)
    (fun _ s' => periodic_rep (ctx s') (sched_request mode ids M).1 /\
       exists evs, trace s' = trace s ++ evs /\
         if (sched_request mode ids M).2 then reply (suppress_pos_resp (ctx s)) [0x6A] evs
         else rejected UDS_SID_READ_BY_PER_ID UDS_NRC_RESPONSE_TOO_LONG evs) s.
Proof.
  intros ids mode Hinv HR Hb Hlen Hmode Hz. xopen cfg Hinv.
  assert (Hids : length ids = Z.to_nat (len - 2)) by (subst ids; rewrite length_take, length_drop; lia).
  unfold uds_internal_handle_periodic_read. rewrite (proj2 (Z.ltb_ge len 2)) by lia.
  hstep. hstep. cbv zeta. rewrite land_15. fold mode. hstep. hstep. unfold sched_request.
  destruct (Z.eqb_spec mode 4) as [H4|H4].
  - hstep. destruct (Z.eqb_spec len 2) as [->|Hne].
    + hsteps. destruct ids; [|cbn in Hids; lia].
      split; [by apply (rep_ext (set_periodic_count 0 (set_periodic_ids (replicate 8 0) c))), (rep_cleared c), (rep_rates _ _ HR)|].
      xevents. reply_tac.
    + eapply wp_stop_loop; [lia|]. intros c' Hc' Hf. fold ids in Hc'.
      pose proof (rep_stop_ids ids c M (Hz H4) HR) as HR'. rewrite <- Hc' in HR'.
      hsteps. destruct ids as [|id ids0]; [cbn in Hids; lia|]. cbn [fst snd].
      split; [by apply (rep_ext c')|]. xevents. rewrite <- (pf_suppress _ _ Hf). reply_tac.
  - hstep; [exfalso; lia|]. hstep. eapply wp_add_loop; [lia|done|done|..].
    + intros c' e' Hps He'. fold ids in Hps. destruct (rep_puts _ _ _ _ _ Hps M HR) as (M' & -> & HR').
      apply puts_suppress in Hps. hsteps. split; [by apply (rep_ext c')|]. xevents.
      rewrite <- Hps. reply_tac.
    + intros c' r e' l' Hps Hr He' Hl'. fold ids in Hps. destruct (rep_puts _ _ _ _ _ Hps M HR) as (M' & -> & HR').
      hsteps. split; [by apply (rep_ext c')|]. xevents. by eexists.
Qed.

Lemma stop_zero_count c :
  periodic_ids c = replicate 8 0 -> periodic_count c = 0 ->
  periodic_count (periodic_stop_id 0 c) = 248 /\ periodic_ids (periodic_stop_id 0 c) = replicate 8 0.
Proof. destruct c; cbn; intros -> ->. vm_compute. done. Qed.

(** A count past eight closes the table to new identifiers, whatever its slots hold. *)
Lemma periodic_full_rejects s :
  uds_inv env_ok tb cfg s -> periodic_ids (ctx s) = replicate 8 0 -> 8 <= periodic_count (ctx s) ->
  wp (uds_internal_handle_periodic_read (Some cfg) [0x2A; 0x01; 0xF2] 3)
    (fun _ s' => exists evs, trace s' = trace s ++ evs /\
       rejected UDS_SID_READ_BY_PER_ID UDS_NRC_RESPONSE_TOO_LONG evs) s.
Proof.
  intros Hinv Hids Hcount. xopen cfg Hinv. unfold uds_internal_handle_periodic_read.
  assert (Hb : Forall is_byte [0x2A; 0x01; 0xF2]) by by repeat constructor.
  assert (H1b : [0x2A; 0x01; 0xF2] !! 1%nat = Some 1) by done.
  repeat (hstep; try discriminate; try (exfalso; cbn in *; lia)). eapply wp_add_loop; [cbn; lia|done|done|..].
  - intros c' e' Hps. change (take _ _) with [0xF2] in Hps. inversion Hps as [|? ? t ? c1 ? ? _ Hp|]; subst.
    unfold periodic_put in Hp. rewrite Hids in Hp. cbn in Hp.
    rewrite (proj2 (Z.leb_le _ _) Hcount) in Hp. done.
  - intros c' r e' l' Hps Hr He' Hl'. hsteps. xevents. by eexists.
Qed.

(** Stopping periodic identifier 0 with an empty table decrements the count once
    per free slot, from 0 to 248, after which every request to add an identifier is
    refused as full. *)
Theorem periodic_stop_zero_underflows s :
  uds_inv env_ok tb cfg s -> periodic_ids (ctx s) = replicate 8 0 -> periodic_count (ctx s) = 0 ->
  wp (uds_internal_handle_periodic_read (Some cfg) [0x2A; 0x04; 0] 3)
    (fun _ s' => periodic_count (ctx s') = 248 /\
       wp (uds_internal_handle_periodic_read (Some cfg) [0x2A; 0x01; 0xF2] 3)
         (fun _ s2 => exists evs, trace s2 = trace s' ++ evs /\
            rejected UDS_SID_READ_BY_PER_ID UDS_NRC_RESPONSE_TOO_LONG evs) s') s.
Proof.
  intros Hinv Hids Hcount. xopen cfg Hinv. destruct (stop_zero_count c Hids Hcount) as [H1 H2].
  unfold uds_internal_handle_periodic_read at 1.
  assert (H1b : [0x2A; 0x04; 0] !! 1%nat = Some 4) by done.
  repeat (hstep; try discriminate; try (exfalso; cbn in *; lia)).
  all: try by match goal with H : Z.land 4 15 <> _ |- _ => destruct H end.
  eapply wp_stop_loop; [cbn; lia|]. intros c' Hc' Hf.
  change (take _ _) with [0] in Hc'. rewrite fold_left_cons, fold_left_nil in Hc'.
  cbv beta in Hc'. hsteps.
  rewrite <- Hc' in H1, H2. pose proof (periodic_frame_ok _ _ Hf Hc) as Hok'. clear Hc'.
  unfold resp_ctx; ctx_cbn. split; [done|].
  apply periodic_full_rejects; [|ctx_cbn; done|ctx_cbn; lia].
  apply inv_close; [ctx_ok_tac|done|done|lia].
Qed.
End PeriodicSpec.
