(* ===== verification/SvcFlash.v ===== *)
(** * Flash services: [src/services/uds_service_flash.c]
      (0x31, 0x34, 0x35, 0x36, 0x37)

    The handlers, their [HandlerSpec], the exact effect of each, and the order
    of the blocks 0x36 lets through. *)

From S2P Require Import Prelude Monad Types Machine CoreBase Contract HandlerLogic.
From stdpp Require Import base gmap list strings numbers.

Open Scope Z_scope.

Section Flash.
Context {E : Type}.

Definition uds_internal_handle_routine_control (ctx : ctx_ptr E) (data : list Z) (len : Z)
    : M (uds_state E) Z :=
  if len <? 4 then uds_send_nrc ctx UDS_SID_ROUTINE_CONTROL UDS_NRC_INCORRECT_LENGTH
  else
    type ← data_at data 1;
    d2 ← data_at data 2;
    d3 ← data_at data 3;
    let id := Z.lor (u16 (Z.shiftl d2 8)) d3 in
    cfg ← config_of ctx;
    match fn_routine_control cfg with
    | None => uds_send_nrc ctx UDS_SID_ROUTINE_CONTROL UDS_NRC_CONDITIONS_NOT_CORRECT
    | Some f =>
        let max_payload := u16 (tx_buffer_size cfg - 4) in
        c ← get_ctx;
        input ← data_from data 4;
        written ← call_out cfg 4 (f c type id input (u16 (len - 4)) max_payload);
        emit (EvRoutine type id input written) ;;
        if written <? 0 then uds_send_nrc ctx UDS_SID_ROUTINE_CONTROL (nrc_of written)
        else
          tx_set cfg 0 (u8 (UDS_SID_ROUTINE_CONTROL + UDS_RESPONSE_OFFSET)) ;;
          tx_set cfg 1 type ;;
          tx_set cfg 2 d2 ;;
          tx_set cfg 3 d3 ;;
          uds_send_response ctx (u16 (u16 written + 4))
    end.

(** The six bytes of a positive answer to 0x34 and 0x35. *)
Definition transfer_response (ctx : ctx_ptr E) (cfg : uds_config E) (sid : Z)
    : M (uds_state E) Z :=
  tx_set cfg 0 (u8 (sid + UDS_RESPONSE_OFFSET)) ;;
  tx_set cfg 1 0x20 ;;
  tx_set cfg 2 0x00 ;;
  tx_set cfg 3 0x00 ;;
  tx_set cfg 4 0x04 ;;
  tx_set cfg 5 0x00 ;;
  uds_send_response ctx 6.

Definition uds_internal_handle_request_download (ctx : ctx_ptr E) (data : list Z) (len : Z)
    : M (uds_state E) Z :=
  if len <? 4 then uds_send_nrc ctx UDS_SID_REQUEST_DOWNLOAD UDS_NRC_INCORRECT_LENGTH
  else
    addr_len_format ← data_at data 2;
    let addr_len := Z.land addr_len_format 0x0F in
    let size_len := Z.land (Z.shiftr addr_len_format 4) 0x0F in
    if (addr_len =? 0) || (size_len =? 0) || (addr_len >? 4) || (size_len >? 4)
    then uds_send_nrc ctx UDS_SID_REQUEST_DOWNLOAD UDS_NRC_REQUEST_OUT_OF_RANGE
    else
      p ← data_from data 3;
      parsed ← uds_internal_parse_addr_len p (u16 (len - 3)) addr_len_format;
      match parsed with
      | None => uds_send_nrc ctx UDS_SID_REQUEST_DOWNLOAD UDS_NRC_INCORRECT_LENGTH
      | Some (addr, size) =>
          cfg ← config_of ctx;
          match fn_request_download cfg with
          | None => uds_send_nrc ctx UDS_SID_REQUEST_DOWNLOAD UDS_NRC_CONDITIONS_NOT_CORRECT
          | Some f =>
              c ← get_ctx;
              res ← call (f c addr size);
              emit (EvDownload addr size res) ;;
              if res <? 0 then uds_send_nrc ctx UDS_SID_REQUEST_DOWNLOAD (nrc_of res)
              else
                mod_ctx (set_flash_sequence 0) ;;
                transfer_response ctx cfg UDS_SID_REQUEST_DOWNLOAD
          end
      end.

(** What the block sequence counter of a request means to the server. *)
Inductive block_verdict : Set := BlockNext | BlockReplay | BlockError.

Definition check_sequence (cfg : uds_config E) (flash_seq sequence : Z) : block_verdict :=
  if flash_seq =? 0 then
    if negb (sequence =? 0x01) then BlockError else BlockNext
  else
    let expected := if flash_seq =? 0xFF then 0x00 else u8 (flash_seq + 1) in
    if negb (sequence =? expected) then
      if transfer_accept_last_block_replay cfg && (sequence =? flash_seq)
      then BlockReplay else BlockError
    else BlockNext.

(** The two bytes of a positive answer to 0x36. *)
Definition transfer_data_response (ctx : ctx_ptr E) (cfg : uds_config E) (sequence : Z)
    : M (uds_state E) Z :=
  tx_set cfg 0 (u8 (UDS_SID_TRANSFER_DATA + UDS_RESPONSE_OFFSET)) ;;
  tx_set cfg 1 sequence ;;
  uds_send_response ctx 2.

Definition uds_internal_handle_transfer_data (ctx : ctx_ptr E) (data : list Z) (len : Z)
    : M (uds_state E) Z :=
  if len <? 2 then uds_send_nrc ctx UDS_SID_TRANSFER_DATA UDS_NRC_INCORRECT_LENGTH
  else
    cfg ← config_of ctx;
    match fn_transfer_data cfg with
    | None => uds_send_nrc ctx UDS_SID_TRANSFER_DATA UDS_NRC_CONDITIONS_NOT_CORRECT
    | Some f =>
        sequence ← data_at data 1;
        c ← get_ctx;
        match check_sequence cfg (flash_sequence c) sequence with
        | BlockError => uds_send_nrc ctx UDS_SID_TRANSFER_DATA UDS_NRC_REQUEST_SEQUENCE_ERROR
        | BlockReplay => transfer_data_response ctx cfg sequence
        | BlockNext =>
            block ← data_from data 2;
            res ← call (f c sequence block (u16 (len - 2)));
            emit (EvTransfer sequence (take (Z.to_nat (u16 (len - 2))) block) res) ;;
            if res <? 0 then uds_send_nrc ctx UDS_SID_TRANSFER_DATA (nrc_of res)
            else
              mod_ctx (set_flash_sequence sequence) ;;
              transfer_data_response ctx cfg sequence
        end
    end.

Definition uds_internal_handle_request_transfer_exit (ctx : ctx_ptr E) (data : list Z) (len : Z)
    : M (uds_state E) Z :=
  cfg ← config_of ctx;
  match fn_transfer_exit cfg with
  | None => uds_send_nrc ctx UDS_SID_TRANSFER_EXIT UDS_NRC_CONDITIONS_NOT_CORRECT
  | Some f =>
      c ← get_ctx;
      res ← call (f c);
      emit (EvTransferExit res) ;;
      if res <? 0 then uds_send_nrc ctx UDS_SID_TRANSFER_EXIT (nrc_of res)
      else
        tx_set cfg 0 (u8 (UDS_SID_TRANSFER_EXIT + UDS_RESPONSE_OFFSET)) ;;
        uds_send_response ctx 1
  end.

Definition uds_internal_handle_request_upload (ctx : ctx_ptr E) (data : list Z) (len : Z)
    : M (uds_state E) Z :=
  if len <? 4 then uds_send_nrc ctx UDS_SID_REQUEST_UPLOAD UDS_NRC_INCORRECT_LENGTH
  else
    addr_len_format ← data_at data 2;
    p ← data_from data 3;
    parsed ← uds_internal_parse_addr_len p (u16 (len - 3)) addr_len_format;
    match parsed with
    | None => uds_send_nrc ctx UDS_SID_REQUEST_UPLOAD UDS_NRC_INCORRECT_LENGTH
    | Some (addr, size) =>
        cfg ← config_of ctx;
        match fn_request_upload cfg with
        | None => uds_send_nrc ctx UDS_SID_REQUEST_UPLOAD UDS_NRC_CONDITIONS_NOT_CORRECT
        | Some f =>
            c ← get_ctx;
            res ← call (f c addr size);
            emit (EvUpload addr size res) ;;
            if res <? 0 then uds_send_nrc ctx UDS_SID_REQUEST_UPLOAD (nrc_of res)
            else
              mod_ctx (set_flash_sequence 0) ;;
              transfer_response ctx cfg UDS_SID_REQUEST_UPLOAD
        end
    end.
End Flash.

(** The block sequence counters of the blocks the application accepted. *)
Definition accepted (evs : list event) : list Z :=
  omap (fun ev => match ev with EvTransfer seq _ res => if 0 <=? res then Some seq else None
                           | _ => None end) evs.

(** [n] consecutive counters after [k], modulo 256. *)
Definition counters (k : Z) (n : nat) : list Z := map (fun i => u8 i) (seqZ (k + 1) (Z.of_nat n)).

(** A run of 0x36 requests, whatever they contain. *)
Definition transfer_run {E} (cfg : uds_config E) (reqs : list (list Z)) : M (uds_state E) unit :=
  mfor reqs (fun d => uds_internal_handle_transfer_data (Some cfg) d (Z.of_nat (length d)) ;; mret tt).

Section FlashSpec.
Context {E : Type} (env_ok : E -> Prop) (tb : N) (cfg : uds_config E).
Context `{Hok : !ConfigOk env_ok tb cfg}.

#[export] Instance routine_control_spec :
  HandlerSpec env_ok tb cfg UDS_SID_ROUTINE_CONTROL 4 true
    (uds_internal_handle_routine_control (Some cfg)).
Proof. hopen cfg. unfold uds_internal_handle_routine_control. hsteps; hpost. Qed.

#[export] Instance request_download_spec :
  HandlerSpec env_ok tb cfg UDS_SID_REQUEST_DOWNLOAD 4 false
    (uds_internal_handle_request_download (Some cfg)).
Proof. hopen cfg. unfold uds_internal_handle_request_download, transfer_response. hsteps; hpost. Qed.

#[export] Instance transfer_data_spec :
  HandlerSpec env_ok tb cfg UDS_SID_TRANSFER_DATA 2 false
    (uds_internal_handle_transfer_data (Some cfg)).
Proof. hopen cfg. unfold uds_internal_handle_transfer_data, transfer_data_response. hsteps; hpost. Qed.

#[export] Instance transfer_exit_spec :
  HandlerSpec env_ok tb cfg UDS_SID_TRANSFER_EXIT 1 false
    (uds_internal_handle_request_transfer_exit (Some cfg)).
Proof. hopen cfg. unfold uds_internal_handle_request_transfer_exit. hsteps; hpost. Qed.

#[export] Instance request_upload_spec :
  HandlerSpec env_ok tb cfg UDS_SID_REQUEST_UPLOAD 4 false
    (uds_internal_handle_request_upload (Some cfg)).
Proof. hopen cfg. unfold uds_internal_handle_request_upload, transfer_response. hsteps; hpost. Qed.

Lemma counters_cons k n : counters k (S n) = u8 (k + 1) :: counters (u8 (k + 1)) n.
Proof.
  unfold counters. rewrite seqZ_cons by lia. cbn [map]. f_equal.
  replace (Z.pred (Z.of_nat (S n))) with (Z.of_nat n) by lia.
  apply list_eq. intros i. rewrite !list_lookup_fmap.
  destruct (decide (i < n)%nat).
  - rewrite !lookup_seqZ_lt by lia. cbn. f_equal. zlia.
  - by rewrite !lookup_seqZ_ge by lia.
Qed.

(** The verdict on a block counter, for a byte-sized state. *)
Lemma check_sequence_cases k q :
  is_byte k -> is_byte q -> check_sequence cfg k q =
    if q =? u8 (k + 1) then BlockNext
    else if transfer_accept_last_block_replay cfg && negb (k =? 0) && (q =? k) then BlockReplay
    else BlockError.
Proof.
  intros Hk Hq. unfold is_byte in *. unfold check_sequence. destruct (Z.eqb_spec k 0) as [->|Hk0].
  - change (u8 (0 + 1)) with 1. rewrite andb_false_r. by destruct (q =? 1).
  - rewrite andb_true_r. replace (if k =? 255 then 0 else u8 (k + 1)) with (u8 (k + 1)).
    2: { destruct (Z.eqb_spec k 255) as [->|]; done. }
    destruct (q =? u8 (k + 1)); [done|]. cbn [negb]. done.
Qed.

Lemma check_sequence_next k q :
  is_byte k -> is_byte q -> check_sequence cfg k q = BlockNext -> q = u8 (k + 1).
Proof.
  intros Hk Hq. rewrite check_sequence_cases by done. destruct (Z.eqb_spec q (u8 (k + 1))); [done|].
  by destruct (_ && _).
Qed.

(** One request moves the counter only past a block the application accepted. *)
Lemma transfer_step data len s :
  uds_inv env_ok tb cfg s -> Forall is_byte data -> 0 <= len <= Z.of_nat (length data) ->
  len < 65536 -> is_byte (flash_sequence (ctx s)) ->
  wp (uds_internal_handle_transfer_data (Some cfg) data len) (fun _ s' =>
    uds_inv env_ok tb cfg s' /\ exists evs, trace s' = trace s ++ evs /\
      let k := flash_sequence (ctx s) in
      (accepted evs = [] /\ flash_sequence (ctx s') = k \/
       accepted evs = [u8 (k + 1)] /\ flash_sequence (ctx s') = u8 (k + 1))) s.
Proof.
  intros Hinv Hbytes Hlen Hlt Hk. xopen cfg Hinv.
  unfold uds_internal_handle_transfer_data, transfer_data_response.
  hsteps; (split; [apply inv_close; [ctx_ok_tac|assumption|assumption|lia]|]).
  all: reply_cases; xevents; unfold accepted.
  all: try (left; split; reflexivity).
  1: left; split; [|done]; cbn; by rewrite (proj2 (Z.leb_gt 0 a)) by lia.
  all: right; cbn; rewrite (proj2 (Z.leb_le 0 a)) by lia.
  all: by rewrite (check_sequence_next (flash_sequence c) b) by done.
Qed.

(** 0x31 hands the application the type byte (with bit 7 as received), the 16-bit
    identifier and the option bytes, and answers 0x71 with type, identifier and exactly
    the status bytes the application wrote, or the application's negative code. *)
Theorem routine_control_exact data len s f t h lo res out e' :
  uds_inv env_ok tb cfg s -> Forall is_byte data -> take 3 (drop 1 data) = [t; h; lo] ->
  4 <= len <= Z.of_nat (length data) -> len < 65536 ->
  fn_routine_control cfg = Some f ->
  f (ctx s) t (be_combine [h; lo]) (drop 4 data) (len - 4) (tx_buffer_size cfg - 4) (env s) =
    Ok ((res, out), e') ->
  res <= Z.of_nat (length out) ->
  wp (uds_internal_handle_routine_control (Some cfg) data len)
    (fun _ s' => exists evs,
       trace s' = trace s ++ EvRoutine t (be_combine [h; lo]) (drop 4 data) res :: evs /\
       if res <? 0 then rejected UDS_SID_ROUTINE_CONTROL (nrc_of res) evs
       else reply (suppress_pos_resp (ctx s)) (0x71 :: t :: h :: lo :: take (Z.to_nat res) out) evs) s.
Proof.
  intros Hinv Hbytes Hd Hlen Hlt Hf Hrun Hres. xopen cfg Hinv. cbn [env] in Hrun.
  destruct data as [|x [|t' [|h' [|lo' data]]]]; try discriminate Hd. injection Hd as -> -> ->.
  assert (Hh : is_byte h) by (by apply (Forall_lookup_1 _ _ 2%nat _ Hbytes)).
  assert (Hlo : is_byte lo) by (by apply (Forall_lookup_1 _ _ 3%nat _ Hbytes)).
  assert (H1 : (x :: t :: h :: lo :: data) !! 1%nat = Some t) by done.
  assert (H2 : (x :: t :: h :: lo :: data) !! 2%nat = Some h) by done.
  assert (H3 : (x :: t :: h :: lo :: data) !! 3%nat = Some lo) by done.
  unfold uds_internal_handle_routine_control.
  hsteps_to_out; [exfalso; lia|]. nat_tac. rewrite be_pair16, !u16_small by (done || lia).
  eapply wp_call_out_run; [eassumption|cb_hyp|eassumption|exact Hrun|lia|intros; size_tac|].
  intros l1 HR He1 Hl1 Hlen1. destruct HR as [HR1 HR2]. cbn [fst snd] in *.
  hsteps; xevents; tests; [by eexists|].
  u16_tac. replace (Z.to_nat (res + 4)) with (4 + Z.to_nat res)%nat in * by lia.
  out_reply_tac frame4.
Qed.

(** 0x34 with address and size in one to four big-endian bytes each hands the
    application exactly that address and size; on acceptance it restarts the block
    counter and answers 74 20 00 00 04 00, on refusal it returns the application's code
    and keeps the counter, without a callback it answers 0x22. *)
Theorem request_download_exact s dfi (na ns : nat) addr size rest :
  let data := 0x34 :: dfi :: (16 * Z.of_nat ns + Z.of_nat na) ::
              be_split na addr ++ be_split ns size ++ rest in
  let len := Z.of_nat (length data) in
  uds_inv env_ok tb cfg s -> (1 <= na <= 4)%nat -> (1 <= ns <= 4)%nat ->
  0 <= addr < 2 ^ (8 * Z.of_nat na) -> 0 <= size < 2 ^ (8 * Z.of_nat ns) ->
  is_byte dfi -> Forall is_byte rest -> len < 65536 ->
  wp (uds_internal_handle_request_download (Some cfg) data len)
    (fun _ s' => exists evs, trace s' = trace s ++ evs /\
       match fn_request_download cfg with
       | None => rejected UDS_SID_REQUEST_DOWNLOAD UDS_NRC_CONDITIONS_NOT_CORRECT evs
       | Some _ => exists res evs1, evs = EvDownload addr size res :: evs1 /\
           if res <? 0 then rejected UDS_SID_REQUEST_DOWNLOAD (nrc_of res) evs1 /\
             flash_sequence (ctx s') = flash_sequence (ctx s)
           else reply (suppress_pos_resp (ctx s)) [0x74; 0x20; 0; 0; 4; 0] evs1 /\
             flash_sequence (ctx s') = 0
       end) s.
Proof.
  intros data len Hinv Hna Hns Haddr Hsize Hdfi Hrest Hlt.
  assert (Hd : Forall is_byte data).
  { subst data. repeat apply Forall_cons_2; unfold is_byte in *; try lia.
    repeat apply Forall_app_2; auto using be_split_bytes. }
  assert (Hlen : len = 3 + Z.of_nat na + Z.of_nat ns + Z.of_nat (length rest)).
  { subst len data. cbn [length]. rewrite !length_app, !length_be_split. lia. }
  assert (H2 : data !! 2%nat = Some (16 * Z.of_nat ns + Z.of_nat na)) by done.
  xopen cfg Hinv. unfold uds_internal_handle_request_download, transfer_response.
  assert (Hp : parse_spec (drop (Z.to_nat 3) data) (u16 (len - 3)) (16 * Z.of_nat ns + Z.of_nat na) =
               Some (addr, size)).
  { rewrite u16_small by lia. apply parse_spec_encoded; lia. }
  assert (Hl2 : len = Z.of_nat (length data)) by done.
  clearbody data len. hsteps; rewrite ?land_15, ?shiftr_4 in *; try (exfalso; zlia).
  all: xevents; try by eexists.
  all: (eexists; eexists; split; [reflexivity|]; tests).
  - split; [by eexists|done].
  - split; [reply_tac|done].
Qed.

(** 0x37 asks the application to finish and answers 0x77 or its code. *)
Theorem transfer_exit_exact data len s :
  uds_inv env_ok tb cfg s ->
  wp (uds_internal_handle_request_transfer_exit (Some cfg) data len)
    (fun _ s' => exists evs, trace s' = trace s ++ evs /\ flash_sequence (ctx s') = flash_sequence (ctx s) /\
       match fn_transfer_exit cfg with
       | None => rejected UDS_SID_TRANSFER_EXIT UDS_NRC_CONDITIONS_NOT_CORRECT evs
       | Some _ => exists res evs1, evs = EvTransferExit res :: evs1 /\
           if res <? 0 then rejected UDS_SID_TRANSFER_EXIT (nrc_of res) evs1
           else reply (suppress_pos_resp (ctx s)) [0x77] evs1
       end) s.
Proof.
  intros Hinv. xopen cfg Hinv. unfold uds_internal_handle_request_transfer_exit.
  hsteps; xevents; (split; [done|]); try by eexists.
  all: eexists; eexists; (split; [reflexivity|]); tests; [by eexists||reply_tac].
Qed.

(** 0x35 treats its address and size as 0x34 does. *)
Theorem request_upload_exact s dfi (na ns : nat) addr size rest :
  let data := 0x35 :: dfi :: (16 * Z.of_nat ns + Z.of_nat na) ::
              be_split na addr ++ be_split ns size ++ rest in
  let len := Z.of_nat (length data) in
  uds_inv env_ok tb cfg s -> (1 <= na <= 4)%nat -> (1 <= ns <= 4)%nat ->
  0 <= addr < 2 ^ (8 * Z.of_nat na) -> 0 <= size < 2 ^ (8 * Z.of_nat ns) ->
  is_byte dfi -> Forall is_byte rest -> len < 65536 ->
  wp (uds_internal_handle_request_upload (Some cfg) data len)
    (fun _ s' => exists evs, trace s' = trace s ++ evs /\
       match fn_request_upload cfg with
       | None => rejected UDS_SID_REQUEST_UPLOAD UDS_NRC_CONDITIONS_NOT_CORRECT evs
       | Some _ => exists res evs1, evs = EvUpload addr size res :: evs1 /\
           if res <? 0 then rejected UDS_SID_REQUEST_UPLOAD (nrc_of res) evs1 /\
             flash_sequence (ctx s') = flash_sequence (ctx s)
           else reply (suppress_pos_resp (ctx s)) [0x75; 0x20; 0; 0; 4; 0] evs1 /\
             flash_sequence (ctx s') = 0
       end) s.
Proof.
  intros data len Hinv Hna Hns Haddr Hsize Hdfi Hrest Hlt.
  assert (Hd : Forall is_byte data).
  { subst data. repeat apply Forall_cons_2; unfold is_byte in *; try lia.
    repeat apply Forall_app_2; auto using be_split_bytes. }
  assert (Hlen : len = 3 + Z.of_nat na + Z.of_nat ns + Z.of_nat (length rest)).
  { subst len data. cbn [length]. rewrite !length_app, !length_be_split. lia. }
  assert (H2 : data !! 2%nat = Some (16 * Z.of_nat ns + Z.of_nat na)) by done.
  xopen cfg Hinv. unfold uds_internal_handle_request_upload, transfer_response.
  assert (Hp : parse_spec (drop (Z.to_nat 3) data) (u16 (len - 3)) (16 * Z.of_nat ns + Z.of_nat na) =
               Some (addr, size)).
  { rewrite u16_small by lia. apply parse_spec_encoded; lia. }
  assert (Hl2 : len = Z.of_nat (length data)) by done.
  clearbody data len. hsteps; try (exfalso; zlia).
  all: xevents; try by eexists.
  all: (eexists; eexists; split; [reflexivity|]; tests).
  - split; [by eexists|done].
  - split; [reply_tac|done].
Qed.

(** C29: Over any sequence of 0x36 requests the block counters of the blocks the
    application accepted are consecutive modulo 256 from the counter the sequence
    started with: no accepted block is skipped, repeated or reordered, and the counter
    kept is that of the last one accepted. *)
Theorem transfer_in_order reqs s :
  uds_inv env_ok tb cfg s -> is_byte (flash_sequence (ctx s)) ->
  Forall (fun d => Forall is_byte d /\ Z.of_nat (length d) < 65536) reqs ->
  wp (transfer_run cfg reqs) (fun _ s' =>
    uds_inv env_ok tb cfg s' /\ exists n evs, trace s' = trace s ++ evs /\
      (n <= length reqs)%nat /\
      accepted evs = counters (flash_sequence (ctx s)) n /\
      flash_sequence (ctx s') = u8 (flash_sequence (ctx s) + Z.of_nat n)) s.
Proof.
  intros Hinv Hk Hr. unfold transfer_run.
  revert s Hinv Hk. induction reqs as [|d reqs IH]; intros s Hinv Hk; cbn [mfor].
  - apply wp_ret. split; [done|]. exists 0%nat, []. rewrite app_nil_r, Z.add_0_r, u8_small by done. done.
  - inversion Hr as [|? ? [Hd Hl] Hr']; subst. apply wp_bind, wp_bind.
    eapply wp_mono; [apply transfer_step; [done..|lia|done|done]|].
    intros _ s1 (Hinv1 & evs1 & Ht1 & Hstep). apply wp_ret.
    assert (Hk1 : is_byte (flash_sequence (ctx s1))).
    { destruct Hstep as [[_ ->]|[_ ->]]; [done|apply u8_range]. }
    eapply wp_mono; [by apply IH|].
    intros _ s2 (Hinv2 & n & evs2 & Ht2 & Hn & Ha & Hf). split; [done|].
    rewrite Ht1, <- app_assoc in Ht2. unfold accepted in *.
    destruct Hstep as [[Ha1 Hk2]|[Ha1 Hk2]]; rewrite Hk2 in Ha, Hf.
    + exists n, (evs1 ++ evs2). split; [done|]. rewrite omap_app, Ha1. cbn [length app]. split; [lia|done].
    + exists (S n), (evs1 ++ evs2). split; [done|]. rewrite omap_app, Ha1. cbn [length app].
      split; [lia|]. rewrite Ha, Hf. split; [by rewrite counters_cons|]. zlia.
Qed.

(** C30: 0x36 by cases: the block that follows the last one (modulo 256) is handed to
    the application with its payload and, if accepted, acknowledged and counted; the
    last block again is acknowledged without a second write where replays are configured
    and the counter is not zero; anything else gets 0x24 and leaves the counter alone. *)
Theorem transfer_data_exact data len q s :
  let k := flash_sequence (ctx s) in
  uds_inv env_ok tb cfg s -> is_byte k -> Forall is_byte data -> 2 <= len <= Z.of_nat (length data) ->
  len < 65536 -> data !! 1%nat = Some q ->
  wp (uds_internal_handle_transfer_data (Some cfg) data len)
    (fun _ s' => exists evs, trace s' = trace s ++ evs /\
       if (match fn_transfer_data cfg with None => true | Some _ => false end) then
         flash_sequence (ctx s') = k /\ rejected UDS_SID_TRANSFER_DATA UDS_NRC_CONDITIONS_NOT_CORRECT evs
       else if q =? u8 (k + 1) then
         exists res evs1, evs = EvTransfer q (take (Z.to_nat (len - 2)) (drop 2 data)) res :: evs1 /\
           if res <? 0 then flash_sequence (ctx s') = k /\ rejected UDS_SID_TRANSFER_DATA (nrc_of res) evs1
           else flash_sequence (ctx s') = q /\ reply (suppress_pos_resp (ctx s)) [0x76; q] evs1
       else if transfer_accept_last_block_replay cfg && negb (k =? 0) && (q =? k) then
         flash_sequence (ctx s') = k /\ reply (suppress_pos_resp (ctx s)) [0x76; q] evs
       else
         flash_sequence (ctx s') = k /\
         rejected UDS_SID_TRANSFER_DATA UDS_NRC_REQUEST_SEQUENCE_ERROR evs) s.
Proof.
  intros k Hinv Hk Hbytes Hlen Hlt Hd. subst k. xopen cfg Hinv.
  assert (Hq : is_byte q) by (by apply (Forall_lookup_1 _ _ 1%nat _ Hbytes)).
  pose proof (check_sequence_cases _ q Hk Hq) as Hv.
  unfold uds_internal_handle_transfer_data, transfer_data_response.
  rewrite (proj2 (Z.ltb_ge len 2)) by lia. hstep. hstep.
  destruct (fn_transfer_data cfg) as [f|] eqn:Hf.
  2: { hsteps. xevents. split; [done|by eexists]. }
  hstep. hstep. hstep. hstep. rewrite Hv.
  destruct (q =? u8 (flash_sequence c + 1)); [|destruct (_ && _ && _)].
  - hsteps; xevents; u16_tac; exists a; eexists; (split; [reflexivity|]); tests;
      (split; [done|]); [by eexists|reply_tac].
  - hsteps; xevents. split; [done|]. reply_tac.
  - hsteps; xevents. split; [done|]. by eexists.
Qed.
End FlashSpec.
