(* ===== verification/SvcIo.v ===== *)
(** * Input/output control: [src/services/uds_service_io.c] (0x2F)

    The handler, its [HandlerSpec], and its exact effect. *)

From S2P Require Import Prelude Monad Types Machine CoreBase Contract HandlerLogic SvcData.
From stdpp Require Import base gmap list strings numbers.

Open Scope Z_scope.

Section Io.
Context {E : Type}.

Definition uds_internal_handle_io_control (ctx : ctx_ptr E) (data : list Z) (len : Z)
    : M (uds_state E) Z :=
  if len <? 4 then uds_send_nrc ctx UDS_SID_IO_CONTROL_BY_ID UDS_NRC_INCORRECT_LENGTH
  else
    d1 ← data_at data 1;
    d2 ← data_at data 2;
    let id := Z.lor (u16 (Z.shiftl d1 8)) d2 in
    ctrl_type ← data_at data 3;
    cfg ← config_of ctx;
    match fn_io_control cfg with
    | None => uds_send_nrc ctx UDS_SID_IO_CONTROL_BY_ID UDS_NRC_SERVICE_NOT_SUPPORTED
    | Some f =>
        entry ← uds_internal_find_did ctx id;
        match entry with
        | None => uds_send_nrc ctx UDS_SID_IO_CONTROL_BY_ID UDS_NRC_REQUEST_OUT_OF_RANGE
        | Some entry =>
            sess ← did_session_ok entry;
            if negb sess
            then uds_send_nrc ctx UDS_SID_IO_CONTROL_BY_ID UDS_NRC_SERVICE_NOT_SUPP_IN_SESS
            else
              sec ← did_security_ok entry;
              if negb sec
              then uds_send_nrc ctx UDS_SID_IO_CONTROL_BY_ID UDS_NRC_SECURITY_ACCESS_DENIED
              else
                let max_payload := u16 (tx_buffer_size cfg - 3) in
                c ← get_ctx;
                input ← data_from data 4;
                written ← call_out cfg 3 (f c id ctrl_type input (u16 (len - 4)) max_payload);
                emit (EvIoControl id ctrl_type input written) ;;
                if written <? 0 then uds_send_nrc ctx UDS_SID_IO_CONTROL_BY_ID (nrc_of written)
                else
                  tx_set cfg 0 (u8 (UDS_SID_IO_CONTROL_BY_ID + UDS_RESPONSE_OFFSET)) ;;
                  tx_set cfg 1 d1 ;;
                  tx_set cfg 2 d2 ;;
                  uds_send_response ctx (u16 (u16 written + 3))
        end
    end.
End Io.

Section IoSpec.
Context {E : Type} (env_ok : E -> Prop) (tb : N) (cfg : uds_config E).
Context `{Hok : !ConfigOk env_ok tb cfg}.

#[export] Instance io_control_spec :
  HandlerSpec env_ok tb cfg UDS_SID_IO_CONTROL_BY_ID 4 false (uds_internal_handle_io_control (Some cfg)).
Proof. hopen cfg. unfold uds_internal_handle_io_control. hsteps; hpost. Qed.

(** C31: 0x2F checks identifier, session and security level in this order (0x31, 0x7F,
    0x33) before it asks the application, hands it the identifier, the control type and
    the option bytes, and answers 0x6F with the identifier and exactly the bytes the
    application wrote, or its negative code. *)
Theorem io_control_exact data len s f h lo ty res out e' :
  uds_inv env_ok tb cfg s -> Forall is_byte data -> take 3 (drop 1 data) = [h; lo; ty] ->
  4 <= len <= Z.of_nat (length data) -> len < 65536 -> fn_io_control cfg = Some f ->
  let id := be_combine [h; lo] in
  f (ctx s) id ty (drop 4 data) (len - 4) (tx_buffer_size cfg - 3) (env s) = Ok ((res, out), e') ->
  res <= Z.of_nat (length out) ->
  wp (uds_internal_handle_io_control (Some cfg) data len)
    (fun _ s' => exists evs, trace s' = trace s ++ evs /\
       match did_lookup cfg id with
       | None => rejected UDS_SID_IO_CONTROL_BY_ID UDS_NRC_REQUEST_OUT_OF_RANGE evs
       | Some en =>
           if negb (session_allows en (ctx s)) then
             rejected UDS_SID_IO_CONTROL_BY_ID UDS_NRC_SERVICE_NOT_SUPP_IN_SESS evs
           else if negb (security_allows en (ctx s)) then
             rejected UDS_SID_IO_CONTROL_BY_ID UDS_NRC_SECURITY_ACCESS_DENIED evs
           else exists evs1, evs = EvIoControl id ty (drop 4 data) res :: evs1 /\
             if res <? 0 then rejected UDS_SID_IO_CONTROL_BY_ID (nrc_of res) evs1
             else reply (suppress_pos_resp (ctx s)) (0x6F :: h :: lo :: take (Z.to_nat res) out) evs1
       end) s.
Proof.
  intros Hinv Hbytes Hd Hlen Hlt Hf id Hrun Hres. xopen cfg Hinv. cbn [env] in Hrun.
  destruct data as [|x [|h' [|lo' [|ty' data]]]]; try discriminate Hd. injection Hd as -> -> ->.
  assert (Hh : is_byte h) by (by apply (Forall_lookup_1 _ _ 1%nat _ Hbytes)).
  assert (Hlo : is_byte lo) by (by apply (Forall_lookup_1 _ _ 2%nat _ Hbytes)).
  assert (H1 : (x :: h :: lo :: ty :: data) !! 1%nat = Some h) by done.
  assert (H2 : (x :: h :: lo :: ty :: data) !! 2%nat = Some lo) by done.
  assert (H3 : (x :: h :: lo :: ty :: data) !! 3%nat = Some ty) by done.
  unfold uds_internal_handle_io_control. rewrite (proj2 (Z.ltb_ge len 4)) by lia.
  do 8 hstep. rewrite Hf, be_pair16 by done. fold id. hstep. apply (run_wp _ _ _ _ _ (find_did_run env_ok tb cfg id _)).
  destruct (did_lookup cfg id) as [en|]; [|hsteps; xevents; by eexists].
  hstep. hstep. cbn [ctx]. destruct (session_allows en c); cbn [negb]; [|hsteps; xevents; by eexists].
  hstep. hstep. cbn [ctx]. destruct (security_allows en c); cbn [negb]; [|hsteps; xevents; by eexists].
  hsteps_to_out. nat_tac. u16_tac.
  eapply wp_call_out_run; [eassumption|cb_hyp|eassumption|exact Hrun|lia|intros; size_tac|].
  intros l1 [HR1 HR2] He1 Hl1 Hlen1. cbn [fst snd] in *.
  hsteps; xevents; eexists; (split; [reflexivity|]); tests; [by eexists|].
  u16_tac. replace (Z.to_nat (res + 3)) with (3 + Z.to_nat res)%nat in * by lia. out_reply_tac frame3.
Qed.
End IoSpec.
