(* ===== verification/SvcMem.v ===== *)
(** * Memory services: [src/services/uds_service_mem.c] (0x23, 0x3D)

    The handlers, their [HandlerSpec], and what reaches the application's
    memory callbacks and comes back. *)

From S2P Require Import Prelude Monad Types Machine CoreBase Contract HandlerLogic.
From stdpp Require Import base gmap list strings numbers.

Open Scope Z_scope.

Section Mem.
Context {E : Type}.

Definition uds_internal_handle_read_memory_by_addr (ctx : ctx_ptr E) (data : list Z) (len : Z)
    : M (uds_state E) Z :=
  if len <? 3 then uds_send_nrc ctx UDS_SID_READ_MEM_BY_ADDR UDS_NRC_INCORRECT_LENGTH
  else
    format ← data_at data 1;
    let addr_len := Z.land format 0x0F in
    let size_len := Z.land (Z.shiftr format 4) 0x0F in
    if (addr_len =? 0) || (size_len =? 0) || (addr_len >? 4) || (size_len >? 4)
    then uds_send_nrc ctx UDS_SID_READ_MEM_BY_ADDR UDS_NRC_REQUEST_OUT_OF_RANGE
    else
      p ← data_from data 2;
      parsed ← uds_internal_parse_addr_len p (u16 (len - 2)) format;
      match parsed with
      | None => uds_send_nrc ctx UDS_SID_READ_MEM_BY_ADDR UDS_NRC_INCORRECT_LENGTH
      | Some (addr, size) =>
          cfg ← config_of ctx;
          match fn_mem_read cfg with
          | None => uds_send_nrc ctx UDS_SID_READ_MEM_BY_ADDR UDS_NRC_CONDITIONS_NOT_CORRECT
          | Some f =>
              if size >? u32 (tx_buffer_size cfg - 1)
              then uds_send_nrc ctx UDS_SID_READ_MEM_BY_ADDR UDS_NRC_RESPONSE_TOO_LONG
              else
                c ← get_ctx;
                res ← call_out cfg 1 (f c addr size);
                emit (EvMemRead addr size res) ;;
                if res <? 0 then uds_send_nrc ctx UDS_SID_READ_MEM_BY_ADDR (nrc_of res)
                else
                  tx_set cfg 0 (u8 (UDS_SID_READ_MEM_BY_ADDR + UDS_RESPONSE_OFFSET)) ;;
                  uds_send_response ctx (u16 (u32 (size + 1)))
          end
      end.

(** The echo loop: [tx_buffer[2 + i] = data[2 + i]] for [i < n]. *)
Definition echo_addr_size (cfg : uds_config E) (data : list Z) (n : Z) : M (uds_state E) unit :=
  mfor (seqZ 0 n) (fun i => b ← data_at data (2 + i); tx_set cfg (2 + i) b).

Definition uds_internal_handle_write_memory_by_addr (ctx : ctx_ptr E) (data : list Z) (len : Z)
    : M (uds_state E) Z :=
  if len <? 3 then uds_send_nrc ctx UDS_SID_WRITE_MEM_BY_ADDR UDS_NRC_INCORRECT_LENGTH
  else
    format ← data_at data 1;
    let addr_len := Z.land format 0x0F in
    let size_len := Z.land (Z.shiftr format 4) 0x0F in
    if (addr_len =? 0) || (size_len =? 0) || (addr_len >? 4) || (size_len >? 4)
    then uds_send_nrc ctx UDS_SID_WRITE_MEM_BY_ADDR UDS_NRC_REQUEST_OUT_OF_RANGE
    else
      let consumed := u16 (2 + addr_len + size_len) in
      p ← data_from data 2;
      parsed ← uds_internal_parse_addr_len p (u16 (len - 2)) format;
      match parsed with
      | None => uds_send_nrc ctx UDS_SID_WRITE_MEM_BY_ADDR UDS_NRC_INCORRECT_LENGTH
      | Some (addr, size) =>
          if negb (len =? u16 (consumed + u16 size))
          then uds_send_nrc ctx UDS_SID_WRITE_MEM_BY_ADDR UDS_NRC_INCORRECT_LENGTH
          else
            cfg ← config_of ctx;
            match fn_mem_write cfg with
            | None => uds_send_nrc ctx UDS_SID_WRITE_MEM_BY_ADDR UDS_NRC_CONDITIONS_NOT_CORRECT
            | Some f =>
                safe ← match fn_is_safe cfg with
                       | Some g =>
                           c ← get_ctx;
                           ok ← call (g c UDS_SID_WRITE_MEM_BY_ADDR data len);
                           emit (EvSafe UDS_SID_WRITE_MEM_BY_ADDR ok) ;;
                           mret ok
                       | None => mret true
                       end;
                if negb safe
                then uds_send_nrc ctx UDS_SID_WRITE_MEM_BY_ADDR UDS_NRC_CONDITIONS_NOT_CORRECT
                else
                  c ← get_ctx;
                  src ← data_from data consumed;
                  res ← call (f c addr size src);
                  emit (EvMemWrite addr size src res) ;;
                  if res <? 0 then uds_send_nrc ctx UDS_SID_WRITE_MEM_BY_ADDR (nrc_of res)
                  else
                    tx_set cfg 0 (u8 (UDS_SID_WRITE_MEM_BY_ADDR + UDS_RESPONSE_OFFSET)) ;;
                    tx_set cfg 1 format ;;
                    echo_addr_size cfg data (u16 (addr_len + size_len)) ;;
                    uds_send_response ctx (u16 (2 + addr_len + size_len))
            end
      end.
End Mem.

(** A request that carries an encoded address and size. *)
Definition mem_request (sd : Z) (na ns : nat) (addr size : Z) (payload : list Z) : list Z :=
  sd :: (16 * Z.of_nat ns + Z.of_nat na) :: be_split na addr ++ be_split ns size ++ payload.

Section MemSpec.
Context {E : Type} (env_ok : E -> Prop) (tb : N) (cfg : uds_config E).
Context `{Hok : !ConfigOk env_ok tb cfg}.

(** The echo loop writes the request's bytes from [data[2 + k]] on. *)
Lemma wp_echo_from data (n : nat) k (Q : unit -> uds_state E -> Prop) c m e tr l :
  0 <= k -> 2 + k + Z.of_nat n <= Z.of_nat (length data) ->
  2 + k + Z.of_nat n <= Z.of_nat (length l) ->
  Q tt (mkState c (<[tb := write_at (Z.to_nat (2 + k)) (take n (drop (Z.to_nat (2 + k)) data)) l]> m)
          e tr) ->
  wp (mfor (seqZ k (Z.of_nat n)) (fun i => b ← data_at data (2 + i); tx_set cfg (2 + i) b)) Q
    (mkState c (<[tb := l]> m) e tr).
Proof.
  revert k l. induction n as [|n IH]; intros k l Hk Hd Hl HQ.
  - cbn. rewrite take_0, write_at_nil in HQ. done.
  - rewrite seqZ_cons by lia. cbn [mfor]. replace (Z.pred (Z.of_nat (S n))) with (Z.of_nat n) by lia.
    destruct (lookup_lt_is_Some_2 data (Z.to_nat (2 + k))) as [b Hb]; [lia|].
    apply wp_bind, wp_bind. apply wp_data_at with b; [lia|done|].
    eapply wp_tx_set; [eassumption|lia|]. intros l' -> Hl' _.
    apply IH; [lia..|].
    rewrite (drop_S _ b _ Hb) in HQ. cbn [take] in HQ.
    replace (Z.to_nat (2 + Z.succ k)) with (S (Z.to_nat (2 + k))) by lia.
    rewrite write_at_cons; [done|]. rewrite length_take, length_drop. lia.
Qed.

(** The echo loop copies the address and size bytes of the request. *)
Lemma wp_echo data n (Q : unit -> uds_state E -> Prop) c m e tr l :
  0 <= n -> 2 + n <= Z.of_nat (length data) -> 2 + n <= Z.of_nat (length l) ->
  (forall l', l' = write_at 2 (take (Z.to_nat n) (drop 2 data)) l -> length l' = length l ->
     l' !! 0%nat = l !! 0%nat -> Q tt (mkState c (<[tb := l']> m) e tr)) ->
  wp (echo_addr_size cfg data n) Q (mkState c (<[tb := l]> m) e tr).
Proof.
  intros Hn Hd Hl HQ. unfold echo_addr_size. rewrite <- (Z2Nat.id n) at 1 by lia.
  apply wp_echo_from; [lia..|]. apply HQ; [done| |].
  - rewrite length_write_at; [done|]. rewrite length_take, length_drop. cbn. lia.
  - by destruct l as [|? [|? l]]; [cbn in *; lia..|].
Qed.
#[export] Instance read_memory_spec :
  HandlerSpec env_ok tb cfg UDS_SID_READ_MEM_BY_ADDR 3 false
    (uds_internal_handle_read_memory_by_addr (Some cfg)).
Proof. hopen cfg. unfold uds_internal_handle_read_memory_by_addr. hsteps; hpost. Qed.

#[export] Instance write_memory_spec :
  HandlerSpec env_ok tb cfg UDS_SID_WRITE_MEM_BY_ADDR 3 false
    (uds_internal_handle_write_memory_by_addr (Some cfg)).
Proof.
  hopen cfg. unfold uds_internal_handle_write_memory_by_addr.
  repeat (hstep; rewrite ?land_15, ?shiftr_4, ?u16_small in * by zlia); try hpost.
  all: (eapply wp_echo; [zlia..|intros l2 ? ? ?]; hsteps; hpost).
Qed.

Lemma length_mem_request sd na ns addr size payload :
  Z.of_nat (length (mem_request sd na ns addr size payload)) =
  2 + Z.of_nat na + Z.of_nat ns + Z.of_nat (length payload).
Proof. unfold mem_request. cbn [length]. rewrite !length_app, !length_be_split. lia. Qed.

Lemma mem_request_bytes sd na ns addr size payload :
  is_byte sd -> (1 <= na <= 4)%nat -> (1 <= ns <= 4)%nat -> Forall is_byte payload ->
  Forall is_byte (mem_request sd na ns addr size payload).
Proof.
  intros. unfold mem_request. repeat apply Forall_cons_2; unfold is_byte in *; try lia.
  repeat apply Forall_app_2; auto using be_split_bytes.
Qed.

(** 0x23 with address and size in one to four big-endian bytes each answers 0x63
    and exactly the bytes the application read there, 0x14 before asking it when they do
    not fit the transmit buffer, or the application's negative code. *)
Theorem read_memory_exact s f (na ns : nat) addr size rest res out e' :
  let data := mem_request 0x23 na ns addr size rest in
  let len := Z.of_nat (length data) in
  uds_inv env_ok tb cfg s -> (1 <= na <= 4)%nat -> (1 <= ns <= 4)%nat ->
  0 <= addr < 2 ^ (8 * Z.of_nat na) -> 0 <= size < 2 ^ (8 * Z.of_nat ns) ->
  Forall is_byte rest -> len < 65536 ->
  fn_mem_read cfg = Some f -> f (ctx s) addr size (env s) = Ok ((res, out), e') ->
  (0 <= res -> Z.of_nat (length out) = size) ->
  wp (uds_internal_handle_read_memory_by_addr (Some cfg) data len)
    (fun _ s' => exists evs, trace s' = trace s ++ evs /\
       if tx_buffer_size cfg <=? size
       then rejected UDS_SID_READ_MEM_BY_ADDR UDS_NRC_RESPONSE_TOO_LONG evs
       else exists evs1, evs = EvMemRead addr size res :: evs1 /\
         if res <? 0 then rejected UDS_SID_READ_MEM_BY_ADDR (nrc_of res) evs1
         else reply (suppress_pos_resp (ctx s)) (0x63 :: out) evs1) s.
Proof.
  intros data len Hinv Hna Hns Haddr Hsize Hrest Hlt Hf Hrun Hout.
  assert (Hd : Forall is_byte data) by (apply mem_request_bytes; done || unfold is_byte; lia).
  assert (Hlen : len = 2 + Z.of_nat na + Z.of_nat ns + Z.of_nat (length rest)) by apply length_mem_request.
  assert (H2 : data !! 1%nat = Some (16 * Z.of_nat ns + Z.of_nat na)) by done.
  assert (Hl2 : len = Z.of_nat (length data)) by done.
  assert (Hp : parse_spec (drop (Z.to_nat 2) data) (u16 (len - 2)) (16 * Z.of_nat ns + Z.of_nat na) =
               Some (addr, size)).
  { rewrite u16_small by lia. apply parse_spec_encoded; lia. }
  xopen cfg Hinv. cbn [env] in Hrun. clearbody data len.
  assert (2 ^ (8 * Z.of_nat ns) <= 2 ^ 32) by (apply Z.pow_le_mono_r; lia).
  unfold uds_internal_handle_read_memory_by_addr. hsteps_to_out; rewrite ?land_15, ?shiftr_4 in *;
    u16_tac; try (exfalso; zlia).
  - xevents. tests. by eexists.
  - eapply wp_call_out_run; [eassumption|cb_hyp|eassumption|exact Hrun|lia|intros; cbn in *; lia|].
    intros l1 HR He1 Hl1 Hlen1. cbn in HR.
    hsteps; xevents; tests; (eexists; split; [reflexivity|]); tests; [by eexists|].
    specialize (Hout ltac:(lia)). u16_tac.
    replace (Z.to_nat (size + 1)) with (1 + length out)%nat in * by lia.
    subst. nat_tac. match goal with H : reply _ _ _ |- _ =>
      rewrite frame1, drop_write_at, take_app_length in H by length_tac; exact H end.
Qed.

(** The handler's own gate: what the application's [fn_is_safe] said of the request, and
    the event it leaves. Without the callback every request is safe. *)
Definition gate_verdict (c : uds_ctx) (data : list Z) (len : Z) (safe : bool) : Prop :=
  match fn_is_safe cfg with
  | Some g => returns env_ok (g c UDS_SID_WRITE_MEM_BY_ADDR data len) safe
  | None => safe = true
  end.
Definition gate_events (safe : bool) : list event :=
  match fn_is_safe cfg with Some _ => [EvSafe UDS_SID_WRITE_MEM_BY_ADDR safe] | None => [] end.

Lemma wp_write_gate data len (Q : bool -> uds_state E -> Prop) c m e tr :
  env_ok e ->
  (forall safe e', env_ok e' -> gate_verdict c data len safe -> Q safe (mkState c m e' (tr ++ gate_events safe))) ->
  wp (match fn_is_safe cfg with
      | Some g =>
          c ← get_ctx;
          ok ← call (g c UDS_SID_WRITE_MEM_BY_ADDR data len);
          emit (EvSafe UDS_SID_WRITE_MEM_BY_ADDR ok) ;;
          mret ok
      | None => mret true
      end) Q (mkState c m e tr).
Proof.
  intros He HQ. unfold gate_verdict, gate_events in HQ. destruct (fn_is_safe cfg) as [g|] eqn:Hg.
  - hstep. hstep. hstep. eapply wp_cb; [apply cb_ok_returns; cb_hyp|done|]. intros ok e' [_ Hret] He'.
    hsteps. by apply HQ.
  - apply wp_ret. rewrite <- (app_nil_r tr). by apply HQ.
Qed.

(** What the handler does from the gate on. *)
Lemma wp_write_gated f data len (na ns : nat) addr size payload fmt (Q : Z -> uds_state E -> Prop) c m e tr l :
  fn_mem_write cfg = Some f -> env_ok e -> Z.of_nat (length l) = tx_buffer_size cfg ->
  (1 <= na <= 4)%nat -> (1 <= ns <= 4)%nat -> Forall is_byte data -> is_byte fmt ->
  len = Z.of_nat (length data) -> len = 2 + Z.of_nat na + Z.of_nat ns + Z.of_nat (length payload) ->
  drop (2 + na + ns) data = payload ->
  (forall s' r evs safe, trace s' = tr ++ gate_events safe ++ evs -> gate_verdict c data len safe ->
     (if negb safe then rejected UDS_SID_WRITE_MEM_BY_ADDR UDS_NRC_CONDITIONS_NOT_CORRECT evs
      else exists res evs1, returns env_ok (f c addr size payload) res /\ evs = EvMemWrite addr size payload res :: evs1 /\
        if res <? 0 then rejected UDS_SID_WRITE_MEM_BY_ADDR (nrc_of res) evs1
        else reply (suppress_pos_resp c) (0x7D :: fmt :: take (na + ns) (drop 2 data)) evs1) -> Q r s') ->
  wp (safe ← match fn_is_safe cfg with
             | Some g =>
                 c ← get_ctx;
                 ok ← call (g c UDS_SID_WRITE_MEM_BY_ADDR data len);
                 emit (EvSafe UDS_SID_WRITE_MEM_BY_ADDR ok) ;;
                 mret ok
             | None => mret true
             end;
      if negb safe
      then uds_send_nrc (Some cfg) UDS_SID_WRITE_MEM_BY_ADDR UDS_NRC_CONDITIONS_NOT_CORRECT
      else
        c ← get_ctx;
        src ← data_from data (u16 (2 + Z.of_nat na + Z.of_nat ns));
        res ← call (f c addr size src);
        emit (EvMemWrite addr size src res) ;;
        if res <? 0 then uds_send_nrc (Some cfg) UDS_SID_WRITE_MEM_BY_ADDR (nrc_of res)
        else
          tx_set cfg 0 (u8 (UDS_SID_WRITE_MEM_BY_ADDR + UDS_RESPONSE_OFFSET)) ;;
          tx_set cfg 1 fmt ;;
          echo_addr_size cfg data (u16 (Z.of_nat na + Z.of_nat ns)) ;;
          uds_send_response (Some cfg) (u16 (2 + Z.of_nat na + Z.of_nat ns))) Q (mkState c (<[tb := l]> m) e tr).
Proof.
  intros Hf He Hl Hna Hns Hd Hfmt Hl2 Hlen Hsrc HQ. pose proof (ok_tx_size (cfg := cfg)) as Hsz; unfold MIN_TX in Hsz.
  apply wp_bind, wp_write_gate; [done|]. intros safe e1 He1 Hsafe.
  destruct safe; cbn [negb].
  2: { hsteps. eapply (HQ _ _ _ false); [cbn [trace]; by rewrite <- app_assoc|done|]. cbn [negb]. by eexists. }
  hstep. hstep. hstep. u16_tac. apply wp_data_from; [lia|].
  replace (drop (Z.to_nat (2 + Z.of_nat na + Z.of_nat ns)) data) with payload by (rewrite <- Hsrc; f_equal; lia).
  hstep. eapply wp_cb; [apply cb_ok_returns; cb_hyp|done|]. intros res e2 [_ Hret] He2. hstep. hstep.
  destruct (Z.ltb_spec res 0) as [Hneg|Hpos].
  { hsteps. eapply (HQ _ _ _ true); [cbn [trace]; by rewrite <- !app_assoc|done|]. cbn [negb app].
    eexists _, _. split; [done|]. split; [done|]. rewrite (proj2 (Z.ltb_lt _ _)) by done. by eexists. }
  hsteps. eapply wp_echo; [lia..|]. intros l2 El2 Hl2' _. hsteps.
  eapply (HQ _ _ _ true); [cbn [trace]; by rewrite <- !app_assoc|done|]. cbn [negb app].
  eexists _, _. split; [done|]. split; [done|]. rewrite (proj2 (Z.ltb_ge _ _)) by done.
  replace (Z.to_nat (2 + Z.of_nat na + Z.of_nat ns))
    with (2 + length (take (Z.to_nat (Z.of_nat na + Z.of_nat ns)) (drop 2 data)))%nat in *
    by (rewrite length_take, length_drop; lia).
  replace (Z.to_nat (Z.of_nat na + Z.of_nat ns)) with (na + ns)%nat in * by lia.
  subst l2. rewrite take_write_at in * by (rewrite length_take, length_drop; lia). reply_tac.
Qed.

(** C32: 0x3D with an address and a size of one to four bytes each: it refuses with 0x13
    exactly when the payload length differs from the size modulo 65536, so a larger size
    whose low 16 bits match is let through with a payload shorter than the size; then
    with 0x22 when there is no fn_mem_write, and with 0x22 when the application's
    fn_is_safe, asked by the handler itself, refuses, in which case the memory is not
    written. Otherwise it hands the application the address, the 32-bit size and the
    payload, and answers with the application's code or, on success, with the echo of
    address and size. *)
Theorem write_memory_exact s (na ns : nat) addr size payload :
  let data := mem_request 0x3D na ns addr size payload in
  let len := Z.of_nat (length data) in
  uds_inv env_ok tb cfg s -> (1 <= na <= 4)%nat -> (1 <= ns <= 4)%nat ->
  0 <= addr < 2 ^ (8 * Z.of_nat na) -> 0 <= size < 2 ^ (8 * Z.of_nat ns) ->
  Forall is_byte payload -> len < 65536 ->
  wp (uds_internal_handle_write_memory_by_addr (Some cfg) data len)
    (fun _ s' => exists evs, trace s' = trace s ++ evs /\
       if negb (Z.of_nat (length payload) =? size mod 65536)
       then rejected UDS_SID_WRITE_MEM_BY_ADDR UDS_NRC_INCORRECT_LENGTH evs
       else match fn_mem_write cfg with
       | None => rejected UDS_SID_WRITE_MEM_BY_ADDR UDS_NRC_CONDITIONS_NOT_CORRECT evs
       | Some f => exists safe evs0, evs = gate_events safe ++ evs0 /\ gate_verdict (ctx s) data len safe /\
           if negb safe then rejected UDS_SID_WRITE_MEM_BY_ADDR UDS_NRC_CONDITIONS_NOT_CORRECT evs0
           else exists res evs1, returns env_ok (f (ctx s) addr size payload) res /\
             evs0 = EvMemWrite addr size payload res :: evs1 /\
             if res <? 0 then rejected UDS_SID_WRITE_MEM_BY_ADDR (nrc_of res) evs1
             else reply (suppress_pos_resp (ctx s)) (0x7D :: take (1 + na + ns) (drop 1 data)) evs1
       end) s.
Proof.
  intros data len Hinv Hna Hns Haddr Hsize Hrest Hlt.
  assert (Hd : Forall is_byte data) by (apply mem_request_bytes; done || unfold is_byte; lia).
  assert (Hlen : len = 2 + Z.of_nat na + Z.of_nat ns + Z.of_nat (length payload)) by apply length_mem_request.
  set (fmt := 16 * Z.of_nat ns + Z.of_nat na).
  assert (H2 : data !! 1%nat = Some fmt) by done.
  assert (Hl2 : len = Z.of_nat (length data)) by done.
  assert (Hp : parse_spec (drop (Z.to_nat 2) data) (u16 (len - 2)) fmt = Some (addr, size)).
  { rewrite u16_small by lia. apply parse_spec_encoded; lia. }
  assert (Hsrc : drop (2 + na + ns) data = payload).
  { subst data. unfold mem_request. cbn [drop Nat.add]. rewrite app_assoc.
    by rewrite drop_app_length' by (rewrite length_app, !length_be_split; lia). }
  assert (Hhead : take (1 + na + ns) (drop 1 data) = fmt :: take (na + ns) (drop 2 data)) by done.
  assert (Hn : Z.land fmt 15 = Z.of_nat na /\ Z.land (Z.shiftr fmt 4) 15 = Z.of_nat ns).
  { rewrite !land_15, shiftr_4. subst fmt. split; zlia. }
  destruct Hn as [Hn1 Hn2].
  assert (Hfmt : is_byte fmt) by (subst fmt; unfold is_byte; lia).
  assert (Hcond : (len =? u16 (u16 (2 + Z.of_nat na + Z.of_nat ns) + u16 size)) =
                  (Z.of_nat (length payload) =? size mod 65536)) by zlia.
  xopen cfg Hinv. clearbody data len fmt. rewrite Hhead.
  unfold uds_internal_handle_write_memory_by_addr. hstep; [exfalso; lia|].
  hstep. hstep. rewrite Hn1, Hn2. hstep; [exfalso; lia|].
  hstep. hstep. hstep. hstep. hstep. rewrite Hcond. 
  destruct (Z.of_nat (length payload) =? size mod 65536); cbn [negb]; [|hsteps; xevents; by eexists].
  apply wp_bind, wp_config_of. destruct (fn_mem_write cfg) as [f|] eqn:Hf; [|hsteps; xevents; by eexists].
  apply (wp_write_gated f data len na ns addr size payload fmt); try done.
  intros s' r evs safe Ht Hsafe Hpost. exists (gate_events safe ++ evs). split; [done|]. by exists safe, evs.
Qed.
End MemSpec.
