(* ===== verification/Core.v ===== *)
(** * The core engine: [src/core/uds_core.c]

    The service table and its search, the validation pipeline of
    [handle_request], and the public entry points [uds_init], [uds_process],
    [uds_client_request] and [uds_input_sdu]. *)

From S2P Require Import Prelude Monad Types Machine CoreBase.
From S2P Require Import SvcSession SvcSecurity SvcMaintenance SvcData SvcPeriodic SvcFlash SvcIo SvcMem.
From stdpp Require Import base gmap list strings numbers.

Open Scope Z_scope.

Section Core.
Context {E : Type}.

(** The application's response callbacks: what running the function at a code
    address does, given the SID, the payload and its length. *)
Context (client_call : N -> uds_response_cb E).

(** ** The service table *)
Definition mask_sub_10 : list Z := UDS_MASK_SUB_10.
Definition mask_sub_11 : list Z := UDS_MASK_SUB_11.
Definition mask_sub_19 : list Z := UDS_MASK_SUB_19.
Definition mask_sub_27 : list Z := UDS_MASK_SUB_27.
Definition mask_sub_28 : list Z := UDS_MASK_SUB_28.
Definition mask_sub_31 : list Z := UDS_MASK_SUB_31.
Definition mask_sub_3E : list Z := UDS_MASK_SUB_3E.
Definition mask_sub_85 : list Z := UDS_MASK_SUB_85.
Definition mask_sub_2A : list Z := UDS_MASK_SUB_2A.

Definition core_services (ctx : ctx_ptr E) : list (uds_service_entry E) := [
  mkService UDS_SID_SESSION_CONTROL 2 UDS_SESSION_ALL 0
    (Some (uds_internal_handle_session_control ctx)) (Some mask_sub_10);
  mkService UDS_SID_ECU_RESET 2 UDS_SESSION_ALL 0
    (Some (uds_internal_handle_ecu_reset ctx)) (Some mask_sub_11);
  mkService UDS_SID_CLEAR_DTC 4 UDS_SESSION_ALL 0
    (Some (uds_internal_handle_clear_dtc ctx)) None;
  mkService UDS_SID_READ_DTC_INFO 2 UDS_SESSION_ALL 0
    (Some (uds_internal_handle_read_dtc_info ctx)) (Some mask_sub_19);
  mkService UDS_SID_READ_DATA_BY_ID 3 UDS_SESSION_ALL 0
    (Some (uds_internal_handle_read_data_by_id ctx)) None;
  mkService UDS_SID_READ_MEM_BY_ADDR 3 UDS_SESSION_ALL 0
    (Some (uds_internal_handle_read_memory_by_addr ctx)) None;
  mkService UDS_SID_SECURITY_ACCESS 2 UDS_SESSION_ALL 0
    (Some (uds_internal_handle_security_access ctx)) (Some mask_sub_27);
  mkService UDS_SID_COMM_CONTROL 2 UDS_SESSION_ALL 0
    (Some (uds_internal_handle_comm_control ctx)) (Some mask_sub_28);
  mkService UDS_SID_AUTHENTICATION 2 UDS_SESSION_ALL 0
    (Some (uds_internal_handle_authentication ctx)) None;
  mkService UDS_SID_WRITE_DATA_BY_ID 3 UDS_SESSION_ALL 0
    (Some (uds_internal_handle_write_data_by_id ctx)) None;
  mkService UDS_SID_ROUTINE_CONTROL 4 UDS_SESSION_ALL 0
    (Some (uds_internal_handle_routine_control ctx)) (Some mask_sub_31);
  mkService UDS_SID_REQUEST_DOWNLOAD 4 UDS_SESSION_ALL 0
    (Some (uds_internal_handle_request_download ctx)) None;
  mkService UDS_SID_TRANSFER_DATA 2 UDS_SESSION_ALL 0
    (Some (uds_internal_handle_transfer_data ctx)) None;
  mkService UDS_SID_TRANSFER_EXIT 1 UDS_SESSION_ALL 0
    (Some (uds_internal_handle_request_transfer_exit ctx)) None;
  mkService UDS_SID_WRITE_MEM_BY_ADDR 3 UDS_SESSION_ALL 0
    (Some (uds_internal_handle_write_memory_by_addr ctx)) None;
  mkService UDS_SID_TESTER_PRESENT 2 UDS_SESSION_ALL 0
    (Some (uds_internal_handle_tester_present ctx)) (Some mask_sub_3E);
  mkService UDS_SID_CONTROL_DTC_SETTING 2 UDS_SESSION_ALL 0
    (Some (uds_internal_handle_control_dtc_setting ctx)) (Some mask_sub_85);
  mkService UDS_SID_READ_BY_PER_ID 2 UDS_SESSION_ALL 0
    (Some (uds_internal_handle_periodic_read ctx)) (Some mask_sub_2A);
  mkService UDS_SID_IO_CONTROL_BY_ID 4 UDS_SESSION_ALL 0
    (Some (uds_internal_handle_io_control ctx)) None;
  mkService UDS_SID_REQUEST_UPLOAD 4 UDS_SESSION_ALL 0
    (Some (uds_internal_handle_request_upload ctx)) None
].

Definition find_service (ctx : ctx_ptr E) (the_sid : Z)
    : M (uds_state E) (option (uds_service_entry E)) :=
  cfg ← config_of ctx;
  user ← match user_services cfg with
         | Some us => array_find (fun e => sid e =? the_sid) (Z.to_nat (user_service_count cfg)) us
         | None => mret None
         end;
  match user with
  | Some e => mret (Some e)
  | None =>
      array_find (fun e => sid e =? the_sid) (length (core_services ctx)) (core_services ctx)
  end.

Definition get_session_bit (session : Z) : Z :=
  if session =? UDS_SESSION_ID_DEFAULT then UDS_SESSION_DEFAULT
  else if session =? UDS_SESSION_ID_PROGRAMMING then UDS_SESSION_PROGRAMMING
  else if session =? UDS_SESSION_ID_EXTENDED then UDS_SESSION_EXTENDED
  else 0.

Definition is_session_supported (c : uds_ctx) (service : uds_service_entry E) : bool :=
  negb (Z.land (session_mask service) (get_session_bit (active_session c)) =? 0).

Definition is_subfunction_supported (service : uds_service_entry E) (sub : Z)
    : M (uds_state E) bool :=
  match sub_mask service with
  | None => mret true
  | Some m =>
      let index := u8 (Z.shiftr sub 3) in
      let bit := u8 (Z.shiftl 1 (Z.land sub 7)) in
      b ← data_at m index;
      mret (negb (Z.land b bit =? 0))
  end.

Definition execute_handler (ctx : ctx_ptr E) (service : uds_service_entry E) (data : list Z)
    (len : Z) : M (uds_state E) Z :=
  h ← fnptr (handler service);
  res ← h data len;
  mwhen (res =? UDS_PENDING) (
    d0 ← data_at data 0;
    uds_send_nrc ctx d0 UDS_NRC_RESPONSE_PENDING ;;
    mod_ctx (set_p2_msg_pending true) ;;
    mod_ctx (set_p2_star_active true) ;;
    cfg ← config_of ctx;
    t ← time_ms cfg;
    mod_ctx (set_p2_timer_start t) ;;
    mod_ctx (set_pending_sid d0)) ;;
  mret res.

(** The checks after the subfunction: length, security, safety, then the handler. *)
Definition handle_request_tail (ctx : ctx_ptr E) (service : uds_service_entry E)
    (the_sid : Z) (data : list Z) (len : Z) : M (uds_state E) unit :=
  if len <? min_len service then uds_send_nrc ctx the_sid UDS_NRC_INCORRECT_LENGTH ;; mret tt
  else
    c ← get_ctx;
    if security_mask service >? security_level c
    then uds_send_nrc ctx the_sid UDS_NRC_SECURITY_ACCESS_DENIED ;; mret tt
    else
      cfg ← config_of ctx;
      safe ← match fn_is_safe cfg with
             | Some g =>
                 c ← get_ctx;
                 ok ← call (g c the_sid data len);
                 emit (EvSafe the_sid ok) ;;
                 mret ok
             | None => mret true
             end;
      if negb safe then uds_send_nrc ctx the_sid UDS_NRC_CONDITIONS_NOT_CORRECT ;; mret tt
      else execute_handler ctx service data len ;; mret tt.

Definition handle_request (ctx : ctx_ptr E) (data : list Z) (len : Z) : M (uds_state E) unit :=
  the_sid ← data_at data 0;
  found ← find_service ctx the_sid;
  match found with
  | None => uds_send_nrc ctx the_sid UDS_NRC_SERVICE_NOT_SUPPORTED ;; mret tt
  | Some service =>
      c ← get_ctx;
      if negb (is_session_supported c service)
      then uds_send_nrc ctx the_sid UDS_NRC_SERVICE_NOT_SUPP_IN_SESS ;; mret tt
      else
        sub ← (if 2 <=? len then d1 ← data_at data 1; mret (Z.land d1 UDS_MASK_SUBFUNCTION)
               else mret 0);
        match sub_mask service with
        | Some _ =>
            if len <? 2 then uds_send_nrc ctx the_sid UDS_NRC_INCORRECT_LENGTH ;; mret tt
            else
              ok ← is_subfunction_supported service sub;
              if negb ok
              then uds_send_nrc ctx the_sid UDS_NRC_SUBFUNCTION_NOT_SUPPORTED ;; mret tt
              else
                d1 ← data_at data 1;
                mod_ctx (set_suppress_pos_resp (negb (Z.land d1 UDS_MASK_SUPPRESS_POS_RESP =? 0))) ;;
                handle_request_tail ctx service the_sid data len
        | None => handle_request_tail ctx service the_sid data len
        end
  end.

(** ** Public API *)

(** [ctx_nn]: the context pointer is not NULL. *)
Definition uds_init (ctx_nn : bool) (config : option (uds_config E)) : M (uds_state E) Z :=
  match config with
  | None => mret UDS_ERR_INVALID_ARG
  | Some cfg =>
      if negb ctx_nn then mret UDS_ERR_INVALID_ARG
      else
        match get_time_ms cfg, fn_tp_send cfg, rx_buffer cfg, tx_buffer cfg with
        | Some _, Some _, Some _, Some _ =>
            mod_ctx (fun _ => zero_ctx) ;;
            mod_ctx (set_active_session UDS_SESSION_ID_DEFAULT) ;;
            mod_ctx (set_security_level 0) ;;
            mod_ctx (set_comm_state 0) ;;
            mod_ctx (set_suppress_pos_resp false) ;;
            mod_ctx (set_rcrrp_count 0) ;;
            mod_ctx (set_p2_ms (if cfg_p2_ms cfg >? 0 then cfg_p2_ms cfg else 50)) ;;
            mod_ctx (set_p2_star_ms (if cfg_p2_star_ms cfg >? 0 then cfg_p2_star_ms cfg else 5000)) ;;
            mwhen (strict_compliance cfg) (
              c ← get_ctx;
              mwhen (p2_ms c <? UDS_P2_MIN_SAFE_MS) (mod_ctx (set_p2_ms UDS_P2_MIN_SAFE_MS)) ;;
              mwhen (p2_star_ms c <? UDS_P2_STAR_MIN_SAFE_MS)
                (mod_ctx (set_p2_star_ms UDS_P2_STAR_MIN_SAFE_MS)) ;;
              uds_internal_log config UDS_LOG_INFO
                "Strict Compliance: Enforcing minimum P2/P2* durations") ;;
            uds_internal_log config UDS_LOG_INFO "UDS Stack Initialized" ;;
            match fn_nvm_load cfg with
            | Some f =>
                c ← get_ctx;
                p ← call (f c 2);
                emit (EvNvmLoad p.1) ;;
                if (length p.2 <=? 2)%nat then
                  let st := write_at 0 p.2 [0; 0] in
                  mwhen (p.1 =? 2) (
                    s0 ← data_at st 0;
                    s1 ← data_at st 1;
                    mod_ctx (set_active_session s0) ;;
                    mod_ctx (set_security_level s1) ;;
                    uds_internal_log config UDS_LOG_INFO "NVM State Loaded")
                else mfault OutOfBounds
            | None => mret tt
            end ;;
            mret UDS_OK
        | _, _, _, _ => mret UDS_ERR_INVALID_ARG
        end
  end.

(** S3 supervision. *)
Definition process_s3 (ctx : ctx_ptr E) (now : Z) : M (uds_state E) unit :=
  c ← get_ctx;
  mwhen (negb (active_session c =? UDS_SESSION_ID_DEFAULT)
         && (u32 (now - last_msg_time c) >? UDS_S3_TIMEOUT_MS)) (
    mod_ctx (set_active_session UDS_SESSION_ID_DEFAULT) ;;
    mod_ctx (set_security_level 0) ;;
    uds_internal_log ctx UDS_LOG_INFO "S3 Timeout: Reverted to Default Session").

(** P2/P2* supervision; [true] when the function returns here. *)
Definition process_p2 (ctx : ctx_ptr E) (cfg : uds_config E) (now : Z) : M (uds_state E) bool :=
  c ← get_ctx;
  if p2_msg_pending c then
    let elapsed := u32 (now - p2_timer_start c) in
    let limit := if p2_star_active c then p2_star_ms c else p2_ms c in
    if limit <=? elapsed then
      if (rcrrp_limit cfg >? 0) && (rcrrp_limit cfg <=? rcrrp_count c) then
        uds_send_nrc ctx (pending_sid c) UDS_NRC_CONDITIONS_NOT_CORRECT ;;
        mod_ctx (set_rcrrp_count 0) ;;
        mret true
      else
        uds_send_nrc ctx (pending_sid c) UDS_NRC_RESPONSE_PENDING ;;
        mod_ctx (fun c0 => set_rcrrp_count (u16 (rcrrp_count c0 + 1)) c0) ;;
        mod_ctx (set_p2_star_active true) ;;
        mod_ctx (set_p2_timer_start now) ;;
        mret false
    else mret false
  else mret false.

Definition periodic_interval (rate : Z) : Z :=
  if rate =? UDS_PERIODIC_RATE_FAST then UDS_PERIODIC_FAST_INTERVAL_MS
  else if rate =? UDS_PERIODIC_RATE_MEDIUM then UDS_PERIODIC_MEDIUM_INTERVAL_MS
  else UDS_PERIODIC_SLOW_INTERVAL_MS.

(** One slot of the 0x2A scheduler. [out_buf] has 8 bytes, of which the
    callback's bytes are initialised. *)
Definition process_periodic_slot (cfg : uds_config E) (now i : Z) : M (uds_state E) unit :=
  c ← get_ctx;
  id ← data_at (periodic_ids c) i;
  mwhen (negb (id =? 0)) (
    due ← data_at (periodic_timers c) i;
    mwhen (due <=? now) (
      f ← fnptr (fn_periodic_read cfg);
      p ← call (f c id UDS_MAX_PERIODIC_MSG_LEN);
      emit (EvPeriodicRead id p.1) ;;
      (if UDS_MAX_PERIODIC_MSG_LEN <? Z.of_nat (length p.2) then mfault OutOfBounds else mret tt) ;;
      mwhen (p.1 >? 0) (
        tx_set cfg 0 id ;;
        (if UDS_MAX_PERIODIC_MSG_LEN <? p.1 then mfault OutOfBounds
         else if Z.of_nat (length p.2) <? p.1 then mfault Uninit else mret tt) ;;
        blk_write (tx_buffer cfg) 1 (take (Z.to_nat p.1) p.2) ;;
        tp_send cfg (u16 (p.1 + 1)) ;;
        mret tt) ;;
      rate ← data_at (periodic_rates c) i;
      mod_ctx (fun c0 => set_periodic_timers
        (<[Z.to_nat i := u32 (now + periodic_interval rate)]> (periodic_timers c0)) c0))).

Definition process_periodic (cfg : uds_config E) (now : Z) : M (uds_state E) unit :=
  c ← get_ctx;
  mwhen (periodic_count c >? 0) (mfor (seqZ 0 8) (process_periodic_slot cfg now)).

Definition lock (cfg : uds_config E) : M (uds_state E) unit :=
  mutex_op (fn_mutex_lock cfg) (mutex_handle cfg) EvLock.
Definition unlock (cfg : uds_config E) : M (uds_state E) unit :=
  mutex_op (fn_mutex_unlock cfg) (mutex_handle cfg) EvUnlock.

Definition uds_process (ctx : ctx_ptr E) : M (uds_state E) unit :=
  match ctx with
  | None => mret tt
  | Some cfg =>
      lock cfg ;;
      now ← time_ms cfg;
      process_s3 ctx now ;;
      returned ← process_p2 ctx cfg now;
      if (returned : bool) then mret tt
      else
        process_periodic cfg now ;;
        unlock cfg
  end.

(** [data] is [None] for a NULL pointer. *)
Definition uds_client_request (ctx : ctx_ptr E) (the_sid : Z) (data : option (list Z)) (len : Z)
    (callback : option N) : M (uds_state E) Z :=
  match ctx with
  | None => mret UDS_ERR_NOT_INIT
  | Some cfg =>
      match tx_buffer cfg with
      | None => mret UDS_ERR_NOT_INIT
      | Some _ =>
          if (len >? 0) && (match data with None => true | Some _ => false end)
          then mret UDS_ERR_INVALID_ARG
          else if len + 1 >? tx_buffer_size cfg then mret UDS_ERR_BUFFER_TOO_SMALL
          else
            lock cfg ;;
            mod_ctx (set_pending_sid the_sid) ;;
            mod_ctx (set_client_cb callback) ;;
            tx_set cfg 0 the_sid ;;
            match data with
            | Some d =>
                mwhen (len >? 0) (
                  if len <=? Z.of_nat (length d)
                  then blk_write (tx_buffer cfg) 1 (take (Z.to_nat len) d)
                  else mfault OutOfBounds)
            | None => mret tt
            end ;;
            result ← tp_send cfg (u16 (len + 1));
            unlock cfg ;;
            mret result
      end
  end.

(** Whether an SDU answers the request the client side is waiting on. *)
Definition is_client_response (c : uds_ctx) (data : list Z) (the_sid len : Z)
    : M (uds_state E) bool :=
  let is_pos := the_sid =? u8 (Z.lor (pending_sid c) UDS_RESPONSE_OFFSET) in
  is_neg ← (if (the_sid =? UDS_NRC_SERVICE_NOT_SUPP_IN_SESS) && (2 <=? len)
            then d1 ← data_at data 1; mret (d1 =? pending_sid c) else mret false);
  mret (is_pos || is_neg).

(** Delivery of a response to the client callback. *)
Definition deliver_response (c : uds_ctx) (data : list Z) (the_sid len : Z)
    : M (uds_state E) unit :=
  match client_cb c with
  | Some cb =>
      payload ← data_from data 1;
      client_call cb the_sid payload (u16 (len - 1)) ;;
      emit (EvClientCb cb the_sid (take (Z.to_nat (u16 (len - 1))) payload)) ;;
      mod_ctx (set_client_cb None)
  | None => mret tt
  end ;;
  mod_ctx (set_pending_sid 0).

(** The body of [uds_input_sdu] between the lock and the unlocks. *)
Definition input_sdu_body (ctx : ctx_ptr E) (cfg : uds_config E) (data : list Z) (len : Z)
    : M (uds_state E) unit :=
  the_sid ← data_at data 0;
  t ← time_ms cfg;
  mod_ctx (set_last_msg_time t) ;;
  c ← get_ctx;
  if p2_msg_pending c then
    quiet ← (if (the_sid =? UDS_SID_TESTER_PRESENT) && (2 <=? len)
             then d1 ← data_at data 1; mret (negb (Z.land d1 0x80 =? 0)) else mret false);
    if (quiet : bool) then mret tt
    else uds_send_nrc ctx the_sid UDS_NRC_BUSY_REPEAT_REQUEST ;; mret tt
  else
    answered ← (if negb (pending_sid c =? 0) then is_client_response c data the_sid len
                else mret false);
    if (answered : bool) then deliver_response c data the_sid len
    else
      t2 ← time_ms cfg;
      mod_ctx (set_p2_timer_start t2) ;;
      mod_ctx (set_p2_msg_pending false) ;;
      mod_ctx (set_p2_star_active false) ;;
      mod_ctx (set_rcrrp_count 0) ;;
      handle_request ctx data len.

Definition uds_input_sdu (ctx : ctx_ptr E) (data : option (list Z)) (len : Z)
    : M (uds_state E) unit :=
  match ctx with
  | None => mret tt
  | Some cfg =>
      lock cfg ;;
      match data with
      | Some d => if len =? 0 then unlock cfg else input_sdu_body ctx cfg d len ;; unlock cfg
      | None => unlock cfg
      end
  end.
End Core.
