(* ===== verification/CoreDispatch.v ===== *)
(** * Dispatch: the request pipeline of [src/core/uds_core.c]

    Every entry of the service table keeps its [HandlerSpec]; the pipeline of
    [handle_request] against the reference order of its checks; what one
    request can send and change. *)

From S2P Require Import Prelude Monad Types Machine CoreBase Contract HandlerLogic.
From S2P Require Import SvcSession SvcSecurity SvcMaintenance SvcData SvcPeriodic SvcFlash SvcIo SvcMem Core.
From stdpp Require Import base gmap list strings numbers.

Open Scope Z_scope.

(** The application's own services keep the same contract as the core's. *)
Class UsersOk {E} (env_ok : E -> Prop) (tb : N) (cfg : uds_config E) : Prop := {
  users_count us : user_services cfg = Some us -> 0 <= user_service_count cfg <= Z.of_nat (length us);
  users_spec us : user_services cfg = Some us ->
    Forall (ServiceOk env_ok tb cfg) (take (Z.to_nat (user_service_count cfg)) us)
}.

(** ** Reference order of the checks *)

(** The service a request is for: the application's, else the core's. *)
Definition service_for {E} (cfg : uds_config E) (the_sid : Z) : option (uds_service_entry E) :=
  let user := match user_services cfg with
              | Some us => List.find (fun e => sid e =? the_sid) (take (Z.to_nat (user_service_count cfg)) us)
              | None => None
              end in
  match user with
  | Some e => Some e
  | None => List.find (fun e => sid e =? the_sid) (core_services (Some cfg))
  end.

(** Bit [sub] of a 128-bit mask in 16 bytes. *)
Definition mask_bit (m : list Z) (sub : Z) : bool :=
  match m !! Z.to_nat (sub / 8) with Some b => Z.testbit b (sub mod 8) | None => false end.

(** The masks of the dispatcher against the types the header declares: every reset
    type and no other subfunction passes, communication control also takes the two
    types with enhanced addressing, 4 and 5; of the reports of 0x19 five pass. *)
Lemma mask_bit_range (m : list Z) (P : Z -> bool) sub :
  forallb (fun k => Bool.eqb (mask_bit m k) (P k)) (seqZ 0 128) = true -> 0 <= sub < 128 ->
  mask_bit m sub = P sub.
Proof.
  intros H Hs. rewrite forallb_forall in H. apply eqb_prop, H, list_elem_of_In, elem_of_seqZ. lia.
Qed.

Lemma reset_types_dispatched sub :
  0 <= sub < 128 -> mask_bit mask_sub_11 sub = true <-> exists t, reset_code t = sub.
Proof.
  intros Hs. rewrite (mask_bit_range _ (fun k => (1 <=? k) && (k <=? 3))) by by vm_compute. split.
  - intros H. bool_prop. destruct (decide (sub = 1)) as [->|]; [by exists UDS_RESET_HARD|].
    destruct (decide (sub = 2)) as [->|]; [by exists UDS_RESET_SOFT|]. exists UDS_RESET_KEY_OFF_ON. cbn. lia.
  - by intros [[] <-].
Qed.

Lemma dtc_subfunctions_dispatched sub :
  0 <= sub < 128 -> mask_bit mask_sub_19 sub = true <-> sub ∈ [0; 1; 2; 4; 6].
Proof.
  intros Hs. rewrite (mask_bit_range _ (fun k => bool_decide (k ∈ [0; 1; 2; 4; 6]))) by by vm_compute.
  apply bool_decide_eq_true.
Qed.

Lemma comm_control_types_dispatched sub :
  0 <= sub < 128 ->
  mask_bit mask_sub_28 sub = true <-> (exists t, comm_control_code t = sub) \/ sub = 4 \/ sub = 5.
Proof.
  intros Hs. rewrite (mask_bit_range _ (fun k => k <=? 5)) by by vm_compute. split.
  - intros H. bool_prop. destruct (decide (4 <= sub)); [lia|]. left.
    destruct (decide (sub = 0)) as [->|]; [by exists UDS_COMM_ENABLE_RX_TX|].
    destruct (decide (sub = 1)) as [->|]; [by exists UDS_COMM_ENABLE_RX_DISABLE_TX|].
    destruct (decide (sub = 2)) as [->|]; [by exists UDS_COMM_DISABLE_RX_ENABLE_TX|].
    exists UDS_COMM_DISABLE_RX_TX. cbn. lia.
  - by intros [[[] <-]|[->| ->]].
Qed.

(** The first check a request fails, in order, if any: service, session,
    subfunction, length, security. *)
Definition first_failure {E} (cfg : uds_config E) (c : uds_ctx) (data : list Z) (len : Z) : option Z :=
  match service_for cfg (nth 0 data 0) with
  | None => Some UDS_NRC_SERVICE_NOT_SUPPORTED
  | Some e =>
      if Z.land (session_mask e) (get_session_bit (active_session c)) =? 0
      then Some UDS_NRC_SERVICE_NOT_SUPP_IN_SESS
      else if match sub_mask e with Some _ => len <? 2 | None => false end
      then Some UDS_NRC_INCORRECT_LENGTH
      else if match sub_mask e with Some m => negb (mask_bit m (Z.land (nth 1 data 0) 127)) | None => false end
      then Some UDS_NRC_SUBFUNCTION_NOT_SUPPORTED
      else if len <? min_len e then Some UDS_NRC_INCORRECT_LENGTH
      else if security_level c <? security_mask e then Some UDS_NRC_SECURITY_ACCESS_DENIED
      else None
  end.

(** The suppress flag the handler sees: bit 7 for a service with subfunctions,
    what the context holds otherwise. *)
Definition suppress_on_entry {E} (e : uds_service_entry E) (c : uds_ctx) (data : list Z) : uds_ctx :=
  match sub_mask e with
  | Some _ => set_suppress_pos_resp (bit7 data) c
  | None => c
  end.

(** What a request may leave behind, for the SID it names: at most one message,
    an answer to it, and none only where a positive response is suppressed; no
    mutex operation; access rights moved only by 0x10 and by an accepted key. *)
Record request_post {E} (env_ok : E -> Prop) (tb : N) (cfg : uds_config E) (sd : Z) (suppressed : bool)
    (s s' : uds_state E) : Prop := {
  rp_inv : uds_inv env_ok tb cfg s';
  rp_trace : exists evs, trace s' = trace s ++ evs /\ mutex_ops evs = [] /\
    ((exists b, sends evs = [b] /\ response_to sd b) \/ (sends evs = [] /\ suppressed = true)) /\
    access_step sd (ctx s) (ctx s') evs
}.

(** Whether a positive response to the request would be suppressed. *)
Definition suppressed_on_entry {E} (cfg : uds_config E) (c : uds_ctx) (data : list Z) : bool :=
  match service_for cfg (nth 0 data 0) with
  | Some e => suppress_pos_resp (suppress_on_entry e c data)
  | None => false
  end.

Lemma bit7_nth data :
  2 <= Z.of_nat (length data) ->
  bit7 data = negb (Z.land (nth 1 data 0) UDS_MASK_SUPPRESS_POS_RESP =? 0).
Proof. unfold bit7. destruct data as [|a [|b data]]; cbn; (lia || done). Qed.

Section Dispatch.
Context {E : Type} (env_ok : E -> Prop) (tb : N) (cfg : uds_config E).
Context `{Hok : !ConfigOk env_ok tb cfg}.

Ltac svc_tac :=
  split; cbn [handler sid min_len sub_mask];
    [eexists; split; [reflexivity|]; apply _ | unfold is_true; lia | by intros ? [= <-]].

Lemma core_services_ok : Forall (ServiceOk env_ok tb cfg) (core_services (Some cfg)).
Proof. unfold core_services. repeat (apply Forall_cons_2; [svc_tac|]). apply Forall_nil_2. Qed.

Context `{Hus : !UsersOk env_ok tb cfg}.

Lemma find_service_run the_sid s :
  find_service (Some cfg) the_sid s = Ok (service_for cfg the_sid, s).
Proof.
  unfold find_service, service_for. rewrite (bind_ok _ _ s cfg s) by done.
  destruct (user_services cfg) as [us|] eqn:Hu.
  - pose proof (users_count us Hu). erewrite bind_ok by (apply array_find_run; lia).
    destruct (List.find _ _); [done|]. cbv beta iota. rewrite array_find_run by lia.
    by rewrite take_ge by lia.
  - erewrite bind_ok by done. cbv beta iota. rewrite array_find_run by lia. by rewrite take_ge by lia.
Qed.

Lemma service_for_ok the_sid e :
  service_for cfg the_sid = Some e -> sid e = the_sid /\ ServiceOk env_ok tb cfg e.
Proof.
  assert (Hf : forall l, Forall (ServiceOk env_ok tb cfg) l ->
    List.find (fun e => sid e =? the_sid) l = Some e -> sid e = the_sid /\ ServiceOk env_ok tb cfg e).
  { intros l Hl H. apply find_some in H as [Hin Hs]. split; [by apply Z.eqb_eq|].
    by apply (proj1 (Forall_forall _ _) Hl). }
  unfold service_for. destruct (user_services cfg) as [us|] eqn:Hu.
  - destruct (List.find _ (take _ us)) as [e'|] eqn:He.
    + intros [= <-]. apply (Hf _ (users_spec us Hu)). done.
    + apply Hf, core_services_ok.
  - apply Hf, core_services_ok.
Qed.

Lemma subfunction_run (e : uds_service_entry E) m sub (s : uds_state E) :
  sub_mask e = Some m -> length m = 16%nat -> 0 <= sub < 128 ->
  is_subfunction_supported e sub s = Ok (mask_bit m sub, s).
Proof.
  intros Hm Hl Hs. unfold is_subfunction_supported, mask_bit. rewrite Hm, Z.shiftr_div_pow2 by lia.
  change (2 ^ 3) with 8. rewrite (u8_small (sub / 8)) by zlia.
  destruct (lookup_lt_is_Some_2 m (Z.to_nat (sub / 8))) as [b Hb]; [zlia|].
  erewrite bind_ok; [|unfold data_at; rewrite (proj2 (Z.leb_le _ _)) by zlia; by rewrite Hb].
  rewrite Hb. change 7 with (Z.ones 3). rewrite land_mask, Z.shiftl_1_l by lia. change (2 ^ 3) with 8.
  assert (2 ^ (sub mod 8) < 2 ^ 8) by (apply Z.pow_lt_mono_r; zlia).
  rewrite u8_small by (split; [by apply Z.pow_nonneg|done]).
  by rewrite land_pow2 by zlia.
Qed.

Lemma data_at_nth (data : list Z) i (s : uds_state E) :
  0 <= i < Z.of_nat (length data) -> data_at data i s = Ok (nth (Z.to_nat i) data 0, s).
Proof.
  intros Hi. unfold data_at. rewrite (proj2 (Z.leb_le _ _)) by lia.
  destruct (lookup_lt_is_Some_2 data (Z.to_nat i)) as [b Hb]; [lia|].
  rewrite Hb. by rewrite (nth_lookup_Some _ _ _ _ Hb).
Qed.

(** What is left of a request once the checks have passed: the application's
    safety gate, then the handler. *)
Definition gated_handler (e : uds_service_entry E) (the_sid : Z) (data : list Z) (len : Z)
    : M (uds_state E) unit :=
  safe ← match fn_is_safe cfg with
         | Some g => c ← get_ctx; ok ← call (g c the_sid data len); emit (EvSafe the_sid ok) ;; mret ok
         | None => mret true
         end;
  if negb safe then uds_send_nrc (Some cfg) the_sid UDS_NRC_CONDITIONS_NOT_CORRECT ;; mret tt
  else execute_handler (Some cfg) e data len ;; mret tt.

Lemma wp_request_tail e the_sid data len (Q : unit -> uds_state E -> Prop) s :
  (if len <? min_len e
   then wp (uds_send_nrc (Some cfg) the_sid UDS_NRC_INCORRECT_LENGTH) (fun _ => Q tt) s
   else if security_level (ctx s) <? security_mask e
   then wp (uds_send_nrc (Some cfg) the_sid UDS_NRC_SECURITY_ACCESS_DENIED) (fun _ => Q tt) s
   else wp (gated_handler e the_sid data len) Q s) ->
  wp (handle_request_tail (Some cfg) e the_sid data len) Q s.
Proof.
  intros H. unfold handle_request_tail.
  destruct (len <? min_len e); [apply wp_bind; eapply wp_mono; [exact H|done]|].
  apply wp_bind, wp_get_ctx. rewrite Z.gtb_ltb.
  destruct (_ <? _); [apply wp_bind; eapply wp_mono; [exact H|done]|].
  apply wp_bind, wp_config_of. exact H.
Qed.

(** The subfunction byte, where the request has one. *)
Lemma wp_subfunction data len (Q : Z -> uds_state E -> Prop) s :
  1 <= len <= Z.of_nat (length data) ->
  Q (if 2 <=? len then Z.land (nth 1 data 0) 127 else 0) s ->
  wp (if 2 <=? len then d1 ← data_at data 1; mret (Z.land d1 UDS_MASK_SUBFUNCTION) else mret 0) Q s.
Proof.
  intros Hlen HQ. destruct (Z.leb_spec 2 len); [|by apply wp_ret].
  apply wp_bind, (run_wp _ _ _ _ _ (data_at_nth data 1 s ltac:(lia))). by apply wp_ret.
Qed.

(** The pipeline is the reference order of checks followed by the handler. *)
Lemma wp_handle_request data len (Q : unit -> uds_state E -> Prop) s :
  1 <= len <= Z.of_nat (length data) ->
  (forall nrc c1, first_failure cfg (ctx s) data len = Some nrc ->
     (c1 = ctx s \/ exists e, service_for cfg (nth 0 data 0) = Some e /\
        c1 = suppress_on_entry e (ctx s) data) ->
     wp (uds_send_nrc (Some cfg) (nth 0 data 0) nrc) (fun _ => Q tt) (set_ctx (fun _ => c1) s)) ->
  (forall e, first_failure cfg (ctx s) data len = None -> service_for cfg (nth 0 data 0) = Some e ->
     wp (gated_handler e (nth 0 data 0) data len) Q (set_ctx (fun c => suppress_on_entry e c data) s)) ->
  wp (handle_request (Some cfg) data len) Q s.
Proof.
  intros Hlen Hrej Hgo.
  assert (Hid : s = set_ctx (fun _ => ctx s) s) by by destruct s.
  assert (Hid2 : s = set_ctx (fun c => c) s) by by destruct s.
  set (the_sid := nth 0 data 0) in *. unfold first_failure in *. fold the_sid in Hrej, Hgo.
  assert (Hr : forall nrc, first_failure cfg (ctx s) data len = Some nrc ->
     wp (uds_send_nrc (Some cfg) the_sid nrc ;; mret tt) Q s).
  { intros nrc Hn. apply wp_bind. rewrite Hid at 1. eapply wp_mono; [apply Hrej; [done|by left]|done]. }
  unfold handle_request.
  apply wp_bind, (run_wp _ _ _ _ _ (data_at_nth data 0 s ltac:(lia))).
  change (nth (Z.to_nat 0) data 0) with (nth 0 data 0). fold the_sid.
  apply wp_bind, (run_wp _ _ _ _ _ (find_service_run the_sid s)).
  unfold first_failure in Hr. fold the_sid in Hr. 
  destruct (service_for cfg the_sid) as [e|] eqn:He; [|by apply Hr].
  apply wp_bind, wp_get_ctx. unfold is_session_supported. rewrite negb_involutive.
  destruct (Z.land (session_mask e) _ =? 0); [by apply Hr|]. apply wp_bind.
  apply wp_subfunction; [done|].
  pose proof (service_for_ok _ _ He) as [_ Hsvc].
  destruct (sub_mask e) as [mk|] eqn:Hmk.
  - unfold suppress_on_entry in Hgo, Hrej.
    destruct (Z.ltb_spec len 2) as [Hl2|Hl2]; [by apply Hr|].
    rewrite (proj2 (Z.leb_le 2 len)) by lia.
    assert (0 <= Z.land (nth 1 data 0) 127 < 128) by (rewrite land_127; zlia).
    unfold UDS_MASK_SUBFUNCTION. change (nth (Z.to_nat 1) data 0) with (nth 1 data 0).
    apply wp_bind, (run_wp _ _ _ _ _ (subfunction_run e mk (Z.land (nth 1 data 0) 127) s Hmk (svc_mask _ _ _ _ Hsvc mk Hmk) ltac:(lia))).
    destruct (mask_bit mk _) eqn:Hbit; cbn [negb] in *; [|by apply Hr].
    apply wp_bind, (run_wp _ _ _ _ _ (data_at_nth data 1 s ltac:(lia))).
    change (nth (Z.to_nat 1) data 0) with (nth 1 data 0). rewrite <- (bit7_nth data) by lia. apply wp_bind, wp_mod_ctx, wp_request_tail.
    specialize (Hgo e). rewrite Hmk in Hgo.
    cbn [ctx set_ctx security_level set_suppress_pos_resp].
    assert (Hc1 : exists e0, Some e = Some e0 /\ set_suppress_pos_resp (bit7 data) (ctx s) =
      match sub_mask e0 with Some _ => set_suppress_pos_resp (bit7 data) (ctx s) | None => ctx s end)
      by (exists e; by rewrite Hmk).
    destruct (len <? min_len e); [apply (Hrej _ _ eq_refl); by right|].
    destruct (security_level (ctx s) <? security_mask e); [apply (Hrej _ _ eq_refl); by right|].
    by apply Hgo.
  - apply wp_request_tail. specialize (Hgo e). unfold suppress_on_entry in Hgo. rewrite Hmk in Hgo.
    rewrite Hid. cbn [ctx set_ctx].
    destruct (len <? min_len e); [apply Hrej; [done|by left]|].
    destruct (security_level (ctx s) <? security_mask e); [apply Hrej; [done|by left]|].
    rewrite <- Hid. rewrite Hid2. by apply Hgo.
Qed.

Lemma access_step_same sd c c' evs :
  active_session c' = active_session c -> security_level c' = security_level c ->
  access_step sd c c' evs.
Proof. by split; left. Qed.

(** Events before the handler's and changes of other fields keep an access step. *)
Lemma access_step_frame sd c1 c2 c1' c2' evs evs1 evs2 :
  access_step sd c1 c1' evs ->
  active_session c2 = active_session c1 -> security_level c2 = security_level c1 ->
  active_session c2' = active_session c1' -> security_level c2' = security_level c1' ->
  access_step sd c2 c2' (evs1 ++ evs ++ evs2).
Proof.
  intros [H1 H2] E1 E2 E3 E4. unfold access_step. rewrite E1, E2, E3, E4. split; [done|].
  destruct H2 as [?|[?|[? [key Hk]]]]; [by left|by right; left|].
  right; right. split; [done|]. exists key.
  apply elem_of_app. right. apply elem_of_app. by left.
Qed.

(** A rejection sends its negative response and nothing else. *)
Lemma wp_reject sd nrc supp s :
  uds_inv env_ok tb cfg s ->
  wp (uds_send_nrc (Some cfg) sd nrc) (fun _ s' =>
    request_post env_ok tb cfg sd supp s s' /\ ctx s' = nrc_ctx sd nrc (ctx s) /\
    exists evs, trace s' = trace s ++ evs /\ rejected sd nrc evs) s.
Proof.
  intros Hinv. xopen cfg Hinv. hsteps. split; [|split; [done|eexists; split; [done|by eexists]]].
  split; [apply inv_close; [ctx_ok_tac|done..|lia]|].
  eexists; split; [done|]. split; [done|]. split; [left; eexists; split; [done|auto with uds]|].
  by apply access_step_same.
Qed.

(** Running a handler: its promise, plus 0x78 where it defers. *)
Lemma wp_execute_handler e data len s :
  ServiceOk env_ok tb cfg e -> Forall is_byte data -> data !! 0%nat = Some (sid e) ->
  min_len e <= len <= Z.of_nat (length data) -> len < 65536 ->
  (forall m, sub_mask e = Some m -> 2 <= len /\ suppress_pos_resp (ctx s) = bit7 data) ->
  uds_inv env_ok tb cfg s ->
  wp (execute_handler (Some cfg) e data len)
    (fun _ s' => request_post env_ok tb cfg (sid e) (suppress_pos_resp (ctx s)) s s') s.
Proof.
  intros [[h [Hh Hspec]] Hmin _] Hb Hd Hlen Hlt Hsub Hinv. unfold execute_handler.
  pose proof (Forall_lookup_1 _ _ _ _ Hb Hd) as Hsidb.
  apply wp_bind, (wp_fnptr _ h); [done|]. apply wp_bind.
  eapply wp_mono; [apply Hspec; try done; intros Hm; destruct (sub_mask e) eqn:Hmk; [by eapply Hsub|done]|].
  intros r s1 [Hinv1 (evs & Htr & Hmx & Hans & Hacc)].
  apply wp_bind, wp_when; intros Hr; bool_prop.
  - apply wp_bind, wp_data_at with (sid e); [lia|done|]. apply wp_bind.
    eapply wp_mono; [by apply (wp_reject (sid e) UDS_NRC_RESPONSE_PENDING false)|].
    intros _ s2 ([Hinv2 _] & Hc2 & evs2 & Htr2 & r2 & Hr2 & ->).
    apply inv_open in Hinv2 as (c & m & en & tr & l & -> & Hc & Hm & He & Hl & Hml).
    cbn [ctx trace] in *. hsteps. ctx_cbn.
    split; [apply inv_close; [ctx_ok_tac|done..]|].
    exists (evs ++ [EvSend (negative (sid e) UDS_NRC_RESPONSE_PENDING) r2]).
    cbn [trace ctx]. rewrite Htr2, Htr. unfold UDS_PENDING in *. split; [by rewrite app_assoc|].
    split; [by rewrite mutex_ops_app, Hmx|]. split.
    + left. eexists. destruct Hans as [(b & _ & _ & ?)|[(_ & _ & ?)|[Hs _]]]; [exfalso; lia..|].
      rewrite sends_app, Hs. split; [done|auto with uds].
    + eapply (access_step_frame _ _ _ _ _ _ []); [exact Hacc|done..| |]; ctx_cbn; by rewrite Hc2.
  - apply wp_ret. split; [done|]. exists evs. split; [done|]. split; [done|]. split; [|done].
    unfold answered, UDS_PENDING in *. destruct Hans as [(b & ? & ? & ?)|[(? & ? & ?)|[_ ?]]]; [eauto..|lia].
Qed.

(** The safety gate, then the handler. *)
Lemma wp_gated_handler e data len s :
  ServiceOk env_ok tb cfg e -> Forall is_byte data -> data !! 0%nat = Some (sid e) ->
  min_len e <= len <= Z.of_nat (length data) -> len < 65536 ->
  (forall m, sub_mask e = Some m -> 2 <= len /\ suppress_pos_resp (ctx s) = bit7 data) ->
  uds_inv env_ok tb cfg s ->
  wp (gated_handler e (sid e) data len)
    (fun _ s' => request_post env_ok tb cfg (sid e) (suppress_pos_resp (ctx s)) s s') s.
Proof.
  intros He Hb Hd Hlen Hlt Hsub Hinv. unfold gated_handler. apply wp_bind.
  assert (Hgo : forall (safe : bool) s1 evs, uds_inv env_ok tb cfg s1 -> ctx s1 = ctx s ->
    trace s1 = trace s ++ evs -> sends evs = [] -> mutex_ops evs = [] ->
    wp (if negb safe then uds_send_nrc (Some cfg) (sid e) UDS_NRC_CONDITIONS_NOT_CORRECT ;; mret tt
        else execute_handler (Some cfg) e data len ;; mret tt)
      (fun _ s' => request_post env_ok tb cfg (sid e) (suppress_pos_resp (ctx s)) s s') s1).
  { intros safe s1 evs Hinv1 Hc1 Ht1 Hs1 Hm1.
    assert (Hw : forall s', request_post env_ok tb cfg (sid e) (suppress_pos_resp (ctx s)) s1 s' ->
      request_post env_ok tb cfg (sid e) (suppress_pos_resp (ctx s)) s s').
    { intros s' [Hi (evs' & Ht & Hm & Hs & Ha)]. split; [done|]. exists (evs ++ evs').
      split; [by rewrite Ht, Ht1, app_assoc|]. rewrite mutex_ops_app, sends_app, Hm1, Hs1, Hm.
      split; [done|]. split; [done|].
      rewrite <- (app_nil_r evs'). rewrite Hc1 in Ha. by eapply access_step_frame. }
    destruct safe; cbn [negb]; apply wp_bind.
    - eapply wp_mono; [by apply wp_execute_handler; rewrite ?Hc1|]. intros ? s' H.
      apply wp_ret, Hw. by rewrite <- Hc1.
    - eapply wp_mono; [by apply wp_reject|]. intros _ s' [H _]. by apply wp_ret, Hw. }
  destruct (fn_is_safe cfg) as [g|] eqn:Hg.
  - destruct s as [c m en tr]. destruct Hinv as [Hic Him Hie]. cbn [ctx mem env trace] in *.
    apply wp_bind, wp_get_ctx, wp_bind. cbn [ctx].
    eapply wp_cb; [eapply ok_safe; eassumption|done|]. intros ok en' _ Hen'.
    apply wp_bind, wp_emit, wp_ret. state_cbn.
    eapply Hgo; done.
  - apply wp_ret. eapply Hgo; [done..|by rewrite app_nil_r| |]; done.
Qed.

(** What remains once the checks have passed. *)
Lemma wp_passed_request e data len s :
  uds_inv env_ok tb cfg s -> Forall is_byte data -> 1 <= len <= Z.of_nat (length data) -> len < 65536 ->
  first_failure cfg (ctx s) data len = None -> service_for cfg (nth 0 data 0) = Some e ->
  wp (gated_handler e (nth 0 data 0) data len)
    (fun _ s' => request_post env_ok tb cfg (nth 0 data 0) (suppressed_on_entry cfg (ctx s) data) s s')
    (set_ctx (fun c => suppress_on_entry e c data) s).
Proof.
  intros Hinv Hb Hlen Hlt Hff He. unfold first_failure, suppressed_on_entry in *. rewrite He in *.
  destruct (service_for_ok _ _ He) as [Hs Hok'].
  destruct (_ =? 0); [done|]. destruct (match sub_mask e with Some _ => len <? 2 | None => false end) eqn:H2; [done|].
  destruct (match sub_mask e with Some _ => negb _ | None => false end); [done|].
  destruct (len <? min_len e) eqn:Hm; [done|]. clear Hff. bool_prop.
  assert (Hd : data !! 0%nat = Some (sid e)) by (rewrite Hs; destruct data; [cbn in *; lia|done]).
  rewrite <- Hs. eapply wp_mono; [apply wp_gated_handler; try done; try lia|].
  - intros mk Hmk. unfold suppress_on_entry. rewrite Hmk in *. bool_prop. split; [lia|done].
  - destruct Hinv as [Hc Hm1 He1]. split; [|done|done].
    unfold suppress_on_entry; cbn. destruct (sub_mask e); [ctx_ok_tac|done].
  - cbn [ctx set_ctx]. intros _ s' [Hi (evs & Ht & Hmx & Hsd & Ha)]. split; [done|].
    exists evs. split; [done|]. split; [done|]. split; [done|].
    unfold suppress_on_entry in Ha. by destruct (sub_mask e).
Qed.

(** C6: handle_request applies its checks in the order service, session, subfunction
    length, subfunction mask, length, security: the first that fails determines the only
    message sent, its negative response code, and leaves session and security alone; a
    request that passes them all reaches exactly the handler registered for it (the
    application's table first), with the suppress flag set from bit 7, unless the
    application's safety gate fn_is_safe, asked last, refuses it with 0x22. *)
Theorem request_check_order data len s :
  uds_inv env_ok tb cfg s -> Forall is_byte data -> 1 <= len <= Z.of_nat (length data) -> len < 65536 ->
  match first_failure cfg (ctx s) data len with
  | Some nrc => wp (handle_request (Some cfg) data len) (fun _ s' =>
      active_session (ctx s') = active_session (ctx s) /\
      security_level (ctx s') = security_level (ctx s) /\
      exists evs, trace s' = trace s ++ evs /\ rejected (nth 0 data 0) nrc evs) s
  | None => exists e, service_for cfg (nth 0 data 0) = Some e /\
      handle_request (Some cfg) data len s =
      gated_handler e (nth 0 data 0) data len (set_ctx (fun c => suppress_on_entry e c data) s)
  end.
Proof.
  intros Hinv Hb Hlen Hlt. destruct (first_failure _ _ _ _) as [nrc|] eqn:Hff.
  - apply wp_handle_request; [done| |by rewrite Hff].
    intros nrc' c1 Hff' Hc1. rewrite Hff in Hff'. injection Hff' as <-.
    assert (Hsame : active_session c1 = active_session (ctx s) /\
      security_level c1 = security_level (ctx s) /\ ctx_ok c1).
    { pose proof (inv_ctx _ _ _ _ Hinv). destruct Hc1 as [->|(e & _ & ->)]; [done|].
      unfold suppress_on_entry. destruct (sub_mask e); split_and!; try done. ctx_ok_tac. }
    destruct Hsame as (H1 & H2 & H3).
    eapply wp_mono; [apply (wp_reject _ _ false); destruct Hinv; by split|].
    intros _ s' (_ & Hc' & Hev). rewrite Hc'. by cbn.
  - destruct (service_for cfg (nth 0 data 0)) as [e|] eqn:He;
      [|unfold first_failure in Hff; by rewrite He in Hff].
    exists e. split; [done|].
    pose proof (wp_passed_request e data len s Hinv Hb Hlen Hlt Hff He) as Hg.
    assert (Hw : wp (handle_request (Some cfg) data len) (fun u s' =>
      gated_handler e (nth 0 data 0) data len (set_ctx (fun c => suppress_on_entry e c data) s) = Ok (u, s')) s).
    { apply wp_handle_request; [done|by rewrite Hff|]. intros e' _ He'. rewrite He in He'.
      injection He' as <-. unfold wp in *. by destruct (gated_handler _ _ _ _ _) as [[? ?]|]. }
    unfold wp in Hw. by destruct (handle_request _ _ _ _) as [[? ?]|].
Qed.

(** The effect of a request, for the entry points that hand one over. *)
Lemma request_ok data len s :
  uds_inv env_ok tb cfg s -> Forall is_byte data -> 1 <= len <= Z.of_nat (length data) -> len < 65536 ->
  wp (handle_request (Some cfg) data len)
    (fun _ s' => request_post env_ok tb cfg (nth 0 data 0) (suppressed_on_entry cfg (ctx s) data) s s') s.
Proof.
  intros Hinv Hb Hlen Hlt. apply wp_handle_request; [done| |].
  - intros nrc c1 Hff Hc1. eapply wp_mono; [apply wp_reject|].
    + destruct Hinv as [Hc Hm He]. split; [|done|done]. cbn [set_ctx ctx].
      destruct Hc1 as [->|(e & _ & ->)]; [done|]. unfold suppress_on_entry.
      destruct (sub_mask e); [ctx_ok_tac|done].
    + intros _ s' [[Hi (evs & Ht & Hmx & Hs & Ha)] _]. split; [done|]. exists evs.
      split; [done|]. split; [done|]. split; [done|].
      rewrite <- (app_nil_r evs). eapply (access_step_frame _ _ _ _ _ _ []); [exact Ha|..]; try done.
      all: destruct Hc1 as [->|(e & _ & ->)]; [done|]; unfold suppress_on_entry; by destruct (sub_mask e).
  - intros e Hff He. by apply wp_passed_request.
Qed.

(** When a handler defers its answer, the client gets one 0x78 for the service, and
    the context records the pending service, the start time the clock shows, and the
    extended timeout; nothing else of what the handler left changes. *)
Theorem response_pending_opens_supervision entry h data len sd s s1 :
  handler entry = Some h -> h data len s = Ok (UDS_PENDING, s1) -> uds_inv env_ok tb cfg s1 ->
  data !! 0%nat = Some sd ->
  wp (execute_handler (Some cfg) entry data len) (fun r s' => r = UDS_PENDING /\
    (exists e t, env_ok e /\ clock_reads cfg e t /\
       ctx s' = set_pending_sid sd (set_p2_timer_start t
                  (set_p2_star_active true (set_p2_msg_pending true (ctx s1))))) /\
    exists evs, trace s' = trace s1 ++ evs /\ rejected sd UDS_NRC_RESPONSE_PENDING evs) s.
Proof.
  intros Hh Hrun Hinv Hd. xopen cfg Hinv. unfold execute_handler.
  apply wp_bind, (wp_fnptr _ h); [done|]. apply wp_bind, (run_wp _ _ _ _ _ Hrun).
  apply wp_bind, wp_when; [|done]. intros _. hsteps. split; [done|]. split.
  - exists e', t. split; [done|]. split; [done|]. unfold nrc_ctx. by destruct c.
  - by xevents; eexists.
Qed.
End Dispatch.
