(* ===== verification/CoreProcess.v ===== *)
(** * [uds_process] of [src/core/uds_core.c] against its reference behaviour

    One call is S3 supervision, P2/P2* supervision and the 0x2A scheduler, in
    that order, under the lock; over any number of calls a deferred request is
    extended a bounded number of times and then given up. *)

From S2P Require Import Prelude Monad Types Machine CoreBase Contract HandlerLogic.
From S2P Require Import Core CoreDispatch.
From stdpp Require Import base gmap list strings numbers.

Open Scope Z_scope.

(** ** Reference behaviour *)

(** What taking and releasing the lock leave in the trace. *)
Definition lock_events {E} (cfg : uds_config E) : list event :=
  match fn_mutex_lock cfg with Some _ => [EvLock] | None => [] end.
Definition unlock_events {E} (cfg : uds_config E) : list event :=
  match fn_mutex_unlock cfg with Some _ => [EvUnlock] | None => [] end.

(** S3: the session has been quiet too long. *)
Definition s3_expired (c : uds_ctx) (now : Z) : bool :=
  negb (active_session c =? UDS_SESSION_ID_DEFAULT) &&
  (UDS_S3_TIMEOUT_MS <? u32 (now - last_msg_time c)).
Definition s3_ctx (now : Z) (c : uds_ctx) : uds_ctx :=
  if s3_expired c now then set_security_level 0 (set_active_session UDS_SESSION_ID_DEFAULT c) else c.

(** P2/P2*: whether a deferred request is overdue, and what follows. *)
Inductive p2_action : Set := P2Idle | P2Extend | P2GiveUp.

Definition p2_decide {E} (cfg : uds_config E) (now : Z) (c : uds_ctx) : p2_action :=
  if negb (p2_msg_pending c) then P2Idle
  else if u32 (now - p2_timer_start c) <? (if p2_star_active c then p2_star_ms c else p2_ms c) then P2Idle
  else if (0 <? rcrrp_limit cfg) && (rcrrp_limit cfg <=? rcrrp_count c) then P2GiveUp
  else P2Extend.

Definition p2_ctx (now : Z) (a : p2_action) (c : uds_ctx) : uds_ctx :=
  match a with
  | P2Idle => c
  | P2Extend => set_p2_timer_start now (set_p2_star_active true
                  (set_rcrrp_count (u16 (rcrrp_count c + 1)) c))
  | P2GiveUp => set_rcrrp_count 0 (set_p2_msg_pending false c)
  end.

Definition p2_nrc (a : p2_action) : list Z :=
  match a with
  | P2Idle => []
  | P2Extend => [UDS_NRC_RESPONSE_PENDING]
  | P2GiveUp => [UDS_NRC_CONDITIONS_NOT_CORRECT]
  end.

(** The 0x2A scheduler: which slots are due, and the timers afterwards. *)
Definition slot_due (c : uds_ctx) (now : Z) (i : nat) : bool :=
  negb (nth i (periodic_ids c) 0 =? 0) && (nth i (periodic_timers c) 0 <=? now).

Definition next_due (c : uds_ctx) (now : Z) (i : nat) : Z :=
  u32 (now + periodic_interval (nth i (periodic_rates c) 0)).

Definition tick_slot (now : Z) (c : uds_ctx) (i : nat) : uds_ctx :=
  if slot_due c now i then set_periodic_timers (<[i := next_due c now i]> (periodic_timers c)) c else c.

Definition tick (now : Z) (c : uds_ctx) : uds_ctx :=
  if 0 <? periodic_count c then fold_left (tick_slot now) (seq 0 8) c else c.

(** The identifiers of the due slots, in slot order. *)
Definition due_ids (now : Z) (c : uds_ctx) (slots : list nat) : list Z :=
  map (fun i => nth i (periodic_ids c) 0) (filter (fun i => slot_due c now i = true) slots).

(** A periodic message: the application's read, and the identifier followed by
    what was read if anything was. *)
Definition periodic_message {E} (env_ok : E -> Prop) (cfg : uds_config E) (id : Z) (evs : list event) : Prop :=
  exists f c r bs, fn_periodic_read cfg = Some f /\ returns env_ok (f c id UDS_MAX_PERIODIC_MSG_LEN) (r, bs) /\
    r <= Z.of_nat (length bs) /\ Z.of_nat (length bs) <= 8 /\
    if 0 <? r then exists ret, evs = [EvPeriodicRead id r; EvSend (id :: take (Z.to_nat r) bs) ret]
    else evs = [EvPeriodicRead id r].

Lemma wp_data_nat {E} (data : list Z) (i : nat) (Q : Z -> uds_state E -> Prop) s :
  (i < length data)%nat -> Q (nth i data 0) s -> wp (data_at data (Z.of_nat i)) Q s.
Proof. intros Hi HQ. apply (run_wp _ _ _ _ _ (data_at_nth data (Z.of_nat i) s ltac:(lia))). by rewrite Nat2Z.id. Qed.

Section Tick.
Implicit Types c : uds_ctx.

Lemma tick_slot_eq now c i :
  exists ts, tick_slot now c i = set_periodic_timers ts c /\ length ts = length (periodic_timers c).
Proof.
  unfold tick_slot. destruct (slot_due c now i).
  - eexists. split; [done|]. by rewrite length_insert.
  - exists (periodic_timers c). by destruct c.
Qed.

(** Serving a slot leaves the others as they were. *)
Lemma tick_slot_due now c i j :
  i <> j -> slot_due (tick_slot now c i) now j = slot_due c now j.
Proof.
  intros Hne. unfold tick_slot. destruct (slot_due c now i); [|done].
  unfold slot_due; ctx_cbn. f_equal. f_equal. rewrite !nth_lookup. by rewrite list_lookup_insert_ne.
Qed.

Lemma due_ids_tick now c i slots :
  i ∉ slots -> due_ids now (tick_slot now c i) slots = due_ids now c slots.
Proof.
  intros Hi. unfold due_ids.
  assert (Hids : periodic_ids (tick_slot now c i) = periodic_ids c)
    by (unfold tick_slot; by destruct (slot_due c now i)).
  rewrite Hids. f_equal. induction slots as [|j slots IH]; [done|].
  apply not_elem_of_cons in Hi as [Hne Hi]. rewrite !filter_cons, tick_slot_due, IH by done. done.
Qed.

Lemma tick_slots_eq now is_ c :
  exists ts, fold_left (tick_slot now) is_ c = set_periodic_timers ts c /\ length ts = length (periodic_timers c).
Proof.
  revert c. induction is_ as [|i is_ IH]; intros c.
  - exists (periodic_timers c). by destruct c.
  - cbn [fold_left]. destruct (tick_slot_eq now c i) as (ts & -> & Ht).
    destruct (IH (set_periodic_timers ts c)) as (ts' & -> & Ht'). exists ts'. split; [done|]. cbn in Ht'. congruence.
Qed.

Lemma tick_eq now c :
  exists ts, tick now c = set_periodic_timers ts c /\ length ts = length (periodic_timers c).
Proof.
  unfold tick. destruct (0 <? _); [apply tick_slots_eq|].
  exists (periodic_timers c). by destruct c.
Qed.
End Tick.

(** The scheduler's reads in one call. *)
Definition tick_ids (now : Z) (c : uds_ctx) : list Z :=
  if 0 <? periodic_count c then due_ids now c (seq 0 8) else [].

(** [now] is what the clock shows once the lock has been taken from [e]. *)
Definition locked_at {E} (cfg : uds_config E) (e : E) (now : Z) : Prop :=
  exists e1, clock_reads cfg e1 now /\
    match fn_mutex_lock cfg with
    | Some f => f (mutex_handle cfg) e = Ok (tt, e1)
    | None => e1 = e
    end.

(** The effect of one [uds_process] call. *)
Definition process_post {E} (env_ok : E -> Prop) (tb : N) (cfg : uds_config E) (s s' : uds_state E) : Prop :=
  uds_inv env_ok tb cfg s' /\
  exists now logs rs evss, locked_at cfg (env s) now /\
    let c1 := s3_ctx now (ctx s) in
    let a := p2_decide cfg now c1 in
    let nrcs := zip_with EvSend (map (negative (pending_sid (ctx s))) (p2_nrc a)) rs in
    length rs = length (p2_nrc a) /\ sends logs = [] /\ mutex_ops logs = [] /\
    match a with
    | P2GiveUp =>
        ctx s' = p2_ctx now a c1 /\ trace s' = trace s ++ lock_events cfg ++ logs ++ nrcs
    | _ =>
        ctx s' = tick now (p2_ctx now a c1) /\
        Forall2 (periodic_message env_ok cfg) (tick_ids now (p2_ctx now a c1)) evss /\
        trace s' = trace s ++ lock_events cfg ++ logs ++ nrcs ++ concat evss ++ unlock_events cfg
    end.

Section Api.
Context {E : Type} (env_ok : E -> Prop) (tb : N) (cfg : uds_config E).
Context `{Hok : !ConfigOk env_ok tb cfg}.

Lemma wp_lock (Q : unit -> uds_state E -> Prop) c m e tr :
  env_ok e -> (forall e', env_ok e' -> (forall t, clock_reads cfg e' t -> locked_at cfg e t) ->
    Q tt (mkState c m e' (tr ++ lock_events cfg))) ->
  wp (lock cfg) Q (mkState c m e tr).
Proof.
  intros He HQ. unfold lock, mutex_op, lock_events in *. destruct (fn_mutex_lock cfg) as [f|] eqn:Hf.
  - apply wp_bind, wp_call. pose proof (ok_lock f Hf (mutex_handle cfg) e He) as Hcb. unfold wp in Hcb |- *.
    cbn [env]. destruct (f (mutex_handle cfg) e) as [[[] e']|] eqn:Hr; [|done]. apply HQ; [apply Hcb|].
    intros t Ht. exists e'. by rewrite Hf.
  - apply wp_ret. rewrite app_nil_r in HQ. apply HQ; [done|]. intros t Ht. exists e. by rewrite Hf.
Qed.

Lemma wp_unlock (Q : unit -> uds_state E -> Prop) c m e tr :
  env_ok e -> (forall e', env_ok e' -> Q tt (mkState c m e' (tr ++ unlock_events cfg))) ->
  wp (unlock cfg) Q (mkState c m e tr).
Proof.
  intros He HQ. unfold unlock, mutex_op, unlock_events in *. destruct (fn_mutex_unlock cfg) as [f|] eqn:Hf.
  - apply wp_bind. eapply wp_cb; [eapply ok_unlock; eassumption|done|]. intros _ e' _ He'. by apply wp_emit, HQ.
  - apply wp_ret. rewrite app_nil_r in HQ. by apply HQ.
Qed.

(** ** [uds_process] *)

Lemma wp_process_s3 now (Q : unit -> uds_state E -> Prop) c m e tr :
  env_ok e ->
  (forall e' evs, env_ok e' -> sends evs = [] -> mutex_ops evs = [] ->
     Q tt (mkState (s3_ctx now c) m e' (tr ++ evs))) ->
  wp (process_s3 (Some cfg) now) Q (mkState c m e tr).
Proof.
  intros He HQ. unfold process_s3. apply wp_bind, wp_get_ctx. cbn [ctx]. rewrite Z.gtb_ltb.
  unfold s3_ctx, s3_expired in HQ. apply wp_when; intros Hx; rewrite Hx in HQ.
  - hsteps. by apply HQ.
  - rewrite <- (app_nil_r tr). by apply HQ.
Qed.

Lemma wp_process_p2 now (Q : bool -> uds_state E -> Prop) c m e tr l :
  env_ok e -> Z.of_nat (length l) = tx_buffer_size cfg ->
  (forall e' l' rs, env_ok e' -> length l' = length l -> Forall (fun r => r <= 0) rs ->
     let a := p2_decide cfg now c in
     length rs = length (p2_nrc a) ->
     Q (match a with P2GiveUp => true | _ => false end)
       (mkState (p2_ctx now a c) (<[tb := l']> m) e'
          (tr ++ zip_with EvSend (map (negative (pending_sid c)) (p2_nrc a)) rs))) ->
  wp (process_p2 (Some cfg) cfg now) Q (mkState c (<[tb := l]> m) e tr).
Proof.
  intros He Hl HQ. unfold process_p2, p2_decide in *. apply wp_bind, wp_get_ctx. cbn [ctx].
  assert (Hidle : Q false (mkState c (<[tb := l]> m) e (tr ++ zip_with EvSend [] [])) ->
    wp (mret false) Q (mkState c (<[tb := l]> m) e tr)) by by rewrite app_nil_r.
  destruct (p2_msg_pending c) eqn:Hp; cbn [negb] in *; [|by apply Hidle, HQ].
  rewrite Z.ltb_antisym in HQ. destruct (_ <=? _); cbn [negb] in *; [|by apply Hidle, HQ].
  rewrite Z.gtb_ltb. destruct (_ && _).
  - assert (Hc : set_rcrrp_count 0 (nrc_ctx (pending_sid c) UDS_NRC_CONDITIONS_NOT_CORRECT c) =
      p2_ctx now P2GiveUp c) by (unfold nrc_ctx, p2_ctx; by rewrite Z.eqb_refl, andb_false_r).
    hsteps. rewrite Hc. apply (HQ e' l' [r]); auto.
  - assert (Hn : nrc_ctx (pending_sid c) UDS_NRC_RESPONSE_PENDING c = c)
      by (unfold nrc_ctx; destruct c; cbn in *; by rewrite Hp).
    hsteps. rewrite Hn. apply (HQ e' l' [r]); auto.
Qed.

Lemma periodic_message_mutex id evs : periodic_message env_ok cfg id evs -> mutex_ops evs = [].
Proof. intros (f & c & r & bs & _ & _ & _ & _ & H). destruct (0 <? r); [destruct H as [ret ->]|subst]; done. Qed.

(** One slot: a message if it is due, its timer moved on. *)
Lemma wp_periodic_slot now i (Q : unit -> uds_state E -> Prop) c m e tr l :
  ctx_ok c -> (i < 8)%nat -> env_ok e -> Z.of_nat (length l) = tx_buffer_size cfg ->
  (forall e' l' evs, env_ok e' -> length l' = length l ->
     (if slot_due c now i then periodic_message env_ok cfg (nth i (periodic_ids c) 0) evs else evs = []) ->
     Q tt (mkState (tick_slot now c i) (<[tb := l']> m) e' (tr ++ evs))) ->
  wp (process_periodic_slot cfg now (Z.of_nat i)) Q (mkState c (<[tb := l]> m) e tr).
Proof.
  intros Hc Hi He Hl HQ. destruct Hc as [_ _ H1 H2 H3 _].
  pose proof (ok_tx_size (cfg := cfg)) as Hsz; unfold MIN_TX in Hsz.
  destruct ok_periodic as (f & Hf & Hcb).
  unfold process_periodic_slot, slot_due, tick_slot in *.
  apply wp_bind, wp_get_ctx. cbn [ctx].
  apply wp_bind, wp_data_nat; [lia|].
  assert (Hidle : Q tt (mkState c (<[tb := l]> m) e (tr ++ [])) -> Q tt (mkState c (<[tb := l]> m) e tr))
    by by rewrite app_nil_r.
  unfold slot_due in HQ. apply wp_when; intros Hid; rewrite Hid in HQ; cbn [andb] in HQ; [|by apply Hidle, HQ].
  apply wp_bind, wp_data_nat; [lia|].
  apply wp_when; intros Hdue; rewrite Hdue in HQ; [|by apply Hidle, HQ]. clear Hidle.
  apply wp_bind, (wp_fnptr _ f); [done|]. apply wp_bind. unfold UDS_MAX_PERIODIC_MSG_LEN.
  eapply wp_cb; [apply cb_ok_returns, Hcb; lia|done|]. intros [r bs] e1 [[Hr1 Hr2] Hret] He1. cbn [fst snd] in *.
  apply wp_bind, wp_emit. state_cbn.
  replace (8 <? Z.of_nat (length bs)) with false by lia. apply wp_bind, wp_ret.
  assert (Htail : forall e' l' evs, env_ok e' -> length l' = length l ->
    periodic_message env_ok cfg (nth i (periodic_ids c) 0) evs ->
    wp (rate ← data_at (periodic_rates c) (Z.of_nat i);
        mod_ctx (fun c0 => set_periodic_timers
          (<[Z.to_nat (Z.of_nat i) := u32 (now + periodic_interval rate)]> (periodic_timers c0)) c0))
      Q (mkState c (<[tb := l']> m) e' (tr ++ evs))).
  { intros e' l' evs He' Hl' Hev.
    apply wp_bind, wp_data_nat; [lia|].
    apply wp_mod_ctx. state_cbn. rewrite Nat2Z.id. by apply HQ. }
  apply wp_bind. rewrite Z.gtb_ltb. apply wp_when; intros Hpos.
  - replace (8 <? r) with false by lia. replace (Z.of_nat (length bs) <? r) with false by lia. bool_prop.
    hstep. hstep. hstep. apply wp_ret. hstep. eapply wp_tx_bytes; [done|lia|rewrite length_take; lia|].
    intros l2 Hl2 Hlen2 _. u16_tac. apply wp_bind. eapply wp_tp_send; [done|done|lia|]. intros ret e2 _ He2.
    apply wp_ret. rewrite <- app_assoc. apply Htail; [done|lia|]. exists f, c, r, bs. split; [done|]. split; [done|]. split; [done|split; [lia|]].
    replace (0 <? r) with true by lia. exists ret. cbn [app]. do 2 f_equal. subst.
    replace (Z.to_nat (r + 1)) with (1 + length (take (Z.to_nat r) bs))%nat by (rewrite length_take; lia).
    change (Z.to_nat 1) with 1%nat. change (Z.to_nat 0) with 0%nat in *.
    rewrite take_write_at by (rewrite length_take; lia). by rewrite take_write_byte by length_tac.
  - apply Htail; [done..|]. exists f, c, r, bs. rewrite Hpos. split; [done|]. split; [done|]. split; [done|]. split; [lia|done].
Qed.

Lemma tick_slot_ok now c i : ctx_ok c -> ctx_ok (tick_slot now c i).
Proof. intros Hc. unfold tick_slot, next_due. destruct (slot_due c now i); ctx_ok_tac. Qed.

Lemma tick_ok now c : ctx_ok c -> ctx_ok (tick now c).
Proof.
  intros Hc. unfold tick. destruct (0 <? _); [|done]. generalize (seq 0 8). intros slots. revert c Hc.
  induction slots as [|i slots IH]; intros c Hc; [done|]. by apply IH, tick_slot_ok.
Qed.

Lemma wp_periodic_slots now (Q : unit -> uds_state E -> Prop) m slots : forall c e tr l,
  NoDup slots -> Forall (fun i => (i < 8)%nat) slots ->
  ctx_ok c -> env_ok e -> Z.of_nat (length l) = tx_buffer_size cfg ->
  (forall e' l' evss, env_ok e' -> length l' = length l ->
     Forall2 (periodic_message env_ok cfg) (due_ids now c slots) evss ->
     Q tt (mkState (fold_left (tick_slot now) slots c) (<[tb := l']> m) e' (tr ++ concat evss))) ->
  wp (mfor (map Z.of_nat slots) (process_periodic_slot cfg now)) Q (mkState c (<[tb := l]> m) e tr).
Proof.
  induction slots as [|i slots IH]; intros c e tr l Hnd Hlt Hc He Hl HQ.
  - apply wp_ret. rewrite <- (app_nil_r tr). by apply (HQ e l []).
  - pose proof (NoDup_cons_1_1 _ _ Hnd) as Hi; apply NoDup_cons_1_2 in Hnd. inversion_clear Hlt as [|? ? Hi8 Hlt'].
    cbn [map mfor]. apply wp_bind, wp_periodic_slot; [done..|].
    intros e1 l1 evs He1 Hl1 Hev. apply IH; [done|done|by apply tick_slot_ok|done|lia|].
    intros e2 l2 evss He2 Hl2 Hevs. rewrite due_ids_tick in Hevs by done. cbn [fold_left] in HQ.
    unfold due_ids in *. rewrite filter_cons in HQ.
    destruct (slot_due c now i); [|subst evs; rewrite app_nil_r; apply HQ; [done|lia|done]].
    rewrite <- app_assoc. apply (HQ e2 l2 (evs :: evss)); [done|lia|]. by constructor.
Qed.

(** The scheduler as a whole. *)
Lemma wp_process_periodic now (Q : unit -> uds_state E -> Prop) c m e tr l :
  ctx_ok c -> env_ok e -> Z.of_nat (length l) = tx_buffer_size cfg ->
  (forall e' l' evss, env_ok e' -> length l' = length l ->
     Forall2 (periodic_message env_ok cfg) (tick_ids now c) evss ->
     Q tt (mkState (tick now c) (<[tb := l']> m) e' (tr ++ concat evss))) ->
  wp (process_periodic cfg now) Q (mkState c (<[tb := l]> m) e tr).
Proof.
  intros Hc He Hl HQ. unfold process_periodic, tick, tick_ids in *.
  apply wp_bind, wp_get_ctx. cbn [ctx]. rewrite Z.gtb_ltb.
  apply wp_when; intros Hp; rewrite Hp in HQ.
  - change (seqZ 0 8) with (map Z.of_nat (seq 0 8)). apply wp_periodic_slots; try done.
    + apply NoDup_seq.
    + repeat constructor; lia.
  - rewrite <- (app_nil_r tr). by apply (HQ e l []).
Qed.

Lemma messages_mutex ids evss : Forall2 (periodic_message env_ok cfg) ids evss -> mutex_ops (concat evss) = [].
Proof.
  induction 1 as [|? ? ? ? Hm _ IH]; [done|]. cbn [concat].
  by rewrite mutex_ops_app, IH, (periodic_message_mutex _ _ Hm).
Qed.

(** One call of [uds_process]: S3, then P2, then the scheduler, between the
    lock and the unlock; a request given up on ends the call without either of
    the last two. *)
Lemma wp_uds_process s :
  uds_inv env_ok tb cfg s -> wp (uds_process (Some cfg)) (fun _ s' => process_post env_ok tb cfg s s') s.
Proof.
  intros Hinv. xopen cfg Hinv. unfold uds_process, process_post.
  apply wp_bind, wp_lock; [done|]. intros e1 He1 Hclk.
  hstep. hstep. rename t into now. cbn [env]. specialize (Hclk now ltac:(done)).
  apply wp_bind, wp_process_s3; [done|]. intros e2 logs He2 Hs2 Hm2.
  assert (Hc1 : ctx_ok (s3_ctx now c)).
  { unfold s3_ctx, UDS_SESSION_ID_DEFAULT. destruct (s3_expired c now); ctx_ok_tac. }
  assert (Hp : pending_sid (s3_ctx now c) = pending_sid c)
    by (unfold s3_ctx; by destruct (s3_expired c now)).
  apply wp_bind. eapply wp_process_p2; [done..|]. intros e3 l3 rs He3 Hl3 Hrs a Hlen. rewrite Hp.
  assert (Hc2 : ctx_ok (p2_ctx now a (s3_ctx now c))).
  { clearbody a. destruct a; [done|ctx_ok_tac..]. }
  assert (Hrun : match a with P2GiveUp => True | _ => forall tr0,
    wp (process_periodic cfg now ;; unlock cfg) (fun _ s' => uds_inv env_ok tb cfg s' /\
      exists evss, ctx s' = tick now (p2_ctx now a (s3_ctx now c)) /\
          Forall2 (periodic_message env_ok cfg) (tick_ids now (p2_ctx now a (s3_ctx now c))) evss /\
          trace s' = tr0 ++ concat evss ++ unlock_events cfg)
      (mkState (p2_ctx now a (s3_ctx now c)) (<[tb := l3]> m) e3 tr0) end).
  { pose proof (tick_ok now _ Hc2) as Hc3. clearbody a. destruct a; [|intros tr0|done]; intros.
    all: apply wp_bind, wp_process_periodic; [done|done|lia|]; intros e4 l4 evss He4 Hl4 Hev.
    all: apply wp_unlock; [done|]; intros e5 He5.
    all: split; [apply inv_close; [done|done|done|lia]|].
    all: exists evss; by rewrite <- app_assoc. }
  destruct a eqn:Ha.
  1,2: eapply wp_mono; [apply Hrun|]; intros [] s' [Hi (evss & Hcs & Hev & Ht)]; split; [done|].
  1,2: exists now, logs, rs, evss; cbv zeta; cbn [ctx trace]; fold a; rewrite Ha; split; [done|]; split; [done|]; split; [done|]; split; [done|];
    split; [done|]; split; [done|]; rewrite Ht; by rewrite <- !app_assoc.
  apply wp_ret. split; [apply inv_close; [done|done|done|lia]|].
  exists now, logs, rs, []. cbv zeta. cbn [ctx trace]. fold a. rewrite Ha. repeat (split; [done|]).
  cbn [trace]. by rewrite <- !app_assoc.
Qed.

Lemma sends_lock : sends (lock_events cfg) = [].
Proof. unfold lock_events. by destruct (fn_mutex_lock cfg). Qed.
Lemma sends_unlock : sends (unlock_events cfg) = [].
Proof. unfold unlock_events. by destruct (fn_mutex_unlock cfg). Qed.
Lemma sends_nrcs bs rs : length rs = length bs -> sends (zip_with EvSend bs rs) = bs.
Proof.
  revert rs. induction bs as [|b bs IH]; intros [|r rs] H; try done.
  cbn. f_equal. apply IH. by injection H.
Qed.

Lemma nrcs_mutex bs rs : mutex_ops (zip_with EvSend bs rs) = [].
Proof. revert rs. induction bs as [|b bs IH]; intros [|r rs]; try done. apply IH. Qed.

(** The timers after serving a list of slots. *)
Lemma tick_timers now slots c i :
  NoDup slots -> (i < length (periodic_timers c))%nat ->
  periodic_timers (fold_left (tick_slot now) slots c) !! i =
    if decide (i ∈ slots) then
      if slot_due c now i then Some (next_due c now i) else periodic_timers c !! i
    else periodic_timers c !! i.
Proof.
  revert c. induction slots as [|j slots IH]; intros c Hnd Hi; [done|]. cbn [fold_left].
  pose proof (NoDup_cons_1_1 _ _ Hnd) as Hj. apply NoDup_cons_1_2 in Hnd.
  destruct (tick_slot_eq now c j) as (ts & Hts & Hlts).
  rewrite IH by (done || (rewrite Hts; cbn; lia)).
  destruct (decide (i = j)) as [->|Hne].
  - rewrite decide_False, decide_True by (done || by left). unfold tick_slot.
    destruct (slot_due c now j); [|done]. cbn. by apply list_lookup_insert_eq.
  - rewrite tick_slot_due by done.
    assert (Ho : periodic_timers (tick_slot now c j) !! i = periodic_timers c !! i).
    { unfold tick_slot. destruct (slot_due c now j); [|done]. cbn. by apply list_lookup_insert_ne. }
    assert (Hn : next_due (tick_slot now c j) now i = next_due c now i)
      by (unfold tick_slot; by destruct (slot_due c now j)).
    rewrite Ho, Hn. destruct (decide (i ∈ slots)).
    + by rewrite decide_True by by right.
    + rewrite decide_False; [done|]. intros Hin. apply elem_of_cons in Hin as [?|?]; done.
Qed.

(** Supervision of a deferred request over any number of calls. *)
Definition supervised (c : uds_ctx) (limit : Z) (s' : uds_state E) (evs : list event) : Prop :=
  exists n,
    (p2_msg_pending (ctx s') = true /\ rcrrp_count (ctx s') = rcrrp_count c + Z.of_nat n /\
       rcrrp_count c + Z.of_nat n <= limit /\
       sends evs = replicate n (negative (pending_sid c) UDS_NRC_RESPONSE_PENDING)) \/
    (p2_msg_pending (ctx s') = false /\ rcrrp_count c + Z.of_nat n = limit /\
       sends evs = replicate n (negative (pending_sid c) UDS_NRC_RESPONSE_PENDING) ++
                   [negative (pending_sid c) UDS_NRC_CONDITIONS_NOT_CORRECT]).

Lemma process_quiet s :
  uds_inv env_ok tb cfg s -> periodic_count (ctx s) = 0 ->
  wp (uds_process (Some cfg)) (fun _ s' =>
    uds_inv env_ok tb cfg s' /\ periodic_count (ctx s') = 0 /\
    pending_sid (ctx s') = pending_sid (ctx s) /\ suppress_pos_resp (ctx s') = suppress_pos_resp (ctx s) /\
    exists evs a, trace s' = trace s ++ evs /\ sends evs = map (negative (pending_sid (ctx s))) (p2_nrc a) /\
      (a = P2Idle \/ p2_msg_pending (ctx s) = true) /\
      match a with
      | P2Idle => rcrrp_count (ctx s') = rcrrp_count (ctx s) /\ p2_msg_pending (ctx s') = p2_msg_pending (ctx s)
      | P2Extend => rcrrp_count (ctx s') = u16 (rcrrp_count (ctx s) + 1) /\
          p2_msg_pending (ctx s') = p2_msg_pending (ctx s) /\
          (0 < rcrrp_limit cfg -> rcrrp_count (ctx s) < rcrrp_limit cfg)
      | P2GiveUp => p2_msg_pending (ctx s') = false /\ rcrrp_limit cfg <= rcrrp_count (ctx s)
      end) s.
Proof.
  intros Hinv Hcnt. eapply wp_mono; [by apply wp_uds_process|].
  intros _ s' (Hi & now & logs & rs & evss & _ & Hx). split; [done|].
  cbv zeta in Hx. set (c1 := s3_ctx now (ctx s)) in *. set (a := p2_decide cfg now c1) in *.
  assert (Hc1 : periodic_count c1 = 0 /\ pending_sid c1 = pending_sid (ctx s) /\
    rcrrp_count c1 = rcrrp_count (ctx s) /\ p2_msg_pending c1 = p2_msg_pending (ctx s) /\
    suppress_pos_resp c1 = suppress_pos_resp (ctx s)).
  { subst c1. unfold s3_ctx. by destruct (s3_expired _ _). }
  destruct Hc1 as (H1 & H2 & H3 & H4 & H5).
  assert (Ha : (a = P2Idle \/ p2_msg_pending (ctx s) = true) /\
    (a = P2Extend -> 0 < rcrrp_limit cfg -> rcrrp_count (ctx s) < rcrrp_limit cfg) /\
    (a = P2GiveUp -> rcrrp_limit cfg <= rcrrp_count (ctx s))).
  { subst a. unfold p2_decide. rewrite <- H3, <- H4. destruct (p2_msg_pending c1); cbn [negb]; [|by split; [left|split]].
    destruct (u32 _ <? _); [by split; [left|split]|]. split; [by right|].
    destruct (0 <? rcrrp_limit cfg) eqn:Hl, (rcrrp_limit cfg <=? rcrrp_count c1) eqn:Hle; cbn [andb];
      split; try done; intros; lia. }
  assert (Hc2 : forall a0, periodic_count (p2_ctx now a0 c1) = 0 /\ pending_sid (p2_ctx now a0 c1) = pending_sid (ctx s) /\
    suppress_pos_resp (p2_ctx now a0 c1) = suppress_pos_resp (ctx s)) by (intros []; done).
  assert (Hts : forall a0, tick now (p2_ctx now a0 c1) = p2_ctx now a0 c1 /\ tick_ids now (p2_ctx now a0 c1) = []).
  { intros a0. unfold tick, tick_ids. by rewrite (proj1 (Hc2 a0)). }
  destruct Hx as (Hlen & Hs & _ & Hx). destruct Ha as (Ha1 & Ha2 & Ha3).
  assert (Hlen' : length rs = length (map (negative (pending_sid (ctx s))) (p2_nrc a))) by by rewrite length_map.
  assert (Hfin : ctx s' = p2_ctx now a c1 /\ exists evs, trace s' = trace s ++ evs /\
    sends evs = map (negative (pending_sid (ctx s))) (p2_nrc a)).
  { clearbody a. destruct a.
    1,2: destruct Hx as (Hc & Hm & Ht); rewrite (proj1 (Hts _)) in Hc; rewrite (proj2 (Hts _)) in Hm;
      inversion Hm; subst evss; split; [done|]; eexists; split; [exact Ht|].
    3: destruct Hx as (Hc & Ht); split; [done|]; eexists; split; [exact Ht|].
    all: rewrite !sends_app, sends_lock, Hs, ?sends_unlock; cbn [concat sends omap app];
      rewrite ?app_nil_r; by apply sends_nrcs. }
  destruct Hfin as (Hc & evs & Ht & Hse). rewrite Hc. destruct (Hc2 a) as (? & ? & ?).
  split; [done|]. split; [done|]. split; [done|]. exists evs, a. split; [done|]. split; [done|]. split; [done|].
  clearbody a. destruct a; cbn [p2_ctx]; ctx_cbn; rewrite ?H3, ?H4; auto.
Qed.

(** Any number of calls while a request is pending. *)
Lemma deferral_ok k s :
  uds_inv env_ok tb cfg s -> periodic_count (ctx s) = 0 -> p2_msg_pending (ctx s) = true ->
  0 < rcrrp_limit cfg < 65536 -> 0 <= rcrrp_count (ctx s) <= rcrrp_limit cfg ->
  wp (mfor (seq 0 k) (fun _ => uds_process (Some cfg))) (fun _ s' =>
    uds_inv env_ok tb cfg s' /\ periodic_count (ctx s') = 0 /\
    pending_sid (ctx s') = pending_sid (ctx s) /\ suppress_pos_resp (ctx s') = suppress_pos_resp (ctx s) /\
    exists evs, trace s' = trace s ++ evs /\ supervised (ctx s) (rcrrp_limit cfg) s' evs) s.
Proof.
  intros Hinv Hcnt Hp Hlim Hr.
  apply (wp_for (fun _ s' => uds_inv env_ok tb cfg s' /\ periodic_count (ctx s') = 0 /\
    pending_sid (ctx s') = pending_sid (ctx s) /\ suppress_pos_resp (ctx s') = suppress_pos_resp (ctx s) /\
    exists evs, trace s' = trace s ++ evs /\ supervised (ctx s) (rcrrp_limit cfg) s' evs)).
  - do 4 (split; [done|]). exists []. rewrite app_nil_r. split; [done|].
    exists 0%nat. left. cbn. split; [done|]. split; [lia|]. split; [lia|done].
  - intros _ _ s1 (Hi & Hc & Hsid & Hsup & evs & Ht & n & Hn).
    eapply wp_mono; [by apply process_quiet|].
    intros _ s2 (Hi2 & Hc2 & Hs2 & Hsup2 & evs2 & a & Ht2 & Hse & Hpend & Ha).
    do 2 (split; [done|]). do 2 (split; [congruence|]). exists (evs ++ evs2).
    split; [by rewrite Ht2, Ht, app_assoc|]. unfold supervised. rewrite sends_app, Hse, Hsid.
    destruct Hn as [(Hp1 & Hk & Hle & Hs1)|(Hp1 & Hk & Hs1)]; rewrite Hs1.
    + destruct a; cbn [p2_nrc map] in *.
      * exists n. left. rewrite app_nil_r. destruct Ha as [-> ->]. done.
      * destruct Ha as (Hr2 & Hp2 & Hlt). exists (S n). left. rewrite Hr2, Hp2, u16_small by lia.
        rewrite replicate_S_end. split; [done|]. split; [lia|]. split; [lia|done].
      * destruct Ha as (Hp2 & Hge). exists n. right. split; [done|]. split; [lia|done].
    + destruct Hpend as [->|Hx]; [|congruence]. destruct Ha as [_ Hp2]. exists n. right.
      rewrite Hp2, app_nil_r. done.
  - done.
Qed.

(** And when none is. *)
Lemma settled_ok k s :
  uds_inv env_ok tb cfg s -> periodic_count (ctx s) = 0 -> p2_msg_pending (ctx s) = false ->
  wp (mfor (seq 0 k) (fun _ => uds_process (Some cfg))) (fun _ s' =>
    uds_inv env_ok tb cfg s' /\ p2_msg_pending (ctx s') = false /\ sends (trace s') = sends (trace s)) s.
Proof.
  intros Hinv Hcnt Hp.
  apply (wp_for (fun _ s' => uds_inv env_ok tb cfg s' /\ periodic_count (ctx s') = 0 /\
    p2_msg_pending (ctx s') = false /\ sends (trace s') = sends (trace s))); [done| |by intros s' (? & _ & ?)].
  intros _ _ s1 (Hi & Hc & Hp1 & Hs). eapply wp_mono; [by apply process_quiet|].
  intros _ s2 (Hi2 & Hc2 & _ & _ & evs & a & Ht & Hse & [->|Hx] & Ha); [|congruence]. destruct Ha as [_ Hp2].
  split; [done|]. split; [done|]. split; [congruence|]. by rewrite Ht, sends_app, Hse, app_nil_r.
Qed.

(** With a response-pending limit configured, any number of calls of uds_process
    while one request is pending sends at most the allowed number of 0x78 responses,
    counts each of them, and when the limit is used up and the request is overdue again
    sends one final 0x22, no longer supervises the request, and sends nothing more about
    it. *)
Theorem deferral_bounded k s :
  uds_inv env_ok tb cfg s -> periodic_count (ctx s) = 0 -> p2_msg_pending (ctx s) = true ->
  0 < rcrrp_limit cfg < 65536 -> 0 <= rcrrp_count (ctx s) <= rcrrp_limit cfg ->
  wp (mfor (seq 0 k) (fun _ => uds_process (Some cfg))) (fun _ s' =>
    exists evs, trace s' = trace s ++ evs /\ supervised (ctx s) (rcrrp_limit cfg) s' evs) s.
Proof. intros. eapply wp_mono; [by apply deferral_ok|]. by intros _ s' (_ & _ & _ & _ & ?). Qed.

(** C7: One call of uds_process is its reference: at the time the clock shows after the
    lock, the S3 step, then the P2 decision (nothing, one 0x78 with the counter
    advanced, or giving up with one 0x22), then the periodic scheduler with one message
    per due slot and its timer moved on, with exactly these messages in this order in
    the trace, and the invariant kept. *)
Theorem process_refines s :
  uds_inv env_ok tb cfg s -> wp (uds_process (Some cfg)) (fun _ s' => process_post env_ok tb cfg s s') s.
Proof. apply wp_uds_process. Qed.

(** One call of uds_process falls back to the default session and locks the server
    if a non-default session has been quiet for more than 5000 ms (modulo 2^32) at the
    time the clock shows, and otherwise leaves session and security level alone. *)
Theorem s3_supervision s :
  uds_inv env_ok tb cfg s ->
  wp (uds_process (Some cfg)) (fun _ s' => exists now, locked_at cfg (env s) now /\
    if s3_expired (ctx s) now
    then active_session (ctx s') = UDS_SESSION_ID_DEFAULT /\ security_level (ctx s') = 0
    else active_session (ctx s') = active_session (ctx s) /\
         security_level (ctx s') = security_level (ctx s)) s.
Proof.
  intros Hinv. eapply wp_mono; [by apply wp_uds_process|].
  intros _ s' (_ & now & logs & rs & evss & Hclk & _ & _ & _ & Hx). exists now. split; [done|]. cbv zeta in Hx.
  assert (Ha : forall a, active_session (p2_ctx now a (s3_ctx now (ctx s))) = active_session (s3_ctx now (ctx s)) /\
    security_level (p2_ctx now a (s3_ctx now (ctx s))) = security_level (s3_ctx now (ctx s))) by by intros [].
  assert (Ht : forall c, active_session (tick now c) = active_session c /\ security_level (tick now c) = security_level c).
  { intros c. by destruct (tick_eq now c) as (ts & -> & _). }
  assert (Hc : active_session (ctx s') = active_session (s3_ctx now (ctx s)) /\
    security_level (ctx s') = security_level (s3_ctx now (ctx s))).
  { destruct (p2_decide _ _ _); destruct Hx as (-> & _); rewrite ?(proj1 (Ht _)), ?(proj2 (Ht _)); apply Ha. }
  destruct Hc as [-> ->]. unfold s3_ctx. by destruct (s3_expired _ _).
Qed.

(** With no request pending, one call of uds_process serves exactly the periodic
    slots that are in use and due at the time the clock shows, in slot order, each with
    one read of the application and one message of the identifier and the bytes read if
    any, moves the timers of exactly these slots to now plus the interval of their rate,
    and leaves all others alone. *)
Theorem scheduler_exact s :
  uds_inv env_ok tb cfg s -> p2_msg_pending (ctx s) = false -> 0 < periodic_count (ctx s) ->
  wp (uds_process (Some cfg)) (fun _ s' => exists now logs evss, locked_at cfg (env s) now /\ sends logs = [] /\
    trace s' = trace s ++ lock_events cfg ++ logs ++ concat evss ++ unlock_events cfg /\
    Forall2 (periodic_message env_ok cfg) (due_ids now (ctx s) (seq 0 8)) evss /\
    forall i, (i < 8)%nat -> periodic_timers (ctx s') !! i =
      if slot_due (ctx s) now i then Some (next_due (ctx s) now i) else periodic_timers (ctx s) !! i) s.
Proof.
  intros Hinv Hp Hcnt. eapply wp_mono; [by apply wp_uds_process|].
  intros _ s' (_ & now & logs & rs & evss & Hclk & Hlen & Hs & _ & Hx). exists now, logs, evss. split; [done|].
  assert (Ha : p2_decide cfg now (s3_ctx now (ctx s)) = P2Idle).
  { unfold p2_decide, s3_ctx. destruct (s3_expired _ _); ctx_cbn; by rewrite Hp. }
  cbv zeta in Hx. rewrite Ha in Hx, Hlen. cbn [p2_nrc p2_ctx map zip_with app] in *.
  destruct Hx as (Hc & Hm & Ht). split; [done|]. split; [by destruct rs|].
  assert (Hcnt' : (0 <? periodic_count (s3_ctx now (ctx s))) = true).
  { unfold s3_ctx. destruct (s3_expired _ _); ctx_cbn; lia. }
  unfold tick_ids in Hm. rewrite Hcnt' in Hm. split.
  - unfold s3_ctx in Hm. by destruct (s3_expired (ctx s) now).
  - intros i Hi. rewrite Hc. unfold tick. rewrite Hcnt'.
    rewrite tick_timers; [|apply NoDup_seq|..].
    + rewrite decide_True by (apply elem_of_seq; lia). unfold s3_ctx. by destruct (s3_expired (ctx s) now).
    + destruct (inv_ctx _ _ _ _ Hinv) as [_ _ _ _ H3]. unfold s3_ctx. destruct (s3_expired _ _); ctx_cbn; lia.
Qed.

(** uds_process takes the lock once and releases it once, except in the call that
    gives a request up at the response-pending limit, which takes the lock and returns
    without releasing it; which of the two happens is decided by the context and the
    time the clock shows. *)
Theorem process_lock_discipline s :
  uds_inv env_ok tb cfg s ->
  wp (uds_process (Some cfg)) (fun _ s' => exists now evs, locked_at cfg (env s) now /\ trace s' = trace s ++ evs /\
    mutex_ops evs = lock_events cfg ++
      match p2_decide cfg now (s3_ctx now (ctx s)) with
      | P2GiveUp => []
      | _ => unlock_events cfg
      end) s.
Proof.
  intros Hinv. eapply wp_mono; [by apply wp_uds_process|].
  intros _ s' (_ & now & logs & rs & evss & Hclk & _ & _ & Hml & Hx). exists now. cbv zeta in Hx.
  assert (Hl : mutex_ops (lock_events cfg) = lock_events cfg) by (unfold lock_events; by destruct (fn_mutex_lock cfg)).
  assert (Hu : mutex_ops (unlock_events cfg) = unlock_events cfg) by (unfold unlock_events; by destruct (fn_mutex_unlock cfg)).
  destruct (p2_decide _ _ _); [destruct Hx as (_ & Hm & ->)|destruct Hx as (_ & Hm & ->)|destruct Hx as (_ & ->)].
  all: eexists; split; [done|]; split; [reflexivity|]; rewrite !mutex_ops_app, Hl, Hml, nrcs_mutex, ?Hu; [].
  all: rewrite ?(messages_mutex _ _ Hm); by rewrite ?app_nil_r.
Qed.
End Api.
