(* ===== verification/CoreApi.v ===== *)
(** * The public entry points of [src/core/uds_core.c]

    [uds_input_sdu] and [uds_client_request] against their reference behaviour, the
    completion of a deferred request with [uds_send_response], and what any sequence of
    calls to the five entry points can do. *)

From S2P Require Import Prelude Monad Types Machine CoreBase Contract HandlerLogic.
From S2P Require Import Core CoreDispatch CoreProcess.
From stdpp Require Import base gmap list strings numbers.

Open Scope Z_scope.

(** ** The application's response callback

    It runs with the lock held, so it does not re-enter the stack: it leaves
    the context and the outside world as the stack sees it alone. *)
Class ClientOk {E} (env_ok : E -> Prop) (tb : N) (cfg : uds_config E)
    (client_call : N -> Z -> list Z -> Z -> M (uds_state E) unit) : Prop :=
  client_spec cb sd payload n s : uds_inv env_ok tb cfg s ->
    wp (client_call cb sd payload n)
      (fun _ s' => uds_inv env_ok tb cfg s' /\ ctx s' = ctx s /\ trace s' = trace s) s.

(** How access rights may move over any stretch of execution: down to nothing,
    or up to a level whose key the application has just accepted. *)
Record access_run (c c' : uds_ctx) (evs : list event) : Prop := {
  ar_session : active_session c' = active_session c \/ 1 <= active_session c' <= 3;
  ar_level : security_level c' = security_level c \/ security_level c' = 0 \/
    exists key, EvKey (security_level c') key 0 ∈ evs
}.

Lemma access_run_refl c c' evs :
  active_session c' = active_session c -> security_level c' = security_level c -> access_run c c' evs.
Proof. by split; left. Qed.

Lemma access_run_trans c1 c2 c3 evs1 evs2 :
  access_run c1 c2 evs1 -> access_run c2 c3 evs2 -> access_run c1 c3 (evs1 ++ evs2).
Proof.
  intros [S1 L1] [S2 L2]. split.
  - destruct S2 as [->|?]; [done|by right].
  - destruct L2 as [->|[?|[key Hk]]].
    + destruct L1 as [?|[?|[key Hk]]]; [by left|by right; left|]. right; right. exists key.
      apply elem_of_app. by left.
    + by right; left.
    + right; right. exists key. apply elem_of_app. by right.
Qed.

Lemma access_run_same c1 c1' c2 c2' evs evs1 evs2 :
  access_run c1 c1' evs ->
  active_session c2 = active_session c1 -> security_level c2 = security_level c1 ->
  active_session c2' = active_session c1' -> security_level c2' = security_level c1' ->
  access_run c2 c2' (evs1 ++ evs ++ evs2).
Proof.
  intros H E1 E2 E3 E4.
  apply (access_run_trans _ c1); [by apply access_run_refl|].
  apply (access_run_trans _ c1'); [done|by apply access_run_refl].
Qed.

Lemma access_step_run sd c c' evs : access_step sd c c' evs -> access_run c c' evs.
Proof.
  intros [Hs Hl]. split; [destruct Hs as [?|[_ ?]]; [by left|by right]|].
  destruct Hl as [?|[[_ ?]|[_ ?]]]; [by left|by right; left|by right; right].
Qed.

Lemma s3_access now c evs : access_run c (s3_ctx now c) evs.
Proof.
  unfold s3_ctx. destruct (s3_expired c now); [|by apply access_run_refl].
  split; ctx_cbn; [right; unfold UDS_SESSION_ID_DEFAULT; lia|by right; left].
Qed.


(** ** Reference behaviour of [uds_input_sdu] *)

(** The SDU answers the request the client side is waiting on. *)
Definition answers (c : uds_ctx) (data : list Z) (len : Z) : bool :=
  negb (pending_sid c =? 0) &&
  ((nth 0 data 0 =? u8 (Z.lor (pending_sid c) UDS_RESPONSE_OFFSET)) ||
   ((nth 0 data 0 =? UDS_NRC_SERVICE_NOT_SUPP_IN_SESS) && (2 <=? len) && (nth 1 data 0 =? pending_sid c))).

(** A TesterPresent that asks for no answer, let through while busy. *)
Definition quiet_tester (data : list Z) (len : Z) : bool :=
  (nth 0 data 0 =? UDS_SID_TESTER_PRESENT) && (2 <=? len) && negb (Z.land (nth 1 data 0) 128 =? 0).

(** Timers and counters a new request starts from. *)
Definition fresh_ctx (t1 t2 : Z) (c : uds_ctx) : uds_ctx :=
  set_rcrrp_count 0 (set_p2_star_active false (set_p2_msg_pending false
    (set_p2_timer_start t2 (set_last_msg_time t1 c)))).

(** What an SDU may be met with in silence. *)
Definition silent_ok {E} (cfg : uds_config E) (c : uds_ctx) (data : list Z) (len : Z) : Prop :=
  (p2_msg_pending c = true /\ quiet_tester data len = true) \/
  (p2_msg_pending c = false /\ answers c data len = true) \/
  suppressed_on_entry cfg c data = true.

Lemma suppressed_ext {E} (cfg : uds_config E) c c' data :
  suppress_pos_resp c = suppress_pos_resp c' ->
  suppressed_on_entry cfg c data = suppressed_on_entry cfg c' data.
Proof.
  intros H. unfold suppressed_on_entry, suppress_on_entry. destruct (service_for _ _) as [e|]; [|done].
  by destruct (sub_mask e).
Qed.

(** ** Any sequence of calls *)

Inductive api_call : Type :=
| ApiInput (data : list Z) (len : Z)
| ApiProcess
| ApiClient (the_sid : Z) (data : list Z) (len : Z) (callback : option N)
| ApiRespond (bs : list Z)        (* the application completes a deferred request *)
| ApiNrc (the_sid nrc : Z).       (* or refuses it *)

(** The lengths are those of the buffers passed, the numbers fit the C types. *)
Definition api_ok (a : api_call) : Prop :=
  match a with
  | ApiInput data len => Forall is_byte data /\ 0 <= len <= Z.of_nat (length data) /\ len < 65536
  | ApiProcess => True
  | ApiClient the_sid data len _ => 0 <= the_sid < 256 /\ 0 <= len <= Z.of_nat (length data)
  | ApiRespond bs => Z.of_nat (length bs) < 65536
  | ApiNrc the_sid nrc => 0 <= the_sid < 256 /\ 0 <= nrc < 256
  end.

(** An answer of the application's own: it fills the transmit buffer, as far as it
    reaches, and calls uds_send_response. *)
Definition fill_tx {E} (cfg : uds_config E) (bs : list Z) : M (uds_state E) unit :=
  mwhen (Z.of_nat (length bs) <=? tx_buffer_size cfg) (blk_write (tx_buffer cfg) 0 bs).

Definition run_api {E} (client_call : N -> Z -> list Z -> Z -> M (uds_state E) unit)
    (cfg : uds_config E) (a : api_call) : M (uds_state E) unit :=
  match a with
  | ApiInput data len => uds_input_sdu client_call (Some cfg) (Some data) len
  | ApiProcess => uds_process (Some cfg)
  | ApiClient the_sid data len cb => uds_client_request (Some cfg) the_sid (Some data) len cb ;; mret tt
  | ApiRespond bs => fill_tx cfg bs ;; uds_send_response (Some cfg) (Z.of_nat (length bs)) ;; mret tt
  | ApiNrc the_sid nrc => uds_send_nrc (Some cfg) the_sid nrc ;; mret tt
  end.

Section Input.
Context {E : Type} (env_ok : E -> Prop) (tb : N) (cfg : uds_config E).
Context `{Hok : !ConfigOk env_ok tb cfg} `{Hus : !UsersOk env_ok tb cfg}.
Context (client_call : N -> Z -> list Z -> Z -> M (uds_state E) unit).
Context `{Hclient : !ClientOk env_ok tb cfg client_call}.

Lemma client_response_run c data len (s : uds_state E) :
  1 <= len <= Z.of_nat (length data) ->
  (if negb (pending_sid c =? 0) then is_client_response c data (nth 0 data 0) len else mret false) s =
  Ok (answers c data len, s).
Proof.
  intros Hlen. unfold answers, is_client_response. destruct (negb _); [|done]. cbn [andb].
  destruct ((nth 0 data 0 =? UDS_NRC_SERVICE_NOT_SUPP_IN_SESS) && (2 <=? len)) eqn:H; [|done].
  bool_prop. erewrite bind_ok; [|erewrite bind_ok; [reflexivity|by apply data_at_nth; lia]]. done.
Qed.

Lemma quiet_run data len (s : uds_state E) :
  1 <= len <= Z.of_nat (length data) ->
  (if (nth 0 data 0 =? UDS_SID_TESTER_PRESENT) && (2 <=? len)
   then d1 ← data_at data 1; mret (negb (Z.land d1 128 =? 0)) else mret false) s =
  Ok (quiet_tester data len, s).
Proof.
  intros Hlen. unfold quiet_tester. destruct (_ && _) eqn:H; [|done]. bool_prop.
  by erewrite bind_ok by (by apply data_at_nth; lia).
Qed.

(** The body of [uds_input_sdu], by cases. *)
Lemma wp_input_body data len (Q : unit -> uds_state E -> Prop) c m e tr :
  env_ok e -> 1 <= len <= Z.of_nat (length data) ->
  (forall t e', 0 <= t < 2 ^ 32 -> env_ok e' -> clock_reads cfg e t -> let c1 := set_last_msg_time t c in
     (p2_msg_pending c = true -> quiet_tester data len = true -> Q tt (mkState c1 m e' tr)) /\
     (p2_msg_pending c = true -> quiet_tester data len = false ->
        wp (uds_send_nrc (Some cfg) (nth 0 data 0) UDS_NRC_BUSY_REPEAT_REQUEST) (fun _ => Q tt)
          (mkState c1 m e' tr)) /\
     (p2_msg_pending c = false -> answers c data len = true ->
        wp (deliver_response client_call c1 data (nth 0 data 0) len) Q (mkState c1 m e' tr)) /\
     (p2_msg_pending c = false -> answers c data len = false -> forall t2 e2, 0 <= t2 < 2 ^ 32 -> env_ok e2 ->
        wp (handle_request (Some cfg) data len) Q (mkState (fresh_ctx t t2 c) m e2 tr))) ->
  wp (input_sdu_body client_call (Some cfg) cfg data len) Q (mkState c m e tr).
Proof.
  intros He Hlen HQ. unfold input_sdu_body.
  apply wp_bind, (run_wp _ _ _ _ _ (data_at_nth data 0 _ ltac:(lia))).
  change (nth (Z.to_nat 0) data 0) with (nth 0 data 0).
  hstep. hstep. destruct (HQ t e' ltac:(lia) ltac:(done) ltac:(done)) as (Hq & Hbusy & Hans & Hreq). hstep. hstep. hstep. hstep.
  cbn [p2_msg_pending set_last_msg_time].
  destruct (p2_msg_pending c) eqn:Hp.
  - apply wp_bind, (run_wp _ _ _ _ _ (quiet_run data len _ Hlen)).
    destruct (quiet_tester data len); [by apply wp_ret, Hq|]. apply wp_bind.
    eapply wp_mono; [by apply Hbusy|]. intros ? s' HQ'. by apply wp_ret.
  - apply wp_bind, (run_wp _ _ _ _ _ (client_response_run _ data len _ Hlen)).
    change (answers (set_last_msg_time t c) data len) with (answers c data len).
    destruct (answers c data len); [by apply Hans|].
    hstep. eapply wp_time; [eassumption|done|]. intros t2 e2 Ht2 He2 _. repeat hstep. by apply Hreq.
Qed.
Lemma inv_parts c m e tr :
  ctx_ok c -> mem_ok tb cfg m -> env_ok e -> uds_inv env_ok tb cfg (mkState c m e tr).
Proof. by split. Qed.

(** Delivery calls the application back once, with what follows the SID. *)
Lemma wp_deliver_response data len s :
  uds_inv env_ok tb cfg s -> 1 <= len <= Z.of_nat (length data) -> len < 65536 ->
  wp (deliver_response client_call (ctx s) data (nth 0 data 0) len) (fun _ s' =>
    uds_inv env_ok tb cfg s' /\ ctx s' = set_pending_sid 0 (set_client_cb None (ctx s)) /\
    trace s' = trace s ++ match client_cb (ctx s) with
      | Some cb => [EvClientCb cb (nth 0 data 0) (take (Z.to_nat (len - 1)) (drop 1 data))]
      | None => []
      end) s.
Proof.
  intros Hinv Hlen Hlt. unfold deliver_response. u16_tac. apply wp_bind.
  destruct (client_cb (ctx s)) as [cb|] eqn:Hcb.
  - apply wp_bind, wp_data_from; [lia|]. apply wp_bind.
    eapply wp_mono; [by apply client_spec|]. intros _ s1 (Hi & Hc & Ht). change (Z.to_nat 1) with 1%nat.
    apply wp_bind, wp_emit, wp_mod_ctx, wp_mod_ctx. destruct s1 as [c1 m1 e1 tr1]; state_cbn; cbn [ctx trace] in *.
    destruct Hi as [Hic Him Hie]; cbn [ctx mem env] in *. subst. split; [|done].
    apply inv_parts; [ctx_ok_tac|done..].
  - apply wp_ret, wp_mod_ctx. destruct s as [c m e tr], Hinv as [Hic Him Hie]; state_cbn; cbn [ctx mem env] in *.
    split; [apply inv_parts; [ctx_ok_tac|done..]|]. rewrite app_nil_r. split; [|done].
    destruct c; cbn in *; by subst.
Qed.

Lemma sends_deliver c data len :
  sends (match client_cb c with
         | Some cb => [EvClientCb cb (nth 0 data 0) (take (Z.to_nat (len - 1)) (drop 1 data))]
         | None => [] end) = [].
Proof. by destruct (client_cb c). Qed.

(** The body between lock and unlock, whatever the SDU. *)
Lemma wp_input_any data len s :
  uds_inv env_ok tb cfg s -> Forall is_byte data -> 1 <= len <= Z.of_nat (length data) -> len < 65536 ->
  wp (input_sdu_body client_call (Some cfg) cfg data len) (fun _ s' =>
    uds_inv env_ok tb cfg s' /\ exists evs, trace s' = trace s ++ evs /\ mutex_ops evs = [] /\
      access_run (ctx s) (ctx s') evs /\
      ((exists b, sends evs = [b] /\ response_to (nth 0 data 0) b) \/
       (sends evs = [] /\ silent_ok cfg (ctx s) data len))) s.
Proof.
  intros Hinv Hb Hlen Hlt. destruct s as [c m e tr]. destruct Hinv as [Hc Hm He]. cbn [ctx mem env trace] in *.
  apply wp_input_body; [done..|]. intros t e1 Ht He1 Hclk c1.
  assert (Hc1 : ctx_ok c1) by (subst c1; ctx_ok_tac). split_and!.
  - intros Hp Hq. split; [by apply inv_parts|]. exists []. cbn [trace ctx]. rewrite app_nil_r.
    split; [done|split; [done|split; [by apply access_run_refl|]]]. right. split; [done|by left].
  - intros Hp Hq. eapply wp_mono; [apply (wp_reject _ _ _ _ _ false); by apply inv_parts|].
    intros _ s' ([Hi _] & Hcs & evs & Ht' & r & _ & ->). split; [done|]. eexists. split; [exact Ht'|].
    split; [done|]. split; [apply access_run_refl; by rewrite Hcs|]. left. eexists. split; [done|auto with uds].
  - intros Hp Ha. eapply wp_mono; [by apply (wp_deliver_response data len (mkState c1 m e1 tr)); [apply inv_parts|..]|].
    cbn [ctx trace]. intros _ s' (Hi & Hcs & Ht'). split; [done|]. eexists. split; [exact Ht'|].
    split; [by destruct (client_cb c1)|]. split; [apply access_run_refl; by rewrite Hcs|].
    right. split; [apply sends_deliver|]. by right; left.
  - intros Hp Ha t2 e2 Ht2 He2. assert (Hi0 : uds_inv env_ok tb cfg (mkState (fresh_ctx t t2 c) m e2 tr)) by (apply inv_parts; [ctx_ok_tac|done..]).
    eapply wp_mono; [by apply (request_ok _ _ _ data len _ Hi0)|].
    intros _ s' [Hi (evs & Ht' & Hm' & Hs & Hacc)]. split; [done|]. exists evs.
    split; [done|]. split; [done|]. split; [exact (access_step_run (nth 0 data 0) c (ctx s') evs Hacc)|].
    destruct Hs as [?|[? Hsup]]; [by left|right]. split; [done|]. right; right.
    by rewrite (suppressed_ext _ (fresh_ctx t t2 c) c) in Hsup.
Qed.

(** The lock around the body. *)
Lemma wp_input data len (Q : unit -> uds_state E -> Prop) s :
  env_ok (env s) -> len <> 0 ->
  (forall e', env_ok e' -> (forall t, clock_reads cfg e' t -> locked_at cfg (env s) t) ->
     wp (input_sdu_body client_call (Some cfg) cfg data len)
       (fun _ s1 => wp (unlock cfg) Q s1)
       (mkState (ctx s) (mem s) e' (trace s ++ lock_events cfg))) ->
  wp (uds_input_sdu client_call (Some cfg) (Some data) len) Q s.
Proof.
  intros He Hl HQ. unfold uds_input_sdu. destruct s as [c m e tr].
  apply wp_bind, (wp_lock env_ok tb); [done..|]. intros e1 He1 Hlk.
  rewrite (proj2 (Z.eqb_neq len 0)) by done. apply wp_bind. by apply HQ.
Qed.

Lemma wp_unlock_inv (Q : unit -> uds_state E -> Prop) s :
  uds_inv env_ok tb cfg s ->
  (forall s', uds_inv env_ok tb cfg s' -> ctx s' = ctx s -> trace s' = trace s ++ unlock_events cfg -> Q tt s') ->
  wp (unlock cfg) Q s.
Proof.
  intros [Hc Hm He] HQ. destruct s as [c m e tr]. apply (wp_unlock env_ok tb); [done..|]. intros e' He'.
  by apply HQ.
Qed.

(** The effect of [uds_input_sdu] on an SDU. *)
Lemma input_ok data len s :
  uds_inv env_ok tb cfg s -> Forall is_byte data -> 1 <= len <= Z.of_nat (length data) -> len < 65536 ->
  wp (uds_input_sdu client_call (Some cfg) (Some data) len) (fun _ s' =>
    uds_inv env_ok tb cfg s' /\ exists evs,
      trace s' = trace s ++ lock_events cfg ++ evs ++ unlock_events cfg /\ mutex_ops evs = [] /\
      access_run (ctx s) (ctx s') evs /\
      ((exists b, sends evs = [b] /\ response_to (nth 0 data 0) b) \/
       (sends evs = [] /\ silent_ok cfg (ctx s) data len))) s.
Proof.
  intros Hinv Hb Hlen Hlt. apply wp_input; [apply Hinv|lia|]. intros e' He' Hlk.
  destruct s as [c m e tr]; destruct Hinv as [Hc Hm He]; cbn [ctx mem env trace] in *.
  eapply wp_mono; [by apply (wp_input_any data len); [apply inv_parts|..]|].
  cbn [ctx trace]. intros _ s1 (Hi1 & evs & Ht & Hmx & Hacc & Hs).
  apply wp_unlock_inv; [done|]. intros s2 Hi2 Hc2 Ht2. split; [done|]. exists evs.
  rewrite Ht2, Ht, Hc2, <- !app_assoc. done.
Qed.

(** C5: Every non-empty SDU is handled between one lock and one unlock and is answered
    by at most one message, which is a negative response naming the SDU's service or a
    positive one with its identifier plus 0x40; silence is met only by a quiet
    TesterPresent while busy, by a message that answers the client's own request, or by
    a request whose positive response is suppressed. *)
Theorem input_effects data len s :
  uds_inv env_ok tb cfg s -> Forall is_byte data -> 1 <= len <= Z.of_nat (length data) -> len < 65536 ->
  wp (uds_input_sdu client_call (Some cfg) (Some data) len) (fun _ s' =>
    uds_inv env_ok tb cfg s' /\ exists evs,
      trace s' = trace s ++ lock_events cfg ++ evs ++ unlock_events cfg /\ mutex_ops evs = [] /\
      ((exists b, sends evs = [b] /\ response_to (nth 0 data 0) b) \/
       (sends evs = [] /\ silent_ok cfg (ctx s) data len))) s.
Proof.
  intros. eapply wp_mono; [by apply input_ok|]. intros _ s' (? & evs & ? & ? & ? & ?).
  split; [done|]. by exists evs.
Qed.

(** C21: An SDU that arrives while a deferred request is pending is not dispatched: a
    TesterPresent with bit 7 set only refreshes the S3 timer, anything else gets 0x21,
    and the pending request stays supervised unless the SDU names the same service, in
    which case it is forgotten. *)
Theorem busy_exact data len s :
  uds_inv env_ok tb cfg s -> 1 <= len <= Z.of_nat (length data) -> p2_msg_pending (ctx s) = true ->
  wp (uds_input_sdu client_call (Some cfg) (Some data) len) (fun _ s' =>
    exists t evs, locked_at cfg (env s) t /\
      trace s' = trace s ++ lock_events cfg ++ evs ++ unlock_events cfg /\
      if quiet_tester data len
      then evs = [] /\ ctx s' = set_last_msg_time t (ctx s)
      else rejected (nth 0 data 0) UDS_NRC_BUSY_REPEAT_REQUEST evs /\
        ctx s' = set_p2_msg_pending (negb (nth 0 data 0 =? pending_sid (ctx s)))
                   (set_last_msg_time t (ctx s))) s.
Proof.
  intros Hinv Hlen Hp. apply wp_input; [apply Hinv|lia|]. intros e' He' Hlk.
  destruct s as [c m e tr]; destruct Hinv as [Hc Hm He]; cbn [ctx mem env trace] in *.
  apply wp_input_body; [done..|]. intros t e1 Ht He1 Hclk c1.
  assert (Hc1 : ctx_ok c1) by (subst c1; ctx_ok_tac).
  split_and!; [intros _ Hq|intros _ Hq|congruence|congruence]; rewrite Hq.
  - apply wp_unlock_inv; [by apply inv_parts|]. intros s2 _ Hc2 Ht2.
    exists t, []. split; [by apply Hlk|]. rewrite Ht2, Hc2, app_nil_l. cbn [trace ctx]. by rewrite <- app_assoc.
  - eapply wp_mono; [apply (wp_reject _ _ _ _ _ false); by apply inv_parts|].
    intros _ s1 ([Hi _] & Hcs & evs & Ht' & Hr).
    apply wp_unlock_inv; [done|]. intros s2 _ Hc2 Ht2. exists t, evs. split; [by apply Hlk|].
    rewrite Ht2, Ht', Hc2, Hcs. cbn [trace]. rewrite <- !app_assoc. split; [done|]. split; [done|].
    unfold nrc_ctx. subst c1. cbn [ctx p2_msg_pending set_last_msg_time pending_sid]. by rewrite Hp.
Qed.

(** Delivery of an answer to the client. *)
Lemma response_ok data len s :
  uds_inv env_ok tb cfg s -> 1 <= len <= Z.of_nat (length data) -> len < 65536 ->
  p2_msg_pending (ctx s) = false -> answers (ctx s) data len = true ->
  wp (uds_input_sdu client_call (Some cfg) (Some data) len) (fun _ s' =>
    (exists t, ctx s' = set_pending_sid 0 (set_client_cb None (set_last_msg_time t (ctx s)))) /\
    trace s' = trace s ++ lock_events cfg ++
      match client_cb (ctx s) with
      | Some cb => [EvClientCb cb (nth 0 data 0) (take (Z.to_nat (len - 1)) (drop 1 data))]
      | None => []
      end ++ unlock_events cfg) s.
Proof.
  intros Hinv Hlen Hlt Hp Ha. apply wp_input; [apply Hinv|lia|]. intros e' He' Hlk.
  destruct s as [c m e tr]; destruct Hinv as [Hc Hm He]; cbn [ctx mem env trace] in *.
  apply wp_input_body; [done..|]. intros t e1 Ht He1 Hclk c1.
  assert (Hc1 : ctx_ok c1) by (subst c1; ctx_ok_tac).
  split_and!; [congruence|congruence|intros _ _|congruence].
  eapply wp_mono; [by apply (wp_deliver_response data len (mkState c1 m e1 (tr ++ lock_events cfg))); [apply inv_parts|..]|].
  cbn [ctx trace]. intros _ s1 (Hi & Hcs & Ht').
  apply wp_unlock_inv; [done|]. intros s2 _ Hc2 Ht2. split; [exists t; by rewrite Hc2, Hcs|].
  rewrite Ht2, Ht', <- !app_assoc. done.
Qed.

(** The bytes of a request in the transmit buffer. *)
Definition fill_request {E} (cfg : uds_config E) (the_sid : Z) (data : list Z) (len : Z) : M (uds_state E) unit :=
  tx_set cfg 0 the_sid ;;
  mwhen (len >? 0) (
    if len <=? Z.of_nat (length data) then blk_write (tx_buffer cfg) 1 (take (Z.to_nat len) data)
    else mfault OutOfBounds).

Lemma wp_fill_request the_sid data len (Q : unit -> uds_state E -> Prop) c m e tr l :
  0 <= len <= Z.of_nat (length data) -> len + 1 <= Z.of_nat (length l) ->
  (forall l2, length l2 = length l -> take (Z.to_nat (len + 1)) l2 = the_sid :: take (Z.to_nat len) data ->
     Q tt (mkState c (<[tb := l2]> m) e tr)) ->
  wp (fill_request cfg the_sid data len) Q (mkState c (<[tb := l]> m) e tr).
Proof.
  intros Hlen Hl HQ. apply wp_bind, (wp_tx_set env_ok); [exact Hok|lia|]. intros l1 -> Hl1 _.
  apply wp_when; rewrite Z.gtb_ltb; intros H; bool_prop.
  - rewrite (proj2 (Z.leb_le len _)) by lia.
    eapply wp_tx_bytes; [exact Hok|lia|rewrite length_take; lia|]. intros l2 -> Hl2 _. apply HQ; [lia|].
    replace (Z.to_nat (len + 1)) with (1 + length (take (Z.to_nat len) data))%nat by (rewrite length_take; lia).
    change (Z.to_nat 1) with 1%nat. change (Z.to_nat 0) with 0%nat.
    rewrite take_write_at by (rewrite length_take, length_write_at; cbn [length]; lia).
    by rewrite take_write_byte by length_tac.
  - apply HQ; [done|]. replace len with 0 by lia. change (Z.to_nat 0) with 0%nat.
    change (Z.to_nat (0 + 1)) with 1%nat. by rewrite take_write_byte by length_tac.
Qed.

(** Sending a request. *)
Lemma client_request_ok the_sid data len cb s :
  uds_inv env_ok tb cfg s -> 0 <= the_sid < 256 -> 0 <= len <= Z.of_nat (length data) ->
  wp (uds_client_request (Some cfg) the_sid (Some data) len cb) (fun r s' =>
    uds_inv env_ok tb cfg s' /\
    if tx_buffer_size cfg <? len + 1 then r = UDS_ERR_BUFFER_TOO_SMALL /\ s' = s
    else ctx s' = set_client_cb cb (set_pending_sid the_sid (ctx s)) /\
      trace s' = trace s ++ lock_events cfg ++
        [EvSend (the_sid :: take (Z.to_nat len) data) r] ++ unlock_events cfg) s.
Proof.
  intros Hinv Hsid Hlen. pose proof Hinv as Hinv'. xopen cfg Hinv. unfold uds_client_request.
  rewrite ok_tx, andb_false_r, Z.gtb_ltb. destruct (Z.ltb_spec (tx_buffer_size cfg) (len + 1)).
  { apply wp_ret. done. }
  apply wp_bind, (wp_lock env_ok tb); [done..|]. intros e1 He1 _. hstep. hstep. hstep. hstep. rewrite <- (ok_tx (cfg := cfg)).
  apply (wp_assoc (tx_set cfg 0 the_sid) (fun _ => mwhen (len >? 0) _) (fun _ => result ← _; _)), wp_bind.
  apply wp_fill_request; [done|lia|]. intros l2 Hl2 Htk. u16_tac. apply wp_bind. eapply wp_tp_send; [done|done|lia|].
  rewrite Htk. intros r e2 Hr He2. apply wp_bind, (wp_unlock env_ok tb); [done..|]. intros e3 He3. apply wp_ret.
  split; [apply inv_close; [ctx_ok_tac|done|done|lia]|]. split; [done|]. cbn [trace]. by rewrite <- !app_assoc.
Qed.

(** The application completing a deferred request. *)
Lemma respond_ok bs s :
  uds_inv env_ok tb cfg s -> Z.of_nat (length bs) < 65536 ->
  wp (fill_tx cfg bs ;; uds_send_response (Some cfg) (Z.of_nat (length bs))) (fun _ s' =>
    uds_inv env_ok tb cfg s' /\
    exists evs, trace s' = trace s ++ evs /\ (ctx s' = ctx s \/ ctx s' = resp_ctx (ctx s))) s.
Proof.
  intros Hinv Hlen. pose proof Hinv as Hinv'. xopen cfg Hinv. apply wp_bind. unfold fill_tx.
  apply wp_when; intros Hfit; bool_prop.
  - eapply wp_tx_bytes; [exact Hok|lia|lia|]. intros l1 _ Hl1 _.
    eapply wp_send_response; [exact Hok|done|lia|lia|]. intros r e' evs Hr He' _.
    split; [apply inv_close; [unfold resp_ctx; ctx_ok_tac|done|done|lia]|]. exists evs. split; [done|by right].
  - unfold uds_send_response. rewrite ok_tx, Z.gtb_ltb, (proj2 (Z.ltb_lt _ _)) by lia. apply wp_ret.
    split; [done|]. exists []. rewrite app_nil_r. split; [done|by left].
Qed.

(** A final answer: sent, unless the request asked for its suppression. *)
Lemma respond_sends bs s :
  uds_inv env_ok tb cfg s -> Z.of_nat (length bs) <= tx_buffer_size cfg ->
  wp (run_api client_call cfg (ApiRespond bs)) (fun _ s' =>
    uds_inv env_ok tb cfg s' /\ ctx s' = resp_ctx (ctx s) /\
    exists evs, trace s' = trace s ++ evs /\ sends evs = if suppress_pos_resp (ctx s) then [] else [bs]) s.
Proof.
  intros Hinv Hfit. xopen cfg Hinv. cbn [run_api]. apply wp_bind. unfold fill_tx.
  apply wp_when; intros Hle; bool_prop; [|lia].
  eapply wp_tx_bytes; [exact Hok|lia|lia|]. intros l1 -> Hl1 _. apply wp_bind.
  eapply wp_send_response; [exact Hok|done|lia|lia|]. cbn [ctx suppress_pos_resp].
  intros r e' evs Hr He' Hrep. apply wp_ret.
  split; [apply inv_close; [unfold resp_ctx; ctx_ok_tac|done|done|lia]|]. split; [done|]. exists evs. split; [done|].
  unfold reply in Hrep. destruct (suppress_pos_resp c); [by subst|]. destruct Hrep as (r' & _ & ->).
  rewrite Nat2Z.id. rewrite <- (Nat.add_0_l (length bs)) at 1. by rewrite take_write_at by lia.
Qed.

(** C24: The life of a deferred request under a response-pending limit, with no periodic
    message active: any number of turns of uds_process, then the application's answer
    through uds_send_response, then any number of turns more send at most the allowed
    number of 0x78 responses, one 0x22 only if all of them were used up, then, even
    after the 0x22, exactly the application's bytes, or nothing in their place if the
    request had its positive response suppressed, and nothing afterwards; no request is
    pending at the end. (The mutex callbacks are taken to return; a mutex that 0x22 has
    left locked is C10.) *)
Theorem deferred_completes k n bs s :
  uds_inv env_ok tb cfg s -> periodic_count (ctx s) = 0 -> p2_msg_pending (ctx s) = true ->
  0 < rcrrp_limit cfg < 65536 ->
  0 <= rcrrp_count (ctx s) <= rcrrp_limit cfg -> Z.of_nat (length bs) <= tx_buffer_size cfg ->
  wp (mfor (seq 0 k) (fun _ => uds_process (Some cfg)) ;;
      run_api client_call cfg (ApiRespond bs) ;;
      mfor (seq 0 n) (fun _ => uds_process (Some cfg))) (fun _ s' =>
    p2_msg_pending (ctx s') = false /\ exists (j : nat) (given_up : bool),
      rcrrp_count (ctx s) + Z.of_nat j <= rcrrp_limit cfg /\
      (given_up = true -> rcrrp_count (ctx s) + Z.of_nat j = rcrrp_limit cfg) /\
      sends (trace s') = sends (trace s) ++
        replicate j (negative (pending_sid (ctx s)) UDS_NRC_RESPONSE_PENDING) ++
        (if given_up then [negative (pending_sid (ctx s)) UDS_NRC_CONDITIONS_NOT_CORRECT] else []) ++
        (if suppress_pos_resp (ctx s) then [] else [bs])) s.
Proof.
  intros Hinv Hcnt Hp Hlim Hr Hfit. apply wp_bind.
  eapply wp_mono; [by apply (deferral_ok env_ok tb)|]. intros _ s1 (Hi1 & Hc1 & _ & Hsup1 & evs & Ht1 & Hv).
  apply wp_bind. eapply wp_mono; [by apply respond_sends|].
  intros _ s2 (Hi2 & Hc2 & evs2 & Ht2 & Hs2).
  eapply wp_mono; [apply (settled_ok env_ok tb); [done..|by rewrite Hc2|by rewrite Hc2]|].
  intros _ s3 (_ & Hp3 & Hs3). split; [done|]. rewrite Hs3, Ht2, Ht1, !sends_app, Hs2, Hsup1.
  destruct Hv as [j [(_ & _ & Hj & ->)|(_ & Hj & ->)]]; [exists j, false|exists j, true];
    (split; [lia|split; [done|]]); by rewrite <- !app_assoc.
Qed.

(** C22: A client request and its positive answer, with no deferred request pending: the
    request bytes are sent once under the lock, the answer is handed once to the
    callback given with the request, with the bytes after the service identifier, and
    afterwards no request and no callback are outstanding; nothing else is sent. *)
Theorem client_exchange the_sid data len cb answer alen s :
  uds_inv env_ok tb cfg s -> p2_msg_pending (ctx s) = false -> 0 < the_sid < 256 ->
  0 <= len <= Z.of_nat (length data) -> len + 1 <= tx_buffer_size cfg ->
  1 <= alen <= Z.of_nat (length answer) -> alen < 65536 ->
  nth 0 answer 0 = u8 (Z.lor the_sid UDS_RESPONSE_OFFSET) ->
  wp (uds_client_request (Some cfg) the_sid (Some data) len (Some cb) ;;
      uds_input_sdu client_call (Some cfg) (Some answer) alen) (fun _ s' =>
    pending_sid (ctx s') = 0 /\ client_cb (ctx s') = None /\
    exists r, trace s' = trace s ++
      (lock_events cfg ++ [EvSend (the_sid :: take (Z.to_nat len) data) r] ++ unlock_events cfg) ++
      (lock_events cfg ++ [EvClientCb cb (u8 (Z.lor the_sid UDS_RESPONSE_OFFSET))
                             (take (Z.to_nat (alen - 1)) (drop 1 answer))] ++ unlock_events cfg)) s.
Proof.
  intros Hinv Hp Hsid Hlen Hfit Halen Hlt Hans. apply wp_bind.
  eapply wp_mono; [apply client_request_ok; [done|lia|done]|]. intros r s1 [Hi1 H1].
  rewrite (proj2 (Z.ltb_ge _ _)) in H1 by lia. destruct H1 as [Hc1 Ht1].
  eapply wp_mono; [apply response_ok; try done; rewrite Hc1|].
  - done.
  - unfold answers. cbn [pending_sid set_client_cb set_pending_sid]. rewrite Hans, Z.eqb_refl.
    by rewrite (proj2 (Z.eqb_neq the_sid 0)) by lia.
  - intros _ s2 [[t Hc2] Ht2]. rewrite Hc2. split; [done|]. split; [done|]. exists r.
    rewrite Ht2, Ht1, Hc1, Hans. cbn [client_cb set_client_cb]. by rewrite <- !app_assoc.
Qed.

(** *** Access rights over a run *)

Lemma process_access s :
  uds_inv env_ok tb cfg s ->
  wp (uds_process (Some cfg)) (fun _ s' => uds_inv env_ok tb cfg s' /\
    exists evs, trace s' = trace s ++ evs /\ access_run (ctx s) (ctx s') evs) s.
Proof.
  intros Hinv. eapply wp_mono; [by apply (wp_uds_process env_ok tb cfg)|].
  intros _ s' (Hi & now & logs & rs & evss & _ & _ & _ & _ & Hx). split; [done|].
  assert (Ha : forall a evs, access_run (ctx s) (tick now (p2_ctx now a (s3_ctx now (ctx s)))) evs /\
    access_run (ctx s) (p2_ctx now a (s3_ctx now (ctx s))) evs).
  { intros a evs. destruct (tick_eq now (p2_ctx now a (s3_ctx now (ctx s)))) as (ts & -> & _).
    destruct (s3_access now (ctx s) evs) as [H1 H2]. split; by destruct a; split. }
  cbv zeta in Hx. destruct (p2_decide _ _ _).
  1,2: destruct Hx as (-> & _ & ->); eexists; split; [reflexivity|apply Ha].
  destruct Hx as (-> & ->). eexists; split; [reflexivity|]. apply (Ha P2GiveUp).
Qed.

Lemma run_api_ok a s :
  uds_inv env_ok tb cfg s -> api_ok a ->
  wp (run_api client_call cfg a) (fun _ s' => uds_inv env_ok tb cfg s' /\
    exists evs, trace s' = trace s ++ evs /\ access_run (ctx s) (ctx s') evs) s.
Proof.
  intros Hinv Ha. destruct a as [data len| |the_sid data len cb|bs|the_sid nrc]; cbn [run_api api_ok] in *.
  - destruct Ha as (Hb & Hlen & Hlt). destruct (decide (len = 0)) as [->|Hne].
    + destruct s as [c m e tr], Hinv as [Hc Hm He]. unfold uds_input_sdu.
      apply wp_bind, (wp_lock env_ok tb); [done..|]. intros e1 He1 _. cbn.
      apply (wp_unlock env_ok tb); [done..|]. intros e2 He2. split; [by apply inv_parts|].
      eexists. cbn [trace ctx]. rewrite <- app_assoc. split; [done|]. by apply access_run_refl.
    + eapply wp_mono; [by apply input_ok; [..|lia|]|].
      intros _ s' (Hi & evs & Ht & _ & Hacc & _). split; [done|]. eexists. split; [exact Ht|].
      by eapply access_run_same.
  - by apply process_access.
  - destruct Ha. apply wp_bind. eapply wp_mono; [by apply client_request_ok|]. intros r s' [Hi Hx]. apply wp_ret.
    split; [done|]. destruct (_ <? _).
    + destruct Hx as [_ ->]. exists []. rewrite app_nil_r. split; [done|]. by apply access_run_refl.
    + destruct Hx as [-> ->]. eexists. split; [reflexivity|]. by apply access_run_refl.
  - pose proof (respond_ok bs s Hinv Ha) as H. apply wp_bind_eq in H. apply wp_bind. eapply wp_mono; [exact H|].
    intros ? s1 H1. apply wp_bind. eapply wp_mono; [exact H1|]. intros r s' (Hi & evs & Ht & Hc). apply wp_ret.
    split; [done|]. exists evs. split; [done|]. by destruct Hc as [->| ->]; apply access_run_refl.
  - apply wp_bind. eapply wp_mono; [by apply (wp_reject env_ok tb cfg the_sid nrc false)|].
    intros r s' ([Hi _] & Hc & evs & Ht & _). apply wp_ret. split; [done|]. exists evs. split; [done|].
    rewrite Hc. by apply access_run_refl.
Qed.

Lemma run_apis_ok calls s :
  uds_inv env_ok tb cfg s -> Forall api_ok calls ->
  wp (mfor calls (run_api client_call cfg)) (fun _ s' => uds_inv env_ok tb cfg s' /\
    exists evs, trace s' = trace s ++ evs /\ access_run (ctx s) (ctx s') evs) s.
Proof.
  intros Hinv Hok'. apply (wp_for (fun calls s' => Forall api_ok calls /\ uds_inv env_ok tb cfg s' /\
    exists evs, trace s' = trace s ++ evs /\ access_run (ctx s) (ctx s') evs)).
  - split; [done|]. split; [done|]. exists []. rewrite app_nil_r. split; [done|]. by apply access_run_refl.
  - intros a calls' s1 (Hc & Hi & evs & Ht & Hacc). inversion_clear Hc.
    eapply wp_mono; [by apply run_api_ok|]. intros _ s2 (Hi2 & evs2 & Ht2 & Hacc2).
    split; [done|]. split; [done|]. exists (evs ++ evs2). rewrite Ht2, Ht, app_assoc. split; [done|].
    by eapply access_run_trans.
  - by intros s' (_ & H).
Qed.

(** C1: Any sequence of calls to uds_input_sdu, uds_process, uds_client_request,
    uds_send_response (after the application has filled the transmit buffer) and
    uds_send_nrc, with any bytes and lengths that match their buffers, runs to
    completion without undefined behaviour (no access outside a block, NULL call, over-
    wide shift or read of an unwritten byte), whatever the application callbacks answer
    within their contract (which asks for fn_periodic_read, optional in the header and
    called unchecked, C36), and keeps the state invariant: every context field within
    its C type, a shiftable session and security level, tables of eight slots, buffers
    of their configured size. *)
Theorem api_safe calls s :
  uds_inv env_ok tb cfg s -> Forall api_ok calls ->
  wp (mfor calls (run_api client_call cfg)) (fun _ s' => uds_inv env_ok tb cfg s') s.
Proof. intros. eapply wp_mono; [by apply run_apis_ok|]. by intros _ s' [? _]. Qed.

(** C4: Over any sequence of calls to the five public entry points that starts with the
    server locked, the server ends at a non-zero security level only if, during the run,
    the application's key callback was asked for exactly that level and accepted the
    key. *)
Theorem no_unlock_without_key calls s :
  uds_inv env_ok tb cfg s -> Forall api_ok calls -> security_level (ctx s) = 0 ->
  wp (mfor calls (run_api client_call cfg)) (fun _ s' => exists evs, trace s' = trace s ++ evs /\
    (security_level (ctx s') <> 0 -> exists key, EvKey (security_level (ctx s')) key 0 ∈ evs)) s.
Proof.
  intros Hinv Hc H0. eapply wp_mono; [by apply run_apis_ok|]. intros _ s' (_ & evs & Ht & [_ Hl]).
  exists evs. split; [done|]. intros Hne. destruct Hl as [?|[?|?]]; [congruence|done|done].
Qed.
End Input.
