(* ===== verification/CoreInit.v ===== *)
(** * Initialisation: [uds_init] of [src/core/uds_core.c]

    Its refusals, its exact effect, and that what it sets up lets any calls follow. *)

From S2P Require Import Prelude Monad Types Machine CoreBase Contract HandlerLogic Core CoreDispatch CoreApi.
From stdpp Require Import base gmap list strings numbers.

Open Scope Z_scope.

(** What [uds_init] insists on. *)
Definition init_valid {E} (ctx_nn : bool) (config : option (uds_config E)) : bool :=
  match config with
  | None => false
  | Some cfg =>
      ctx_nn && bool_decide (is_Some (get_time_ms cfg)) && bool_decide (is_Some (fn_tp_send cfg)) &&
      bool_decide (is_Some (rx_buffer cfg)) && bool_decide (is_Some (tx_buffer cfg))
  end.

(** A timing parameter: the configured value or its default, not below the
    floor that strict compliance sets. *)
Definition timing (strict : bool) (value default floor : Z) : Z :=
  let v := if 0 <? value then value else default in
  if strict then Z.max v floor else v.

(** The context before anything is loaded. *)
Definition init_ctx {E} (cfg : uds_config E) : uds_ctx :=
  set_p2_star_ms (timing (strict_compliance cfg) (cfg_p2_star_ms cfg) 5000 UDS_P2_STAR_MIN_SAFE_MS)
    (set_p2_ms (timing (strict_compliance cfg) (cfg_p2_ms cfg) 50 UDS_P2_MIN_SAFE_MS)
      (set_active_session UDS_SESSION_ID_DEFAULT zero_ctx)).

(** Two bytes of non-volatile state, if that many were loaded. *)
Definition loaded_ctx (res : Z) (bytes : list Z) (c : uds_ctx) : uds_ctx :=
  if res =? 2 then
    let st := write_at 0 bytes [0; 0] in
    set_security_level (nth 1 st 0) (set_active_session (nth 0 st 0) c)
  else c.

Section Init.
Context {E : Type} (env_ok : E -> Prop) (tb : N) (cfg : uds_config E).
Context `{Hok : !ConfigOk env_ok tb cfg}.

(** What was loaded decides whether the context is well formed. *)
Lemma loaded_ctx_ok res bytes :
  let c := loaded_ctx res bytes (init_ctx cfg) in
  1 <= active_session c <= 32 -> 0 <= security_level c < 32 -> ctx_ok c.
Proof.
  intros c Hs Hl. pose proof (ok_p2 (cfg := cfg)) as [Hp1 Hp2].
  assert (Ht : forall strict v d f w, 0 <= v < w -> 0 <= d < w -> 0 <= f < w -> 0 <= timing strict v d f < w).
  { intros strict v d f w Hv Hd Hf. unfold timing. destruct strict; case_match; lia. }
  subst c. unfold loaded_ctx in *. destruct (res =? 2); split; try done; split; ctx_cbn;
    try (by repeat constructor); try (apply Ht; done).
Qed.

Lemma init_ctx_ok : ctx_ok (init_ctx cfg).
Proof. apply (loaded_ctx_ok 0 []); cbn; unfold UDS_SESSION_ID_DEFAULT; lia. Qed.

(** uds_init without a context, a configuration, a clock, a transport or one of the
    buffers returns UDS_ERR_INVALID_ARG and changes nothing. *)
Theorem init_rejects ctx_nn (config : option (uds_config E)) s :
  init_valid ctx_nn config = false -> uds_init ctx_nn config s = Ok (UDS_ERR_INVALID_ARG, s).
Proof.
  unfold init_valid, uds_init. destruct config as [c|]; [|done]. destruct ctx_nn; [|done]. cbn [negb andb].
  destruct (get_time_ms c); [|done]. destruct (fn_tp_send c); [|done].
  destruct (rx_buffer c); [|done]. by destruct (tx_buffer c).
Qed.

(** Setting the context's fields one after the other. *)
Lemma wp_init_timing (Q : unit -> uds_state E -> Prop) c m e tr :
  env_ok e ->
  c = set_p2_star_ms (timing false (cfg_p2_star_ms cfg) 5000 0)
        (set_p2_ms (timing false (cfg_p2_ms cfg) 50 0) (set_active_session UDS_SESSION_ID_DEFAULT zero_ctx)) ->
  (forall e' evs, env_ok e' -> sends evs = [] -> Q tt (mkState (init_ctx cfg) m e' (tr ++ evs))) ->
  wp (mwhen (strict_compliance cfg) (
        c ← get_ctx;
        mwhen (p2_ms c <? UDS_P2_MIN_SAFE_MS) (mod_ctx (set_p2_ms UDS_P2_MIN_SAFE_MS)) ;;
        mwhen (p2_star_ms c <? UDS_P2_STAR_MIN_SAFE_MS) (mod_ctx (set_p2_star_ms UDS_P2_STAR_MIN_SAFE_MS)) ;;
        uds_internal_log (Some cfg) UDS_LOG_INFO "Strict Compliance: Enforcing minimum P2/P2* durations"))
    Q (mkState c m e tr).
Proof.
  intros He Hc HQ. unfold init_ctx in HQ. apply wp_when; intros Hs; rewrite Hs in HQ.
  - apply wp_bind, wp_get_ctx. cbn [ctx].
    assert (Hgo : forall c0, c0 = init_ctx cfg -> wp (uds_internal_log (Some cfg) UDS_LOG_INFO
      "Strict Compliance: Enforcing minimum P2/P2* durations") Q (mkState c0 m e tr)).
    { intros c0 ->. unfold init_ctx. rewrite Hs. hsteps. by apply HQ. }
    assert (Hv : p2_ms c = timing false (cfg_p2_ms cfg) 50 0 /\ p2_star_ms c = timing false (cfg_p2_star_ms cfg) 5000 0)
      by by rewrite Hc.
    destruct Hv as [Hv1 Hv2]. unfold init_ctx in Hgo. rewrite Hs in Hgo.
    unfold timing in *. set (a := if 0 <? cfg_p2_ms cfg then _ else _) in *.
    set (b := if 0 <? cfg_p2_star_ms cfg then _ else _) in *.
    apply wp_bind, wp_when; intros H1; rewrite Hv1 in H1; bool_prop.
    + apply wp_mod_ctx. state_cbn. apply wp_bind, wp_when; intros H2; rewrite Hv2 in H2; bool_prop.
      * apply wp_mod_ctx, Hgo. cbn [ctx]. rewrite Hc. by rewrite !Z.max_r by lia.
      * apply Hgo. rewrite Hc. by rewrite (Z.max_l b), (Z.max_r a) by lia.
    + apply wp_bind, wp_when; intros H2; rewrite Hv2 in H2; bool_prop.
      * apply wp_mod_ctx, Hgo. cbn [ctx]. rewrite Hc. by rewrite (Z.max_r b), (Z.max_l a) by lia.
      * apply Hgo. rewrite Hc. by rewrite !Z.max_l by lia.
  - rewrite <- (app_nil_r tr), Hc. by apply HQ.
Qed.

(** What was loaded: the callback's answer, nothing without one. *)
Definition nvm_loaded (c : uds_ctx) (res : Z) (bytes : list Z) : Prop :=
  match fn_nvm_load cfg with
  | Some f => returns env_ok (f c 2) (res, bytes)
  | None => res = 0
  end.

(** The run of uds_init: the outcome depends on what was loaded alone. *)
Lemma wp_init (Q : Z -> uds_state E -> Prop) c m e tr :
  env_ok e -> is_Some (rx_buffer cfg) ->
  (forall f c, fn_nvm_load cfg = Some f -> cb_ok env_ok (f c 2) (fun p => (length p.2 <= 2)%nat)) ->
  (forall res bytes e' evs, nvm_loaded (init_ctx cfg) res bytes -> env_ok e' -> sends evs = [] ->
     Q UDS_OK (mkState (loaded_ctx res bytes (init_ctx cfg)) m e' (tr ++ evs))) ->
  wp (uds_init true (Some cfg)) Q (mkState c m e tr).
Proof.
  intros He [rb Hrb] Hnvm HQ.
  destruct ok_time as (ft & Hft & _). destruct ok_tp as (fs & Hfs & _). pose proof (ok_tx (cfg := cfg)) as Htx.
  unfold nvm_loaded, uds_init in *. rewrite Hft, Hfs, Hrb, Htx. cbn [negb].
  do 8 hstep. do 8 hstep. apply wp_bind. rewrite !Z.gtb_ltb.
  eapply wp_init_timing; [done|reflexivity|]. intros e1 evs1 He1 Hs1. hstep.
  eapply wp_log; [eassumption|done|]. intros e2 evs2 He2 Hs2 _ _. hstep.
  destruct (fn_nvm_load cfg) as [f|] eqn:Hf.
  2: { hstep. hstep. rewrite <- app_assoc. apply (HQ 0 []); [done..|]. by rewrite sends_app, Hs1, Hs2. }
  hstep. hstep. hstep. eapply wp_cb; [by apply cb_ok_returns, Hnvm|done|]. intros [res bytes] e3 [Hb Hret] He3. cbn [fst snd] in *.
  hstep. hstep. rewrite (proj2 (Nat.leb_le _ _)) by done.
  assert (Hlen : length (write_at 0 bytes [0; 0]) = 2%nat) by (rewrite length_write_at; cbn; lia).
  specialize (HQ res bytes). unfold loaded_ctx in HQ. hstep.
  - subst res. hstep. apply (run_wp _ _ _ _ _ (data_at_nth (write_at 0 bytes [0; 0]) 0 _ ltac:(lia))).
    hstep. apply (run_wp _ _ _ _ _ (data_at_nth (write_at 0 bytes [0; 0]) 1 _ ltac:(lia))).
    do 5 hstep. intros. hstep. rewrite <- !app_assoc. apply HQ; [done..|]. by rewrite !sends_app, Hs1, Hs2.
  - rewrite (proj2 (Z.eqb_neq res 2)) in HQ by done. hstep. rewrite <- !app_assoc. apply HQ; [done..|].
    by rewrite !sends_app, Hs1, Hs2.
Qed.

(** C34: uds_init with a complete configuration clears the context, enters the default
    session locked, sets P2 and P2* from the configuration or their defaults, raised to
    the floors under strict compliance, then takes over two bytes of session and
    security level if the application's loader returns 2, sends nothing and returns
    UDS_OK; the invariant holds if the session now is 1 to 32 and the level 0 to 31,
    which the code does not check. *)
Theorem init_exact s :
  mem_ok tb cfg (mem s) -> env_ok (env s) -> is_Some (rx_buffer cfg) ->
  (forall f c, fn_nvm_load cfg = Some f -> cb_ok env_ok (f c 2) (fun p => (length p.2 <= 2)%nat)) ->
  wp (uds_init true (Some cfg)) (fun r s' => r = UDS_OK /\ sends (trace s') = sends (trace s) /\
    exists res bytes, nvm_loaded (init_ctx cfg) res bytes /\
      ctx s' = loaded_ctx res bytes (init_ctx cfg) /\
      (1 <= active_session (ctx s') <= 32 -> 0 <= security_level (ctx s') < 32 -> uds_inv env_ok tb cfg s')) s.
Proof.
  intros Hm He Hrx Hnvm. destruct s as [c m e tr]. cbn [mem env trace] in *.
  apply wp_init; [done..|]. intros res bytes e' evs Hl He' Hs. cbn [trace ctx]. split; [done|].
  split; [by rewrite sends_app, Hs, app_nil_r|]. exists res, bytes. split; [done|split; [done|]].
  intros Hse Hle. split; [by apply loaded_ctx_ok|done..].
Qed.

(** C35: From power-up on, whatever the context held before: if what the application's
    loader returns is a session of 1 to 32 and a level below 32, then after uds_init and
    any sequence of public calls every numeric field of the context lies in the range of
    its C type, the session can index a session mask, the level a level mask, and the
    periodic tables have eight slots. *)
Theorem power_up_typed client_call `{Hus : !UsersOk env_ok tb cfg} `{Hcl : !ClientOk env_ok tb cfg client_call} calls s :
  mem_ok tb cfg (mem s) -> env_ok (env s) -> is_Some (rx_buffer cfg) ->
  (forall f c, fn_nvm_load cfg = Some f -> cb_ok env_ok (f c 2) (fun p => (length p.2 <= 2)%nat)) ->
  (forall res bytes, nvm_loaded (init_ctx cfg) res bytes ->
     let c := loaded_ctx res bytes (init_ctx cfg) in 1 <= active_session c <= 32 /\ 0 <= security_level c < 32) ->
  Forall api_ok calls ->
  wp (uds_init true (Some cfg) ;; mfor calls (run_api client_call cfg)) (fun _ s' =>
    ctx_typed (ctx s') /\ 1 <= active_session (ctx s') <= 32 /\ 0 <= security_level (ctx s') < 32 /\
    length (periodic_ids (ctx s')) = 8%nat /\ length (periodic_rates (ctx s')) = 8%nat /\
    length (periodic_timers (ctx s')) = 8%nat) s.
Proof.
  intros Hm He Hrx Hnvm Hld Hcalls. destruct s as [c m e tr]. cbn [mem env] in *.
  apply wp_bind, wp_init; [done..|]. intros res bytes e' evs Hl He' _. destruct (Hld _ _ Hl) as [Hse Hle].
  assert (Hi : uds_inv env_ok tb cfg (mkState (loaded_ctx res bytes (init_ctx cfg)) m e' (tr ++ evs)))
    by (split; [by apply loaded_ctx_ok|done..]).
  eapply wp_mono; [exact (run_apis_ok env_ok tb cfg client_call calls _ Hi Hcalls)|].
  intros _ s' [[Hc _ _] _]. by destruct Hc.
Qed.
End Init.
