(* ===== verification/Tasks.v ===== *)
(** * Several tasks on one stack

    [docs/OSAL.md] promises that [uds_process], [uds_input_sdu] and
    [uds_client_request] may be called from several tasks if the application gives the
    stack a mutex. Here the calls of different tasks interleave, step by step, on the
    shared state; [fn_mutex_lock] blocks while another task holds the mutex, and a
    configuration without the callbacks takes and gives none. With them, the calls that
    take the mutex are serialisable, and nothing blocks for ever except behind an
    [uds_process] that returned without releasing the mutex, as it does when it gives a
    deferred request up. [uds_send_response] and
    [uds_send_nrc], which the application calls to complete a deferred request, take no
    mutex. *)

From S2P Require Import Prelude Monad Types Machine CoreBase Contract HandlerLogic.
From S2P Require Import Core CoreDispatch CoreProcess CoreApi.
From stdpp Require Import base gmap list strings numbers relations.

Open Scope Z_scope.

(** ** Calls as the steps a task takes *)

(** What is left of a call: nothing, the release of the mutex, or a step on the shared
    state and what follows it. *)
Inductive script (S : Type) : Type :=
| Done
| Give
| Step {A : Type} (m : M S A) (k : A -> script S).
Arguments Done {_}.
Arguments Give {_}.
Arguments Step {_ _} _ _.

(** How a call begins: refused by the checks of its arguments, by taking the mutex, or
    without it. *)
Inductive entry (S : Type) : Type :=
| Refused
| Locked (p : script S)
| Unlocked (p : script S).
Arguments Refused {_}.
Arguments Locked {_} _.
Arguments Unlocked {_} _.

Section Scripts.
Context {E : Type} (client_call : N -> Z -> list Z -> Z -> M (uds_state E) unit) (cfg : uds_config E).

(** Where the code of a call may be interrupted by other tasks. *)
Definition process_script : script (uds_state E) :=
  Step (time_ms cfg) (fun now =>
  Step (process_s3 (Some cfg) now) (fun _ =>
  Step (process_p2 (Some cfg) cfg now) (fun returned =>
  if (returned : bool) then Done else Step (process_periodic cfg now) (fun _ => Give)))).

Definition input_script (data : list Z) (len : Z) : script (uds_state E) :=
  if len =? 0 then Give else Step (input_sdu_body client_call (Some cfg) cfg data len) (fun _ => Give).

Definition client_script (the_sid : Z) (data : list Z) (len : Z) (callback : option N) : script (uds_state E) :=
  Step (mod_ctx (set_pending_sid the_sid) ;; mod_ctx (set_client_cb callback)) (fun _ =>
  Step (fill_request cfg the_sid data len) (fun _ =>
  Step (tp_send cfg (u16 (len + 1))) (fun _ => Give))).

Definition enter (a : api_call) : entry (uds_state E) :=
  match a with
  | ApiInput data len => Locked (input_script data len)
  | ApiProcess => Locked process_script
  | ApiClient the_sid data len cb =>
      match tx_buffer cfg with
      | None => Refused
      | Some _ => if len + 1 >? tx_buffer_size cfg then Refused else Locked (client_script the_sid data len cb)
      end
  | ApiRespond bs =>
      Unlocked (Step (fill_tx cfg bs) (fun _ =>
                Step (uds_send_response (Some cfg) (Z.of_nat (length bs))) (fun _ => Done)))
  | ApiNrc the_sid nrc => Unlocked (Step (uds_send_nrc (Some cfg) the_sid nrc) (fun _ => Done))
  end.

(** Running to the end without interruption. *)
Fixpoint run_script (p : script (uds_state E)) : M (uds_state E) unit :=
  match p with
  | Done => mret tt
  | Give => unlock cfg
  | Step m k => a ← m; run_script (k a)
  end.

Definition run_entry (e : entry (uds_state E)) : M (uds_state E) unit :=
  match e with
  | Refused => mret tt
  | Locked p => lock cfg ;; run_script p
  | Unlocked p => run_script p
  end.

(** The steps are the code's. *)
Lemma enter_sound a s : run_entry (enter a) s = run_api client_call cfg a s.
Proof.
  unfold mbind, M_bind, mret, M_ret. destruct a as [data len| |the_sid data len cb|bs|the_sid nrc];
    cbn [enter run_entry run_api].
  - unfold input_script, uds_input_sdu, mbind, M_bind. destruct (lock cfg s) as [[[] s1]|]; [|done].
    destruct (len =? 0); [done|]. cbn. unfold mbind, M_bind. by destruct (input_sdu_body client_call (Some cfg) cfg data len s1) as [[[] s2]|].
  - unfold uds_process, mbind, M_bind. destruct (lock cfg s) as [[[] s1]|]; [|done]. cbn. unfold mbind, M_bind.
    destruct (time_ms cfg s1) as [[now s2]|]; [|done]. destruct (process_s3 _ _ s2) as [[[] s3]|]; [|done].
    destruct (process_p2 _ _ _ s3) as [[[] s4]|]; [done| |done]. cbn. unfold mbind, M_bind.
    by destruct (process_periodic _ _ s4) as [[[] s5]|].
  - unfold uds_client_request, mbind, M_bind. destruct (tx_buffer cfg) eqn:Htx; [|done]. rewrite andb_false_r.
    destruct (len + 1 >? tx_buffer_size cfg); [done|]. cbn [run_entry]. unfold mbind, M_bind.
    destruct (lock cfg s) as [[[] s1]|]; [|done]. unfold client_script, fill_request. cbn [run_script].
    rewrite Htx. unfold mod_ctx, mbind, M_bind. cbv beta iota.
    destruct (tx_set cfg 0 the_sid _) as [[[] s2]|]; [|done].
    destruct (mwhen _ _ s2) as [[[] s3]|]; [|done].
    destruct (tp_send cfg _ s3) as [[r s4]|]; [|done]. by destruct (unlock cfg s4) as [[[] s5]|].
  - cbn. unfold mbind, M_bind. destruct (fill_tx cfg bs s) as [[[] s1]|]; [|done].
    by destruct (uds_send_response (Some cfg) (Z.of_nat (length bs)) s1) as [[r s2]|].
  - cbn. unfold mbind, M_bind. by destruct (uds_send_nrc (Some cfg) the_sid nrc s) as [[r s2]|].
Qed.

(** ** Interleaving *)

(** A task: the rest of the call it is in, and the calls it has still to make. *)
Record task : Type := mkTask { code : script (uds_state E); todo : list api_call }.

(** The shared state, who holds the mutex, the tasks, and as a ghost the calls that have
    begun, in the order in which they took the mutex. *)
Record world : Type := mkWorld {
  shared : uds_state E;
  owner : option nat;
  tasks : list task;
  begun : list (nat * api_call)
}.

(** Who holds the mutex once task [t] has called [fn_mutex_lock], if it can: the call
    blocks while another task holds it; without the callback nothing is taken and nothing
    blocks. [fn_mutex_unlock] gives it back; without the callback nothing does. *)
Definition acquire (t : nat) (o : option nat) : option (option nat) :=
  match fn_mutex_lock cfg, o with
  | None, _ => Some o
  | Some _, None => Some (Some t)
  | Some _, Some _ => None
  end.
Definition release (o : option nat) : option nat :=
  match fn_mutex_unlock cfg with Some _ => None | None => o end.

Lemma acquire_none t : acquire t None = Some (match fn_mutex_lock cfg with Some _ => Some t | None => None end).
Proof. unfold acquire. by destruct (fn_mutex_lock cfg). Qed.

Inductive task_step : world -> world -> Prop :=
| ts_refused s o ts os t a calls :
    ts !! t = Some (mkTask Done (a :: calls)) -> enter a = Refused ->
    task_step (mkWorld s o ts os) (mkWorld s o (<[t := mkTask Done calls]> ts) (os ++ [(t, a)]))
| ts_lock s s' o o' ts os t a calls p :
    ts !! t = Some (mkTask Done (a :: calls)) -> enter a = Locked p ->
    acquire t o = Some o' -> lock cfg s = Ok (tt, s') ->
    task_step (mkWorld s o ts os) (mkWorld s' o' (<[t := mkTask p calls]> ts) (os ++ [(t, a)]))
| ts_unlocked s o ts os t a calls p :
    ts !! t = Some (mkTask Done (a :: calls)) -> enter a = Unlocked p ->
    task_step (mkWorld s o ts os) (mkWorld s o (<[t := mkTask p calls]> ts) (os ++ [(t, a)]))
| ts_step s s' o ts os t A (m : M (uds_state E) A) k a calls :
    ts !! t = Some (mkTask (Step m k) calls) -> m s = Ok (a, s') ->
    task_step (mkWorld s o ts os) (mkWorld s' o (<[t := mkTask (k a) calls]> ts) os)
| ts_give s s' o ts os t calls :
    ts !! t = Some (mkTask Give calls) -> unlock cfg s = Ok (tt, s') ->
    task_step (mkWorld s o ts os) (mkWorld s' (release o) (<[t := mkTask Done calls]> ts) os).

(** The step of task [t], if it has one: what a task does is determined, which task moves
    is not. *)
Definition exec (t : nat) (w : world) : option world :=
  match tasks w !! t with
  | Some (mkTask Done (a :: calls)) =>
      match enter a with
      | Refused => Some (mkWorld (shared w) (owner w) (<[t := mkTask Done calls]> (tasks w)) (begun w ++ [(t, a)]))
      | Locked p =>
          match acquire t (owner w), lock cfg (shared w) with
          | Some o', Ok (_, s') => Some (mkWorld s' o' (<[t := mkTask p calls]> (tasks w)) (begun w ++ [(t, a)]))
          | _, _ => None
          end
      | Unlocked p => Some (mkWorld (shared w) (owner w) (<[t := mkTask p calls]> (tasks w)) (begun w ++ [(t, a)]))
      end
  | Some (mkTask (Step m k) calls) =>
      match m (shared w) with
      | Ok (a, s') => Some (mkWorld s' (owner w) (<[t := mkTask (k a) calls]> (tasks w)) (begun w))
      | Fault _ => None
      end
  | Some (mkTask Give calls) =>
      match unlock cfg (shared w) with
      | Ok (_, s') => Some (mkWorld s' (release (owner w)) (<[t := mkTask Done calls]> (tasks w)) (begun w))
      | Fault _ => None
      end
  | _ => None
  end.

Fixpoint run_schedule (sched : list nat) (w : world) : option world :=
  match sched with
  | [] => Some w
  | t :: sched => w' ← exec t w; run_schedule sched w'
  end.

Lemma exec_step w w' : task_step w w' <-> exists t, exec t w = Some w'.
Proof.
  split.
  - destruct 1 as [s o ts os t a cs Ht He|s s' o o' ts os t a cs p Ht He Hq Hm|s o ts os t a cs p Ht He|
      s s' o ts os t A m k a cs Ht Hm|s s' o ts os t cs Ht Hm]; exists t; unfold exec; cbn [tasks owner shared begun];
      by rewrite Ht, ?He, ?Hq, ?Hm.
  - intros [t H]. destruct w as [s o ts os]. unfold exec in H; cbn [tasks owner shared begun] in H.
    destruct (ts !! t) as [[[| |A m k] cs]|] eqn:Ht; [| | |done].
    + destruct cs as [|a cs]; [done|]. destruct (enter a) as [|p|p] eqn:He.
      * injection H as <-. by eapply ts_refused.
      * destruct (acquire t o) as [o'|] eqn:Hq; [|done]. destruct (lock cfg s) as [[[] s']|] eqn:Hm; [|done]. injection H as <-. by eapply ts_lock.
      * injection H as <-. by eapply ts_unlocked.
    + destruct (unlock cfg s) as [[[] s']|] eqn:Hm; [|done].
      injection H as <-. by eapply ts_give.
    + destruct (m s) as [[a s']|] eqn:Hm; [|done]. injection H as <-. by eapply ts_step.
Qed.

Lemma schedule_runs sched w w' : run_schedule sched w = Some w' -> nsteps task_step (length sched) w w'.
Proof.
  revert w. induction sched as [|t sched IH]; intros w H; cbn in H; [injection H as ->; constructor|].
  destruct (exec t w) as [w1|] eqn:He; [|done]. econstructor; [|by apply IH]. apply exec_step. by exists t.
Qed.

(** All tasks between calls, the mutex free. *)
Definition start (s : uds_state E) (calls : list (list api_call)) : world :=
  mkWorld s None (map (mkTask Done) calls) [].

(** The calls of task [t], in order. *)
Definition by_task (t : nat) (os : list (nat * api_call)) : list api_call :=
  omap (fun x => if decide (x.1 = t) then Some x.2 else None) os.

(** ** Serialisability *)

Section Mutex.
Context (Hmutex : is_Some (fn_mutex_lock cfg)).

(** With [fn_mutex_lock] the mutex is taken by one task at a time. *)
Lemma acquire_free t o o' : acquire t o = Some o' -> o = None /\ o' = Some t.
Proof. unfold acquire. destruct Hmutex as [f ->]. destruct o; [done|]. by intros [= <-]. Qed.

(** The calls that take the mutex. *)
Definition locked_call (a : api_call) : Prop :=
  match a with ApiInput _ _ | ApiProcess | ApiClient _ _ _ _ => True | _ => False end.

(** What the holder of the mutex still has to do. *)
Definition residual (w : world) : script (uds_state E) :=
  match owner w with
  | Some t => match tasks w !! t with Some tk => code tk | None => Done end
  | None => Done
  end.

(** The run so far is the serial run of the calls that have begun, but for the rest of
    the one that holds the mutex; only that one is under way; every task makes its calls
    in its own order. *)
Record serial (calls : list (list api_call)) (s0 : uds_state E) (w : world) : Prop := {
  sr_prog (t : nat) c : calls !! t = Some c ->
    exists tk, tasks w !! t = Some tk /\ c = by_task t (begun w) ++ todo tk;
  sr_len : length (tasks w) = length calls;
  sr_owner (t : nat) : owner w = Some t -> is_Some (tasks w !! t);
  sr_idle (t : nat) tk : tasks w !! t = Some tk -> owner w <> Some t -> code tk = Done;
  sr_run : mfor (map snd (begun w)) (run_api client_call cfg) s0 = run_script (residual w) (shared w)
}.

Lemma by_task_snoc t os t' a :
  by_task t (os ++ [(t', a)]) = by_task t os ++ (if decide (t' = t) then [a] else []).
Proof. unfold by_task. rewrite omap_app. f_equal. cbn. by destruct (decide (t' = t)). Qed.

Lemma mfor_snoc {S T} (l : list T) x (f : T -> M S unit) s :
  mfor (l ++ [x]) f s = match mfor l f s with Ok (_, s') => f x s' | Fault e => Fault e end.
Proof.
  rewrite mfor_app. unfold mbind, M_bind. destruct (mfor l f s) as [[[] s']|]; [|done]. cbn.
  unfold mbind, M_bind. by destruct (f x s') as [[[] s2]|].
Qed.

(** The program order, when task [t] begins its next call. *)
Lemma prog_begin (calls : list (list api_call)) (ts : list task) os (t : nat) a p cs :
  (forall (t : nat) c, calls !! t = Some c -> exists tk, ts !! t = Some tk /\ c = by_task t os ++ todo tk) ->
  ts !! t = Some (mkTask Done (a :: cs)) ->
  forall (t' : nat) c, calls !! t' = Some c ->
    exists tk, <[t := mkTask p cs]> ts !! t' = Some tk /\ c = by_task t' (os ++ [(t, a)]) ++ todo tk.
Proof.
  intros H Ht t' c Hc. destruct (H t' c Hc) as (tk & Htk & ->). rewrite by_task_snoc.
  destruct (decide (t = t')) as [<-|Hne].
  - rewrite Ht in Htk. injection Htk as <-. exists (mkTask p cs).
    rewrite list_lookup_insert_eq by by eapply lookup_lt_Some. by rewrite <- app_assoc.
  - exists tk. rewrite list_lookup_insert_ne by done. by rewrite app_nil_r.
Qed.

(** And when it goes on with the one it is in. *)
Lemma prog_go (calls : list (list api_call)) (ts : list task) os (t : nat) p p' cs :
  (forall (t : nat) c, calls !! t = Some c -> exists tk, ts !! t = Some tk /\ c = by_task t os ++ todo tk) ->
  ts !! t = Some (mkTask p cs) ->
  forall (t' : nat) c, calls !! t' = Some c ->
    exists tk, <[t := mkTask p' cs]> ts !! t' = Some tk /\ c = by_task t' os ++ todo tk.
Proof.
  intros H Ht t' c Hc. destruct (H t' c Hc) as (tk & Htk & ->). destruct (decide (t = t')) as [<-|Hne].
  - rewrite Ht in Htk. injection Htk as <-. exists (mkTask p' cs).
    by rewrite list_lookup_insert_eq by by eapply lookup_lt_Some.
  - exists tk. by rewrite list_lookup_insert_ne by done.
Qed.

Lemma serial_start calls s0 : serial calls s0 (start s0 calls).
Proof.
  split; cbn [tasks owner begun shared start].
  - intros t c Hc. exists (mkTask Done c). by rewrite list_lookup_fmap, Hc.
  - apply length_fmap.
  - done.
  - intros t tk Ht _. rewrite list_lookup_fmap in Ht. apply fmap_Some in Ht as (c & _ & ->). done.
  - done.
Qed.

(** Where every call takes the mutex, none begins without it. *)
Lemma not_unlocked (calls : list (list api_call)) (ts : list task) os (t : nat) a cs p :
  Forall (Forall locked_call) calls -> length ts = length calls ->
  (forall (t : nat) c, calls !! t = Some c -> exists tk, ts !! t = Some tk /\ c = by_task t os ++ todo tk) ->
  ts !! t = Some (mkTask Done (a :: cs)) -> enter a <> Unlocked p.
Proof.
  intros Hlk Hlen Hp Ht He. destruct (lookup_lt_is_Some_2 calls t) as [c Hc]; [apply lookup_lt_Some in Ht; lia|].
  destruct (Hp t c Hc) as (tk & Htk & ->). rewrite Ht in Htk. injection Htk as <-.
  pose proof (Forall_lookup_1 _ _ _ _ Hlk Hc) as H.
  apply Forall_app in H as [_ H]. inversion_clear H as [|? ? Ha _]. by destruct a; cbn in He; repeat case_match.
Qed.

(** Owners are tasks. *)
Local Ltac owner_tac :=
  let t' := fresh in let Ho := fresh in
  intros t' Ho; apply lookup_lt_is_Some_2; rewrite length_insert;
  first [by injection Ho as <-|by apply lookup_lt_is_Some_1; eauto].

Lemma serial_step calls s0 w w' :
  Forall (Forall locked_call) calls -> serial calls s0 w -> task_step w w' -> serial calls s0 w'.
Proof.
  intros Hlk [Hp Hlen Hown Hidle Hrun] Hst.
  destruct Hst as [s o ts os t a cs Ht He|s s' o o' ts os t a cs p Ht He Hq Hm|s o ts os t a cs p Ht He|
    s s' o ts os t A m k a cs Ht Hm|s s' o ts os t cs Ht Hm]; cbn [tasks owner begun shared] in *;
    pose proof (lookup_lt_Some _ _ _ Ht) as Hlt.
  - split; cbn [tasks owner begun shared].
    + by apply (prog_begin _ _ _ _ _ _ _ Hp).
    + by rewrite length_insert.
    + owner_tac.
    + intros t' tk Ht' Ho. apply list_lookup_insert_Some in Ht' as [(-> & <- & _)|(_ & Ht')]; [done|by eapply Hidle].
    + rewrite map_app. cbn [map snd]. rewrite mfor_snoc, Hrun.
      assert (Hr : residual (mkWorld s o (<[t:=mkTask Done cs]> ts) (os ++ [(t, a)])) = residual (mkWorld s o ts os)).
      { unfold residual; cbn [owner tasks]. destruct o as [t'|]; [|done]. destruct (decide (t = t')) as [<-|Hne].
        - by rewrite list_lookup_insert_eq, Ht.
        - by rewrite list_lookup_insert_ne. }
      rewrite Hr. destruct (run_script _ s) as [[[] s1]|]; [|done]. by rewrite <- enter_sound, He.
  - apply acquire_free in Hq as [-> ->]. split; cbn [tasks owner begun shared].
    + by apply (prog_begin _ _ _ _ _ _ _ Hp).
    + by rewrite length_insert.
    + owner_tac.
    + intros t' tk Ht' Ho. apply list_lookup_insert_Some in Ht' as [(-> & _ & _)|(_ & Ht')]; [done|by eapply Hidle].
    + rewrite map_app. cbn [map snd]. rewrite mfor_snoc, Hrun. unfold residual; cbn [owner tasks].
      rewrite list_lookup_insert_eq by done. cbn [run_script code]. unfold mret, M_ret.
      rewrite <- enter_sound, He. cbn [run_entry]. by rewrite (bind_ok _ _ _ _ _ Hm).
  - by destruct (not_unlocked calls ts os t a cs p).
  - assert (Ho : o = Some t).
    { destruct (decide (o = Some t)) as [|Hne]; [done|]. by specialize (Hidle t _ Ht Hne). }
    subst o. split; cbn [tasks owner begun shared].
    + by eapply (prog_go _ _ _ _ _ _ _ Hp).
    + by rewrite length_insert.
    + owner_tac.
    + intros t' tk Ht' Ho. apply list_lookup_insert_Some in Ht' as [(-> & _ & _)|(_ & Ht')]; [done|by eapply Hidle].
    + rewrite Hrun. unfold residual; cbn [owner tasks]. rewrite Ht, list_lookup_insert_eq by done.
      cbn [run_script code]. by rewrite (bind_ok _ _ _ _ _ Hm).
  - assert (Ho : o = Some t).
    { destruct (decide (o = Some t)) as [|Hne]; [done|]. by specialize (Hidle t _ Ht Hne). }
    subst o. assert (Hrel : release (Some t) = None \/ release (Some t) = Some t)
      by (unfold release; destruct (fn_mutex_unlock cfg); auto).
    split; cbn [tasks owner begun shared].
    + by eapply (prog_go _ _ _ _ _ _ _ Hp).
    + by rewrite length_insert.
    + intros t' Ho. apply lookup_lt_is_Some_2. rewrite length_insert. destruct Hrel; congruence.
    + intros t' tk Ht' _. apply list_lookup_insert_Some in Ht' as [(-> & <- & _)|(Hne & Ht')]; [done|].
      apply (Hidle t' tk Ht'). congruence.
    + rewrite Hrun. unfold residual; cbn [owner tasks]. rewrite Ht. cbn [run_script code]. rewrite Hm.
      destruct Hrel as [-> | ->]; [done|]. by rewrite list_lookup_insert_eq.
Qed.

Lemma serial_reachable calls s0 w :
  Forall (Forall locked_call) calls -> rtc task_step (start s0 calls) w -> serial calls s0 w.
Proof.
  intros Hlk Hr. pose proof (serial_start calls s0) as H. revert H.
  induction Hr as [|w1 w2 w3 Hst _ IH]; intros H; [done|]. apply IH. by eapply serial_step.
Qed.

(** C8: Tasks that call uds_process, uds_input_sdu and uds_client_request on one stack
    with fn_mutex_lock configured are serialisable: whatever the interleaving of their
    steps, whenever the mutex is free the state (and with it every message sent and
    callback made) is exactly that of making the calls begun so far one after the other
    in the order in which they took the mutex, which keeps every task's own order. *)
Theorem tasks_serialisable calls s0 w :
  Forall (Forall locked_call) calls -> rtc task_step (start s0 calls) w -> owner w = None ->
  mfor (map snd (begun w)) (run_api client_call cfg) s0 = Ok (tt, shared w) /\
  forall (t : nat) c, calls !! t = Some c ->
    exists rest, tasks w !! t = Some (mkTask Done rest) /\ c = by_task t (begun w) ++ rest.
Proof.
  intros Hlk Hr Ho. destruct (serial_reachable calls s0 w Hlk Hr) as [Hp _ _ Hidle Hrun].
  unfold residual in Hrun. rewrite Ho in Hrun. split; [done|]. intros t c Hc.
  destruct (Hp t c Hc) as (tk & Htk & ->). exists (todo tk). split; [|done].
  rewrite Htk. specialize (Hidle t tk Htk ltac:(congruence)). destruct tk; cbn in *. by subst.
Qed.

(** ** The mutex that is not released *)

(** The holder of the mutex is not in a call any more. *)
Definition leaked (w : world) : Prop :=
  exists t tk, owner w = Some t /\ tasks w !! t = Some tk /\ code tk = Done.

(** A call that releases the mutex whatever its steps answer. *)
Fixpoint releases (p : script (uds_state E)) : Prop :=
  match p with
  | Done => False
  | Give => True
  | Step m k => forall s a s', m s = Ok (a, s') -> releases (k a)
  end.

(** Only a response-pending limit lets a call return with the mutex. *)
Lemma process_p2_goes_on now s s' :
  rcrrp_limit cfg = 0 -> process_p2 (Some cfg) cfg now s <> Ok (true, s').
Proof.
  intros Hl. unfold process_p2, mbind, M_bind, get_ctx. destruct (p2_msg_pending (ctx s)); [|done].
  destruct (_ <=? _); [|done]. rewrite Hl. cbn [Z.gtb Z.compare andb].
  destruct (uds_send_nrc _ _ _ s) as [[r s1]|]; [|done]. cbn. done.
Qed.

Lemma enter_releases a p : rcrrp_limit cfg = 0 -> enter a = Locked p -> releases p.
Proof.
  intros Hl He. destruct a as [data len| |the_sid data len cb|bs|the_sid nrc]; cbn [enter] in He; try done.
  - injection He as <-. unfold input_script. destruct (len =? 0); [done|]. by intros s [] s' _.
  - injection He as <-. intros s now s1 _ s2 [] s3 _ s4 [] s5 Hp; [by apply process_p2_goes_on in Hp|].
    by intros s6 [] s7 _.
  - destruct (tx_buffer cfg); [|done]. destruct (_ >? _); [done|]. injection He as <-.
    by intros s [] s1 _ s2 [] s3 _ s4 r s5 _.
Qed.

Context (Hgives : is_Some (fn_mutex_unlock cfg)).

Lemma release_free o : release o = None.
Proof. unfold release. by destruct Hgives as [f ->]. Qed.

Lemma holder_releases calls s0 w :
  rcrrp_limit cfg = 0 -> Forall (Forall locked_call) calls -> rtc task_step (start s0 calls) w ->
  forall t tk, owner w = Some t -> tasks w !! t = Some tk -> releases (code tk).
Proof.
  intros Hl Hlk Hr.
  assert (H0 : forall t tk, owner (start s0 calls) = Some t -> tasks (start s0 calls) !! t = Some tk -> releases (code tk))
    by done.
  pose proof (serial_start calls s0) as Hs. revert H0 Hs.
  induction Hr as [|w1 w2 w3 Hst _ IH]; intros H0 Hs; [done|]. apply IH; [|by eapply serial_step]. clear IH.
  destruct Hs as [_ _ _ Hidle _].
  destruct Hst as [s o ts os t a cs Ht He|s s' o o' ts os t a cs p Ht He Hq Hm|s o ts os t a cs p Ht He|
    s s' o ts os t A m k a cs Ht Hm|s s' o ts os t cs Ht Hm]; cbn [tasks owner] in *; intros t' tk Ho Ht';
    rewrite ?release_free in Ho; try done; try (apply acquire_free in Hq as [-> ->]);
    apply list_lookup_insert_Some in Ht' as [(-> & <- & _)|(Hne & Ht')]; cbn [code]; try (by eapply H0); try congruence.
  - specialize (H0 t' _ Ho Ht). done.
  - by eapply enter_releases.
  - specialize (H0 t' _ Ho Ht). done.
  - specialize (H0 t' _ Ho Ht). by eapply H0.
Qed.

(** Behind a mutex that is not released nothing moves. *)
Lemma leaked_step calls s0 w w' :
  Forall (Forall locked_call) calls -> serial calls s0 w -> leaked w -> task_step w w' ->
  leaked w' /\ owner w' = owner w /\ shared w' = shared w /\
  exists t a, begun w' = begun w ++ [(t, a)] /\ enter a = Refused.
Proof.
  intros Hlk [Hp Hlen _ Hidle _] (th & tkh & Ho & Hth & Hc) Hst.
  assert (Hall : forall t tk, tasks w !! t = Some tk -> code tk = Done).
  { intros t tk Ht. destruct (decide (owner w = Some t)) as [Heq|Hne]; [|by eapply Hidle]. congruence. }
  destruct Hst as [s o ts os t a cs Ht He|s s' o o' ts os t a cs p Ht He Hq Hm|s o ts os t a cs p Ht He|
    s s' o ts os t A m k a cs Ht Hm|s s' o ts os t cs Ht Hm]; cbn [tasks owner begun shared] in *; try done.
  - split; [|split; [done|split; [done|by exists t, a]]]. exists th. cbn [owner tasks].
    destruct (decide (t = th)) as [->|Hne].
    + exists (mkTask Done cs). by rewrite list_lookup_insert_eq by by eapply lookup_lt_Some.
    + exists tkh. by rewrite list_lookup_insert_ne.
  - apply acquire_free in Hq as [-> _]. done.
  - by destruct (not_unlocked calls ts os t a cs p).
  - by specialize (Hall t _ Ht).
  - by specialize (Hall t _ Ht).
Qed.

Lemma leaked_stays calls s0 w w' :
  Forall (Forall locked_call) calls -> serial calls s0 w -> leaked w -> rtc task_step w w' ->
  owner w' = owner w /\ shared w' = shared w /\
  exists os, begun w' = begun w ++ os /\ Forall (fun x => enter x.2 = Refused) os.
Proof.
  intros Hlk Hs Hl Hr. induction Hr as [w|w1 w2 w3 Hst _ IH].
  - split; [done|split; [done|]]. exists []. by rewrite app_nil_r.
  - destruct (leaked_step calls s0 _ _ Hlk Hs Hl Hst) as (Hl2 & Ho2 & Hsh2 & t & a & Hos & Ha).
    destruct (IH (serial_step _ _ _ _ Hlk Hs Hst) Hl2) as (-> & -> & os & -> & Hr). rewrite Ho2, Hsh2, Hos.
    split; [done|split; [done|]]. exists ((t, a) :: os). by rewrite <- app_assoc, Forall_cons.
Qed.

(** ** Progress *)

(** A call has at most [n] steps left. *)
Fixpoint steps_le (p : script (uds_state E)) (n : nat) : Prop :=
  match p, n with
  | Done, _ => True
  | Give, S _ => True
  | Step m k, S n => forall a, steps_le (k a) n
  | _, O => False
  end.

Lemma enter_steps a p : enter a = Locked p \/ enter a = Unlocked p -> steps_le p 5.
Proof.
  destruct a as [data len| |the_sid data len cb|bs|the_sid nrc]; cbn [enter];
    intros [He|He]; try discriminate He; try (injection He as <-).
  - unfold input_script. by destruct (len =? 0).
  - by intros now [] [].
  - destruct (tx_buffer cfg); [|done]. destruct (_ >? _); [done|]. injection He as <-. done.
  - destruct (tx_buffer cfg); [|done]. by destruct (_ >? _).
  - done.
  - done.
Qed.

(** What a task may still take: the steps of its call, and six for each of the calls it
    has not begun. *)
Definition budget (tk : task) (n : nat) : Prop :=
  exists h, steps_le (code tk) h /\ n = (h + 6 * length (todo tk))%nat.

(** Every step of the interleaving spends from one task's budget. *)
Lemma step_budget w w' ns :
  task_step w w' -> Forall2 budget (tasks w) ns ->
  exists ns', Forall2 budget (tasks w') ns' /\ (sum_list ns' < sum_list ns)%nat.
Proof.
  intros Hst H.
  assert (Hgo : forall (t : nat) tk tk', tasks w !! t = Some tk -> tasks w' = <[t := tk']> (tasks w) ->
    (forall n, budget tk n -> exists n', budget tk' n' /\ (n' < n)%nat) ->
    exists ns', Forall2 budget (tasks w') ns' /\ (sum_list ns' < sum_list ns)%nat).
  { intros t tk tk' Ht -> Hb. destruct (Forall2_lookup_l _ _ _ _ _ H Ht) as (n & Hn & Hbn).
    destruct (Hb n Hbn) as (n' & Hn' & Hlt). exists (<[t := n']> ns). split; [by apply Forall2_insert|].
    rewrite <- (take_drop_middle ns t n Hn) at 2. rewrite insert_take_drop by by eapply lookup_lt_Some.
    rewrite !sum_list_with_app. cbn. unfold id. lia. }
  destruct Hst as [s o ts os t a cs Ht He|s s' o o' ts os t a cs p Ht He Hq Hm|s o ts os t a cs p Ht He|
    s s' o ts os t A m k a cs Ht Hm|s s' o ts os t cs Ht Hm];
    (eapply Hgo; [exact Ht|reflexivity|]); intros n (h & Hh & ->); cbn [code todo length] in *.
  - exists (0 + 6 * length cs)%nat. split; [by exists 0%nat|lia].
  - exists (5 + 6 * length cs)%nat. split; [exists 5%nat; split; [apply (enter_steps a); by left|done]|lia].
  - exists (5 + 6 * length cs)%nat. split; [exists 5%nat; split; [apply (enter_steps a); by right|done]|lia].
  - destruct h as [|h]; [done|]. exists (h + 6 * length cs)%nat. split; [exists h; split; [apply Hh|done]|lia].
  - destruct h as [|h]; [done|]. exists (h + 6 * length cs)%nat. split; [by exists h|lia].
Qed.

Lemma start_budget (calls : list (list api_call)) :
  Forall2 budget (map (mkTask Done) calls) (map (fun c => 6 * length c)%nat calls).
Proof. induction calls as [|c calls IH]; constructor; [by exists 0%nat|done]. Qed.

Lemma steps_bounded n w w' ns :
  nsteps task_step n w w' -> Forall2 budget (tasks w) ns -> (n <= sum_list ns)%nat.
Proof.
  intros Hn. revert ns. induction Hn as [w|n w w1 w' Hst _ IH]; intros ns Hb; [lia|].
  destruct (step_budget _ _ _ Hst Hb) as (ns1 & Hb1 & Hlt). specialize (IH ns1 Hb1). lia.
Qed.

(** What holds of all calls holds of the ones begun. *)
Lemma step_calls (P : api_call -> Prop) w w' :
  task_step w w' ->
  Forall P (map snd (begun w)) /\ Forall (fun tk => Forall P (todo tk)) (tasks w) ->
  Forall P (map snd (begun w')) /\ Forall (fun tk => Forall P (todo tk)) (tasks w').
Proof.
  intros Hst [Hos Hts].
  destruct Hst as [s o ts os t a cs Ht He|s s' o o' ts os t a cs p Ht He Hq Hm|s o ts os t a cs p Ht He|
    s s' o ts os t A m k a cs Ht Hm|s s' o ts os t cs Ht Hm]; cbn [tasks begun] in *;
    pose proof (Forall_lookup_1 _ _ _ _ Hts Ht) as Hc; cbn [todo] in Hc;
    rewrite ?map_app; cbn [map snd]; try (match type of Hc with Forall _ (_ :: _) => inversion_clear Hc end); split;
    repeat first [done|apply Forall_app; split|by apply Forall_insert|constructor].
Qed.

Lemma begun_calls (P : api_call -> Prop) calls s0 w :
  Forall (Forall P) calls -> rtc task_step (start s0 calls) w -> Forall P (map snd (begun w)).
Proof.
  intros HP Hr.
  assert (H : Forall P (map snd (begun (start s0 calls))) /\
    Forall (fun tk => Forall P (todo tk)) (tasks (start s0 calls))).
  { split; [constructor|]. by apply Forall_fmap. }
  assert (Hw : Forall P (map snd (begun w)) /\ Forall (fun tk => Forall P (todo tk)) (tasks w)); [|apply Hw].
  revert H. induction Hr as [|w1 w2 w3 Hst _ IH]; [done|]. intros H. by apply IH, (step_calls P _ _ Hst).
Qed.

Section Progress.
Context (env_ok : E -> Prop) (tb : N) `{Hok : !ConfigOk env_ok tb cfg} `{Hus : !UsersOk env_ok tb cfg}.
Context `{Hclient : !ClientOk env_ok tb cfg client_call}.

(** All calls made, the mutex free if there is a way to free it. *)
Definition finished (w : world) : Prop :=
  (is_Some (fn_mutex_unlock cfg) -> owner w = None) /\ Forall (fun tk => tk = mkTask Done []) (tasks w).

Lemma not_finished w calls s0 :
  serial calls s0 w -> owner w = None ->
  finished w \/ exists (t : nat) a cs, tasks w !! t = Some (mkTask Done (a :: cs)).
Proof.
  intros Hs Ho. assert (Hd : forall (t : nat) tk, tasks w !! t = Some tk -> code tk = Done).
  { intros t tk Ht. apply (sr_idle _ _ _ Hs t); [done|congruence]. }
  assert (Hts : Forall (fun tk => tk = mkTask Done []) (tasks w) \/ Exists (fun tk => todo tk <> []) (tasks w)).
  { induction (tasks w) as [|tk ts IH]; [by left; constructor|].
    destruct (IH (fun t tk Ht => Hd (S t) tk Ht)) as [Hf|He]; [|by right; constructor].
    specialize (Hd 0%nat tk eq_refl). destruct tk as [c [|a cs]]; cbn in *; subst; [by left; constructor|].
    by right; constructor. }
  destruct Hts as [Hf|He]; [by left; split|right]. apply Exists_exists in He as (tk & Hin & Hne).
  apply list_elem_of_lookup in Hin as [t Ht]. specialize (Hd t tk Ht).
  destruct tk as [c [|a cs]]; cbn in *; [done|subst]. by exists t, a, cs.
Qed.

Lemma task_goes_on calls s0 w :
  Forall (Forall locked_call) calls -> uds_inv env_ok tb cfg s0 -> Forall api_ok (map snd (begun w)) ->
  serial calls s0 w -> finished w \/ leaked w \/ exists w', task_step w w'.
Proof.
  intros Hlk Hinv Hcalls Hs. pose proof (run_apis_ok env_ok tb cfg client_call _ s0 Hinv Hcalls) as Hrun.
  unfold wp in Hrun. rewrite (sr_run _ _ _ Hs) in Hrun. destruct (owner w) as [t|] eqn:Ho.
  - right. destruct (sr_owner _ _ _ Hs t Ho) as [[c cs] Ht]. unfold residual in Hrun.
    rewrite Ho, Ht in Hrun. cbn [code] in Hrun. destruct w as [s o ts os]; cbn [owner tasks shared begun] in *. subst o.
    destruct c as [| |A m k].
    + left. by exists t, (mkTask Done cs).
    + right. cbn in Hrun. destruct (unlock cfg s) as [[[] s']|] eqn:Hu; [|done]. eexists. by eapply ts_give.
    + right. cbn in Hrun. unfold mbind, M_bind in Hrun.
      destruct (m s) as [[a s']|] eqn:Hm; [|done]. eexists. by eapply ts_step.
  - destruct (not_finished _ _ _ Hs Ho) as [|(t & a & cs & Ht)]; [by left|]. right; right.
    pose proof (sr_prog _ _ _ Hs) as Hp. pose proof (sr_len _ _ _ Hs) as Hlen.
    destruct w as [s o ts os]; cbn [owner tasks shared begun] in *. subst o.
    destruct (enter a) as [|p|p] eqn:He; [eexists; by eapply ts_refused| |by destruct (not_unlocked calls ts os t a cs p)].
    cbn in Hrun. destruct Hrun as [Hi _]. destruct s as [c1 m e tr].
    assert (Hl : wp (lock cfg) (fun _ _ => True) (mkState c1 m e tr)) by (by apply (wp_lock env_ok tb); [|apply Hi|]).
    unfold wp in Hl. destruct (lock cfg _) as [[[] s']|] eqn:Hlock; [|done].
    eexists. by eapply ts_lock; [| |apply acquire_none|].
Qed.

(** C9: Tasks that call uds_process, uds_input_sdu and uds_client_request, with
    fn_mutex_lock and fn_mutex_unlock configured, do not block each other: every
    interleaving ends after at most six steps per call, no step faults, and where it
    cannot go on either all calls have been made and the mutex is free, or a call has
    returned without releasing the mutex, which is impossible without a response-pending
    limit. *)
Theorem tasks_progress calls s0 n w :
  uds_inv env_ok tb cfg s0 -> Forall (Forall locked_call) calls -> Forall (Forall api_ok) calls ->
  nsteps task_step n (start s0 calls) w ->
  (n <= 6 * length (concat calls))%nat /\
  (finished w \/ leaked w \/ exists w', task_step w w') /\
  (rcrrp_limit cfg = 0 -> ~ leaked w).
Proof.
  intros Hinv Hlk Hapi Hn. assert (Hr : rtc task_step (start s0 calls) w) by (apply rtc_nsteps; by exists n).
  split_and!.
  - pose proof (steps_bounded _ _ _ _ Hn (start_budget calls)) as H. clear -H.
    assert (Hs : sum_list (map (fun c : list api_call => 6 * length c)%nat calls) = (6 * length (concat calls))%nat); [|lia].
    clear. induction calls as [|c calls IH]; [done|]. cbn in *. rewrite length_app. unfold id in *. lia.
  - eapply task_goes_on; [exact Hlk|exact Hinv|by eapply begun_calls|by eapply serial_reachable].
  - intros Hl (t & tk & Ho & Ht & Hc). pose proof (holder_releases _ _ _ Hl Hlk Hr t tk Ho Ht) as H. by rewrite Hc in H.
Qed.

(** ** The request given up *)

(** A deferred request has been extended as often as allowed and is overdue at whatever
    the clock shows once the lock is taken. *)
Definition at_limit (s : uds_state E) : Prop :=
  p2_msg_pending (ctx s) = true /\ 0 < rcrrp_limit cfg <= rcrrp_count (ctx s) /\
  forall now, locked_at cfg (env s) now ->
    (if p2_star_active (ctx s) then p2_star_ms (ctx s) else p2_ms (ctx s)) <= u32 (now - p2_timer_start (ctx s)).

Lemma at_limit_decide s now : at_limit s -> locked_at cfg (env s) now -> p2_decide cfg now (s3_ctx now (ctx s)) = P2GiveUp.
Proof.
  intros (Hp & Hl & Ht) Hnow%Ht.
  assert (Hs : p2_decide cfg now (s3_ctx now (ctx s)) = p2_decide cfg now (ctx s))
    by (unfold s3_ctx; by destruct (s3_expired (ctx s) now)).
  rewrite Hs. unfold p2_decide. rewrite Hp. cbn [negb].
  by rewrite (proj2 (Z.ltb_ge _ _) Hnow), (proj2 (Z.ltb_lt _ _)), (proj2 (Z.leb_le _ _)) by lia.
Qed.

(** The four steps of the call. *)
Lemma give_up_steps s :
  uds_inv env_ok tb cfg s -> at_limit s ->
  exists s1 now s2 s3 s4, lock cfg s = Ok (tt, s1) /\ time_ms cfg s1 = Ok (now, s2) /\
    process_s3 (Some cfg) now s2 = Ok (tt, s3) /\ process_p2 (Some cfg) cfg now s3 = Ok (true, s4) /\
    exists logs r, sends logs = [] /\
      trace s4 = trace s ++ lock_events cfg ++ logs ++ [EvSend (negative (pending_sid (ctx s)) UDS_NRC_CONDITIONS_NOT_CORRECT) r].
Proof.
  intros Hinv Hlim. xopen cfg Hinv.
  assert (H1 : wp (lock cfg) (fun _ s1 => exists e1, env_ok e1 /\ (forall t, clock_reads cfg e1 t -> locked_at cfg e t) /\
    s1 = mkState c (<[tb := l]> m) e1 (tr ++ lock_events cfg)) (mkState c (<[tb := l]> m) e tr))
    by (apply (wp_lock env_ok tb); eauto).
  apply wp_iff in H1 as ([] & s1 & H1 & e1 & He1 & Hclk & ->).
  assert (H2 : wp (time_ms cfg) (fun now s2 => locked_at cfg e now /\ exists e2, env_ok e2 /\
    s2 = mkState c (<[tb := l]> m) e2 (tr ++ lock_events cfg)) (mkState c (<[tb := l]> m) e1 (tr ++ lock_events cfg)))
    by (eapply wp_time; [exact Hok|done|eauto]).
  apply wp_iff in H2 as (now & s2 & H2 & Hnow & e2 & He2 & ->).
  assert (H3 : wp (process_s3 (Some cfg) now) (fun _ s3 => exists e3 logs, env_ok e3 /\ sends logs = [] /\
    s3 = mkState (s3_ctx now c) (<[tb := l]> m) e3 ((tr ++ lock_events cfg) ++ logs))
    (mkState c (<[tb := l]> m) e2 (tr ++ lock_events cfg)))
    by (apply (wp_process_s3 env_ok tb); [done..|]; intros e3 logs He3 Hs _; eauto 6).
  apply wp_iff in H3 as ([] & s3 & H3 & e3 & logs & He3 & Hlogs & ->).
  assert (Hdec : p2_decide cfg now (s3_ctx now c) = P2GiveUp) by by apply (at_limit_decide _ now Hlim).
  assert (Hsid : pending_sid (s3_ctx now c) = pending_sid c) by (unfold s3_ctx; by destruct (s3_expired c now)).
  assert (H4 : wp (process_p2 (Some cfg) cfg now) (fun b s4 => b = true /\ exists r,
    trace s4 = ((tr ++ lock_events cfg) ++ logs) ++ [EvSend (negative (pending_sid c) UDS_NRC_CONDITIONS_NOT_CORRECT) r])
    (mkState (s3_ctx now c) (<[tb := l]> m) e3 ((tr ++ lock_events cfg) ++ logs))).
  { eapply wp_process_p2; [exact Hok|done|done|]. intros e4 l4 rs _ _ _. rewrite Hdec, Hsid. cbn [p2_nrc length].
    intros Hrs. destruct rs as [|r [|]]; try done. split; [done|]. by exists r. }
  apply wp_iff in H4 as (b & s4 & H4 & -> & r & Htr). eexists _, now, _, _, s4.
  split; [exact H1|]. split; [exact H2|]. split; [exact H3|]. split; [exact H4|]. exists logs, r.
  split; [done|]. rewrite Htr. cbn [trace]. by rewrite <- !app_assoc.
Qed.

(** What task [t] does when it takes the mutex for [uds_process], and when it goes on. *)
Lemma exec_process w (t : nat) cs s' :
  tasks w !! t = Some (mkTask Done (ApiProcess :: cs)) -> owner w = None -> lock cfg (shared w) = Ok (tt, s') ->
  exec t w = Some (mkWorld s' (Some t) (<[t := mkTask process_script cs]> (tasks w)) (begun w ++ [(t, ApiProcess)])).
Proof.
  intros Ht Ho Hm. unfold exec. rewrite Ht. cbn [enter]. rewrite Ho, acquire_none, Hm. by destruct Hmutex as [f ->].
Qed.

Lemma exec_go (t : nat) (ts : list task) s o os A (m : M (uds_state E) A) k cs a s' :
  (t < length ts)%nat -> m s = Ok (a, s') ->
  exec t (mkWorld s o (<[t := mkTask (Step m k) cs]> ts) os) = Some (mkWorld s' o (<[t := mkTask (k a) cs]> ts) os).
Proof.
  intros Hlt Hm. unfold exec. cbn [tasks shared owner begun].
  by rewrite list_lookup_insert_eq, Hm, list_insert_insert_eq.
Qed.

(** C10: An uds_process that gives a deferred request up never gives the mutex back.
    Tasks call uds_process, uds_input_sdu and uds_client_request (the calls that lock;
    uds_send_response and uds_send_nrc take no mutex, C11) with fn_mutex_lock
    configured, and in any reachable state with a free mutex one of them calls
    uds_process while a deferred request has had its last 0x78 and is overdue: four
    steps of that task end the call, with the 0x22 sent and the task still holding the
    mutex. From then on, whatever the interleaving, the mutex has the same owner and the
    shared state never changes again, and the only calls that still return are client
    requests refused by the check of their arguments. *)
Theorem give_up_keeps_mutex calls s0 w (t : nat) cs :
  uds_inv env_ok tb cfg s0 -> Forall (Forall locked_call) calls -> Forall (Forall api_ok) calls ->
  rtc task_step (start s0 calls) w -> owner w = None ->
  tasks w !! t = Some (mkTask Done (ApiProcess :: cs)) -> at_limit (shared w) ->
  exists w1, run_schedule [t; t; t; t] w = Some w1 /\
    owner w1 = Some t /\ tasks w1 = <[t := mkTask Done cs]> (tasks w) /\
    (exists logs r, sends logs = [] /\ trace (shared w1) = trace (shared w) ++ lock_events cfg ++ logs ++
       [EvSend (negative (pending_sid (ctx (shared w))) UDS_NRC_CONDITIONS_NOT_CORRECT) r]) /\
    forall w2, rtc task_step w1 w2 ->
      owner w2 = Some t /\ shared w2 = shared w1 /\
      exists os, begun w2 = begun w1 ++ os /\ Forall (fun x => enter x.2 = Refused) os.
Proof.
  intros Hinv Hlk Hapi Hr Ho Ht Hlim. pose proof (serial_reachable calls s0 w Hlk Hr) as Hs.
  assert (Hi : uds_inv env_ok tb cfg (shared w)).
  { pose proof (run_apis_ok env_ok tb cfg client_call _ s0 Hinv (begun_calls api_ok calls s0 w Hapi Hr)) as Hrun.
    unfold wp in Hrun. rewrite (sr_run _ _ _ Hs) in Hrun. unfold residual in Hrun. rewrite Ho in Hrun. apply Hrun. }
  destruct (give_up_steps _ Hi Hlim) as (s1 & now & s2 & s3 & s4 & H1 & H2 & H3 & H4 & Htr).
  pose proof (lookup_lt_Some _ _ _ Ht) as Hlt.
  set (w1 := mkWorld s4 (Some t) (<[t := mkTask Done cs]> (tasks w)) (begun w ++ [(t, ApiProcess)])).
  assert (Hrun : run_schedule [t; t; t; t] w = Some w1).
  { cbn [run_schedule]. rewrite (exec_process w t cs s1 Ht Ho H1). unfold process_script. cbn [mbind option_bind].
    rewrite (exec_go t _ s1 _ _ _ _ _ _ _ _ Hlt H2). cbn [mbind option_bind].
    rewrite (exec_go t _ s2 _ _ _ _ _ _ _ _ Hlt H3). cbn [mbind option_bind].
    by rewrite (exec_go t _ s3 _ _ _ _ _ _ _ _ Hlt H4). }
  exists w1. split; [done|]. split; [done|]. split; [done|]. split; [exact Htr|]. intros w2 Hr2.
  apply schedule_runs in Hrun. apply rtc_nsteps_2 in Hrun.
  apply (leaked_stays calls s0 w1 w2 Hlk); [|exists t, (mkTask Done cs)|done].
  - apply (serial_reachable calls s0 w1 Hlk). by etrans.
  - split; [done|]. split; [|done]. cbn [tasks w1]. by apply list_lookup_insert_eq.
Qed.

(** ** The calls without a mutex *)

(** C11: uds_send_nrc (and uds_send_response) take no mutex: for every client request of
    at least two data bytes there is an interleaving in which another task refuses a
    deferred request while the client request is being put together, so that the refusal
    goes out and then, in place of the client's request, a message of the request's
    length that starts with the three bytes of that refusal. *)
Theorem unlocked_send_race the_sid data len cb sid' nrc s :
  uds_inv env_ok tb cfg s -> 0 <= the_sid < 256 -> 2 <= len <= Z.of_nat (length data) ->
  len + 1 <= tx_buffer_size cfg ->
  exists w, rtc task_step (start s [[ApiClient the_sid data len cb]; [ApiNrc sid' nrc]]) w /\ finished w /\
    exists r1 r2, trace (shared w) = trace s ++ lock_events cfg ++
      [EvSend [UDS_NRC_SERVICE_NOT_SUPP_IN_SESS; sid'; nrc] r1;
       EvSend (UDS_NRC_SERVICE_NOT_SUPP_IN_SESS :: sid' :: nrc :: drop 2 (take (Z.to_nat len) data)) r2] ++
      unlock_events cfg.
Proof.
  intros Hinv Hsid Hlen Hfit. xopen cfg Hinv.
  assert (H1 : wp (lock cfg) (fun _ s1 => exists e1, env_ok e1 /\ s1 = mkState c (<[tb := l]> m) e1 (tr ++ lock_events cfg))
    (mkState c (<[tb := l]> m) e tr)) by (apply (wp_lock env_ok tb); eauto).
  apply wp_iff in H1 as ([] & s1 & H1 & e1 & He1 & ->).
  set (c1 := set_client_cb cb (set_pending_sid the_sid c)).
  assert (H3 : wp (fill_request cfg the_sid data len) (fun _ s3 => exists l3, length l3 = length l /\
     take (Z.to_nat (len + 1)) l3 = the_sid :: take (Z.to_nat len) data /\
     s3 = mkState c1 (<[tb := l3]> m) e1 (tr ++ lock_events cfg)) (mkState c1 (<[tb := l]> m) e1 (tr ++ lock_events cfg))).
  { eapply wp_fill_request; [exact Hok|lia..|]. eauto. }
  apply wp_iff in H3 as ([] & s3 & H3 & l3 & Hl3 & Htk & ->).
  assert (H4 : wp (uds_send_nrc (Some cfg) sid' nrc) (fun r s4 => exists e4 l4, env_ok e4 /\ length l4 = length l /\
     take (Z.to_nat (len + 1)) l4 = negative sid' nrc ++ drop 2 (take (Z.to_nat len) data) /\
     s4 = mkState (nrc_ctx sid' nrc c1) (<[tb := l4]> m) e4 ((tr ++ lock_events cfg) ++ [EvSend (negative sid' nrc) r]))
     (mkState c1 (<[tb := l3]> m) e1 (tr ++ lock_events cfg))).
  { eapply wp_send_nrc; [exact Hok|done|lia|]. intros r e4 l4 _ He4 -> Hl4. exists e4, (write_at 0 (negative sid' nrc) l3).
    split; [done|split; [lia|split; [|done]]]. rewrite take_write_at_0 by (unfold negative; cbn [length]; lia). by rewrite Htk. }
  apply wp_iff in H4 as (r1 & s4 & H4 & e4 & l4 & He4 & Hl4 & Htk4 & ->).
  assert (H5 : wp (tp_send cfg (u16 (len + 1)) ;; unlock cfg) (fun _ s6 => exists r, trace s6 =
     (((tr ++ lock_events cfg) ++ [EvSend (negative sid' nrc) r1]) ++
      [EvSend (negative sid' nrc ++ drop 2 (take (Z.to_nat len) data)) r]) ++ unlock_events cfg)
     (mkState (nrc_ctx sid' nrc c1) (<[tb := l4]> m) e4 ((tr ++ lock_events cfg) ++ [EvSend (negative sid' nrc) r1]))).
  { u16_tac. apply wp_bind. eapply wp_tp_send; [exact Hok|done|lia|]. rewrite Htk4. intros r e5 _ He5.
    apply (wp_unlock env_ok tb); [done..|]. intros e6 _. by exists r. }
  rewrite wp_bind_eq in H5. apply wp_iff in H5 as (r2 & s5 & H5 & H6).
  apply wp_iff in H6 as ([] & s6 & H6 & r & Htr).
  eexists (mkWorld s6 (release _) [mkTask Done []; mkTask Done []] _).
  split; [|split; [split; [intros [f Hf]; unfold release; by rewrite Hf|by repeat constructor]|]].
  - eapply rtc_l; [eapply (ts_lock _ _ _ _ _ _ 0%nat); [reflexivity| |apply acquire_none|exact H1]|].
    { cbn. rewrite ok_tx, Z.gtb_ltb, (proj2 (Z.ltb_ge _ _)) by lia. reflexivity. }
    eapply rtc_l; [by eapply (ts_step _ _ _ _ _ 0%nat)|].
    eapply rtc_l; [by eapply (ts_step _ _ _ _ _ 0%nat); [|exact H3]|].
    eapply rtc_l; [by eapply (ts_unlocked _ _ _ _ 1%nat)|].
    eapply rtc_l; [by eapply (ts_step _ _ _ _ _ 1%nat); [|exact H4]|].
    eapply rtc_l; [by eapply (ts_step _ _ _ _ _ 0%nat); [|exact H5]|].
    eapply rtc_l; [by eapply (ts_give _ _ _ _ _ 0%nat); [|exact H6]|]. apply rtc_refl.
  - exists r1, r. cbn [shared trace]. rewrite Htr, <- !app_assoc. done.
Qed.
End Progress.
End Mutex.
End Scripts.
