(* ===== verification/Storm.v ===== *)
(** * Two stacks that answer each other

    [uds_input_sdu] takes every SDU that is no answer to a request of its own for a
    request, negative responses included: [find_service] has no entry for their
    identifier 0x7F and [uds_send_nrc] refuses them with another negative response. Two
    stacks on one connection, of any configuration, each of which may be server, client
    or both, so answer each other's refusals for ever. *)

From S2P Require Import Prelude Monad Types Machine CoreBase Contract HandlerLogic.
From S2P Require Import Core CoreDispatch CoreProcess CoreApi.
From stdpp Require Import base gmap list strings numbers relations.

Open Scope Z_scope.

(** ** The connection *)

(** What a call that led from [s] to [s'] handed to the transport. *)
Definition sent_by {E} (s s' : uds_state E) : list (list Z) := drop (length (sends (trace s))) (sends (trace s')).

(** Two stacks and the messages under way to each, in order; [hops] counts the messages
    that have arrived. *)
Record net (EA EB : Type) : Type := mkNet {
  node_a : uds_state EA;
  node_b : uds_state EB;
  to_a : list (list Z);
  to_b : list (list Z);
  hops : nat
}.
Arguments mkNet {_ _} _ _ _ _ _.
Arguments node_a {_ _} _.
Arguments node_b {_ _} _.
Arguments to_a {_ _} _.
Arguments to_b {_ _} _.
Arguments hops {_ _} _.

Section Net.
Context {EA EB : Type} (cfga : uds_config EA) (cfgb : uds_config EB).
Context (calla : N -> Z -> list Z -> Z -> M (uds_state EA) unit).
Context (callb : N -> Z -> list Z -> Z -> M (uds_state EB) unit).

(** The connection delivers the next message to either side, or either side's main loop
    calls [uds_process]; what a stack hands to its transport is on its way. *)
Inductive net_step : net EA EB -> net EA EB -> Prop :=
| ns_arrive_a a a' b m qa qb n :
    uds_input_sdu calla (Some cfga) (Some m) (Z.of_nat (length m)) a = Ok (tt, a') ->
    net_step (mkNet a b (m :: qa) qb n) (mkNet a' b qa (qb ++ sent_by a a') (S n))
| ns_arrive_b a b b' m qa qb n :
    uds_input_sdu callb (Some cfgb) (Some m) (Z.of_nat (length m)) b = Ok (tt, b') ->
    net_step (mkNet a b qa (m :: qb) n) (mkNet a b' (qa ++ sent_by b b') qb (S n))
| ns_turn_a a a' b qa qb n :
    uds_process (Some cfga) a = Ok (tt, a') ->
    net_step (mkNet a b qa qb n) (mkNet a' b qa (qb ++ sent_by a a') n)
| ns_turn_b a b b' qa qb n :
    uds_process (Some cfgb) b = Ok (tt, b') ->
    net_step (mkNet a b qa qb n) (mkNet a b' (qa ++ sent_by b b') qb n).
End Net.

(** ** One side *)

(** A stack that has nothing to send of its own: no deferred request, no periodic message. *)
Definition idle (c : uds_ctx) : Prop := p2_msg_pending c = false /\ periodic_count c = 0.

(** The message is for [handle_request] and names no service. *)
Definition stray {E} (cfg : uds_config E) (c : uds_ctx) (m : list Z) : Prop :=
  Forall is_byte m /\ 1 <= Z.of_nat (length m) < 65536 /\
  service_for cfg (nth 0 m 0) = None /\ answers c m (Z.of_nat (length m)) = false.

Lemma stray_ext {E} (cfg : uds_config E) c c' m : pending_sid c' = pending_sid c -> stray cfg c m -> stray cfg c' m.
Proof. intros Hp (? & ? & ? & Ha). split_and!; try done; try lia. unfold answers in *. by rewrite Hp. Qed.

Section Side.
Context {E : Type} (env_ok : E -> Prop) (tb : N) (cfg : uds_config E).
Context `{Hok : !ConfigOk env_ok tb cfg} `{Hus : !UsersOk env_ok tb cfg}.
Context (client_call : N -> Z -> list Z -> Z -> M (uds_state E) unit).
Context `{Hclient : !ClientOk env_ok tb cfg client_call}.

(** What the exchange leaves as it was. *)
Definition steady (s s' : uds_state E) (out : list (list Z)) : Prop :=
  uds_inv env_ok tb cfg s' /\ idle (ctx s') /\ pending_sid (ctx s') = pending_sid (ctx s) /\ sent_by s s' = out.

Lemma sent_by_app (s s' : uds_state E) evs : trace s' = trace s ++ evs -> sent_by s s' = sends evs.
Proof. intros H. unfold sent_by. by rewrite H, sends_app, drop_app_length. Qed.

(** A message without a service is refused with 0x11. *)
Lemma stray_refused m s :
  uds_inv env_ok tb cfg s -> idle (ctx s) -> stray cfg (ctx s) m ->
  wp (uds_input_sdu client_call (Some cfg) (Some m) (Z.of_nat (length m)))
    (fun _ s' => steady s s' [negative (nth 0 m 0) UDS_NRC_SERVICE_NOT_SUPPORTED]) s.
Proof.
  intros [Hc Hm He] [Hp Hcnt] (Hb & Hlen & Hsvc & Ha). destruct s as [c mm e tr]; cbn [ctx mem env trace] in *.
  apply (wp_input env_ok tb); [exact Hok|done|lia|]. intros e' He' _. apply (wp_input_body env_ok tb); [exact Hok|done|lia|].
  intros t e1 Ht He1 _ c1. cbn [ctx mem trace].
  split_and!; [congruence|congruence|congruence|]. intros _ _ t2 e2 Ht2 He2.
  assert (Hi0 : uds_inv env_ok tb cfg (mkState (fresh_ctx t t2 c) mm e2 (tr ++ lock_events cfg)))
    by (split; [ctx_ok_tac|done..]).
  apply (wp_handle_request env_ok tb); [exact Hok|exact Hus|lia| |].
  2: { intros en Hff. unfold first_failure in Hff. by rewrite Hsvc in Hff. }
  intros nrc c2 Hff Hc2. unfold first_failure in Hff. rewrite Hsvc in Hff. injection Hff as <-.
  destruct Hc2 as [->|(en & Hen & _)]; [|congruence].
  eapply wp_mono; [by apply (wp_reject env_ok tb cfg _ _ false)|]. cbn [ctx set_ctx trace].
  intros _ s1 ([Hi1 _] & Hc1 & evs & Ht1 & r & _ & ->).
  apply (wp_unlock_inv env_ok tb); [exact Hok|done|]. intros s2 Hi2 Hcs2 Hts2.
  split; [done|]. rewrite Hcs2, Hc1. split; [|split; [done|]].
  - unfold idle, nrc_ctx. cbn [p2_msg_pending periodic_count set_p2_msg_pending fresh_ctx]. by rewrite andb_false_l.
  - erewrite sent_by_app; [|cbn [trace]; rewrite Hts2, Ht1, <- !app_assoc; reflexivity].
    by rewrite !sends_app, sends_lock, sends_unlock.
Qed.

(** The main loop has nothing to say. *)
Lemma turn_silent s :
  uds_inv env_ok tb cfg s -> idle (ctx s) -> wp (uds_process (Some cfg)) (fun _ s' => steady s s' []) s.
Proof.
  intros Hinv [Hp Hcnt]. eapply wp_mono; [by apply (process_quiet env_ok tb)|].
  intros _ s' (Hi & Hcnt' & Hsid & _ & evs & a & Ht & Hs & Ha & Hcase).
  destruct Ha as [->|Ha]; [|congruence]. split; [done|]. split; [split; [|done]; destruct Hcase; congruence|].
  split; [done|]. by rewrite (sent_by_app _ _ _ Ht), Hs.
Qed.
End Side.

(** ** The exchange *)

(** The refusal of a negative response. *)
Definition refusal_of_nrc : list Z := negative UDS_NRC_SERVICE_NOT_SUPP_IN_SESS UDS_NRC_SERVICE_NOT_SUPPORTED.

Section Storm.
Context {EA EB : Type} (oka : EA -> Prop) (okb : EB -> Prop) (ta tb : N).
Context (cfga : uds_config EA) (cfgb : uds_config EB).
Context (calla : N -> Z -> list Z -> Z -> M (uds_state EA) unit).
Context (callb : N -> Z -> list Z -> Z -> M (uds_state EB) unit).
Context `{HA : !ConfigOk oka ta cfga, HUA : !UsersOk oka ta cfga, HCA : !ClientOk oka ta cfga calla}.
Context `{HB : !ConfigOk okb tb cfgb, HUB : !UsersOk okb tb cfgb, HCB : !ClientOk okb tb cfgb callb}.

(** What is under way after [n] messages have arrived: the first one, the refusal of it,
    or the refusal of a negative response. *)
Definition in_flight (m : list Z) (n : nat) : list Z :=
  match n with
  | O => m
  | S O => negative (nth 0 m 0) UDS_NRC_SERVICE_NOT_SUPPORTED
  | _ => refusal_of_nrc
  end.

Lemma in_flight_next m n : in_flight m (S n) = negative (nth 0 (in_flight m n) 0) UDS_NRC_SERVICE_NOT_SUPPORTED.
Proof. by destruct n as [|[|n]]. Qed.

(** One message is under way, and the side it is for will refuse it. *)
Record storming (m : list Z) (w : net EA EB) : Prop := {
  st_inv_a : uds_inv oka ta cfga (node_a w);
  st_inv_b : uds_inv okb tb cfgb (node_b w);
  st_idle_a : idle (ctx (node_a w));
  st_idle_b : idle (ctx (node_b w));
  st_stray_a n : (hops w <= n)%nat -> (n <> 1)%nat -> stray cfga (ctx (node_a w)) (in_flight m n);
  st_stray_b n : (hops w <= n)%nat -> n <> 0%nat -> stray cfgb (ctx (node_b w)) (in_flight m n);
  st_flight : (hops w <> 1%nat /\ to_a w = [in_flight m (hops w)] /\ to_b w = []) \/
    (hops w <> 0%nat /\ to_a w = [] /\ to_b w = [in_flight m (hops w)])
}.

Lemma storming_step m w w' : storming m w -> net_step cfga cfgb calla callb w w' -> storming m w'.
Proof.
  intros [Ia Ib Da Db Sa Sb Hfl] Hst.
  destruct Hst as [a a' b x qa qb n Hrun|a b b' x qa qb n Hrun|a a' b qa qb n Hrun|a b b' qa qb n Hrun];
    cbn [node_a node_b to_a to_b hops] in *.
  - destruct Hfl as [(Hn & [= -> ->] & ->)|(? & ? & ?)]; [|done].
    pose proof (stray_refused oka ta cfga calla _ a Ia Da (Sa n ltac:(lia) Hn)) as Hw. unfold wp in Hw. rewrite Hrun in Hw.
    destruct Hw as (Ia' & Da' & Hpa & ->). rewrite <- in_flight_next.
    split; cbn [node_a node_b to_a to_b hops]; try done.
    + intros k Hk Hk1. apply (stray_ext _ (ctx a)); [done|]. apply Sa; lia.
    + intros k Hk Hk0. apply Sb; lia.
    + right. by split.
  - destruct Hfl as [(? & ? & ?)|(Hn & -> & [= -> ->])]; [done|].
    pose proof (stray_refused okb tb cfgb callb _ b Ib Db (Sb n ltac:(lia) Hn)) as Hw. unfold wp in Hw. rewrite Hrun in Hw.
    destruct Hw as (Ib' & Db' & Hpb & ->). rewrite <- in_flight_next.
    split; cbn [node_a node_b to_a to_b hops]; try done.
    + intros k Hk Hk1. apply Sa; lia.
    + intros k Hk Hk0. apply (stray_ext _ (ctx b)); [done|]. apply Sb; lia.
    + left. split; [lia|done].
  - pose proof (turn_silent oka ta cfga a Ia Da) as Hw. unfold wp in Hw. rewrite Hrun in Hw.
    destruct Hw as (Ia' & Da' & Hpa & ->). rewrite app_nil_r.
    split; cbn [node_a node_b to_a to_b hops]; try done.
    intros k Hk Hk1. apply (stray_ext _ (ctx a)); [done|]. by apply Sa.
  - pose proof (turn_silent okb tb cfgb b Ib Db) as Hw. unfold wp in Hw. rewrite Hrun in Hw.
    destruct Hw as (Ib' & Db' & Hpb & ->). rewrite app_nil_r.
    split; cbn [node_a node_b to_a to_b hops]; try done.
    intros k Hk Hk1. apply (stray_ext _ (ctx b)); [done|]. by apply Sb.
Qed.

(** The message under way arrives. *)
Lemma storming_goes_on m w : storming m w -> exists w', net_step cfga cfgb calla callb w w' /\ hops w' = S (hops w).
Proof.
  intros [Ia Ib Da Db Sa Sb Hfl]. destruct w as [a b qa qb n]; cbn [node_a node_b to_a to_b hops] in *.
  destruct Hfl as [(Hn & -> & ->)|(Hn & -> & ->)].
  - destruct (proj1 (wp_iff _ _ _) (stray_refused oka ta cfga calla _ a Ia Da (Sa n ltac:(lia) Hn))) as ([] & a' & Hrun & _).
    eexists. split; [by apply ns_arrive_a|done].
  - destruct (proj1 (wp_iff _ _ _) (stray_refused okb tb cfgb callb _ b Ib Db (Sb n ltac:(lia) Hn))) as ([] & b' & Hrun & _).
    eexists. split; [by apply ns_arrive_b|done].
Qed.

(** C23: Two stacks on one connection refuse each other's refusals for ever. Whatever
    their configurations in the contract (fn_periodic_read included, C36) and
    application tables, if both have no deferred request and no periodic message and a
    message arrives that names no service of the receiver and answers no request of its
    own (nor do the refusals that follow on either side), then under every interleaving
    of deliveries and turns of uds_process exactly one message is under way at any time,
    the first, then its refusal with 0x11, then 7F 7F 11 again and again; it can always
    arrive, and what it meets is the next refusal. *)
Theorem nrc_storm a b m w :
  uds_inv oka ta cfga a -> uds_inv okb tb cfgb b -> idle (ctx a) -> idle (ctx b) ->
  stray cfga (ctx a) m -> stray cfgb (ctx b) (negative (nth 0 m 0) UDS_NRC_SERVICE_NOT_SUPPORTED) ->
  stray cfga (ctx a) refusal_of_nrc -> stray cfgb (ctx b) refusal_of_nrc ->
  rtc (net_step cfga cfgb calla callb) (mkNet a b [m] [] 0) w ->
  to_a w ++ to_b w = [in_flight m (hops w)] /\
  exists w', net_step cfga cfgb calla callb w w' /\ hops w' = S (hops w).
Proof.
  intros Ia Ib Da Db Hm Hr Sa Sb Hrun.
  assert (H0 : storming m (mkNet a b [m] [] 0)).
  { split; cbn [node_a node_b to_a to_b hops]; try done; [| |by left].
    - intros [|[|n]] _ Hn; done.
    - intros [|[|n]] _ Hn; done. }
  assert (Hw : storming m w).
  { revert H0. generalize (mkNet a b [m] [] 0) Hrun. intros w0 H. induction H as [|w1 w2 w3 Hst _ IH]; [done|].
    intros H0. by apply IH, (storming_step _ _ _ H0). }
  split; [|by apply storming_goes_on in Hw].
  destruct Hw as [_ _ _ _ _ _ [(_ & -> & ->)|(_ & -> & ->)]]; done.
Qed.
End Storm.
