(* ===== verification/IsoTp.v ===== *)
(** * ISO-TP transmission: [src/transport/uds_tp_isotp.c], [include/uds/uds_isotp.h]

    The static transport state and the sending side: segmentation into single,
    first and consecutive frames, and the periodic task that streams the
    consecutive frames under flow control. It runs on [iso_env C], the
    application state of the core when this transport is plugged in as
    [fn_tp_send]; [C] is the state behind the CAN driver. *)

From S2P Require Import Prelude Monad Types.
From stdpp Require Import base gmap list strings numbers.

Open Scope Z_scope.

(** ** Constants *)
Definition ISOTP_PCI_SF : Z := 0x00.
Definition ISOTP_PCI_FF : Z := 0x10.
Definition ISOTP_PCI_CF : Z := 0x20.
Definition ISOTP_PCI_FC : Z := 0x30.
Definition ISOTP_MAX_DL_CAN : Z := 8.
Definition ISOTP_MAX_DL_CANFD : Z := 64.
Definition ISOTP_SF_MAX_DL_CAN : Z := 7.
Definition ISOTP_SF_MAX_DL_CANFD : Z := 62.
Definition ISOTP_FF_MAX_DATA_CAN : Z := 6.
Definition ISOTP_FF_MAX_DATA_CANFD : Z := 62.
Definition ISOTP_MAX_SDU_LEN_STD : Z := 4095.
Definition ISOTP_FC_CTS : Z := 0.
Definition ISOTP_FC_WAIT : Z := 1.
Definition ISOTP_FC_OVA : Z := 2.

Inductive uds_isotp_state : Set :=
| ISOTP_IDLE
| ISOTP_RX_WAIT_CF
| ISOTP_TX_WAIT_FC
| ISOTP_TX_SENDING_CF.

#[export] Instance uds_isotp_state_eq_dec : EqDecision uds_isotp_state.
Proof. solve_decision. Defined.

(** What the user provides to send a frame: identifier, bytes, length. *)
Definition uds_can_send_fn (C : Type) : Type := Z -> list Z -> Z -> M C Z.

(** ** The transport context [uds_isotp_ctx_t] *)
Record uds_isotp_ctx (C : Type) : Type := mkIso {
  can_send : option (uds_can_send_fn C);
  tx_id : Z;
  rx_id : Z;
  block_size : Z;
  st_min : Z;
  use_can_fd : Z;
  iso_state : uds_isotp_state;
  msg_len : Z;
  bytes_processed : Z;
  iso_sn : Z;
  bs_counter : Z;
  timer_n_cr : Z;
  timer_n_bs : Z;
  timer_st : Z;
  tx_dl : Z
}.
Arguments mkIso {_}.
Arguments can_send {_} _.
Arguments tx_id {_} _.
Arguments rx_id {_} _.
Arguments block_size {_} _.
Arguments st_min {_} _.
Arguments use_can_fd {_} _.
Arguments iso_state {_} _.
Arguments msg_len {_} _.
Arguments bytes_processed {_} _.
Arguments iso_sn {_} _.
Arguments bs_counter {_} _.
Arguments timer_n_cr {_} _.
Arguments timer_n_bs {_} _.
Arguments timer_st {_} _.
Arguments tx_dl {_} _.

Definition iso_eta {C} (i : uds_isotp_ctx C) : uds_isotp_ctx C :=
  mkIso (can_send i) (tx_id i) (rx_id i) (block_size i) (st_min i) (use_can_fd i) (iso_state i)
    (msg_len i) (bytes_processed i) (iso_sn i) (bs_counter i) (timer_n_cr i) (timer_n_bs i)
    (timer_st i) (tx_dl i).

Definition set_block_size {C} (v : Z) (i : uds_isotp_ctx C) : uds_isotp_ctx C := ltac:(setter (@iso_eta C) (@block_size C) v i).
Definition set_st_min {C} (v : Z) (i : uds_isotp_ctx C) : uds_isotp_ctx C := ltac:(setter (@iso_eta C) (@st_min C) v i).
Definition set_use_can_fd {C} (v : Z) (i : uds_isotp_ctx C) : uds_isotp_ctx C := ltac:(setter (@iso_eta C) (@use_can_fd C) v i).
Definition set_iso_state {C} (v : uds_isotp_state) (i : uds_isotp_ctx C) : uds_isotp_ctx C := ltac:(setter (@iso_eta C) (@iso_state C) v i).
Definition set_msg_len {C} (v : Z) (i : uds_isotp_ctx C) : uds_isotp_ctx C := ltac:(setter (@iso_eta C) (@msg_len C) v i).
Definition set_bytes_processed {C} (v : Z) (i : uds_isotp_ctx C) : uds_isotp_ctx C := ltac:(setter (@iso_eta C) (@bytes_processed C) v i).
Definition set_iso_sn {C} (v : Z) (i : uds_isotp_ctx C) : uds_isotp_ctx C := ltac:(setter (@iso_eta C) (@iso_sn C) v i).
Definition set_bs_counter {C} (v : Z) (i : uds_isotp_ctx C) : uds_isotp_ctx C := ltac:(setter (@iso_eta C) (@bs_counter C) v i).
Definition set_timer_st {C} (v : Z) (i : uds_isotp_ctx C) : uds_isotp_ctx C := ltac:(setter (@iso_eta C) (@timer_st C) v i).
Definition set_tx_dl {C} (v : Z) (i : uds_isotp_ctx C) : uds_isotp_ctx C := ltac:(setter (@iso_eta C) (@tx_dl C) v i).

(** The file's statics, the driver's state, and a ghost record of the frames
    handed to the CAN driver (identifier, payload). *)
Record iso_env (C : Type) : Type := mkIsoEnv {
  g_isotp_ctx : uds_isotp_ctx C;
  g_pending_tx_sdu : list Z;
  g_pending_tx_len : Z;
  can : C;
  frames : list (Z * list Z)
}.
Arguments mkIsoEnv {_} _ _ _ _ _.
Arguments g_isotp_ctx {_} _.
Arguments g_pending_tx_sdu {_} _.
Arguments g_pending_tx_len {_} _.
Arguments can {_} _.
Arguments frames {_} _.

Definition set_iso {C} (f : uds_isotp_ctx C -> uds_isotp_ctx C) (e : iso_env C) : iso_env C :=
  mkIsoEnv (f (g_isotp_ctx e)) (g_pending_tx_sdu e) (g_pending_tx_len e) (can e) (frames e).
Definition set_can {C} (c : C) (e : iso_env C) : iso_env C :=
  mkIsoEnv (g_isotp_ctx e) (g_pending_tx_sdu e) (g_pending_tx_len e) c (frames e).
Definition set_pending {C} (sdu : list Z) (len : Z) (e : iso_env C) : iso_env C :=
  mkIsoEnv (g_isotp_ctx e) sdu len (can e) (frames e).
Definition add_frame {C} (id : Z) (d : list Z) (e : iso_env C) : iso_env C :=
  mkIsoEnv (g_isotp_ctx e) (g_pending_tx_sdu e) (g_pending_tx_len e) (can e) (frames e ++ [(id, d)]).

Ltac iso_cbn :=
  cbn [can_send tx_id rx_id block_size st_min use_can_fd iso_state msg_len bytes_processed
    iso_sn bs_counter timer_n_cr timer_n_bs timer_st tx_dl set_block_size set_st_min
    set_use_can_fd set_iso_state set_msg_len set_bytes_processed set_iso_sn set_bs_counter
    set_timer_st set_tx_dl g_isotp_ctx g_pending_tx_sdu g_pending_tx_len can frames set_iso
    set_can set_pending add_frame].

Section IsoTp.
Context {C : Type}.

Definition get_iso : M (iso_env C) (uds_isotp_ctx C) := fun e => Ok (g_isotp_ctx e, e).
Definition mod_iso (f : uds_isotp_ctx C -> uds_isotp_ctx C) : M (iso_env C) unit :=
  fun e => Ok (tt, set_iso f e).
Definition get_pending : M (iso_env C) (list Z) := fun e => Ok (g_pending_tx_sdu e, e).
Definition put_pending (sdu : list Z) (len : Z) : M (iso_env C) unit :=
  fun e => Ok (tt, set_pending sdu len e).
Definition emit_frame (id : Z) (d : list Z) : M (iso_env C) unit :=
  fun e => Ok (tt, add_frame id d e).

(** [n] bytes from [l[off]], checked. *)
Definition slice (l : list Z) (off n : Z) : M (iso_env C) (list Z) :=
  if (0 <=? off) && (0 <=? n) && (off + n <=? Z.of_nat (length l))
  then mret (take (Z.to_nat n) (drop (Z.to_nat off) l)) else mfault OutOfBounds.

(** [memcpy(&arr[off], bs)] into a local or static array, checked. *)
Definition arr_write (arr : list Z) (off : Z) (bs : list Z) : M (iso_env C) (list Z) :=
  if (0 <=? off) && (off + Z.of_nat (length bs) <=? Z.of_nat (length arr))
  then mret (write_at (Z.to_nat off) bs arr) else mfault OutOfBounds.

Definition uds_internal_tp_send_frame (data : list Z) (len : Z) : M (iso_env C) Z :=
  iso ← get_iso;
  match can_send iso with
  | Some f =>
      d ← slice data 0 len;
      ret ← zoom can set_can (f (tx_id iso) d len);
      emit_frame (tx_id iso) d ;;
      mret ret
  | None => mret (-1)
  end.

Definition uds_dlc_align (len : Z) : Z :=
  if len <=? ISOTP_MAX_DL_CAN then len
  else if len <=? 12 then 12
  else if len <=? 16 then 16
  else if len <=? 20 then 20
  else if len <=? 24 then 24
  else if len <=? 32 then 32
  else if len <=? 48 then 48
  else ISOTP_MAX_DL_CANFD.

Definition uds_tp_isotp_init (send : option (uds_can_send_fn C)) (the_tx_id the_rx_id : Z)
    : M (iso_env C) unit :=
  mod_iso (fun _ => mkIso send the_tx_id the_rx_id 8 0 0 ISOTP_IDLE 0 0 0 0 0 0 0 ISOTP_MAX_DL_CAN).

Definition uds_tp_isotp_set_fd (enabled : bool) : M (iso_env C) unit :=
  mod_iso (set_use_can_fd (if enabled then 1 else 0)) ;;
  mod_iso (set_tx_dl (if enabled then ISOTP_MAX_DL_CANFD else ISOTP_MAX_DL_CAN)).

(** [uint8_t frame[64] = {0}] *)
Definition zero_frame : list Z := replicate 64 0.

Definition uds_send_sf (data : list Z) (len : Z) : M (iso_env C) Z :=
  payload ← slice data 0 len;
  if len <=? ISOTP_SF_MAX_DL_CAN then
    f ← arr_write zero_frame 0 [u8 (Z.lor ISOTP_PCI_SF (u8 len))];
    f ← arr_write f 1 payload;
    uds_internal_tp_send_frame f ISOTP_MAX_DL_CAN
  else
    f ← arr_write zero_frame 0 [ISOTP_PCI_SF];
    f ← arr_write f 1 [u8 len];
    f ← arr_write f 2 payload;
    uds_internal_tp_send_frame f (uds_dlc_align (u8 (len + 2))).

Definition uds_send_mf (data : list Z) (len : Z) : M (iso_env C) Z :=
  pending ← get_pending;
  if (len >? ISOTP_MAX_SDU_LEN_STD) || (len >? Z.of_nat (length pending)) then mret (-2)
  else
    sdu ← slice data 0 len;
    pending ← arr_write pending 0 sdu;
    put_pending pending len ;;
    mod_iso (set_msg_len len) ;;
    mod_iso (set_bytes_processed 0) ;;
    mod_iso (set_iso_state ISOTP_TX_WAIT_FC) ;;
    iso ← get_iso;
    f ← arr_write zero_frame 0 [Z.lor ISOTP_PCI_FF (Z.land (Z.shiftr len 8) 0x0F)];
    f ← arr_write f 1 [u8 (Z.land len 0xFF)];
    let fd := negb (use_can_fd iso =? 0) in
    let max_data_in_ff := if fd then ISOTP_FF_MAX_DATA_CANFD else ISOTP_FF_MAX_DATA_CAN in
    let to_copy := if len >? max_data_in_ff then max_data_in_ff else u8 len in
    head ← slice data 0 to_copy;
    f ← arr_write f 2 head;
    mod_iso (set_bytes_processed to_copy) ;;
    mod_iso (set_iso_sn 1) ;;
    let dl := if fd then uds_dlc_align (u8 (2 + to_copy)) else ISOTP_MAX_DL_CAN in
    ret ← uds_internal_tp_send_frame f dl;
    if negb (ret =? 0) then mret (-1) else mret 0.

Definition uds_isotp_send (c : uds_ctx) (data : list Z) (len : Z) : M (iso_env C) Z :=
  iso ← get_iso;
  let max_sf_len :=
    if negb (use_can_fd iso =? 0) then ISOTP_SF_MAX_DL_CANFD else ISOTP_SF_MAX_DL_CAN in
  if len <=? max_sf_len then uds_send_sf data len else uds_send_mf data len.

(** STmin as milliseconds. *)
Definition decode_st_min (st : Z) : Z :=
  if (0xF1 <=? st) && (st <=? 0xF9) then 1 else if st >? 0x7F then 0 else st.

(** Sending one consecutive frame, once it is due. *)
Definition send_cf (iso : uds_isotp_ctx C) (remaining time_ms : Z) : M (iso_env C) unit :=
  let fd := negb (use_can_fd iso =? 0) in
  let max_cf_payload := if fd then ISOTP_MAX_DL_CANFD - 1 else ISOTP_MAX_DL_CAN - 1 in
  let to_copy := if remaining >? max_cf_payload then max_cf_payload else u8 remaining in
  f ← arr_write zero_frame 0 [u8 (Z.lor ISOTP_PCI_CF (iso_sn iso))];
  pending ← get_pending;
  chunk ← slice pending (bytes_processed iso) to_copy;
  f ← arr_write f 1 chunk;
  let dl := if fd then uds_dlc_align (u8 (1 + to_copy)) else ISOTP_MAX_DL_CAN in
  ret ← uds_internal_tp_send_frame f dl;
  mwhen (ret =? 0) (
    mod_iso (fun i => set_bytes_processed (u16 (bytes_processed i + to_copy)) i) ;;
    mod_iso (fun i => set_iso_sn (Z.land (iso_sn i + 1) 0x0F) i) ;;
    mod_iso (fun i => set_bs_counter (u8 (bs_counter i + 1)) i) ;;
    mod_iso (set_timer_st time_ms) ;;
    i ← get_iso;
    mwhen (msg_len i <=? bytes_processed i) (mod_iso (set_iso_state ISOTP_IDLE))).

Definition uds_tp_isotp_process (time_ms : Z) : M (iso_env C) unit :=
  iso ← get_iso;
  match iso_state iso with
  | ISOTP_TX_SENDING_CF =>
      let remaining := u16 (msg_len iso - bytes_processed iso) in
      if remaining =? 0 then mod_iso (set_iso_state ISOTP_IDLE)
      else
        let elapsed := u32 (time_ms - timer_st iso) in
        if elapsed <? decode_st_min (st_min iso) then mret tt
        else if (block_size iso >? 0) && (block_size iso <=? bs_counter iso) then
          mod_iso (set_iso_state ISOTP_TX_WAIT_FC) ;;
          mod_iso (set_bs_counter 0)
        else send_cf iso remaining time_ms
  | _ => mret tt
  end.
End IsoTp.
