(* ===== verification/IsoTpTx.v ===== *)
(** * ISO-TP transmission against the reference segmentation

    The reference cuts an SDU into frames; the sending side of
    [src/transport/uds_tp_isotp.c] puts exactly those frames on the bus, in
    order, at the pace flow control allows. *)

From S2P Require Import Prelude Monad Types IsoTp.
From stdpp Require Import base gmap list strings numbers.

Open Scope Z_scope.

(** ** Reference segmentation *)

Definition CAN_FD_LENGTHS : list Z := [0; 1; 2; 3; 4; 5; 6; 7; 8; 12; 16; 20; 24; 32; 48; 64].

Definition fd_on {C} (i : uds_isotp_ctx C) : bool := negb (use_can_fd i =? 0).

(** Capacities of the frames. *)
Definition max_sf (fd : bool) : nat := if fd then 62 else 7.
Definition ff_data (fd : bool) : nat := if fd then 62 else 6.
Definition cf_data (fd : bool) : nat := if fd then 63 else 7.

(** The first [n] bytes of [bs] followed by zeros. *)
Definition pad (n : Z) (bs : list Z) : list Z := take (Z.to_nat n) (bs ++ replicate 64 0).

Definition sf_frame (sdu : list Z) : list Z :=
  let n := Z.of_nat (length sdu) in
  if n <=? 7 then pad 8 (n :: sdu) else pad (uds_dlc_align (n + 2)) (0 :: n :: sdu).

Definition ff_frame (fd : bool) (sdu : list Z) : list Z :=
  let n := Z.of_nat (length sdu) in
  pad (if fd then 64 else 8) (0x10 + n / 256 :: n mod 256 :: take (ff_data fd) sdu).

Definition cf_frame (fd : bool) (sn : Z) (chunk : list Z) : list Z :=
  pad (if fd then uds_dlc_align (1 + Z.of_nat (length chunk)) else 8) (0x20 + sn :: chunk).

(** Consecutive frames, the sequence number counting modulo 16; [fuel] bounds
    their number. *)
Fixpoint cf_frames (fuel : nat) (fd : bool) (sn : Z) (bytes : list Z) : list (list Z) :=
  match fuel, bytes with
  | S fuel', _ :: _ =>
      cf_frame fd sn (take (cf_data fd) bytes) ::
      cf_frames fuel' fd ((sn + 1) mod 16) (drop (cf_data fd) bytes)
  | _, _ => []
  end.

(** Every frame but the last carries at least one byte, so the length of the
    SDU is fuel enough. *)
Definition segment (fd : bool) (sdu : list Z) : list (list Z) :=
  if (length sdu <=? max_sf fd)%nat then [sf_frame sdu]
  else ff_frame fd sdu :: cf_frames (length sdu) fd 1 (drop (ff_data fd) sdu).

(** The context after a consecutive frame of [n] bytes has left at time [t]. *)
Definition cf_advance {C} (n t : Z) (i : uds_isotp_ctx C) : uds_isotp_ctx C :=
  let i1 := set_timer_st t (set_bs_counter (u8 (bs_counter i + 1))
              (set_iso_sn ((iso_sn i + 1) mod 16) (set_bytes_processed (bytes_processed i + n) i))) in
  if msg_len i <=? bytes_processed i + n then set_iso_state ISOTP_IDLE i1 else i1.

(** What a tick does. *)
Inductive tick_action : Set := TickNothing | TickFinish | TickBlock | TickSend.

Definition tick_decide {C} (i : uds_isotp_ctx C) (t : Z) : tick_action :=
  if decide (iso_state i = ISOTP_TX_SENDING_CF) then
    if msg_len i =? bytes_processed i then TickFinish
    else if u32 (t - timer_st i) <? decode_st_min (st_min i) then TickNothing
    else if (0 <? block_size i) && (block_size i <=? bs_counter i) then TickBlock
    else TickSend
  else TickNothing.

(** uds_dlc_align returns the least CAN-FD data length that holds the frame: a
    member of the table 0 to 8, 12, 16, 20, 24, 32, 48, 64, not below the length, and no
    smaller member is. *)
Theorem dlc_align_least n :
  0 <= n <= 64 ->
  uds_dlc_align n ∈ CAN_FD_LENGTHS /\ n <= uds_dlc_align n /\
  forall m, m ∈ CAN_FD_LENGTHS -> n <= m -> uds_dlc_align n <= m.
Proof.
  intros Hn.
  assert (H : forallb (fun n => bool_decide (uds_dlc_align n ∈ CAN_FD_LENGTHS) && (n <=? uds_dlc_align n) &&
    forallb (fun m => (m <? n) || (uds_dlc_align n <=? m)) CAN_FD_LENGTHS) (seqZ 0 65) = true) by by vm_compute.
  rewrite forallb_forall in H. specialize (H n ltac:(apply list_elem_of_In, elem_of_seqZ; lia)).
  bool_prop. split_and!; [by eapply bool_decide_eq_true_1|done|].
  match goal with H : forallb _ _ = true |- _ => rewrite forallb_forall in H; rename H into Hm end.
  intros m Hin Hle. specialize (Hm m ltac:(by apply list_elem_of_In)). lia.
Qed.

Lemma dlc_align_bounds n : 0 <= n <= 64 -> n <= uds_dlc_align n <= 64.
Proof. unfold uds_dlc_align, ISOTP_MAX_DL_CAN, ISOTP_MAX_DL_CANFD. intros. repeat case_match; lia. Qed.

Lemma cf_data_pos fd : (0 < cf_data fd <= 63)%nat.
Proof. destruct fd; cbn; lia. Qed.

(** More fuel than bytes changes nothing. *)
Lemma cf_frames_fuel n1 n2 fd sn bytes :
  (length bytes <= n1)%nat -> (length bytes <= n2)%nat -> cf_frames n1 fd sn bytes = cf_frames n2 fd sn bytes.
Proof.
  revert n2 sn bytes. induction n1 as [|n1 IH]; intros n2 sn bytes H1 H2.
  - destruct bytes; [by destruct n2|cbn in *; lia].
  - destruct bytes as [|b bytes]; [by destruct n2|]. destruct n2 as [|n2]; [cbn in *; lia|]. cbn [cf_frames].
    f_equal. pose proof (cf_data_pos fd). cbn [length] in *. apply IH; rewrite length_drop; cbn [length]; lia.
Qed.

Lemma cf_frames_step fd sn bytes :
  bytes <> [] -> cf_frames (length bytes) fd sn bytes =
  cf_frame fd sn (take (cf_data fd) bytes) ::
  cf_frames (length (drop (cf_data fd) bytes)) fd ((sn + 1) mod 16) (drop (cf_data fd) bytes).
Proof.
  intros Hb. destruct bytes as [|b bytes]; [done|]. cbn [length cf_frames]. f_equal.
  pose proof (cf_data_pos fd). apply cf_frames_fuel; rewrite ?length_drop; cbn [length]; lia.
Qed.

(** ** Building a frame *)

Lemma write_at_app a bs r : write_at (length a) bs (a ++ r) = (a ++ bs) ++ drop (length bs) r.
Proof.
  unfold write_at. rewrite take_app_length, <- app_assoc. do 2 f_equal.
  rewrite drop_app_ge by lia. f_equal. lia.
Qed.

Lemma take_pad n l : (length l <= 64)%nat -> 0 <= n <= 64 ->
  take (Z.to_nat n) (l ++ drop (length l) zero_frame) = pad n l.
Proof.
  intros Hl Hn. unfold pad, zero_frame. rewrite !take_app. f_equal.
  rewrite drop_replicate, !take_replicate. f_equal. lia.
Qed.

Lemma length_pad n l : 0 <= n <= 64 -> length (pad n l) = Z.to_nat n.
Proof. intros. unfold pad. rewrite length_take, length_app, length_replicate. lia. Qed.

(** Bytes that fit the frame are its head. *)
Lemma pad_head n l : Z.of_nat (length l) <= n -> exists z, pad n l = l ++ z.
Proof.
  intros. unfold pad. rewrite take_app_ge by lia. by eexists.
Qed.

Lemma frame_build head payload :
  write_at (length head) payload (write_at 0 head zero_frame) =
  (head ++ payload) ++ drop (length head + length payload) zero_frame.
Proof.
  change (write_at 0 head zero_frame) with (head ++ drop (0 + length head) zero_frame).
  rewrite write_at_app, drop_drop. done.
Qed.

(** Room left in a frame under construction. *)
Ltac zf_tac :=
  rewrite ?length_write_at by (rewrite ?length_write_at by (cbn; lia); cbn; lia);
  unfold zero_frame; cbn [length]; rewrite ?length_replicate; lia.

Section Going.
Context {C : Type}.
Implicit Types i : uds_isotp_ctx C.

(** The transmission in progress: its numbers are in range. *)
Record tx_going (i : uds_isotp_ctx C) (p : list Z) : Prop := {
  tg_sn : 0 <= iso_sn i < 16;
  tg_bytes : 0 <= bytes_processed i <= msg_len i;
  tg_len : msg_len i <= Z.of_nat (length p);
  tg_buf : Z.of_nat (length p) < 65536
}.

(** The bytes still to send. *)
Definition to_send (i : uds_isotp_ctx C) (p : list Z) : list Z :=
  drop (Z.to_nat (bytes_processed i)) (take (Z.to_nat (msg_len i)) p).

Lemma length_to_send i p :
  tx_going i p -> Z.of_nat (length (to_send i p)) = msg_len i - bytes_processed i.
Proof. intros []. unfold to_send. rewrite length_drop, length_take. lia. Qed.

Lemma to_send_advance n t i p :
  tx_going i p -> 0 <= n <= msg_len i - bytes_processed i ->
  tx_going (cf_advance n t i) p /\ to_send (cf_advance n t i) p = drop (Z.to_nat n) (to_send i p) /\
  iso_sn (cf_advance n t i) = (iso_sn i + 1) mod 16 /\ msg_len (cf_advance n t i) = msg_len i /\
  bytes_processed (cf_advance n t i) = bytes_processed i + n /\
  tx_id (cf_advance n t i) = tx_id i /\ fd_on (cf_advance n t i) = fd_on i /\
  can_send (cf_advance n t i) = can_send i /\
  iso_state (cf_advance n t i) =
    (if msg_len i <=? bytes_processed i + n then ISOTP_IDLE else iso_state i).
Proof.
  intros [H1 H2 H3 H4] Hn. unfold to_send. rewrite drop_drop.
  unfold cf_advance. destruct (msg_len i <=? bytes_processed i + n); iso_cbn; split_and!; try done.
  1,3: split; iso_cbn; zlia.
  all: f_equal; lia.
Qed.
End Going.

Section Tx.
Context {C : Type} (can_ok : C -> Prop) (R : Z -> Prop).
Implicit Types i : uds_isotp_ctx C.

(** The longest frame the transport sends. *)
Definition max_dl i : Z := if fd_on i then 64 else 8.

Lemma max_dl_8 i : 8 <= max_dl i.
Proof. unfold max_dl. destruct (fd_on i); lia. Qed.

(** The CAN driver: on frames of up to [n] bytes it does not fault, and returns something
    in [R]. *)
Definition driver_ok (n : Z) (f : Z -> list Z -> Z -> M C Z) : Prop :=
  forall id d c, can_ok c -> Z.of_nat (length d) <= n ->
    wp (f id d (Z.of_nat (length d))) (fun r c' => R r /\ can_ok c') c.

(** The same driver, for frames of the same length. *)
Definition same_bus i' i : Prop := can_send i' = can_send i /\ fd_on i' = fd_on i.

Lemma same_bus_driver i' i :
  same_bus i' i -> (exists f, can_send i = Some f /\ driver_ok (max_dl i) f) ->
  exists f, can_send i' = Some f /\ driver_ok (max_dl i') f.
Proof. unfold max_dl. by intros [-> ->]. Qed.

Lemma wp_slice l off n (Q : list Z -> iso_env C -> Prop) e :
  0 <= off -> 0 <= n -> off + n <= Z.of_nat (length l) ->
  Q (take (Z.to_nat n) (drop (Z.to_nat off) l)) e -> wp (slice l off n) Q e.
Proof.
  intros H1 H2 H3 HQ. unfold slice.
  by rewrite (proj2 (Z.leb_le _ _) H1), (proj2 (Z.leb_le _ _) H2), (proj2 (Z.leb_le _ _) H3).
Qed.

Lemma wp_arr_write arr off bs (Q : list Z -> iso_env C -> Prop) e :
  0 <= off -> off + Z.of_nat (length bs) <= Z.of_nat (length arr) ->
  Q (write_at (Z.to_nat off) bs arr) e -> wp (arr_write arr off bs) Q e.
Proof.
  intros H1 H2 HQ. unfold arr_write.
  by rewrite (proj2 (Z.leb_le _ _) H1), (proj2 (Z.leb_le _ _) H2).
Qed.

Lemma wp_send_frame f data len (Q : Z -> iso_env C -> Prop) i p pl c fr :
  can_send i = Some f -> driver_ok (max_dl i) f -> can_ok c -> 0 <= len <= Z.of_nat (length data) ->
  len <= max_dl i ->
  (forall r c', R r -> can_ok c' ->
     Q r (mkIsoEnv i p pl c' (fr ++ [(tx_id i, take (Z.to_nat len) data)]))) ->
  wp (uds_internal_tp_send_frame data len) Q (mkIsoEnv i p pl c fr).
Proof.
  intros Hf Hd Hc Hlen Hle HQ. unfold uds_internal_tp_send_frame. apply wp_bind. unfold wp at 1, get_iso.
  cbn [g_isotp_ctx]. rewrite Hf. apply wp_bind, wp_slice; [lia..|]. rewrite drop_0.
  apply wp_bind, wp_zoom. cbn [can].
  replace len with (Z.of_nat (length (take (Z.to_nat len) data))) at 2 by (rewrite length_take; lia).
  eapply wp_mono; [apply Hd; [done|rewrite length_take; lia]|]. intros r c' [Hr Hc']. apply wp_bind. by apply HQ.
Qed.

(** A frame of a header, a payload and padding. *)
Lemma wp_send_padded f head payload dl (Q : Z -> iso_env C -> Prop) i p pl c fr :
  can_send i = Some f -> driver_ok (max_dl i) f -> can_ok c ->
  (length head + length payload <= 64)%nat -> 0 <= dl <= max_dl i ->
  (forall r c', R r -> can_ok c' ->
     Q r (mkIsoEnv i p pl c' (fr ++ [(tx_id i, pad dl (head ++ payload))]))) ->
  wp (uds_internal_tp_send_frame ((head ++ payload) ++ drop (length head + length payload) zero_frame) dl) Q
    (mkIsoEnv i p pl c fr).
Proof.
  intros Hf Hd Hc Hl Hdl HQ. assert (max_dl i <= 64) by (unfold max_dl; destruct (fd_on i); lia).
  eapply wp_send_frame; [done..| |lia|].
  - unfold zero_frame. rewrite !length_app, length_drop, length_replicate. lia.
  - intros r c' Hr Hc'. rewrite <- length_app, take_pad by (rewrite ?length_app; lia). by apply HQ.
Qed.

Lemma wp_send_sf f data len (Q : Z -> iso_env C -> Prop) i p pl c fr :
  can_send i = Some f -> driver_ok (max_dl i) f -> can_ok c -> 0 <= len <= Z.of_nat (length data) -> len <= Z.of_nat (max_sf (fd_on i)) ->
  (forall r c', R r -> can_ok c' ->
     Q r (mkIsoEnv i p pl c' (fr ++ [(tx_id i, sf_frame (take (Z.to_nat len) data))]))) ->
  wp (uds_send_sf data len) Q (mkIsoEnv i p pl c fr).
Proof.
  intros Hf Hd Hc Hlen Hle HQ. unfold uds_send_sf. apply wp_bind, wp_slice; [lia..|]. rewrite drop_0.
  set (sdu := take (Z.to_nat len) data) in *.
  assert (Hn : Z.of_nat (length sdu) = len) by (subst sdu; rewrite length_take; lia).
  assert (Hdl : len <= 62 /\ 8 <= max_dl i /\ (7 < len -> max_dl i = 64))
    by (unfold max_dl; destruct (fd_on i); cbn in Hle; lia).
  unfold sf_frame in HQ. rewrite Hn in HQ. unfold ISOTP_SF_MAX_DL_CAN, ISOTP_PCI_SF.
  destruct (len <=? 7) eqn:H7; bool_prop.
  - rewrite Z.lor_0_l, !u8_small by (rewrite ?u8_small; lia).
    apply wp_bind, wp_arr_write; [lia|zf_tac|]. apply wp_bind, wp_arr_write; [lia|zf_tac|].
    change (Z.to_nat 1) with (length [len]). rewrite frame_build.
    apply (wp_send_padded f [len] sdu); [done..|cbn; lia|unfold ISOTP_MAX_DL_CAN; lia|]. exact HQ.
  - rewrite (u8_small len) by lia. rewrite u8_small by lia.
    apply wp_bind, wp_arr_write; [lia|zf_tac|]. apply wp_bind, wp_arr_write; [lia|zf_tac|].
    apply wp_bind, wp_arr_write; [lia|zf_tac|].
    change (write_at (Z.to_nat 1) [len] (write_at (Z.to_nat 0) [0] zero_frame)) with (write_at 0 [0; len] zero_frame).
    change (Z.to_nat 2) with (length [0; len]). rewrite frame_build.
    apply (wp_send_padded f [0; len] sdu); [done..|cbn; lia| |exact HQ].
    pose proof (dlc_align_bounds (len + 2)). lia.
Qed.

(** The context once a first frame has left. *)
Definition ff_sent (len : Z) i : uds_isotp_ctx C :=
  set_iso_sn 1 (set_bytes_processed (Z.of_nat (ff_data (fd_on i)))
    (set_iso_state ISOTP_TX_WAIT_FC (set_msg_len len i))).

(** The first byte of a first frame, and how much of the SDU it takes. *)
Lemma ff_pci len : 0 <= len < 4096 -> Z.lor ISOTP_PCI_FF (Z.land (Z.shiftr len 8) 15) = 0x10 + len / 256.
Proof.
  intros Hlen. unfold ISOTP_PCI_FF. rewrite land_15, shiftr_8, Z.mod_small by zlia.
  assert (Hb : 0 <= len / 256 < 16) by zlia. revert Hb. generalize (len / 256). intros x Hx.
  assert (H : forallb (fun x => Z.lor 16 x =? 16 + x) (seqZ 0 16) = true) by by vm_compute.
  rewrite forallb_forall in H. apply Z.eqb_eq, H, list_elem_of_In, elem_of_seqZ. lia.
Qed.

Lemma ff_to_copy fd len :
  Z.of_nat (max_sf fd) < len ->
  (if len >? (if fd then ISOTP_FF_MAX_DATA_CANFD else ISOTP_FF_MAX_DATA_CAN)
   then (if fd then ISOTP_FF_MAX_DATA_CANFD else ISOTP_FF_MAX_DATA_CAN) else u8 len) = Z.of_nat (ff_data fd).
Proof.
  intros Hlen. unfold ISOTP_FF_MAX_DATA_CANFD, ISOTP_FF_MAX_DATA_CAN. destruct fd; cbn [ff_data max_sf] in *;
    rewrite (proj2 (Z.gtb_lt _ _)) by lia; done.
Qed.

Lemma wp_send_mf f data len (Q : Z -> iso_env C -> Prop) i p pl c fr :
  can_send i = Some f -> driver_ok (max_dl i) f -> can_ok c -> length p = 1024%nat ->
  Z.of_nat (max_sf (fd_on i)) < len <= Z.of_nat (length data) ->
  (1024 < len -> Q (-2) (mkIsoEnv i p pl c fr)) ->
  (forall r c', len <= 1024 -> R r -> can_ok c' ->
     Q (if r =? 0 then 0 else -1)
       (mkIsoEnv (ff_sent len i) (write_at 0 (take (Z.to_nat len) data) p) len c'
          (fr ++ [(tx_id i, ff_frame (fd_on i) (take (Z.to_nat len) data))]))) ->
  wp (uds_send_mf data len) Q (mkIsoEnv i p pl c fr).
Proof.
  intros Hf Hd Hc Hp Hlen Hlong HQ. unfold uds_send_mf, ISOTP_MAX_SDU_LEN_STD.
  apply wp_bind. unfold wp at 1, get_pending. cbn [g_pending_tx_sdu]. rewrite Hp, !Z.gtb_ltb.
  destruct (Z.ltb_spec 1024 len) as [Hl|Hl].
  { rewrite (proj2 (Z.ltb_lt (Z.of_nat 1024) _)) by lia. rewrite orb_true_r. by apply wp_ret, Hlong. }
  rewrite !(proj2 (Z.ltb_ge _ _)) by lia. cbn [orb].
  apply wp_bind, wp_slice; [lia..|]. rewrite drop_0. set (sdu := take (Z.to_nat len) data) in *.
  assert (Hn : Z.of_nat (length sdu) = len) by (subst sdu; rewrite length_take; lia).
  apply wp_bind, wp_arr_write; [lia|lia|]. change (Z.to_nat 0) with 0%nat.
  do 4 (apply wp_bind; unfold wp at 1, put_pending, mod_iso; iso_cbn).
  apply wp_bind. unfold wp at 1, get_iso. iso_cbn.
  rewrite ff_pci by lia.
  replace (u8 (Z.land len 255)) with (len mod 256) by (rewrite land_255, u8_small; zlia).
  apply wp_bind, wp_arr_write; [lia|zf_tac|]. apply wp_bind, wp_arr_write; [lia|zf_tac|].
  change (negb (use_can_fd i =? 0)) with (fd_on i).
  rewrite ff_to_copy by lia. set (n := Z.of_nat (ff_data (fd_on i))) in *.
  assert (Hnb : 0 <= n <= 62 /\ n < len) by (subst n; destruct (fd_on i); cbn in *; lia).
  apply wp_bind, wp_slice; [lia..|]. rewrite drop_0.
  replace (take (Z.to_nat n) data) with (take (ff_data (fd_on i)) sdu)
    by (subst sdu n; rewrite take_take, Nat2Z.id; f_equal; lia).
  set (head := take (ff_data (fd_on i)) sdu).
  assert (Hh : Z.of_nat (length head) = n) by (subst head n; rewrite length_take; lia).
  apply wp_bind, wp_arr_write; [lia|zf_tac|].
  do 2 (apply wp_bind; unfold wp at 1, mod_iso; iso_cbn).
  change (write_at (Z.to_nat 1) [len mod 256] (write_at (Z.to_nat 0) [0x10 + len / 256] zero_frame))
    with (write_at 0 [0x10 + len / 256; len mod 256] zero_frame).
  change (Z.to_nat 2) with (length [0x10 + len / 256; len mod 256]). rewrite frame_build. apply wp_bind.
  assert (Hdl : (if fd_on i then uds_dlc_align (u8 (2 + n)) else ISOTP_MAX_DL_CAN) = if fd_on i then 64 else 8)
    by (subst n; by destruct (fd_on i)).
  rewrite Hdl. apply (wp_send_padded f [0x10 + len / 256; len mod 256] head);
    [done..|cbn [length]; lia|change (max_dl _) with (max_dl i); unfold max_dl; destruct (fd_on i); lia|].
  intros r c' Hr Hc'. specialize (HQ r c' ltac:(lia) Hr Hc'). unfold ff_frame in HQ. rewrite Hn in HQ.
  fold head in HQ. destruct (r =? 0) eqn:Hr0; exact HQ.
Qed.

Lemma wp_send_cf f t (Q : unit -> iso_env C -> Prop) i p pl c fr :
  can_send i = Some f -> driver_ok (max_dl i) f -> can_ok c -> tx_going i p ->
  bytes_processed i < msg_len i ->
  (forall r c', R r -> can_ok c' -> let chunk := take (cf_data (fd_on i)) (to_send i p) in
     Q tt (mkIsoEnv (if r =? 0 then cf_advance (Z.of_nat (length chunk)) t i else i) p pl c'
             (fr ++ [(tx_id i, cf_frame (fd_on i) (iso_sn i) chunk)]))) ->
  wp (send_cf i (msg_len i - bytes_processed i) t) Q (mkIsoEnv i p pl c fr).
Proof.
  intros Hf Hd Hc Hg Hrem HQ. pose proof (length_to_send _ _ Hg) as Hlen. destruct Hg as [Hsn Hbp Hml Hbuf].
  unfold send_cf. change (negb (use_can_fd i =? 0)) with (fd_on i). rewrite Z.gtb_ltb.
  set (chunk := take (cf_data (fd_on i)) (to_send i p)) in *.
  assert (Hto : (if (if fd_on i then ISOTP_MAX_DL_CANFD - 1 else ISOTP_MAX_DL_CAN - 1) <? msg_len i - bytes_processed i
    then (if fd_on i then ISOTP_MAX_DL_CANFD - 1 else ISOTP_MAX_DL_CAN - 1) else u8 (msg_len i - bytes_processed i)) =
    Z.of_nat (length chunk)).
  { subst chunk. rewrite length_take. unfold ISOTP_MAX_DL_CANFD, ISOTP_MAX_DL_CAN.
    destruct (fd_on i); cbn [cf_data]; case_match; bool_prop; rewrite ?u8_small by lia; lia. }
  rewrite Hto. set (n := Z.of_nat (length chunk)) in *.
  assert (Hn : 0 <= n <= 63 /\ n <= msg_len i - bytes_processed i).
  { pose proof (cf_data_pos (fd_on i)). subst n chunk. rewrite length_take. lia. }
  replace (u8 (Z.lor ISOTP_PCI_CF (iso_sn i))) with (0x20 + iso_sn i).
  2: { assert (H : forallb (fun x => u8 (Z.lor 32 x) =? 32 + x) (seqZ 0 16) = true) by by vm_compute.
       rewrite forallb_forall in H. symmetry. apply Z.eqb_eq, H, list_elem_of_In, elem_of_seqZ. lia. }
  apply wp_bind, wp_arr_write; [lia|zf_tac|]. apply wp_bind. unfold wp at 1, get_pending. cbn [g_pending_tx_sdu].
  apply wp_bind, wp_slice; [lia..|].
  replace (take (Z.to_nat n) (drop (Z.to_nat (bytes_processed i)) p)) with chunk.
  2: { subst n chunk. unfold to_send. rewrite skipn_firstn_comm, take_take, !length_take, length_drop.
       f_equal. lia. }
  apply wp_bind, wp_arr_write; [lia|fold n; zf_tac|].
  change (Z.to_nat 1) with (length [0x20 + iso_sn i]). rewrite frame_build. apply wp_bind.
  assert (Hdl : (if fd_on i then uds_dlc_align (u8 (1 + n)) else ISOTP_MAX_DL_CAN) =
    if fd_on i then uds_dlc_align (1 + n) else 8) by (by rewrite u8_small by lia).
  rewrite Hdl. pose proof (dlc_align_bounds (1 + n)).
  apply (wp_send_padded f [0x20 + iso_sn i] chunk); [done..|cbn [length]; lia|unfold max_dl; destruct (fd_on i); lia|].
  intros r c' Hr Hc'. specialize (HQ r c' Hr Hc'). unfold cf_frame in HQ. fold n in HQ. cbv zeta in HQ.
  apply wp_when; intros Hr0; rewrite Hr0 in HQ; [|exact HQ].
  unfold cf_advance in HQ. rewrite <- land_15, <- (u16_small (bytes_processed i + n)) in HQ by lia.
  do 4 (apply wp_bind; unfold wp at 1, mod_iso; iso_cbn). apply wp_bind. unfold wp at 1, get_iso. iso_cbn.
  apply wp_when; intros Hfin; rewrite Hfin in HQ; exact HQ.
Qed.

(** One tick, by cases. *)
Lemma wp_tick f t (Q : unit -> iso_env C -> Prop) i p pl c fr :
  can_send i = Some f -> driver_ok (max_dl i) f -> can_ok c ->
  (iso_state i = ISOTP_TX_SENDING_CF -> tx_going i p) ->
  match tick_decide i t with
  | TickNothing => Q tt (mkIsoEnv i p pl c fr)
  | TickFinish => Q tt (mkIsoEnv (set_iso_state ISOTP_IDLE i) p pl c fr)
  | TickBlock => Q tt (mkIsoEnv (set_bs_counter 0 (set_iso_state ISOTP_TX_WAIT_FC i)) p pl c fr)
  | TickSend => forall r c', R r -> can_ok c' ->
      let chunk := take (cf_data (fd_on i)) (to_send i p) in
      Q tt (mkIsoEnv (if r =? 0 then cf_advance (Z.of_nat (length chunk)) t i else i) p pl c'
              (fr ++ [(tx_id i, cf_frame (fd_on i) (iso_sn i) chunk)]))
  end ->
  wp (uds_tp_isotp_process t) Q (mkIsoEnv i p pl c fr).
Proof.
  intros Hf Hd Hc Hg HQ. unfold uds_tp_isotp_process, tick_decide in *.
  apply wp_bind. unfold wp at 1, get_iso. cbn [g_isotp_ctx].
  destruct (decide (iso_state i = ISOTP_TX_SENDING_CF)) as [Hs|Hs]; [|by destruct (iso_state i)].
  rewrite Hs. specialize (Hg Hs). pose proof Hg as [Hsn Hbp Hml Hbuf]. rewrite u16_small by lia.
  replace (msg_len i - bytes_processed i =? 0) with (msg_len i =? bytes_processed i) by lia.
  destruct (msg_len i =? bytes_processed i) eqn:Hz; [exact HQ|]. bool_prop. cbv zeta.
  destruct (u32 _ <? _); [by apply wp_ret|]. rewrite Z.gtb_ltb. destruct (_ && _); [exact HQ|].
  apply (wp_send_cf f); try done. lia.
Qed.

(** ** A transmission in progress *)

(** [sent] has left, the rest of [sdu]'s segmentation is still to go. *)
Record tx_inv (id : Z) (fd : bool) (sdu : list Z) (fr0 : list (Z * list Z)) (e : iso_env C) : Prop := {
  ti_driver : exists f, can_send (g_isotp_ctx e) = Some f /\ driver_ok (max_dl (g_isotp_ctx e)) f;
  ti_can : can_ok (can e);
  ti_id : tx_id (g_isotp_ctx e) = id;
  ti_fd : fd_on (g_isotp_ctx e) = fd;
  ti_going : tx_going (g_isotp_ctx e) (g_pending_tx_sdu e);
  ti_sdu : take (Z.to_nat (msg_len (g_isotp_ctx e))) (g_pending_tx_sdu e) = sdu;
  ti_state : iso_state (g_isotp_ctx e) = ISOTP_TX_WAIT_FC \/
    iso_state (g_isotp_ctx e) = ISOTP_TX_SENDING_CF \/
    (iso_state (g_isotp_ctx e) = ISOTP_IDLE /\ bytes_processed (g_isotp_ctx e) = msg_len (g_isotp_ctx e));
  ti_frames : let rest := to_send (g_isotp_ctx e) (g_pending_tx_sdu e) in
    exists sent, frames e = fr0 ++ map (pair id) sent /\
      segment fd sdu = sent ++ cf_frames (length rest) fd (iso_sn (g_isotp_ctx e)) rest
}.

(** A tick keeps the invariant when the driver accepts every frame. *)
Lemma tick_inv id fd sdu fr0 t e :
  (forall r, R r -> r = 0) -> tx_inv id fd sdu fr0 e ->
  wp (uds_tp_isotp_process t) (fun _ e' => tx_inv id fd sdu fr0 e' /\
    g_pending_tx_sdu e' = g_pending_tx_sdu e /\
    match tick_decide (g_isotp_ctx e) t with
    | TickNothing => e' = e
    | TickFinish => g_isotp_ctx e' = set_iso_state ISOTP_IDLE (g_isotp_ctx e) /\ frames e' = frames e
    | TickBlock => g_isotp_ctx e' = set_bs_counter 0 (set_iso_state ISOTP_TX_WAIT_FC (g_isotp_ctx e)) /\
        frames e' = frames e
    | TickSend => let rest := to_send (g_isotp_ctx e) (g_pending_tx_sdu e) in
        g_isotp_ctx e' = cf_advance (Z.of_nat (length (take (cf_data fd) rest))) t (g_isotp_ctx e) /\
        length (frames e') = S (length (frames e))
    end) e.
Proof.
  intros HR Hinv. destruct e as [i p pl c fr]. pose proof Hinv as [[f [Hf Hd]] Hc Hid Hfd Hg Hsdu Hst Hfr].
  cbn [g_isotp_ctx g_pending_tx_sdu can frames] in *. apply (wp_tick f); try done.
  unfold tick_decide. destruct (decide (iso_state i = ISOTP_TX_SENDING_CF)) as [Hsend|Hns]; [|done].
  destruct (Z.eqb_spec (msg_len i) (bytes_processed i)) as [Hfin|Hne].
  { split; [|done]. split; iso_cbn; try done; [by exists f|by destruct Hg|by right; right]. }
  destruct (u32 _ <? _); [done|].
  destruct ((0 <? block_size i) && (block_size i <=? bs_counter i)).
  { split; [|done]. split; iso_cbn; try done; [by exists f|by destruct Hg|by left]. }
  intros r c' Hr Hc'. rewrite (HR r Hr), Z.eqb_refl, Hfd. cbv zeta.
  pose proof (length_to_send i p Hg) as Hlen. set (rest := to_send i p) in *.
  set (n := Z.of_nat (length (take (cf_data fd) rest))).
  assert (Hn : 0 <= n <= msg_len i - bytes_processed i) by (subst n; rewrite length_take; lia).
  destruct (to_send_advance n t i p Hg Hn) as (Hg' & Hts & Hsn & Hml & Hbp & Hi & Hf' & Hcs & Hs').
  split; [|split; [done|split; [done|cbn [frames]; rewrite length_app; cbn; lia]]].
  split; cbn [g_isotp_ctx g_pending_tx_sdu can frames]; try done.
  - exists f. unfold max_dl in *. by rewrite Hcs, Hf'.
  - by rewrite Hi.
  - by rewrite Hf'.
  - by rewrite Hml.
  - rewrite Hs', Hsend, Hbp, Hml. destruct (Z.leb_spec (msg_len i) (bytes_processed i + n)); [|by right; left].
    right; right. split; [done|lia].
  - destruct Hfr as (sent & -> & Hseg). fold rest in Hseg.
    exists (sent ++ [cf_frame fd (iso_sn i) (take (cf_data fd) rest)]). rewrite Hid. split.
    + by rewrite map_app, app_assoc.
    + assert (Hd1 : drop (Z.to_nat n) rest = drop (cf_data fd) rest).
      { subst n. rewrite Nat2Z.id, length_take. destruct (decide (cf_data fd <= length rest)%nat).
        - f_equal. lia.
        - by rewrite !drop_ge by lia. }
      rewrite Hseg, cf_frames_step by (intros Hr0; rewrite Hr0 in Hlen; cbn in Hlen; lia).
      fold rest in Hts. by rewrite <- app_assoc, Hts, Hsn, Hd1.
Qed.

(** Starting a multi-frame transmission establishes the invariant. *)
Lemma send_mf_inv f data len i p pl c fr :
  (forall r, R r -> r = 0) ->
  can_send i = Some f -> driver_ok (max_dl i) f -> can_ok c -> length p = 1024%nat ->
  Z.of_nat (max_sf (fd_on i)) < len <= Z.of_nat (length data) -> len <= 1024 ->
  wp (uds_send_mf data len) (fun r e' => r = 0 /\ iso_state (g_isotp_ctx e') = ISOTP_TX_WAIT_FC /\
    g_isotp_ctx e' = ff_sent len i /\ length (frames e') = S (length fr) /\
    tx_inv (tx_id i) (fd_on i) (take (Z.to_nat len) data) fr e') (mkIsoEnv i p pl c fr).
Proof.
  intros HR Hf Hd Hc Hp Hlen Hle. apply (wp_send_mf f); try done; [lia|].
  intros r c' _ Hr Hc'. rewrite (HR r Hr). split; [done|]. split; [done|]. split; [done|].
  split; [cbn [frames]; rewrite length_app; cbn; lia|].
  set (sdu := take (Z.to_nat len) data). set (fd := fd_on i) in *.
  assert (Hn : Z.of_nat (length sdu) = len) by (subst sdu; rewrite length_take; lia).
  assert (Hffd : (ff_data fd <= max_sf fd)%nat /\ (0 < ff_data fd)%nat) by (destruct fd; cbn; lia).
  assert (Htk : take (Z.to_nat len) (write_at 0 sdu p) = sdu).
  { replace (Z.to_nat len) with (0 + length sdu)%nat by lia. rewrite take_write_at by lia. done. }
  assert (Hwl : length (write_at 0 sdu p) = 1024%nat) by (rewrite length_write_at; lia).
  split; cbn [g_isotp_ctx g_pending_tx_sdu can frames]; try done.
  - by exists f.
  - split; unfold ff_sent; iso_cbn; fold fd; rewrite ?Hwl; lia.
  - by left.
  - exists [ff_frame fd sdu]. split; [done|]. unfold to_send, ff_sent; iso_cbn. fold fd. rewrite Htk, Nat2Z.id.
    unfold segment. rewrite (proj2 (Nat.leb_gt _ _)) by lia. cbn [app]. f_equal.
    apply cf_frames_fuel; rewrite ?length_drop; lia.
Qed.

(** A flow-control frame with bs and st_min leaves the invariant alone. *)
Lemma fc_inv id fd sdu fr0 bs st e :
  tx_inv id fd sdu fr0 e -> iso_state (g_isotp_ctx e) = ISOTP_TX_WAIT_FC ->
  tx_inv id fd sdu fr0 (set_iso (fun i => set_st_min st (set_block_size bs
    (set_iso_state ISOTP_TX_SENDING_CF i))) e).
Proof.
  intros [[f [Hf Hd]] Hc Hid Hfd Hg Hsdu Hst Hfr] Hs. split; iso_cbn; try done; [by exists f|by destruct Hg|].
  by right; left.
Qed.

(** An idle transmitter that kept the invariant has sent everything. *)
Lemma tx_done id fd sdu fr0 e :
  tx_inv id fd sdu fr0 e -> iso_state (g_isotp_ctx e) = ISOTP_IDLE ->
  frames e = fr0 ++ map (pair id) (segment fd sdu).
Proof.
  intros [_ _ _ _ Hg _ Hst Hfr] Hs. destruct Hst as [?|[?|[_ Hb]]]; [congruence..|].
  destruct Hfr as (sent & -> & ->). pose proof (length_to_send _ _ Hg) as Hl.
  destruct (to_send _ _); [by rewrite app_nil_r|cbn in Hl; lia].
Qed.
End Tx.
