(* ===== verification/IsoTpRx.v ===== *)
(** * ISO-TP reception: [src/transport/uds_tp_isotp.c]

    Frame dispatch and reassembly. A complete SDU is handed to
    [uds_input_sdu], so this side runs on the core's state with [iso_env C] as
    its application state. *)

From S2P Require Import Prelude Monad Types Machine CoreBase Core IsoTp.
From stdpp Require Import base gmap list strings numbers.

Open Scope Z_scope.

Section IsoTpRx.
Context {C : Type}.
Context (client_call : N -> Z -> list Z -> Z -> M (uds_state (iso_env C)) unit).

Definition uds_rx_sf (uds_ctx : ctx_ptr (iso_env C)) (data : list Z) (len : Z)
    : M (uds_state (iso_env C)) unit :=
  call (mod_iso (set_iso_state ISOTP_IDLE)) ;;
  d0 ← data_at data 0;
  let sdu_len := Z.land d0 0x0F in
  if sdu_len =? 0 then
    d1 ← data_at data 1;
    if d1 =? 0 then mret tt
    else if d1 >? len - 2 then mret tt
    else p ← data_from data 2; uds_input_sdu client_call uds_ctx (Some p) d1
  else if sdu_len >? len - 1 then mret tt
  else p ← data_from data 1; uds_input_sdu client_call uds_ctx (Some p) sdu_len.

(** [n] bytes from [data[off]] of the received frame. *)
Definition frame_slice (data : list Z) (off n : Z) : M (uds_state (iso_env C)) (list Z) :=
  call (slice data off n).

Definition uds_rx_ff (uds_ctx : ctx_ptr (iso_env C)) (data : list Z) (len : Z)
    : M (uds_state (iso_env C)) unit :=
  call (mod_iso (set_iso_state ISOTP_IDLE)) ;;
  d0 ← data_at data 0;
  d1 ← data_at data 1;
  let sdu_len := Z.lor (u16 (Z.shiftl (Z.land d0 0x0F) 8)) d1 in
  if sdu_len <? 8 then mret tt
  else
    call (mod_iso (set_msg_len sdu_len)) ;;
    let data_in_ff := if len >? ISOTP_MAX_DL_CAN then u8 (len - 2) else ISOTP_FF_MAX_DATA_CAN in
    call (mod_iso (set_bytes_processed data_in_ff)) ;;
    call (mod_iso (set_iso_sn 1)) ;;
    call (mod_iso (set_iso_state ISOTP_RX_WAIT_CF)) ;;
    cfg ← config_of uds_ctx;
    if rx_buffer_size cfg <? sdu_len then call (mod_iso (set_iso_state ISOTP_IDLE))
    else
      chunk ← frame_slice data 2 data_in_ff;
      blk_write (rx_buffer cfg) 0 chunk ;;
      iso ← call get_iso;
      let fc := [Z.lor ISOTP_PCI_FC ISOTP_FC_CTS; block_size iso; st_min iso; 0; 0; 0; 0; 0] in
      call (uds_internal_tp_send_frame fc 8) ;;
      mret tt.

Definition uds_rx_cf (uds_ctx : ctx_ptr (iso_env C)) (data : list Z) (len : Z)
    : M (uds_state (iso_env C)) unit :=
  iso ← call get_iso;
  if negb (bool_decide (iso_state iso = ISOTP_RX_WAIT_CF)) then mret tt
  else
    d0 ← data_at data 0;
    if negb (Z.land d0 0x0F =? iso_sn iso) then call (mod_iso (set_iso_state ISOTP_IDLE))
    else
      call (mod_iso (fun i => set_iso_sn (Z.land (iso_sn i + 1) 0x0F) i)) ;;
      let remaining := u16 (msg_len iso - bytes_processed iso) in
      let data_capacity := u8 (len - 1) in
      let to_copy := if remaining >? data_capacity then data_capacity else u8 remaining in
      cfg ← config_of uds_ctx;
      chunk ← frame_slice data 1 to_copy;
      blk_write (rx_buffer cfg) (bytes_processed iso) chunk ;;
      call (mod_iso (fun i => set_bytes_processed (u16 (bytes_processed i + to_copy)) i)) ;;
      iso ← call get_iso;
      mwhen (msg_len iso <=? bytes_processed iso) (
        call (mod_iso (set_iso_state ISOTP_IDLE)) ;;
        sdu ← blk_all (rx_buffer cfg);
        uds_input_sdu client_call uds_ctx (Some sdu) (msg_len iso)).

Definition uds_rx_fc (data : list Z) : M (uds_state (iso_env C)) unit :=
  iso ← call get_iso;
  if negb (bool_decide (iso_state iso = ISOTP_TX_WAIT_FC)) then mret tt
  else
    d0 ← data_at data 0;
    if Z.land d0 0x0F =? ISOTP_FC_CTS then
      call (mod_iso (set_iso_state ISOTP_TX_SENDING_CF)) ;;
      d1 ← data_at data 1;
      call (mod_iso (set_block_size d1)) ;;
      d2 ← data_at data 2;
      call (mod_iso (set_st_min d2))
    else mret tt.

Definition uds_isotp_rx_callback (uds_ctx : ctx_ptr (iso_env C)) (id : Z) (data : list Z) (len : Z)
    : M (uds_state (iso_env C)) unit :=
  iso ← call get_iso;
  if negb (id =? rx_id iso) then mret tt
  else
    d0 ← data_at data 0;
    let pci := Z.land d0 0xF0 in
    if pci =? ISOTP_PCI_SF then uds_rx_sf uds_ctx data len
    else if pci =? ISOTP_PCI_FF then uds_rx_ff uds_ctx data len
    else if pci =? ISOTP_PCI_CF then uds_rx_cf uds_ctx data len
    else if pci =? ISOTP_PCI_FC then uds_rx_fc data
    else mret tt.
End IsoTpRx.
