(* ===== verification/IsoTpRef.v ===== *)
(** * What the receiving side of ISO-TP promises

    A reference receiver, independent of the code: protocol data units instead of
    bit masks, a reception as the announced length, the bytes so far and the next
    sequence number, and one pure step per unit. [IsoTpLink] proves that
    [uds_isotp_rx_callback] implements it; here: it puts back together what
    [IsoTpTx.segment] cut. *)

From S2P Require Import Prelude Monad Types IsoTp IsoTpTx.
From stdpp Require Import base gmap list strings numbers.

Open Scope Z_scope.

(** ** Protocol data units *)

Inductive pdu : Type :=
| PduSingle (sdu : list Z)
| PduFirst (n : Z) (chunk : list Z)
| PduConsecutive (sn : Z) (chunk : list Z)
| PduAbort     (* a single or first frame that announces nothing usable *)
| PduIgnored.  (* flow control, undefined types *)

(** The unit in a frame of [len] bytes. A first frame of classic CAN always has six
    bytes of payload, in a buffer of eight. *)
Definition pdu_of (data : list Z) (len : Z) : pdu :=
  let b0 := nth 0 data 0 in
  let b1 := nth 1 data 0 in
  let low := b0 mod 16 in
  let payload k n := take (Z.to_nat n) (drop k data) in
  if b0 / 16 =? 0 then
    if low =? 0 then
      if (b1 =? 0) || (len - 2 <? b1) then PduAbort else PduSingle (payload 2%nat b1)
    else if len - 1 <? low then PduAbort else PduSingle (payload 1%nat low)
  else if b0 / 16 =? 1 then
    let n := low * 256 + b1 in
    if n <? 8 then PduAbort else PduFirst n (payload 2%nat (if 8 <? len then len - 2 else 6))
  else if b0 / 16 =? 2 then PduConsecutive low (payload 1%nat (len - 1))
  else PduIgnored.

(** A frame with another identifier than the receiver's is not for it. *)
Definition unit_for (rid id : Z) (data : list Z) (len : Z) : pdu :=
  if id =? rid then pdu_of data len else PduIgnored.

(** ** The receiver *)

Record reception : Type := mkReception {
  rc_len : Z;           (* announced *)
  rc_got : list Z;      (* received so far *)
  rc_next : Z           (* sequence number to come *)
}.

(** What the receiver does besides moving on: nothing, ask for more, hand an SDU up. *)
Inductive rx_out : Type :=
| RxNothing
| RxFlow
| RxSdu (sdu : list Z).

(** One unit, with room for [rxs] bytes. *)
Definition rx_step (rxs : Z) (r : option reception) (p : pdu) : option reception * rx_out :=
  match p with
  | PduSingle sdu => (None, RxSdu sdu)
  | PduFirst n chunk => if n <=? rxs then (Some (mkReception n chunk 1), RxFlow) else (None, RxNothing)
  | PduConsecutive sn chunk =>
      match r with
      | Some (mkReception n got next) =>
          if sn =? next then
            let got' := got ++ take (Z.to_nat n - length got) chunk in
            if n <=? Z.of_nat (length got') then (None, RxSdu (take (Z.to_nat n) got'))
            else (Some (mkReception n got' ((next + 1) mod 16)), RxNothing)
          else (None, RxNothing)
      | None => (None, RxNothing)
      end
  | PduAbort => (None, RxNothing)
  | PduIgnored => (r, RxNothing)
  end.

(** A sequence of units, and what comes out of it. *)
Fixpoint rx_run (rxs : Z) (r : option reception) (ps : list pdu) : option reception * list rx_out :=
  match ps with
  | [] => (r, [])
  | p :: ps' =>
      let '(r1, o) := rx_step rxs r p in
      let '(r2, os) := rx_run rxs r1 ps' in (r2, o :: os)
  end.

(** What a sequence hands up. *)
Definition sdus (os : list rx_out) : list (list Z) :=
  omap (fun o => match o with RxSdu sdu => Some sdu | _ => None end) os.

(** ** Cutting and putting back together *)

(** A frame as it comes off the bus, all of its buffer filled. *)
Definition frame_unit (d : list Z) : pdu := pdu_of d (Z.of_nat (length d)).

Lemma pdu_single sdu : (1 <= length sdu <= 62)%nat -> frame_unit (sf_frame sdu) = PduSingle sdu.
Proof.
  intros Hlen. unfold frame_unit, sf_frame. set (n := Z.of_nat (length sdu)). destruct (Z.leb_spec n 7) as [H7|H7].
  - destruct (pad_head 8 (n :: sdu)) as [z Hz]; [cbn [length]; lia|]. rewrite length_pad by lia. rewrite Hz.
    unfold pdu_of. cbn [nth app drop]. rewrite (Z.div_small n 16), (Z.mod_small n 16) by lia. cbn [Z.eqb].
    rewrite (proj2 (Z.eqb_neq n 0)) by lia. rewrite (proj2 (Z.ltb_ge _ n)) by lia.
    subst n. rewrite Nat2Z.id. f_equal. apply take_app_length.
  - set (dl := uds_dlc_align (n + 2)). pose proof (dlc_align_bounds (n + 2)) as Hdl. fold dl in Hdl.
    destruct (pad_head dl (0 :: n :: sdu)) as [z Hz]; [cbn [length]; lia|]. rewrite length_pad by lia. rewrite Hz.
    unfold pdu_of. cbn [nth app drop]. change (0 / 16 =? 0) with true. change (0 mod 16 =? 0) with true. cbv iota.
    rewrite (proj2 (Z.eqb_neq n 0)) by lia. rewrite (proj2 (Z.ltb_ge _ n)) by lia. cbn [orb].
    subst n. rewrite Nat2Z.id. f_equal. apply take_app_length.
Qed.

Lemma pdu_first fd sdu :
  (max_sf fd < length sdu)%nat -> Z.of_nat (length sdu) < 4096 ->
  frame_unit (ff_frame fd sdu) = PduFirst (Z.of_nat (length sdu)) (take (ff_data fd) sdu).
Proof.
  intros Hlong H12. unfold frame_unit, ff_frame. set (n := Z.of_nat (length sdu)). set (dl := if fd then 64 else 8).
  assert (Hffd : (0 < ff_data fd <= max_sf fd)%nat) by (destruct fd; cbn; lia).
  assert (Hdl : dl = 2 + Z.of_nat (ff_data fd)) by by subst dl; destruct fd.
  assert (Hch : length (take (ff_data fd) sdu) = ff_data fd) by (rewrite length_take; lia).
  destruct (pad_head dl (16 + n / 256 :: n mod 256 :: take (ff_data fd) sdu)) as [z Hz];
    [cbn [length]; destruct fd; cbn in *; lia|].
  rewrite length_pad by (destruct fd; cbn in *; lia). rewrite Hz. unfold pdu_of. cbn [nth app drop].
  replace ((16 + n / 256) / 16) with 1 by zlia. replace ((16 + n / 256) mod 16) with (n / 256) by zlia.
  cbn [Z.eqb Pos.eqb]. replace (n / 256 * 256 + n mod 256) with n by zlia.
  rewrite (proj2 (Z.ltb_ge n 8)) by (destruct fd; cbn in *; lia). f_equal.
  replace (if 8 <? Z.of_nat (Z.to_nat dl) then Z.of_nat (Z.to_nat dl) - 2 else 6) with (Z.of_nat (ff_data fd))
    by (subst dl; by destruct fd).
  rewrite Nat2Z.id. by apply take_app_length'.
Qed.

(** A consecutive frame: the chunk, and padding only behind the last one. *)
Lemma pdu_consecutive fd sn chunk :
  0 <= sn < 16 -> (1 <= length chunk <= cf_data fd)%nat ->
  exists z, frame_unit (cf_frame fd sn chunk) = PduConsecutive sn (chunk ++ z) /\
    (length chunk = cf_data fd -> z = []).
Proof.
  intros Hsn Hch. unfold frame_unit, cf_frame. set (cl := Z.of_nat (length chunk)).
  set (dl := if fd then uds_dlc_align (1 + cl) else 8). pose proof (cf_data_pos fd).
  assert (Hdl : 1 + cl <= dl <= 64).
  { subst dl. pose proof (dlc_align_bounds (1 + cl)). destruct fd; [lia|]. cbn [cf_data] in *. lia. }
  destruct (pad_head dl (32 + sn :: chunk)) as [z Hz]; [cbn [length]; lia|].
  assert (Hzl : length (pad dl (32 + sn :: chunk)) = Z.to_nat dl) by (apply length_pad; lia).
  assert (Hz' : length z = (Z.to_nat dl - 1 - length chunk)%nat).
  { rewrite Hz, length_app in Hzl. cbn [length] in Hzl. lia. }
  rewrite Hzl, Hz. exists z. split.
  - unfold pdu_of. cbn [nth app drop].
    replace ((32 + sn) / 16) with 2 by zlia. replace ((32 + sn) mod 16) with sn by zlia. cbn [Z.eqb Pos.eqb].
    f_equal. apply take_ge. rewrite length_app. lia.
  - intros Hfull. apply nil_length_inv. rewrite Hz'. subst dl cl. rewrite Hfull. by destruct fd.
Qed.

Lemma run_consecutive rxs fd sdu : forall fuel (k : nat) sn,
  (length sdu - k <= fuel)%nat -> (k < length sdu)%nat -> 0 <= sn < 16 ->
  exists os, rx_run rxs (Some (mkReception (Z.of_nat (length sdu)) (take k sdu) sn))
      (map frame_unit (cf_frames fuel fd sn (drop k sdu))) = (None, os) /\ sdus os = [sdu].
Proof.
  induction fuel as [|fuel IH]; intros k sn Hfuel Hk Hsn; [lia|]. pose proof (cf_data_pos fd).
  set (rest := drop k sdu). assert (Hrest : length rest = (length sdu - k)%nat) by (subst rest; apply length_drop).
  set (chunk := take (cf_data fd) rest).
  assert (Hch : length chunk = Nat.min (cf_data fd) (length rest)) by (subst chunk; apply length_take).
  assert (Hcons : cf_frames (S fuel) fd sn rest =
    cf_frame fd sn chunk :: cf_frames fuel fd ((sn + 1) mod 16) (drop (cf_data fd) rest)).
  { clearbody rest. subst chunk. destruct rest; [cbn in *; lia|done]. }
  rewrite Hcons. cbn [map rx_run]. destruct (pdu_consecutive fd sn chunk Hsn ltac:(lia)) as (z & -> & Hz).
  cbn [rx_step]. rewrite Z.eqb_refl, Nat2Z.id, length_take, Nat.min_l by lia.
  assert (Hgot : take k sdu ++ take (length sdu - k) (chunk ++ z) = take (k + length chunk) sdu).
  { rewrite <- take_take_drop. f_equal. fold rest. rewrite Hch. destruct (decide (cf_data fd < length rest)%nat).
    - rewrite Hz, app_nil_r by lia. rewrite Nat.min_l by lia. fold chunk. by rewrite take_ge by lia.
    - rewrite Nat.min_r, <- Hrest by lia. subst chunk. rewrite (take_ge rest) by lia. by rewrite take_app_length, take_ge. }
  cbv zeta. rewrite Hgot, length_take. destruct (decide (cf_data fd < length rest)%nat) as [Hmore|Hlast].
  - rewrite (proj2 (Z.leb_gt _ _)) by lia. destruct (IH (k + length chunk)%nat ((sn + 1) mod 16)) as (os & Hos & Hs);
      [lia|lia|zlia|].
    replace (drop (cf_data fd) rest) with (drop (k + length chunk) sdu)
      by (subst rest; rewrite drop_drop; f_equal; lia).
    rewrite Hos. exists (RxNothing :: os). done.
  - rewrite (proj2 (Z.leb_le _ _)) by lia. rewrite (drop_ge rest) by lia.
    replace (cf_frames fuel _ _ []) with (@nil (list Z)) by by destruct fuel.
    cbn [map rx_run]. exists [RxSdu (take (length sdu) (take (k + length chunk) sdu))]. split; [done|].
    cbn. by rewrite !take_ge by (rewrite ?length_take; lia).
Qed.

(** The reference receiver puts the reference segmentation back together. *)
Lemma segment_reassembles rxs r fd sdu :
  1 <= Z.of_nat (length sdu) <= rxs -> Z.of_nat (length sdu) < 4096 ->
  exists os, rx_run rxs r (map frame_unit (segment fd sdu)) = (None, os) /\ sdus os = [sdu].
Proof.
  intros Hlen H12. unfold segment. destruct (Nat.leb_spec (length sdu) (max_sf fd)) as [Hs|Hs].
  - cbn [map rx_run]. rewrite pdu_single by (destruct fd; cbn in *; lia). cbn. by eexists.
  - cbn [map rx_run]. rewrite pdu_first by lia. cbn [rx_step]. rewrite (proj2 (Z.leb_le _ _)) by lia.
    assert (Hffd : (0 < ff_data fd <= max_sf fd)%nat) by (destruct fd; cbn; lia).
    destruct (run_consecutive rxs fd sdu (length sdu) (ff_data fd) 1) as (os & Hos & Hsd); [lia..|].
    rewrite Hos. by exists (RxFlow :: os).
Qed.
