(* ===== verification/IsoTpLink.v ===== *)
(** * ISO-TP under the core: the whole stack

    [uds_isotp_send] keeps the transport contract of the core, and core and
    transport together survive any interleaving of frames (of up to 64 bytes, if the
    receive buffer has at least 125), ticks and application calls. Every received frame
    does what the reference receiver of [IsoTpRef] does ([wp_rx_frame]). *)

From S2P Require Import Prelude Monad Types Machine CoreBase Contract HandlerLogic.
From S2P Require Import Core CoreDispatch CoreProcess CoreApi IsoTp IsoTpTx IsoTpRx IsoTpRef.
From stdpp Require Import base gmap list strings numbers.

Open Scope Z_scope.

(** ** The transport's invariant *)

(** A reception in progress fits the receive buffer of [rxs] bytes, even when a first
    frame of CAN-FD brought more than it announced; a transmission in progress fits the
    pending buffer. *)
Record iso_ctx_ok {C} (rxs : Z) (i : uds_isotp_ctx C) (p : list Z) : Prop := {
  ic_sn : 0 <= iso_sn i < 16;
  ic_rx : iso_state i = ISOTP_RX_WAIT_CF ->
    0 <= bytes_processed i <= rxs /\ 0 <= msg_len i <= rxs /\
    (bytes_processed i <= msg_len i \/ bytes_processed i + 63 <= rxs);
  ic_tx : iso_state i = ISOTP_TX_WAIT_FC \/ iso_state i = ISOTP_TX_SENDING_CF -> tx_going i p
}.

Record iso_ok {C} (can_ok : C -> Prop) (rxs : Z) (e : iso_env C) : Prop := {
  io_driver : exists f, can_send (g_isotp_ctx e) = Some f /\
    driver_ok can_ok (fun r => r <= 0) (max_dl (g_isotp_ctx e)) f;
  io_can : can_ok (can e);
  io_pending : length (g_pending_tx_sdu e) = 1024%nat;
  io_ctx : iso_ctx_ok rxs (g_isotp_ctx e) (g_pending_tx_sdu e)
}.

(** ** Traffic *)

(** What drives the stack: frames from the bus, ticks of the transport, calls
    of the application. *)
Inductive stack_op : Type :=
| StackFrame (id : Z) (data : list Z) (len : Z)
| StackTick (t : Z)
| StackCall (a : api_call).

(** A frame as the driver delivers it: a buffer of eight bytes (classic CAN) to 64
    (CAN-FD) of which the frame has filled [len]; frames longer than eight bytes only
    where the receive buffer has 125 bytes. *)
Definition frame_ok (rxs : Z) (data : list Z) (len : Z) : Prop :=
  Forall is_byte data /\ (8 <= length data <= 64)%nat /\ 1 <= len <= Z.of_nat (length data) /\
  (8 < len -> 125 <= rxs).

Definition stack_ok (rxs : Z) (o : stack_op) : Prop :=
  match o with
  | StackFrame _ data len => frame_ok rxs data len
  | StackTick _ => True
  | StackCall a => api_ok a
  end.

Definition run_stack {C} (client_call : N -> Z -> list Z -> Z -> M (uds_state (iso_env C)) unit)
    (cfg : uds_config (iso_env C)) (o : stack_op) : M (uds_state (iso_env C)) unit :=
  match o with
  | StackFrame id data len => uds_isotp_rx_callback client_call (Some cfg) id data len
  | StackTick t => call (uds_tp_isotp_process t)
  | StackCall a => run_api client_call cfg a
  end.

Section Iso.
Context {C : Type} (can_ok : C -> Prop) (rxs : Z).
Implicit Types i : uds_isotp_ctx C.

Lemma iso_ctx_ext i i' p :
  iso_ctx_ok rxs i p -> iso_sn i' = iso_sn i -> iso_state i' = iso_state i -> msg_len i' = msg_len i ->
  bytes_processed i' = bytes_processed i -> iso_ctx_ok rxs i' p.
Proof.
  intros [H1 H2 H3] E1 E2 E3 E4. split; rewrite ?E1, ?E2, ?E3, ?E4; try done.
  intros Hs. destruct (H3 Hs). split; rewrite ?E1, ?E3, ?E4; done.
Qed.

Lemma iso_ctx_idle i p : 0 <= iso_sn i < 16 -> iso_state i = ISOTP_IDLE -> iso_ctx_ok rxs i p.
Proof. intros Hn Hs. split; [done|congruence|]. intros [?|?]; congruence. Qed.

(** Sending: a single frame, or a refusal, leaves the transport as it was; a first frame
    opens a transmission. *)
Lemma wp_isotp_send f c sdu (Q : Z -> iso_env C -> Prop) i p pl cn fr :
  can_send i = Some f -> driver_ok can_ok (fun r => r <= 0) (max_dl i) f -> can_ok cn -> length p = 1024%nat ->
  (forall r cn' fr', r <= 0 -> can_ok cn' -> Q r (mkIsoEnv i p pl cn' fr')) ->
  (forall r cn' fr', (max_sf (fd_on i) < length sdu <= 1024)%nat -> r <= 0 -> can_ok cn' ->
     Q r (mkIsoEnv (ff_sent (Z.of_nat (length sdu)) i) (write_at 0 sdu p) (Z.of_nat (length sdu)) cn' fr')) ->
  wp (uds_isotp_send c sdu (Z.of_nat (length sdu))) Q (mkIsoEnv i p pl cn fr).
Proof.
  intros Hf Hd Hc Hp Hsame Hff. unfold uds_isotp_send. apply wp_bind. unfold wp at 1, get_iso. cbn [g_isotp_ctx].
  change (negb (use_can_fd i =? 0)) with (fd_on i).
  assert (Hmax : (if fd_on i then ISOTP_SF_MAX_DL_CANFD else ISOTP_SF_MAX_DL_CAN) = Z.of_nat (max_sf (fd_on i)))
    by by destruct (fd_on i).
  rewrite Hmax. destruct (Z.leb_spec (Z.of_nat (length sdu)) (Z.of_nat (max_sf (fd_on i)))) as [Hs|Hs].
  - eapply wp_send_sf; [done|done|done|lia|destruct (fd_on i); cbn in *; lia|]. intros r c' Hr Hc'. by apply Hsame.
  - eapply wp_send_mf; [done|done|done|done|lia| |].
    + intros _. by apply Hsame.
    + intros r c' Hle Hr Hc'. rewrite Nat2Z.id, take_ge by lia. apply Hff; [lia| |done]. by destruct (r =? 0).
Qed.

(** The transport contract the core relies on. *)
Lemma send_contract c sdu :
  cb_ok (iso_ok can_ok rxs) (uds_isotp_send c sdu (Z.of_nat (length sdu))) (fun r => r <= 0).
Proof.
  intros e [[f [Hf Hd]] Hc Hp Hi]. destruct e as [i p pl cn fr]. cbn [g_isotp_ctx can g_pending_tx_sdu] in *.
  apply (wp_isotp_send f); [done..| |].
  - intros r cn' fr' Hr Hc'. split; [done|]. split; try done. by exists f.
  - intros r cn' fr' Hlen Hr Hc'. split; [done|]. split; cbn [g_isotp_ctx can g_pending_tx_sdu].
    + by exists f.
    + done.
    + rewrite length_write_at; lia.
    + unfold ff_sent. split; iso_cbn; [lia|done|]. intros _.
      assert (Z.of_nat (ff_data (fd_on i)) <= Z.of_nat (max_sf (fd_on i))) by (destruct (fd_on i); cbn; lia).
      split; iso_cbn; [lia|lia| |]; rewrite length_write_at; lia.
Qed.

(** A tick keeps the transport's invariant whatever the driver answers. *)
Lemma tick_keeps t e :
  iso_ok can_ok rxs e -> wp (uds_tp_isotp_process t) (fun _ e' => iso_ok can_ok rxs e') e.
Proof.
  intros [[f [Hf Hd]] Hc Hp Hi]. destruct e as [i p pl cn fr]. cbn [g_isotp_ctx can g_pending_tx_sdu] in *.
  pose proof Hi as [Hsn Hrx Htx].
  eapply (wp_tick _ _ f); [done|done|done|auto|]. unfold tick_decide.
  destruct (decide (iso_state i = ISOTP_TX_SENDING_CF)) as [Hs|Hs].
  2: { split; try done. by exists f. }
  pose proof (Htx (or_intror Hs)) as Hg.
  destruct (msg_len i =? bytes_processed i).
  { split; iso_cbn; try done; [by exists f|]. by apply iso_ctx_idle. }
  destruct (u32 _ <? _); [split; try done; by exists f|].
  destruct ((0 <? block_size i) && (block_size i <=? bs_counter i)).
  { split; iso_cbn; try done; [by exists f|]. split; iso_cbn; [done|done|]. intros _. by destruct Hg. }
  intros r c' Hr Hc'. set (chunk := take (cf_data (fd_on i)) (to_send i p)). pose proof (length_to_send i p Hg) as Hlen.
  set (n := Z.of_nat (length chunk)).
  assert (Hn : 0 <= n <= msg_len i - bytes_processed i) by (subst n chunk; rewrite length_take; lia).
  destruct (to_send_advance n t i p Hg Hn) as (Hg' & _ & _ & _ & _ & _ & Hfd & Hcs & Hst).
  destruct (r =? 0); split; cbn [g_isotp_ctx can g_pending_tx_sdu]; try done; try (by exists f).
  - apply (same_bus_driver _ _ _ i); [by split|by exists f].
  - split; [by destruct Hg'| |by intros _]. rewrite Hst, Hs. by case_match.
Qed.
End Iso.

(** ** Rules for the receiving side *)

Section RxRules.
Context {C : Type}.

(** Changes of the transport's context alone. *)
Lemma wp_call_mod f (Q : unit -> uds_state (iso_env C) -> Prop) c m i p pl cn fr tr :
  Q tt (mkState c m (mkIsoEnv (f i) p pl cn fr) tr) ->
  wp (call (mod_iso f)) Q (mkState c m (mkIsoEnv i p pl cn fr) tr).
Proof. done. Qed.

Lemma wp_call_get (Q : uds_isotp_ctx C -> uds_state (iso_env C) -> Prop) c m i p pl cn fr tr :
  Q i (mkState c m (mkIsoEnv i p pl cn fr) tr) ->
  wp (call get_iso) Q (mkState c m (mkIsoEnv i p pl cn fr) tr).
Proof. done. Qed.

Lemma wp_frame_slice data off n (Q : list Z -> uds_state (iso_env C) -> Prop) s :
  0 <= off -> 0 <= n -> off + n <= Z.of_nat (length data) ->
  Q (take (Z.to_nat n) (drop (Z.to_nat off) data)) s -> wp (frame_slice data off n) Q s.
Proof.
  intros H1 H2 H3 HQ. unfold frame_slice. apply wp_call, wp_slice; [done..|]. by destruct s.
Qed.
End RxRules.

(** One step of the receiving side. *)
Ltac iso_step :=
  cbv zeta;
  lazymatch goal with
  | |- wp (mbind _ _) _ _ => apply wp_bind
  | |- wp (mret _) _ _ => apply wp_ret
  | |- wp (call (mod_iso _)) _ _ => apply wp_call_mod
  | |- wp (call get_iso) _ _ => apply wp_call_get
  | |- wp (config_of (Some _)) _ _ => apply wp_config_of
  | |- wp (data_at _ _) _ _ => apply wp_byte; [assumption|lia|intros ? ? ?]
  | |- wp (data_from _ _) _ _ => apply wp_data_from; [lia|]
  end.

(** The flow control that answers a first frame, and the transport's context while [k]
    bytes of [n] have been received. *)
Definition flow_frame {C} (i : uds_isotp_ctx C) : Z * list Z :=
  (tx_id i, [0x30; block_size i; st_min i; 0; 0; 0; 0; 0]).

Definition receiving {C} (n k sn : Z) (i : uds_isotp_ctx C) : uds_isotp_ctx C :=
  set_iso_state ISOTP_RX_WAIT_CF (set_iso_sn sn (set_bytes_processed k (set_msg_len n i))).

(** The header bytes of a frame, as the reference reads them. *)
Lemma byte_nth (data : list Z) (k : nat) b : data !! k = Some b -> nth k data 0 = b.
Proof. intros H. by apply nth_lookup_Some with (d := 0) in H. Qed.

(** A first frame that fits opens a reception and is answered with flow control. *)
Lemma wp_rx_ff_open {C} (can_ok : C -> Prop) (R : Z -> Prop) (cfg : uds_config (iso_env C)) rb f data len b b1 l
    (Q : unit -> uds_state (iso_env C) -> Prop) c m i p pl cn fr tr :
  can_send i = Some f -> driver_ok can_ok R (max_dl i) f -> can_ok cn -> rx_buffer cfg = Some rb ->
  data !! 0%nat = Some b -> data !! 1%nat = Some b1 -> is_byte b -> is_byte b1 -> 1 <= len <= 64 ->
  let n := b mod 16 * 256 + b1 in
  let k := if 8 <? len then len - 2 else 6 in
  8 <= n <= rx_buffer_size cfg -> 2 + k <= Z.of_nat (length data) -> k <= rx_buffer_size cfg ->
  m !! rb = Some l -> Z.of_nat (length l) = rx_buffer_size cfg ->
  (forall r cn', R r -> can_ok cn' ->
     Q tt (mkState c (<[rb := write_at 0 (take (Z.to_nat k) (drop 2 data)) l]> m)
       (mkIsoEnv (receiving n k 1 i) p pl cn' (fr ++ [flow_frame i])) tr)) ->
  wp (uds_rx_ff (Some cfg) data len) Q (mkState c m (mkIsoEnv i p pl cn fr) tr).
Proof.
  intros Hf Hd Hc Hrb Hd0 Hd1 Hb Hb1 Hlen n k Hn Hk Hkr Hl Hln HQ. unfold is_byte in *.
  pose proof (Z.mod_pos_bound b 16 ltac:(lia)). assert (Hk0 : 6 <= k) by (subst k; destruct (Z.ltb_spec 8 len); lia).
  unfold uds_rx_ff. iso_step. iso_step. iso_step. apply wp_data_at with b; [lia|done|]. iso_step.
  apply wp_data_at with b1; [lia|done|]. cbv zeta.
  rewrite land_15, shiftl_8, u16_small, lor_byte by lia. fold n. rewrite (proj2 (Z.ltb_ge n 8)) by lia.
  assert (Hin : (if len >? ISOTP_MAX_DL_CAN then u8 (len - 2) else ISOTP_FF_MAX_DATA_CAN) = k).
  { subst k. rewrite Z.gtb_ltb. unfold ISOTP_MAX_DL_CAN. destruct (Z.ltb_spec 8 len); [by rewrite u8_small by lia|done]. }
  rewrite Hin. repeat iso_step. rewrite (proj2 (Z.ltb_ge (rx_buffer_size cfg) n)) by lia.
  repeat iso_step. apply wp_frame_slice; [lia..|]. iso_step. rewrite Hrb.
  eapply wp_blk_write; [exact Hl|lia|rewrite length_take, length_drop; lia|]. unfold set_mem; cbn [ctx mem env trace].
  repeat iso_step. apply wp_call. cbn [env]. iso_cbn.
  eapply (wp_send_frame can_ok R f); [done|done|done|cbn [length]; lia|apply max_dl_8|]. intros r cn' Hr Hcn'.
  iso_step. by eapply HQ.
Qed.

(** One that announces too little or too much leaves the transport idle. *)
Lemma wp_rx_ff_refuse {C} (cfg : uds_config (iso_env C)) data len b b1
    (Q : unit -> uds_state (iso_env C) -> Prop) c m i p pl cn fr tr :
  data !! 0%nat = Some b -> data !! 1%nat = Some b1 -> is_byte b -> is_byte b1 -> 0 <= iso_sn i < 16 ->
  let n := b mod 16 * 256 + b1 in
  ~ 8 <= n <= rx_buffer_size cfg ->
  (forall i', iso_state i' = ISOTP_IDLE -> 0 <= iso_sn i' < 16 -> same_bus i' i -> rx_id i' = rx_id i ->
     Q tt (mkState c m (mkIsoEnv i' p pl cn fr) tr)) ->
  wp (uds_rx_ff (Some cfg) data len) Q (mkState c m (mkIsoEnv i p pl cn fr) tr).
Proof.
  intros Hd0 Hd1 Hb Hb1 Hsn n Hn HQ. unfold is_byte in *. pose proof (Z.mod_pos_bound b 16 ltac:(lia)).
  unfold uds_rx_ff. iso_step. iso_step. iso_step. apply wp_data_at with b; [lia|done|]. iso_step.
  apply wp_data_at with b1; [lia|done|]. cbv zeta.
  rewrite land_15, shiftl_8, u16_small, lor_byte by lia. fold n.
  destruct (Z.ltb_spec n 8); [by apply wp_ret, HQ|]. repeat iso_step.
  rewrite (proj2 (Z.ltb_lt (rx_buffer_size cfg) n)) by lia. iso_step. by apply HQ.
Qed.

Section Link.
Context {C : Type} (can_ok : C -> Prop) (tb : N) (cfg : uds_config (iso_env C)).
#[local] Abbreviation env_ok := (iso_ok can_ok (rx_buffer_size cfg)).
Context `{Hok : !ConfigOk env_ok tb cfg} `{Hus : !UsersOk env_ok tb cfg}.
Context (client_call : N -> Z -> list Z -> Z -> M (uds_state (iso_env C)) unit).
Context `{Hclient : !ClientOk env_ok tb cfg client_call}.
Context (rb : N) (Hrb : rx_buffer cfg = Some rb) (Hrxs : rx_buffer_size cfg < 65536).

(** Handing an SDU to the core. *)
Lemma wp_input_rx data len s :
  uds_inv env_ok tb cfg s -> Forall is_byte data -> 0 <= len <= Z.of_nat (length data) -> len < 65536 ->
  wp (uds_input_sdu client_call (Some cfg) (Some data) len) (fun _ s' => uds_inv env_ok tb cfg s' /\
    exists evs, trace s' = trace s ++ evs /\ access_run (ctx s) (ctx s') evs) s.
Proof.
  intros Hinv Hb Hlen Hlt.
  by apply (run_api_ok env_ok tb cfg client_call (ApiInput data len) s Hinv).
Qed.

(** The state with the transport's parts in view. *)
Lemma inv_iso_open s :
  uds_inv env_ok tb cfg s -> exists c m i p pl cn fr tr,
    s = mkState c m (mkIsoEnv i p pl cn fr) tr /\ ctx_ok c /\ mem_ok tb cfg m /\
    iso_ok can_ok (rx_buffer_size cfg) (mkIsoEnv i p pl cn fr).
Proof.
  intros [Hc Hm He]. destruct s as [c m [i p pl cn fr] tr]. by exists c, m, i, p, pl, cn, fr, tr.
Qed.

Lemma inv_iso_close c m i p pl cn fr tr i' p' pl' cn' fr' :
  ctx_ok c -> mem_ok tb cfg m -> iso_ok can_ok (rx_buffer_size cfg) (mkIsoEnv i p pl cn fr) ->
  same_bus i' i -> can_ok cn' -> length p' = length p ->
  iso_ctx_ok (rx_buffer_size cfg) i' p' ->
  uds_inv env_ok tb cfg (mkState c m (mkIsoEnv i' p' pl' cn' fr') tr).
Proof.
  intros Hc Hm [[f [Hf Hd]] Hcan Hp Hi] Hcs Hcan' Hp' Hi'. split; [done..|].
  split; cbn [env g_isotp_ctx can g_pending_tx_sdu] in *; [by eapply same_bus_driver; [|exists f]|done|congruence|done].
Qed.

(** The receive buffer replaced. *)
Lemma mem_ok_rx_block m l :
  mem_ok tb cfg m -> Z.of_nat (length l) = rx_buffer_size cfg -> Forall is_byte l ->
  mem_ok tb cfg (<[rb := l]> m).
Proof.
  intros Hm Hl Hb. destruct (mem_rx _ _ _ Hm rb Hrb) as (Hne & Hst & _).
  destruct Hm as [[lt [Ht Hlt]] Hd _]. split.
  - exists lt. by rewrite lookup_insert_ne.
  - apply Forall_forall. intros en Hen st Hen2.
    destruct (proj1 (Forall_forall _ _) Hd en Hen st Hen2) as (x & Hx & Hxn). exists x.
    pose proof (proj1 (Forall_forall _ _) Hst en Hen). rewrite lookup_insert_ne by congruence. done.
  - intros rb' Hrb'. replace rb' with rb in * by congruence. split; [done|]. split; [done|].
    exists l. by rewrite lookup_insert_eq.
Qed.

(** Bytes of a written block. *)
Lemma write_at_bytes off bs l : Forall is_byte bs -> Forall is_byte l -> Forall is_byte (write_at off bs l).
Proof.
  intros. unfold write_at. apply Forall_app. split; [by apply Forall_take|].
  apply Forall_app. split; [done|by apply Forall_drop].
Qed.

(** The receive buffer after a chunk has been copied in. *)
Lemma mem_ok_rx m off bs l :
  mem_ok tb cfg m -> Forall is_byte bs -> (off + length bs <= length l)%nat ->
  m !! rb = Some l -> mem_ok tb cfg (<[rb := write_at off bs l]> m).
Proof.
  intros Hm Hb Hlen Hl. destruct (mem_rx _ _ _ Hm rb Hrb) as (_ & _ & l0 & Hl0 & Hn & Hbl).
  replace l0 with l in * by congruence.
  apply mem_ok_rx_block; [done|rewrite length_write_at; lia|by apply write_at_bytes].
Qed.

Lemma wp_rx_write off bs (Q : unit -> uds_state (iso_env C) -> Prop) c m e tr :
  mem_ok tb cfg m -> Forall is_byte bs -> 0 <= off -> off + Z.of_nat (length bs) <= rx_buffer_size cfg ->
  (forall l, m !! rb = Some l -> Z.of_nat (length l) = rx_buffer_size cfg -> Forall is_byte l ->
     mem_ok tb cfg (<[rb := write_at (Z.to_nat off) bs l]> m) ->
     Q tt (mkState c (<[rb := write_at (Z.to_nat off) bs l]> m) e tr)) ->
  wp (blk_write (rx_buffer cfg) off bs) Q (mkState c m e tr).
Proof.
  intros Hm Hb Ho Hlen HQ. destruct (mem_rx _ _ _ Hm rb Hrb) as (_ & _ & l & Hl & Hn & Hbl).
  rewrite Hrb. eapply wp_blk_write; [exact Hl|lia|lia|]. unfold set_mem; cbn [ctx mem env trace].
  apply HQ; [done..|]. apply mem_ok_rx; [done..|lia|done].
Qed.

(** *** The receiving side against its reference *)

(** The reception in progress. *)
Definition reception_of (s : uds_state (iso_env C)) : option reception :=
  let i := g_isotp_ctx (env s) in
  if decide (iso_state i = ISOTP_RX_WAIT_CF)
  then Some (mkReception (msg_len i) (take (Z.to_nat (bytes_processed i)) (default [] (mem s !! rb))) (iso_sn i))
  else None.

(** What the reference does on a frame. *)
Definition rx_ref (s : uds_state (iso_env C)) (id : Z) (data : list Z) (len : Z) : option reception * rx_out :=
  rx_step (rx_buffer_size cfg) (reception_of s) (unit_for (rx_id (g_isotp_ctx (env s))) id data len).

(** The transport moved from [s] to [s1] with outcome [o]: the core's context and the
    memory but for the receive buffer are untouched, nothing was reported, and the only
    frame sent is the flow control asked for. *)
Record rx_moved (s s1 : uds_state (iso_env C)) (o : rx_out) : Prop := {
  mv_ctx : ctx s1 = ctx s;
  mv_trace : trace s1 = trace s;
  mv_mem b : b <> rb -> mem s1 !! b = mem s !! b;
  mv_id : rx_id (g_isotp_ctx (env s1)) = rx_id (g_isotp_ctx (env s));
  mv_frames : frames (env s1) = frames (env s) ++
    match o with RxFlow => [flow_frame (g_isotp_ctx (env s))] | _ => [] end
}.

(** What is left to show once the transport has moved to [s1] with outcome [o]: the
    postcondition, or that handing the SDU to the core establishes it. *)
Definition rx_then (Q : unit -> uds_state (iso_env C) -> Prop) (o : rx_out) (s1 : uds_state (iso_env C)) : Prop :=
  match o with
  | RxSdu sdu => forall buf, Forall is_byte buf -> (length sdu <= length buf)%nat -> take (length sdu) buf = sdu ->
      Z.of_nat (length sdu) < 65536 ->
      wp (uds_input_sdu client_call (Some cfg) (Some buf) (Z.of_nat (length sdu))) Q s1
  | _ => Q tt s1
  end.

Definition rx_goal (s : uds_state (iso_env C)) (ro : option reception * rx_out)
    (Q : unit -> uds_state (iso_env C) -> Prop) : Prop :=
  forall s1, uds_inv env_ok tb cfg s1 -> rx_moved s s1 ro.2 -> reception_of s1 = ro.1 -> rx_then Q ro.2 s1.

Lemma reception_idle c m i p pl cn fr tr :
  iso_state i <> ISOTP_RX_WAIT_CF -> reception_of (mkState c m (mkIsoEnv i p pl cn fr) tr) = None.
Proof. intros Hs. unfold reception_of; cbn [env g_isotp_ctx]. by rewrite decide_False. Qed.

(** The transport's context changed, nothing else. *)
Lemma rx_goal_iso c m i p pl cn fr tr i' r o (Q : unit -> uds_state (iso_env C) -> Prop) :
  uds_inv env_ok tb cfg (mkState c m (mkIsoEnv i p pl cn fr) tr) ->
  rx_goal (mkState c m (mkIsoEnv i p pl cn fr) tr) (r, o) Q ->
  same_bus i' i -> rx_id i' = rx_id i -> iso_ctx_ok (rx_buffer_size cfg) i' p -> o <> RxFlow ->
  reception_of (mkState c m (mkIsoEnv i' p pl cn fr) tr) = r ->
  rx_then Q o (mkState c m (mkIsoEnv i' p pl cn fr) tr).
Proof.
  intros [Hc Hm He] HG Hs Hid Hi Ho Hr. cbn [ctx mem env] in *. apply HG; [| |done].
  - eapply inv_iso_close; try done. by destruct He.
  - split; try done. cbn. destruct o; by rewrite ?app_nil_r.
Qed.

Lemma rx_goal_idle c m i p pl cn fr tr i' o (Q : unit -> uds_state (iso_env C) -> Prop) :
  uds_inv env_ok tb cfg (mkState c m (mkIsoEnv i p pl cn fr) tr) ->
  rx_goal (mkState c m (mkIsoEnv i p pl cn fr) tr) (None, o) Q ->
  same_bus i' i -> rx_id i' = rx_id i -> 0 <= iso_sn i' < 16 -> iso_state i' = ISOTP_IDLE -> o <> RxFlow ->
  rx_then Q o (mkState c m (mkIsoEnv i' p pl cn fr) tr).
Proof.
  intros Hinv HG Hs Hid Hsn Hi Ho. eapply rx_goal_iso; [exact Hinv|exact HG|done|done| |done|].
  - by apply iso_ctx_idle.
  - apply reception_idle. by rewrite Hi.
Qed.

(** A single frame. *)
Lemma wp_rx_sf data len b (Q : unit -> uds_state (iso_env C) -> Prop) s :
  uds_inv env_ok tb cfg s -> frame_ok (rx_buffer_size cfg) data len -> data !! 0%nat = Some b -> b / 16 = 0 ->
  rx_goal s (rx_step (rx_buffer_size cfg) (reception_of s) (pdu_of data len)) Q ->
  wp (uds_rx_sf client_call (Some cfg) data len) Q s.
Proof.
  intros Hinv (Hb & Hlen & Hdlc & _) Hd0 Hsf HG. pose proof Hinv as Hinv0.
  apply inv_iso_open in Hinv0 as (c & m & i & p & pl & cn & fr & tr & -> & Hc & Hm & He).
  assert (Hsn : 0 <= iso_sn i < 16) by by destruct He as [_ _ _ []].
  destruct (lookup_lt_is_Some_2 data 1) as [b1 Hd1]; [lia|].
  pose proof (Forall_lookup_1 _ _ _ _ Hb Hd1) as Hb1. unfold is_byte in Hb1.
  unfold pdu_of in HG. cbv beta zeta in HG. rewrite (byte_nth _ _ _ Hd0), (byte_nth _ _ _ Hd1), Hsf in HG. cbn [Z.eqb Pos.eqb] in HG.
  assert (Hin : forall (k n : Z), 0 <= k <= len -> 0 <= n <= len - k ->
    rx_goal (mkState c m (mkIsoEnv i p pl cn fr) tr) (None, RxSdu (take (Z.to_nat n) (drop (Z.to_nat k) data))) Q ->
    wp (uds_input_sdu client_call (Some cfg) (Some (drop (Z.to_nat k) data)) n) Q
      (mkState c m (mkIsoEnv (set_iso_state ISOTP_IDLE i) p pl cn fr) tr)).
  { intros k n Hk Hn HG'. assert (Hl : length (take (Z.to_nat n) (drop (Z.to_nat k) data)) = Z.to_nat n)
      by (rewrite length_take, length_drop; lia).
    pose proof (rx_goal_idle _ _ _ _ _ _ _ _ (set_iso_state ISOTP_IDLE i) _ _ Hinv HG' (conj eq_refl eq_refl) eq_refl Hsn eq_refl
      ltac:(done) (drop (Z.to_nat k) data)) as H.
    rewrite Hl, Z2Nat.id in H by lia. apply H; [by apply Forall_drop|rewrite length_drop; lia|done|lia]. }
  assert (Hno : rx_goal (mkState c m (mkIsoEnv i p pl cn fr) tr) (None, RxNothing) Q ->
    Q tt (mkState c m (mkIsoEnv (set_iso_state ISOTP_IDLE i) p pl cn fr) tr)).
  { intros HG'. by apply (rx_goal_idle _ _ _ _ _ _ _ _ (set_iso_state ISOTP_IDLE i) _ _ Hinv HG'). }
  unfold uds_rx_sf. iso_step. iso_step. iso_step. apply wp_data_at with b; [lia|done|]. cbv zeta. rewrite land_15.
  destruct (Z.eqb_spec (b mod 16) 0) as [Hz|Hz].
  - iso_step. apply wp_data_at with b1; [lia|done|]. destruct (Z.eqb_spec b1 0) as [H1|H1].
    { apply wp_ret, Hno. exact HG. }
    rewrite Z.gtb_ltb. destruct (Z.ltb_spec (len - 2) b1) as [H2|H2]; [apply wp_ret, Hno; exact HG|].
    repeat iso_step. apply (Hin 2 b1); [lia..|exact HG].
  - pose proof (Z.mod_pos_bound b 16 ltac:(lia)). rewrite Z.gtb_ltb.
    destruct (Z.ltb_spec (len - 1) (b mod 16)) as [H2|H2]; [apply wp_ret, Hno; exact HG|].
    repeat iso_step. apply (Hin 1); [lia..|exact HG].
Qed.

(** A first frame. *)
Lemma wp_rx_ff data len b (Q : unit -> uds_state (iso_env C) -> Prop) s :
  uds_inv env_ok tb cfg s -> frame_ok (rx_buffer_size cfg) data len -> data !! 0%nat = Some b -> b / 16 = 1 ->
  rx_goal s (rx_step (rx_buffer_size cfg) (reception_of s) (pdu_of data len)) Q ->
  wp (uds_rx_ff (Some cfg) data len) Q s.
Proof.
  intros Hinv (Hb & Hlen & Hdlc & Hbig) Hd0 Hff HG. pose proof Hinv as Hinv0.
  apply inv_iso_open in Hinv0 as (c & m & i & p & pl & cn & fr & tr & -> & Hc & Hm & He).
  pose proof He as [[f [Hf Hd]] Hcan Hp [Hsn _ _]]. cbn [g_isotp_ctx can g_pending_tx_sdu] in *.
  destruct (lookup_lt_is_Some_2 data 1) as [b1 Hd1]; [lia|].
  pose proof (Forall_lookup_1 _ _ _ _ Hb Hd0) as Hb0. pose proof (Forall_lookup_1 _ _ _ _ Hb Hd1) as Hb1.
  unfold pdu_of in HG. cbv beta zeta in HG. rewrite (byte_nth _ _ _ Hd0), (byte_nth _ _ _ Hd1), Hff in HG.
  cbn [Z.eqb Pos.eqb] in HG. set (n := b mod 16 * 256 + b1) in *. set (k := if 8 <? len then len - 2 else 6) in *.
  assert (Hk : 6 <= k <= 62 /\ 2 + k <= Z.of_nat (length data) /\ (k = 6 \/ 125 <= rx_buffer_size cfg))
    by (subst k; destruct (Z.ltb_spec 8 len); lia).
  destruct (decide (8 <= n <= rx_buffer_size cfg)) as [Hn|Hn].
  - rewrite (proj2 (Z.ltb_ge n 8)) in HG by lia. cbn [rx_step] in HG.
    rewrite (proj2 (Z.leb_le n _)) in HG by lia.
    destruct (mem_rx _ _ _ Hm rb Hrb) as (_ & _ & l & Hl & Hln & _).
    eapply (wp_rx_ff_open can_ok _ cfg rb f data len b b1 l); try done; try (fold k; lia). fold n k.
    intros r cn' _ Hcn'. set (chunk := take (Z.to_nat k) (drop 2 data)).
    assert (Hcl : length chunk = Z.to_nat k) by (subst chunk; rewrite length_take, length_drop; lia).
    apply HG.
    + eapply inv_iso_close; try done; [|unfold receiving; split; iso_cbn; [lia|lia|by intros [?|?]]].
      apply mem_ok_rx; [done|by apply Forall_take, Forall_drop|lia|done].
    + split; cbn [ctx trace mem env frames g_isotp_ctx]; try done. intros b' Hb'. by rewrite lookup_insert_ne.
    + unfold reception_of; cbn [env mem g_isotp_ctx]. rewrite decide_True by done. rewrite lookup_insert_eq.
      unfold receiving; iso_cbn. cbn [default id]. rewrite <- Hcl.
      pose proof (take_write_at 0 chunk l ltac:(lia)) as Ht. cbn [Nat.add take app] in Ht. rewrite Ht.
      cbn [fst]. do 2 f_equal. subst chunk. by rewrite Hcl.
  - eapply wp_rx_ff_refuse; [done..|]. intros i' Hs' Hsn' Hcs Hid.
    apply (rx_goal_idle _ _ _ _ _ _ _ _ i' RxNothing _ Hinv); [|done..].
    destruct (Z.ltb_spec n 8); [done|]. cbn [rx_step] in HG. by rewrite (proj2 (Z.leb_gt n _)) in HG by lia.
Qed.

(** Flow control moves a transmission on, never a reception. *)
Lemma wp_rx_fc data (Q : unit -> uds_state (iso_env C) -> Prop) s :
  uds_inv env_ok tb cfg s -> Forall is_byte data -> (8 <= length data)%nat ->
  rx_goal s (reception_of s, RxNothing) Q -> wp (uds_rx_fc data) Q s.
Proof.
  intros Hinv Hb Hlen HG. pose proof Hinv as Hinv0.
  apply inv_iso_open in Hinv0 as (c & m & i & p & pl & cn & fr & tr & -> & Hc & Hm & He).
  pose proof He as [_ _ _ [Hsn Hrx Htx]]. cbn [g_isotp_ctx can g_pending_tx_sdu] in *.
  assert (Hsame : Q tt (mkState c m (mkIsoEnv i p pl cn fr) tr)).
  { by apply (rx_goal_iso _ _ _ _ _ _ _ _ i _ _ _ Hinv HG). }
  unfold uds_rx_fc. iso_step. iso_step. case_bool_decide as Hw; cbn [negb]; [|by apply wp_ret].
  repeat iso_step. destruct (_ =? _); [|by apply wp_ret]. repeat iso_step.
  eapply (rx_goal_iso _ _ _ _ _ _ _ _ _ _ _ _ Hinv HG); try done.
  - destruct (Htx (or_introl Hw)). split; iso_cbn; [done|done|]. by intros _.
  - rewrite !reception_idle; [done|by rewrite Hw|done].
Qed.

(** How many bytes of a consecutive frame are copied; the difference of announced and
    received length wraps when more was received than announced. *)
Lemma cf_amount ml bp len rxs :
  1 <= len <= 64 -> 0 <= bp <= rxs -> 0 <= ml <= rxs -> bp <= ml \/ bp + 63 <= rxs -> rxs < 65536 ->
  let n := if len - 1 <? u16 (ml - bp) then len - 1 else u8 (u16 (ml - bp)) in
  0 <= n <= len - 1 /\ bp + n <= rxs /\ (n = Z.min (ml - bp) (len - 1) \/ ml < bp).
Proof.
  intros Hlen Hbp Hml Hroom Hrxs'. destruct (Z.le_gt_cases bp ml).
  - rewrite u16_small by lia. destruct (Z.ltb_spec (len - 1) (ml - bp)); [lia|]. rewrite u8_small by lia. lia.
  - replace (u16 (ml - bp)) with (ml - bp + 65536) by zlia. rewrite (proj2 (Z.ltb_lt _ _)) by lia. lia.
Qed.

(** The end of a consecutive frame, after the copy: the SDU is complete and goes to the
    core, or the reception goes on. [s0] is the state before the frame, [got] what the
    reference has collected by now, [i0] the transport's context before. *)
Lemma wp_rx_cf_end s0 i0 got c m l i p pl cn fr tr (Q : unit -> uds_state (iso_env C) -> Prop) :
  ctx_ok c -> mem_ok tb cfg (<[rb := l]> m) -> iso_ok can_ok (rx_buffer_size cfg) (mkIsoEnv i0 p pl cn fr) ->
  same_bus i i0 -> iso_state i = ISOTP_RX_WAIT_CF -> 0 <= iso_sn i < 16 ->
  0 <= bytes_processed i <= rx_buffer_size cfg -> 0 <= msg_len i <= rx_buffer_size cfg ->
  (msg_len i <= bytes_processed i <-> msg_len i <= Z.of_nat (length got)) ->
  (msg_len i <= bytes_processed i -> take (Z.to_nat (msg_len i)) l = take (Z.to_nat (msg_len i)) got) ->
  (bytes_processed i < msg_len i -> take (Z.to_nat (bytes_processed i)) l = got) ->
  (forall i1 o, o <> RxFlow -> rx_id i1 = rx_id i ->
     rx_moved s0 (mkState c (<[rb := l]> m) (mkIsoEnv i1 p pl cn fr) tr) o) ->
  rx_goal s0 (if msg_len i <=? Z.of_nat (length got)
              then (None, RxSdu (take (Z.to_nat (msg_len i)) got))
              else (Some (mkReception (msg_len i) got (iso_sn i)), RxNothing)) Q ->
  wp (mwhen (msg_len i <=? bytes_processed i) (
        call (mod_iso (set_iso_state ISOTP_IDLE)) ;;
        sdu ← blk_all (rx_buffer cfg);
        uds_input_sdu client_call (Some cfg) (Some sdu) (msg_len i))) Q
    (mkState c (<[rb := l]> m) (mkIsoEnv i p pl cn fr) tr).
Proof.
  intros Hc Hm He Hcs Hw Hsn Hbp Hml Hfin Hdone Hopen Hmv HG.
  pose proof He as [_ Hcan _ _]. cbn [can] in Hcan.
  destruct (mem_rx _ _ _ Hm rb Hrb) as (_ & _ & l0 & Hl0 & Hln & Hlb).
  rewrite lookup_insert_eq in Hl0. injection Hl0 as <-.
  apply wp_when; intros Hend; bool_prop.
  - rewrite (proj2 (Z.leb_le _ _)) in HG by lia.
    repeat iso_step. unfold blk_all. rewrite Hrb. apply wp_bind, wp_ret.
    unfold wp at 1, mem_all. cbn [mem]. rewrite lookup_insert_eq.
    assert (Hsdu : length (take (Z.to_nat (msg_len i)) got) = Z.to_nat (msg_len i)) by (rewrite length_take; lia).
    replace (msg_len i) with (Z.of_nat (length (take (Z.to_nat (msg_len i)) got))) at 1 by lia.
    refine (HG _ _ (Hmv _ _ _ _) _ l _ _ _ _); [|done|done| |done|lia| |lia].
    + eapply inv_iso_close; try done. by apply iso_ctx_idle; iso_cbn.
    + by apply reception_idle.
    + rewrite Hsdu. by apply Hdone.
  - rewrite (proj2 (Z.leb_gt _ _)) in HG by lia. apply HG; [|by apply Hmv|].
    + eapply inv_iso_close; try done. split; [done|lia|]. rewrite Hw. by intros [?|?].
    + unfold reception_of; cbn [env mem g_isotp_ctx]. rewrite decide_True, lookup_insert_eq by done.
      cbn [default id]. by rewrite Hopen by lia.
Qed.

(** The buffer after a consecutive frame holds what the reference has: [k] bytes of the
    frame were copied behind [got], at least as many as were missing or all it carried. *)
Lemma reception_append (n : Z) (bp k : nat) (bytes l : list Z) :
  (bp + k <= length l)%nat -> (k <= length bytes)%nat -> 0 <= n ->
  (k = Nat.min (Z.to_nat n - bp) (length bytes) \/ (Z.to_nat n < bp)%nat) ->
  let l' := write_at bp (take k bytes) l in
  let got' := take bp l ++ take (Z.to_nat n - bp) bytes in
  (Z.to_nat n < bp -> take (Z.to_nat n) l' = take (Z.to_nat n) got')%nat /\
  (bp <= Z.to_nat n -> take (bp + k) l' = got' /\ length got' = bp + k)%nat.
Proof.
  intros Hl Hk Hn Hcase l' got'. assert (Htk : length (take k bytes) = k) by (rewrite length_take; lia).
  assert (Hbp : length (take bp l) = bp) by (rewrite length_take; lia). split; intros Hlt.
  - subst l' got'. rewrite take_write_at_before by lia. rewrite take_app_le by lia. rewrite take_take. f_equal. lia.
  - destruct Hcase as [Hk'|?]; [|lia]. subst l' got'. split.
    + rewrite <- Htk at 1. rewrite take_write_at by lia. f_equal. rewrite Hk'.
      destruct (Nat.min_spec (Z.to_nat n - bp) (length bytes)) as [[? ->]|[? ->]]; [done|]. by rewrite !take_ge by lia.
    + rewrite length_app, Hbp, length_take. lia.
Qed.

Lemma wp_rx_cf data len b (Q : unit -> uds_state (iso_env C) -> Prop) s :
  uds_inv env_ok tb cfg s -> frame_ok (rx_buffer_size cfg) data len -> data !! 0%nat = Some b -> b / 16 = 2 ->
  rx_goal s (rx_step (rx_buffer_size cfg) (reception_of s) (pdu_of data len)) Q ->
  wp (uds_rx_cf client_call (Some cfg) data len) Q s.
Proof.
  intros Hinv (Hb & Hlen & Hdlc & _) Hd0 Hcf HG. pose proof Hinv as Hinv0.
  apply inv_iso_open in Hinv0 as (c & m & i & p & pl & cn & fr & tr & -> & Hc & Hm & He).
  pose proof He as [_ Hcan _ [Hsn Hrx _]]. cbn [g_isotp_ctx can g_pending_tx_sdu] in *.
  unfold pdu_of in HG. cbv beta zeta in HG. rewrite (byte_nth _ _ _ Hd0), Hcf in HG. cbn [Z.eqb Pos.eqb rx_step] in HG.
  destruct (mem_rx _ _ _ Hm rb Hrb) as (_ & _ & l0 & Hl0 & Hl0n & _).
  unfold uds_rx_cf. iso_step. iso_step. case_bool_decide as Hw; cbn [negb].
  2: { apply wp_ret. rewrite (reception_idle _ _ _ _ _ _ _ _ Hw) in HG.
       apply (rx_goal_iso _ _ _ _ _ _ _ _ i _ _ _ Hinv HG); try done; [by destruct He|by apply reception_idle]. }
  destruct (Hrx Hw) as (Hbp & Hml & Hroom).
  unfold reception_of in HG; cbn [env mem g_isotp_ctx] in HG. rewrite decide_True, Hl0 in HG by done. cbn [default id] in HG.
  iso_step. apply wp_data_at with b; [lia|done|]. rewrite land_15.
  destruct (Z.eqb_spec (b mod 16) (iso_sn i)) as [Hsq|Hsq]; cbn [negb].
  2: { repeat iso_step. by eapply (rx_goal_idle _ _ _ _ _ _ _ _ _ _ _ Hinv HG). }
  repeat iso_step. rewrite (u8_small (len - 1)) by lia. rewrite Z.gtb_ltb.
  set (n := if len - 1 <? u16 (msg_len i - bytes_processed i) then len - 1 else u8 (u16 (msg_len i - bytes_processed i))).
  set (bytes := take (Z.to_nat (len - 1)) (drop 1 data)) in *.
  assert (Hbl : length bytes = Z.to_nat (len - 1)) by (subst bytes; rewrite length_take, length_drop; lia).
  destruct (cf_amount (msg_len i) (bytes_processed i) len (rx_buffer_size cfg)) as (Hn1 & Hn2 & Hn3); [lia..|].
  fold n in Hn1, Hn2, Hn3.
  clearbody n. repeat iso_step. apply wp_frame_slice; [lia..|]. iso_step.
  replace (take (Z.to_nat n) (drop (Z.to_nat 1) data)) with (take (Z.to_nat n) bytes)
    by (subst bytes; rewrite take_take; f_equal; lia).
  eapply wp_rx_write; [done| |lia|rewrite length_take; lia|].
  { by apply Forall_take, Forall_take, Forall_drop. }
  intros l Hl Hln Hlb Hm'. replace l0 with l in * by congruence. clear Hl0 Hl0n l0.
  destruct (reception_append (msg_len i) (Z.to_nat (bytes_processed i)) (Z.to_nat n) bytes l) as [Hover Hfit]; [lia..|].
  cbv zeta in HG. rewrite length_take, Nat.min_l in HG by lia.
  set (l' := write_at (Z.to_nat (bytes_processed i)) (take (Z.to_nat n) bytes) l) in *.
  set (got' := take (Z.to_nat (bytes_processed i)) l ++ _) in *.
  assert (Hl' : length l' = length l) by (subst l'; apply length_write_at; rewrite length_take; lia).
  repeat iso_step. iso_cbn. rewrite u16_small by lia.
  assert (Hland : 0 <= Z.land (iso_sn i + 1) 15 < 16) by (rewrite land_15; zlia).
  apply (wp_rx_cf_end (mkState c m (mkIsoEnv i p pl cn fr) tr) i got' c m l'
    (set_bytes_processed (bytes_processed i + n) (set_iso_sn (Z.land (iso_sn i + 1) 15) i)));
    iso_cbn; try done.
  - lia.
  - destruct (decide (bytes_processed i <= msg_len i)); [destruct (Hfit ltac:(lia)); lia|].
    subst got'. rewrite length_app, length_take. lia.
  - intros. destruct (decide (bytes_processed i <= msg_len i)); [|by apply Hover; lia].
    destruct (Hfit ltac:(lia)) as [<- _]. rewrite take_take. f_equal. lia.
  - intros. rewrite Z2Nat.inj_add by lia. by apply Hfit; lia.
  - intros i1 o Ho Hid. split; try done; [intros; cbn; by rewrite lookup_insert_ne|]. cbn. destruct o; by rewrite ?app_nil_r.
  - by rewrite land_15.
Qed.

(** One received frame does what the reference does. *)
Lemma wp_rx_frame id data len (Q : unit -> uds_state (iso_env C) -> Prop) s :
  uds_inv env_ok tb cfg s -> frame_ok (rx_buffer_size cfg) data len ->
  rx_goal s (rx_ref s id data len) Q ->
  wp (uds_isotp_rx_callback client_call (Some cfg) id data len) Q s.
Proof.
  intros Hinv Hfr HG. pose proof Hfr as (Hb & Hlen & _). unfold rx_ref, unit_for in HG.
  assert (Hsame : rx_goal s (reception_of s, RxNothing) Q -> Q tt s).
  { intros H. apply H; [done| |done]. split; try done. by rewrite app_nil_r. }
  destruct (lookup_lt_is_Some_2 data 0) as [b Hd0]; [lia|].
  pose proof (Forall_lookup_1 _ _ _ _ Hb Hd0) as Hb0. unfold is_byte in Hb0.
  unfold uds_isotp_rx_callback. apply wp_bind, wp_call. unfold wp at 1, get_iso.
  replace (set_env (env s) s) with s by by destruct s.
  destruct (Z.eqb_spec id (rx_id (g_isotp_ctx (env s)))) as [_|_]; cbn [negb]; [|by apply wp_ret, Hsame].
  apply wp_bind, wp_data_at with b; [lia|done|]. cbv zeta. rewrite land_240 by done.
  assert (Hpdu : forall x, b / 16 = x -> x <> 0 -> x <> 1 -> x <> 2 -> pdu_of data len = PduIgnored).
  { intros x Hx H0 H1 H2. unfold pdu_of. rewrite (byte_nth _ _ _ Hd0), Hx.
    by rewrite (proj2 (Z.eqb_neq x 0)), (proj2 (Z.eqb_neq x 1)), (proj2 (Z.eqb_neq x 2)). }
  unfold ISOTP_PCI_SF, ISOTP_PCI_FF, ISOTP_PCI_CF, ISOTP_PCI_FC.
  destruct (Z.eqb_spec (b / 16 * 16) 0); [eapply wp_rx_sf; [done..| |exact HG]; lia|].
  destruct (Z.eqb_spec (b / 16 * 16) 16); [eapply wp_rx_ff; [done..| |exact HG]; lia|].
  destruct (Z.eqb_spec (b / 16 * 16) 32); [eapply wp_rx_cf; [done..| |exact HG]; lia|].
  rewrite (Hpdu _ eq_refl) in HG by lia. cbn [rx_step] in HG.
  destruct (_ =? _); [apply wp_rx_fc; [done..|lia|done]|]. by apply wp_ret, Hsame.
Qed.

(** What one call of the stack does to the core: the invariant is kept, and the access
    rights move only as [access_run] allows. *)
Definition rx_post (s s' : uds_state (iso_env C)) : Prop :=
  uds_inv env_ok tb cfg s' /\
  exists evs, trace s' = trace s ++ evs /\ access_run (ctx s) (ctx s') evs.

Lemma rx_post_quiet s s' :
  uds_inv env_ok tb cfg s' -> ctx s' = ctx s -> trace s' = trace s -> rx_post s s'.
Proof.
  intros Hi Hc Ht. split; [done|]. exists []. rewrite app_nil_r, Hc. split; [done|]. by apply access_run_refl.
Qed.

Lemma run_stack_ok o s :
  uds_inv env_ok tb cfg s -> stack_ok (rx_buffer_size cfg) o -> wp (run_stack client_call cfg o) (fun _ => rx_post s) s.
Proof.
  intros Hinv Ho. destruct o as [id data len|t|a]; cbn [run_stack stack_ok] in *.
  - apply wp_rx_frame; [done..|]. intros s1 Hi1 [Hc Ht _ _ _] _. destruct (rx_ref _ _ _ _).2; cbn [rx_then].
    + by apply rx_post_quiet.
    + by apply rx_post_quiet.
    + intros buf Hb Hlen _ Hlt. unfold rx_post. rewrite <- Hc, <- Ht. apply wp_input_rx; [done|done|lia|done].
  - destruct s as [c m e tr], Hinv as [Hc Hm He]. apply wp_call. cbn [ctx mem env trace] in *.
    eapply wp_mono; [by apply tick_keeps|]. intros ? e' He'. by apply rx_post_quiet.
  - by apply run_api_ok.
Qed.

(** C2: The whole stack, the core on top of the ISO-TP transport, with callbacks that
    keep their contract (fn_periodic_read included, C36), survives any interleaving of
    CAN frames from the bus with any identifier and content, classic ones of one to
    eight bytes and CAN-FD ones of up to 64 (longer than eight only with a receive
    buffer of at least 125 bytes), transport ticks and application calls of any of the
    five entry points: no undefined behaviour, the invariant of core and transport kept,
    and starting locked the security level is raised only by a key the application
    accepted. *)
Theorem stack_safe ops s :
  uds_inv env_ok tb cfg s -> Forall (stack_ok (rx_buffer_size cfg)) ops -> security_level (ctx s) = 0 ->
  wp (mfor ops (run_stack client_call cfg)) (fun _ s' =>
    uds_inv env_ok tb cfg s' /\ exists evs, trace s' = trace s ++ evs /\
      (security_level (ctx s') <> 0 -> exists key, EvKey (security_level (ctx s')) key 0 ∈ evs)) s.
Proof.
  intros Hinv Hops H0. apply (wp_mono _ (fun _ => rx_post s)).
  - apply (wp_for (fun ops s' => Forall (stack_ok (rx_buffer_size cfg)) ops /\ rx_post s s')).
    + split; [done|]. split; [done|]. exists []. rewrite app_nil_r. split; [done|]. by apply access_run_refl.
    + intros o ops' s1 (Ho & Hi & evs & Ht & Hacc). inversion_clear Ho.
      eapply wp_mono; [by apply run_stack_ok|]. intros _ s2 (Hi2 & evs2 & Ht2 & Hacc2).
      split; [done|]. split; [done|]. exists (evs ++ evs2). rewrite Ht2, Ht, app_assoc.
      split; [done|]. by eapply access_run_trans.
    + intros s' [_ H]. exact H.
  - intros _ s' (Hi & evs & Ht & [_ Hl]). split; [done|]. exists evs. split; [done|].
    intros Hne. destruct Hl as [?|[?|?]]; [congruence|done|done].
Qed.
End Link.
