(* ===== verification/IsoTpSend.v ===== *)
(** * ISO-TP transmission over time

    Sending a long SDU under any interleaving of ticks and flow control: what
    is on the bus is a prefix of the reference segmentation, all of it once
    the transmitter is idle, never more than the block size per flow-control
    frame. *)

From S2P Require Import Prelude Monad Types Machine CoreBase Contract.
From S2P Require Import Core CoreDispatch CoreProcess IsoTp IsoTpTx IsoTpRx IsoTpLink.
From stdpp Require Import base gmap list strings numbers.

Open Scope Z_scope.

(** ** Driving a transmission *)

(** Ticks of the transport and flow-control frames, in any order. *)
Inductive tx_op : Type :=
| OpTick (t : Z)
| OpFc (fc : list Z).

Definition tx_op_ok (o : tx_op) : Prop :=
  match o with OpTick _ => True | OpFc fc => (3 <= length fc)%nat end.

Definition run_tx_op {C} (o : tx_op) : M (uds_state (iso_env C)) unit :=
  match o with
  | OpTick t => call (uds_tp_isotp_process t)
  | OpFc fc => uds_rx_fc fc
  end.

(** Receiving a list of frames, each with its own length. *)
Definition rx_frames {C} (client_call : N -> Z -> list Z -> Z -> M (uds_state (iso_env C)) unit)
    (cfg : uds_config (iso_env C)) (id : Z) (fs : list (list Z)) : M (uds_state (iso_env C)) unit :=
  mfor fs (fun d => uds_isotp_rx_callback client_call (Some cfg) id d (Z.of_nat (length d))).

(** A transmitter ready to send through a driver that accepts every frame. *)
Record tx_ready {C} (can_ok : C -> Prop) (e : iso_env C) : Prop := {
  tr_driver : exists f, can_send (g_isotp_ctx e) = Some f /\
    driver_ok can_ok (fun r => r = 0) (max_dl (g_isotp_ctx e)) f;
  tr_can : can_ok (can e);
  tr_pending : length (g_pending_tx_sdu e) = 1024%nat
}.

Lemma Forall_true_map_tick ts :
  Forall (fun o => match o with OpTick _ => True | OpFc _ => False end) (map OpTick ts).
Proof. by induction ts; constructor. Qed.

Section Sending.
Context {C : Type} (can_ok : C -> Prop).
#[local] Abbreviation inv := (tx_inv can_ok (fun r => r = 0)).

Lemma wp_start c data len s :
  tx_ready can_ok (env s) -> Z.of_nat (max_sf (fd_on (g_isotp_ctx (env s)))) < len <= Z.of_nat (length data) ->
  len <= 1024 ->
  wp (call (uds_isotp_send c data len)) (fun r s' => r = 0 /\
    iso_state (g_isotp_ctx (env s')) = ISOTP_TX_WAIT_FC /\
    bytes_processed (g_isotp_ctx (env s')) < msg_len (g_isotp_ctx (env s')) /\
    length (frames (env s')) = S (length (frames (env s))) /\
    g_isotp_ctx (env s') = ff_sent len (g_isotp_ctx (env s)) /\
    inv (tx_id (g_isotp_ctx (env s))) (fd_on (g_isotp_ctx (env s))) (take (Z.to_nat len) data)
      (frames (env s)) (env s')) s.
Proof.
  intros [[f [Hf Hd]] Hc Hp] Hlen Hle. destruct s as [c0 m [i p pl cn fr] tr].
  cbn [env g_isotp_ctx can g_pending_tx_sdu frames] in *. apply wp_call. cbn [env].
  unfold uds_isotp_send. apply wp_bind. unfold wp at 1, get_iso. cbn [g_isotp_ctx].
  change (negb (use_can_fd i =? 0)) with (fd_on i).
  assert (Hmax : (if fd_on i then ISOTP_SF_MAX_DL_CANFD else ISOTP_SF_MAX_DL_CAN) = Z.of_nat (max_sf (fd_on i)))
    by by destruct (fd_on i).
  rewrite Hmax, (proj2 (Z.leb_gt _ _)) by lia.
  eapply wp_mono; [by eapply (send_mf_inv can_ok (fun r => r = 0) f)|].
  intros r e' (Hr & Hs & Hi & Hfl & Hinv). unfold set_env; cbn [env]. split; [done|]. split; [done|].
  split; [|done]. rewrite Hi. unfold ff_sent; iso_cbn. destruct (fd_on i); cbn in *; lia.
Qed.

(** A flow-control frame, by cases. *)
Lemma wp_fc fc (Q : unit -> uds_state (iso_env C) -> Prop) c m e tr :
  (3 <= length fc)%nat ->
  (if bool_decide (iso_state (g_isotp_ctx e) = ISOTP_TX_WAIT_FC) && (Z.land (nth 0 fc 0) 15 =? ISOTP_FC_CTS)
   then Q tt (mkState c m (set_iso (fun i => set_st_min (nth 2 fc 0) (set_block_size (nth 1 fc 0)
          (set_iso_state ISOTP_TX_SENDING_CF i))) e) tr)
   else Q tt (mkState c m e tr)) ->
  wp (uds_rx_fc fc) Q (mkState c m e tr).
Proof.
  intros Hl HQ. unfold uds_rx_fc. apply wp_bind. unfold wp at 1, call, zoom, get_iso. cbn [env set_env].
  case_bool_decide; cbn [negb andb] in *; [|exact HQ].
  apply wp_bind, (run_wp _ _ _ _ _ (data_at_nth fc 0 _ ltac:(lia))).
  change (nth (Z.to_nat 0) fc 0) with (nth 0 fc 0). destruct (_ =? _); [|exact HQ].
  apply wp_bind. unfold wp at 1, call, zoom, mod_iso. cbn [env set_env].
  apply wp_bind, (run_wp _ _ _ _ _ (data_at_nth fc 1 _ ltac:(lia))).
  apply wp_bind. unfold wp at 1, call, zoom, mod_iso. cbn [env set_env].
  apply wp_bind, (run_wp _ _ _ _ _ (data_at_nth fc 2 _ ltac:(lia))). exact HQ.
Qed.

Lemma run_tx_ok o id fd sdu fr0 s :
  inv id fd sdu fr0 (env s) -> tx_op_ok o ->
  wp (run_tx_op o) (fun _ s' => inv id fd sdu fr0 (env s')) s.
Proof.
  intros Hinv Ho. destruct o as [t|fc]; cbn [run_tx_op tx_op_ok] in *.
  - apply wp_call. eapply wp_mono; [apply (tick_inv can_ok (fun r => r = 0) id fd sdu fr0); [done|exact Hinv]|].
    intros ? e' [H _]. by destruct s.
  - destruct s as [c m e tr]. cbn [env] in *. apply wp_fc; [done|]. case_bool_decide as Hw; [|done].
    cbn [andb]. destruct (_ =? _); [|done]. by apply fc_inv.
Qed.

(** C16: Sending an SDU that needs several frames (up to 1024 bytes, with a driver that
    accepts every frame), under any interleaving of ticks and flow-control frames: what
    the transport has put on the bus is always a prefix of the reference segmentation
    (right header, sequence numbers, chunks and padding, no frame lost, repeated or
    reordered), and all of it as soon as the transport is idle again. *)
Theorem tx_prefix c data len ops s :
  tx_ready can_ok (env s) -> Z.of_nat (max_sf (fd_on (g_isotp_ctx (env s)))) < len <= Z.of_nat (length data) ->
  len <= 1024 -> Forall tx_op_ok ops ->
  wp (call (uds_isotp_send c data len) ;; mfor ops run_tx_op) (fun _ s' =>
    let fs := segment (fd_on (g_isotp_ctx (env s))) (take (Z.to_nat len) data) in
    exists k, frames (env s') = frames (env s) ++ map (pair (tx_id (g_isotp_ctx (env s)))) (take k fs) /\
      (iso_state (g_isotp_ctx (env s')) = ISOTP_IDLE -> (length fs <= k)%nat)) s.
Proof.
  intros Hr Hlen Hle Hops. apply wp_bind. eapply wp_mono; [by apply wp_start|].
  intros r s1 (_ & _ & _ & _ & _ & Hinv). set (id := tx_id _) in *. set (fd := fd_on _) in *. set (sdu := take _ data) in *.
  apply (wp_for (fun ops s' => Forall tx_op_ok ops /\ inv id fd sdu (frames (env s)) (env s'))).
  - done.
  - intros o ops' s2 [Ho Hi]. inversion_clear Ho. eapply wp_mono; [by apply run_tx_ok|]. done.
  - intros s2 [_ Hi]. pose proof (ti_frames _ _ _ _ _ _ _ Hi) as (sent & Hf & Hseg).
    exists (length sent). rewrite Hseg, take_app_length. split; [done|].
    intros Hidle. pose proof (tx_done _ _ _ _ _ _ _ Hi Hidle) as Hall. rewrite Hf, Hseg in Hall.
    apply app_inv_head in Hall. apply (f_equal length) in Hall. rewrite !length_map, length_app in Hall.
    rewrite length_app. lia.
Qed.

(** With flow control out of the way, one tick is one frame. *)
Lemma ticks_complete id fd sdu fr0 ts : forall s,
  inv id fd sdu fr0 (env s) ->
  (iso_state (g_isotp_ctx (env s)) = ISOTP_IDLE \/
   iso_state (g_isotp_ctx (env s)) = ISOTP_TX_SENDING_CF /\ block_size (g_isotp_ctx (env s)) = 0 /\
   st_min (g_isotp_ctx (env s)) = 0 /\
   bytes_processed (g_isotp_ctx (env s)) < msg_len (g_isotp_ctx (env s)) /\
   let rest := to_send (g_isotp_ctx (env s)) (g_pending_tx_sdu (env s)) in
   (length (cf_frames (length rest) fd (iso_sn (g_isotp_ctx (env s))) rest) <= length ts)%nat) ->
  wp (mfor (map OpTick ts) run_tx_op) (fun _ s' =>
    iso_state (g_isotp_ctx (env s')) = ISOTP_IDLE /\ inv id fd sdu fr0 (env s')) s.
Proof.
  induction ts as [|t ts IH]; intros s Hinv Hst.
  - apply wp_ret. split; [|done]. destruct Hst as [?|(_ & _ & _ & Hlt & Hn)]; [done|exfalso].
    pose proof (length_to_send _ _ (ti_going _ _ _ _ _ _ _ Hinv)) as Hl. cbv zeta in Hn.
    rewrite cf_frames_step in Hn by (intros Hr; rewrite Hr in Hl; cbn in Hl; lia). cbn in Hn. lia.
  - cbn [map mfor run_tx_op]. apply wp_bind, wp_call.
    eapply wp_mono; [apply (tick_inv can_ok (fun r => r = 0) id fd sdu fr0); [done|exact Hinv]|].
    intros ? e' (Hi & Hp & Hd). replace e' with (env (set_env e' s)) in Hi, Hp, Hd by by destruct s.
    apply IH; [done|]. set (i := g_isotp_ctx (env s)) in *. revert Hd. unfold tick_decide.
    destruct Hst as [Hidle|(Hsend & Hbs & Hst & Hlt & Hn)].
    + rewrite decide_False by congruence. intros ->. by left.
    + rewrite decide_True by done. rewrite (proj2 (Z.eqb_neq _ _)) by lia. rewrite Hst, Hbs.
      change (decode_st_min 0) with 0. rewrite (proj2 (Z.ltb_ge _ 0)) by apply u32_range. cbn [Z.ltb Z.compare andb].
      intros [Hi' _]. pose proof (ti_going _ _ _ _ _ _ _ Hinv) as Hg. fold i in Hg.
      pose proof (length_to_send i _ Hg) as Hl. set (rest := to_send i (g_pending_tx_sdu (env s))) in *.
      set (n := Z.of_nat (length (take (cf_data fd) rest))) in *.
      assert (Hnb : 0 <= n <= msg_len i - bytes_processed i) by (subst n; rewrite length_take; lia).
      destruct (to_send_advance n t i _ Hg Hnb) as (_ & Hts & Hsn & Hml & Hbp & _ & _ & _ & Hs').
      rewrite Hi', Hs', Hp. destruct (Z.leb_spec (msg_len i) (bytes_processed i + n)); [by left|right].
      split; [done|]. split; [by unfold cf_advance; case_match|]. split; [by unfold cf_advance; case_match|].
      split; [lia|]. rewrite Hts, Hsn. fold rest.
      assert (Hd1 : drop (Z.to_nat n) rest = drop (cf_data fd) rest)
        by (f_equal; subst n; rewrite length_take in *; lia).
      rewrite Hd1. cbv zeta in Hn.
      rewrite cf_frames_step in Hn by (intros Hr; rewrite Hr in Hl; cbn in Hl; lia). cbn [length] in Hn. lia.
Qed.

(** C20: After one clear-to-send frame with no block limit and no separation time, as
    many ticks as there are frames left, at any times, send the whole SDU (up to 1024
    bytes, with a driver that accepts every frame): the bus carries the complete
    reference segmentation and the transport is idle. *)
Theorem tx_completes c data len ts s :
  tx_ready can_ok (env s) -> Z.of_nat (max_sf (fd_on (g_isotp_ctx (env s)))) < len <= Z.of_nat (length data) ->
  len <= 1024 ->
  let fs := segment (fd_on (g_isotp_ctx (env s))) (take (Z.to_nat len) data) in
  (length fs <= S (length ts))%nat ->
  wp (call (uds_isotp_send c data len) ;; run_tx_op (OpFc [0x30; 0; 0]) ;; mfor (map OpTick ts) run_tx_op)
    (fun _ s' => iso_state (g_isotp_ctx (env s')) = ISOTP_IDLE /\
       frames (env s') = frames (env s) ++ map (pair (tx_id (g_isotp_ctx (env s)))) fs) s.
Proof.
  intros Hr Hlen Hle fs Hts. apply wp_bind. eapply wp_mono; [by apply wp_start|].
  intros r s1 (_ & Hw & Hlt & Hfl & _ & Hinv). set (id := tx_id _) in *. set (fd := fd_on _) in *. set (sdu := take _ data) in *.
  destruct s1 as [c1 m1 e1 tr1]. cbn [env] in *. apply wp_bind. cbn [run_tx_op].
  apply wp_fc; [cbn; lia|]. rewrite bool_decide_eq_true_2 by done. cbn [nth andb].
  change (Z.land 0x30 15 =? ISOTP_FC_CTS) with true. cbv iota.
  pose proof (fc_inv can_ok (fun r => r = 0) id fd sdu _ 0 0 e1 Hinv Hw) as Hinv1.
  eapply wp_mono; [apply (ticks_complete id fd sdu (frames (env s)))|].
  - exact Hinv1.
  - right. split; [done|]. split; [done|]. split; [done|]. split; [done|]. cbn [env].
    destruct (ti_frames _ _ _ _ _ _ _ Hinv) as (sent & Hf & Hseg). cbv zeta in Hseg.
    rewrite Hf, length_app, length_map in Hfl. subst fs. rewrite Hseg, length_app in Hts. cbv zeta.
    unfold to_send in *. iso_cbn. lia.
  - intros _ s2 [Hidle Hi]. split; [done|]. by apply (tx_done _ _ _ _ _ _ _ Hi).
Qed.

(** Between two flow-control frames the transport sends at most the block size it
    was granted, less what its block counter already holds, however many ticks it gets. *)
Theorem block_size_respected id fd sdu fr0 ts s :
  inv id fd sdu fr0 (env s) -> iso_state (g_isotp_ctx (env s)) = ISOTP_TX_SENDING_CF ->
  0 < block_size (g_isotp_ctx (env s)) < 256 ->
  0 <= bs_counter (g_isotp_ctx (env s)) <= block_size (g_isotp_ctx (env s)) ->
  wp (mfor (map OpTick ts) run_tx_op) (fun _ s' =>
    Z.of_nat (length (frames (env s'))) <= Z.of_nat (length (frames (env s))) +
      (block_size (g_isotp_ctx (env s)) - bs_counter (g_isotp_ctx (env s)))) s.
Proof.
  intros Hinv Hsend Hbs Hk. set (bs := block_size _) in *. set (k := bs_counter _) in *.
  apply (wp_for (fun ops s' => Forall (fun o => match o with OpTick _ => True | OpFc _ => False end) ops /\
    inv id fd sdu fr0 (env s') /\
    (iso_state (g_isotp_ctx (env s')) = ISOTP_TX_SENDING_CF -> block_size (g_isotp_ctx (env s')) = bs /\
       0 <= bs_counter (g_isotp_ctx (env s')) <= bs /\
       Z.of_nat (length (frames (env s'))) + (bs - bs_counter (g_isotp_ctx (env s'))) <=
       Z.of_nat (length (frames (env s))) + (bs - k)) /\
    Z.of_nat (length (frames (env s'))) <= Z.of_nat (length (frames (env s))) + (bs - k))).
  - split; [by apply Forall_true_map_tick|]. split; [done|]. split; [|lia]. intros _. subst bs k. lia.
  - intros o ops' s1 (Hops & Hi & Hcnt & Hle). inversion_clear Hops as [|? ? Ho Hops']. destruct o as [t|]; [|done].
    cbn [run_tx_op]. apply wp_call. eapply wp_mono; [apply (tick_inv can_ok (fun r => r = 0) id fd sdu fr0); [done|exact Hi]|].
    intros ? e' (Hi' & _ & Hd). assert (Heq : env (set_env e' s1) = e') by by destruct s1. rewrite !Heq.
    split; [done|]. split; [done|]. set (i := g_isotp_ctx (env s1)) in *. revert Hd. unfold tick_decide.
    destruct (decide (iso_state i = ISOTP_TX_SENDING_CF)) as [Hs|Hs]; [|intros ->; by split].
    specialize (Hcnt Hs) as (Hb & Hc & Hn). rewrite Hb.
    destruct (_ =? _); [intros [-> ->]; by split|]. destruct (u32 _ <? _); [intros ->; by split|].
    destruct (Z.ltb_spec 0 bs); [|lia]. cbn [andb]. destruct (Z.leb_spec bs (bs_counter i)).
    { intros [-> ->]. by split. }
    intros [-> Hf]. rewrite Hf. unfold cf_advance. case_match; iso_cbn; (split; [|lia]); [done|].
    intros _. rewrite u8_small by lia. split; [done|]. lia.
  - by intros s1 (_ & _ & _ & H).
Qed.
End Sending.

(** None of the timeouts of ISO 15765-2 is supervised: while it waits for flow control
    or for consecutive frames the transport stays as it is, however often and at
    whatever times it is called. *)
Theorem waits_for_ever {C} ts (e : iso_env C) :
  iso_state (g_isotp_ctx e) <> ISOTP_TX_SENDING_CF -> mfor ts uds_tp_isotp_process e = Ok (tt, e).
Proof.
  intros Hs. induction ts as [|t ts IH]; [done|]. cbn [mfor]. rewrite (bind_ok _ _ _ tt e); [exact IH|].
  unfold uds_tp_isotp_process. rewrite (bind_ok _ _ _ (g_isotp_ctx e) e) by done.
  by destruct (iso_state (g_isotp_ctx e)).
Qed.
