(* ===== verification/IsoTpReasm.v ===== *)
(** * ISO-TP reassembly

    The frames of the reference segmentation, received one after the other,
    hand the core exactly the SDU they were cut from. Where the receiving code
    departs from the protocol: a first frame longer than the buffer, one that brings
    more than it announces into a short buffer, a frame of length 0. *)

From S2P Require Import Prelude Monad Types Machine CoreBase Contract.
From S2P Require Import Core CoreDispatch CoreProcess IsoTp IsoTpTx IsoTpRx IsoTpLink IsoTpSend.
From stdpp Require Import base gmap list strings numbers.

Open Scope Z_scope.

(** ** Decoding headers *)

Lemma pci_decode base h :
  base = 0 \/ base = 16 \/ base = 32 -> 0 <= h < 16 ->
  Z.land (base + h) 240 = base /\ Z.land (base + h) 15 = h.
Proof.
  intros Hb Hh.
  assert (H : forallb (fun b => forallb (fun h => (Z.land (b + h) 240 =? b) && (Z.land (b + h) 15 =? h))
    (seqZ 0 16)) [0; 16; 32] = true) by by vm_compute.
  rewrite forallb_forall in H. specialize (H base ltac:(cbn; intuition congruence)). rewrite forallb_forall in H.
  specialize (H h ltac:(apply list_elem_of_In, elem_of_seqZ; lia)). bool_prop. done.
Qed.

Lemma pad_lookup n l (i : nat) b : l !! i = Some b -> Z.of_nat i < n -> pad n l !! i = Some b.
Proof.
  intros Hl Hi. unfold pad. rewrite lookup_take_lt by lia. rewrite lookup_app_l; [done|].
  by apply lookup_lt_Some in Hl.
Qed.

Lemma pad_slice n l off k :
  0 <= off -> 0 <= k -> off + k <= n -> off + k <= Z.of_nat (length l) ->
  take (Z.to_nat k) (drop (Z.to_nat off) (pad n l)) = take (Z.to_nat k) (drop (Z.to_nat off) l).
Proof.
  intros Ho Hk Hn Hl. unfold pad. rewrite !take_drop_commute. f_equal.
  rewrite take_take. rewrite take_app_le by lia. f_equal. lia.
Qed.

(** The first frame's header holds a 12-bit length. *)
Lemma ff_length n : 0 <= n < 4096 -> Z.lor (u16 (Z.shiftl (n / 256) 8)) (n mod 256) = n.
Proof. intros. rewrite shiftl_8, u16_small by zlia. rewrite lor_byte by zlia. zlia. Qed.

Section Receiving.
Context {C : Type} (can_ok : C -> Prop) (R : Z -> Prop) (cfg : uds_config (iso_env C)).
Context (client_call : N -> Z -> list Z -> Z -> M (uds_state (iso_env C)) unit).
Context (rb : N) (Hrb : rx_buffer cfg = Some rb).
Implicit Types (i : uds_isotp_ctx C) (Q : unit -> uds_state (iso_env C) -> Prop).

Lemma wp_dispatch data len b Q c m i p pl cn fr tr :
  data !! 0%nat = Some b ->
  wp (let pci := Z.land b 240 in
      if pci =? ISOTP_PCI_SF then uds_rx_sf client_call (Some cfg) data len
      else if pci =? ISOTP_PCI_FF then uds_rx_ff (Some cfg) data len
      else if pci =? ISOTP_PCI_CF then uds_rx_cf client_call (Some cfg) data len
      else if pci =? ISOTP_PCI_FC then uds_rx_fc data
      else mret tt) Q (mkState c m (mkIsoEnv i p pl cn fr) tr) ->
  wp (uds_isotp_rx_callback client_call (Some cfg) (rx_id i) data len) Q
    (mkState c m (mkIsoEnv i p pl cn fr) tr).
Proof.
  intros Hb HQ. unfold uds_isotp_rx_callback. apply wp_bind, wp_call_get. rewrite Z.eqb_refl. cbn [negb].
  by apply wp_bind, wp_data_at with b.
Qed.

(** A first frame opens a reception and is answered with one flow control. *)
Lemma wp_ff_frame f fd sdu l Q c m i p pl cn fr tr :
  can_send i = Some f -> driver_ok can_ok R (max_dl i) f -> can_ok cn ->
  (max_sf fd < length sdu)%nat -> Z.of_nat (length sdu) < 4096 ->
  Z.of_nat (length sdu) <= rx_buffer_size cfg ->
  m !! rb = Some l -> Z.of_nat (length l) = rx_buffer_size cfg ->
  (forall cn', can_ok cn' ->
     Q tt (mkState c (<[rb := write_at 0 (take (ff_data fd) sdu) l]> m)
       (mkIsoEnv (receiving (Z.of_nat (length sdu)) (Z.of_nat (ff_data fd)) 1 i) p pl cn'
          (fr ++ [(tx_id i, [0x30; block_size i; st_min i; 0; 0; 0; 0; 0])])) tr)) ->
  wp (uds_isotp_rx_callback client_call (Some cfg) (rx_id i) (ff_frame fd sdu) (Z.of_nat (length (ff_frame fd sdu)))) Q
    (mkState c m (mkIsoEnv i p pl cn fr) tr).
Proof.
  intros Hf Hd Hc Hlong H12 Hfit Hl Hln HQ. unfold ff_frame. set (n := Z.of_nat (length sdu)) in *.
  set (dl := if fd then 64 else 8). assert (Hdl : 8 <= dl <= 64) by (subst dl; destruct fd; lia).
  set (body := 16 + n / 256 :: n mod 256 :: take (ff_data fd) sdu).
  assert (Hh : 0 <= n / 256 < 16) by zlia. destruct (pci_decode 16 (n / 256) ltac:(auto) Hh) as [Hp1 _].
  assert (H0 : pad dl body !! 0%nat = Some (16 + n / 256)) by (apply pad_lookup; [done|lia]).
  assert (H1 : pad dl body !! 1%nat = Some (n mod 256)) by (apply pad_lookup; [done|lia]).
  eapply wp_dispatch; [exact H0|]. cbv zeta. rewrite Hp1.
  change (16 =? ISOTP_PCI_SF) with false. change (16 =? ISOTP_PCI_FF) with true. cbv iota.
  rewrite length_pad by lia. rewrite Z2Nat.id by lia.
  assert (Hffd : (0 < ff_data fd <= max_sf fd)%nat) by (destruct fd; cbn; lia).
  assert (Hk : (if 8 <? dl then dl - 2 else 6) = Z.of_nat (ff_data fd)) by (subst dl; by destruct fd).
  assert (Hn : (16 + n / 256) mod 16 * 256 + n mod 256 = n) by zlia.
  assert (Hdl2 : Z.of_nat (ff_data fd) + 2 = dl) by (subst dl; by destruct fd).
  assert (Hbody : (Z.to_nat (Z.of_nat (ff_data fd)) + 2 <= length body)%nat)
    by (subst body; cbn [length]; rewrite length_take; lia).
  eapply (wp_rx_ff_open can_ok R cfg rb f); try done; rewrite ?Hk, ?Hn; try zlia.
  - destruct fd; cbn in *; lia.
  - rewrite length_pad by lia. lia.
  - intros r cn' _ Hcn'. change 2%nat with (Z.to_nat 2). rewrite pad_slice by lia. subst body.
    change (drop (Z.to_nat 2) (?a :: ?b :: ?x)) with x. rewrite take_take, Nat2Z.id, Nat.min_id. by apply HQ.
Qed.

(** How much of a consecutive frame the receiver copies is what the sender put in it. *)
Lemma cf_to_copy fd (rem : nat) :
  (0 < rem)%nat -> Z.of_nat rem < 4096 ->
  let cl := Z.of_nat (Nat.min (cf_data fd) rem) in
  let dl := if fd then uds_dlc_align (1 + cl) else 8 in
  (if Z.of_nat rem >? u8 (dl - 1) then u8 (dl - 1) else u8 (Z.of_nat rem)) = cl.
Proof.
  intros H0 H12 cl dl. pose proof (cf_data_pos fd) as Hcf.
  assert (Hdl : 1 + cl <= dl <= 64).
  { subst dl. pose proof (dlc_align_bounds (1 + cl)). destruct fd; [lia|]. cbn [cf_data] in *. lia. }
  rewrite (u8_small (dl - 1)) by lia. rewrite Z.gtb_ltb.
  destruct (decide (cf_data fd < rem)%nat) as [Hmore|Hlast].
  - assert (Hd1 : dl - 1 = cl) by (subst dl cl; rewrite Nat.min_l by lia; by destruct fd).
    rewrite Hd1. by rewrite (proj2 (Z.ltb_lt _ _)) by lia.
  - rewrite (proj2 (Z.ltb_ge _ _)) by lia. rewrite u8_small by lia. lia.
Qed.

(** A consecutive frame extends what has been received; the last one hands the
    buffer to the core. *)
Lemma wp_cf_frame fd sn sdu l (k : nat) Q c m i p pl cn fr tr :
  0 <= sn < 16 -> (k < length sdu)%nat -> Z.of_nat (length sdu) < 4096 ->
  Z.of_nat (length sdu) <= rx_buffer_size cfg ->
  m !! rb = Some l -> Z.of_nat (length l) = rx_buffer_size cfg ->
  let rest := drop k sdu in
  let chunk := take (cf_data fd) rest in
  let l' := write_at k chunk l in
  let i' := receiving (Z.of_nat (length sdu)) (Z.of_nat (k + length chunk)) ((sn + 1) mod 16) i in
  (if (length rest <=? cf_data fd)%nat
   then wp (uds_input_sdu client_call (Some cfg) (Some l') (Z.of_nat (length sdu))) Q
          (mkState c (<[rb := l']> m) (mkIsoEnv (set_iso_state ISOTP_IDLE i') p pl cn fr) tr)
   else Q tt (mkState c (<[rb := l']> m) (mkIsoEnv i' p pl cn fr) tr)) ->
  wp (uds_isotp_rx_callback client_call (Some cfg) (rx_id i) (cf_frame fd sn chunk)
        (Z.of_nat (length (cf_frame fd sn chunk)))) Q
    (mkState c m (mkIsoEnv (receiving (Z.of_nat (length sdu)) (Z.of_nat k) sn i) p pl cn fr) tr).
Proof.
  intros Hsn Hk H12 Hfit Hl Hln rest chunk l' i' HQ.
  set (n := Z.of_nat (length sdu)) in *. set (i0 := receiving n (Z.of_nat k) sn i).
  assert (Hrest : length rest = (length sdu - k)%nat) by (subst rest; apply length_drop).
  assert (Hch : length chunk = Nat.min (cf_data fd) (length rest)) by (subst chunk; apply length_take).
  pose proof (cf_data_pos fd) as Hcf. set (cl := Z.of_nat (length chunk)).
  assert (Hcl : 1 <= cl <= 63) by lia.
  set (dl := if fd then uds_dlc_align (1 + cl) else 8).
  assert (Hdl : 1 + cl <= dl <= 64).
  { subst dl. pose proof (dlc_align_bounds (1 + cl)). destruct fd; [lia|]. cbn [cf_data] in *. lia. }
  destruct (pci_decode 32 sn ltac:(auto) Hsn) as [Hp1 Hp2].
  unfold cf_frame. fold cl dl. set (body := 32 + sn :: chunk).
  assert (H0 : pad dl body !! 0%nat = Some (32 + sn)) by (apply pad_lookup; [done|lia]).
  change (rx_id i) with (rx_id i0). eapply wp_dispatch; [exact H0|]. cbv zeta. rewrite Hp1.
  change (32 =? ISOTP_PCI_SF) with false. change (32 =? ISOTP_PCI_FF) with false.
  change (32 =? ISOTP_PCI_CF) with true. cbv iota. rewrite length_pad by lia. rewrite Z2Nat.id by lia.
  unfold uds_rx_cf. iso_step. iso_step. rewrite bool_decide_eq_true_2 by done. cbn [negb].
  iso_step. apply wp_data_at with (32 + sn); [lia|done|]. rewrite Hp2.
  change (iso_sn i0) with sn. rewrite Z.eqb_refl. cbn [negb]. repeat iso_step.
  change (msg_len i0) with n. change (bytes_processed i0) with (Z.of_nat k). rewrite (u16_small (n - _)) by lia.
  pose proof (cf_to_copy fd (length rest) ltac:(lia) ltac:(lia)) as Hto. cbv zeta in Hto.
  rewrite <- Hch in Hto. fold cl dl in Hto. replace (Z.of_nat (length rest)) with (n - Z.of_nat k) in Hto by lia.
  rewrite Hto. repeat iso_step.
  apply wp_frame_slice; [lia|lia|rewrite length_pad by lia; lia|].
  rewrite pad_slice by (subst body; cbn [length]; lia). subst body.
  change (drop (Z.to_nat 1) (32 + sn :: chunk)) with chunk.
  rewrite take_ge by lia. iso_step. rewrite Hrb.
  eapply wp_blk_write; [exact Hl|lia|lia|]. unfold set_mem; cbn [ctx mem env trace].
  rewrite Nat2Z.id. fold l'. repeat iso_step. iso_cbn.
  change (bytes_processed i0) with (Z.of_nat k). change (msg_len i0) with n. rewrite u16_small by lia.
  assert (Hi' : set_bytes_processed (Z.of_nat k + cl) (set_iso_sn (Z.land (sn + 1) 15) i0) = i').
  { subst i' i0. unfold receiving. rewrite land_15. by replace (Z.of_nat (k + length chunk)) with (Z.of_nat k + cl) by lia. }
  change (iso_sn i0) with sn. rewrite Hi'.
  destruct (Nat.leb_spec (length rest) (cf_data fd)) as [Hlast|Hmore].
  - rewrite (proj2 (Z.leb_le n _)) by lia. unfold mwhen. repeat iso_step. unfold blk_all.
    apply wp_bind, wp_ret. unfold wp at 1, mem_all. cbn [mem]. rewrite lookup_insert_eq. exact HQ.
  - rewrite (proj2 (Z.leb_gt n _)) by lia. exact HQ.
Qed.

(** Consecutive frames to the end. *)
Lemma wp_cf_frames fd sdu c m i p pl cn fr tr :
  Z.of_nat (length sdu) < 4096 -> Z.of_nat (length sdu) <= rx_buffer_size cfg ->
  forall fuel (k : nat) sn l, (length sdu - k <= fuel)%nat -> (k < length sdu)%nat -> 0 <= sn < 16 ->
  take k l = take k sdu -> Z.of_nat (length l) = rx_buffer_size cfg ->
  exists l' i', take (length sdu) l' = sdu /\ Z.of_nat (length l') = rx_buffer_size cfg /\ iso_state i' = ISOTP_IDLE /\
    forall Q,
    wp (uds_input_sdu client_call (Some cfg) (Some l') (Z.of_nat (length sdu))) Q
      (mkState c (<[rb := l']> m) (mkIsoEnv i' p pl cn fr) tr) ->
    wp (rx_frames client_call cfg (rx_id i) (cf_frames fuel fd sn (drop k sdu))) Q
      (mkState c (<[rb := l]> m) (mkIsoEnv (receiving (Z.of_nat (length sdu)) (Z.of_nat k) sn i) p pl cn fr) tr).
Proof.
  intros H12 Hfit. induction fuel as [|fuel IH]; intros k sn l Hfuel Hk Hsn Htk Hl; [lia|].
  set (rest := drop k sdu). set (chunk := take (cf_data fd) rest).
  assert (Hrest : length rest = (length sdu - k)%nat) by (subst rest; apply length_drop).
  assert (Hch : length chunk = Nat.min (cf_data fd) (length rest)) by (subst chunk; apply length_take).
  pose proof (cf_data_pos fd) as Hcf.
  assert (Hcons : forall sn, cf_frames (S fuel) fd sn rest =
    cf_frame fd sn chunk :: cf_frames fuel fd ((sn + 1) mod 16) (drop (cf_data fd) rest)).
  { intros sn'. clearbody rest. subst chunk. destruct rest; [cbn in *; lia|done]. }
  set (l1 := write_at k chunk l). assert (Hl1 : length l1 = length l) by (apply length_write_at; lia).
  assert (Htk1 : take (k + length chunk) l1 = take (k + length chunk) sdu).
  { subst l1. rewrite take_write_at, Htk, <- take_take_drop by lia. f_equal. fold rest. rewrite Hch. subst chunk.
    destruct (decide (cf_data fd <= length rest)%nat); [by rewrite Nat.min_l|].
    by rewrite Nat.min_r, !take_ge by lia. }
  destruct (Nat.leb_spec (length rest) (cf_data fd)) as [Hlast|Hmore].
  - exists l1. eexists. split; [|split; [lia|split; [|intros Q HQ]]].
    3: { rewrite Hcons. unfold rx_frames. cbn [mfor]. apply wp_bind.
         eapply (wp_cf_frame fd sn sdu l k); [done|done|done|done|apply lookup_insert_eq|done|].
         fold rest chunk l1. rewrite (proj2 (Nat.leb_le _ _)) by done. rewrite insert_insert_eq.
         rewrite (drop_ge rest) by lia. replace (cf_frames fuel _ _ []) with (@nil (list Z)) by by destruct fuel.
         cbn [mfor]. eapply wp_mono; [exact HQ|]. by intros [] s'. }
    + replace (length sdu) with (k + length chunk)%nat at 1 by lia. rewrite Htk1. apply take_ge. lia.
    + done.
  - destruct (IH (k + length chunk)%nat ((sn + 1) mod 16) l1) as (l' & i' & H1 & H2 & H3 & H4);
      [lia|lia|zlia|done|lia|].
    exists l', i'. split; [done|]. split; [done|]. split; [done|]. intros Q HQ. specialize (H4 Q HQ).
    rewrite Hcons. unfold rx_frames in *. cbn [mfor]. apply wp_bind.
    eapply (wp_cf_frame fd sn sdu l k); [done|done|done|done|apply lookup_insert_eq|done|].
    fold rest chunk l1. rewrite (proj2 (Nat.leb_gt _ _)) by done. rewrite insert_insert_eq.
    replace (drop (cf_data fd) rest) with (drop (k + length chunk) sdu); [exact H4|].
    subst rest. rewrite drop_drop. f_equal. lia.
Qed.

(** A single frame hands its payload over at once. *)
Lemma wp_sf_frame sdu c m i p pl cn fr tr :
  (1 <= length sdu <= 62)%nat ->
  exists buf, take (length sdu) buf = sdu /\ forall Q,
    wp (uds_input_sdu client_call (Some cfg) (Some buf) (Z.of_nat (length sdu))) Q
      (mkState c m (mkIsoEnv (set_iso_state ISOTP_IDLE i) p pl cn fr) tr) ->
    wp (uds_isotp_rx_callback client_call (Some cfg) (rx_id i) (sf_frame sdu) (Z.of_nat (length (sf_frame sdu)))) Q
      (mkState c m (mkIsoEnv i p pl cn fr) tr).
Proof.
  intros Hlen. unfold sf_frame. set (n := Z.of_nat (length sdu)).
  destruct (Z.leb_spec n 7) as [H7|H7].
  - destruct (pad_head 8 (n :: sdu)) as [z Hz]; [cbn [length]; lia|].
    exists (sdu ++ z). split; [by apply take_app_length|]. intros Q HQ. rewrite length_pad by lia. rewrite Hz.
    destruct (pci_decode 0 n ltac:(auto) ltac:(lia)) as [Hp1 Hp2]. rewrite Z.add_0_l in *.
    eapply wp_dispatch; [reflexivity|]. cbv zeta. rewrite Hp1. change (0 =? ISOTP_PCI_SF) with true. cbv iota.
    unfold uds_rx_sf. iso_step. iso_step. iso_step. apply wp_data_at with n; [lia|done|]. cbv zeta. rewrite Hp2.
    rewrite (proj2 (Z.eqb_neq n 0)) by lia. rewrite Z.gtb_ltb. change (Z.of_nat (Z.to_nat 8) - 1) with 7.
    rewrite (proj2 (Z.ltb_ge 7 n)) by lia. iso_step. apply wp_data_from; [cbn [length app]; lia|]. exact HQ.
  - set (dl := uds_dlc_align (n + 2)). pose proof (dlc_align_bounds (n + 2)) as Hdl. fold dl in Hdl.
    destruct (pad_head dl (0 :: n :: sdu)) as [z Hz]; [cbn [length]; lia|].
    exists (sdu ++ z). split; [by apply take_app_length|]. intros Q HQ. rewrite length_pad by lia. rewrite Hz.
    rewrite Z2Nat.id by lia. eapply wp_dispatch; [reflexivity|]. cbv zeta.
    change (Z.land 0 240 =? ISOTP_PCI_SF) with true. cbv iota.
    unfold uds_rx_sf. iso_step. iso_step. iso_step. apply wp_data_at with 0; [lia|done|]. cbv zeta.
    change (Z.land 0 15 =? 0) with true. cbv iota. iso_step. apply wp_data_at with n; [lia|done|].
    rewrite (proj2 (Z.eqb_neq n 0)) by lia. rewrite Z.gtb_ltb, (proj2 (Z.ltb_ge (dl - 2) n)) by lia.
    iso_step. apply wp_data_from; [cbn [length app]; lia|]. exact HQ.
Qed.

(** C17: The frames of the reference segmentation of an SDU of up to 4095 bytes that
    fits the receive buffer, classic or CAN-FD, received one after the other in any
    transport state, hand the core exactly that SDU once, answer a first frame with
    exactly one clear-to-send flow-control frame, and leave the transport idle: if the
    core's handling of the SDU ends normally, receiving the frames ends in the same
    state. *)
Theorem reassembly fd sdu s l :
  mem s !! rb = Some l -> Z.of_nat (length l) = rx_buffer_size cfg ->
  (exists f, can_send (g_isotp_ctx (env s)) = Some f /\ driver_ok can_ok R (max_dl (g_isotp_ctx (env s))) f) -> can_ok (can (env s)) ->
  1 <= Z.of_nat (length sdu) <= rx_buffer_size cfg -> Z.of_nat (length sdu) < 4096 ->
  let i := g_isotp_ctx (env s) in
  exists buf s1,
    take (length sdu) buf = sdu /\ ctx s1 = ctx s /\ trace s1 = trace s /\
    iso_state (g_isotp_ctx (env s1)) = ISOTP_IDLE /\
    frames (env s1) = frames (env s) ++
      (if (length sdu <=? max_sf fd)%nat then []
       else [(tx_id i, [0x30; block_size i; st_min i; 0; 0; 0; 0; 0])]) /\
    forall r, uds_input_sdu client_call (Some cfg) (Some buf) (Z.of_nat (length sdu)) s1 = Ok r ->
      rx_frames client_call cfg (rx_id i) (segment fd sdu) s = Ok r.
Proof.
  intros Hl Hln (f & Hf & Hd) Hc Hlen H12 i. destruct s as [c m [i0 p pl cn fr] tr].
  cbn [mem env g_isotp_ctx can ctx trace frames] in *. subst i. rename i0 into i.
  assert (Hok : forall (x : M (uds_state (iso_env C)) unit) s r, wp x (fun a s' => (a, s') = r) s -> x s = Ok r).
  { intros x s r H. unfold wp in H. destruct (x s) as [[a s']|]; [by rewrite H|done]. }
  assert (Hwp : forall (x : M (uds_state (iso_env C)) unit) s r, x s = Ok r -> wp x (fun a s' => (a, s') = r) s).
  { intros x s [a s'] H. unfold wp. by rewrite H. }
  unfold segment. destruct (Nat.leb_spec (length sdu) (max_sf fd)) as [Hs|Hs].
  - destruct (wp_sf_frame sdu c m i p pl cn fr tr) as (buf & Hb & HQ); [destruct fd; cbn in *; lia|].
    exists buf, (mkState c m (mkIsoEnv (set_iso_state ISOTP_IDLE i) p pl cn fr) tr). rewrite app_nil_r.
    repeat (split; [done|]). intros r Hr. apply Hok. unfold rx_frames. cbn [mfor]. apply wp_bind.
    eapply wp_mono; [apply HQ, Hwp, Hr|]. intros [] s' <-. done.
  - set (fcf := (tx_id i, [0x30; block_size i; st_min i; 0; 0; 0; 0; 0])).
    set (l1 := write_at 0 (take (ff_data fd) sdu) l).
    set (rec := receiving (Z.of_nat (length sdu)) (Z.of_nat (ff_data fd)) 1 i).
    assert (Hff : wp (uds_isotp_rx_callback client_call (Some cfg) (rx_id i) (ff_frame fd sdu)
      (Z.of_nat (length (ff_frame fd sdu)))) (fun _ s' => exists cn',
        s' = mkState c (<[rb := l1]> m) (mkIsoEnv rec p pl cn' (fr ++ [fcf])) tr)
      (mkState c m (mkIsoEnv i p pl cn fr) tr)).
    { eapply (wp_ff_frame f fd sdu l); try done; [lia|]. intros cn' _. by exists cn'. }
    unfold wp in Hff. destruct (uds_isotp_rx_callback _ _ _ _ _ _) as [[[] s2]|] eqn:Hrun; [|done].
    destruct Hff as (cn' & ->).
    assert (Hffd : (0 < ff_data fd <= max_sf fd)%nat) by (destruct fd; cbn; lia).
    destruct (wp_cf_frames fd sdu c m i p pl cn' (fr ++ [fcf]) tr H12 ltac:(lia) (length sdu) (ff_data fd) 1 l1)
      as (buf & i' & Hb & _ & Hi' & HQ); [lia|lia|lia| | |].
    { subst l1. assert (Hlt : length (take (ff_data fd) sdu) = ff_data fd) by (rewrite length_take; lia).
      rewrite <- Hlt at 1. change (length (take (ff_data fd) sdu)) with (0 + length (take (ff_data fd) sdu))%nat.
      rewrite take_write_at by lia. done. }
    { subst l1. rewrite length_write_at; [done|]. rewrite length_take. lia. }
    exists buf, (mkState c (<[rb := buf]> m) (mkIsoEnv i' p pl cn' (fr ++ [fcf])) tr).
    repeat (split; [done|]). intros r Hr. apply Hok. unfold rx_frames. cbn [mfor]. apply wp_bind.
    apply (run_wp _ _ _ _ _ Hrun). apply HQ, Hwp, Hr.
Qed.

(** A 64-byte CAN-FD first frame announcing a message that fits a receive buffer of
    fewer than 62 bytes makes uds_rx_ff copy 62 bytes into it: the model faults with an
    out-of-bounds write. *)
Theorem rx_ff_overflow data n s l :
  mem s !! rb = Some l -> Z.of_nat (length l) = rx_buffer_size cfg -> rx_buffer_size cfg < 62 ->
  length data = 64%nat -> data !! 0%nat = Some 0x10 -> data !! 1%nat = Some n -> 8 <= n <= rx_buffer_size cfg ->
  uds_isotp_rx_callback client_call (Some cfg) (rx_id (g_isotp_ctx (env s))) data 64 s = Fault OutOfBounds.
Proof.
  intros Hl Hln Hsmall Hlen H0 H1 Hn. destruct s as [c m [i p pl cn fr] tr]. cbn [mem env g_isotp_ctx] in *.
  assert (Hd : forall (j : Z) b st, 0 <= j -> data !! Z.to_nat j = Some b -> @data_at (iso_env C) data j st = Ok (b, st)).
  { intros j b st Hj Hb. unfold data_at. by rewrite (proj2 (Z.leb_le 0 j)), Hb by done. }
  unfold uds_isotp_rx_callback. erewrite bind_ok by done. rewrite Z.eqb_refl. cbn [negb].
  rewrite (bind_ok _ _ _ _ _ (Hd 0 0x10 _ ltac:(lia) H0)). cbv zeta.
  change (Z.land 0x10 0xF0 =? ISOTP_PCI_SF) with false. change (Z.land 0x10 0xF0 =? ISOTP_PCI_FF) with true. cbv iota.
  unfold uds_rx_ff. erewrite bind_ok by done. rewrite (bind_ok _ _ _ _ _ (Hd 0 0x10 _ ltac:(lia) H0)).
  rewrite (bind_ok _ _ _ _ _ (Hd 1 n _ ltac:(lia) H1)). cbv zeta.
  change (Z.lor (u16 (Z.shiftl (Z.land 0x10 0x0F) 8)) n) with n. rewrite (proj2 (Z.ltb_ge n 8)) by lia.
  do 5 erewrite bind_ok by done. rewrite (proj2 (Z.ltb_ge _ n)) by lia.
  change (if 64 >? ISOTP_MAX_DL_CAN then u8 (64 - 2) else ISOTP_FF_MAX_DATA_CAN) with 62.
  erewrite bind_ok.
  2: { unfold frame_slice, call, zoom, slice. rewrite Hlen. reflexivity. }
  unfold mbind, M_bind at 1. rewrite Hrb. unfold blk_write, mbind, M_bind, fnptr, mret, M_ret, mem_write.
  cbn [mem set_env]. rewrite Hl. rewrite length_take, length_drop, Hlen.
  rewrite (proj2 (Z.leb_gt _ (Z.of_nat (length l)))) by lia. done.
Qed.

(** C40: The bound of 125 bytes on the receive buffer is tight: with a receive buffer of
    8 to 124 bytes, a CAN-FD first frame that announces eight bytes and carries 62,
    followed by a consecutive frame that carries 63, makes the transport write outside
    the buffer, although both announced and accepted length fit it. *)
Theorem short_rx_buffer_overflow x y f l s :
  mem s !! rb = Some l -> Z.of_nat (length l) = rx_buffer_size cfg -> 8 <= rx_buffer_size cfg < 125 ->
  can_send (g_isotp_ctx (env s)) = Some f -> driver_ok can_ok R (max_dl (g_isotp_ctx (env s))) f -> can_ok (can (env s)) ->
  length x = 62%nat -> length y = 63%nat ->
  let rid := rx_id (g_isotp_ctx (env s)) in
  (uds_isotp_rx_callback client_call (Some cfg) rid (0x10 :: 8 :: x) 64 ;;
   uds_isotp_rx_callback client_call (Some cfg) rid (0x21 :: y) 64) s = Fault OutOfBounds.
Proof.
  intros Hl Hln Hsize Hf Hd Hc Hx Hy rid. destruct (decide (rx_buffer_size cfg < 62)) as [Hs|Hs].
  { unfold mbind, M_bind. subst rid. by rewrite (rx_ff_overflow (0x10 :: 8 :: x) 8 s l) by (done || cbn [length]; lia). }
  destruct s as [c m [i p pl cn fr] tr]. cbn [mem env g_isotp_ctx can] in *. subst rid.
  assert (Hff : wp (uds_isotp_rx_callback client_call (Some cfg) (rx_id i) (0x10 :: 8 :: x) 64) (fun _ s' =>
      exists cn' fr', s' = mkState c (<[rb := write_at 0 x l]> m) (mkIsoEnv (receiving 8 62 1 i) p pl cn' fr') tr)
    (mkState c m (mkIsoEnv i p pl cn fr) tr)).
  { eapply wp_dispatch; [reflexivity|]. cbv zeta. change (Z.land 0x10 240 =? ISOTP_PCI_SF) with false.
    change (Z.land 0x10 240 =? ISOTP_PCI_FF) with true. cbv iota.
    eapply (wp_rx_ff_open can_ok R cfg rb f); try done; cbn [length]; try (unfold is_byte; lia).
    { change (0x10 mod 16 * 256 + 8) with 8. lia. } { change (if 8 <? 64 then 64 - 2 else 6) with 62. lia. }
    { change (if 8 <? 64 then 64 - 2 else 6) with 62. lia. }
    intros r cn' _ _. exists cn'. eexists. cbn [drop]. change (if 8 <? 64 then 64 - 2 else 6) with 62.
    rewrite (take_ge x) by (rewrite Hx; lia). reflexivity. }
  unfold wp in Hff. unfold mbind at 1, M_bind at 1.
  destruct (uds_isotp_rx_callback client_call (Some cfg) (rx_id i) (0x10 :: 8 :: x) 64 _) as [[[] s']|]; [|done].
  destruct Hff as (cn' & fr' & ->). change (rx_id i) with (rx_id (receiving 8 62 1 i)).
  unfold uds_isotp_rx_callback. erewrite bind_ok by done. rewrite Z.eqb_refl. cbn [negb].
  erewrite bind_ok by done. cbv zeta. change (Z.land 0x21 240) with 32.
  change (32 =? ISOTP_PCI_SF) with false. change (32 =? ISOTP_PCI_FF) with false.
  change (32 =? ISOTP_PCI_CF) with true. cbv iota. unfold uds_rx_cf.
  erewrite bind_ok by done. cbn [env g_isotp_ctx]. rewrite bool_decide_eq_true_2 by done. cbn [negb].
  erewrite bind_ok by done. cbn [env set_env g_isotp_ctx].
  change (Z.land 0x21 15 =? iso_sn (receiving 8 62 1 i)) with true. cbn [negb].
  erewrite bind_ok by done. cbv beta zeta. cbn [env set_env g_isotp_ctx].
  change (msg_len (receiving 8 62 1 i)) with 8. change (bytes_processed (receiving 8 62 1 i)) with 62.
  change (if u16 (8 - 62) >? u8 (64 - 1) then u8 (64 - 1) else u8 (u16 (8 - 62))) with 63.
  erewrite bind_ok by done. erewrite bind_ok by (unfold frame_slice, call, zoom, slice; cbn [length]; rewrite Hy; reflexivity).
  unfold mbind, M_bind at 1. rewrite Hrb. unfold blk_write, mbind, M_bind, fnptr, mret, M_ret, mem_write.
  cbn [mem set_env]. rewrite lookup_insert_eq, length_write_at by (cbn; lia).
  rewrite length_take, length_drop. cbn [length]. rewrite Hy.
  rewrite (proj2 (Z.leb_gt _ (Z.of_nat (length l)))) by lia. done.
Qed.

(** A consecutive frame of length 0: [len - 1] is 255 as a byte, so the copy runs
    past the frame's own buffer. *)
Theorem rx_cf_empty_overflow data s :
  let i := g_isotp_ctx (env s) in
  iso_state i = ISOTP_RX_WAIT_CF -> 0 <= iso_sn i < 16 -> data !! 0%nat = Some (0x20 + iso_sn i) ->
  Z.of_nat (length data) <= msg_len i - bytes_processed i < 65536 -> (length data <= 64)%nat ->
  uds_isotp_rx_callback client_call (Some cfg) (rx_id i) data 0 s = Fault OutOfBounds.
Proof.
  intros i Hw Hsn H0 Hrem Hlen. destruct s as [c m [i0 p pl cn fr] tr]. cbn [env g_isotp_ctx] in i. subst i. rename i0 into i.
  assert (Hd : forall st, @data_at (iso_env C) data 0 st = Ok (0x20 + iso_sn i, st))
    by (intros st; unfold data_at; cbn [Z.leb Z.compare]; by rewrite (H0 : data !! Z.to_nat 0 = _)).
  destruct (pci_decode 32 (iso_sn i) ltac:(auto) Hsn) as [Hp1 Hp2].
  unfold uds_isotp_rx_callback. erewrite bind_ok by done. rewrite Z.eqb_refl. cbn [negb].
  rewrite (bind_ok _ _ _ _ _ (Hd _)). cbv zeta. rewrite Hp1.
  change (32 =? ISOTP_PCI_SF) with false. change (32 =? ISOTP_PCI_FF) with false.
  change (32 =? ISOTP_PCI_CF) with true. cbv iota.
  unfold uds_rx_cf. erewrite bind_ok by done. cbn [env g_isotp_ctx]. rewrite bool_decide_eq_true_2 by done. cbn [negb].
  rewrite (bind_ok _ _ _ _ _ (Hd _)), Hp2, Z.eqb_refl. cbn [negb]. erewrite bind_ok by done.
  cbv beta zeta. cbn [env set_env g_isotp_ctx]. rewrite (u16_small (msg_len i - bytes_processed i)) by lia. change (u8 (0 - 1)) with 255. rewrite Z.gtb_ltb.
  set (n := if _ <? _ then _ else _). assert (Hn : Z.of_nat (length data) <= n).
  { subst n. destruct (Z.ltb_spec 255 (msg_len i - bytes_processed i)); [lia|]. rewrite u8_small by lia. lia. }
  erewrite bind_ok by done. unfold mbind, M_bind at 1. unfold frame_slice, call, zoom, slice.
  rewrite (proj2 (Z.leb_gt (1 + n) (Z.of_nat (length data)))) by lia. by rewrite !andb_false_r.
Qed.
End Receiving.
