(* ===== verification/IsoTpRecv.v ===== *)
(** * The receiver over a whole bus

    Any sequence of frames from the bus makes [uds_isotp_rx_callback] do what the
    reference receiver of [IsoTpRef] says: the same receptions, the same flow control,
    the same SDUs handed to the core in the same order. The reference in turn puts back
    together what the reference segmentation cut. *)

From S2P Require Import Prelude Monad Types Machine CoreBase Contract.
From S2P Require Import Core CoreDispatch CoreProcess CoreApi IsoTp IsoTpTx IsoTpRx IsoTpRef IsoTpLink.
From stdpp Require Import base gmap list strings numbers.

Open Scope Z_scope.

(** A frame from the bus: identifier, buffer, length. *)
Definition bus_frame : Type := Z * list Z * Z.

(** The units in it for the receiver that listens to [rid]. *)
Definition bus_units (rid : Z) (fs : list bus_frame) : list pdu :=
  map (fun '(id, data, len) => unit_for rid id data len) fs.

(** Not receiving, and listening to [rid]: what the core, called with a complete SDU,
    leaves the transport in. *)
Record iso_quiet {C} (can_ok : C -> Prop) (rxs rid : Z) (e : iso_env C) : Prop := {
  iq_ok : iso_ok can_ok rxs e;
  iq_state : iso_state (g_isotp_ctx e) <> ISOTP_RX_WAIT_CF;
  iq_id : rx_id (g_isotp_ctx e) = rid
}.

(** Sending never starts a reception. *)
Lemma send_quiet {C} (can_ok : C -> Prop) rxs rid c sdu :
  cb_ok (iso_quiet can_ok rxs rid) (uds_isotp_send c sdu (Z.of_nat (length sdu))) (fun r => r <= 0).
Proof.
  intros e [He Hs Hid]. pose proof (send_contract can_ok rxs c sdu e He) as H1.
  assert (H2 : wp (uds_isotp_send c sdu (Z.of_nat (length sdu)))
    (fun _ e' => iso_state (g_isotp_ctx e') <> ISOTP_RX_WAIT_CF /\ rx_id (g_isotp_ctx e') = rid) e).
  { destruct e as [i p pl cn fr], He as [[f [Hf Hd]] Hc Hp _]. by eapply (wp_isotp_send can_ok f). }
  eapply wp_mono; [exact (wp_conj _ _ _ _ H1 H2)|]. intros r e' [[Hr He'] [Hs' Hid']]. by split.
Qed.

Section Recv.
Context {C : Type} (can_ok : C -> Prop) (tb : N) (cfg : uds_config (iso_env C)) (rid : Z).
#[local] Abbreviation rxs := (rx_buffer_size cfg).
#[local] Abbreviation quiet := (iso_quiet can_ok rxs rid).
Context `{Hok : !ConfigOk quiet tb cfg} `{Hus : !UsersOk quiet tb cfg}.
Context (client_call : N -> Z -> list Z -> Z -> M (uds_state (iso_env C)) unit).
Context `{Hclient : !ClientOk quiet tb cfg client_call}.
Context (rb : N) (Hrb : rx_buffer cfg = Some rb) (Hrxs : rxs < 65536).
#[local] Abbreviation inv := (uds_inv (iso_ok can_ok rxs) tb cfg).

(** The run of the code along the outcomes of the reference: the transport moves as
    [rx_moved] says, and an SDU is a run of [uds_input_sdu] on a buffer that starts with it. *)
Inductive rx_does : list rx_out -> uds_state (iso_env C) -> uds_state (iso_env C) -> Prop :=
| rd_nil s : rx_does [] s s
| rd_out o os s s1 s2 :
    (forall sdu, o <> RxSdu sdu) -> rx_moved rb s s1 o -> rx_does os s1 s2 -> rx_does (o :: os) s s2
| rd_sdu sdu os s s1 buf s2 s3 :
    rx_moved rb s s1 (RxSdu sdu) -> take (length sdu) buf = sdu ->
    uds_input_sdu client_call (Some cfg) (Some buf) (Z.of_nat (length sdu)) s1 = Ok (tt, s2) ->
    rx_does os s2 s3 -> rx_does (RxSdu sdu :: os) s s3.

(** The core, called between two frames, leaves the transport listening. *)
Lemma wp_input_quiet buf len s :
  inv s -> reception_of rb s = None -> rx_id (g_isotp_ctx (env s)) = rid ->
  Forall is_byte buf -> 0 <= len <= Z.of_nat (length buf) -> len < 65536 ->
  wp (uds_input_sdu client_call (Some cfg) (Some buf) len)
    (fun _ s' => inv s' /\ reception_of rb s' = None /\ rx_id (g_isotp_ctx (env s')) = rid) s.
Proof.
  intros [Hc Hm He] Hr Hid Hb Hlen Hlt.
  assert (Hs : iso_state (g_isotp_ctx (env s)) <> ISOTP_RX_WAIT_CF).
  { unfold reception_of in Hr. by case_decide. }
  eapply wp_mono; [apply (run_api_ok quiet tb cfg client_call (ApiInput buf len) s); [by split|by cbn]|].
  intros _ s' [[Hc' Hm' [He' Hs' Hid']] _]. split; [by split|]. split; [|done].
  unfold reception_of. by rewrite decide_False.
Qed.

(** One frame. *)
Lemma wp_frame_does id data len s :
  inv s -> rx_id (g_isotp_ctx (env s)) = rid -> frame_ok rxs data len ->
  let ro := rx_step rxs (reception_of rb s) (unit_for rid id data len) in
  wp (uds_isotp_rx_callback client_call (Some cfg) id data len) (fun _ s' =>
    inv s' /\ rx_id (g_isotp_ctx (env s')) = rid /\ reception_of rb s' = ro.1 /\
    forall os s2, rx_does os s' s2 -> rx_does (ro.2 :: os) s s2) s.
Proof.
  intros Hinv Hid Hfr ro. apply (wp_rx_frame can_ok tb cfg client_call rb Hrb Hrxs); [done..|].
  unfold rx_ref. rewrite Hid. fold ro. intros s1 Hi1 Hmv Hr1.
  assert (Hid1 : rx_id (g_isotp_ctx (env s1)) = rid) by by destruct Hmv as [_ _ _ -> _].
  assert (Hquiet : (forall sdu, ro.2 <> RxSdu sdu) -> inv s1 /\ rx_id (g_isotp_ctx (env s1)) = rid /\
    reception_of rb s1 = ro.1 /\ forall os s2, rx_does os s1 s2 -> rx_does (ro.2 :: os) s s2).
  { intros Ho. split_and!; try done. intros os s2 Hd. by econstructor. }
  destruct ro.2 as [| |sdu] eqn:Ho; cbn [rx_then]; [by apply Hquiet|by apply Hquiet|].
  assert (Hnone : ro.1 = None).
  { clear -Ho. subst ro. unfold rx_step in *. repeat case_match; done. }
  intros buf Hb Hlen Htk Hlt. rewrite Hnone in Hr1.
  pose proof (wp_input_quiet buf (Z.of_nat (length sdu)) s1 Hi1 Hr1 Hid1 Hb ltac:(lia) Hlt) as Hin.
  unfold wp in *. destruct (uds_input_sdu _ _ _ _ _) as [[[] s']|] eqn:Hrun; [|done].
  destruct Hin as (Hi' & Hr' & Hid'). rewrite Hnone. split_and!; try done. intros os s2 Hd. by eapply rd_sdu.
Qed.

(** C14: The receiving transport refines a reference receiver of protocol data units:
    over any sequence of frames from the bus, with any identifiers, contents and
    sequence errors, of 1 to 64 bytes in arrays of at least eight, more than eight bytes
    only with a receive buffer of at least 125 (beyond these bounds it leaves its
    buffers: C40, and IsoTpReasm.rx_cf_empty_overflow for a length of 0), it accepts,
    aborts and completes receptions exactly as the reference does, answers each accepted
    first frame with one flow-control frame, and hands the core exactly the SDUs the
    reference completes, in order. *)
Theorem rx_refines fs s :
  inv s -> rx_id (g_isotp_ctx (env s)) = rid ->
  Forall (fun '(_, data, len) => frame_ok rxs data len) fs ->
  let '(r, os) := rx_run rxs (reception_of rb s) (bus_units rid fs) in
  wp (mfor fs (fun '(id, data, len) => uds_isotp_rx_callback client_call (Some cfg) id data len))
    (fun _ s' => inv s' /\ reception_of rb s' = r /\ rx_does os s s') s.
Proof.
  revert s. induction fs as [|[[id data] len] fs IH]; intros s Hinv Hid Hfs; cbn [bus_units map rx_run mfor].
  { apply wp_ret. split_and!; [done..|constructor]. }
  inversion_clear Hfs as [|? ? Hf Hfs']. pose proof (wp_frame_does id data len s Hinv Hid Hf) as H1. cbv zeta in H1.
  destruct (rx_step _ _ _) as [r1 o]. destruct (rx_run rxs r1 (map _ fs)) as [r2 os] eqn:Hrun.
  apply wp_bind. eapply wp_mono; [exact H1|]. intros _ s1 (Hi1 & Hid1 & Hr1 & Hd). cbn [fst snd] in *.
  specialize (IH s1 Hi1 Hid1 Hfs'). unfold bus_units in IH. rewrite Hr1, Hrun in IH.
  eapply wp_mono; [exact IH|]. intros _ s2 (Hi2 & Hr2 & Hd2). split_and!; [done..|]. by apply Hd.
Qed.
End Recv.
