(* ===== verification/IsoTpPeer.v ===== *)
(** * Two nodes on a bus

    A node that transmits and a node that receives, joined by two FIFO channels:
    every frame of one reaches the other once, in order, at any time. Under any
    interleaving of ticks and deliveries the receiving core hears nothing until
    the whole SDU has arrived and then exactly the SDU; with flow control out of
    the way it always arrives; with the block size the receiver announces by
    default a long SDU never does. *)

From S2P Require Import Prelude Monad Types Machine CoreBase Contract.
From S2P Require Import Core CoreDispatch CoreProcess CoreApi IsoTp IsoTpTx IsoTpRx IsoTpLink IsoTpSend IsoTpReasm.
From stdpp Require Import base gmap list strings numbers.

Open Scope Z_scope.

(** ** The network

    [got_b] counts the frames of [lk_a] that have reached [lk_b], [got_a] those
    of [lk_b] that have reached [lk_a]. *)
Record link (CA CB : Type) : Type := mkLink {
  lk_a : uds_state (iso_env CA);
  lk_b : uds_state (iso_env CB);
  got_a : nat;
  got_b : nat
}.
Arguments mkLink {_ _} _ _ _ _.
Arguments lk_a {_ _} _.
Arguments lk_b {_ _} _.
Arguments got_a {_ _} _.
Arguments got_b {_ _} _.

Inductive link_op : Type :=
| LTick (t : Z)
| LToB
| LToA.

Section Network.
Context {CA CB : Type}.
Context (cfgA : uds_config (iso_env CA)) (cfgB : uds_config (iso_env CB)).
Context (clientA : N -> Z -> list Z -> Z -> M (uds_state (iso_env CA)) unit).
Context (clientB : N -> Z -> list Z -> Z -> M (uds_state (iso_env CB)) unit).

Definition on_a {A} (m : M (uds_state (iso_env CA)) A) : M (link CA CB) A :=
  zoom lk_a (fun a l => mkLink a (lk_b l) (got_a l) (got_b l)) m.
Definition on_b {A} (m : M (uds_state (iso_env CB)) A) : M (link CA CB) A :=
  zoom lk_b (fun b l => mkLink (lk_a l) b (got_a l) (got_b l)) m.
Definition get_link : M (link CA CB) (link CA CB) := fun l => Ok (l, l).
Definition count_a : M (link CA CB) unit :=
  fun l => Ok (tt, mkLink (lk_a l) (lk_b l) (S (got_a l)) (got_b l)).
Definition count_b : M (link CA CB) unit :=
  fun l => Ok (tt, mkLink (lk_a l) (lk_b l) (got_a l) (S (got_b l))).

(** The next frame in flight, if any, is received. *)
Definition deliver_b : M (link CA CB) unit :=
  l ← get_link;
  match frames (env (lk_a l)) !! got_b l with
  | Some (id, d) =>
      on_b (uds_isotp_rx_callback clientB (Some cfgB) id d (Z.of_nat (length d))) ;; count_b
  | None => mret tt
  end.
Definition deliver_a : M (link CA CB) unit :=
  l ← get_link;
  match frames (env (lk_b l)) !! got_a l with
  | Some (id, d) =>
      on_a (uds_isotp_rx_callback clientA (Some cfgA) id d (Z.of_nat (length d))) ;; count_a
  | None => mret tt
  end.

Definition run_link (o : link_op) : M (link CA CB) unit :=
  match o with
  | LTick t => on_a (call (uds_tp_isotp_process t))
  | LToB => deliver_b
  | LToA => deliver_a
  end.

(** Steps until [n] frames have reached the receiver. *)
Definition link_until (n : nat) (ops : list link_op) : M (link CA CB) (option unit) :=
  mfor_until ops (fun o =>
    run_link o ;;
    l ← get_link;
    mret (if (got_b l =? n)%nat then Some tt else None)).

(** The transmitter is handed the SDU and the network runs until its last frame
    has arrived. *)
Definition link_send (c : uds_ctx) (data : list Z) (len : Z) (n : nat) (ops : list link_op)
    : M (link CA CB) (option unit) :=
  on_a (call (uds_isotp_send c data len)) ;; link_until n ops.
End Network.

(** The rules of the two halves. *)
Section HalfRules.
Context {CA CB : Type}.
Implicit Types (l : link CA CB).

Lemma wp_on_a {A} (m : M _ A) (Q : A -> link CA CB -> Prop) l :
  wp m (fun x a => Q x (mkLink a (lk_b l) (got_a l) (got_b l))) (lk_a l) -> wp (on_a m) Q l.
Proof. intros H. unfold on_a. apply wp_zoom, H. Qed.

Lemma wp_on_b {A} (m : M _ A) (Q : A -> link CA CB -> Prop) l :
  wp m (fun x b => Q x (mkLink (lk_a l) b (got_a l) (got_b l))) (lk_b l) -> wp (on_b m) Q l.
Proof. intros H. unfold on_b. apply wp_zoom, H. Qed.
End HalfRules.

(** ** The receiving node *)

Section Receiver.
Context {C : Type} (can_ok : C -> Prop) (tb : N) (cfg : uds_config (iso_env C)).
#[local] Abbreviation env_ok := (iso_ok can_ok (rx_buffer_size cfg)).
Context `{Hok : !ConfigOk env_ok tb cfg} `{Hus : !UsersOk env_ok tb cfg}.
Context (client_call : N -> Z -> list Z -> Z -> M (uds_state (iso_env C)) unit).
Context `{Hclient : !ClientOk env_ok tb cfg client_call}.
Context (rb : N) (Hrb : rx_buffer cfg = Some rb).
Context (s0 : uds_state (iso_env C)) (Hinv : uds_inv env_ok tb cfg s0).
Context (fd : bool) (sdu : list Z) (Hbytes : Forall is_byte sdu).
Context (Hlong : (max_sf fd < length sdu)%nat) (H12 : Z.of_nat (length sdu) < 4096).
Context (Hfit : Z.of_nat (length sdu) <= rx_buffer_size cfg).

(** The flow control that answers the first frame. *)
Definition announce (s : uds_state (iso_env C)) : Z * list Z :=
  let i := g_isotp_ctx (env s) in (tx_id i, [0x30; block_size i; st_min i; 0; 0; 0; 0; 0]).

(** The receiver's state while [bp] bytes have arrived. *)
Definition rx_state (bp sn : Z) (l : list Z) (cn : C) : uds_state (iso_env C) :=
  let e := env s0 in
  mkState (ctx s0) (<[rb := l]> (mem s0))
    (mkIsoEnv (receiving (Z.of_nat (length sdu)) bp sn (g_isotp_ctx e)) (g_pending_tx_sdu e)
       (g_pending_tx_len e) cn (frames e ++ [announce s0])) (trace s0).

(** [k] frames have arrived, and not the last. *)
Inductive rx_progress : nat -> uds_state (iso_env C) -> Prop :=
| rp_start : rx_progress 0 s0
| rp_going k (bp : nat) sn l cn :
    can_ok cn -> Z.of_nat (length l) = rx_buffer_size cfg -> Forall is_byte l ->
    take bp l = take bp sdu -> (bp < length sdu)%nat -> 0 <= sn < 16 ->
    drop (S k) (segment fd sdu) = cf_frames (length (drop bp sdu)) fd sn (drop bp sdu) ->
    rx_progress (S k) (rx_state (Z.of_nat bp) sn l cn).

(** The core has been handed the SDU, once, from where it stood. *)
Definition sdu_delivered (s' : uds_state (iso_env C)) : Prop :=
  exists buf s1, take (length sdu) buf = sdu /\ ctx s1 = ctx s0 /\ trace s1 = trace s0 /\
    iso_state (g_isotp_ctx (env s1)) = ISOTP_IDLE /\
    uds_input_sdu client_call (Some cfg) (Some buf) (Z.of_nat (length sdu)) s1 = Ok (tt, s').

Lemma rx_progress_quiet k s :
  rx_progress k s -> ctx s = ctx s0 /\ trace s = trace s0 /\
    frames (env s) = frames (env s0) ++ (if (k =? 0)%nat then [] else [announce s0]).
Proof. intros []; cbn; [by rewrite app_nil_r|done]. Qed.

Lemma segment_long : segment fd sdu = ff_frame fd sdu :: cf_frames (length sdu) fd 1 (drop (ff_data fd) sdu).
Proof. unfold segment. by rewrite (proj2 (Nat.leb_gt _ _)) by done. Qed.

(** A complete SDU in the buffer is handed over. *)
Lemma wp_hand_over l cn i :
  take (length sdu) l = sdu -> Z.of_nat (length l) = rx_buffer_size cfg -> Forall is_byte l ->
  can_ok cn -> 0 <= iso_sn i < 16 -> same_bus i (g_isotp_ctx (env s0)) ->
  wp (uds_input_sdu client_call (Some cfg) (Some l) (Z.of_nat (length sdu))) (fun _ => sdu_delivered)
    (mkState (ctx s0) (<[rb := l]> (mem s0)) (mkIsoEnv (set_iso_state ISOTP_IDLE i)
       (g_pending_tx_sdu (env s0)) (g_pending_tx_len (env s0)) cn (frames (env s0) ++ [announce s0])) (trace s0)).
Proof.
  intros Htk Hl Hb Hcn Hsn Hcs. set (s1 := mkState _ _ _ _). destruct Hinv as [Hc Hm [[f [Hf Hd]] Hcan Hp _]].
  assert (Hi1 : uds_inv env_ok tb cfg s1).
  { split; [done|by apply (mem_ok_rx_block _ _ rb)|].
    split; cbn; [apply (same_bus_driver _ _ _ _ Hcs); by exists f|done|done|].
    by apply iso_ctx_idle. }
  assert (Hln : 1 <= Z.of_nat (length sdu) <= Z.of_nat (length l)) by (destruct fd; cbn in *; lia).
  pose proof (input_ok env_ok tb cfg client_call l (Z.of_nat (length sdu)) s1 Hi1 Hb Hln ltac:(lia)) as H.
  apply wp_iff in H as ([] & s' & Hrun & _). apply (run_wp _ _ _ _ _ Hrun). by exists l, s1.
Qed.

(** The consecutive frames from [bp] on: the next one, the ones after it, and
    whether it is the last. *)
Lemma segment_next k bp sn d :
  (bp < length sdu)%nat -> segment fd sdu !! S k = Some d ->
  drop (S k) (segment fd sdu) = cf_frames (length (drop bp sdu)) fd sn (drop bp sdu) ->
  let rest := drop bp sdu in
  d = cf_frame fd sn (take (cf_data fd) rest) /\
  drop (S (S k)) (segment fd sdu) =
    cf_frames (length (drop (cf_data fd) rest)) fd ((sn + 1) mod 16) (drop (cf_data fd) rest) /\
  (S (S k) =? length (segment fd sdu))%nat = (length rest <=? cf_data fd)%nat.
Proof.
  intros Hbp Hd Hfs rest. assert (Hrest : length rest = (length sdu - bp)%nat) by apply length_drop.
  fold rest in Hfs. rewrite cf_frames_step in Hfs by (intros H; rewrite H in Hrest; cbn in Hrest; lia).
  assert (Hnext : drop (S (S k)) (segment fd sdu) =
    cf_frames (length (drop (cf_data fd) rest)) fd ((sn + 1) mod 16) (drop (cf_data fd) rest)).
  { replace (S (S k)) with (S k + 1)%nat by lia. rewrite <- drop_drop, Hfs. done. }
  split; [|split; [done|]].
  - apply (f_equal (fun x => x !! 0%nat)) in Hfs. rewrite lookup_drop, Nat.add_0_r, Hd in Hfs. by injection Hfs.
  - apply (f_equal length) in Hnext. rewrite length_drop in Hnext. apply lookup_lt_Some in Hd.
    destruct (Nat.leb_spec (length rest) (cf_data fd)).
    + rewrite (drop_ge rest) in Hnext by lia. cbn in Hnext. apply Nat.eqb_eq. lia.
    + rewrite cf_frames_step in Hnext; [cbn in Hnext; apply Nat.eqb_neq; lia|].
      intros H0. apply (f_equal length) in H0. rewrite length_drop in H0. cbn in H0. lia.
Qed.

Lemma segment_frames : (1 < length (segment fd sdu))%nat.
Proof.
  rewrite segment_long. assert (Hffd : (0 < ff_data fd <= max_sf fd)%nat) by (destruct fd; cbn; lia).
  pose proof (length_drop sdu (ff_data fd)) as Hl.
  rewrite (cf_frames_fuel _ (length (drop (ff_data fd) sdu))), cf_frames_step by
    (lia || intros H; rewrite H in Hl; cbn in Hl; lia).
  cbn [length]. lia.
Qed.

(** The first frame opens the reception. *)
Lemma wp_first_frame :
  wp (uds_isotp_rx_callback client_call (Some cfg) (rx_id (g_isotp_ctx (env s0))) (ff_frame fd sdu)
        (Z.of_nat (length (ff_frame fd sdu)))) (fun _ s' => rx_progress 1 s') s0.
Proof.
  destruct Hinv as [_ Hm [[f [Hf Hdr]] Hcan _ _]].
  destruct (mem_rx _ _ _ Hm rb Hrb) as (_ & _ & l0 & Hl0 & Hln0 & Hlb0).
  assert (Hffd : (0 < ff_data fd <= max_sf fd)%nat) by (destruct fd; cbn; lia).
  destruct s0 as [c m [i p pl cn fr] tr] eqn:Es. cbn [env ctx mem trace g_isotp_ctx can] in *.
  eapply (wp_ff_frame can_ok _ cfg client_call rb Hrb f fd sdu l0); try done. intros cn' Hcn'.
  assert (Hlt : length (take (ff_data fd) sdu) = ff_data fd) by (rewrite length_take; lia).
  replace (mkState c _ _ tr) with (rx_state (Z.of_nat (ff_data fd)) 1 (write_at 0 (take (ff_data fd) sdu) l0) cn')
    by (unfold rx_state; by rewrite Es).
  apply rp_going; try done; [rewrite length_write_at; lia| | |lia|].
  - apply write_at_bytes; [by apply Forall_take|done].
  - rewrite <- Hlt at 1. change (length (take (ff_data fd) sdu)) with (0 + length (take (ff_data fd) sdu))%nat.
    rewrite take_write_at by lia. done.
  - rewrite segment_long. cbn [drop]. apply cf_frames_fuel; rewrite ?length_drop; lia.
Qed.

(** A consecutive frame extends it or hands the SDU over. *)
Lemma wp_next_frame k d s :
  rx_progress k s -> segment fd sdu !! k = Some d ->
  wp (uds_isotp_rx_callback client_call (Some cfg) (rx_id (g_isotp_ctx (env s0))) d (Z.of_nat (length d)))
    (fun _ s' => if (S k =? length (segment fd sdu))%nat then sdu_delivered s'
                 else (S k < length (segment fd sdu))%nat /\ rx_progress (S k) s') s.
Proof.
  intros Hk Hd. pose proof (cf_data_pos fd) as Hcf. pose proof segment_frames as Hfs1.
  destruct Hk as [|k bp sn l cn Hcn Hln Hlb Htk Hbp Hsn Hfs].
  { rewrite (proj2 (Nat.eqb_neq _ _)) by lia. rewrite segment_long in Hd. injection Hd as <-.
    eapply wp_mono; [apply wp_first_frame|]. done. }
  destruct (segment_next k bp sn d Hbp Hd Hfs) as (Hd' & Hnext & Hlast).
  pose proof (lookup_lt_Some _ _ _ Hd) as Hklt. set (rest := drop bp sdu) in *.
  set (chunk := take (cf_data fd) rest) in *. assert (Hrest : length rest = (length sdu - bp)%nat) by apply length_drop.
  assert (Hch : length chunk = Nat.min (cf_data fd) (length rest)) by apply length_take.
  rewrite Hlast, Hd'. unfold rx_state. cbv zeta.
  eapply (wp_cf_frame cfg client_call rb Hrb fd sn sdu l bp); try done; [apply lookup_insert_eq|].
  fold rest chunk. rewrite insert_insert_eq. set (l' := write_at bp chunk l).
  assert (Hl' : Z.of_nat (length l') = rx_buffer_size cfg) by (subst l'; rewrite length_write_at; lia).
  assert (Hb' : Forall is_byte l') by (by apply write_at_bytes; [apply Forall_take, Forall_drop|]).
  assert (Htk' : take (bp + length chunk) l' = take (bp + length chunk) sdu).
  { subst l'. rewrite take_write_at, Htk, <- take_take_drop by lia. f_equal. fold rest. rewrite Hch. subst chunk.
    destruct (decide (cf_data fd <= length rest)%nat); [by rewrite Nat.min_l|].
    by rewrite Nat.min_r, !take_ge by lia. }
  destruct (Nat.leb_spec (length rest) (cf_data fd)) as [Hle|Hgt].
  - apply wp_hand_over; try done; [|unfold receiving; iso_cbn; zlia].
    replace (length sdu) with (bp + length chunk)%nat by lia. rewrite Htk'. apply take_ge. lia.
  - split; [apply Nat.eqb_neq in Hlast; lia|].
    apply (rp_going (S k) (bp + length chunk)); try done; [lia|zlia|].
    rewrite Hnext. subst rest. rewrite drop_drop. by replace (bp + cf_data fd)%nat with (bp + length chunk)%nat by lia.
Qed.
End Receiver.

(** ** The network in progress *)

Section Peers.
Context {CA CB : Type} (can_okA : CA -> Prop) (can_okB : CB -> Prop) (tb : N).
Context (cfgA : uds_config (iso_env CA)) (cfgB : uds_config (iso_env CB)).
#[local] Abbreviation env_okB := (iso_ok can_okB (rx_buffer_size cfgB)).
Context `{Hok : !ConfigOk env_okB tb cfgB} `{Hus : !UsersOk env_okB tb cfgB}.
Context (clientA : N -> Z -> list Z -> Z -> M (uds_state (iso_env CA)) unit).
Context (clientB : N -> Z -> list Z -> Z -> M (uds_state (iso_env CB)) unit).
Context `{Hclient : !ClientOk env_okB tb cfgB clientB}.
Context (rb : N) (Hrb : rx_buffer cfgB = Some rb).

(** Both nodes ready, their identifiers crossed, nothing in flight. *)
Record link_ready (l : link CA CB) : Prop := {
  lr_a : tx_ready can_okA (env (lk_a l));
  lr_b : uds_inv env_okB tb cfgB (lk_b l);
  lr_to_b : tx_id (g_isotp_ctx (env (lk_a l))) = rx_id (g_isotp_ctx (env (lk_b l)));
  lr_to_a : tx_id (g_isotp_ctx (env (lk_b l))) = rx_id (g_isotp_ctx (env (lk_a l)));
  lr_got_b : got_b l = length (frames (env (lk_a l)));
  lr_got_a : got_a l = length (frames (env (lk_b l)))
}.

Context (l0 : link CA CB) (Hready : link_ready l0).
#[local] Abbreviation iA := (g_isotp_ctx (env (lk_a l0))).
#[local] Abbreviation iB := (g_isotp_ctx (env (lk_b l0))).
#[local] Abbreviation fd := (fd_on iA).
Context (sdu : list Z) (Hbytes : Forall is_byte sdu) (Hlong : (max_sf fd < length sdu)%nat).
Context (H12 : Z.of_nat (length sdu) < 4096) (Hfit : Z.of_nat (length sdu) <= rx_buffer_size cfgB).
#[local] Abbreviation fs := (segment fd sdu).
#[local] Abbreviation base_b := (length (frames (env (lk_a l0)))).
#[local] Abbreviation base_a := (length (frames (env (lk_b l0)))).
#[local] Abbreviation progress := (rx_progress can_okB cfgB rb (lk_b l0) fd sdu).
#[local] Abbreviation delivered := (sdu_delivered cfgB clientB (lk_b l0) sdu).

(** [k] frames have arrived, not the last; the transmitter has put a prefix of
    the segmentation on the bus and the receiver at most its flow control. *)
Record link_inv (k : nat) (l : link CA CB) : Prop := {
  li_k : (k < length fs)%nat;
  li_a : tx_inv can_okA (fun r => r = 0) (tx_id iA) fd sdu (frames (env (lk_a l0))) (env (lk_a l));
  li_b : progress k (lk_b l);
  li_got_b : got_b l = (base_b + k)%nat;
  li_got_a : got_a l = base_a \/ got_a l = S base_a /\ k <> 0%nat
}.

Lemma wp_deliver_b k l :
  link_inv k l ->
  wp (deliver_b cfgB clientB) (fun _ l' => lk_a l' = lk_a l /\ got_a l' = got_a l /\
    (l' = l /\ (length (frames (env (lk_a l))) <= base_b + k)%nat \/
     (base_b + k < length (frames (env (lk_a l))))%nat /\ got_b l' = S (got_b l) /\
     if (S k =? length fs)%nat then delivered (lk_b l') else link_inv (S k) l')) l.
Proof.
  intros [Hk Ha Hb Hgb Hga]. destruct Hready as [_ Hinv Hid _ _ _]. unfold deliver_b.
  apply wp_bind. unfold wp at 1, get_link. rewrite Hgb.
  destruct (frames (env (lk_a l)) !! (base_b + k)%nat) as [[id d]|] eqn:Hfr.
  2: { apply wp_ret. split; [done|]. split; [done|]. left. split; [done|]. by apply lookup_ge_None in Hfr. }
  pose proof (lookup_lt_Some _ _ _ Hfr) as Hlt.
  destruct (ti_frames _ _ _ _ _ _ _ Ha) as (sent & Hsent & Hseg). rewrite Hsent in Hfr.
  rewrite lookup_app_r in Hfr by lia. replace (base_b + k - base_b)%nat with k in Hfr by lia.
  apply list_lookup_fmap_Some in Hfr as (d' & [= -> ->] & Hd).
  assert (Hd' : fs !! k = Some d') by (rewrite Hseg; by apply lookup_app_l_Some).
  apply wp_bind, wp_on_b. rewrite Hid.
  eapply wp_mono; [by apply (wp_next_frame can_okB tb cfgB clientB rb Hrb (lk_b l0) Hinv fd sdu
    Hbytes Hlong H12 Hfit k d')|].
  intros u b' Hb'. cbv beta in Hb'. clear u. unfold wp, count_b. cbn [lk_a lk_b got_a got_b].
  split; [done|]. split; [done|]. right. split; [done|]. split; [lia|]. destruct (S k =? length fs)%nat; [done|]. destruct Hb' as [Hk' Hb'].
  split; cbn [lk_a lk_b got_a got_b]; try done; [lia|]. destruct Hga as [?|[? _]]; [by left|by right].
Qed.

(** A flow-control frame from the bus. *)
Lemma wp_fc_frame id bs st (Q : unit -> uds_state (iso_env CA) -> Prop) s :
  (let i := g_isotp_ctx (env s) in
   Q tt (if bool_decide (iso_state i = ISOTP_TX_WAIT_FC) && (id =? rx_id i)
         then set_env (set_iso (fun i => set_st_min st (set_block_size bs
                (set_iso_state ISOTP_TX_SENDING_CF i))) (env s)) s else s)) ->
  wp (uds_isotp_rx_callback clientA (Some cfgA) id [0x30; bs; st; 0; 0; 0; 0; 0] 8) Q s.
Proof.
  intros HQ. destruct s as [c m [i p pl cn fr] tr]. cbn [env g_isotp_ctx] in HQ. cbv zeta in HQ.
  destruct (Z.eqb_spec id (rx_id i)) as [->|Hne].
  - eapply wp_dispatch; [reflexivity|]. cbv zeta. change (Z.land 0x30 240) with 0x30. cbn [Z.eqb].
    apply (wp_fc [0x30; bs; st; 0; 0; 0; 0; 0]); [cbn; lia|]. cbn [env g_isotp_ctx nth].
    rewrite andb_true_r in HQ. change (Z.land 0x30 15 =? ISOTP_FC_CTS) with true. rewrite andb_true_r.
    by case_bool_decide.
  - rewrite andb_false_r in HQ. unfold uds_isotp_rx_callback. apply wp_bind, wp_call_get.
    rewrite (proj2 (Z.eqb_neq _ _)) by done. by apply wp_ret.
Qed.

Lemma wp_deliver_a k l :
  link_inv k l ->
  wp (deliver_a cfgA clientA) (fun _ l' => link_inv k l' /\
    (l' = l /\ (got_a l = S base_a \/ k = 0%nat) \/ got_a l = base_a /\ k <> 0%nat /\ got_a l' = S base_a /\
       frames (env (lk_a l')) = frames (env (lk_a l)) /\
       g_pending_tx_sdu (env (lk_a l')) = g_pending_tx_sdu (env (lk_a l)) /\
       g_isotp_ctx (env (lk_a l')) =
         let i := g_isotp_ctx (env (lk_a l)) in
         if bool_decide (iso_state i = ISOTP_TX_WAIT_FC) && (tx_id iB =? rx_id i)
         then set_st_min (st_min iB) (set_block_size (block_size iB) (set_iso_state ISOTP_TX_SENDING_CF i))
         else i)) l.
Proof.
  intros Hi. pose proof Hi as [Hk Ha Hb Hgb Hga]. unfold deliver_a. apply wp_bind. unfold wp at 1, get_link.
  destruct (rx_progress_quiet _ _ _ _ _ _ _ _ Hb) as (_ & _ & Hfb). rewrite Hfb.
  destruct Hga as [Hga|[Hga Hk0]]; rewrite Hga.
  2: { rewrite (lookup_ge_None_2 _ (S base_a)); [apply wp_ret; split; [done|left; auto]|].
       rewrite length_app. destruct (k =? 0)%nat; cbn; lia. }
  rewrite lookup_app_r by lia. rewrite Nat.sub_diag.
  destruct (Nat.eqb_spec k 0) as [H0|H0]; cbn [lookup list_lookup]; [apply wp_ret; split; [done|left; auto]|].
  unfold announce. apply wp_bind, wp_on_a. apply wp_fc_frame. cbv zeta. unfold wp, count_a.
  cbn [lk_a lk_b got_a got_b]. destruct l as [[c m e tr] b ga gb]; cbn [lk_a lk_b got_a got_b env] in *.
  set (test := _ && _). assert (Ht : test = true -> iso_state (g_isotp_ctx e) = ISOTP_TX_WAIT_FC).
  { subst test. case_bool_decide; done. }
  split; [|right; split; [done|]; split; [done|]; split; [by rewrite Hga|];
    destruct test; by cbn].
  split; cbn [lk_a lk_b got_a got_b]; try done; [|right; by rewrite Hga].
  destruct test; [|done]. by apply fc_inv, Ht.
Qed.

(** A tick of the transmitter. *)
Lemma wp_tick_link k t l :
  link_inv k l ->
  wp (run_link cfgA cfgB clientA clientB (LTick t)) (fun _ l' => link_inv k l' /\
    got_a l' = got_a l /\ got_b l' = got_b l /\
    let i := g_isotp_ctx (env (lk_a l)) in
    let e' := env (lk_a l') in
    let rest := to_send i (g_pending_tx_sdu (env (lk_a l))) in
    match tick_decide i t with
    | TickNothing => e' = env (lk_a l)
    | TickFinish => g_isotp_ctx e' = set_iso_state ISOTP_IDLE i /\ frames e' = frames (env (lk_a l))
    | TickBlock => g_isotp_ctx e' = set_bs_counter 0 (set_iso_state ISOTP_TX_WAIT_FC i) /\
        frames e' = frames (env (lk_a l))
    | TickSend => g_isotp_ctx e' = cf_advance (Z.of_nat (length (take (cf_data fd) rest))) t i /\
        length (frames e') = S (length (frames (env (lk_a l))))
    end) l.
Proof.
  intros [Hk Ha Hb Hgb Hga]. cbn [run_link]. apply wp_on_a, wp_call.
  eapply wp_mono; [by apply (tick_inv can_okA (fun r => r = 0) (tx_id iA) fd sdu)|].
  intros ? e' (Ha' & _ & Hd). destruct l as [[c m e tr] b ga gb]. cbn [lk_a lk_b got_a got_b env set_env] in *.
  done.
Qed.

(** The transmission starts. *)
Lemma wp_link_start c :
  Z.of_nat (length sdu) <= 1024 ->
  wp (on_a (call (uds_isotp_send c sdu (Z.of_nat (length sdu))))) (fun _ l => link_inv 0 l /\
    got_a l = base_a /\ g_isotp_ctx (env (lk_a l)) = ff_sent (Z.of_nat (length sdu)) iA /\
    length (frames (env (lk_a l))) = S base_b) l0.
Proof.
  intros Hmax. destruct Hready as [Ha Hb _ _ Hgb Hga]. apply wp_on_a.
  eapply wp_mono; [apply (wp_start can_okA); [done|lia|done]|].
  intros r a (_ & _ & _ & Hfl & Hctx & Hi). cbn [lk_a lk_b got_a got_b]. split; [|done].
  rewrite Nat2Z.id, firstn_all in Hi.
  pose proof (segment_frames fd sdu Hlong).
  split; cbn [lk_a lk_b got_a got_b]; [lia|done|apply rp_start|lia|by left].
Qed.

(** Running the network, a step at a time and by an invariant of the steps still
    to take. *)
Lemma wp_until_step n (Q : option unit -> link CA CB -> Prop) o ops l :
  wp (run_link cfgA cfgB clientA clientB o) (fun _ l' => if (got_b l' =? n)%nat then Q (Some tt) l'
    else wp (link_until cfgA cfgB clientA clientB n ops) Q l') l ->
  wp (link_until cfgA cfgB clientA clientB n (o :: ops)) Q l.
Proof.
  intros H. unfold link_until. cbn [mfor_until]. apply wp_bind, wp_bind. eapply wp_mono; [exact H|].
  intros ? l' H'. cbv beta in H'. apply wp_bind. unfold wp at 1, get_link. apply wp_ret.
  destruct (_ =? _)%nat; [by apply wp_ret|exact H'].
Qed.

Lemma wp_until n (I : list link_op -> link CA CB -> Prop) (Q : option unit -> link CA CB -> Prop) ops l :
  I ops l ->
  (forall o ops' l, I (o :: ops') l -> wp (run_link cfgA cfgB clientA clientB o)
     (fun _ l' => if (got_b l' =? n)%nat then Q (Some tt) l' else I ops' l') l) ->
  (forall l, I [] l -> Q None l) ->
  wp (link_until cfgA cfgB clientA clientB n ops) Q l.
Proof.
  intros HI Hstep HQ. revert l HI. induction ops as [|o ops IH]; intros l HI; [by apply wp_ret, HQ|].
  apply wp_until_step. eapply wp_mono; [by apply Hstep|]. intros ? l' H'. cbv beta in H'.
  destruct (_ =? _)%nat; [done|by apply IH].
Qed.

(** Any step: the network stays in progress or the SDU has arrived. *)
Lemma wp_any_step k o l :
  link_inv k l -> wp (run_link cfgA cfgB clientA clientB o) (fun _ l' =>
    if (got_b l' =? base_b + length fs)%nat then delivered (lk_b l') else exists k', link_inv k' l') l.
Proof.
  assert (Hin : forall k' l', link_inv k' l' ->
    if (got_b l' =? base_b + length fs)%nat then delivered (lk_b l') else exists k', link_inv k' l').
  { intros k' l' Hi. pose proof (li_k _ _ Hi). pose proof (li_got_b _ _ Hi).
    rewrite (proj2 (Nat.eqb_neq _ _)) by lia. by exists k'. }
  intros Hk. destruct o as [t| |]; cbn [run_link].
  - eapply wp_mono; [by apply (wp_tick_link k t)|]. intros ? l' [H _]. by apply (Hin k).
  - eapply wp_mono; [by apply wp_deliver_b|].
    intros ? l' (_ & _ & [[-> _]|(_ & Hg & H)]); [by apply (Hin k)|]. pose proof (li_got_b _ _ Hk).
    destruct (Nat.eqb_spec (S k) (length fs)); [|by apply (Hin (S k))]. by rewrite (proj2 (Nat.eqb_eq _ _)) by lia.
  - eapply wp_mono; [by apply wp_deliver_a|]. intros ? l' [H _]. by apply (Hin k).
Qed.

(** C15: Two nodes joined by FIFO channels, one sending an SDU of several frames (up to
    1024 bytes, fitting the peer's receive buffer, with drivers that accept every
    frame): under any interleaving of ticks and frame deliveries in both directions
    nothing faults, the receiving core hears nothing (context and trace unchanged) until
    the last frame has arrived, and at that moment it has been handed exactly the SDU,
    once, from the state it was in. *)
Theorem link_exact c ops :
  Z.of_nat (length sdu) <= 1024 ->
  wp (link_send cfgA cfgB clientA clientB c sdu (Z.of_nat (length sdu)) (base_b + length fs) ops)
    (fun r l => match r with
      | None => (got_b l < base_b + length fs)%nat /\
          ctx (lk_b l) = ctx (lk_b l0) /\ trace (lk_b l) = trace (lk_b l0)
      | Some _ => delivered (lk_b l)
      end) l0.
Proof.
  intros Hmax. apply wp_bind. eapply wp_mono; [by apply wp_link_start|]. intros r l (Hi & _).
  apply (wp_until _ (fun _ l => exists k, link_inv k l)); [by exists 0%nat| |].
  - intros o ops' l1 [k Hk]. by eapply wp_any_step.
  - intros l1 [k [Hk _ Hb Hg _]]. destruct (rx_progress_quiet _ _ _ _ _ _ _ _ Hb) as (? & ? & _).
    split; [lia|done].
Qed.

(** *** The block size *)

(** What paces the transmitter when the receiver announces blocks of [bs]:
    before the one flow control it waits; after it, its counter is that of the
    frames it has sent. *)
Record paced (bs : Z) (l : link CA CB) : Prop := {
  pc_count : Z.of_nat (length (frames (env (lk_a l)))) <= Z.of_nat base_b + 1 + bs;
  pc_rx_id : rx_id (g_isotp_ctx (env (lk_a l))) = rx_id iA;
  pc_waiting : got_a l = base_a ->
    iso_state (g_isotp_ctx (env (lk_a l))) = ISOTP_TX_WAIT_FC /\
    bs_counter (g_isotp_ctx (env (lk_a l))) = 0 /\ length (frames (env (lk_a l))) = S base_b;
  pc_sending : iso_state (g_isotp_ctx (env (lk_a l))) = ISOTP_TX_SENDING_CF ->
    block_size (g_isotp_ctx (env (lk_a l))) = bs /\ 0 <= bs_counter (g_isotp_ctx (env (lk_a l))) <= bs /\
    Z.of_nat (length (frames (env (lk_a l)))) = Z.of_nat base_b + 1 + bs_counter (g_isotp_ctx (env (lk_a l)))
}.

Lemma paced_tick bs t l l' :
  0 < bs < 256 -> paced bs l -> got_a l' = got_a l ->
  (let i := g_isotp_ctx (env (lk_a l)) in
   let e' := env (lk_a l') in
   match tick_decide i t with
   | TickNothing => e' = env (lk_a l)
   | TickFinish => g_isotp_ctx e' = set_iso_state ISOTP_IDLE i /\ frames e' = frames (env (lk_a l))
   | TickBlock => g_isotp_ctx e' = set_bs_counter 0 (set_iso_state ISOTP_TX_WAIT_FC i) /\
       frames e' = frames (env (lk_a l))
   | TickSend => exists n, g_isotp_ctx e' = cf_advance n t i /\
       length (frames e') = S (length (frames (env (lk_a l))))
   end) -> paced bs l'.
Proof.
  intros Hbs [Hc Hid Hw Hs] Hga H. cbv zeta in H. revert H. unfold tick_decide.
  destruct (decide _) as [Hst|Hst]; [|intros He; split; rewrite He, ?Hga; done].
  destruct (Hs Hst) as (Hb & Hk & Hn).
  assert (Hnw : got_a l <> base_a) by (intros H0; destruct (Hw H0); congruence).
  destruct (_ =? _); [intros [Hi' Hf]; split; rewrite ?Hi', ?Hf, ?Hga; iso_cbn; try done; congruence|].
  destruct (u32 _ <? _); [intros He; split; rewrite He, ?Hga; done|].
  rewrite Hb. destruct (Z.ltb_spec 0 bs); [|lia]. cbn [andb].
  destruct (Z.leb_spec bs (bs_counter (g_isotp_ctx (env (lk_a l))))); [intros [Hi' Hf]; split; rewrite ?Hi', ?Hf, ?Hga; iso_cbn; try done; congruence|].
  intros (n & Hi' & Hf). split; rewrite ?Hi', ?Hf, ?Hga; [lia| |congruence|].
  - unfold cf_advance. by case_match.
  - unfold cf_advance. case_match; iso_cbn; [done|]. rewrite u8_small by lia. lia.
Qed.


Lemma paced_deliver_a bs k l :
  0 < bs < 256 -> block_size iB = bs -> link_inv k l -> paced bs l ->
  wp (deliver_a cfgA clientA) (fun _ l' => link_inv k l' /\ paced bs l') l.
Proof.
  intros Hbs Hb Hk Hp. eapply wp_mono; [by apply wp_deliver_a|].
  intros ? l' (Hk' & [[-> _]|(Hga & _ & Hga' & Hf & _ & Hi)]); [done|]. split; [done|]. cbv zeta in Hi.
  destruct Hp as [Hc Hid Hw _]. destruct (Hw Hga) as (Hst & Hcnt & Hlen).
  rewrite bool_decide_eq_true_2 in Hi by done. destruct Hready as [_ _ _ Hta _ _].
  rewrite Hid, Hta, Z.eqb_refl in Hi. cbn [andb] in Hi.
  split; rewrite ?Hi, ?Hf, ?Hga'; iso_cbn; [lia|done|lia|]. intros _. rewrite Hcnt, Hb. lia.
Qed.

(** C18: When the receiver announces a block size smaller than the number of consecutive
    frames, as it does by default, an SDU of up to 1024 bytes that fits the receive
    buffer, sent by this same transport with its count of the block at 0 and drivers
    that accept every frame, never arrives: under every interleaving of ticks and
    deliveries at most one block follows the first frame, because the receiver sends no
    second flow control. *)
Theorem link_block_stall c ops :
  Z.of_nat (length sdu) <= 1024 -> 0 < block_size iB < 256 -> bs_counter iA = 0 ->
  1 + block_size iB < Z.of_nat (length fs) ->
  wp (link_send cfgA cfgB clientA clientB c sdu (Z.of_nat (length sdu)) (base_b + length fs) ops)
    (fun r l => r = None /\ Z.of_nat (got_b l) <= Z.of_nat base_b + 1 + block_size iB /\
       ctx (lk_b l) = ctx (lk_b l0) /\ trace (lk_b l) = trace (lk_b l0)) l0.
Proof.
  intros Hmax Hbs Hcnt Hlong_fs. set (bs := block_size iB) in *. apply wp_bind.
  eapply wp_mono; [by apply wp_link_start|]. intros r l (Hi & Hga & Hctx & Hlen).
  assert (Hp0 : paced bs l).
  { split; rewrite ?Hctx; unfold ff_sent; iso_cbn; [lia|done|by rewrite Hcnt|done]. }
  apply (wp_until _ (fun _ l => exists k, link_inv k l /\ paced bs l /\ Z.of_nat k <= 1 + bs)); [exists 0%nat; split_and!; [done|done|lia]| |].
  - intros o ops' l1 (k & Hk & Hp & Hkb). pose proof (li_got_b _ _ Hk) as Hgb.
    apply (wp_mono _ (fun _ l' => exists k, link_inv k l' /\ paced bs l' /\ Z.of_nat k <= 1 + bs)).
    2: { intros ? l' (k' & Hk' & ?). pose proof (li_got_b _ _ Hk'). pose proof (li_k _ _ Hk').
         rewrite (proj2 (Nat.eqb_neq _ _)) by lia. by exists k'. }
    destruct o as [t| |]; cbn [run_link].
    + eapply wp_mono; [by apply (wp_tick_link k t)|]. intros ? l' (Hk' & Hga' & _ & H). exists k.
      split; [done|]. split; [|done]. eapply (paced_tick bs t); [done|exact Hp|done|]. revert H. cbv zeta.
      destruct (tick_decide _ t); try done. intros [? ?]. eauto.
    + eapply wp_mono; [by apply wp_deliver_b|]. intros ? l' (Ha & Hga' & [[-> _]|(Hlt & Hg & H)]); [by exists k|].
      pose proof (pc_count _ _ Hp). rewrite (proj2 (Nat.eqb_neq _ _)) in H by lia. exists (S k). split; [done|].
      split; [|lia]. destruct Hp as [H1 H2 H3 H4]. split; rewrite ?Ha, ?Hga'; done.
    + eapply wp_mono; [by apply (paced_deliver_a bs)|]. intros ? l' [? ?]. by exists k.
  - intros l1 (k & [Hk _ Hb Hg _] & _ & Hkb). destruct (rx_progress_quiet _ _ _ _ _ _ _ _ Hb) as (? & ? & _).
    split; [done|]. split; [lia|done].
Qed.

(** *** Without a block limit *)

(** A transmitter that is free to send and has not sent everything sends the
    next frame. *)
Lemma tick_sends k t l :
  link_inv k l -> length (frames (env (lk_a l))) = (base_b + k)%nat ->
  iso_state (g_isotp_ctx (env (lk_a l))) = ISOTP_TX_SENDING_CF ->
  block_size (g_isotp_ctx (env (lk_a l))) = 0 -> st_min (g_isotp_ctx (env (lk_a l))) = 0 ->
  tick_decide (g_isotp_ctx (env (lk_a l))) t = TickSend.
Proof.
  intros [Hk Ha _ _ _] Hn Hs Hb Hst. destruct Ha as [_ _ _ _ Hg _ _ (sent & Hf & Hseg)].
  unfold tick_decide. rewrite decide_True by done. rewrite Hb, Hst.
  change (decode_st_min 0) with 0. rewrite (proj2 (Z.ltb_ge _ 0)) by apply u32_range.
  destruct (Z.eqb_spec (msg_len (g_isotp_ctx (env (lk_a l)))) (bytes_processed (g_isotp_ctx (env (lk_a l))))) as [He|]; [|done].
  exfalso. pose proof (length_to_send _ _ Hg) as Hl. rewrite Hf, length_app, length_map in Hn.
  destruct (to_send _ _); [|cbn in Hl; lia]. cbn [length cf_frames] in Hseg. rewrite app_nil_r in Hseg.
  rewrite Hseg in Hk. lia.
Qed.

(** A transmission whose frames are not all out is not over. *)
Lemma not_idle k l :
  link_inv k l -> length (frames (env (lk_a l))) = (base_b + k)%nat ->
  iso_state (g_isotp_ctx (env (lk_a l))) <> ISOTP_IDLE.
Proof.
  intros [Hk Ha _ _ _] Hn Hs. pose proof (tx_done _ _ _ _ _ _ _ Ha Hs) as Hall.
  rewrite Hall, length_app, length_map in Hn. lia.
Qed.

Lemma cf_advance_unpaced n t (i : uds_isotp_ctx CA) :
  block_size (cf_advance n t i) = block_size i /\ st_min (cf_advance n t i) = st_min i /\
  (iso_state (cf_advance n t i) = iso_state i \/ iso_state (cf_advance n t i) = ISOTP_IDLE).
Proof. unfold cf_advance. case_match; iso_cbn; auto. Qed.

(** One tick and one delivery per frame. *)
Lemma wp_tick_deliver ts : forall k l,
  link_inv k l -> length (frames (env (lk_a l))) = (base_b + k)%nat ->
  iso_state (g_isotp_ctx (env (lk_a l))) = ISOTP_TX_SENDING_CF ->
  block_size (g_isotp_ctx (env (lk_a l))) = 0 -> st_min (g_isotp_ctx (env (lk_a l))) = 0 ->
  (length fs <= k + length ts)%nat ->
  wp (link_until cfgA cfgB clientA clientB (base_b + length fs) (flat_map (fun t => [LTick t; LToB]) ts))
    (fun r l' => r = Some tt /\ delivered (lk_b l')) l.
Proof.
  induction ts as [|t ts IH]; intros k l Hk Hn Hs Hb Hst Hts; [pose proof (li_k _ _ Hk); cbn in Hts; lia|].
  cbn [flat_map app]. apply wp_until_step. eapply wp_mono; [by apply (wp_tick_link k t)|].
  intros ? l1 (Hk1 & _ & Hgb1 & Hd). cbv zeta in Hd. rewrite (tick_sends k t l) in Hd by done.
  destruct Hd as [Hi1 Hf1]. pose proof (li_k _ _ Hk). pose proof (li_got_b _ _ Hk1) as Hg1.
  rewrite (proj2 (Nat.eqb_neq _ _)) by lia.
  apply wp_until_step. eapply wp_mono; [by apply wp_deliver_b|].
  intros ? l2 (Ha2 & _ & [[_ Hle]|(_ & Hg2 & H2)]); [lia|].
  destruct (Nat.eqb_spec (S k) (length fs)) as [Hlast|Hmore].
  - rewrite (proj2 (Nat.eqb_eq _ _)) by lia. done.
  - rewrite (proj2 (Nat.eqb_neq _ _)) by lia.
    assert (Hn2 : length (frames (env (lk_a l2))) = (base_b + S k)%nat) by (rewrite Ha2; lia).
    pose proof (not_idle (S k) l2 H2 Hn2) as Hni. rewrite Ha2, Hi1 in Hni.
    set (n := Z.of_nat _) in Hi1, Hni. destruct (cf_advance_unpaced n t (g_isotp_ctx (env (lk_a l)))) as (Hb2 & Hst2 & Hs2).
    apply (IH (S k)); rewrite ?Ha2, ?Hi1; [done|lia| |congruence|congruence|cbn in Hts; lia].
    destruct Hs2; congruence.
Qed.

(** C19: When the receiver announces no block limit and no separation time, delivering
    the first frame and its flow control and then, per remaining frame, one tick at any
    time and one delivery, always gets the whole SDU (up to 1024 bytes, fitting the
    receive buffer, with drivers that accept every frame) to the receiving core. *)
Theorem link_delivers c ts :
  Z.of_nat (length sdu) <= 1024 -> block_size iB = 0 -> st_min iB = 0 -> (length fs <= S (length ts))%nat ->
  wp (link_send cfgA cfgB clientA clientB c sdu (Z.of_nat (length sdu)) (base_b + length fs)
        (LToB :: LToA :: flat_map (fun t => [LTick t; LToB]) ts))
    (fun r l => r = Some tt /\ delivered (lk_b l)) l0.
Proof.
  intros Hmax Hb Hst Hts. pose proof (segment_frames fd sdu Hlong) as Hfs. apply wp_bind.
  eapply wp_mono; [by apply wp_link_start|]. intros r l (Hi & Hga & Hctx & Hlen).
  apply wp_until_step. eapply wp_mono; [by apply wp_deliver_b|].
  intros ? l1 (Ha1 & Hga1 & [[_ Hle]|(_ & Hg1 & H1)]); [lia|].
  rewrite (proj2 (Nat.eqb_neq 1 (length fs))) in H1 by lia. pose proof (li_got_b _ _ H1).
  rewrite (proj2 (Nat.eqb_neq _ _)) by lia.
  apply wp_until_step. eapply wp_mono; [by apply (wp_deliver_a 1)|].
  intros ? l2 (H2 & Hl2). pose proof (li_got_b _ _ H2). rewrite (proj2 (Nat.eqb_neq _ _)) by lia.
  destruct Hready as [_ _ _ Hta _ _].
  assert (Hsend : length (frames (env (lk_a l2))) = (base_b + 1)%nat /\
    g_isotp_ctx (env (lk_a l2)) = set_st_min 0 (set_block_size 0 (set_iso_state ISOTP_TX_SENDING_CF
      (ff_sent (Z.of_nat (length sdu)) iA)))).
  { destruct Hl2 as [[_ [?|?]]|(_ & _ & _ & Hf & _ & Hi2)]; [lia|done|]. rewrite Hf, Hi2, Ha1, Hctx. split; [lia|]. cbv zeta.
    change (iso_state (ff_sent (Z.of_nat (length sdu)) iA)) with ISOTP_TX_WAIT_FC. rewrite bool_decide_eq_true_2 by done.
    change (rx_id (ff_sent (Z.of_nat (length sdu)) iA)) with (rx_id iA). by rewrite Hta, Z.eqb_refl, Hb, Hst. }
  destruct Hsend as [Hn Hi2]. apply (wp_tick_deliver ts 1); rewrite ?Hi2; (done || lia).
Qed.

End Peers.
