(* ===== verification/HostSim.v ===== *)
(** * The host simulator: [examples/host_sim/main.c]

    A complete application of the library: its callbacks, its DID table, its
    configuration with the ISO-TP transport plugged in, its start-up and one
    iteration of its main loop. [printf] and the socket calls are outside the
    model: the packets handed to [sendto] are recorded in [udp_out], the packet
    [recvfrom] fills in, if any, is an argument of the iteration. [Vcan] has the
    packets' bytes and [main] as a whole. *)

From S2P Require Import Prelude Monad Types Machine CoreBase Contract Core IsoTp IsoTpRx.
From stdpp Require Import base gmap list strings numbers.

Open Scope Z_scope.

(** The simulator's statics and its clock. *)
Record host_env : Type := mkHost {
  tv_sec : Z;
  tv_nsec : Z;
  mock_memory : list Z;
  g_server_fd : Z;
  udp_out : list (Z * list Z * Z)
}.

Definition set_mock_memory (m : list Z) (h : host_env) : host_env :=
  mkHost (tv_sec h) (tv_nsec h) m (g_server_fd h) (udp_out h).

(** A simulator callback, run as a callback of the stack. *)
Definition host_call {A} (m : M host_env A) : M (iso_env host_env) A := zoom can set_can m.

Definition host_get : M host_env host_env := fun h => Ok (h, h).
Definition host_put (h' : host_env) : M host_env unit := fun _ => Ok (tt, h').

(** POSIX variant: [(uint32_t)((ts.tv_sec * 1000) + (ts.tv_nsec / 1000000))]. *)
Definition host_get_time_ms : M host_env Z :=
  h ← host_get; mret (u32 (tv_sec h * 1000 + tv_nsec h / 1000000)).

(** [addr + size] is a 32-bit sum. The access itself is checked against the 1 KB array. *)
Definition host_mem_read (c : uds_ctx) (addr size : Z) : M host_env (Z * list Z) :=
  h ← host_get;
  let n := Z.of_nat (length (mock_memory h)) in
  if u32 (addr + size) >? n then mret (-0x31, [])
  else if (addr + size <=? n)
  then mret (0, take (Z.to_nat size) (drop (Z.to_nat addr) (mock_memory h)))
  else mfault OutOfBounds.

Definition host_mem_write (c : uds_ctx) (addr size : Z) (data : list Z) : M host_env Z :=
  h ← host_get;
  let n := Z.of_nat (length (mock_memory h)) in
  if u32 (addr + size) >? n then mret (-0x31)
  else if (addr + size <=? n) && (size <=? Z.of_nat (length data))
  then
    host_put (set_mock_memory
      (write_at (Z.to_nat addr) (take (Z.to_nat size) data) (mock_memory h)) h) ;;
    mret 0
  else mfault OutOfBounds.

Definition log_event (level : Z) (msg : string) : M host_env unit := mret tt.

(** [vcan_packet_t] holds 64 data bytes. *)
Definition mock_can_send (id : Z) (data : list Z) (len : Z) : M host_env Z :=
  h ← host_get;
  (if negb (g_server_fd h =? -1) then
     if len <=? 64 then
       host_put (mkHost (tv_sec h) (tv_nsec h) (mock_memory h) (g_server_fd h)
                   (udp_out h ++ [(id, take (Z.to_nat len) data, len)]))
     else mfault OutOfBounds
   else mret tt) ;;
  mret 0.

Definition mock_reset (c : uds_ctx) (type : Z) : M host_env unit := mret tt.

Definition mock_dtc_read (c : uds_ctx) (subfn max_len : Z) : M host_env (Z * list Z) :=
  if subfn =? 0x01 then mret (4, [0x01; 0x01; 0x00; 0x02]) else mret (-0x31, []).

Definition mock_dtc_clear (c : uds_ctx) (group : Z) : M host_env Z := mret UDS_OK.

Definition mock_security_seed (c : uds_ctx) (level max_len : Z) : M host_env (Z * list Z) :=
  if max_len <? 4 then mret (-0x22, []) else mret (4, [0xDE; 0xAD; 0xBE; 0xEF]).

Definition mock_security_key (c : uds_ctx) (level : Z) (seed : option (list Z)) (key : list Z)
    (key_len : Z) : M host_env Z := mret UDS_OK.

Definition mock_auth (c : uds_ctx) (subfn : Z) (data : list Z) (len max_len : Z)
    : M host_env (Z * list Z) :=
  if subfn =? 0x01 then mret (0, [])
  else if subfn =? 0x02 then mret (1, [0x01])
  else mret (-0x22, []).

Definition mock_routine_control (c : uds_ctx) (type id : Z) (data : list Z) (len max_len : Z)
    : M host_env (Z * list Z) :=
  if id =? 0xFF00 then mret (1, [0x00]) else mret (-0x31, []).

Definition mock_request_download (c : uds_ctx) (addr size : Z) : M host_env Z := mret UDS_OK.

Definition mock_transfer_data (c : uds_ctx) (sequence : Z) (data : list Z) (len : Z)
    : M host_env Z := mret UDS_OK.

Definition mock_transfer_exit (c : uds_ctx) : M host_env Z := mret UDS_OK.

Definition mock_io_control (c : uds_ctx) (id type : Z) (data : list Z) (len max_len : Z)
    : M host_env (Z * list Z) :=
  if id =? 0x0123 then mret (1, [0x55]) else mret (-0x31, []).

Definition mock_request_upload (c : uds_ctx) (addr size : Z) : M host_env Z := mret UDS_OK.

Definition mock_periodic_read (c : uds_ctx) (periodic_id max_len : Z) : M host_env (Z * list Z) :=
  mret (2, [0xAA; 0xBB]).

(** ** Buffers and tables *)
Definition g_rx_buf : N := 1.
Definition g_tx_buf : N := 2.
Definition g_ecu_vin : N := 3.
Definition g_customer_name : N := 4.

(** "UDSLIB_SIM_001" with its terminator, and "ECU_OWNER" in 16 bytes. *)
Definition vin_bytes : list Z :=
  [0x55; 0x44; 0x53; 0x4C; 0x49; 0x42; 0x5F; 0x53; 0x49; 0x4D; 0x5F; 0x30; 0x30; 0x31; 0x00].
Definition name_bytes : list Z :=
  [0x45; 0x43; 0x55; 0x5F; 0x4F; 0x57; 0x4E; 0x45; 0x52] ++ replicate 7 0.

Definition g_ecu_dids : list (uds_did_entry (iso_env host_env)) := [
  mkDid 0xF190 14 0 0 None None (Some g_ecu_vin);
  mkDid 0x0123 16 0 0 None None (Some g_customer_name)
].

Definition g_ecu_did_table : uds_did_table (iso_env host_env) := mkDidTable g_ecu_dids 2.

(** [cfg] of [main]. *)
Definition host_cfg : uds_config (iso_env host_env) := {|
  ecu_address := 0x10;
  get_time_ms := Some (host_call host_get_time_ms);
  fn_log := Some (fun l m => host_call (log_event l m));
  fn_tp_send := Some uds_isotp_send;
  cfg_p2_ms := 50;
  cfg_p2_star_ms := 2000;
  fn_reset := Some (fun c t => host_call (mock_reset c t));
  fn_comm_control := None;
  fn_security_seed := Some (fun c l m => host_call (mock_security_seed c l m));
  fn_security_key := Some (fun c l s k n => host_call (mock_security_key c l s k n));
  rx_buffer := Some g_rx_buf;
  rx_buffer_size := 1024;
  tx_buffer := Some g_tx_buf;
  tx_buffer_size := 1024;
  strict_compliance := false;
  log_level := 0;
  security_delay_ms := 0;
  security_max_attempts := 0;
  rcrrp_limit := 0;
  transfer_accept_last_block_replay := false;
  did_table := g_ecu_did_table;
  user_services := None;
  user_service_count := 0;
  fn_is_safe := None;
  fn_nvm_save := None;
  fn_nvm_load := None;
  fn_dtc_read := Some (fun c s m => host_call (mock_dtc_read c s m));
  fn_dtc_clear := Some (fun c g => host_call (mock_dtc_clear c g));
  fn_auth := Some (fun c s d l m => host_call (mock_auth c s d l m));
  fn_routine_control := Some (fun c t i d l m => host_call (mock_routine_control c t i d l m));
  fn_request_download := Some (fun c a n => host_call (mock_request_download c a n));
  fn_transfer_data := Some (fun c q d l => host_call (mock_transfer_data c q d l));
  fn_transfer_exit := Some (fun c => host_call (mock_transfer_exit c));
  fn_mem_read := Some (fun c a n => host_call (host_mem_read c a n));
  fn_mem_write := Some (fun c a n d => host_call (host_mem_write c a n d));
  fn_io_control := Some (fun c i t d l m => host_call (mock_io_control c i t d l m));
  fn_request_upload := Some (fun c a n => host_call (mock_request_upload c a n));
  fn_periodic_read := Some (fun c i m => host_call (mock_periodic_read c i m));
  mutex_handle := 0%N;
  fn_mutex_lock := None;
  fn_mutex_unlock := None;
  p2_server_max := 0;
  p2_star_server_max := 0
|}.

(** ** [main] *)

Section Main.
Context (client_call : N -> Z -> list Z -> Z -> M (uds_state (iso_env host_env)) unit).

(** Up to the loop; [enable_fd] is the second command-line argument, 1 without one. *)
Definition host_start (enable_fd : Z) : M (uds_state (iso_env host_env)) unit :=
  call (uds_tp_isotp_init (Some mock_can_send) 0x7E8 0x7E0) ;;
  call (uds_tp_isotp_set_fd (negb (enable_fd =? 0))) ;;
  uds_init true (Some host_cfg) ;;
  mret tt.

(** One iteration up to the reception; [slow_op_start] is the local of that name. *)
Definition host_background (slow_op_start : Z) : M (uds_state (iso_env host_env)) Z :=
  now ← call (host_call host_get_time_ms);
  uds_process (Some host_cfg) ;;
  call (uds_tp_isotp_process now) ;;
  c ← get_ctx;
  let started := if p2_msg_pending c && (pending_sid c =? 0x31) && (slow_op_start =? 0)
                 then now else slow_op_start in
  if (started >? 0) && (1500 <=? u32 (now - started)) then
    tx_set host_cfg 0 0x71 ;;
    tx_set host_cfg 1 0x01 ;;
    uds_send_response (Some host_cfg) 2 ;;
    mret 0
  else mret started.

(** The whole iteration; [pkt] is a received [vcan_packet_t] (identifier, 64 bytes,
    length). *)
Definition host_iteration (slow_op_start : Z) (pkt : option (Z * list Z * Z))
    : M (uds_state (iso_env host_env)) Z :=
  left ← host_background slow_op_start;
  match pkt with
  | Some (id, data, len) => uds_isotp_rx_callback client_call (Some host_cfg) id data len
  | None => mret tt
  end ;;
  mret left.
End Main.

(** The simulator's memory at power-up and one packet. *)
Definition host_power_up : uds_state (iso_env host_env) :=
  mkState zero_ctx
    (<[g_rx_buf := replicate 1024 0]> (<[g_tx_buf := replicate 1024 0]>
      (<[g_ecu_vin := vin_bytes]> (<[g_customer_name := name_bytes]> ∅))))
    (mkIsoEnv (mkIso None 0 0 0 0 0 ISOTP_IDLE 0 0 0 0 0 0 0 0) (replicate 1024 0) 0
       (mkHost 100 0 (replicate 1024 0) 4 []) []) [].

Definition host_first_packet (enable_fd : Z) (data : list Z) (len : Z) : outcome (Z * uds_state (iso_env host_env)) :=
  (host_start enable_fd ;;
   host_iteration (fun _ _ _ _ => mret tt) 0 (Some (0x7E0, data ++ replicate (64 - length data) 0, len))) host_power_up.

(** One eight-byte CAN frame, a 0x23 request for any size from 1 to 255 at address
    0xFFFFFFFF, makes the freshly started host simulator read outside its memory array,
    over classic CAN or CAN-FD: the bounds check of its memory callback wraps. *)
Theorem host_remote_fault enable_fd n :
  1 <= n < 256 ->
  host_first_packet enable_fd [0x07; 0x23; 0x14; 0xFF; 0xFF; 0xFF; 0xFF; n] 8 = Fault OutOfBounds.
Proof.
  intros Hn.
  assert (H : forall fd, forallb (fun i => match host_first_packet (if fd : bool then 1 else 0)
      [0x07; 0x23; 0x14; 0xFF; 0xFF; 0xFF; 0xFF; i] 8 with Fault OutOfBounds => true | _ => false end)
    (seqZ 1 255) = true) by by intros []; vm_compute.
  specialize (H (negb (enable_fd =? 0))). rewrite forallb_forall in H.
  specialize (H n ltac:(apply list_elem_of_In, elem_of_seqZ; lia)).
  assert (Hfd : host_first_packet enable_fd = host_first_packet (if negb (enable_fd =? 0) then 1 else 0)).
  { unfold host_first_packet, host_start. by destruct (enable_fd =? 0) eqn:He. }
  rewrite Hfd. by destruct (host_first_packet _ _ _) as [|[]].
Qed.

(** ** The simulated memory *)

(** In the host simulator, bytes written to its 1 KB memory inside the array are
    read back, and nothing else of the memory changes. *)
Theorem host_memory c addr data h :
  length (mock_memory h) = 1024%nat -> 0 <= addr -> addr + Z.of_nat (length data) <= 1024 ->
  wp (host_mem_write c addr (Z.of_nat (length data)) data ;; host_mem_read c addr (Z.of_nat (length data)))
    (fun p h' => p = (0, data) /\
       take (Z.to_nat addr) (mock_memory h') = take (Z.to_nat addr) (mock_memory h) /\
       drop (Z.to_nat addr + length data) (mock_memory h') =
         drop (Z.to_nat addr + length data) (mock_memory h)) h.
Proof.
  intros Hm Ha Hle. set (n := Z.of_nat (length data)) in *.
  assert (Hu : u32 (addr + n) = addr + n) by (apply u32_small; lia).
  unfold host_mem_write, host_mem_read. apply wp_bind, wp_bind. unfold wp at 1, host_get. cbv zeta.
  rewrite Hm, Hu, Z.gtb_ltb, (proj2 (Z.ltb_ge _ _)), (proj2 (Z.leb_le _ _)) by lia.
  rewrite (proj2 (Z.leb_le n _)) by lia. cbn [andb]. subst n. rewrite Nat2Z.id, firstn_all.
  apply wp_bind. unfold wp at 1, host_put. apply wp_ret, wp_bind. unfold wp at 1, host_get. cbv zeta.
  cbn [mock_memory set_mock_memory]. rewrite length_write_at by lia.
  rewrite Hm, ?Hu, Z.gtb_ltb, (proj2 (Z.ltb_ge _ _)), (proj2 (Z.leb_le _ _)) by lia. apply wp_ret.
  rewrite ?Nat2Z.id, read_write_at by lia. split; [done|]. split.
  - by apply take_write_at_before; lia.
  - by apply drop_write_at_before; lia.
Qed.

(** The simulator's bounds check adds address and size in 32 bits: a read whose end
    wraps past 2^32 passes the check and faults with an out-of-bounds access. *)
Theorem host_mem_read_wraps c addr size h :
  length (mock_memory h) = 1024%nat -> 0 <= addr < 2 ^ 32 -> 0 < size < 2 ^ 32 ->
  2 ^ 32 <= addr + size <= 2 ^ 32 + 1024 ->
  host_mem_read c addr size h = Fault OutOfBounds.
Proof.
  intros Hm Ha Hs Hw. unfold host_mem_read. erewrite bind_ok by done. cbv zeta. rewrite Hm.
  replace (u32 (addr + size)) with (addr + size - 2 ^ 32) by zlia.
  rewrite Z.gtb_ltb, (proj2 (Z.ltb_ge _ _)), (proj2 (Z.leb_gt _ _)) by lia. done.
Qed.
