(* ===== verification/Deploy.v ===== *)
(** * The example programs

    [examples/pro_flash_tool.c], [examples/client_demo/main.c] and
    [examples/bare_metal/main.c]: their configurations, start-up and the body of
    their loops. Output on the console and socket calls are outside the model;
    [Vcan] has the client's [main] over the datagrams it receives. *)

From S2P Require Import Prelude Monad Types Machine CoreBase Contract HandlerLogic SvcFlash Core.
From S2P Require Import IsoTp IsoTpTx IsoTpRx HostSim.
From stdpp Require Import base gmap list strings numbers.

Open Scope Z_scope.

(** A configuration with the named members, every other member zero or NULL, as
    a designated initialiser or a [memset] leaves it. *)
Definition plain_config {E} (time : M E Z) (send : uds_ctx -> list Z -> Z -> M E Z)
    (log : option (Z -> string -> M E unit)) (p2 p2_star : Z) (rx : N) (rx_size : Z) (tx : N) (tx_size : Z)
    (strict : bool) (level : Z) (lock unlock : option (N -> M E unit)) (handle : N) : uds_config E := {|
  ecu_address := 0; get_time_ms := Some time; fn_log := log; fn_tp_send := Some send;
  cfg_p2_ms := p2; cfg_p2_star_ms := p2_star;
  fn_reset := None; fn_comm_control := None; fn_security_seed := None; fn_security_key := None;
  rx_buffer := Some rx; rx_buffer_size := rx_size; tx_buffer := Some tx; tx_buffer_size := tx_size;
  strict_compliance := strict; log_level := level; security_delay_ms := 0; security_max_attempts := 0;
  rcrrp_limit := 0; transfer_accept_last_block_replay := false;
  did_table := mkDidTable [] 0; user_services := None; user_service_count := 0;
  fn_is_safe := None; fn_nvm_save := None; fn_nvm_load := None; fn_dtc_read := None; fn_dtc_clear := None;
  fn_auth := None; fn_routine_control := None; fn_request_download := None; fn_transfer_data := None;
  fn_transfer_exit := None; fn_mem_read := None; fn_mem_write := None; fn_io_control := None;
  fn_request_upload := None; fn_periodic_read := None;
  mutex_handle := handle; fn_mutex_lock := lock; fn_mutex_unlock := unlock;
  p2_server_max := 0; p2_star_server_max := 0
|}.

(** ** [pro_flash_tool.c]: a flash sequence, as a client *)

Definition flash_get_time : M unit Z := mret 0.
Definition flash_log (level : Z) (msg : string) : M unit unit := mret tt.
Definition flash_tp_send (c : uds_ctx) (data : list Z) (len : Z) : M unit Z := mret 0.
Definition flash_rx_buf : N := 1.
Definition flash_tx_buf : N := 2.

Definition flash_cfg : uds_config unit :=
  plain_config flash_get_time flash_tp_send (Some flash_log) 0 0 flash_rx_buf 1024 flash_tx_buf 1024 true UDS_LOG_INFO None None 0%N.

Definition req_34 : list Z := [0x44; 0x08; 0x00; 0x00; 0x00; 0x00; 0x00; 0x10; 0x00].
Definition req_36 : list Z := 0x01 :: replicate 256 0xAA.

Definition flash_main : M (uds_state unit) Z :=
  i ← uds_init true (Some flash_cfg);
  if negb (i =? UDS_OK) then mret 1
  else
    uds_client_request (Some flash_cfg) 0x34 (Some req_34) (Z.of_nat (length req_34)) None ;;
    uds_client_request (Some flash_cfg) 0x36 (Some req_36) (Z.of_nat (length req_36)) None ;;
    uds_client_request (Some flash_cfg) 0x37 None 0 None ;;
    mret 0.

Definition flash_power_up : uds_state unit :=
  mkState zero_ctx (<[flash_rx_buf := replicate 1024 0]> {[flash_tx_buf := replicate 1024 0]}) tt [].

(** What the tool puts on the wire. *)
Lemma flash_tool_sends :
  wp flash_main (fun r s => r = 0 /\
    sends (trace s) = [0x34 :: req_34; 0x36 :: req_36; [0x37]]) flash_power_up.
Proof. by vm_compute. Qed.

(** The first byte after the service is the data format and the second the
    address and length format: the tool leaves out the former, so the library's
    own server refuses its request. *)
Theorem flash_tool_rejected {E} (env_ok : E -> Prop) (tb : N) (cfg : uds_config E) `{Hok : !ConfigOk env_ok tb cfg} s :
  uds_inv env_ok tb cfg s ->
  wp (uds_internal_handle_request_download (Some cfg) (0x34 :: req_34) 10)
    (fun _ s' => exists evs, trace s' = trace s ++ evs /\
       rejected UDS_SID_REQUEST_DOWNLOAD UDS_NRC_REQUEST_OUT_OF_RANGE evs) s.
Proof.
  intros Hinv. xopen cfg Hinv. unfold uds_internal_handle_request_download.
  change (10 <? 4) with false. cbv iota. apply wp_bind, (wp_data_at _ 2 0x08); [lia|done|]. cbv zeta.
  change (_ || _)%bool with true. cbv iota. hsteps. eexists; split; [done|by eexists].
Qed.

(** ** [client_demo]: two requests over ISO-TP *)

(** The clock and the packets handed to [sendto]. *)
Record client_env : Type := mkClient {
  client_sec : Z;
  client_nsec : Z;
  client_sent : list (Z * list Z * Z)
}.

Definition client_get_time_ms : M client_env Z :=
  fun e => Ok (u32 (client_sec e * 1000 + client_nsec e / 1000000), e).
Definition client_can_send (id : Z) (data : list Z) (len : Z) : M client_env Z :=
  if len <=? 64 then fun e => Ok (0, mkClient (client_sec e) (client_nsec e) (client_sent e ++ [(id, take (Z.to_nat len) data, len)]))
  else mfault OutOfBounds.

Definition client_rx_buf : N := 1.
Definition client_tx_buf : N := 2.
Definition on_response : N := 10.

Definition client_cfg : uds_config (iso_env client_env) :=
  plain_config (zoom can set_can client_get_time_ms) uds_isotp_send None 0 0 client_rx_buf 1024 client_tx_buf 1024 false 0 None None 0%N.

Section Main.
Context (client_call : N -> Z -> list Z -> Z -> M (uds_state (iso_env client_env)) unit).

Definition client_start (enable_fd : Z) : M (uds_state (iso_env client_env)) unit :=
  call (uds_tp_isotp_init (Some client_can_send) 0x7E0 0x7E8) ;;
  call (uds_tp_isotp_set_fd (negb (enable_fd =? 0))) ;;
  uds_init true (Some client_cfg) ;;
  uds_client_request (Some client_cfg) 0x10 (Some [0x03]) 1 (Some on_response) ;;
  mret tt.

(** The second request, after the first loop. *)
Definition client_read_vin : M (uds_state (iso_env client_env)) unit :=
  uds_client_request (Some client_cfg) 0x22 (Some [0xF1; 0x90]) 2 (Some on_response) ;;
  mret tt.

(** The body of either loop; [pkt] is the packet received, if any. *)
Definition client_iteration (pkt : option (Z * list Z * Z)) : M (uds_state (iso_env client_env)) unit :=
  uds_process (Some client_cfg) ;;
  t ← call (zoom can set_can client_get_time_ms);
  call (uds_tp_isotp_process t) ;;
  match pkt with
  | Some (id, data, len) => uds_isotp_rx_callback client_call (Some client_cfg) id data len
  | None => mret tt
  end.
End Main.

(** ** [bare_metal]: a server with nobody to talk to *)

Definition get_system_time_ms : M unit Z := mret 0.
Definition bare_can_send_frame (data : list Z) (len : Z) : M unit Z := mret 0.
Definition bare_tp_send (c : uds_ctx) (data : list Z) (len : Z) : M unit Z := bare_can_send_frame data len.
Definition bare_rx_buffer : N := 1.
Definition bare_tx_buffer : N := 2.
Definition bare_cfg : uds_config unit :=
  plain_config get_system_time_ms bare_tp_send None 0 0 bare_rx_buffer 4096 bare_tx_buffer 4096 false 0 None None 0%N.

(** [bare_main] with [n] turns of the super loop. *)
Definition bare_main (n : nat) : M (uds_state unit) unit :=
  uds_init true (Some bare_cfg) ;;
  mfor (seq 0 n) (fun _ => uds_process (Some bare_cfg)).

(** It turns its loop for ever without a fault, a message or a change. *)
Lemma bare_metal_idle n m :
  wp (bare_main n) (fun _ s => exists c, s = mkState c m tt [] /\
    c = set_p2_star_ms 5000 (set_p2_ms 50 (set_active_session UDS_SESSION_ID_DEFAULT zero_ctx)))
    (mkState zero_ctx m tt []).
Proof.
  apply wp_bind. unfold wp at 1. cbn.
  apply (wp_for (fun _ s => s = mkState (set_p2_star_ms 5000 (set_p2_ms 50
    (set_active_session UDS_SESSION_ID_DEFAULT zero_ctx))) m tt [])).
  - done.
  - by intros x l s ->.
  - intros s ->. by eexists.
Qed.

(** ** The client demo against the host simulator

    Both programs from power-up, as a network of two processes: every frame of
    one is the next packet of the other. *)

Definition client_power_up : uds_state (iso_env client_env) :=
  mkState zero_ctx
    (<[client_rx_buf := replicate 1024 0]> {[client_tx_buf := replicate 1024 0]})
    (mkIsoEnv (mkIso None 0 0 0 0 0 ISOTP_IDLE 0 0 0 0 0 0 0 0) (replicate 1024 0) 0
       (mkClient 0 0 []) []) [].

Definition no_callback {E} (cb : N) (sid : Z) (payload : list Z) (n : Z) : M (uds_state E) unit := mret tt.

(** The [k]-th frame of a node as a packet. *)
Definition packet {C} (s : uds_state (iso_env C)) (k : nat) : option (Z * list Z * Z) :=
  f ← frames (env s) !! k;
  Some (f.1, f.2 ++ replicate (64 - length f.2) 0, Z.of_nat (length f.2)).

Definition demo_exchange (enable_fd : Z) : option (list event * list event) :=
  let run {S A} (m : M S A) (s : S) : option S := match m s with Ok (_, s') => Some s' | Fault _ => None end in
  c ← run (client_start enable_fd) client_power_up;
  h ← run (host_start enable_fd) host_power_up;
  h ← run (host_iteration no_callback 0 (packet c 0)) h;
  c ← run (client_iteration no_callback (packet h 0)) c;
  c ← run client_read_vin c;
  h ← run (host_iteration no_callback 0 (packet c 1)) h;
  c ← run (client_iteration no_callback (packet h 1)) c;
  Some (trace c, trace h).

(** Over CAN-FD the client sees the session response and the vehicle
    identification number the simulator holds. *)
Lemma demo_exchange_fd :
  exists log, demo_exchange 1 = Some ([
    EvSend [0x10; 0x03] 0;
    EvClientCb on_response 0x50 [0x03; 0x00; 0x32; 0x01; 0xF4];
    EvSend [0x22; 0xF1; 0x90] 0;
    EvClientCb on_response 0x62 ([0xF1; 0x90] ++ take 14 vin_bytes)], log) /\
    sends log = [[0x50; 0x03; 0x00; 0x32; 0x01; 0xF4]; [0x62; 0xF1; 0x90] ++ take 14 vin_bytes].
Proof. eexists. by vm_compute. Qed.
