(* ===== verification/Vcan.v ===== *)
(** * Virtual CAN over UDP

    The packets of [examples/host_sim/main.c] and [examples/client_demo/main.c]
    as datagrams, and both programs' [main] over the datagrams they receive.
    [vcan_packet_t] is packed: four bytes of identifier, 64 of data, one of
    length; the machine is little-endian. A packet is an automatic variable:
    [junk] is what its storage holds before the program writes to it. *)

From S2P Require Import Prelude Monad Types Machine CoreBase Contract HandlerLogic Core.
From S2P Require Import IsoTp IsoTpTx IsoTpRx HostSim Deploy.
From Stdlib Require Import Ascii.
From stdpp Require Import base gmap list list_numbers strings numbers.

Open Scope Z_scope.

(** ** The packet *)

Record vcan_packet : Set := mkVcan {
  vcan_id : Z;
  vcan_data : list Z;
  vcan_len : Z
}.
Definition VCAN_SIZE : nat := 69.

(** The object's bytes, and the object its bytes make up. *)
Definition vcan_bytes (p : vcan_packet) : list Z :=
  Z_to_little_endian 4 8 (vcan_id p) ++ vcan_data p ++ [vcan_len p].
Definition vcan_of (l : list Z) : vcan_packet :=
  mkVcan (little_endian_to_Z 8 (take 4 l)) (take 64 (drop 4 l)) (nth 68 l 0).

(** The datagram of a packet that [HostSim.mock_can_send] or [Deploy.client_can_send] has
    recorded: [sendto] takes the whole object, of which the function has set the
    identifier, the length and the recorded data bytes. *)
Definition vcan_sent (junk : list Z) (pkt : Z * list Z * Z) : list Z :=
  let '(id, data, len) := pkt in
  vcan_bytes (mkVcan id (write_at 0 data (vcan_data (vcan_of junk))) len).

(** What the loops make of [recvfrom(fd, &pkt, sizeof(pkt), ...)]: a datagram
    longer than the object is cut off, a shorter one leaves the rest as it was, and
    without a datagram, or with an empty one, nothing is dispatched. *)
Definition vcan_received (junk : list Z) (dgram : option (list Z)) : option (Z * list Z * Z) :=
  match dgram with
  | None | Some [] => None
  | Some bs =>
      let p := vcan_of (take VCAN_SIZE bs ++ drop (length bs) junk) in
      Some (vcan_id p, vcan_data p, vcan_len p)
  end.

Lemma length_le32 x : length (Z_to_little_endian 4 8 x) = 4%nat.
Proof. pose proof (length_Z_to_little_endian 4 8 x). lia. Qed.

Lemma vcan_of_bytes id data len rest :
  0 <= id < 2 ^ 32 -> length data = 64%nat ->
  vcan_of (vcan_bytes (mkVcan id data len) ++ rest) = mkVcan id data len.
Proof.
  intros Hid Hd. unfold vcan_of, vcan_bytes. cbn [vcan_id vcan_data vcan_len].
  rewrite <- !app_assoc.
  pose proof (length_le32 id) as Hl.
  rewrite take_app_length', drop_app_length' by done.
  rewrite little_endian_to_Z_to_little_endian, Z.mod_small by lia.
  rewrite take_app_length' by done. f_equal.
  rewrite app_nth2, app_nth2 by lia. by rewrite Hl, Hd.
Qed.

Lemma length_vcan_bytes p : length (vcan_data p) = 64%nat -> length (vcan_bytes p) = VCAN_SIZE.
Proof. intros Hd. unfold vcan_bytes. by rewrite !length_app, length_le32, Hd. Qed.

(** What either program records when it sends a frame that fits. *)
Lemma mock_can_send_records id data h :
  (length data <= 64)%nat -> g_server_fd h <> -1 ->
  wp (mock_can_send id data (Z.of_nat (length data))) (fun r h' =>
    r = 0 /\ udp_out h' = udp_out h ++ [(id, data, Z.of_nat (length data))]) h.
Proof.
  intros Hd Hfd. unfold mock_can_send. apply wp_bind. unfold wp at 1, host_get. apply wp_bind.
  rewrite (proj2 (Z.eqb_neq _ _)), (proj2 (Z.leb_le _ _)) by (done || lia). cbn [negb].
  unfold wp at 1, host_put. apply wp_ret. cbn [udp_out]. by rewrite Nat2Z.id, firstn_all.
Qed.

Lemma client_can_send_records id data e :
  (length data <= 64)%nat ->
  wp (client_can_send id data (Z.of_nat (length data))) (fun r e' =>
    r = 0 /\ client_sent e' = client_sent e ++ [(id, data, Z.of_nat (length data))]) e.
Proof.
  intros Hd. unfold client_can_send. rewrite (proj2 (Z.leb_le _ _)) by lia. unfold wp. cbn [client_sent].
  by rewrite Nat2Z.id, firstn_all.
Qed.

(** C39: What either example program's sender (the simulator's mock_can_send with its
    socket open, the client's) records as sent for a frame of up to 64 bytes leaves as a
    datagram of 69 bytes, in which the other receives the same identifier, data and
    length; the data is followed by what the sender's uninitialised packet held on its
    stack, so a frame of n bytes discloses 64 - n bytes of it. *)
Theorem vcan_roundtrip junk junk' id data h e :
  length junk = VCAN_SIZE -> 0 <= id < 2 ^ 32 -> (length data <= 64)%nat ->
  let pkt := (id, data, Z.of_nat (length data)) in
  (g_server_fd h <> -1 ->
     wp (mock_can_send id data (Z.of_nat (length data))) (fun r h' => r = 0 /\ udp_out h' = udp_out h ++ [pkt]) h) /\
  wp (client_can_send id data (Z.of_nat (length data))) (fun r e' =>
    r = 0 /\ client_sent e' = client_sent e ++ [pkt]) e /\
  length (vcan_sent junk pkt) = VCAN_SIZE /\
  vcan_received junk' (Some (vcan_sent junk pkt)) =
    Some (id, data ++ take (64 - length data) (drop (4 + length data) junk), Z.of_nat (length data)).
Proof.
  intros Hj Hid Hd pkt. split; [by apply mock_can_send_records|]. split; [by apply client_can_send_records|].
  subst pkt. unfold VCAN_SIZE in *. unfold vcan_sent, vcan_of at 1 2. cbn [vcan_data].
  set (l := write_at 0 data (take 64 (drop 4 junk))).
  assert (Hl : l = data ++ take (64 - length data) (drop (4 + length data) junk)).
  { subst l. unfold write_at. change (0 + length data)%nat with (length data). rewrite take_0. cbn [app]. f_equal.
rewrite <- (drop_drop _ _ 4), (take_drop_commute _ (64 - _)). do 2 f_equal. lia. }
  assert (Hl64 : length l = 64%nat) by (rewrite Hl, length_app, length_take, length_drop; lia).
  set (p := mkVcan id l (Z.of_nat (length data))).
  assert (Hn : length (vcan_bytes p) = 69%nat) by by apply length_vcan_bytes.
  split; [done|]. unfold vcan_received, VCAN_SIZE. destruct (vcan_bytes p) as [|b bs] eqn:Hb; [done|].
  rewrite <- Hb in *. rewrite take_ge, Hn by lia. subst p.
  rewrite vcan_of_bytes by done. cbn [vcan_id vcan_data vcan_len]. by rewrite <- Hl.
Qed.

(** ** The command line *)

(** [isspace] of the C locale, a decimal digit. *)
Definition is_space (c : ascii) : bool :=
  let n := Z.of_N (N_of_ascii c) in (n =? 32) || ((9 <=? n) && (n <=? 13)).
Definition digit_of (c : ascii) : option Z :=
  let n := Z.of_N (N_of_ascii c) in if (48 <=? n) && (n <=? 57) then Some (n - 48) else None.

Fixpoint digits (acc : Z) (s : string) : Z :=
  match s with
  | String c s' => match digit_of c with Some d => digits (acc * 10 + d) s' | None => acc end
  | EmptyString => acc
  end.

(** [atoi]; C leaves open what it does with a number an [int] cannot hold. *)
Fixpoint atoi (s : string) : Z :=
  match s with
  | String c s' =>
      if is_space c then atoi s'
      else if Ascii.eqb c "-" then - digits 0 s'
      else if Ascii.eqb c "+" then digits 0 s'
      else digits 0 s
  | EmptyString => 0
  end.

(** [if (argc > k) x = atoi(argv[k]);] *)
Definition int_arg (argv : list string) (k : nat) (x : Z) : Z :=
  match argv !! k with Some a => atoi a | None => x end.

Definition htons (x : Z) : Z := Z.lor (Z.shiftl (Z.land x 0xFF) 8) (Z.land (Z.shiftr x 8) 0xFF).

(** ** [main] of the simulator *)

(** What [socket] returns and what [bind] answers for a descriptor and [sin_port]. *)
Record net : Set := mkNet {
  net_socket : Z;
  net_bind : Z -> Z -> Z
}.

(** A turn of a loop: the clock during the turn, the storage of [pkt], the datagram
    that arrives. *)
Record turn : Set := mkTurn {
  turn_sec : Z;
  turn_nsec : Z;
  turn_junk : list Z;
  turn_dgram : option (list Z)
}.
Definition turn_packet (t : turn) : option (Z * list Z * Z) := vcan_received (turn_junk t) (turn_dgram t).

Section HostMain.
Context (client_call : N -> Z -> list Z -> Z -> M (uds_state (iso_env host_env)) unit).

Definition host_clock (sec nsec : Z) : M (uds_state (iso_env host_env)) unit :=
  call (host_call (fun h => Ok (tt, mkHost sec nsec (mock_memory h) (g_server_fd h) (udp_out h)))).

(** The loop never ends; the model runs it for the given turns. *)
Definition host_loop (turns : list turn) : M (uds_state (iso_env host_env)) Z :=
  mfold turns 0 (fun slow_op_start t =>
    host_clock (turn_sec t) (turn_nsec t) ;;
    host_iteration client_call slow_op_start (turn_packet t)).

(** The value [main] returns, if it returns. *)
Definition host_main (n : net) (argv : list string) (turns : list turn)
    : M (uds_state (iso_env host_env)) (option Z) :=
  let port := int_arg argv 1 5000 in
  let enable_fd := int_arg argv 2 1 in
  let fd := net_socket n in
  call (host_call (fun h => Ok (tt, mkHost (tv_sec h) (tv_nsec h) (mock_memory h) fd (udp_out h)))) ;;
  if net_bind n fd (htons port) <? 0 then mret (Some (-1))
  else
    host_start enable_fd ;;
    host_loop turns ;;
    mret None.
End HostMain.

(** ** [main] of the client *)

Section ClientMain.
Context (client_call : N -> Z -> list Z -> Z -> M (uds_state (iso_env client_env)) unit).

Definition client_clock (sec nsec : Z) : M (uds_state (iso_env client_env)) unit :=
  call (zoom can set_can (fun e => Ok (tt, mkClient sec nsec (client_sent e)))).

(** [while (get_time_ms() - start < 1000)]: the turns left when the loop ends, or
    nothing when it has not ended within them. *)
Fixpoint client_loop (start : Z) (turns : list turn)
    : M (uds_state (iso_env client_env)) (option (list turn)) :=
  match turns with
  | [] => mret None
  | t :: turns' =>
      client_clock (turn_sec t) (turn_nsec t) ;;
      now ← call (zoom can set_can client_get_time_ms);
      if u32 (now - start) <? 1000 then
        client_iteration client_call (turn_packet t) ;;
        client_loop start turns'
      else mret (Some turns')
  end.

(** The value [main] returns, if it returns within the turns. The target address goes
    to the sockets alone. *)
Definition client_main (argv : list string) (turns : list turn) : M (uds_state (iso_env client_env)) (option Z) :=
  client_start (int_arg argv 3 1) ;;
  start ← call (zoom can set_can client_get_time_ms);
  left ← client_loop start turns;
  match left with
  | None => mret None
  | Some turns' =>
      client_read_vin ;;
      start ← call (zoom can set_can client_get_time_ms);
      left ← client_loop start turns';
      mret (match left with None => None | Some _ => Some 0 end)
  end.
End ClientMain.

(** ** A client nobody answers *)

Section Alone.
Context (client_call : N -> Z -> list Z -> Z -> M (uds_state (iso_env client_env)) unit).

Definition turn_ms (t : turn) : Z := u32 (turn_sec t * 1000 + turn_nsec t / 1000000).
Definition at_clock (t : turn) (s : uds_state (iso_env client_env)) : uds_state (iso_env client_env) :=
  set_env (set_can (mkClient (turn_sec t) (turn_nsec t) (client_sent (can (env s)))) (env s)) s.

(** Nothing is under way: no deferred request, no session to time out, no periodic
    message, no frame to send. *)
Definition client_idle (s : uds_state (iso_env client_env)) : Prop :=
  p2_msg_pending (ctx s) = false /\ active_session (ctx s) = 1 /\ periodic_count (ctx s) = 0 /\
  iso_state (g_isotp_ctx (env s)) = ISOTP_IDLE.

Lemma client_turn_idle s : client_idle s -> client_iteration client_call None s = Ok (tt, s).
Proof.
  intros (Hp & Hs & Hc & Hi). destruct s as [c m [i p pl cn fr] tr]. cbn in *.
  unfold client_iteration, uds_process, process_s3, process_p2, process_periodic, mbind, M_bind. cbn.
  unfold call, zoom, mbind, M_bind. cbn. rewrite Hs. cbn. rewrite Hp. cbn. rewrite Hc. cbn.
  unfold uds_tp_isotp_process, mbind, M_bind. cbn. by rewrite Hi.
Qed.

Lemma client_clock_run t s : client_clock (turn_sec t) (turn_nsec t) s = Ok (tt, at_clock t s).
Proof. done. Qed.

Lemma client_time_run t s : call (zoom can set_can client_get_time_ms) (at_clock t s) = Ok (turn_ms t, at_clock t s).
Proof. by destruct s as [c m [i p pl [] fr] tr]. Qed.

(** The loop of an idle client with no packet arriving ends at the first turn a second
    after it began. *)
Lemma client_loop_silent start ts t rest s :
  client_idle s -> Forall (fun t => turn_packet t = None /\ u32 (turn_ms t - start) < 1000) ts ->
  1000 <= u32 (turn_ms t - start) ->
  client_loop client_call start (ts ++ t :: rest) s = Ok (Some rest, at_clock t s).
Proof.
  intros Hi Hts Ht. revert s Hi. induction Hts as [|u ts [Hu Hlt] _ IH]; intros s Hi; cbn [client_loop app].
  - rewrite (bind_ok _ _ _ _ _ (client_clock_run t s)), (bind_ok _ _ _ _ _ (client_time_run t s)).
    by rewrite (proj2 (Z.ltb_ge _ _)) by done.
  - rewrite (bind_ok _ _ _ _ _ (client_clock_run u s)), (bind_ok _ _ _ _ _ (client_time_run u s)).
    rewrite (proj2 (Z.ltb_lt _ _)), Hu by done. rewrite (bind_ok _ _ _ _ _ (client_turn_idle (at_clock u s) Hi)).
    by rewrite (IH (at_clock u s) Hi).
Qed.

(** What the two requests leave behind. *)
Definition at_time (t : turn) (s : uds_state (iso_env client_env)) : Prop :=
  client_sec (can (env s)) = turn_sec t /\ client_nsec (can (env s)) = turn_nsec t.

Lemma at_time_run t s : at_time t s -> call (zoom can set_can client_get_time_ms) s = Ok (turn_ms t, s).
Proof. destruct s as [c m [i p pl [] fr] tr]. by intros [[= ->] [= ->]]. Qed.

Definition power_turn : turn := mkTurn 0 0 [] None.

Lemma client_requests enable_fd t :
  wp (client_start enable_fd) (fun _ s => client_idle s /\ at_time power_turn s /\
    wp client_read_vin (fun _ s' => client_idle s' /\ at_time t s' /\
      trace s' = [EvSend [0x10; 0x03] 0; EvSend [0x22; 0xF1; 0x90] 0] /\
      client_sent (can (env s')) =
        [(0x7E0, [0x02; 0x10; 0x03; 0; 0; 0; 0; 0], 8); (0x7E0, [0x03; 0x22; 0xF1; 0x90; 0; 0; 0; 0], 8)])
      (at_clock t s)) client_power_up.
Proof. unfold client_start. destruct t as [sec nsec junk dgram]. by destruct (enable_fd =? 0); vm_compute. Qed.

(** With no packet arriving, the client sends its two requests, one eight-byte frame each,
    waits one second for each and returns 0; the callback is never called. *)
Theorem client_gives_up argv ts1 t1 ts2 t2 rest :
  Forall (fun t => turn_packet t = None /\ turn_ms t < 1000) ts1 -> 1000 <= turn_ms t1 ->
  Forall (fun t => turn_packet t = None /\ u32 (turn_ms t - turn_ms t1) < 1000) ts2 ->
  1000 <= u32 (turn_ms t2 - turn_ms t1) ->
  wp (client_main client_call argv (ts1 ++ t1 :: ts2 ++ t2 :: rest)) (fun r s =>
    r = Some 0 /\ trace s = [EvSend [0x10; 0x03] 0; EvSend [0x22; 0xF1; 0x90] 0] /\
    client_sent (can (env s)) =
      [(0x7E0, [0x02; 0x10; 0x03; 0; 0; 0; 0; 0], 8); (0x7E0, [0x03; 0x22; 0xF1; 0x90; 0; 0; 0; 0], 8)])
    client_power_up.
Proof.
  intros H1 Ht1 H2 Ht2.
  assert (Hms : forall t, u32 (turn_ms t - 0) = turn_ms t) by (intros t; rewrite Z.sub_0_r; apply u32_small, u32_range).
  destruct (proj1 (wp_iff _ _ _) (client_requests (int_arg argv 3 1) t1)) as ([] & s & Hs & Hi & H0 & Hreq).
  apply wp_iff in Hreq as ([] & s' & Hs' & Hi' & Htime & Htr & Hsent).
  unfold wp, client_main. rewrite (bind_ok _ _ _ _ _ Hs), (bind_ok _ _ _ _ _ (at_time_run _ _ H0)).
  change (turn_ms power_turn) with 0.
  erewrite bind_ok; [|apply client_loop_silent; [done| |by rewrite Hms]].
  2: { eapply Forall_impl; [|exact H1]. cbn beta. intros t. by rewrite Hms. }
  cbv beta iota. rewrite (bind_ok _ _ _ _ _ Hs'), (bind_ok _ _ _ _ _ (at_time_run _ _ Htime)).
  erewrite bind_ok; [|by apply client_loop_silent]. cbn. by destruct s' as [c m [i p pl [] fr] tr].
Qed.
End Alone.

(** ** A length the packet does not have *)

Section Overread.
Context {C : Type} (cfg : uds_config (iso_env C)).
Context (client_call : N -> Z -> list Z -> Z -> M (uds_state (iso_env C)) unit).

(** A first frame whose length byte promises more than the data array holds. *)
Lemma rx_ff_overread b0 b1 rest len s :
  is_byte b0 -> is_byte b1 -> b0 / 16 = 1 -> 8 <= b0 mod 16 * 256 + b1 <= rx_buffer_size cfg ->
  8 < len < 256 -> Z.of_nat (2 + length rest) < len ->
  uds_isotp_rx_callback client_call (Some cfg) (rx_id (g_isotp_ctx (env s))) (b0 :: b1 :: rest) len s = Fault OutOfBounds.
Proof.
  intros H0 H1 Hff Hn Hlen Hshort. unfold is_byte in *. destruct s as [c m [i p pl cn fr] tr]. cbn [env g_isotp_ctx].
  unfold uds_isotp_rx_callback. erewrite bind_ok by done. rewrite Z.eqb_refl. cbn [negb].
  rewrite (bind_ok _ _ _ b0 _ eq_refl). cbv zeta. rewrite land_240 by lia. rewrite Hff. change (1 * 16 =? ISOTP_PCI_SF) with false.
  change (1 * 16 =? ISOTP_PCI_FF) with true. cbv iota. unfold uds_rx_ff. erewrite bind_ok by done.
  rewrite (bind_ok _ _ _ b0 _ eq_refl), (bind_ok _ _ _ b1 _ eq_refl). cbv zeta. rewrite land_15.
  rewrite shiftl_8, u16_small, lor_byte by (unfold is_byte; zlia). rewrite (proj2 (Z.ltb_ge _ 8)) by lia.
  do 5 erewrite bind_ok by done. rewrite (proj2 (Z.ltb_ge (rx_buffer_size cfg) _)) by lia.
  unfold mbind, M_bind, frame_slice, call, zoom, slice, ISOTP_MAX_DL_CAN. rewrite Z.gtb_ltb, (proj2 (Z.ltb_lt 8 len)), u8_small by lia.
  rewrite (proj2 (Z.leb_gt (2 + (len - 2)) _)); [by rewrite !andb_false_r|cbn [length] in *; lia].
Qed.
End Overread.

(** The simulator, started and through its first turn up to the reception. *)
Lemma host_first_turn enable_fd fd sec nsec s0 :
  s0 = set_env (set_can (mkHost 100 0 (replicate 1024 0) fd []) (env host_power_up)) host_power_up ->
  wp (host_start enable_fd ;; host_clock sec nsec ;; host_background 0)
    (fun _ s => rx_id (g_isotp_ctx (env s)) = 0x7E0) s0.
Proof. intros ->. unfold host_start. by destruct (enable_fd =? 0); vm_compute. Qed.

(** C38: One datagram to the host simulator, a packet with the diagnostic identifier, a
    first frame that announces 8 to 1024 bytes and a length byte of 66 to 255, makes its
    first turn read beyond the packet, whatever the command line: the main loop passes
    the length byte on unchecked. *)
Theorem vcan_overread client_call n argv t rest bs b0 b1 data :
  0 <= net_bind n (net_socket n) (htons (int_arg argv 1 5000)) ->
  is_byte b0 -> is_byte b1 -> b0 / 16 = 1 -> 8 <= b0 mod 16 * 256 + b1 <= 1024 ->
  length data = 62%nat -> 66 <= bs < 256 ->
  turn_dgram t = Some (vcan_bytes (mkVcan 0x7E0 (b0 :: b1 :: data) bs)) ->
  host_main client_call n argv (t :: rest) host_power_up = Fault OutOfBounds.
Proof.
  intros Hbind H0 H1 Hff Hn Hd Hlen Ht.
  assert (Hp : turn_packet t = Some (0x7E0, b0 :: b1 :: data, bs)).
  { unfold turn_packet. rewrite Ht. unfold vcan_received.
    destruct (vcan_bytes (mkVcan 0x7E0 (b0 :: b1 :: data) bs)) as [|x xs] eqn:E; [done|]. rewrite <- E.
    assert (Hl : length (vcan_bytes (mkVcan 0x7E0 (b0 :: b1 :: data) bs)) = VCAN_SIZE)
      by (apply length_vcan_bytes; cbn; lia).
    rewrite take_ge by lia. by rewrite vcan_of_bytes by (cbn; lia). }
  unfold host_main. cbv zeta. erewrite bind_ok by done. rewrite (proj2 (Z.ltb_ge _ _)) by done.
  pose proof (host_first_turn (int_arg argv 2 1) (net_socket n) (turn_sec t) (turn_nsec t) _ eq_refl) as Hrun.
  apply wp_bind_eq, wp_iff in Hrun as ([] & s1 & Hs1 & Hrun). rewrite (bind_ok _ _ _ _ _ Hs1).
  apply wp_bind_eq, wp_iff in Hrun as ([] & s2 & Hs2 & Hrun). apply wp_iff in Hrun as (left & s3 & Hs3 & Hid).
  assert (Hturn : (host_clock (turn_sec t) (turn_nsec t) ;; host_iteration client_call 0 (turn_packet t)) s1 = Fault OutOfBounds).
  { rewrite (bind_ok _ _ _ _ _ Hs2). unfold host_iteration. rewrite (bind_ok _ _ _ _ _ Hs3), Hp.
    unfold mbind, M_bind. rewrite <- Hid. rewrite rx_ff_overread; cbn [length rx_buffer_size host_cfg]; done || lia. }
  unfold host_loop. cbn [mfold]. unfold mbind, M_bind in *. by rewrite Hturn.
Qed.

(** ** A recorded session of the two programs *)

(** A list as its elements, for evaluation. *)
Lemma list_eta (l : list Z) n : length l = n -> l = map (fun k => nth k l 0) (seq 0 n).
Proof.
  intros <-. induction l as [|x l IH]; [done|]. cbn [length seq map nth]. f_equal.
  rewrite <- seq_shift, map_map. exact IH.
Qed.

Section Network.
Context (junk : nat -> list Z) (Hjunk : forall k, length (junk k) = VCAN_SIZE) (scratch : list Z).

(** A turn at [ms] in which the [k]-th frame of the other side arrives, if there is one. *)
Definition turn_at (out : list (Z * list Z)) (ms : Z) (k : nat) : turn :=
  mkTurn (ms / 1000) (ms mod 1000 * 1000000) scratch
    (match out !! k with Some (id, data) => Some (vcan_sent (junk k) (id, data, Z.of_nat (length data))) | None => None end).

(** The frames either program sends. *)
Definition client_frames (fd : bool) : list (Z * list Z) :=
  [(0x7E0, [0x02; 0x10; 0x03; 0; 0; 0; 0; 0]); (0x7E0, [0x03; 0x22; 0xF1; 0x90; 0; 0; 0; 0])] ++
  (if fd then [] else [(0x7E0, [0x30; 0x08; 0; 0; 0; 0; 0; 0])]).
Definition host_frames (fd : bool) : list (Z * list Z) :=
  (0x7E8, [0x06; 0x50; 0x03; 0x00; 0x32; 0x01; 0xF4; 0]) ::
  (if fd then [(0x7E8, [0x00; 17; 0x62; 0xF1; 0x90] ++ take 14 vin_bytes ++ [0])]
   else [(0x7E8, [0x10; 17; 0x62; 0xF1; 0x90] ++ take 3 vin_bytes);
         (0x7E8, 0x21 :: take 7 (drop 3 vin_bytes)); (0x7E8, 0x22 :: take 4 (drop 10 vin_bytes) ++ [0; 0; 0])]).

Definition packets (out : list (Z * list Z)) : list (Z * list Z * Z) :=
  map (fun p => (p.1, p.2, Z.of_nat (length p.2))) out.

Definition host_turns (fd : bool) : list turn :=
  map (fun k => turn_at (client_frames fd) (100000 + Z.of_nat k) k) (seq 0 6).
Definition client_turns (fd : bool) : list turn :=
  let out := host_frames fd in
  [turn_at out 1 0; turn_at out 1000 9; turn_at out 1001 1; turn_at out 1002 2; turn_at out 1003 3; turn_at out 2000 9].
Definition fd_arg (fd : bool) : string := if fd then "1" else "0".

(** Both programs on the traffic of one session over classic CAN or CAN-FD, whatever the
    senders' packets held before: fed the datagrams of [client_frames] the simulator sends
    exactly [host_frames], and fed those the client sends exactly [client_frames], has its
    callback called with the session response and the stored number, and returns 0. *)
Theorem demo_over_udp fd :
  wp (host_main no_callback (mkNet 4 (fun _ _ => 0)) ["host_sim"; "5000"; fd_arg fd]%string (host_turns fd))
    (fun r s => r = None /\ udp_out (can (env s)) = packets (host_frames fd)) host_power_up /\
  wp (client_main no_callback ["client_demo"; "127.0.0.1"; "5000"; fd_arg fd]%string (client_turns fd))
    (fun r s => r = Some 0 /\ client_sent (can (env s)) = packets (client_frames fd) /\
       trace s = [EvSend [0x10; 0x03] 0; EvClientCb on_response 0x50 [0x03; 0x00; 0x32; 0x01; 0xF4];
         EvSend [0x22; 0xF1; 0x90] 0; EvClientCb on_response 0x62 ([0xF1; 0x90] ++ take 14 vin_bytes)]) client_power_up.
Proof.
  pose proof (fun k => list_eta (junk k) VCAN_SIZE (Hjunk k)) as Hj.
  unfold host_turns, client_turns, turn_at. destruct fd.
  all: cbn [map seq client_frames host_frames lookup list_lookup app].
  all: split; rewrite (Hj 0%nat), (Hj 1%nat); try rewrite (Hj 2%nat); try rewrite (Hj 3%nat); by vm_compute.
Qed.
End Network.
