(* ===== verification/FreeRtos.v ===== *)
(** * The FreeRTOS example: [examples/freertos_demo/main.c]

    Its mutex and clock callbacks, configuration, diagnostic task and start-up. The
    kernel is not under [src/]: it is the record [freertos_api] of its calls, and
    [FreeRtosOk] is what its documentation says of them. The receiving task
    [vCANRxTask] is not a C expression (line 84) and is left out; [main] does not
    create it either. *)

From S2P Require Import Prelude Monad Types Machine CoreBase Contract HandlerLogic Core CoreProcess CoreInit Deploy.
From stdpp Require Import base gmap list strings numbers.

Open Scope Z_scope.

(** ** The kernel *)

(** The calls and macros the example uses, over the kernel's state [O]. A handle is a
    number, NULL is 0; a task's code is known by its address. *)
Record freertos_api (O : Type) : Type := mkFreeRtos {
  portMAX_DELAY : Z;
  portTICK_PERIOD_MS : Z;
  pdMS_TO_TICKS : Z -> Z;
  xSemaphoreCreateMutex : M O N;
  xSemaphoreTake : N -> Z -> M O Z;
  xSemaphoreGive : N -> M O Z;
  xTaskGetTickCount : M O Z;
  vTaskDelay : Z -> M O unit;
  xTaskCreate : N -> string -> Z -> Z -> M O Z;
  vTaskStartScheduler : M O unit
}.
Arguments portMAX_DELAY {_} _.
Arguments portTICK_PERIOD_MS {_} _.
Arguments pdMS_TO_TICKS {_} _.
Arguments xSemaphoreCreateMutex {_} _.
Arguments xSemaphoreTake {_} _.
Arguments xSemaphoreGive {_} _.
Arguments xTaskGetTickCount {_} _.
Arguments vTaskDelay {_} _.
Arguments xTaskCreate {_} _.
Arguments vTaskStartScheduler {_} _.

(** Documented results, where [taken h o] says that the mutex [h] is taken: taking a
    free mutex takes it, giving a taken one frees it; a mutex that is taken is not
    taken again (the call would block), and one that is free is not given; there is no
    mutex at NULL. Nothing else moves a mutex while no other task uses it. *)
Class FreeRtosOk {O} (os_ok : O -> Prop) (taken : N -> O -> bool) (k : freertos_api O) : Prop := {
  fo_take h o : os_ok o -> h <> 0%N -> taken h o = false ->
    wp (xSemaphoreTake k h (portMAX_DELAY k)) (fun _ o' => os_ok o' /\ taken h o' = true) o;
  fo_give h o : os_ok o -> h <> 0%N -> taken h o = true ->
    wp (xSemaphoreGive k h) (fun _ o' => os_ok o' /\ taken h o' = false) o;
  fo_ticks h o : os_ok o ->
    wp (xTaskGetTickCount k) (fun _ o' => os_ok o' /\ taken h o' = taken h o) o;
  fo_delay h n o : os_ok o ->
    wp (vTaskDelay k n) (fun _ o' => os_ok o' /\ taken h o' = taken h o) o
}.

Section Example.
Context {O : Type} (k : freertos_api O).

(** ** OSAL hooks and configuration *)

Definition os_lock (handle : N) : M O unit := xSemaphoreTake k handle (portMAX_DELAY k) ;; mret tt.
Definition os_unlock (handle : N) : M O unit := xSemaphoreGive k handle ;; mret tt.
Definition os_get_time : M O Z :=
  t ← xTaskGetTickCount k;
  mret (u32 (t * portTICK_PERIOD_MS k)).
Definition mock_send (c : uds_ctx) (data : list Z) (len : Z) : M O Z := mret 0.

Definition rtos_rx_buf : N := 1.
Definition rtos_tx_buf : N := 2.
Definition rtos_cfg (uds_mutex : N) : uds_config O :=
  plain_config os_get_time mock_send None 0 0 rtos_rx_buf 1024 rtos_tx_buf 1024 false 0
    (Some os_lock) (Some os_unlock) uds_mutex.

(** ** The diagnostic task *)

(** Up to the event loop; the configuration is what the loop's context points to. *)
Definition vUDSTask_setup : M (uds_state O) (uds_config O) :=
  uds_mutex ← call (xSemaphoreCreateMutex k);
  uds_init true (Some (rtos_cfg uds_mutex)) ;;
  mret (rtos_cfg uds_mutex).

Definition vUDSTask_iteration (cfg : uds_config O) : M (uds_state O) unit :=
  uds_process (Some cfg) ;;
  call (vTaskDelay k (pdMS_TO_TICKS k 10)).

(** With [n] turns of the loop. *)
Definition vUDSTask (n : nat) : M (uds_state O) unit :=
  cfg ← vUDSTask_setup;
  mfor (seq 0 n) (fun _ => vUDSTask_iteration cfg).

(** ** Start-up *)

Definition vUDSTask_code : N := 1.
Definition rtos_main : M O Z :=
  xTaskCreate k vUDSTask_code "UDS" 1024 2 ;;
  vTaskStartScheduler k ;;
  mret 0.

(** ** The task's loop *)

Context (os_ok : O -> Prop) (taken : N -> O -> bool) `{Hk : !FreeRtosOk os_ok taken k}.

(** Between two turns: default session, the mutex free, [n] turns done. *)
Record task_idle (h : N) (m : gmap N (list Z)) (n : nat) (s : uds_state O) : Prop := {
  ti_ctx : ctx s = init_ctx (rtos_cfg h);
  ti_mem : mem s = m;
  ti_os : os_ok (env s);
  ti_free : taken h (env s) = false;
  ti_trace : trace s = concat (replicate n [EvLock; EvUnlock])
}.

Lemma wp_os {A} (cb : M O A) (R : A -> O -> Prop) (Q : A -> uds_state O -> Prop) c m o tr :
  wp cb R o -> (forall a o', R a o' -> Q a (mkState c m o' tr)) -> wp (call cb) Q (mkState c m o tr).
Proof. intros Hcb HQ. apply wp_call. eapply wp_mono; [exact Hcb|]. intros a o' HR. by apply HQ. Qed.

Lemma wp_turn h m n s :
  h <> 0%N -> task_idle h m n s -> wp (vUDSTask_iteration (rtos_cfg h)) (fun _ => task_idle h m (S n)) s.
Proof.
  intros Hh [Hc Hm Ho Hf Ht]. destruct s as [c m' o tr]; cbn [ctx mem env trace] in *. subst c m'.
  unfold vUDSTask_iteration, uds_process. apply wp_bind, wp_bind. unfold lock, mutex_op. cbn [fn_mutex_lock rtos_cfg plain_config].
  apply wp_bind. eapply (wp_os _ (fun _ o' => os_ok o' /\ taken h o' = true)).
  { apply wp_bind. eapply wp_mono; [by apply fo_take|]. by intros r o' ?. }
  intros [] o1 [Ho1 Ht1]. apply wp_emit. unfold add_event; state_cbn.
  apply wp_bind. unfold time_ms. apply wp_bind, (wp_fnptr _ os_get_time); [done|]. apply wp_bind.
  eapply (wp_os _ (fun _ o' => os_ok o' /\ taken h o' = true)).
  { apply wp_bind. eapply wp_mono; [by apply (fo_ticks h)|]. intros t o' [? ?]. split; [done|congruence]. }
  intros t o2 [Ho2 Ht2]. apply wp_ret.
  do 3 (apply wp_bind; unfold process_s3, process_p2, process_periodic; apply wp_bind, wp_get_ctx; cbn).
  unfold wp at 1; cbn. change (wp (call (os_unlock h) ;; emit EvUnlock)
    (fun _ s' => wp (call (vTaskDelay k (pdMS_TO_TICKS k 10))) (fun _ => task_idle h m (S n)) s')
    (mkState (init_ctx (rtos_cfg h)) m o2 (tr ++ [EvLock]))).
  apply wp_bind. eapply (wp_os _ (fun _ o' => os_ok o' /\ taken h o' = false)).
  { apply wp_bind. eapply wp_mono; [by apply fo_give|]. by intros r o' ?. }
  intros [] o3 [Ho3 Ht3]. apply wp_emit. unfold add_event; state_cbn.
  eapply (wp_os _ (fun _ o' => os_ok o' /\ taken h o' = taken h o3)); [by apply fo_delay|].
  intros [] o4 [Ho4 Ht4]. split; cbn [ctx mem env trace]; [done..|congruence|].
  rewrite <- app_assoc, Ht. replace (S n) with (n + 1)%nat by lia. rewrite replicate_add, concat_app. done.
Qed.

(** The task's loop alone, on a kernel that has a mutex to give: it takes and gives the
    mutex once per turn, always finds it free, stays in the default session and sends
    nothing. *)
Theorem uds_task_turns n m o :
  os_ok o ->
  wp (xSemaphoreCreateMutex k) (fun h o' => h <> 0%N /\ os_ok o' /\ taken h o' = false) o ->
  wp (vUDSTask n) (fun _ s => exists h, task_idle h m n s) (mkState zero_ctx m o []).
Proof.
  intros Ho Hnew. unfold vUDSTask, vUDSTask_setup. apply wp_assoc, wp_bind.
  eapply (wp_os _ _ _ _ _ _ _ Hnew). intros h o1 (Hh & Ho1 & Hf). apply wp_assoc, wp_bind.
  assert (Hi : wp (uds_init true (Some (rtos_cfg h))) (fun _ => task_idle h m 0) (mkState zero_ctx m o1 [])) by by split.
  eapply wp_mono; [exact Hi|]. intros r s Hs. apply wp_bind, wp_ret.
  apply (wp_for (fun l s' => (length l <= n)%nat /\ task_idle h m (n - length l) s')).
  - rewrite length_seq, Nat.sub_diag. done.
  - intros i l s1 [Hl Hs1]. cbn [length] in Hl. eapply wp_mono; [by apply wp_turn|]. intros [] s2 Hs2.
    split; [lia|]. by replace (n - length l)%nat with (S (n - length (i :: l))) by (cbn; lia).
  - intros s1 [_ Hs1]. cbn in Hs1. rewrite Nat.sub_0_r in Hs1. by exists h.
Qed.
End Example.
