(* ===== verification/PeriodicRead.v ===== *)
(** * A stack without [fn_periodic_read]

    [uds_config.h] marks the callback optional, [ConfigOk] asks for it, and
    [uds_process] calls it unchecked. Nothing else looks at it: with and without the
    callback every other entry point of core and transport is the same program, and
    [uds_process] does the same until a registered identifier falls due, where the
    stack without the callback calls NULL. So what is proved of a configuration that
    keeps [ConfigOk] holds of the one without the callback up to that call. *)

From S2P Require Import Prelude Monad Types Machine CoreBase Contract HandlerLogic.
From S2P Require Import Core CoreDispatch CoreProcess CoreApi IsoTp IsoTpTx IsoTpRx.
From stdpp Require Import base gmap list strings numbers.

Open Scope Z_scope.

(** [cfg] with [f] as its [fn_periodic_read]. *)
Definition with_periodic_read {E} (f : periodic_read_fn E) (cfg : uds_config E) : uds_config E :=
  mkConfig (ecu_address cfg) (get_time_ms cfg) (fn_log cfg) (fn_tp_send cfg) (cfg_p2_ms cfg) (cfg_p2_star_ms cfg)
    (fn_reset cfg) (fn_comm_control cfg) (fn_security_seed cfg) (fn_security_key cfg) (rx_buffer cfg)
    (rx_buffer_size cfg) (tx_buffer cfg) (tx_buffer_size cfg) (strict_compliance cfg) (log_level cfg)
    (security_delay_ms cfg) (security_max_attempts cfg) (rcrrp_limit cfg) (transfer_accept_last_block_replay cfg)
    (did_table cfg) (user_services cfg) (user_service_count cfg) (fn_is_safe cfg) (fn_nvm_save cfg) (fn_nvm_load cfg)
    (fn_dtc_read cfg) (fn_dtc_clear cfg) (fn_auth cfg) (fn_routine_control cfg) (fn_request_download cfg)
    (fn_transfer_data cfg) (fn_transfer_exit cfg) (fn_mem_read cfg) (fn_mem_write cfg) (fn_io_control cfg)
    (fn_request_upload cfg) (Some f) (mutex_handle cfg) (fn_mutex_lock cfg) (fn_mutex_unlock cfg)
    (p2_server_max cfg) (p2_star_server_max cfg).

(** A run that goes as another one does, or falls into a trap. *)
Definition agrees_or {S A} (T : fault -> Prop) (m m' : M S A) (s : S) : Prop :=
  m s = m' s \/ exists f, m s = Fault f /\ T f.

Lemma agrees_bind {S A B} T (P : A -> S -> Prop) (m : M S A) (k k' : A -> M S B) s :
  wp m P s -> (forall a s', P a s' -> agrees_or T (k a) (k' a) s') ->
  agrees_or T (m ≫= k) (m ≫= k') s.
Proof.
  intros (a & s' & Hm & HP)%wp_iff Hk. unfold agrees_or. rewrite !(bind_ok _ _ _ _ _ Hm). by apply Hk.
Qed.

Section Without.
Context {E : Type} (f : periodic_read_fn E) (cfg : uds_config E).
#[local] Abbreviation cfg' := (with_periodic_read f cfg).

(** ** Everything but the scheduler *)

Lemma init_without : uds_init true (Some cfg') = uds_init true (Some cfg).
Proof. reflexivity. Qed.

Lemma input_without client_call data len :
  uds_input_sdu client_call (Some cfg') data len = uds_input_sdu client_call (Some cfg) data len.
Proof. reflexivity. Qed.

Lemma inv_without env_ok tb s : uds_inv env_ok tb cfg' s <-> uds_inv env_ok tb cfg s.
Proof. split; intros [Hc [H1 H2 H3] He]; (split; [done| |done]); by split. Qed.

(** ** The scheduler *)

Context (Hnone : fn_periodic_read cfg = None).

(** An identifier is registered. *)
Definition periodic_on (c : uds_ctx) : Prop :=
  0 < periodic_count c /\ exists id, id ∈ periodic_ids c /\ id <> 0.

Lemma slot_without now i s :
  (i < 8)%nat -> length (periodic_ids (ctx s)) = 8%nat -> length (periodic_timers (ctx s)) = 8%nat ->
  (process_periodic_slot cfg now (Z.of_nat i) s = Ok (tt, s) /\
   process_periodic_slot cfg' now (Z.of_nat i) s = Ok (tt, s)) \/
  (process_periodic_slot cfg now (Z.of_nat i) s = Fault NullDeref /\
   exists id, id ∈ periodic_ids (ctx s) /\ id <> 0).
Proof.
  intros Hi H1 H2. destruct (lookup_lt_is_Some_2 (periodic_ids (ctx s)) i) as [id Hid]; [lia|].
  destruct (lookup_lt_is_Some_2 (periodic_timers (ctx s)) i) as [t Ht]; [lia|].
  unfold process_periodic_slot, mbind, M_bind, get_ctx, data_at, mwhen.
  rewrite (proj2 (Z.leb_le 0 _)), Nat2Z.id, Hid by lia. cbn [mret M_ret].
  destruct (Z.eqb_spec id 0); cbn [negb]; [by left|]. rewrite Ht. cbn [mret M_ret].
  destruct (t <=? now); [|by left]. right. rewrite Hnone. split; [done|]. exists id. split; [|done].
  by apply list_elem_of_lookup_2 with i.
Qed.

Lemma slots_without now slots s :
  Forall (fun i => (i < 8)%nat) slots ->
  length (periodic_ids (ctx s)) = 8%nat -> length (periodic_timers (ctx s)) = 8%nat ->
  (mfor (map Z.of_nat slots) (process_periodic_slot cfg now) s = Ok (tt, s) /\
   mfor (map Z.of_nat slots) (process_periodic_slot cfg' now) s = Ok (tt, s)) \/
  (mfor (map Z.of_nat slots) (process_periodic_slot cfg now) s = Fault NullDeref /\
   exists id, id ∈ periodic_ids (ctx s) /\ id <> 0).
Proof.
  intros Hs H1 H2. induction Hs as [|i slots Hi _ IH]; [by left|]. cbn [map mfor].
  destruct (slot_without now i s Hi H1 H2) as [[Hr Hr']|[Hr ?]].
  - by rewrite (bind_ok _ _ _ _ _ Hr), (bind_ok _ _ _ _ _ Hr').
  - right. split; [|done]. by apply bind_fault.
Qed.

Lemma periodic_without now s :
  length (periodic_ids (ctx s)) = 8%nat -> length (periodic_timers (ctx s)) = 8%nat ->
  (process_periodic cfg now s = Ok (tt, s) /\ process_periodic cfg' now s = Ok (tt, s)) \/
  (process_periodic cfg now s = Fault NullDeref /\ periodic_on (ctx s)).
Proof.
  intros H1 H2. unfold process_periodic, mbind, M_bind, get_ctx, mwhen, periodic_on.
  destruct (Z.gtb_spec (periodic_count (ctx s)) 0); [|by left].
  destruct (slots_without now (seq 0 8) s) as [?|[? ?]]; [repeat constructor; lia|done|done|by left|by right].
Qed.

(** [uds_process] from a good state. *)
Lemma process_without env_ok tb s :
  ConfigOk env_ok tb cfg' -> uds_inv env_ok tb cfg s ->
  agrees_or (fun f => f = NullDeref /\ periodic_on (ctx s)) (uds_process (Some cfg)) (uds_process (Some cfg')) s.
Proof.
  intros Hok Hinv%inv_without. xopen constr:(cfg') Hinv. unfold uds_process.
  eapply agrees_bind; [apply (wp_lock env_ok tb cfg' (fun _ s' => exists e' tr',
    env_ok e' /\ s' = mkState c (<[tb := l]> m) e' tr')); [done|by eauto]|].
  intros _ s1 (e1 & tr1 & He1 & ->).
  eapply (agrees_bind _ (fun _ s' => exists e' tr', env_ok e' /\ s' = mkState c (<[tb := l]> m) e' tr')).
  { change (time_ms cfg) with (time_ms cfg'). eapply wp_time; [exact Hok|done|]. intros; eauto. }
  intros now s2 (e2 & tr2 & He2 & ->).
  eapply agrees_bind; [apply (wp_process_s3 env_ok tb cfg' now (fun _ s' => exists e' tr',
    env_ok e' /\ s' = mkState (s3_ctx now c) (<[tb := l]> m) e' tr')); [done|by eauto]|].
  intros _ s3 (e3 & tr3 & He3 & ->).
  eapply agrees_bind; [apply (wp_process_p2 env_ok tb cfg' now (fun _ s' =>
    periodic_ids (ctx s') = periodic_ids c /\ periodic_timers (ctx s') = periodic_timers c /\
    periodic_count (ctx s') = periodic_count c)); [done..|]|].
  { intros e4 l4 rs _ _ _ a _. unfold s3_ctx. destruct a, (s3_expired c now); done. }
  intros [] s4 (H1 & H2 & H3); [by left|]. destruct Hc as [_ _ Hids _ Htimers _].
  unfold periodic_on. cbn [ctx]. rewrite <- H1, <- H3.
  destruct (periodic_without now s4) as [[Hr Hr']|[Hr ?]]; [congruence..| |].
  - left. by rewrite (bind_ok _ _ _ _ _ Hr), (bind_ok _ _ _ _ _ Hr').
  - right. exists NullDeref. split; [|done]. by apply bind_fault.
Qed.
End Without.

(** The receiving side of the transport on top. *)
Lemma callback_without {C} f (cfg : uds_config (iso_env C)) client_call id data len :
  uds_isotp_rx_callback client_call (Some (with_periodic_read f cfg)) id data len =
  uds_isotp_rx_callback client_call (Some cfg) id data len.
Proof. reflexivity. Qed.
