(* ===== verification/Zephyr.v ===== *)
(** * The Zephyr port: [src/zephyr/]

    Clock and log of [uds_zephyr_port.c], the native ISO-TP socket of
    [uds_zephyr_isotp.c], the CAN driver glue of [uds_zephyr_tp_fallback.c] and the
    server of [examples/zephyr_uds_server/src/main.c] on the native transport
    ([ZephyrCan] has it on the fallback). The kernel is not under [src/]: it is the
    record [zephyr_api] of its calls, and [ZephyrOk] is what its documentation says
    of them. [printk] and [k_sleep] have no effect the code depends on. *)

From S2P Require Import Prelude Monad Types Machine CoreBase Contract Core IsoTp IsoTpTx IsoTpRx IsoTpLink Deploy.
From stdpp Require Import base gmap list strings numbers.

Open Scope Z_scope.

(** ** The kernel *)

(** [struct sockaddr_can] as the port fills it in, and [struct can_frame]. *)
Record can_addr : Set := mkCanAddr {
  can_family : Z;
  can_ifindex : Z;
  addr_rx_id : Z;
  addr_tx_id : Z
}.
Record can_frame : Set := mkFrame {
  frame_id : Z;
  frame_dlc : Z;
  frame_data : list Z
}.

(** Calls of the kernel over its state [O]; [CAN_MAX_DLEN] is the size of a
    frame's data array. [recv] returns its result and the bytes it stored. *)
Record zephyr_api (O : Type) : Type := mkZephyr {
  AF_CAN : Z;
  SOCK_DGRAM : Z;
  CAN_ISOTP : Z;
  F_GETFL : Z;
  F_SETFL : Z;
  O_NONBLOCK : Z;
  EAGAIN : Z;
  EWOULDBLOCK : Z;
  CAN_MAX_DLEN : Z;
  CAN_STD_ID_MASK : Z;
  k_uptime_get_32 : M O Z;
  sys_socket : Z -> Z -> Z -> M O Z;
  sys_bind : Z -> can_addr -> M O Z;
  sys_close : Z -> M O Z;
  sys_fcntl : Z -> Z -> Z -> M O Z;
  sys_send : Z -> list Z -> Z -> M O Z;
  sys_recv : Z -> Z -> Z -> M O (Z * list Z);
  sys_errno : M O Z;
  device_is_ready : M O bool;
  can_send_frame : can_frame -> M O Z;
  can_add_rx_filter : Z -> Z -> M O Z
}.
Arguments AF_CAN {_} _.
Arguments SOCK_DGRAM {_} _.
Arguments CAN_ISOTP {_} _.
Arguments F_GETFL {_} _.
Arguments F_SETFL {_} _.
Arguments O_NONBLOCK {_} _.
Arguments EAGAIN {_} _.
Arguments EWOULDBLOCK {_} _.
Arguments CAN_MAX_DLEN {_} _.
Arguments CAN_STD_ID_MASK {_} _.
Arguments k_uptime_get_32 {_} _.
Arguments sys_socket {_} _.
Arguments sys_bind {_} _.
Arguments sys_close {_} _.
Arguments sys_fcntl {_} _.
Arguments sys_send {_} _.
Arguments sys_recv {_} _.
Arguments sys_errno {_} _.
Arguments device_is_ready {_} _.
Arguments can_send_frame {_} _.
Arguments can_add_rx_filter {_} _.

(** Documented results: a socket call returns -1 or what it did, [recv] stores
    as many bytes as it returns and no more than the buffer holds, the CAN
    driver returns 0 or a negative error. *)
Class ZephyrOk {O} (os_ok : O -> Prop) (z : zephyr_api O) : Prop := {
  zo_uptime : cb_ok os_ok (k_uptime_get_32 z) (fun _ => True);
  zo_socket f t p : cb_ok os_ok (sys_socket z f t p) (fun _ => True);
  zo_bind fd a : cb_ok os_ok (sys_bind z fd a) (fun _ => True);
  zo_close fd : cb_ok os_ok (sys_close z fd) (fun _ => True);
  zo_fcntl fd c a : cb_ok os_ok (sys_fcntl z fd c a) (fun _ => True);
  zo_send fd data : cb_ok os_ok (sys_send z fd data 0) (fun r => r <= Z.of_nat (length data));
  zo_recv fd n : 0 <= n -> cb_ok os_ok (sys_recv z fd n 0)
    (fun p => Z.of_nat (length p.2) <= n /\ (p.1 < 0 \/ p.1 = Z.of_nat (length p.2)));
  zo_errno : cb_ok os_ok (sys_errno z) (fun _ => True);
  zo_ready : cb_ok os_ok (device_is_ready z) (fun _ => True);
  zo_can_send fr : cb_ok os_ok (can_send_frame z fr) (fun r => r <= 0);
  zo_filter id m : cb_ok os_ok (can_add_rx_filter z id m) (fun _ => True);
  zo_dlen : 8 <= CAN_MAX_DLEN z <= 64
}.

Section Port.
Context {O : Type} (z : zephyr_api O).

(** ** Clock and log *)

Definition uds_get_time_ms_zephyr : M O Z := k_uptime_get_32 z.
Definition uds_log_zephyr (level : Z) (msg : string) : M O unit := mret tt.

(** ** The native transport *)

Record native_env : Type := mkNative {
  g_isotp_fd : Z;
  native_os : O
}.
Definition set_native_os (o : O) (e : native_env) : native_env := mkNative (g_isotp_fd e) o.
Definition get_fd : M native_env Z := fun e => Ok (g_isotp_fd e, e).
Definition set_fd (fd : Z) : M native_env unit := fun e => Ok (tt, mkNative fd (native_os e)).
Definition native {A} (m : M O A) : M native_env A := zoom native_os set_native_os m.

Definition uds_zephyr_isotp_init (rx_id tx_id : Z) : M native_env Z :=
  fd ← native (sys_socket z (AF_CAN z) (SOCK_DGRAM z) (CAN_ISOTP z));
  set_fd fd ;;
  if fd <? 0 then mret (-1)
  else
    b ← native (sys_bind z fd (mkCanAddr (AF_CAN z) 0 rx_id tx_id));
    if b <? 0 then
      native (sys_close z fd) ;;
      set_fd (-1) ;;
      mret (-1)
    else
      flags ← native (sys_fcntl z fd (F_GETFL z) 0);
      native (sys_fcntl z fd (F_SETFL z) (Z.lor flags (O_NONBLOCK z))) ;;
      mret 0.

Definition uds_zephyr_isotp_send (c : uds_ctx) (data : list Z) (len : Z) : M native_env Z :=
  fd ← get_fd;
  if fd <? 0 then mret (-1)
  else
    sdu ← (if (0 <=? len) && (len <=? Z.of_nat (length data)) then mret (take (Z.to_nat len) data)
           else mfault OutOfBounds);
    ret ← native (sys_send z fd sdu 0);
    mret (if ret =? len then 0 else -1).

Definition uds_zephyr_isotp_recv (size : Z) : M native_env (Z * list Z) :=
  fd ← get_fd;
  if fd <? 0 then mret (0, [])
  else
    p ← native (sys_recv z fd size 0);
    if p.1 <? 0 then
      e ← native (sys_errno z);
      if (e =? EAGAIN z) || (e =? EWOULDBLOCK z) then mret (0, p.2) else mret (-1, p.2)
    else mret p.

(** ** The fallback transport

    The driver state under [uds_tp_isotp.c]. [g_current_uds_ctx] says whether
    the pointer has been set: there is one context. *)
Record zcan_env : Type := mkZcan {
  g_current_uds_ctx : bool;
  can_os : O
}.
Definition set_can_os (o : O) (e : zcan_env) : zcan_env := mkZcan (g_current_uds_ctx e) o.
Definition can_dev {A} (m : M O A) : M zcan_env A := zoom can_os set_can_os m.

Definition uds_internal_zephyr_can_send (id : Z) (data : list Z) (len : Z) : M zcan_env Z :=
  ready ← can_dev (device_is_ready z);
  if negb ready then mret (-1)
  else if (0 <=? len) && (len <=? Z.of_nat (length data)) && (len <=? CAN_MAX_DLEN z)
  then can_dev (can_send_frame z (mkFrame id len (take (Z.to_nat len) data)))
  else mfault OutOfBounds.

Definition uds_zephyr_tp_fallback_init (rx_id tx_id : Z) : M (iso_env zcan_env) Z :=
  ready ← zoom can set_can (can_dev (device_is_ready z));
  if negb ready then mret (-1)
  else
    zoom can set_can (fun e => Ok (tt, mkZcan true (can_os e))) ;;
    uds_tp_isotp_init (Some uds_internal_zephyr_can_send) tx_id rx_id ;;
    zoom can set_can (can_dev (can_add_rx_filter z rx_id (CAN_STD_ID_MASK z))).

Section RxCb.
Context (client_call : N -> Z -> list Z -> Z -> M (uds_state (iso_env zcan_env)) unit).

Definition uds_internal_zephyr_can_rx_cb (cfg : ctx_ptr (iso_env zcan_env)) (frame : can_frame)
    : M (uds_state (iso_env zcan_env)) unit :=
  set ← call (zoom can set_can (fun e => Ok (g_current_uds_ctx e, e)));
  if (set : bool)
  then uds_isotp_rx_callback client_call cfg (frame_id frame) (frame_data frame) (frame_dlc frame)
  else mret tt.
End RxCb.
End Port.
Arguments g_isotp_fd {_} _.
Arguments native_os {_} _.
Arguments mkNative {_} _ _.
Arguments g_current_uds_ctx {_} _.
Arguments can_os {_} _.
Arguments mkZcan {_} _ _.

(** ** The server of [examples/zephyr_uds_server]

    Buffers of the default [CONFIG_UDSLIB_*_BUFFER_SIZE]; members the code leaves
    out are zero. *)
Definition zephyr_rx_buf : N := 1.
Definition zephyr_tx_buf : N := 2.
Definition CONFIG_UDSLIB_MAX_SDU_SIZE : Z := 4095.

Definition zephyr_cfg {E} (time : M E Z) (log : Z -> string -> M E unit)
    (tp_send_func : uds_ctx -> list Z -> Z -> M E Z) : uds_config E :=
  plain_config time tp_send_func (Some log) 50 5000 zephyr_rx_buf 4096 zephyr_tx_buf 4096 false 0 None None 0%N.

Section Server.
Context {O : Type} (z : zephyr_api O).

Definition native_cfg : uds_config native_env :=
  zephyr_cfg (native (uds_get_time_ms_zephyr z)) (fun l m => native (uds_log_zephyr l m)) (uds_zephyr_isotp_send z).

Context (client_call : N -> Z -> list Z -> Z -> M (uds_state (@native_env O)) unit).

(** [main] up to the loop, with the native transport. *)
Definition native_start : M (uds_state native_env) Z :=
  r ← call (uds_zephyr_isotp_init z 0x7E0 0x7E8);
  if r <? 0 then mret (-1)
  else
    i ← uds_init true (Some native_cfg);
    if negb (i =? 0) then mret (-1) else mret 0.

(** One iteration of the loop. *)
Definition native_step : M (uds_state native_env) unit :=
  p ← call (uds_zephyr_isotp_recv z (u16 CONFIG_UDSLIB_MAX_SDU_SIZE));
  mwhen (p.1 >? 0) (uds_input_sdu client_call (Some native_cfg) (Some p.2) (u16 p.1)) ;;
  uds_process (Some native_cfg).

End Server.

(** ** The transports keep the core's contract *)

Section Contracts.
Context {O : Type} (os_ok : O -> Prop) (z : zephyr_api O) `{Hz : !ZephyrOk os_ok z}.

Lemma wp_native {A} (m : M O A) R (Q : A -> native_env -> Prop) e :
  cb_ok os_ok m R -> os_ok (native_os e) ->
  (forall a o, m (native_os e) = Ok (a, o) -> R a -> os_ok o -> Q a (mkNative (g_isotp_fd e) o)) ->
  wp (native m) Q e.
Proof.
  intros Hm He HQ. apply wp_zoom. specialize (Hm _ He). unfold wp in *.
  destruct (m (native_os e)) as [[a o]|] eqn:Hrun; [|done]. destruct Hm. by apply HQ.
Qed.

(** The native Zephyr transport keeps what the core relies on: initialisation ends
    with an open socket and 0, or with none and -1; sending returns 0 exactly when the
    socket is open and took the whole SDU, -1 otherwise, and leaves a closed socket
    alone; receiving never returns more bytes than the buffer holds nor more than were
    stored. *)
Theorem native_transport e :
  os_ok (native_os e) ->
  (forall rx tx, wp (uds_zephyr_isotp_init z rx tx) (fun r e' => os_ok (native_os e') /\
     (r = 0 /\ 0 <= g_isotp_fd e' \/ r = -1 /\ g_isotp_fd e' < 0)) e) /\
  (forall c sdu, wp (uds_zephyr_isotp_send z c sdu (Z.of_nat (length sdu))) (fun r e' =>
     os_ok (native_os e') /\ g_isotp_fd e' = g_isotp_fd e /\
     if g_isotp_fd e <? 0 then r = -1 /\ e' = e
     else exists n, sys_send z (g_isotp_fd e) sdu 0 (native_os e) = Ok (n, native_os e') /\
       r = if n =? Z.of_nat (length sdu) then 0 else -1) e) /\
  (forall size, 0 <= size -> wp (uds_zephyr_isotp_recv z size) (fun p e' =>
     os_ok (native_os e') /\ Z.of_nat (length p.2) <= size /\ -1 <= p.1 <= size /\
     (0 < p.1 -> p.1 = Z.of_nat (length p.2))) e).
Proof.
  intros He. split_and!.
  - intros rx tx. unfold uds_zephyr_isotp_init. apply wp_bind.
    eapply wp_native; [apply zo_socket|done|]. intros fd o1 _ _ H1. apply wp_bind. unfold wp at 1, set_fd. cbn [native_os].
    destruct (Z.ltb_spec fd 0); [apply wp_ret; split; [done|by right]|].
    apply wp_bind. eapply wp_native; [apply zo_bind|done|]. intros b o2 _ _ H2. cbn [native_os g_isotp_fd] in *.
    destruct (b <? 0).
    + apply wp_bind. eapply wp_native; [apply zo_close|done|]. intros ? o3 _ _ H3.
      apply wp_bind. unfold wp at 1, set_fd. apply wp_ret. cbn [native_os g_isotp_fd]. split; [done|right; lia].
    + apply wp_bind. eapply wp_native; [apply zo_fcntl|done|]. intros flags o3 _ _ H3.
      apply wp_bind. eapply wp_native; [apply zo_fcntl|done|]. intros ? o4 _ _ H4. apply wp_ret. by split; [|left].
  - intros c sdu. unfold uds_zephyr_isotp_send. apply wp_bind. unfold wp at 1, get_fd.
    destruct (g_isotp_fd e <? 0); [by apply wp_ret|].
    rewrite (proj2 (Z.leb_le 0 _)), Z.leb_refl, Nat2Z.id, firstn_all by lia. apply wp_bind, wp_ret, wp_bind.
    eapply wp_native; [apply zo_send|done|]. intros n o Hrun _ Ho. apply wp_ret. cbn [native_os g_isotp_fd].
    split; [done|]. split; [done|]. by exists n.
  - intros size Hs. unfold uds_zephyr_isotp_recv. apply wp_bind. unfold wp at 1, get_fd.
    destruct (g_isotp_fd e <? 0); [apply wp_ret; cbn; split; [done|lia]|].
    apply wp_bind. eapply wp_native; [by apply zo_recv|done|]. intros [n bs] o _ [Hl Hn] Ho. cbn [fst snd] in *.
    destruct (Z.ltb_spec n 0).
    + apply wp_bind. eapply wp_native; [apply zo_errno|done|]. intros err o2 _ _ Ho2.
      destruct (_ || _); apply wp_ret; cbn; (split; [done|lia]).
    + apply wp_ret. cbn. split; [done|]. destruct Hn as [?| ->]; lia.
Qed.

(** So it can stand as [fn_tp_send] of a configuration, and the driver wrapper
    as the [can_send] of the fallback for every frame the array holds. *)
Lemma native_send_contract c sdu :
  cb_ok (fun e => os_ok (native_os e)) (uds_zephyr_isotp_send z c sdu (Z.of_nat (length sdu))) (fun r => r <= 0).
Proof.
  intros e He. unfold uds_zephyr_isotp_send. apply wp_bind. unfold wp at 1, get_fd.
  destruct (g_isotp_fd e <? 0); [by apply wp_ret|].
  rewrite (proj2 (Z.leb_le 0 _)), Z.leb_refl, Nat2Z.id, firstn_all by lia. apply wp_bind, wp_ret, wp_bind.
  eapply wp_native; [apply zo_send|done|]. intros n o _ _ Ho. apply wp_ret. split; [|done]. by destruct (_ =? _).
Qed.

Lemma zephyr_can_send_ok id d e :
  os_ok (can_os e) -> Z.of_nat (length d) <= CAN_MAX_DLEN z ->
  wp (uds_internal_zephyr_can_send z id d (Z.of_nat (length d))) (fun r e' => r <= 0 /\ os_ok (can_os e')) e.
Proof.
  intros He Hd. unfold uds_internal_zephyr_can_send, can_dev. apply wp_bind, wp_zoom.
  eapply wp_mono; [by apply (zo_ready (can_os e))|]. intros ready o [_ Ho].
  destruct (negb ready); [by apply wp_ret|]. rewrite (proj2 (Z.leb_le 0 _)), Z.leb_refl, (proj2 (Z.leb_le _ _) Hd) by lia.
  cbn [andb]. apply wp_zoom. eapply wp_mono; [by apply zo_can_send|]. by intros r o' [? ?].
Qed.
End Contracts.

(** ** A kernel with one datagram waiting *)

Definition scripted_kernel (sdu : list Z) : zephyr_api Z := {|
  AF_CAN := 29; SOCK_DGRAM := 2; CAN_ISOTP := 2; F_GETFL := 3; F_SETFL := 4; O_NONBLOCK := 0x4000;
  EAGAIN := 11; EWOULDBLOCK := 11; CAN_MAX_DLEN := 8; CAN_STD_ID_MASK := 0x7FF;
  k_uptime_get_32 := fun t => Ok (t, t + 1);
  sys_socket _ _ _ := mret 3; sys_bind _ _ := mret 0; sys_close _ := mret 0; sys_fcntl _ _ _ := mret 0;
  sys_send _ d _ := mret (Z.of_nat (length d));
  sys_recv _ n _ := mret (if Z.of_nat (length sdu) <=? n then (Z.of_nat (length sdu), sdu) else (-1, []));
  sys_errno := mret 11; device_is_ready := mret true; can_send_frame _ := mret 0; can_add_rx_filter _ _ := mret 0
|}.

#[export] Instance scripted_kernel_ok sdu : ZephyrOk (fun _ => True) (scripted_kernel sdu).
Proof.
  split; cbn; try lia; try (intros; intros o Ho; by apply wp_ret); try (intros; by intros o Ho).
  intros fd n Hn o Ho. apply wp_ret. destruct (Z.leb_spec (Z.of_nat (length sdu)) n); cbn; [|lia].
  split; [|done]. split; [done|by right].
Qed.

(** What a client callback does is of no concern to a server. *)
Definition no_client {E} (cb : N) (sid : Z) (payload : list Z) (n : Z) : M (uds_state E) unit := mret tt.

(** The server from power-up through the iteration that receives [sdu]. *)
Definition native_run (sdu : list Z) : outcome (unit * uds_state native_env) :=
  (native_start (scripted_kernel sdu) ;; native_step (scripted_kernel sdu) no_client)
    (mkState zero_ctx (<[zephyr_rx_buf := replicate 4096 0]> {[zephyr_tx_buf := replicate 4096 0]}) (mkNative (-1) 1000) []).

(** C36: The Zephyr server on the native transport, on one scripted kernel and clock,
    started and sent one request 2A for any rate 1 to 3 and any non-zero periodic
    identifier, calls a NULL function pointer in the same turn of its loop: the 0x2A
    handler registers the identifier although the configuration has no fn_periodic_read. *)
Theorem zephyr_server_null_call mode id :
  1 <= mode <= 3 -> 1 <= id < 256 -> native_run [0x2A; mode; id] = Fault NullDeref.
Proof.
  intros Hm Hid.
  assert (H : forallb (fun m => forallb (fun i => match native_run [0x2A; m; i] with
    Fault NullDeref => true | _ => false end) (seqZ 1 255)) [1; 2; 3] = true) by by vm_compute.
  rewrite forallb_forall in H. specialize (H mode ltac:(cbn; lia)). rewrite forallb_forall in H.
  specialize (H id ltac:(apply list_elem_of_In, elem_of_seqZ; lia)).
  destruct (native_run _) as [|[]]; done.
Qed.
