(* ===== verification/ZephyrCan.v ===== *)
(** * The Zephyr server on the fallback transport

    [examples/zephyr_uds_server/src/main.c] built with
    [CONFIG_UDSLIB_TRANSPORT_FALLBACK]: ISO-TP over the CAN driver, frames
    arriving in the driver's callback between the turns of the main loop. The
    configuration is the one [main] fills in: it names no [fn_periodic_read], so what
    is proved of the server goes through [PeriodicRead]. *)

From S2P Require Import Prelude Monad Types Machine CoreBase Contract HandlerLogic Core CoreDispatch CoreApi CoreInit.
From S2P Require Import IsoTp IsoTpTx IsoTpRx IsoTpLink Deploy Zephyr PeriodicRead.
From stdpp Require Import base gmap list strings numbers.

Open Scope Z_scope.

(** ** [main] *)

Section Main.
Context {O : Type} (z : zephyr_api O).
Context (client_call : N -> Z -> list Z -> Z -> M (uds_state (iso_env (@zcan_env O))) unit).

Definition fallback_cfg : uds_config (iso_env zcan_env) :=
  zephyr_cfg (zoom can set_can (can_dev (uds_get_time_ms_zephyr z)))
    (fun l m => zoom can set_can (can_dev (uds_log_zephyr l m))) uds_isotp_send.

(** [main] up to the loop. *)
Definition fallback_start : M (uds_state (iso_env zcan_env)) Z :=
  r ← call (uds_zephyr_tp_fallback_init z 0x7E0 0x7E8);
  if r <? 0 then mret (-1)
  else
    i ← uds_init true (Some fallback_cfg);
    if negb (i =? 0) then mret (-1) else mret 0.

(** One turn of the loop, for the configuration the context points to. *)
Definition fallback_step (cfg : uds_config (iso_env zcan_env)) : M (uds_state (iso_env zcan_env)) unit :=
  t ← call (zoom can set_can (can_dev (uds_get_time_ms_zephyr z)));
  call (uds_tp_isotp_process t) ;;
  uds_process (Some cfg).

(** What happens to the running server: the driver delivers a frame, or the loop turns. *)
Inductive server_op : Type :=
| DriverFrame (frame : can_frame)
| LoopTurn.

Definition run_server_op (cfg : uds_config (iso_env zcan_env)) (o : server_op)
    : M (uds_state (iso_env zcan_env)) unit :=
  match o with
  | DriverFrame frame => uds_internal_zephyr_can_rx_cb client_call (Some cfg) frame
  | LoopTurn => fallback_step cfg
  end.

Definition fallback_main (ops : list server_op) : M (uds_state (iso_env zcan_env)) Z :=
  r ← fallback_start;
  if negb (r =? 0) then mret r
  else mfor ops (run_server_op fallback_cfg) ;; mret 0.
End Main.

(** A frame as the driver delivers it: any content, an array of 8 to 64 bytes, a length
    code from 0 to the array's size. *)
Definition server_op_ok (o : server_op) : Prop :=
  match o with
  | DriverFrame frame =>
      Forall is_byte (frame_data frame) /\ (8 <= length (frame_data frame) <= 64)%nat /\
      0 <= frame_dlc frame <= Z.of_nat (length (frame_data frame))
  | LoopTurn => True
  end.

(** ** Frames of length 0

    The glue passes the length code on, and the transport computes with [len - 1]. *)

(** A consecutive frame that a reception waits for, when at least as many bytes are
    missing as the array holds. *)
Definition empty_cf {C} (i : uds_isotp_ctx C) (data : list Z) : Prop :=
  iso_state i = ISOTP_RX_WAIT_CF /\
  exists b, data !! 0%nat = Some b /\ b / 16 = 2 /\ b mod 16 = iso_sn i /\
    Z.of_nat (length data) <= u16 (msg_len i - bytes_processed i).

Section Empty.
Context {C : Type} (client_call : N -> Z -> list Z -> Z -> M (uds_state (iso_env C)) unit).
Context (cfg : uds_config (iso_env C)).

Lemma empty_consecutive data b (s : uds_state (iso_env C)) :
  data !! 0%nat = Some b -> b / 16 = 2 -> (8 <= length data <= 64)%nat ->
  (exists len, 1 <= len <= Z.of_nat (length data) /\
     uds_rx_cf client_call (Some cfg) data 0 s = uds_rx_cf client_call (Some cfg) data len s) \/
  (uds_rx_cf client_call (Some cfg) data 0 s = Fault OutOfBounds /\ empty_cf (g_isotp_ctx (env s)) data).
Proof.
  intros Hd Hb Hlen. destruct s as [c m [i p pl cn fr] tr]. unfold uds_rx_cf. cbn [env g_isotp_ctx].
  set (s0 := mkState c m (mkIsoEnv i p pl cn fr) tr).
  assert (Hg : call get_iso s0 = Ok (i, s0)) by done. rewrite (bind_ok _ _ _ _ _ Hg).
  case_bool_decide as Hw; cbn [negb].
  2: { left. exists 1. split; [lia|]. rewrite (bind_ok _ _ _ _ _ Hg). by rewrite bool_decide_eq_false_2. }
  assert (Hd0 : forall s : uds_state (iso_env C), data_at data 0 s = Ok (b, s)) by by intros; unfold data_at; change (Z.to_nat 0) with 0%nat; rewrite Hd.
  rewrite (bind_ok _ _ _ _ _ (Hd0 _)), land_15.
  destruct (Z.eqb_spec (b mod 16) (iso_sn i)) as [Hsn|Hsn]; cbn [negb].
  2: { left. exists 1. split; [lia|]. rewrite (bind_ok _ _ _ _ _ Hg), bool_decide_eq_true_2 by done. cbn [negb].
       rewrite (bind_ok _ _ _ _ _ (Hd0 _)), land_15. by rewrite (proj2 (Z.eqb_neq _ _) Hsn). }
  cbv zeta. change (u8 (0 - 1)) with 255. set (rem := u16 (msg_len i - bytes_processed i)).
  pose proof (u16_range (msg_len i - bytes_processed i)) as Hrem. fold rem in Hrem.
  destruct (Z.le_gt_cases (Z.of_nat (length data)) rem) as [Hfull|Hfit].
  - right. split; [|by split; [|exists b]].
    rewrite (bind_ok _ _ _ _ _ (eq_refl : call (mod_iso _) s0 = Ok (tt, _))). unfold config_of, fnptr.
    rewrite (bind_ok _ _ _ cfg _ eq_refl). unfold mbind, M_bind, frame_slice, call, zoom, slice.
    rewrite Z.gtb_ltb. rewrite (proj2 (Z.leb_gt (1 + _) _)); [by rewrite !andb_false_r|].
    destruct (Z.ltb_spec 255 rem); [lia|]. rewrite u8_small by lia. lia.
  - left. exists (rem + 1). split; [lia|].
    rewrite (bind_ok _ _ _ _ _ Hg), bool_decide_eq_true_2 by done. cbn [negb].
    rewrite (bind_ok _ _ _ _ _ (Hd0 _)), land_15, Hsn, Z.eqb_refl. cbn [negb]. cbv zeta. fold rem.
    rewrite !Z.gtb_ltb. rewrite (proj2 (Z.ltb_ge 255 rem)) by lia.
    replace (rem + 1 - 1) with rem by lia. rewrite u8_small, Z.ltb_irrefl by lia. done.
Qed.

(** A frame of length 0 does what a longer one with the same bytes does, or the copy of
    a consecutive frame reads beyond the array. *)
Lemma empty_frame id data (s : uds_state (iso_env C)) :
  Forall is_byte data -> (8 <= length data <= 64)%nat ->
  (exists len, 1 <= len <= Z.of_nat (length data) /\
     uds_isotp_rx_callback client_call (Some cfg) id data 0 s =
     uds_isotp_rx_callback client_call (Some cfg) id data len s) \/
  (uds_isotp_rx_callback client_call (Some cfg) id data 0 s = Fault OutOfBounds /\
   id = rx_id (g_isotp_ctx (env s)) /\ empty_cf (g_isotp_ctx (env s)) data).
Proof.
  intros Hb Hlen. destruct (lookup_lt_is_Some_2 data 0) as [b Hd]; [lia|].
  destruct (lookup_lt_is_Some_2 data 1) as [b1 Hd1]; [lia|].
  pose proof (Forall_lookup_1 _ _ _ _ Hb Hd) as Hb0. pose proof (Forall_lookup_1 _ _ _ _ Hb Hd1) as Hb1.
  unfold is_byte in Hb0, Hb1. destruct s as [c m [i p pl cn fr] tr]. cbn [env g_isotp_ctx].
  set (s0 := mkState c m (mkIsoEnv i p pl cn fr) tr).
  assert (Hg : call get_iso s0 = Ok (i, s0)) by done.
  assert (Hd0 : forall s : uds_state (iso_env C), data_at data 0 s = Ok (b, s))
    by by intros; unfold data_at; change (Z.to_nat 0) with 0%nat; rewrite Hd.
  assert (H1 : forall s : uds_state (iso_env C), data_at data 1 s = Ok (b1, s))
    by by intros; unfold data_at; change (Z.to_nat 1) with 1%nat; rewrite Hd1.
  assert (Hcb : forall len, uds_isotp_rx_callback client_call (Some cfg) id data len s0 =
    if negb (id =? rx_id i) then Ok (tt, s0)
    else if b / 16 * 16 =? 0 then uds_rx_sf client_call (Some cfg) data len s0
    else if b / 16 * 16 =? 16 then uds_rx_ff (Some cfg) data len s0
    else if b / 16 * 16 =? 32 then uds_rx_cf client_call (Some cfg) data len s0
    else if b / 16 * 16 =? 48 then uds_rx_fc data s0 else Ok (tt, s0)).
  { intros len. unfold uds_isotp_rx_callback. rewrite (bind_ok _ _ _ _ _ Hg). destruct (negb _); [done|].
    rewrite (bind_ok _ _ _ _ _ (Hd0 _)). cbv zeta. rewrite land_240 by done.
    unfold ISOTP_PCI_SF, ISOTP_PCI_FF, ISOTP_PCI_CF, ISOTP_PCI_FC.
    repeat match goal with |- context [if ?t then _ else _] => destruct t; [done|] end. done. }
  setoid_rewrite Hcb. destruct (Z.eqb_spec id (rx_id i)); cbn [negb]; [|left; exists 1; split; [lia|done]].
  destruct (Z.eqb_spec (b / 16 * 16) 32) as [Hcf|Hcf].
  - rewrite (proj2 (Z.eqb_neq (b / 16 * 16) 0)), (proj2 (Z.eqb_neq (b / 16 * 16) 16)) by lia.
    destruct (empty_consecutive data b s0 Hd ltac:(lia) Hlen) as [?|[? ?]]; [by left|by right].
  - left. exists 1. split; [lia|]. destruct (_ =? 0); [|done].
    unfold uds_rx_sf. rewrite !(bind_ok _ _ _ _ _ (eq_refl : call (mod_iso (set_iso_state ISOTP_IDLE)) s0 = Ok (tt, _))).
    rewrite !(bind_ok _ _ _ _ _ (Hd0 _)). cbv zeta. rewrite land_15. pose proof (Z.mod_pos_bound b 16 ltac:(lia)).
    destruct (Z.eqb_spec (b mod 16) 0).
    + rewrite !(bind_ok _ _ _ _ _ (H1 _)), !Z.gtb_ltb. destruct (b1 =? 0); [done|].
      by rewrite !(proj2 (Z.ltb_lt _ b1)) by lia.
    + rewrite !Z.gtb_ltb. by rewrite !(proj2 (Z.ltb_lt _ (b mod 16))) by lia.
Qed.
End Empty.

(** ** The server survives its bus up to two traps *)

Section Safe.
Context {O : Type} (os_ok : O -> Prop) (z : zephyr_api O) `{Hz : !ZephyrOk os_ok z}.

(** The driver's state under the transport. *)
Definition zcan_ok (e : @zcan_env O) : Prop := os_ok (can_os e).

(** The configuration with a callback that has nothing to report. *)
Definition no_data : periodic_read_fn (iso_env (@zcan_env O)) := fun c id n => mret (0, []).

#[local] Abbreviation cfg := (fallback_cfg z).
#[local] Abbreviation cfg' := (with_periodic_read no_data cfg).
#[local] Abbreviation env_ok := (iso_ok zcan_ok 4096).

(** A call of the kernel from under the transport. *)
Lemma wp_kernel {A} (m : M O A) R (Q : A -> iso_env zcan_env -> Prop) i p pl g o fr :
  cb_ok os_ok m R -> os_ok o ->
  (forall a o', returns os_ok m a -> R a -> os_ok o' -> Q a (mkIsoEnv i p pl (mkZcan g o') fr)) ->
  wp (zoom can set_can (can_dev m)) Q (mkIsoEnv i p pl (mkZcan g o) fr).
Proof.
  intros Hm Ho HQ. apply wp_zoom, wp_zoom. eapply wp_mono; [by apply cb_ok_returns|].
  intros a o' [[HR Hret] Ho']. by apply HQ.
Qed.

(** The glue keeps the transport's contract for classic frames. *)
Lemma zephyr_driver_ok : driver_ok zcan_ok (fun r => r <= 0) 8 (uds_internal_zephyr_can_send z).
Proof.
  intros id d c Hc Hd. pose proof (zo_dlen (z := z)). by apply (zephyr_can_send_ok os_ok z); [|lia].
Qed.

(** With the callback the configuration of [main] keeps the stack's contract. *)
#[export] Instance completed_ok : ConfigOk env_ok zephyr_tx_buf cfg'.
Proof.
  split; cbn; try done; try (intros; discriminate); try lia.
  - eexists. split; [done|]. intros [i p pl [g o] fr] [Hd Hc Hp Hi]. cbn in Hd, Hc, Hp, Hi.
    eapply wp_kernel; [apply zo_uptime|exact Hc|]. intros t o' _ _ Ho'. by split.
  - eexists. split; [done|]. intros c sdu. apply send_contract.
  - intros f [= <-] l m [i p pl [g o] fr] [Hd Hc Hp Hi]. by do 2 apply wp_zoom.
  - exists no_data. split; [done|]. intros c i n Hn e He. apply wp_ret. split; [cbn; lia|done].
Qed.

#[export] Instance completed_users : UsersOk env_ok zephyr_tx_buf cfg'.
Proof. by split. Qed.

(** ** The first lines of [main] *)

Lemma wp_fallback_init rx_id tx_id (Q : Z -> iso_env zcan_env -> Prop) i p pl g o fr :
  os_ok o -> length p = 1024%nat ->
  (forall e, returns os_ok (device_is_ready z) false -> Q (-1) e) ->
  (forall r e, returns os_ok (can_add_rx_filter z rx_id (CAN_STD_ID_MASK z)) r -> env_ok e -> Q r e) ->
  wp (uds_zephyr_tp_fallback_init z rx_id tx_id) Q (mkIsoEnv i p pl (mkZcan g o) fr).
Proof.
  intros Ho Hp Hdown Hup. unfold uds_zephyr_tp_fallback_init. apply wp_bind.
  eapply wp_kernel; [apply zo_ready|done|]. intros [] o1 Hret _ Ho1; cbn [negb].
  2: { by apply wp_ret, Hdown. }
  apply wp_bind. unfold wp at 1, zoom. cbn. apply wp_bind. unfold wp at 1, uds_tp_isotp_init, mod_iso. cbn.
  eapply wp_kernel; [apply zo_filter|done|]. intros r o2 Hr _ Ho2. apply Hup; [done|].
  split; cbn; [|done|done|by apply iso_ctx_idle; cbn; [lia|]].
  eexists. split; [reflexivity|]. apply zephyr_driver_ok.
Qed.

(** Why [main] gives up. *)
Definition refused : Prop :=
  returns os_ok (device_is_ready z) false \/
  exists n, n < 0 /\ returns os_ok (can_add_rx_filter z 0x7E0 (CAN_STD_ID_MASK z)) n.

Lemma wp_fallback_start c m e tr :
  mem_ok zephyr_tx_buf cfg m -> os_ok (can_os (can e)) -> length (g_pending_tx_sdu e) = 1024%nat ->
  wp (fallback_start z) (fun r s' =>
    r = -1 /\ refused \/
    r = 0 /\ uds_inv env_ok zephyr_tx_buf cfg s' /\ security_level (ctx s') = 0 /\ exists evs, trace s' = tr ++ evs)
    (mkState c m e tr).
Proof.
  intros Hm Ho Hp. destruct e as [i p pl [g o] fr]. cbn [can can_os g_pending_tx_sdu] in *.
  unfold fallback_start. apply wp_bind, wp_call. apply wp_fallback_init; [done..| |].
  { intros e Hdown. apply wp_ret. left. by split; [|left]. }
  intros r e Hr He. destruct (Z.ltb_spec r 0).
  { apply wp_ret. left. split; [done|]. right. by exists r. }
  apply wp_bind. rewrite <- (init_without no_data).
  eapply wp_init; [apply completed_ok|done|by eexists|done|].
  intros res bytes e' evs Hl He' _. apply wp_ret. cbn [Z.eqb negb]. right. split; [done|].
  cbn in Hl. subst res. split; [|split; [done|by exists evs]].
  apply (inv_without no_data cfg). destruct Hm. split; [apply (init_ctx_ok env_ok zephyr_tx_buf), completed_ok|by split|done].
Qed.

(** ** The loop *)

Context (client_call : N -> Z -> list Z -> Z -> M (uds_state (iso_env (@zcan_env O))) unit).
Context `{Hclient : !ClientOk env_ok zephyr_tx_buf cfg client_call}.

#[local] Instance completed_client : ClientOk env_ok zephyr_tx_buf cfg' client_call.
Proof.
  intros cb sd payload n s Hi%(inv_without no_data cfg). eapply wp_mono; [exact (Hclient cb sd payload n s Hi)|].
  intros _ s' [Hi' ?]. split; [by apply (inv_without no_data cfg)|done].
Qed.

(** The two ways down: a due periodic identifier, and a consecutive frame of length 0. *)
Definition server_trap (o : server_op) (s : uds_state (iso_env (@zcan_env O))) (f : fault) : Prop :=
  match o with
  | LoopTurn => f = NullDeref /\ periodic_on (ctx s)
  | DriverFrame frame =>
      f = OutOfBounds /\ frame_id frame = rx_id (g_isotp_ctx (env s)) /\ frame_dlc frame = 0 /\
      empty_cf (g_isotp_ctx (env s)) (frame_data frame)
  end.

(** Otherwise each step keeps the invariant and moves the access rights as the core does. *)
Definition server_post (s s' : uds_state (iso_env (@zcan_env O))) : Prop :=
  uds_inv env_ok zephyr_tx_buf cfg s' /\
  exists evs, trace s' = trace s ++ evs /\ access_run (ctx s) (ctx s') evs.

Lemma server_post_trans s1 s2 s3 : server_post s1 s2 -> server_post s2 s3 -> server_post s1 s3.
Proof.
  intros (_ & evs1 & Ht1 & Ha1) (Hi & evs2 & Ht2 & Ha2). split; [done|]. exists (evs1 ++ evs2).
  rewrite Ht2, Ht1, app_assoc. split; [done|]. by eapply access_run_trans.
Qed.

(** A step of the stack with the callback. *)
Lemma completed_step o s :
  uds_inv env_ok zephyr_tx_buf cfg s -> stack_ok 4096 o ->
  wp (run_stack client_call cfg' o) (fun _ => server_post s) s.
Proof.
  intros Hi%(inv_without no_data cfg) Ho.
  eapply wp_mono; [by apply (run_stack_ok zcan_ok zephyr_tx_buf cfg' client_call zephyr_rx_buf)|].
  intros _ s' [Hi' ?]. split; [by apply (inv_without no_data cfg)|done].
Qed.

Lemma frame_step frame s :
  uds_inv env_ok zephyr_tx_buf cfg s -> server_op_ok (DriverFrame frame) ->
  match run_server_op z client_call cfg (DriverFrame frame) s with
  | Ok (_, s') => server_post s s'
  | Fault f => server_trap (DriverFrame frame) s f
  end.
Proof.
  intros Hi (Hb & Hl & Hd). cbn [run_server_op].
  assert (Hlong : forall len, 1 <= len <= Z.of_nat (length (frame_data frame)) ->
    wp (uds_isotp_rx_callback client_call (Some cfg) (frame_id frame) (frame_data frame) len) (fun _ => server_post s) s).
  { intros len Hlen. rewrite <- (callback_without no_data).
    apply (completed_step (StackFrame (frame_id frame) (frame_data frame) len)); [done|]. by split_and!; try lia. }
  unfold uds_internal_zephyr_can_rx_cb. destruct s as [c m [i p pl [g o] fr] tr].
  rewrite (bind_ok _ _ _ g (mkState c m (mkIsoEnv i p pl (mkZcan g o) fr) tr)) by done.
  destruct g; [|split; [done|]; exists []; rewrite app_nil_r; by split; [|apply access_run_refl]].
  assert (Hok : forall len, 1 <= len <= Z.of_nat (length (frame_data frame)) ->
    match uds_isotp_rx_callback client_call (Some cfg) (frame_id frame) (frame_data frame) len
      (mkState c m (mkIsoEnv i p pl (mkZcan true o) fr) tr) with
    | Ok (_, s') => server_post (mkState c m (mkIsoEnv i p pl (mkZcan true o) fr) tr) s'
    | Fault f => server_trap (DriverFrame frame) (mkState c m (mkIsoEnv i p pl (mkZcan true o) fr) tr) f
    end).
  { intros len Hlen. by destruct (proj1 (wp_iff _ _ _) (Hlong len Hlen)) as ([] & s' & -> & ?). }
  destruct (decide (frame_dlc frame = 0)) as [H0|]; [|by apply Hok; lia]. rewrite H0.
  destruct (empty_frame client_call cfg (frame_id frame) (frame_data frame)
    (mkState c m (mkIsoEnv i p pl (mkZcan true o) fr) tr) Hb Hl) as [(len & Hlen & ->)|[-> [Hid He]]];
    [by apply Hok|exact (conj eq_refl (conj Hid (conj H0 He)))].
Qed.

Lemma turn_step s :
  uds_inv env_ok zephyr_tx_buf cfg s ->
  match run_server_op z client_call cfg LoopTurn s with
  | Ok (_, s') => server_post s s'
  | Fault f => server_trap LoopTurn s f
  end.
Proof.
  intros Hi. cbn [run_server_op server_trap]. unfold fallback_step.
  assert (Hpre : forall s0, uds_inv env_ok zephyr_tx_buf cfg s0 ->
    wp (call (zoom can set_can (can_dev (uds_get_time_ms_zephyr z))))
      (fun _ s1 => uds_inv env_ok zephyr_tx_buf cfg s1 /\ ctx s1 = ctx s0 /\ trace s1 = trace s0) s0).
  { intros [c m [i p pl [g o] fr] tr] [Hc Hm [Hd Hcan Hp He]]. apply wp_call. eapply wp_kernel; [apply zo_uptime|exact Hcan|].
    intros t o' _ _ Ho'. split; [|done]. split; [done..|]. by split. }
  destruct (proj1 (wp_iff _ _ _) (Hpre s Hi)) as (t & s1 & Hr1 & Hi1 & Hc1 & Ht1). rewrite (bind_ok _ _ _ _ _ Hr1).
  assert (Htick : wp (call (uds_tp_isotp_process t))
    (fun _ s2 => uds_inv env_ok zephyr_tx_buf cfg s2 /\ ctx s2 = ctx s1 /\ trace s2 = trace s1) s1).
  { destruct s1 as [c m e tr], Hi1 as [Hc Hm He]. apply wp_call. eapply wp_mono; [by apply tick_keeps|]. by intros ? e' He'. }
  apply wp_iff in Htick as ([] & s2 & Hr2 & Hi2 & Hc2 & Ht2). rewrite (bind_ok _ _ _ _ _ Hr2).
  unfold server_post. rewrite <- Hc1, <- Hc2, <- Ht1, <- Ht2.
  destruct (process_without no_data cfg eq_refl env_ok zephyr_tx_buf s2 completed_ok Hi2) as [->|(f & -> & ?)]; [|done].
  destruct (proj1 (wp_iff _ _ _) (completed_step (StackCall ApiProcess) s2 Hi2 I)) as ([] & s3 & Hr3 & Hp3).
  cbn [run_stack run_api] in Hr3. by rewrite Hr3.
Qed.

(** Any stretch of the loop. *)
Lemma server_runs ops s :
  uds_inv env_ok zephyr_tx_buf cfg s -> Forall server_op_ok ops ->
  match mfor ops (run_server_op z client_call cfg) s with
  | Ok (_, s') => server_post s s'
  | Fault f => exists before o after s1, ops = before ++ o :: after /\
      mfor before (run_server_op z client_call cfg) s = Ok (tt, s1) /\ server_post s s1 /\
      run_server_op z client_call cfg o s1 = Fault f /\ server_trap o s1 f
  end.
Proof.
  intros Hi Hops. revert s Hi. induction Hops as [|o ops Ho _ IH]; intros s Hi.
  - split; [done|]. exists []. rewrite app_nil_r. by split; [|apply access_run_refl].
  - cbn [mfor]. assert (Hstep : match run_server_op z client_call cfg o s with
      | Ok (_, s') => server_post s s' | Fault f => server_trap o s f end)
      by (destruct o; [by apply frame_step|by apply turn_step]).
    destruct (run_server_op z client_call cfg o s) as [[[] s1]|f] eqn:Hr.
    + rewrite (bind_ok _ _ _ _ _ Hr). specialize (IH s1 (proj1 Hstep)).
      destruct (mfor ops _ s1) as [[[] s2]|f]; [by eapply server_post_trans|].
      destruct IH as (before & o' & after & s2 & -> & Hb & Hp & Hf & Ht). exists (o :: before), o', after, s2.
      split; [done|]. cbn [mfor]. rewrite (bind_ok _ _ _ _ _ Hr). split; [done|]. by split; [eapply server_post_trans|].
    + rewrite (bind_fault _ _ _ _ Hr). exists [], o, ops, s. split; [done|]. split; [done|]. split; [|done].
      split; [done|]. exists []. rewrite app_nil_r. by split; [|apply access_run_refl].
Qed.

(** C3: The Zephyr server on the fallback transport, with the configuration main fills
    in, from power-up through any sequence of frames from the driver (any content, an
    array of 8 to 64 bytes, any length from 0 to the array's size) and turns of its main
    loop, on any kernel that keeps its documentation: main gives up with -1 only if the
    CAN device is not ready or its filter is refused. Otherwise either everything runs,
    the invariant of core and transport holds in the end and the security level is
    raised only by a key the application accepted; or everything runs, the invariant
    kept, up to one step that falls into one of exactly two traps: a turn of the loop
    while a periodic identifier is registered calls the NULL fn_periodic_read, or a
    frame of length 0 is taken as the consecutive frame a reception waits for, with at
    least as many bytes missing as the frame's array holds, and is read beyond its
    array. *)
Theorem fallback_safe ops c m e tr :
  mem_ok zephyr_tx_buf cfg m -> os_ok (can_os (can e)) -> length (g_pending_tx_sdu e) = 1024%nat ->
  Forall server_op_ok ops ->
  match fallback_main z client_call ops (mkState c m e tr) with
  | Ok (r, s') =>
      (r = -1 /\ refused) \/
      (r = 0 /\ uds_inv env_ok zephyr_tx_buf cfg s' /\ exists evs, trace s' = tr ++ evs /\
        (security_level (ctx s') <> 0 -> exists key, EvKey (security_level (ctx s')) key 0 ∈ evs))
  | Fault f => exists before o after s1, ops = before ++ o :: after /\
      fallback_main z client_call before (mkState c m e tr) = Ok (0, s1) /\ uds_inv env_ok zephyr_tx_buf cfg s1 /\
      run_server_op z client_call cfg o s1 = Fault f /\ server_trap o s1 f
  end.
Proof.
  intros Hm Ho Hp Hops. unfold fallback_main.
  destruct (proj1 (wp_iff _ _ _) (wp_fallback_start c m e tr Hm Ho Hp)) as (r & s0 & Hr & Hs).
  rewrite (bind_ok _ _ _ _ _ Hr). destruct Hs as [[-> ?]|(-> & Hi & Hl & evs0 & Ht0)]; [by left|]. cbn [Z.eqb negb].
  pose proof (server_runs ops s0 Hi Hops) as H.
  destruct (mfor ops _ s0) as [[[] s1]|f] eqn:Hrun.
  - rewrite (bind_ok _ _ _ _ _ Hrun). right. split; [done|]. destruct H as (Hi1 & evs & Ht & [_ Hlv]). split; [done|]. exists (evs0 ++ evs).
    rewrite Ht, Ht0, app_assoc. split; [done|]. intros Hne.
    destruct Hlv as [?|[?|[key ?]]]; [congruence|done|]. exists key. apply elem_of_app. by right.
  - rewrite (bind_fault _ _ _ _ Hrun).
    destruct H as (before & o & after & s1 & -> & Hb & [Hi1 _] & Hf & Htr). exists before, o, after, s1.
    split; [done|]. rewrite (bind_ok _ _ _ _ _ Hr). cbn [Z.eqb negb]. by rewrite (bind_ok _ _ _ _ _ Hb).
Qed.
End Safe.

(** ** A frame that comes too early *)

(** The filter is registered before [uds_init] has set [ctx->config]. A frame that
    arrives in between meets a context without a configuration: single frames,
    consecutive frames and flow control are dropped, a first frame is not. *)
Section Early.
Context {O : Type} (z : zephyr_api O).
Context (client_call : N -> Z -> list Z -> Z -> M (uds_state (iso_env (@zcan_env O))) unit).

Definition early_frame (rx_id tx_id : Z) (frame : can_frame) : M (uds_state (iso_env zcan_env)) unit :=
  call (uds_zephyr_tp_fallback_init z rx_id tx_id) ;;
  uds_internal_zephyr_can_rx_cb client_call None frame.
(** Single and first frames without a configuration. *)
Lemma null_config_sf b0 b1 rest len (s : uds_state (iso_env (@zcan_env O))) :
  1 <= len <= Z.of_nat (2 + length rest) ->
  exists s', uds_rx_sf client_call None (b0 :: b1 :: rest) len s = Ok (tt, s') /\
    ctx s' = ctx s /\ mem s' = mem s /\ trace s' = trace s.
Proof.
  intros Hlen. enough (wp (uds_rx_sf client_call None (b0 :: b1 :: rest) len) (fun _ s' =>
    ctx s' = ctx s /\ mem s' = mem s /\ trace s' = trace s) s) as ([] & s' & H)%wp_iff by by exists s'.
  unfold uds_rx_sf. apply wp_bind, wp_call. unfold wp at 1, mod_iso. apply wp_bind, (wp_data_at _ 0 b0); [lia|done|].
  cbv zeta. destruct (_ =? 0).
  - apply wp_bind, (wp_data_at _ 1 b1); [lia|done|]. destruct (b1 =? 0); [by apply wp_ret|].
    destruct (b1 >? _); [by apply wp_ret|]. apply wp_bind, wp_data_from; [cbn [length]; lia|]. by apply wp_ret.
  - destruct (_ >? _); [by apply wp_ret|]. apply wp_bind, wp_data_from; [cbn [length]; lia|]. by apply wp_ret.
Qed.

Lemma null_config_ff b0 b1 rest len (s : uds_state (iso_env (@zcan_env O))) :
  is_byte b0 -> is_byte b1 ->
  uds_rx_ff None (b0 :: b1 :: rest) len s =
    if b0 mod 16 * 256 + b1 <? 8 then Ok (tt, set_env (set_iso (set_iso_state ISOTP_IDLE) (env s)) s)
    else Fault NullDeref.
Proof.
  intros H0 H1. unfold uds_rx_ff. rewrite (bind_ok _ _ _ tt (set_env (set_iso (set_iso_state ISOTP_IDLE) (env s)) s)) by done.
  rewrite (bind_ok _ _ _ b0 _ eq_refl), (bind_ok _ _ _ b1 _ eq_refl). cbv zeta. rewrite land_15.
  rewrite shiftl_8, u16_small, lor_byte by (unfold is_byte in *; zlia).
  by destruct (_ <? 8).
Qed.

(** C37: A frame that arrives after uds_zephyr_tp_fallback_init has registered the
    receive filter and before uds_init has set ctx->config: a first frame that announces
    eight bytes or more dereferences the NULL configuration, any other frame is dropped
    and leaves context, memory and trace as they were. *)
Theorem early_frame_fault rx_id tx_id dlc b0 b1 rest s o1 r o2 :
  device_is_ready z (can_os (can (env s))) = Ok (true, o1) ->
  can_add_rx_filter z rx_id (CAN_STD_ID_MASK z) o1 = Ok (r, o2) ->
  is_byte b0 -> is_byte b1 -> (6 <= length rest)%nat -> 1 <= dlc <= 8 ->
  let first := b0 / 16 = 1 /\ 8 <= b0 mod 16 * 256 + b1 in
  match early_frame rx_id tx_id (mkFrame rx_id dlc (b0 :: b1 :: rest)) s with
  | Fault f => f = NullDeref /\ first
  | Ok (_, s') => ~ first /\ ctx s' = ctx s /\ mem s' = mem s /\ trace s' = trace s
  end.
Proof.
  intros Hr Hf Hb0 Hb1 Hrest Hdlc first. unfold is_byte in *. destruct s as [c m [i p pl [g o] fr] tr]. cbn in Hr.
  unfold early_frame, call. rewrite (bind_ok _ _ _ r (mkState c m (mkIsoEnv (mkIso
    (Some (uds_internal_zephyr_can_send z)) tx_id rx_id 8 0 0 ISOTP_IDLE 0 0 0 0 0 0 0 8) p pl (mkZcan true o2) fr) tr)).
  2: { unfold uds_zephyr_tp_fallback_init, zoom, can_dev, mbind, M_bind. cbn [env can can_os]. unfold zoom. cbn [env can can_os]. rewrite Hr. cbn. unfold zoom; cbn. by rewrite Hf. }
  cbv [uds_internal_zephyr_can_rx_cb uds_isotp_rx_callback call zoom mbind M_bind get_iso data_at].
  cbn [env can g_current_uds_ctx set_env set_can g_isotp_ctx IsoTp.rx_id frame_id frame_data frame_dlc]. rewrite Z.eqb_refl.
  change ((b0 :: b1 :: rest) !! Z.to_nat 0) with (Some b0). cbn [negb Z.leb Z.compare mret M_ret]. rewrite land_240 by done.
  unfold ISOTP_PCI_SF, ISOTP_PCI_FF, ISOTP_PCI_CF, ISOTP_PCI_FC.
  destruct (Z.eqb_spec (b0 / 16 * 16) 0).
  { match goal with |- context [uds_rx_sf _ _ _ _ ?s] => destruct (null_config_sf b0 b1 rest dlc s) as (s' & -> & ?) end;
      [lia..|]. split; [unfold first; lia|done]. }
  destruct (Z.eqb_spec (b0 / 16 * 16) 16).
  { rewrite null_config_ff by done. destruct (Z.ltb_spec (b0 mod 16 * 256 + b1) 8); cbn; unfold first; split; try done; lia. }
  destruct (_ =? 32); [split; [unfold first; lia|done]|].
  destruct (_ =? 48); (split; [unfold first; lia|done]).
Qed.
End Early.

(** ** Both traps can be sprung *)

(** A request in several frames whose second one comes with length code 0. *)
Definition empty_cf_ops (n : Z) : list server_op :=
  [DriverFrame (mkFrame 0x7E0 8 [0x10; n; 0x22; 0xF1; 0x90; 0; 0; 0]);
   DriverFrame (mkFrame 0x7E0 0 [0x21; 0; 0; 0; 0; 0; 0; 0])].

Definition fallback_power_up : uds_state (iso_env zcan_env) :=
  mkState zero_ctx (<[zephyr_rx_buf := replicate 4096 0]> {[zephyr_tx_buf := replicate 4096 0]})
    (mkIsoEnv (mkIso None 0 0 0 0 0 ISOTP_IDLE 0 0 0 0 0 0 0 0) (replicate 1024 0) 0 (mkZcan false 1000) []) [].

Definition fallback_from_power_up (ops : list server_op) : outcome (Z * uds_state (iso_env zcan_env)) :=
  fallback_main (scripted_kernel []) no_client ops fallback_power_up.

(** From an announced length of 14 bytes on. *)
Theorem fallback_empty_cf n : 14 <= n < 256 -> fallback_from_power_up (empty_cf_ops n) = Fault OutOfBounds.
Proof.
  intros Hn.
  assert (H : forallb (fun n => match fallback_from_power_up (empty_cf_ops n) with
    Fault OutOfBounds => true | _ => false end) (seqZ 14 242) = true) by by vm_compute.
  rewrite forallb_forall in H. specialize (H n ltac:(apply list_elem_of_In, elem_of_seqZ; lia)).
  destruct (fallback_from_power_up _) as [|[]]; done.
Qed.

(** One eight-byte frame that starts a periodic identifier ends the server in the next
    turn of its loop. *)
Definition periodic_request (mode id : Z) : list server_op :=
  [DriverFrame (mkFrame 0x7E0 8 [0x03; 0x2A; mode; id; 0; 0; 0; 0]); LoopTurn].

Theorem fallback_null_call mode id :
  1 <= mode <= 3 -> 1 <= id < 256 -> fallback_from_power_up (periodic_request mode id) = Fault NullDeref.
Proof.
  intros Hm Hid.
  assert (H : forallb (fun m => forallb (fun i => match fallback_from_power_up (periodic_request m i) with
    Fault NullDeref => true | _ => false end) (seqZ 1 255)) [1; 2; 3] = true) by by vm_compute.
  rewrite forallb_forall in H. specialize (H mode ltac:(cbn; lia)). rewrite forallb_forall in H.
  specialize (H id ltac:(apply list_elem_of_In, elem_of_seqZ; lia)).
  destruct (fallback_from_power_up _) as [|[]]; done.
Qed.
