(* ===== verification/Demo.v ===== *)
(** * A small ECU: the configuration the witnesses run on

    A complete application that keeps the contract [ConfigOk], so every
    hypothesis of the theorems holds of it at once. It is written for any
    environment [E]: [demo_cfg] runs it on a bare clock, [stack_cfg] on the
    ISO-TP transport. *)

From S2P Require Import Prelude Monad Types Machine CoreBase Contract HandlerLogic.
From S2P Require Import SvcSession SvcSecurity SvcMaintenance SvcData SvcPeriodic SvcFlash SvcIo SvcMem.
From S2P Require Import Core CoreDispatch CoreProcess CoreApi CoreInit IsoTp IsoTpTx IsoTpRx IsoTpLink IsoTpSend IsoTpRecv.
From stdpp Require Import base gmap list strings numbers.

Open Scope Z_scope.

(** ** The application *)

Section App.
Context {E : Type} (time : M E Z) (send : uds_ctx -> list Z -> Z -> M E Z).

Definition demo_dids : list (uds_did_entry E) := [
  mkDid 0xF190 4 0 0 None None (Some 3%N);
  mkDid 0x0123 2 4 1 None None (Some 4%N)
].

(** A service of the application's own that always defers its answer. *)
Definition demo_defer (data : list Z) (len : Z) : M (uds_state E) Z := mret UDS_PENDING.
Definition demo_service : uds_service_entry E := mkService 0xBA 2 0xFF 0 (Some demo_defer) None.

Definition app_cfg : uds_config E := {|
  ecu_address := 0x10;
  get_time_ms := Some time;
  fn_log := Some (fun _ _ => mret tt);
  fn_tp_send := Some send;
  cfg_p2_ms := 50;
  cfg_p2_star_ms := 2000;
  fn_reset := Some (fun _ _ => mret tt);
  fn_comm_control := Some (fun _ _ _ => mret 0);
  fn_security_seed := Some (fun _ _ n => mret (if 2 <=? n then (2, [0xDE; 0xAD]) else (-0x22, [])));
  fn_security_key := Some (fun _ l _ k _ =>
    mret (if (l <? 32) && bool_decide (k = [0xBE; 0xEF]) then 0 else -0x35));
  rx_buffer := Some 1%N;
  rx_buffer_size := 128;
  tx_buffer := Some 2%N;
  tx_buffer_size := 64;
  strict_compliance := true;
  log_level := 1;
  security_delay_ms := 1000;
  security_max_attempts := 2;
  rcrrp_limit := 2;
  transfer_accept_last_block_replay := true;
  did_table := mkDidTable demo_dids 2;
  user_services := Some [demo_service];
  user_service_count := 1;
  fn_is_safe := None;
  fn_nvm_save := Some (fun _ _ _ => mret 0);
  fn_nvm_load := Some (fun _ _ => mret (2, [1; 0]));
  fn_dtc_read := Some (fun _ _ n => mret (if 1 <=? n then (1, [0x2F]) else (-0x14, [])));
  fn_dtc_clear := Some (fun _ _ => mret 0);
  fn_auth := Some (fun _ _ _ _ _ => mret (0, []));
  fn_routine_control := Some (fun _ _ _ _ _ n => mret (if 1 <=? n then (1, [0x2A]) else (-0x14, [])));
  fn_request_download := Some (fun _ _ _ => mret 0);
  fn_transfer_data := Some (fun _ _ _ _ => mret 0);
  fn_transfer_exit := Some (fun _ => mret 0);
  fn_mem_read := Some (fun _ _ n => mret (if n <=? 4 then (0, replicate (Z.to_nat n) 0x77) else (-0x31, [])));
  fn_mem_write := Some (fun _ _ _ _ => mret 0);
  fn_io_control := Some (fun _ _ _ _ _ n => mret (if 1 <=? n then (1, [0x55]) else (-0x14, [])));
  fn_request_upload := Some (fun _ _ _ => mret 0);
  fn_periodic_read := Some (fun _ _ n => mret (if 2 <=? n then (2, [0xAA; 0xBB]) else (0, [])));
  mutex_handle := 7%N;
  fn_mutex_lock := Some (fun _ => mret tt);
  fn_mutex_unlock := Some (fun _ => mret tt);
  p2_server_max := 50;
  p2_star_server_max := 5000
|}.

Context (env_ok : E -> Prop).
Context (Htime : cb_ok env_ok time (fun _ => True)).
Context (Hsend : forall c sdu, cb_ok env_ok (send c sdu (Z.of_nat (length sdu))) (fun r => r <= 0)).

(** A callback that returns [a] and leaves the environment alone. *)
Lemma app_ret {A} (a : A) (R : A -> Prop) : R a -> cb_ok env_ok (mret a) R.
Proof. by intros ? ? ?. Qed.

Lemma app_config_ok : ConfigOk env_ok 2%N app_cfg.
Proof.
  unfold app_cfg; split; cbn [get_time_ms fn_tp_send tx_buffer tx_buffer_size fn_log fn_reset
    fn_comm_control fn_security_seed fn_security_key fn_is_safe fn_nvm_save fn_dtc_read fn_dtc_clear
    fn_auth fn_routine_control fn_request_download fn_transfer_data fn_transfer_exit fn_mem_read
    fn_mem_write fn_io_control fn_request_upload fn_periodic_read fn_mutex_lock fn_mutex_unlock
    did_table did_count did_entries].
  all: try (eexists; split; [reflexivity|]); try (intros f [= <-]); try reflexivity; try done.
  all: try (intros; apply app_ret; unfold out_ok; repeat case_match; cbn; bool_prop;
    rewrite ?length_replicate; lia).
  all: try (intros; by apply app_ret).
  repeat constructor; cbn; done.
Qed.

(** The application's service keeps the handlers' contract. *)
Lemma app_users_ok : UsersOk env_ok 2%N app_cfg.
Proof.
  split; cbn; intros us [= <-]; [by cbn|]. constructor; [|constructor].
  split; cbn; [|lia|done]. exists demo_defer. split; [done|].
  intros data len s Hb Hd Hl Hlt Hsub Hinv. apply wp_ret. split; [done|].
  exists []. rewrite app_nil_r. split; [done|]. split; [done|]. split; [by right; right|].
  split; by left.
Qed.

(** The context after initialisation and the buffers. *)
Definition demo_ctx : uds_ctx :=
  set_p2_star_ms 2000 (set_p2_ms 50 (set_active_session 1 zero_ctx)).
Definition demo_mem : gmap N (list Z) :=
  <[1%N := replicate 128 0]> (<[2%N := replicate 64 0]>
    (<[3%N := [0x56; 0x49; 0x4E; 0x31]]> (<[4%N := [7; 8]]> ∅))).

Lemma app_inv c e tr : ctx_ok c -> env_ok e -> uds_inv env_ok 2%N app_cfg (mkState c demo_mem e tr).
Proof.
  intros Hc He. split; [done| |done]. split.
  - by exists (replicate 64 0).
  - cbn. repeat constructor; cbn; intros st [= <-]; eexists; split; reflexivity || done.
  - intros rb [= <-]. split; [done|]. split; [repeat constructor; done|]. exists (replicate 128 0).
    split; [done|]. split; [done|]. by apply Forall_replicate.
Qed.

(** Its response callback does nothing. *)
Definition demo_client (cb : N) (sid : Z) (payload : list Z) (n : Z) : M (uds_state E) unit := mret tt.

Lemma app_client_ok : ClientOk env_ok 2%N app_cfg demo_client.
Proof. by intros cb sd payload n s Hinv. Qed.
End App.

(** A concrete context is well formed. *)
Ltac ctx_ground := split; [cbn; lia..|]; split; cbn; try lia; by repeat constructor.

Lemma demo_ctx_ok : ctx_ok demo_ctx.
Proof. ctx_ground. Qed.

(** ** On a clock that advances with every reading *)

Definition clock : M Z Z := fun t => Ok (t, t + 1).
Definition demo_ok (t : Z) : Prop := True.
Definition demo_cfg : uds_config Z := app_cfg clock (fun _ _ _ => mret 0).
Definition demo_state : uds_state Z := mkState demo_ctx demo_mem 1000 [].

#[export] Instance demo_config_ok : ConfigOk demo_ok 2%N demo_cfg.
Proof. by apply app_config_ok. Qed.
#[export] Instance demo_users_ok : UsersOk demo_ok 2%N demo_cfg.
Proof. apply app_users_ok. Qed.
#[export] Instance demo_client_ok : ClientOk demo_ok 2%N demo_cfg demo_client.
Proof. apply app_client_ok. Qed.

Lemma demo_inv : uds_inv demo_ok 2%N demo_cfg demo_state.
Proof. by apply app_inv; [apply demo_ctx_ok|]. Qed.

(** The same from another well-formed context. *)
Lemma demo_inv_ctx_at c t : ctx_ok c -> uds_inv demo_ok 2%N demo_cfg (mkState c demo_mem t []).
Proof. intros Hc. by apply app_inv. Qed.
Lemma demo_inv_ctx c : ctx_ok c -> uds_inv demo_ok 2%N demo_cfg (mkState c demo_mem 1000 []).
Proof. apply demo_inv_ctx_at. Qed.

(** ** On the ISO-TP transport, the driver's state being the clock *)

Definition can_ok (t : Z) : Prop := True.
Definition demo_driver (id : Z) (data : list Z) (len : Z) : M Z Z := mret 0.
Definition stack_cfg : uds_config (iso_env Z) := app_cfg (zoom can set_can clock) uds_isotp_send.
Definition stack_iso : uds_isotp_ctx Z :=
  mkIso (Some demo_driver) 0x7E8 0x7E0 8 0 0 ISOTP_IDLE 0 0 0 0 0 0 0 8.
Definition stack_env : iso_env Z := mkIsoEnv stack_iso (replicate 1024 0) 0 1000 [].
Definition stack_state : uds_state (iso_env Z) := mkState demo_ctx demo_mem stack_env [].

Lemma demo_driver_ok (R : Z -> Prop) : R 0 -> forall n, driver_ok can_ok R n demo_driver.
Proof. by intros H n id d c Hc _. Qed.

Lemma stack_env_ok : iso_ok can_ok 128 stack_env.
Proof.
  split; [|done|apply length_replicate|].
  - exists demo_driver. split; [done|]. by apply demo_driver_ok.
  - by apply iso_ctx_idle.
Qed.

#[export] Instance stack_config_ok : ConfigOk (iso_ok can_ok (rx_buffer_size stack_cfg)) 2%N stack_cfg.
Proof.
  apply app_config_ok; [|by intros; apply send_contract].
  intros [i p pl cn fr] [Hd Hc Hp Hi]. apply wp_zoom. split; [done|]. by split.
Qed.
#[export] Instance stack_users_ok : UsersOk (iso_ok can_ok (rx_buffer_size stack_cfg)) 2%N stack_cfg.
Proof. apply app_users_ok. Qed.
#[export] Instance stack_client_ok :
  ClientOk (iso_ok can_ok (rx_buffer_size stack_cfg)) 2%N stack_cfg demo_client.
Proof. apply app_client_ok. Qed.

Lemma stack_inv : uds_inv (iso_ok can_ok (rx_buffer_size stack_cfg)) 2%N stack_cfg stack_state.
Proof. apply app_inv; [apply demo_ctx_ok|apply stack_env_ok]. Qed.

(** The same contract while the transport is not receiving. *)
#[export] Instance stack_config_quiet :
  ConfigOk (iso_quiet can_ok (rx_buffer_size stack_cfg) 0x7E0) 2%N stack_cfg.
Proof.
  apply app_config_ok; [|by intros; apply send_quiet].
  intros [i p pl cn fr] [[Hd Hc Hp Hi] Hs Hid]. apply wp_zoom. split; [done|]. by split.
Qed.
#[export] Instance stack_users_quiet :
  UsersOk (iso_quiet can_ok (rx_buffer_size stack_cfg) 0x7E0) 2%N stack_cfg.
Proof. apply app_users_ok. Qed.
#[export] Instance stack_client_quiet :
  ClientOk (iso_quiet can_ok (rx_buffer_size stack_cfg) 0x7E0) 2%N stack_cfg demo_client.
Proof. apply app_client_ok. Qed.

(** The same with a transport of one's choice. *)
Lemma stack_ready fd : tx_ready can_ok (set_iso (set_use_can_fd fd) stack_env).
Proof.
  split; [|done|apply length_replicate]. exists demo_driver. split; [done|].
  by apply demo_driver_ok.
Qed.

(** Deciding that a frame is well formed. *)
Definition frame_okb (rxs : Z) (data : list Z) (len : Z) : bool :=
  forallb (fun b => (0 <=? b) && (b <? 256)) data && (8 <=? length data)%nat && (length data <=? 64)%nat &&
  (1 <=? len) && (len <=? Z.of_nat (length data)) && ((len <=? 8) || (125 <=? rxs)).

Lemma frame_okb_ok rxs data len : frame_okb rxs data len = true -> frame_ok rxs data len.
Proof.
  unfold frame_okb. intros H. repeat (apply andb_prop in H as [H ?]). rewrite forallb_forall in H.
  repeat match goal with
  | X : (_ <=? _)%nat = true |- _ => apply Nat.leb_le in X
  | X : (_ <=? _)%Z = true |- _ => apply Z.leb_le in X
  | X : (_ || _)%bool = true |- _ => apply orb_prop in X
  end.
  split_and!; [|lia..|]; [|intros; destruct_or?; bool_prop; lia].
  apply Forall_forall. intros b Hb. specialize (H b Hb). unfold is_byte. lia.
Qed.
