(* ===== verification/Witness.v ===== *)
(** * Witnesses

    Each theorem with hypotheses applied at a concrete request, configuration
    and state that satisfy them all. *)

From S2P Require Import Prelude Monad Types Machine CoreBase Contract HandlerLogic.
From S2P Require Import SvcSession SvcSecurity SvcMaintenance SvcData SvcPeriodic SvcFlash SvcIo SvcMem.
From S2P Require Import Core CoreDispatch CoreProcess CoreApi CoreInit Tasks Storm.
From S2P Require Import IsoTp IsoTpTx IsoTpRx IsoTpLink IsoTpSend IsoTpRef IsoTpReasm IsoTpRecv IsoTpPeer FreeRtos Demo.
From stdpp Require Import base gmap list strings numbers relations.

Open Scope Z_scope.

(** Bytes of a literal request. *)
Ltac bytes := repeat constructor; cbn; unfold is_byte; lia.

(** ** The public entry points *)

(** A seed request, an accepted key, a call of the timer, a client request. *)
Definition demo_calls : list api_call := [
  ApiInput [0x27; 0x01] 2; ApiInput [0x27; 0x02; 0xBE; 0xEF] 4; ApiProcess;
  ApiClient 0x22 [0xF1; 0x90] 2 None
].

Lemma demo_calls_ok : Forall api_ok demo_calls.
Proof. repeat constructor; cbn; unfold is_byte; lia. Qed.

Lemma api_safe_witness :
  wp (mfor demo_calls (run_api demo_client demo_cfg)) (fun _ s' => uds_inv demo_ok 2%N demo_cfg s') demo_state.
Proof. apply (api_safe demo_ok 2%N demo_cfg demo_client); [apply demo_inv|apply demo_calls_ok]. Defined.

(** The run does unlock: the hypothesis of the theorem's conclusion is met. *)
Lemma no_unlock_without_key_witness :
  (exists s', mfor demo_calls (run_api demo_client demo_cfg) demo_state = Ok (tt, s') /\
     security_level (ctx s') = 1) /\
  wp (mfor demo_calls (run_api demo_client demo_cfg)) (fun _ s' => exists evs, trace s' = [] ++ evs /\
    (security_level (ctx s') <> 0 -> exists key, EvKey (security_level (ctx s')) key 0 ∈ evs)) demo_state.
Proof.
  split; [eexists; split; [vm_compute; reflexivity|reflexivity]|].
  apply (no_unlock_without_key demo_ok 2%N demo_cfg demo_client demo_calls demo_state);
    [apply demo_inv|apply demo_calls_ok|reflexivity].
Defined.

Lemma input_effects_witness :
  wp (uds_input_sdu demo_client (Some demo_cfg) (Some [0x22; 0xF1; 0x90]) 3) (fun _ s' =>
    exists evs, trace s' = [EvLock] ++ evs ++ [EvUnlock] /\ mutex_ops evs = [] /\
      ((exists b, sends evs = [b] /\ response_to 0x22 b) \/
       (sends evs = [] /\ silent_ok demo_cfg demo_ctx [0x22; 0xF1; 0x90] 3))) demo_state.
Proof.
  eapply wp_mono; [apply (input_effects demo_ok 2%N demo_cfg demo_client [0x22; 0xF1; 0x90] 3 demo_state);
    [apply demo_inv|bytes|cbn; lia|lia]|].
  by intros _ s' [_ H].
Defined.

(** A context with a deferred request for 0x31 pending. *)
Definition busy_ctx : uds_ctx :=
  set_p2_timer_start 900 (set_pending_sid 0x31 (set_p2_star_active true (set_p2_msg_pending true demo_ctx))).
Definition busy_state : uds_state Z := mkState busy_ctx demo_mem 1000 [].

Lemma busy_inv : uds_inv demo_ok 2%N demo_cfg busy_state.
Proof. apply demo_inv_ctx. ctx_ground. Qed.

Lemma busy_exact_witness :
  wp (uds_input_sdu demo_client (Some demo_cfg) (Some [0x31; 0x01; 0xFF; 0x00]) 4) (fun _ s' =>
    p2_msg_pending (ctx s') = false /\ sends (trace s') = [[0x7F; 0x31; 0x21]]) busy_state.
Proof.
  eapply wp_mono; [apply (busy_exact demo_ok 2%N demo_cfg demo_client [0x31; 0x01; 0xFF; 0x00] 4 busy_state);
    [apply busy_inv|cbn; lia|reflexivity]|].
  intros _ s' (t & evs & _ & Ht & (r & _ & ->) & Hc). rewrite Hc, Ht. by split.
Defined.

Lemma client_exchange_witness :
  wp (uds_client_request (Some demo_cfg) 0x22 (Some [0xF1; 0x90]) 2 (Some 5%N) ;;
      uds_input_sdu demo_client (Some demo_cfg) (Some [0x62; 0xF1; 0x90; 0x2A]) 4) (fun _ s' =>
    EvClientCb 5 0x62 [0xF1; 0x90; 0x2A] ∈ trace s') demo_state.
Proof.
  eapply wp_mono; [apply (client_exchange demo_ok 2%N demo_cfg demo_client 0x22 [0xF1; 0x90] 2 5%N
    [0x62; 0xF1; 0x90; 0x2A] 4 demo_state); [apply demo_inv|reflexivity|lia|cbn; lia|cbn; lia|cbn; lia|lia|reflexivity]|].
  intros _ s' (_ & _ & r & ->). rewrite !elem_of_app. right; right; right; left. by left.
Defined.

(** ** The request pipeline *)

(** An unknown service is rejected; a known one reaches its handler. *)
Lemma request_check_order_witness :
  wp (handle_request (Some demo_cfg) [0x99; 0x00] 2)
    (fun _ s' => sends (trace s') = [[0x7F; 0x99; 0x11]]) demo_state /\
  exists e, service_for demo_cfg 0x3E = Some e /\
    handle_request (Some demo_cfg) [0x3E; 0x00] 2 demo_state =
    gated_handler demo_cfg e 0x3E [0x3E; 0x00] 2
      (set_ctx (fun c => suppress_on_entry e c [0x3E; 0x00]) demo_state).
Proof.
  split.
  - eapply wp_mono; [exact (request_check_order demo_ok 2%N demo_cfg [0x99; 0x00] 2 demo_state demo_inv
      ltac:(bytes) ltac:(cbn; lia) ltac:(lia))|].
    intros _ s' (_ & _ & evs & Ht & r & _ & ->). by rewrite Ht.
  - exact (request_check_order demo_ok 2%N demo_cfg [0x3E; 0x00] 2 demo_state demo_inv
      ltac:(bytes) ltac:(cbn; lia) ltac:(lia)).
Defined.

Lemma response_pending_opens_supervision_witness :
  wp (execute_handler (Some demo_cfg) demo_service [0xBA; 0x01] 2) (fun r s' => r = UDS_PENDING /\
    p2_msg_pending (ctx s') = true /\ pending_sid (ctx s') = 0xBA /\
    sends (trace s') = [[0x7F; 0xBA; 0x78]]) demo_state.
Proof.
  eapply wp_mono; [apply (response_pending_opens_supervision demo_ok 2%N demo_cfg demo_service demo_defer
    [0xBA; 0x01] 2 0xBA demo_state demo_state); [reflexivity|reflexivity|apply demo_inv|reflexivity]|].
  intros r s' (-> & (e & t & _ & _ & ->) & evs & Ht & r' & _ & ->). by rewrite Ht.
Defined.

(** ** The timer task *)

Lemma deferral_bounded_witness :
  wp (mfor (seq 0 9) (fun _ => uds_process (Some demo_cfg))) (fun _ s' =>
    exists evs, trace s' = evs /\ supervised busy_ctx 2 s' evs) busy_state.
Proof.
  apply (deferral_bounded demo_ok 2%N demo_cfg 9 busy_state); [apply busy_inv|reflexivity|reflexivity|cbn; lia|cbn; lia].
Defined.

(** What the lock and the clock of [demo_cfg] give: the time of the state. *)
Lemma demo_now e now : locked_at demo_cfg e now -> now = u32 e.
Proof. intros (e1 & (f & r & e' & [= <-] & [= <- _] & ->) & [= ->]). done. Qed.

(** An unlocked extended session last heard of six seconds ago. *)
Definition quiet_ctx : uds_ctx := set_security_level 1 (set_active_session 3 (set_last_msg_time 1000 demo_ctx)).
Definition quiet_state : uds_state Z := mkState quiet_ctx demo_mem 7000 [].

Lemma quiet_inv : uds_inv demo_ok 2%N demo_cfg quiet_state.
Proof. apply demo_inv_ctx_at. ctx_ground. Qed.

Lemma s3_supervision_witness :
  wp (uds_process (Some demo_cfg)) (fun _ s' => active_session (ctx s') = 1 /\ security_level (ctx s') = 0) quiet_state.
Proof.
  eapply wp_mono; [apply (s3_supervision demo_ok 2%N demo_cfg quiet_state quiet_inv)|].
  by intros _ s' (now & ->%demo_now & H).
Defined.

Lemma process_refines_witness :
  wp (uds_process (Some demo_cfg)) (fun _ s' => process_post demo_ok 2%N demo_cfg quiet_state s') quiet_state.
Proof. apply (process_refines demo_ok 2%N demo_cfg quiet_state quiet_inv). Defined.

(** One periodic identifier scheduled, due at time 500. *)
Definition periodic_ctx : uds_ctx :=
  set_periodic_count 1 (set_periodic_timers (500 :: replicate 7 0)
    (set_periodic_rates (1 :: replicate 7 0) (set_periodic_ids (0xF2 :: replicate 7 0) demo_ctx))).
Definition periodic_state : uds_state Z := mkState periodic_ctx demo_mem 1000 [].

Lemma periodic_inv : uds_inv demo_ok 2%N demo_cfg periodic_state.
Proof. apply demo_inv_ctx. ctx_ground. Qed.

Lemma scheduler_exact_witness :
  wp (uds_process (Some demo_cfg)) (fun _ s' =>
    sends (trace s') = [[0xF2; 0xAA; 0xBB]] /\ periodic_timers (ctx s') !! 0%nat = Some 1100) periodic_state.
Proof.
  eapply wp_mono; [apply (scheduler_exact demo_ok 2%N demo_cfg periodic_state);
    [apply periodic_inv|reflexivity|cbn; lia]|].
  intros _ s' (now & logs & evss & ->%demo_now & Hs & Ht & Hm & Htm). split; [|by apply (Htm 0%nat ltac:(lia))].
  change (due_ids _ _ _) with [0xF2] in Hm. apply list.Forall2_cons_inv_l in Hm as (evs & evss' & Hm & Hn & ->).
  inversion Hn; subst. destruct Hm as (f & c & r & bs & [= <-] & (e & e' & _ & [= <- <- _]) & _ & _ & ret & ->).
  by rewrite Ht, !sends_app, Hs.
Defined.

(** A request extended as often as allowed and overdue again: this call gives
    up on it, and the lock it took stays taken. *)
Definition stuck_state : uds_state Z :=
  mkState (set_p2_timer_start 4294960000 (set_rcrrp_count 2 busy_ctx)) demo_mem 1000 [].

Lemma stuck_inv : uds_inv demo_ok 2%N demo_cfg stuck_state.
Proof. apply demo_inv_ctx. ctx_ground. Qed.

Lemma process_lock_discipline_witness :
  (exists s', uds_process (Some demo_cfg) stuck_state = Ok (tt, s') /\ mutex_ops (trace s') = [EvLock]) /\
  wp (uds_process (Some demo_cfg)) (fun _ s' => mutex_ops (trace s') = [EvLock]) stuck_state.
Proof.
  split; [eexists; split; [vm_compute; reflexivity|reflexivity]|].
  eapply wp_mono; [apply (process_lock_discipline demo_ok 2%N demo_cfg stuck_state stuck_inv)|].
  intros _ s' (now & evs & ->%demo_now & -> & Hm). exact Hm.
Defined.

(** ** Initialisation *)

Lemma init_rejects_witness : uds_init false (Some demo_cfg) demo_state = Ok (UDS_ERR_INVALID_ARG, demo_state).
Proof. apply (init_rejects false (Some demo_cfg) demo_state). reflexivity. Defined.

Lemma init_exact_witness :
  wp (uds_init true (Some demo_cfg)) (fun r s' => r = UDS_OK /\
    ctx s' = set_security_level 0 (set_active_session 1 (init_ctx demo_cfg))) demo_state.
Proof.
  eapply wp_mono; [apply (init_exact demo_ok 2%N demo_cfg demo_state)|].
  - apply demo_inv.
  - done.
  - by eexists.
  - intros f c [= <-]. by apply app_ret; cbn; lia.
  - by intros r s' (-> & _ & res & bytes & (e & e' & _ & [= <- <- _]) & -> & _).
Defined.

(** The loader of [demo_cfg] answers with session 1 and level 0. *)
Lemma power_up_typed_witness :
  wp (uds_init true (Some demo_cfg) ;; mfor demo_calls (run_api demo_client demo_cfg))
    (fun _ s' => ctx_typed (ctx s') /\ length (periodic_ids (ctx s')) = 8%nat) demo_state.
Proof.
  eapply wp_mono; [apply (power_up_typed demo_ok 2%N demo_cfg demo_client demo_calls demo_state)|].
  - apply demo_inv.
  - done.
  - by eexists.
  - intros f c [= <-]. by apply app_ret; cbn; lia.
  - intros res bytes (e & e' & _ & [= <- <- _]). cbn. lia.
  - apply demo_calls_ok.
  - by intros _ s' (? & _ & _ & ? & _).
Defined.

(** The pending request of [busy_state], supervised for three turns, answered, and three
    turns later. *)
Lemma deferred_completes_witness :
  wp (mfor (seq 0 3) (fun _ => uds_process (Some demo_cfg)) ;;
      run_api demo_client demo_cfg (ApiRespond [0x71; 1; 2; 3]) ;;
      mfor (seq 0 3) (fun _ => uds_process (Some demo_cfg))) (fun _ s' =>
    p2_msg_pending (ctx s') = false /\ [0x71; 1; 2; 3] ∈ sends (trace s')) busy_state.
Proof.
  eapply wp_mono; [apply (deferred_completes demo_ok 2%N demo_cfg demo_client 3 3 [0x71; 1; 2; 3] busy_state);
    [apply busy_inv|reflexivity|reflexivity|cbn; lia|cbn; lia|cbn; lia]|].
  intros _ s' (Hp & j & g & _ & _ & ->). split; [done|]. rewrite !elem_of_app. right; right; right. by left.
Defined.

(** ** Several tasks *)

(** A timer task and a client, taking turns at the mutex. *)
Definition task_calls : list (list api_call) := [[ApiProcess; ApiProcess]; [ApiClient 0x22 [0xF1; 0x90] 2 None]].
Definition task_turns : list nat := [0; 0; 0; 0; 0; 0; 1; 1; 1; 1; 1; 0; 0; 0; 0; 0; 0]%nat.
Definition task_end : world := default (start demo_state []) (run_schedule demo_client demo_cfg task_turns (start demo_state task_calls)).

Lemma task_calls_locked : Forall (Forall locked_call) task_calls.
Proof. repeat constructor. Qed.

Lemma task_end_runs : nsteps (task_step demo_client demo_cfg) 17 (start demo_state task_calls) task_end.
Proof. apply (schedule_runs demo_client demo_cfg task_turns). by vm_compute. Qed.

Lemma tasks_serialisable_witness :
  begun task_end = [(0%nat, ApiProcess); (1%nat, ApiClient 0x22 [0xF1; 0x90] 2 None); (0%nat, ApiProcess)] /\
  mfor [ApiProcess; ApiClient 0x22 [0xF1; 0x90] 2 None; ApiProcess] (run_api demo_client demo_cfg) demo_state =
  Ok (tt, shared task_end).
Proof.
  split; [by vm_compute|].
  apply (tasks_serialisable demo_client demo_cfg ltac:(by eexists) task_calls demo_state task_end task_calls_locked
    (rtc_nsteps_2 _ _ _ task_end_runs) ltac:(by vm_compute)).
Defined.

Lemma tasks_progress_witness :
  finished demo_cfg task_end /\ (17 <= 6 * length (concat task_calls))%nat /\
  (finished demo_cfg task_end \/ leaked task_end \/ exists w', task_step demo_client demo_cfg task_end w').
Proof.
  split; [split; [by intros _; vm_compute|by vm_compute; repeat constructor]|].
  destruct (tasks_progress demo_client demo_cfg ltac:(by eexists) ltac:(by eexists) demo_ok 2%N task_calls demo_state 17 task_end demo_inv
    task_calls_locked ltac:(repeat constructor; cbn; lia) task_end_runs) as (H1 & H2 & _). done.
Defined.

(** The timer task finds the pending request at its limit and leaves with the mutex; the
    tester's message is never looked at. *)
Definition stuck_calls : list (list api_call) := [[ApiProcess; ApiProcess]; [ApiInput [0x3E; 0] 2]].

Lemma stuck_at_limit : at_limit demo_cfg stuck_state.
Proof.
  split; [done|]. split; [done|]. intros now (e1 & (f & r & e' & [= <-] & [= <- <-] & ->) & [= <-]). by vm_compute.
Qed.

Lemma give_up_keeps_mutex_witness :
  exists w1, run_schedule demo_client demo_cfg [0; 0; 0; 0]%nat (start stuck_state stuck_calls) = Some w1 /\
    forall w2, rtc (task_step demo_client demo_cfg) w1 w2 -> owner w2 = Some 0%nat /\ shared w2 = shared w1.
Proof.
  destruct (give_up_keeps_mutex demo_client demo_cfg ltac:(by eexists) demo_ok 2%N stuck_calls stuck_state
    (start stuck_state stuck_calls) 0%nat [ApiProcess] stuck_inv ltac:(repeat constructor)
    ltac:(repeat constructor; cbn; unfold is_byte; lia) (rtc_refl _ _) eq_refl eq_refl stuck_at_limit)
    as (w1 & Hrun & _ & _ & _ & Hdead).
  exists w1. split; [done|]. intros w2 Hr. by destruct (Hdead w2 Hr) as (? & ? & _).
Defined.

(** A refusal sent while a client request is being put together. *)
Lemma unlocked_send_race_witness :
  exists w, rtc (task_step demo_client demo_cfg)
      (start demo_state [[ApiClient 0x22 [0xF1; 0x90] 2 None]; [ApiNrc 0x31 0x22]]) w /\
    sends (trace (shared w)) = [[0x7F; 0x31; 0x22]; [0x7F; 0x31; 0x22]].
Proof.
  destruct (unlocked_send_race demo_client demo_cfg demo_ok 2%N 0x22 [0xF1; 0x90] 2 None 0x31 0x22 demo_state
    demo_inv ltac:(lia) ltac:(cbn; lia) ltac:(cbn; lia)) as (w & Hr & _ & r1 & r2 & Ht).
  exists w. split; [done|]. by rewrite Ht.
Defined.

(** Two demo stacks: a late positive answer to 0x31 reaches a side that has given its
    request up. *)
Lemma demo_stray m :
  Forall is_byte m -> 1 <= Z.of_nat (length m) < 65536 -> service_for demo_cfg (nth 0 m 0) = None ->
  stray demo_cfg demo_ctx m.
Proof. by split. Qed.

Lemma nrc_storm_witness :
  exists w, net_step demo_cfg demo_cfg demo_client demo_client (mkNet demo_state demo_state [[0x71; 1; 2; 3]] [] 0) w /\
    hops w = 1%nat.
Proof.
  destruct (nrc_storm demo_ok demo_ok 2%N 2%N demo_cfg demo_cfg demo_client demo_client demo_state demo_state
    [0x71; 1; 2; 3] (mkNet demo_state demo_state [[0x71; 1; 2; 3]] [] 0)) as [_ (w & Hw & Hn)];
    [apply demo_inv|apply demo_inv|done|done|..|apply rtc_refl|by exists w].
  all: apply demo_stray; [try unfold refusal_of_nrc; try unfold negative; repeat (apply Forall_cons_2; [vm_compute; intuition congruence|]); apply Forall_nil_2|cbn; lia|by vm_compute].
Defined.

(** A kernel with one mutex: ticks and whether it is taken; taking it twice does not end. *)
Definition demo_kernel : freertos_api (Z * bool) := {|
  portMAX_DELAY := 0xFFFFFFFF; portTICK_PERIOD_MS := 1; pdMS_TO_TICKS n := n;
  xSemaphoreCreateMutex '(t, _) := Ok (1%N, (t, false));
  xSemaphoreTake h _ '(t, b) := if b then Fault OutOfFuel else Ok (1, (t, true));
  xSemaphoreGive h '(t, b) := Ok (if b then 1 else 0, (t, false));
  xTaskGetTickCount '(t, b) := Ok (t, (t, b));
  vTaskDelay n '(t, b) := Ok (tt, (t + n, b));
  xTaskCreate _ _ _ _ o := Ok (1, o);
  vTaskStartScheduler o := Ok (tt, o)
|}.

#[local] Instance demo_kernel_ok : FreeRtosOk (fun _ => True) (fun _ o => o.2) demo_kernel.
Proof. split; intros; destruct o as [t b]; cbn in *; by subst. Qed.

Lemma uds_task_turns_witness :
  wp (vUDSTask demo_kernel 3) (fun _ s => trace s = [EvLock; EvUnlock; EvLock; EvUnlock; EvLock; EvUnlock])
    (mkState zero_ctx ∅ (5, false) []).
Proof.
  eapply wp_mono; [by apply (uds_task_turns demo_kernel (fun _ => True) (fun _ o => o.2) 3 ∅ (5, false))|].
  intros _ s [h Hs]. apply Hs.
Defined.

(** ** The services *)

Lemma session_control_witness :
  wp (uds_internal_handle_session_control (Some demo_cfg) [0x10; 0x03] 2)
    (fun r s' => r = UDS_OK /\ active_session (ctx s') = 3 /\
       sends (trace s') = [[0x50; 3; 0; 50; 1; 0xF4]]) demo_state.
Proof.
  eapply wp_mono; [apply (session_control_exact demo_ok 2%N demo_cfg [0x10; 0x03] 2 demo_state 3);
    [apply demo_inv|reflexivity|by cbn|by cbn]|].
  intros r s' (evs & Ht & -> & Hc & evs1 & -> & r1 & _ & ->). rewrite Hc, Ht. by repeat split.
Defined.

(** A seed request reaches the application. *)
Lemma security_access_witness :
  wp (uds_internal_handle_security_access (Some demo_cfg) [0x27; 0x01] 2)
    (fun _ s' => sends (trace s') = [[0x67; 0x01; 0xDE; 0xAD]]) demo_state.
Proof.
  eapply wp_mono; [apply (security_access_refines demo_ok 2%N demo_cfg [0x27; 0x01] 2 demo_state 1);
    [apply demo_inv|reflexivity|unfold is_byte; lia|cbn; lia|lia]|].
  intros _ s' (now & evs & _ & -> & _ & f & res & out & evs1 & [= <-] & (e & e' & _ & [= <- <- _]) & -> & seed & Hl & Hp & Hr).
  destruct Hr as (r & _ & ->). apply prefix_length_eq in Hp as <-; [done|by rewrite Hl].
Defined.

(** Three wrong keys: the last is refused unheard. *)
Definition wrong_keys : list (list Z) := replicate 3 [0x27; 0x02; 0x00; 0x00].

Lemma key_guess_bound_witness :
  wp (security_requests demo_cfg wrong_keys) (fun _ s' => exists evs, trace s' = [] ++ evs /\
    let keys := Z.of_nat (length (key_results evs)) in
    (env s' + 1000 < 2 ^ 32 -> Forall (fun r => r <> 0) (key_results evs) -> keys < 256 ->
     (keys - 2) * 1000 <= env s' - 1000)) demo_state.
Proof.
  apply (key_guess_bound demo_ok 2%N demo_cfg (fun e => e)); try (cbn; lia).
  - by intros e t (f & r & e' & [= <-] & [= <- _] & ->).
  - intros t. apply app_config_ok; [|by intros ? ? ? ?]. intros e [_ He]. split; [done|]. split; [done|lia].
  - apply demo_inv.
  - repeat constructor; cbn; lia.
Defined.

(** Bit 7 of 0x28 is lost on the way: nothing is sent, and the flag stays set. *)
Lemma comm_control_witness :
  wp (uds_internal_handle_comm_control (Some demo_cfg) [0x28; 0x81; 0x01] 3)
    (fun _ s' => exists evs, trace s' = [] ++ evs /\ exists asked answer, evs = asked ++ answer /\
       ((exists ret, asked = [EvCommControl 1 1 ret] /\ ret <> 0 /\ comm_state (ctx s') = 0 /\
           rejected 0x28 (nrc_of ret) answer) \/
        ((fn_comm_control demo_cfg = None /\ asked = [] \/ asked = [EvCommControl 1 1 0]) /\
           comm_state (ctx s') = 1 /\ exists logs answer1, answer = logs ++ answer1 /\ sends logs = [] /\
             answer1 = [] /\ suppress_pos_resp (ctx s') = true))) demo_state.
Proof.
  apply (comm_control_exact demo_ok 2%N demo_cfg [0x28; 0x81; 0x01] 3 demo_state 0x81 0x01);
    [apply demo_inv|reflexivity|reflexivity|bytes|cbn; lia].
Defined.

Lemma clear_dtc_witness :
  wp (uds_internal_handle_clear_dtc (Some demo_cfg) [0x14; 0xFF; 0xFF; 0xFF] 4)
    (fun _ s' => exists res, EvDtcClear 0xFFFFFF res ∈ trace s') demo_state.
Proof.
  eapply wp_mono; [apply (clear_dtc_exact demo_ok 2%N demo_cfg [0x14; 0xFF; 0xFF; 0xFF] 4 demo_state 0xFF 0xFF 0xFF);
    [apply demo_inv|reflexivity|bytes|cbn; lia]|].
  intros _ s' (evs & Ht & res & evs1 & He & _). exists res. rewrite Ht, He. by left.
Defined.

Lemma demo_stored : stored_only 2%N demo_cfg.
Proof. repeat constructor; done. Qed.

(** Two identifiers and a stray byte, which goes unnoticed. *)
Lemma read_data_witness :
  wp (uds_internal_handle_read_data_by_id (Some demo_cfg) [0x22; 0xF1; 0x90; 0xF1; 0x90; 0x55] 6)
    (fun _ s' => sends (trace s') = [[0x62; 0xF1; 0x90; 0x56; 0x49; 0x4E; 0x31; 0xF1; 0x90; 0x56; 0x49; 0x4E; 0x31]])
    demo_state.
Proof.
  eapply wp_mono; [apply (read_data_exact demo_ok 2%N demo_cfg [0xF190; 0xF190] [0x55] demo_state);
    [apply demo_inv|apply demo_stored|repeat constructor; lia|cbn; lia|cbn; lia]|].
  intros _ s' (evs & -> & r & _ & ->). reflexivity.
Defined.

Lemma write_then_read_witness :
  wp (uds_internal_handle_write_data_by_id (Some demo_cfg) [0x2E; 0xF1; 0x90; 1; 2; 3; 4] 7 ;;
      uds_internal_handle_read_data_by_id (Some demo_cfg) [0x22; 0xF1; 0x90] 3)
    (fun _ s' => sends (trace s') = [[0x6E; 0xF1; 0x90]; [0x62; 0xF1; 0x90; 1; 2; 3; 4]]) demo_state.
Proof.
  eapply wp_mono; [apply (write_then_read demo_ok 2%N demo_cfg (mkDid 0xF190 4 0 0 None None (Some 3%N)) 0xF190 3%N
    [1; 2; 3; 4] demo_state);
    [apply demo_inv|apply demo_stored|lia|reflexivity|reflexivity|reflexivity|reflexivity|bytes|reflexivity|cbn; lia]|].
  intros _ s' (evs1 & evs2 & -> & (r1 & _ & ->) & r2 & _ & ->). reflexivity.
Defined.

(** An empty schedule. *)
Lemma demo_empty_rep : periodic_rep demo_ctx ∅.
Proof. by apply (rep_cleared demo_ctx). Qed.

Lemma periodic_refines_witness :
  wp (uds_internal_handle_periodic_read (Some demo_cfg) [0x2A; 0x01; 0xF2; 0xF3] 4)
    (fun _ s' => periodic_rep (ctx s') (<[0xF3 := 1]> (<[0xF2 := 1]> ∅))) demo_state.
Proof.
  eapply wp_mono; [apply (periodic_refines demo_ok 2%N demo_cfg [0x2A; 0x01; 0xF2; 0xF3] 4 demo_state ∅ 1);
    [apply demo_inv|apply demo_empty_rep|reflexivity|cbn; lia|by cbn|done]|].
  intros _ s' [H _]. exact H.
Defined.

Lemma periodic_stop_zero_witness :
  wp (uds_internal_handle_periodic_read (Some demo_cfg) [0x2A; 0x04; 0] 3)
    (fun _ s' => periodic_count (ctx s') = 248) demo_state.
Proof.
  eapply wp_mono; [apply (periodic_stop_zero_underflows demo_ok 2%N demo_cfg demo_state);
    [apply demo_inv|reflexivity|reflexivity]|].
  by intros _ s' [H _].
Defined.

Lemma routine_control_witness :
  wp (uds_internal_handle_routine_control (Some demo_cfg) [0x31; 0x01; 0xFF; 0x00] 4)
    (fun _ s' => sends (trace s') = [[0x71; 0x01; 0xFF; 0x00; 0x2A]]) demo_state.
Proof.
  eapply wp_mono; [eapply (routine_control_exact demo_ok 2%N demo_cfg [0x31; 0x01; 0xFF; 0x00] 4 demo_state _ 1 0xFF 0 1 [0x2A] 1000);
    [apply demo_inv|bytes|reflexivity|cbn; lia|lia|reflexivity|reflexivity|cbn; lia]|].
  intros _ s' (evs & -> & r & _ & ->). reflexivity.
Defined.

Lemma request_download_witness :
  wp (uds_internal_handle_request_download (Some demo_cfg) [0x34; 0x00; 0x12; 0x10; 0x00; 0x40] 6)
    (fun _ s' => exists res, EvDownload 0x1000 0x40 res ∈ trace s') demo_state.
Proof.
  eapply wp_mono; [apply (request_download_exact demo_ok 2%N demo_cfg demo_state 0 2 1 0x1000 0x40 []);
    [apply demo_inv|lia|lia|lia|lia|unfold is_byte; lia|constructor|cbn; lia]|].
  intros _ s' (evs & Ht & res & evs1 & He & _). exists res. rewrite Ht, He. by left.
Defined.

(** Blocks 1, 2, a repetition, an out-of-sequence block. *)
Lemma transfer_in_order_witness :
  wp (transfer_run demo_cfg [[0x36; 1; 0xAA]; [0x36; 2; 0xBB]; [0x36; 2; 0xBB]; [0x36; 7; 0xCC]])
    (fun _ s' => uds_inv demo_ok 2%N demo_cfg s' /\ exists n evs, trace s' = [] ++ evs /\
      (n <= 4)%nat /\ accepted evs = counters 0 n /\ flash_sequence (ctx s') = u8 (0 + Z.of_nat n)) demo_state.
Proof.
  apply (transfer_in_order demo_ok 2%N demo_cfg
    [[0x36; 1; 0xAA]; [0x36; 2; 0xBB]; [0x36; 2; 0xBB]; [0x36; 7; 0xCC]] demo_state);
    [apply demo_inv|unfold is_byte; cbn; lia|].
  repeat (constructor; [split; [bytes|cbn; lia]|]). constructor.
Defined.

(** The last block again is acknowledged without a second write. *)
Lemma transfer_data_witness :
  wp (uds_internal_handle_transfer_data (Some demo_cfg) [0x36; 5; 0xAA] 3)
    (fun _ s' => sends (trace s') = [[0x76; 5]])
    (mkState (set_flash_sequence 5 demo_ctx) demo_mem 1000 []).
Proof.
  eapply wp_mono; [apply (transfer_data_exact demo_ok 2%N demo_cfg [0x36; 5; 0xAA] 3 5
    (mkState (set_flash_sequence 5 demo_ctx) demo_mem 1000 []));
    [apply demo_inv_ctx; ctx_ground|unfold is_byte; cbn; lia|bytes|cbn; lia|lia|reflexivity]|].
  intros _ s' (evs & -> & _ & r & _ & ->). reflexivity.
Defined.

Lemma read_memory_witness :
  wp (uds_internal_handle_read_memory_by_addr (Some demo_cfg) [0x23; 0x12; 0x10; 0x00; 0x02] 5)
    (fun _ s' => sends (trace s') = [[0x63; 0x77; 0x77]]) demo_state.
Proof.
  eapply wp_mono; [eapply (read_memory_exact demo_ok 2%N demo_cfg demo_state _ 2 1 0x1000 0x02 [] 0 [0x77; 0x77] 1000);
    [apply demo_inv|lia|lia|lia|lia|constructor|cbn; lia|reflexivity|reflexivity|by cbn]|].
  intros _ s' (evs & -> & evs1 & -> & r & _ & ->). reflexivity.
Defined.

Lemma write_memory_witness :
  wp (uds_internal_handle_write_memory_by_addr (Some demo_cfg) [0x3D; 0x12; 0x10; 0x00; 0x02; 0xAA; 0xBB] 7)
    (fun _ s' => exists res, EvMemWrite 0x1000 2 [0xAA; 0xBB] res ∈ trace s') demo_state.
Proof.
  eapply wp_mono; [apply (write_memory_exact demo_ok 2%N demo_cfg demo_state 2 1 0x1000 0x02 [0xAA; 0xBB]);
    [apply demo_inv|lia|lia|lia|lia|bytes|cbn; lia]|].
  intros _ s' (evs & Ht & safe & evs0 & -> & Hsafe & Hev). change (safe = true) in Hsafe. subst safe.
  destruct Hev as (res & evs1 & _ & -> & _). exists res. rewrite Ht. by left.
Defined.

Lemma parse_addr_len_witness (s := demo_state) :
  uds_internal_parse_addr_len [0x20; 0x00; 0x10; 0x00; 0x40] 5 0x14 s = Ok (Some (0x20001000, 0x40), s).
Proof.
  apply (parse_addr_len_roundtrip 4 1 0x20001000 0x40 [] 5 s); lia || (cbn; lia).
Defined.

(** ** The transport *)

(** A session request in a single frame, a first frame, a stray frame, a CAN-FD first
    frame that brings more than it announces with its consecutive frame, ticks and
    calls of the application. *)
Definition demo_traffic : list stack_op := [
  StackFrame 0x7E0 [0x02; 0x10; 0x03; 0; 0; 0; 0; 0] 8;
  StackFrame 0x7E0 [0x10; 0x14; 0x2E; 0xF1; 0x90; 1; 2; 3] 8; StackTick 7;
  StackFrame 0x7E0 [0x25; 9; 9; 9; 9; 9; 9; 9] 3;
  StackFrame 0x7E0 (0x10 :: 10 :: replicate 62 0x3E) 64; StackFrame 0x7E0 (0x21 :: replicate 63 0) 64;
  StackCall (ApiClient 0x22 [0xF1; 0x90] 2 None); StackCall ApiProcess
].

Lemma stack_safe_witness :
  wp (mfor demo_traffic (run_stack demo_client stack_cfg)) (fun _ s' =>
    uds_inv (iso_ok can_ok 128) 2%N stack_cfg s' /\ exists evs, trace s' = [] ++ evs /\
      (security_level (ctx s') <> 0 -> exists key, EvKey (security_level (ctx s')) key 0 ∈ evs)) stack_state.
Proof.
  apply (stack_safe can_ok 2%N stack_cfg demo_client 1%N eq_refl ltac:(cbn; lia) demo_traffic stack_state);
    [apply stack_inv| |reflexivity].
  repeat (constructor; [first [by apply frame_okb_ok|cbn; repeat constructor; unfold is_byte; lia]|]). constructor.
Defined.

Lemma dlc_align_witness : uds_dlc_align 21 ∈ CAN_FD_LENGTHS /\ 21 <= uds_dlc_align 21.
Proof. destruct (dlc_align_least 21 ltac:(lia)) as (H1 & H2 & _). by split. Defined.

(** A 20-byte response on classic CAN: a first frame and two consecutive. *)
Definition demo_sdu : list Z := seqZ 1 20.
Definition demo_tx_state : uds_state (iso_env Z) :=
  mkState demo_ctx demo_mem (set_iso (set_use_can_fd 0) stack_env) [].

Lemma tx_prefix_witness :
  wp (call (uds_isotp_send demo_ctx demo_sdu 20) ;;
      mfor [OpTick 1; OpFc [0x30; 1; 5]; OpTick 9; OpTick 20; OpFc [0x31; 0; 0]; OpTick 30] run_tx_op)
    (fun _ s' => exists k, frames (env s') = map (pair 0x7E8) (take k (segment false demo_sdu))) demo_tx_state.
Proof.
  eapply wp_mono; [apply (tx_prefix can_ok demo_ctx demo_sdu 20
    [OpTick 1; OpFc [0x30; 1; 5]; OpTick 9; OpTick 20; OpFc [0x31; 0; 0]; OpTick 30] demo_tx_state);
    [apply stack_ready|by vm_compute|done|repeat constructor]|].
  intros _ s' (k & Hf & _). exists k. exact Hf.
Defined.

Lemma tx_completes_witness :
  wp (call (uds_isotp_send demo_ctx demo_sdu 20) ;; run_tx_op (OpFc [0x30; 0; 0]) ;;
      mfor (map OpTick [3; 4]) run_tx_op)
    (fun _ s' => iso_state (g_isotp_ctx (env s')) = ISOTP_IDLE /\
       map snd (frames (env s')) = [[0x10; 20; 1; 2; 3; 4; 5; 6]; [0x21; 7; 8; 9; 10; 11; 12; 13];
                                    [0x22; 14; 15; 16; 17; 18; 19; 20]]) demo_tx_state.
Proof.
  eapply wp_mono; [apply (tx_completes can_ok demo_ctx demo_sdu 20 [3; 4] demo_tx_state);
    [apply stack_ready|by vm_compute|done|vm_compute; lia]|].
  intros _ s' [Hs ->]. split; [done|]. reflexivity.
Defined.

(** The transmitter of [demo_sdu] after a flow-control frame allowing one block. *)
Definition demo_sending : iso_env Z :=
  mkIsoEnv (set_block_size 1 (set_iso_state ISOTP_TX_SENDING_CF (ff_sent 20 stack_iso)))
    (demo_sdu ++ replicate 1004 0) 20 1000 [(0x7E8, ff_frame false demo_sdu)].

Lemma demo_sending_inv :
  tx_inv can_ok (fun r => r = 0) 0x7E8 false demo_sdu [] demo_sending.
Proof.
  split; [by exists demo_driver; split; [|apply demo_driver_ok]|done|done|done| |done|by right; left|].
  - split; vm_compute; intuition congruence.
  - exists [ff_frame false demo_sdu]. split; reflexivity.
Qed.

Lemma block_size_respected_witness :
  wp (mfor (map OpTick [1; 2; 3; 4]) run_tx_op)
    (fun _ s' => Z.of_nat (length (frames (env s'))) <= 2) (mkState demo_ctx demo_mem demo_sending []).
Proof.
  apply (block_size_respected can_ok 0x7E8 false demo_sdu [] [1; 2; 3; 4] (mkState demo_ctx demo_mem demo_sending []));
    [apply demo_sending_inv|reflexivity|cbn; lia|cbn; lia].
Defined.

(** The three frames of [demo_sdu], received by the same stack. *)
Lemma reassembly_witness :
  exists buf s1, take 20 buf = demo_sdu /\
    frames (env s1) = [(0x7E8, [0x30; 8; 0; 0; 0; 0; 0; 0])] /\
    forall r, uds_input_sdu demo_client (Some stack_cfg) (Some buf) 20 s1 = Ok r ->
      rx_frames demo_client stack_cfg 0x7E0 (segment false demo_sdu) stack_state = Ok r.
Proof.
  destruct (reassembly can_ok (fun r => r = 0) stack_cfg demo_client 1%N eq_refl false demo_sdu stack_state
    (replicate 128 0)) as (buf & s1 & Hb & _ & _ & _ & Hf & Hr).
  - reflexivity.
  - reflexivity.
  - exists demo_driver. split; [done|]. by apply demo_driver_ok.
  - done.
  - vm_compute. intuition congruence.
  - reflexivity.
  - by exists buf, s1.
Defined.

(** A 20-byte message in three frames with a stranger's frame between them, a frame out
    of sequence, and a single frame. *)
Definition demo_bus : list bus_frame :=
  match map (fun d => (0x7E0, d, 8)) (segment false demo_sdu) with
  | f :: fs => f :: (0x123, replicate 8 0x21, 8) :: fs
  | [] => []
  end ++ [(0x7E0, [0x25; 9; 9; 9; 9; 9; 9; 9], 8); (0x7E0, [0x02; 0x3E; 0; 0; 0; 0; 0; 0], 8)].

Lemma rx_refines_witness :
  wp (mfor demo_bus (fun '(id, data, len) => uds_isotp_rx_callback demo_client (Some stack_cfg) id data len))
    (fun _ s' => uds_inv (iso_ok can_ok 128) 2%N stack_cfg s' /\ reception_of 1%N s' = None /\
       rx_does stack_cfg demo_client 1%N
         [RxFlow; RxNothing; RxNothing; RxSdu demo_sdu; RxNothing; RxSdu [0x3E; 0]] stack_state s') stack_state.
Proof.
  pose proof (rx_refines can_ok 2%N stack_cfg 0x7E0 demo_client 1%N eq_refl ltac:(cbn; lia) demo_bus stack_state
    stack_inv eq_refl) as H.
  assert (E : rx_run (rx_buffer_size stack_cfg) (reception_of 1%N stack_state) (bus_units 0x7E0 demo_bus) =
    (None, [RxFlow; RxNothing; RxNothing; RxSdu demo_sdu; RxNothing; RxSdu [0x3E; 0]])) by by vm_compute.
  rewrite E in H. apply H. repeat (constructor; [by apply frame_okb_ok|]). constructor.
Defined.

(** The receive buffer one byte too short. *)
Definition short_cfg : uds_config (iso_env Z) := mkConfig 0 None None None 0 0 None None None None
  (Some 1%N) 124 (Some 2%N) 64 false 0 0 0 0 false (mkDidTable [] 0) None 0 None None None None None None None
  None None None None None None None None 0%N None None 0 0.
Definition short_state : uds_state (iso_env Z) :=
  mkState demo_ctx {[1%N := replicate 124 0]} stack_env [].

Lemma short_rx_buffer_witness :
  (uds_isotp_rx_callback demo_client (Some short_cfg) 0x7E0 (0x10 :: 8 :: replicate 62 0) 64 ;;
   uds_isotp_rx_callback demo_client (Some short_cfg) 0x7E0 (0x21 :: replicate 63 0) 64) short_state =
  Fault OutOfBounds.
Proof.
  apply (short_rx_buffer_overflow can_ok (fun r => r = 0) short_cfg demo_client 1%N eq_refl
    (replicate 62 0) (replicate 63 0) demo_driver (replicate 124 0) short_state); try reflexivity.
  - cbn. lia.
  - by apply demo_driver_ok.
Defined.

(** A CAN-FD first frame of 64 bytes into a receive buffer of 32. *)
Definition small_cfg : uds_config (iso_env Z) := mkConfig 0 None None None 0 0 None None None None
  (Some 1%N) 32 (Some 2%N) 64 false 0 0 0 0 false (mkDidTable [] 0) None 0 None None None None None None None
  None None None None None None None None 0%N None None 0 0.
Definition small_state : uds_state (iso_env Z) :=
  mkState demo_ctx {[1%N := replicate 32 0]} stack_env [].

Lemma rx_ff_overflow_witness :
  uds_isotp_rx_callback demo_client (Some small_cfg) 0x7E0 (0x10 :: 20 :: replicate 62 0) 64 small_state =
    Fault OutOfBounds.
Proof.
  apply (rx_ff_overflow small_cfg demo_client 1%N eq_refl (0x10 :: 20 :: replicate 62 0) 20 small_state (replicate 32 0));
    (reflexivity || (cbn; lia)).
Defined.

(** ** Two nodes on a bus

    A tester and an ECU on one bus: the same stack, the identifiers crossed. The
    ECU announces blocks of [bs]. *)
Ltac ground :=
  first [reflexivity|apply Nat.ltb_lt; reflexivity|apply Nat.leb_le; reflexivity|vm_compute; intuition congruence].

Definition node_state (tx rx bs : Z) : uds_state (iso_env Z) :=
  set_env (set_iso (fun _ => mkIso (Some demo_driver) tx rx bs 0 0 ISOTP_IDLE 0 0 0 0 0 0 0 8) stack_env) stack_state.
Definition demo_link (bs : Z) : link Z Z := mkLink (node_state 0x7E0 0x7E8 8) (node_state 0x7E8 0x7E0 bs) 0 0.

Lemma node_inv tx rx bs : uds_inv (iso_ok can_ok (rx_buffer_size stack_cfg)) 2%N stack_cfg (node_state tx rx bs).
Proof.
  apply app_inv; [apply demo_ctx_ok|]. split; [|done|apply length_replicate|].
  - exists demo_driver. split; [done|]. by apply demo_driver_ok.
  - by apply iso_ctx_idle.
Qed.

Lemma demo_link_ready bs : link_ready can_ok can_ok 2%N stack_cfg (demo_link bs).
Proof.
  split; try reflexivity; [|apply node_inv]. split; [|done|apply length_replicate].
  exists demo_driver. split; [done|]. by apply demo_driver_ok.
Qed.

Lemma demo_sdu_bytes : Forall is_byte demo_sdu.
Proof. apply Forall_forall. intros b Hb. unfold is_byte. revert b Hb. apply Forall_forall. vm_compute. repeat constructor; intuition congruence. Qed.

Lemma link_exact_witness :
  wp (link_send stack_cfg stack_cfg demo_client demo_client demo_ctx demo_sdu 20 3
        [LTick 5; LToB; LToA; LTick 7; LToB])
    (fun r l => match r with
      | None => (got_b l < 3)%nat /\ trace (lk_b l) = []
      | Some _ => sdu_delivered stack_cfg demo_client (node_state 0x7E8 0x7E0 8) demo_sdu (lk_b l)
      end) (demo_link 8).
Proof.
  eapply wp_mono; [apply (link_exact can_ok can_ok 2%N stack_cfg stack_cfg demo_client demo_client 1%N eq_refl
    (demo_link 8) (demo_link_ready 8) demo_sdu demo_sdu_bytes); ground|].
  intros [[]|] l; [done|]. by intros (H & _ & ->).
Defined.

(** The ECU announces no limit. *)
Lemma link_delivers_witness :
  wp (link_send stack_cfg stack_cfg demo_client demo_client demo_ctx demo_sdu 20 3
        [LToB; LToA; LTick 5; LToB; LTick 6; LToB])
    (fun r l => r = Some tt /\
       sdu_delivered stack_cfg demo_client (node_state 0x7E8 0x7E0 0) demo_sdu (lk_b l)) (demo_link 0).
Proof.
  apply (link_delivers can_ok can_ok 2%N stack_cfg stack_cfg demo_client demo_client 1%N eq_refl
    (demo_link 0) (demo_link_ready 0) demo_sdu demo_sdu_bytes) with (ts := [5; 6]); ground.
Defined.

(** Nine consecutive frames into blocks of the default eight. *)
Definition long_sdu : list Z := replicate 64 0x55.

Lemma link_block_stall_witness :
  wp (link_send stack_cfg stack_cfg demo_client demo_client demo_ctx long_sdu 64 10
        ([LToB; LToA] ++ flat_map (fun t => [LTick t; LToB; LToA]) (seqZ 0 50)))
    (fun r l => r = None /\ Z.of_nat (got_b l) <= 9 /\ trace (lk_b l) = []) (demo_link 8).
Proof.
  eapply wp_mono; [apply (link_block_stall can_ok can_ok 2%N stack_cfg stack_cfg demo_client demo_client 1%N eq_refl
    (demo_link 8) (demo_link_ready 8) long_sdu);
    first [by apply Forall_replicate|reflexivity|ground]|].
  intros r l (-> & Hle & _ & ->). done.
Defined.

(** A frame of length 0 while twenty bytes are expected. *)
Definition waiting_state : uds_state (iso_env Z) :=
  set_env (set_iso (fun i => receiving 20 6 1 i) stack_env) stack_state.

Lemma rx_cf_empty_overflow_witness :
  uds_isotp_rx_callback demo_client (Some stack_cfg) 0x7E0 (0x21 :: replicate 7 0) 0 waiting_state = Fault OutOfBounds.
Proof.
  apply (rx_cf_empty_overflow stack_cfg demo_client (0x21 :: replicate 7 0) waiting_state);
    (reflexivity || (cbn; lia)).
Defined.

(** ** The remaining services *)

Lemma read_dtc_witness :
  wp (uds_internal_handle_read_dtc_info (Some demo_cfg) [0x19; 0x02; 0xFF] 3)
    (fun _ s' => sends (trace s') = [[0x59; 0x02; 0x2F]]) demo_state.
Proof.
  eapply wp_mono; [eapply (read_dtc_exact demo_ok 2%N demo_cfg [0x19; 0x02; 0xFF] 3 demo_state _ 0x02 1 [0x2F] 1000);
    [apply demo_inv|bytes|reflexivity|cbn; lia|reflexivity|reflexivity|cbn; lia]|].
  intros _ s' (evs & -> & H). destruct H as (evs1 & -> & r & _ & ->). reflexivity.
Defined.

Lemma io_control_witness :
  wp (uds_internal_handle_io_control (Some demo_cfg) [0x2F; 0xF1; 0x90; 0x03] 4)
    (fun _ s' => sends (trace s') = [[0x6F; 0xF1; 0x90; 0x55]]) demo_state.
Proof.
  eapply wp_mono; [eapply (io_control_exact demo_ok 2%N demo_cfg [0x2F; 0xF1; 0x90; 0x03] 4 demo_state _ 0xF1 0x90 3 1 [0x55] 1000);
    [apply demo_inv|bytes|reflexivity|cbn; lia|lia|reflexivity|reflexivity|cbn; lia]|].
  intros _ s' (evs & -> & H). destruct H as (evs1 & -> & r & _ & ->). reflexivity.
Defined.
