(* ===== verification/DeployWitness.v ===== *)
(** * Witnesses of the example programs' theorems *)

From S2P Require Import Prelude Monad Types Machine CoreBase Contract HandlerLogic.
From S2P Require Import Core CoreDispatch CoreProcess CoreApi CoreInit.
From S2P Require Import IsoTp IsoTpTx IsoTpRx IsoTpLink HostSim Deploy Vcan Zephyr ZephyrCan Demo.
From stdpp Require Import base gmap list strings numbers relations.

Open Scope Z_scope.

(** ** The host simulator *)

Definition host_quiet : host_env := mkHost 0 0 (replicate 1024 0) (-1) [].

Lemma host_memory_witness :
  wp (host_mem_write demo_ctx 1020 4 [1; 2; 3; 4] ;; host_mem_read demo_ctx 1020 4)
    (fun p _ => p = (0, [1; 2; 3; 4])) host_quiet.
Proof.
  eapply wp_mono; [apply (host_memory demo_ctx 1020 [1; 2; 3; 4] host_quiet);
    [apply length_replicate|lia|cbn; lia]|].
  by intros p h' [-> _].
Defined.

Lemma host_mem_read_wraps_witness : host_mem_read demo_ctx 0xFFFFFFFF 2 host_quiet = Fault OutOfBounds.
Proof. apply (host_mem_read_wraps demo_ctx 0xFFFFFFFF 2 host_quiet); [apply length_replicate|lia|lia|lia]. Defined.

(** ** The Zephyr server *)

Lemma native_transport_witness :
  wp (uds_zephyr_isotp_send (scripted_kernel []) demo_ctx [0x50; 0x03] 2) (fun r e' => r = 0 /\ g_isotp_fd e' = 3)
    (mkNative 3 1000).
Proof.
  destruct (native_transport (fun _ => True) (scripted_kernel []) (mkNative 3 1000) I) as (_ & H & _).
  eapply wp_mono; [apply (H demo_ctx [0x50; 0x03])|]. intros r e' (_ & -> & n & Hn & ->).
  injection Hn as <- _. done.
Defined.

Lemma zephyr_server_null_call_witness : native_run [0x2A; 0x01; 0xF2] = Fault NullDeref.
Proof. apply (zephyr_server_null_call 1 0xF2); lia. Defined.

Lemma host_remote_fault_witness :
  host_first_packet 1 [0x07; 0x23; 0x14; 0xFF; 0xFF; 0xFF; 0xFF; 0x02] 8 = Fault OutOfBounds.
Proof. apply (host_remote_fault 1 2); lia. Defined.

(** *** On the fallback transport *)

Definition any_os (o : Z) : Prop := True.
Definition bus_kernel : zephyr_api Z := scripted_kernel [].

(** A request in two frames and two short ones, with the loop turning in between. *)
Definition bus_ops : list server_op := [
  DriverFrame (mkFrame 0x7E0 8 [0x10; 0x09; 0x22; 0xF1; 0x90; 0x01; 0x23; 0xF1]); LoopTurn;
  DriverFrame (mkFrame 0x7E0 4 [0x21; 0x90; 0x01; 0x23; 0; 0; 0; 0]); LoopTurn;
  DriverFrame (mkFrame 0x123 8 (replicate 8 0xFF));
  DriverFrame (mkFrame 0x7E0 0 [0x02; 0x3E; 0x00; 0; 0; 0; 0; 0]); LoopTurn;
  DriverFrame (mkFrame 0x7E0 3 [0x02; 0x3E; 0x00; 0; 0; 0; 0; 0]); LoopTurn
].

#[export] Instance bus_client_ok :
  ClientOk (iso_ok (zcan_ok any_os) 4096) zephyr_tx_buf (fallback_cfg bus_kernel) no_client.
Proof. intros cb sd payload n s Hi. by apply wp_ret. Qed.

Lemma power_up_mem {O} (z : zephyr_api O) : mem_ok zephyr_tx_buf (fallback_cfg z) (mem fallback_power_up).
Proof.
  assert (Hz : Forall is_byte (replicate 4096 0)) by (apply Forall_replicate; unfold is_byte; lia).
  split; [|done|].
  - exists (replicate 4096 0). rewrite length_replicate. split; [|done].
    unfold fallback_power_up, mem. by rewrite lookup_insert_ne, lookup_singleton_eq.
  - intros rb [= <-]. split; [done|]. split; [done|]. exists (replicate 4096 0). rewrite length_replicate.
    split; [apply lookup_insert_eq|done].
Qed.

Lemma fallback_safe_witness :
  exists s', fallback_main bus_kernel no_client bus_ops fallback_power_up = Ok (0, s') /\
    uds_inv (iso_ok (zcan_ok any_os) 4096) zephyr_tx_buf (fallback_cfg bus_kernel) s'.
Proof.
  pose proof (fallback_safe any_os bus_kernel no_client bus_ops zero_ctx (mem fallback_power_up)
    (env fallback_power_up) []) as H.
  assert (Hrun : match fallback_main bus_kernel no_client bus_ops fallback_power_up with
    | Ok (r, _) => r = 0 | Fault _ => False end) by by vm_compute.
  change (mkState zero_ctx (mem fallback_power_up) (env fallback_power_up) []) with fallback_power_up in H.
  destruct (fallback_main bus_kernel no_client bus_ops fallback_power_up) as [[r s']|f]; [|done]. exists s'.
  destruct H as [[Hr _]|(-> & Hi & _)]; [..|congruence|done].
  - apply power_up_mem.
  - done.
  - reflexivity.
  - repeat constructor; cbn; unfold is_byte; lia.
Defined.

(** The same first frame before [uds_init]. *)
Lemma early_frame_witness :
  early_frame bus_kernel demo_client 0x7E0 0x7E8 (mkFrame 0x7E0 8 [0x10; 0x09; 0x22; 0xF1; 0x90; 0x01; 0x23; 0xF1])
    fallback_power_up = Fault NullDeref.
Proof.
  pose proof (early_frame_fault bus_kernel demo_client 0x7E0 0x7E8 8 0x10 0x09 [0x22; 0xF1; 0x90; 0x01; 0x23; 0xF1]
    fallback_power_up 1000 0 1000 eq_refl eq_refl) as H.
  destruct (early_frame _ _ _ _ _ _) as [[[] s']|f].
  - destruct H as [H _]; [unfold is_byte; lia..|cbn; lia|lia|]. destruct H. split; [done|]. vm_compute. congruence.
  - destruct H as [-> _]; [unfold is_byte; lia..|cbn; lia|lia|done].
Defined.

(** ** Virtual CAN *)

Definition stale (k : nat) : list Z := replicate 69 (Z.of_nat k).

Lemma demo_over_udp_witness :
  wp (client_main no_callback ["client_demo"; "127.0.0.1"; "5000"; "0"]%string (client_turns stale (replicate 69 0xCC) false))
    (fun r s => r = Some 0 /\ client_sent (can (env s)) = packets (client_frames false)) client_power_up.
Proof.
  eapply wp_mono; [apply (proj2 (demo_over_udp stale (fun k => length_replicate _ _) (replicate 69 0xCC) false))|].
  by intros r s (-> & -> & _).
Defined.

Lemma vcan_overread_witness :
  host_main no_callback (mkNet 4 (fun _ _ => 0)) ["host_sim"]
    [mkTurn 100 0 [] (Some (vcan_bytes (mkVcan 0x7E0 (0x10 :: 0x08 :: replicate 62 0) 255)))] host_power_up =
  Fault OutOfBounds.
Proof.
  apply (vcan_overread no_callback (mkNet 4 (fun _ _ => 0)) ["host_sim"] _ [] 255 0x10 0x08 (replicate 62 0));
    (reflexivity || (vm_compute; intuition congruence)).
Defined.

Lemma vcan_roundtrip_witness :
  vcan_received [] (Some (vcan_sent (stale 7) (0x7E8, [0x02; 0x7E; 0x00], 3))) =
    Some (0x7E8, [0x02; 0x7E; 0x00] ++ replicate 61 7, 3).
Proof.
  destruct (vcan_roundtrip (stale 7) [] 0x7E8 [0x02; 0x7E; 0x00] host_quiet (mkClient 0 0 [])) as (_ & _ & _ & H);
    [reflexivity|done|cbn; lia|].
  etransitivity; [exact H|reflexivity].
Defined.

Lemma client_gives_up_witness :
  wp (client_main no_callback ["client_demo"] [mkTurn 0 5000000 [] None; mkTurn 1 0 [] None; mkTurn 1 500000000 [] None; mkTurn 2 0 [] None])
    (fun r s => r = Some 0 /\ trace s = [EvSend [0x10; 0x03] 0; EvSend [0x22; 0xF1; 0x90] 0]) client_power_up.
Proof.
  eapply wp_mono; [apply (client_gives_up no_callback ["client_demo"] [mkTurn 0 5000000 [] None] (mkTurn 1 0 [] None)
    [mkTurn 1 500000000 [] None] (mkTurn 2 0 [] None) [])|].
  - repeat constructor.
  - vm_compute. congruence.
  - repeat constructor.
  - vm_compute. congruence.
  - by intros r s (-> & -> & _).
Defined.
